(* ===== verification/_CoqProject ===== *)
-Q . S2P
Prelude.v
GoStr.v
GoNet.v
GoURL.v
Karp.v
IPAllocator.v
Hub.v
Proto.v
Store.v
Helper.v
DB.v
Server.v
UserData.v
NebiusResource.v
NebiusInstance.v
NebiusNetwork.v
InstanceTypes.v
V1alpha1.v
NebiusProvider.v
Kaito.v
Controllers.v
Script.v
Encoding.v
Config.v
K8s.v
Kubeadm.v
Aws.v
Azure.v
WireGuard.v
Deploy.v
ConfigCmd.v
KarpenterValues.v
PluginCmd.v
Main.v
EndToEnd.v
Concurrent.v
Races.v
DeepCopy.v
Manager.v
Commands.v
Faults.v
Restart.v
Options.v
Recovery.v
Refresh.v
Plugin.v
