(* ===== verification/Prelude.v ===== *)
(** * Verification of aks-flex

    aks-flex joins machines of other clouds to an Azure Kubernetes cluster.  It
    has three programs' worth of code, under [src/].

    - [plugin/]: a gRPC plugin that creates agent pools, networks and peerings
      on AWS, Azure and Nebius.  It runs inside its callers, over an in-memory
      connection, and keeps its objects in files or in Kubernetes Secrets.
    - [karpenter/]: a Karpenter controller.  A hub sends each node claim to the
      provider of its node class; the Nebius and Kaito providers turn claims
      into agent pools of the plugin, with a WireGuard address for each node.
    - [cli/]: the command line: deployment of the cluster, generation of
      configuration, and [plugin apply], [get] and [delete].

    ** Conventions

    A Go function is a Rocq function of the same name, in the monad [M W] of a
    state [W] and the results [res]: [Ok], [Err] with an error value that keeps
    the [fmt.Errorf] call that made it, and [Panic].  Panics are results, so
    that nil dereferences, failed assertions and indices out of range are part
    of what is proved.  Messages are records of optional fields with the
    nil-safe getters of the generated code.  Machine integers are [Z] with the
    wrap-around written out; strings are byte strings.  What the program calls
    and does not contain (cloud SDKs, the Kubernetes API, protobuf, JSON, YAML
    and template engines, processes, clocks and random sources) is a parameter,
    grouped in a record or a class; the laws a theorem relies on are a class of
    their own ([...Laws]), and a concrete instance in a module named [Mem] or
    the like shows in a witness that they can hold.  Logging, progress output,
    contexts and their cancellation are left out.

    ** Files

    Foundations, of Go's standard library as far as the program uses it:
    [Prelude] (errors, results, the state monad, lists, integers, sorting),
    [GoStr] ([strings], [strconv]), [GoNet] ([net]: addresses and blocks),
    [GoURL] ([net/url]), [Encoding] ([hex], [base64], [sha256]), [Karp] (the
    objects of Kubernetes and Karpenter).

    The plugin.
    - [Proto]: the messages of [plugin/api] and of the services.
    - [Store]: [plugin/pkg/db/filestore.go] and [secretstore.go], a byte store
      in a locked file and in the chunks of Kubernetes Secrets.
    - [DB]: [plugin/pkg/db/db.go], a database of objects over any store; its
      contract is the class [DBLaws], proved of [StupidDB] from [StoreLaws].
    - [Helper], [Server]: [plugin/pkg/helper], [plugin/pkg/server] and
      [plugin/pkg/services], the aggregating server that dispatches on the type
      of an object and stores what the back end answers.
    - [UserData]: cloud-init and the user data of nodes.
    - [NebiusResource], [NebiusInstance], [NebiusNetwork]: [plugin/pkg/util/nebius]
      and the Nebius back ends; [Aws], [Azure]: those of the other clouds.
    - [Config], [K8s], [Kubeadm], [WireGuard]: [plugin/pkg/util], the
      configuration from the environment, kubeconfigs and manifests, the
      kubeadm configuration of joining nodes, and WireGuard files and keys.

    The controller.
    - [IPAllocator]: [karpenter/pkg/utils/wireguard], the addresses of peers.
    - [Hub]: [karpenter/pkg/cloudproviders/hub.go].
    - [InstanceTypes]: [nebius/instancetype], presets, prices, offerings and the
      cache of instance types; [V1alpha1]: the node class.
    - [NebiusProvider], [Kaito]: the two cloud providers.
    - [Controllers]: the reconcilers of [karpenter/pkg/controllers]; [Manager]:
      what they are registered for, and the queue of the termination controller
      as a step relation; [DeepCopy]: the generated copies of the node classes,
      over a heap.
    - [Main]: [karpenter/cmd/controller/main.go] and the options it reads;
      [Options]: the flags of [karpenter/pkg/options] and how they get there.

    The command line.
    - [Script]: [config node-bootstrap], user data as a shell script.
    - [Kubeadm] also has [config k8s-bootstrap] and the Kubernetes part of
      [aks deploy]; [Deploy] has the rest of [aks deploy] and [network deploy].
    - [ConfigCmd]: the other [config] commands; [KarpenterValues]:
      [config karpenter helm].
    - [PluginCmd]: [cli/internal/plugin] and [plugin/pkg/client].
    - [Commands]: [cli/main.go] and the tree of commands, with their flags.

    Compositions of the above.
    - [EndToEnd]: a node claim from the hub through the provider, the client, the
      service and its back end to the cloud, and into the database.
    - [Concurrent]: requests on a database as threads, with its mutex; [Races]:
      calls of a service as threads over a database and a cloud.
    - [Faults]: writes of both stores that fail part of the way; [Restart]:
      addresses across restarts of the controller; [Recovery]: a service that is
      killed at any of its calls, and the requests that are sent again.
    - [Refresh]: the background refresh of the instance types beside requests.
    - [Plugin]: the services of one process with the back ends of all clouds.

    ** Interaction and interfaces

    A node claim goes from [Hub] to a provider, which asks [IPAllocator] and
    [InstanceTypes] and calls the agent pool service through [Helper]; the
    service is [Server] over [DB] over [Store], with [NebiusInstance] over
    [NebiusResource] behind it.  Each layer is proved against the class of the
    one below: [StoreLaws] and [SecretsLaws], [DBLaws], [ServiceLaws] of a cloud
    service with [ServiceFrame] for what it leaves alone, [ProtoLaws] of the
    protobuf runtime, [SchedulingLaws] and [LRULaws] of Karpenter and its cache,
    [NodeClassLaws] of the Kubernetes client, [OSLaws], [ClientcmdLaws] and
    [KubeLaws] of files, kubeconfigs and the cluster, [CloudFormationLaws],
    [VMSSLaws] and [NetLaws] of AWS and Azure, [TempLaws] of temporary files,
    [Runtime] and [Cluster] of the controller runtime, [Cobra] and [Injection]
    of the command lines, [Refs] of values with pointers.  [EndToEnd] puts the
    layers together: its world is a pair of a cloud and a database, and the laws
    of each carry over to the pair.

    ** What the theorems show

    - Safety of shared state: no two live instances of a node class have one
      address in any reachable state of a process; databases refine finite maps,
      in files and in Secrets; caches are never emptied by a failed refresh; one
      start of the services per process, whose requests reach no cloud and no
      database but their own; keys and tokens stay the same from one deployment
      to the next.
    - The whole path: a claim created through the hub has one disk, one instance
      and a stored pool, is found, and when it is deleted leaves nothing in the
      cloud and the database.
    - Concurrency: the methods of a database are linearizable and end; the
      refresh and the requests keep the cache sound, and the refresh ends when it
      is stopped; what two processes or two calls that interleave can lose.
    - Failures: which writes are atomic and which lose what was stored.  A
      creation or deletion that is killed anywhere, any number of times, and let
      run in the end does exactly what an undisturbed one does ([Recovery] has a
      logic of runs that may be cut off: what a run is left with when the process
      dies in a call, before the call is carried out or after).
    - Wake-ups: no class that waits for its claims is forgotten.
    - Back ends: creating is idempotent and ends with the resources desired, a
      failure in the middle removes what it made, deleting what was created
      restores the cloud, with the error of each branch.
    - Selection: the cheapest offering that meets a claim is chosen, and an
      address among exactly the free ones.
    - Round trips and refinements of generated text against a reader of its
      format: the bootstrap script against a shell, the environment file against
      its sourcing, WireGuard files, Helm values, kubeconfigs, base64.
    - Flows: a deployment is the run of a plan of steps; nodes join what was
      deployed; what is applied is what [get] prints; the controller closes what
      it opened however it ends.
    - Copies: the generated deep copies share no cell with their originals.
    - Behaviour the code did not mean: a finalizer never stored, a Kaito pool
      always refused, eleven chunks misread, panics on ids without a slash, lost
      updates, orphaned instances, a truncated database, addresses repeated after
      a restart, claims of other node classes that hold a class back, resources
      no deletion finds after a crash, retries that keep the plan of the first try,
      an instance whose boot disk is deleted because one poll failed.

    ** Fuel and bounds

    Recursion that is not structural takes fuel that is shown to be enough: the
    offset loop of [AllocateRandomIP] takes the size of the range plus one; the
    loop over chunks takes as many steps as there are chunks, and the deletion
    of stale ones any fuel from the number of chunks on; [pickDelimiter] takes
    the length of the content, since a longer delimiter cannot occur in it;
    [print_nat] the bit length of the number; [wait_gateway] any fuel above the
    number of failed polls, so that its theorem is about the loop without bound.
    Threads run by schedules: a run of [n] requests on a database has at most
    [4 * n] steps, and every schedule that cannot be extended has them all
    finished.

    ** Not modelled

    The reflection of generated code and of [resource.go]'s method lookup; help
    texts and the parsing of command lines, which is cobra's or the framework's;
    the embedded ARM, CloudFormation and Helm templates, passed on unread; the
    Karpenter operator and the AKS provider, third-party, which [Main] takes as
    parameters, and with them the controllers that call the hub; the time between
    two steps; the construction of API clients, which do nothing before they are
    called.  A slice in [DeepCopy] is its whole backing array.  In [Manager] a
    reconciliation is one step on the current object, not on a cached one; the
    clean-up goroutine of a failed creation is a step of its own.  In [Recovery]
    a call of the database is carried out or not at all: [Faults] shows that of
    a Secret of one chunk, and that the file store can lose its objects instead;
    a change the cloud accepted is seen at the restart or never. *)
From Stdlib Require Export ZArith Ascii String.
From stdpp Require Export base gmap strings list list_numbers fin_maps fin_sets sorting.
From stdpp Require Import options.

Open Scope string_scope.
Open Scope list_scope.
Open Scope Z_scope.

(** ** Go errors

    An [error] value is kept as the constructor call that made it: the format
    string of [fmt.Errorf] with its printed arguments and the errors it wraps
    with [%w].  [ErrExt] is an error made by code outside this repository. *)

(** The gRPC status codes this repository names, and the others. *)
Inductive Code :=
| InvalidArgument
| NotFound
| Unimplemented
| AlreadyExists
| OtherCode (n : nat).

#[global] Instance Code_eq_dec : EqDecision Code.
Proof. solve_decision. Defined.

Inductive error : Type :=
| Errorf (fmt : string) (args : list string) (wrapped : list error)
| ErrJoin (es : list error)
| ErrStatus (c : Code) (msg : string)
| ErrInsufficientCapacity (e : error)
| ErrNodeClaimNotFound (e : error)
| ErrTerminatingResource (group resource name : string)
| ErrK8sNotFound (what : string)
| ErrK8sConflict (what : string)
| ErrExt (what : string).

(** [errors.New msg]. *)
Definition errors_New (msg : string) : error := Errorf msg [] [].

(** [errors.Join]: nil for no error. *)
Definition errors_Join (es : list error) : option error :=
  match es with [] => None | _ => Some (ErrJoin es) end.

(** ** Outcomes

    A Go call returns a value, returns a non-nil error, or panics. *)
Inductive res (A : Type) : Type :=
| Ok (a : A)
| Err (e : error)
| Panic (why : string).
Arguments Ok {A} a.
Arguments Err {A} e.
Arguments Panic {A} why.

#[global] Instance res_ret : MRet res := @Ok.
#[global] Instance res_bind : MBind res := λ A B f m,
  match m with Ok a => f a | Err e => Err e | Panic w => Panic w end.
#[global] Instance res_fmap : FMap res := λ A B f m,
  match m with Ok a => Ok (f a) | Err e => Err e | Panic w => Panic w end.

Definition is_Ok {A} (r : res A) : bool :=
  match r with Ok _ => true | _ => false end.
Definition is_Err {A} (r : res A) : bool :=
  match r with Err _ => true | _ => false end.

(** ** Stateful calls

    [M W A] is a Go call that reads and writes a world [W].  The world reached
    before an error or a panic is kept: effects are not rolled back. *)
Definition M (W A : Type) : Type := W → res A * W.

Section monad.
Context {W : Type}.

#[global] Instance M_ret : MRet (M W) := λ A a w, (Ok a, w).
#[global] Instance M_bind : MBind (M W) := λ A B f m w,
  match m w with
  | (Ok a, w') => f a w'
  | (Err e, w') => (Err e, w')
  | (Panic p, w') => (Panic p, w')
  end.

Definition lift {A} (r : res A) : M W A := λ w, (r, w).
Definition fail {A} (e : error) : M W A := λ w, (Err e, w).
Definition panic {A} (p : string) : M W A := λ w, (Panic p, w).
Definition get_world : M W W := λ w, (Ok w, w).
Definition put_world (w : W) : M W () := λ _, (Ok (), w).
Definition modify (f : W → W) : M W () := λ w, (Ok (), f w).
Definition gets {A} (f : W → A) : M W A := λ w, (Ok (f w), w).

(** [v, err := c]: the caller inspects the error itself; panics go through. *)
Definition attempt {A} (c : M W A) : M W (error + A) := λ w,
  match c w with
  | (Ok a, w') => (Ok (inr a), w')
  | (Err e, w') => (Ok (inl e), w')
  | (Panic p, w') => (Panic p, w')
  end.

(** A [for ... range] loop that stops at the first error. *)
Fixpoint for_each {A} (f : A → M W ()) (l : list A) : M W () :=
  match l with
  | [] => mret ()
  | x :: l => f x ≫= λ _, for_each f l
  end.

(** A loop that appends a result per element, stopping at the first error. *)
Fixpoint traverse {A B} (f : A → M W B) (l : list A) : M W (list B) :=
  match l with
  | [] => mret []
  | x :: l => f x ≫= λ y, traverse f l ≫= λ ys, mret (y :: ys)
  end.
End monad.

(** Wrapping of the error of a call, [fmt.Errorf(fmt, args, err)]. *)
Definition wrapf {W A} (fmt : string) (args : list string) (c : M W A) : M W A := λ w,
  match c w with
  | (Err e, w') => (Err (Errorf fmt args [e]), w')
  | r => r
  end.

(** [if err := ...; err != nil { panic(err) }]. *)
Definition must {W A} (c : M W A) : M W A := λ w,
  match c w with
  | (Err _, w') => (Panic "panic(err)", w')
  | r => r
  end.

(** Run a computation on a component [L] of a bigger world. *)
Definition zoom {W L A} (g : W → L) (s : L → W → W) (c : M L A) : M W A := λ w,
  let '(r, l) := c (g w) in (r, s l w).

Lemma M_bind_Ok {W A B} (m : M W A) (f : A → M W B) w a w' :
  m w = (Ok a, w') → (m ≫= f) w = f a w'.
Proof. unfold mbind, M_bind. by intros ->. Qed.

Lemma M_bind_Err {W A B} (m : M W A) (f : A → M W B) w e w' :
  m w = (Err e, w') → (m ≫= f) w = (Err e, w').
Proof. unfold mbind, M_bind. by intros ->. Qed.

Lemma bind_lift_Ok {W A B} (r : res A) (f : A → M W B) a w : r = Ok a → (lift r ≫= f) w = f a w.
Proof. by intros ->. Qed.

Lemma bind_lift_Err {W A B} (r : res A) (f : A → M W B) e w :
  r = Err e → (lift r ≫= f) w = (Err e, w).
Proof. by intros ->. Qed.

Lemma bind_lift_Panic {W A B} (r : res A) (f : A → M W B) p w :
  r = Panic p → (lift r ≫= f) w = (Panic p, w).
Proof. by intros ->. Qed.

Lemma attempt_Ok {W A B} (m : M W A) (f : error + A → M W B) w a w' :
  m w = (Ok a, w') → (attempt m ≫= f) w = f (inr a) w'.
Proof. unfold mbind, M_bind, attempt. by intros ->. Qed.

Lemma attempt_Err {W A B} (m : M W A) (f : error + A → M W B) w e w' :
  m w = (Err e, w') → (attempt m ≫= f) w = f (inl e) w'.
Proof. unfold mbind, M_bind, attempt. by intros ->. Qed.

Lemma wrapf_Ok {W A} fmt args (m : M W A) w a w' :
  m w = (Ok a, w') → wrapf fmt args m w = (Ok a, w').
Proof. unfold wrapf. by intros ->. Qed.

Lemma wrapf_Ok_inv {W A} fmt args (m : M W A) w a w' :
  wrapf fmt args m w = (Ok a, w') → m w = (Ok a, w').
Proof. unfold wrapf. destruct (m w) as [[] ?]; congruence. Qed.

Lemma lift_inv {W A} (r x : res A) (w w' : W) : lift r w = (x, w') → r = x ∧ w' = w.
Proof. unfold lift. by intros [= -> ->]. Qed.

Lemma M_bind_assoc {W A B C} (m : M W A) (f : A → M W B) (g : B → M W C) w :
  ((m ≫= f) ≫= g) w = (m ≫= λ a, (f a ≫= g)) w.
Proof. unfold mbind, M_bind. by destruct (m w) as [[] ?]. Qed.

(** Inversion of a bind that returned a value. *)
Lemma M_bind_Ok_inv {W A B} (m : M W A) (f : A → M W B) w b w' :
  (m ≫= f) w = (Ok b, w') →
  ∃ a w1, m w = (Ok a, w1) ∧ f a w1 = (Ok b, w').
Proof. unfold mbind, M_bind. destruct (m w) as [[] ?]; naive_solver. Qed.

(** An invariant of the world kept by every element is kept by the loop. *)
Lemma for_each_inv {W A} (P : W → Prop) (f : A → M W ()) l w :
  (∀ x w, x ∈ l → P w → P (f x w).2) → P w → P (for_each f l w).2.
Proof.
  revert w. induction l as [|x l IH]; intros w Hf HP; [done|].
  simpl. unfold mbind, M_bind.
  assert (P (f x w).2) as HP' by (apply Hf; set_solver).
  destruct (f x w) as [[] w'] eqn:E; simpl in *; [|done..].
  apply IH; [set_solver|done].
Qed.

(** A call leaves a part of the world alone, whatever its outcome. *)
Definition keeps {W V A} (part : W → V) (c : M W A) : Prop := ∀ w, part (c w).2 = part w.

Section keeps.
Context {W V : Type} (part : W → V).

Lemma keeps_bind {A B} (m : M W A) (f : A → M W B) :
  keeps part m → (∀ a, keeps part (f a)) → keeps part (m ≫= f).
Proof.
  intros Hm Hf w. unfold mbind, M_bind. specialize (Hm w).
  destruct (m w) as [[a|e|p] w']; simpl in *; [|done..]. by rewrite Hf.
Qed.

Lemma keeps_ret {A} (a : A) : keeps part (mret a).
Proof. done. Qed.
Lemma keeps_lift {A} (r : res A) : keeps part (lift r).
Proof. done. Qed.
Lemma keeps_fail {A} (e : error) : keeps part (fail (A:=A) e).
Proof. done. Qed.
Lemma keeps_panic {A} p : keeps part (panic (A:=A) p).
Proof. done. Qed.
Lemma keeps_attempt {A} (m : M W A) : keeps part m → keeps part (attempt m).
Proof. intros Hm w. specialize (Hm w). unfold attempt. by destruct (m w) as [[]]. Qed.
Lemma keeps_wrapf {A} fmt args (m : M W A) : keeps part m → keeps part (wrapf fmt args m).
Proof. intros Hm w. specialize (Hm w). unfold wrapf. by destruct (m w) as [[]]. Qed.
Lemma keeps_bind_lift {A B} (r : res A) (f : A → M W B) :
  (∀ a, r = Ok a → keeps part (f a)) → keeps part (lift r ≫= f).
Proof. intros Hf w. unfold mbind, M_bind, lift. destruct r; [by apply Hf|done..]. Qed.
Lemma keeps_eq {A} (m : M W A) w r w' : keeps part m → m w = (r, w') → part w' = part w.
Proof. intros Hm E. specialize (Hm w). by rewrite E in Hm. Qed.
End keeps.

(** A call keeps an invariant of the world, whatever its outcome. *)
Definition preserves {W A} (P : W → Prop) (c : M W A) : Prop := ∀ w, P w → P (c w).2.

Section preserves.
Context {W : Type} (P : W → Prop).

Lemma preserves_bind {A B} (m : M W A) (f : A → M W B) :
  preserves P m → (∀ a, preserves P (f a)) → preserves P (m ≫= f).
Proof.
  intros Hm Hf w Hw. unfold mbind, M_bind. specialize (Hm w Hw).
  destruct (m w) as [[a|e|p] w']; simpl in *; [|done..]. by apply Hf.
Qed.

Lemma preserves_keeps {V A} (Q : V → Prop) (part : W → V) (m : M W A) :
  keeps part m → preserves (λ w, Q (part w)) m.
Proof using Type. intros Hk w Hw. by rewrite Hk. Qed.
Lemma preserves_eq {A} (m : M W A) w r w' : preserves P m → P w → m w = (r, w') → P w'.
Proof. intros Hm Hw H. specialize (Hm w Hw). by rewrite H in Hm. Qed.

Lemma preserves_ret {A} (a : A) : preserves P (mret a).
Proof. by intros w. Qed.
Lemma preserves_lift {A} (r : res A) : preserves P (lift r).
Proof. by intros w. Qed.
Lemma preserves_fail {A} (e : error) : preserves P (fail (A:=A) e).
Proof. by intros w. Qed.
Lemma preserves_panic {A} p : preserves P (panic (A:=A) p).
Proof. by intros w. Qed.
Lemma preserves_wrapf {A} fmt args (m : M W A) : preserves P m → preserves P (wrapf fmt args m).
Proof. intros Hm w Hw. specialize (Hm w Hw). unfold wrapf. by destruct (m w) as [[]]. Qed.
Lemma preserves_attempt {A} (m : M W A) : preserves P m → preserves P (attempt m).
Proof. intros Hm w Hw. specialize (Hm w Hw). unfold attempt. by destruct (m w) as [[]]. Qed.
End preserves.

(** ** Machine integers *)
Definition u32 (x : Z) : Z := x mod 2 ^ 32.
Definition MaxInt32 : Z := 2 ^ 31 - 1.
Definition MaxInt64 : Z := 2 ^ 63 - 1.
Definition i64 (x : Z) : Z := (x + 2 ^ 63) mod 2 ^ 64 - 2 ^ 63.

Lemma u32_small x : 0 ≤ x < 2 ^ 32 → u32 x = x.
Proof. intros. unfold u32. by apply Z.mod_small. Qed.

Lemma u32_range x : 0 ≤ u32 x < 2 ^ 32.
Proof. apply Z.mod_pos_bound. lia. Qed.

Lemma i64_small x : - 2 ^ 63 ≤ x < 2 ^ 63 → i64 x = x.
Proof. intros. unfold i64. rewrite Z.mod_small; lia. Qed.

(** [lo.FromPtrOr]. *)
Definition from_ptr_or {A} (p : option A) (d : A) : A := default d p.

(** ** Sorting

    [sort.Slice] and the sorted iteration of templates over maps: an insertion
    sort, since the keys sorted by are distinct. *)
Fixpoint insert_by {A} (lt : A → A → bool) (x : A) (l : list A) : list A :=
  match l with
  | [] => [x]
  | y :: l' => if lt y x then y :: insert_by lt x l' else x :: l
  end.
Definition sort_by {A} (lt : A → A → bool) (l : list A) : list A :=
  foldr (insert_by lt) [] l.

Lemma insert_by_perm {A} (lt : A → A → bool) x l : insert_by lt x l ≡ₚ x :: l.
Proof.
  induction l as [|y l IH]; [done|]. simpl. case_match; [|done]. rewrite IH. apply Permutation_swap.
Qed.

Lemma sort_by_perm {A} (lt : A → A → bool) l : sort_by lt l ≡ₚ l.
Proof. induction l as [|x l IH]; [done|]. simpl. by rewrite insert_by_perm, IH. Qed.

(** Where the order is that of a rank, the result is sorted by rank. *)
Lemma insert_by_sorted {A} (lt : A → A → bool) (f : A → nat) x l :
  (∀ y, y ∈ l → lt y x = (f y <? f x)%nat) →
  StronglySorted (λ a b, f a ≤ f b)%nat l →
  StronglySorted (λ a b, f a ≤ f b)%nat (insert_by lt x l).
Proof.
  intros Hlt Hs. induction Hs as [|y l Hs IH Hy]; [by repeat constructor|].
  simpl. rewrite Hlt by set_solver. destruct (Nat.ltb_spec (f y) (f x)) as [Hl|Hl].
  - constructor; [apply IH; set_solver|]. rewrite insert_by_perm. constructor; [lia|done].
  - constructor; [by constructor|]. constructor; [lia|].
    eapply Forall_impl; [exact Hy|]. simpl. lia.
Qed.

Lemma sort_by_sorted {A} (lt : A → A → bool) (f : A → nat) l :
  (∀ x y, x ∈ l → y ∈ l → lt x y = (f x <? f y)%nat) →
  StronglySorted (λ a b, f a ≤ f b)%nat (sort_by lt l).
Proof.
  induction l as [|x l IH]; intros Hlt; [constructor|]. simpl. apply insert_by_sorted.
  - intros y. rewrite sort_by_perm. set_solver.
  - apply IH. set_solver.
Qed.

(** A list with increasing ranks is the result of sorting any permutation of it. *)
Lemma sort_by_unique {A} (lt : A → A → bool) (f : A → nat) l L :
  l ≡ₚ L → StronglySorted (λ a b, f a < f b)%nat L →
  (∀ x y, x ∈ L → y ∈ L → lt x y = (f x <? f y)%nat) → sort_by lt l = L.
Proof.
  intros Hp HL Hlt.
  apply (StronglySorted_unique_strong (λ a b, f a ≤ f b)%nat).
  - intros x y. rewrite sort_by_perm, Hp. intros Hx Hy H1 H2. assert (f x = f y) as Hxy by lia.
    clear -HL Hx Hy Hxy. induction HL as [|z L HL IH Hz]; [set_solver|].
    rewrite Forall_forall in Hz. apply elem_of_cons in Hx, Hy.
    destruct Hx as [->|Hx], Hy as [->|Hy]; [done| | |by apply IH].
    + specialize (Hz _ Hy). lia.
    + specialize (Hz _ Hx). lia.
  - apply sort_by_sorted. intros x y. rewrite Hp. auto.
  - clear -HL. induction HL as [|z L HL IH Hz]; constructor; [done|].
    eapply Forall_impl; [exact Hz|]. simpl. lia.
  - by rewrite sort_by_perm.
Qed.

(** ** Automation *)

(** Unfold the monad operations of the goal or of a hypothesis. *)
Ltac munfold :=
  unfold mbind, M_bind, res_bind, mret, M_ret, res_ret, fmap, res_fmap, attempt,
    lift, fail, panic, gets, modify, get_world, put_world, wrapf, must in *; simpl in *.

(** Run the first step of a call whose result computes. *)
Ltac step_lift :=
  lazymatch goal with
  | |- (lift ?r ≫= _) _ = _ => etransitivity; [eapply bind_lift_Ok; reflexivity|]
  end.

(** Split on the innermost [match] and simplify. *)
Ltac split_match :=
  repeat (case_match; simplify_eq/=).

Create HintDb flex.
Create Rewrite HintDb flex.
#[export] Hint Rewrite @length_app @length_map @length_seq using done : flex.
#[export] Hint Resolve @keeps_ret @keeps_lift @keeps_fail @keeps_panic @keeps_attempt
  @keeps_wrapf : flex.

#[export] Hint Resolve @preserves_ret @preserves_lift @preserves_fail @preserves_panic
  @preserves_wrapf @preserves_attempt : flex.

(** Prove that a composed call keeps an invariant. *)
Ltac solve_preserves :=
  repeat first
    [ solve [auto with flex]
    | apply preserves_wrapf
    | apply preserves_attempt
    | apply preserves_bind; [|intros ?]
    | progress cbn beta iota
    | case_match ].

(** Prove that a composed call leaves a part of the world alone. *)
Ltac solve_keeps :=
  repeat first
    [ solve [auto with flex]
    | apply keeps_attempt
    | apply keeps_bind; [|intros ?]
    | progress cbn beta iota
    | case_match ].
