(* ===== verification/GoStr.v ===== *)
(** * Go's [strings] package on byte strings

    The functions of the standard library's [strings] package that the source
    calls, on strings as sequences of bytes, with the lemmas the components
    share.  [ToLower] and [TrimSpace] act on the ASCII range. *)
From S2P Require Import Prelude.
From stdpp Require Import options.

(** ** Characters *)
Definition chr (n : nat) : ascii := ascii_of_nat n.
Definition code (c : ascii) : Z := Z.of_nat (nat_of_ascii c).
Definition is_digit (c : ascii) : bool := (48 <=? code c) && (code c <=? 57).
Definition is_lower (c : ascii) : bool := (97 <=? code c) && (code c <=? 122).
Definition is_upper (c : ascii) : bool := (65 <=? code c) && (code c <=? 90).
Definition is_space (c : ascii) : bool :=
  bool_decide (code c = 32) || ((9 <=? code c) && (code c <=? 13)).
Definition lower_char (c : ascii) : ascii :=
  if is_upper c then chr (nat_of_ascii c + 32) else c.

Fixpoint str_map (f : ascii → ascii) (s : string) : string :=
  match s with "" => "" | String c s => String (f c) (str_map f s) end.

Definition ToLower (s : string) : string := str_map lower_char s.

(** ** Prefixes and searches *)
Fixpoint drop_str (n : nat) (s : string) : string :=
  match n, s with
  | O, _ => s
  | S n, String _ s => drop_str n s
  | S _, "" => ""
  end.

Fixpoint take_str (n : nat) (s : string) : string :=
  match n, s with
  | S n, String c s => String c (take_str n s)
  | _, _ => ""
  end.

Definition HasPrefix (s p : string) : bool := String.prefix p s.
Definition TrimPrefix (s p : string) : string :=
  if HasPrefix s p then drop_str (String.length p) s else s.

Fixpoint Contains (s sub : string) : bool :=
  HasPrefix s sub || match s with "" => false | String _ s' => Contains s' sub end.

(** [strings.Cut] at the first byte [c]. *)
Fixpoint cut_char (c : ascii) (s : string) : option (string * string) :=
  match s with
  | "" => None
  | String d s' =>
      if decide (d = c) then Some ("", s')
      else match cut_char c s' with
           | Some (a, b) => Some (String d a, b)
           | None => None
           end
  end.

(** [s[:i], s[i+1:]] for [i := strings.LastIndex(s, c)], if [i >= 0]. *)
Fixpoint cut_last_char (c : ascii) (s : string) : option (string * string) :=
  match s with
  | "" => None
  | String d s' =>
      match cut_last_char c s' with
      | Some (a, b) => Some (String d a, b)
      | None => if decide (d = c) then Some ("", s') else None
      end
  end.

(** [strings.Split] at a one-byte separator. *)
Fixpoint split_char (c : ascii) (s : string) : list string :=
  match s with
  | "" => [""]
  | String d s' =>
      if decide (d = c) then "" :: split_char c s'
      else match split_char c s' with
           | x :: l => String d x :: l
           | [] => [String d ""]
           end
  end.

(** [strings.Join]. *)
Fixpoint Join (l : list string) (sep : string) : string :=
  match l with
  | [] => ""
  | [x] => x
  | x :: l => x +:+ sep +:+ Join l sep
  end.

Fixpoint trim_left (s : string) : string :=
  match s with
  | String c s' => if is_space c then trim_left s' else s
  | "" => ""
  end.
Fixpoint trim_right (s : string) : string :=
  match s with
  | "" => ""
  | String c s' =>
      match trim_right s' with
      | "" => if is_space c then "" else String c ""
      | t => String c t
      end
  end.
Definition TrimSpace (s : string) : string := trim_left (trim_right s).

Fixpoint str_forall (p : ascii → bool) (s : string) : bool :=
  match s with "" => true | String c s => p c && str_forall p s end.
Fixpoint str_exists (p : ascii → bool) (s : string) : bool :=
  match s with "" => false | String c s => p c || str_exists p s end.

(** ** Decimal and hexadecimal printing, [%d] and [%x] *)
Definition digit_char (d : Z) : ascii :=
  if d <? 10 then chr (Z.to_nat (48 + d)) else chr (Z.to_nat (87 + d)).

Fixpoint pos_digits (fuel : nat) (base n : Z) (acc : string) : string :=
  match fuel with
  | O => acc
  | S fuel =>
      let acc := String (digit_char (n mod base)) acc in
      if n <? base then acc else pos_digits fuel base (n / base) acc
  end.

(** A number below [2 ^ k] has at most [k] digits in any base, so the bit
    length is enough fuel. *)
Definition print_nat (base n : Z) : string :=
  pos_digits (S (Z.to_nat (Z.log2 n))) base n "".

(** [fmt.Sprintf("%d", n)]. *)
Definition Itoa (n : Z) : string :=
  if n <? 0 then String "-" (print_nat 10 (- n)) else print_nat 10 n.

(** ** Lemmas *)
#[local] Arguments String.append !_ _ / : simpl nomatch.
#[local] Arguments HasPrefix : simpl never.

Lemma str_app_nil_r s : s +:+ "" = s.
Proof. induction s as [|c s IH]; [done|]. simpl. by f_equal. Qed.

Lemma str_app_assoc s1 s2 s3 : (s1 +:+ s2) +:+ s3 = s1 +:+ (s2 +:+ s3).
Proof. induction s1 as [|c s1 IH]; [done|]. simpl. by f_equal. Qed.

Lemma str_app_length s1 s2 :
  String.length (s1 +:+ s2) = (String.length s1 + String.length s2)%nat.
Proof. induction s1 as [|c s1 IH]; [done|]. simpl. by f_equal. Qed.

Lemma str_forall_app p s1 s2 :
  str_forall p (s1 +:+ s2) = str_forall p s1 && str_forall p s2.
Proof. induction s1 as [|c s1 IH]; [done|]. simpl. by rewrite IH, andb_assoc. Qed.

Lemma HasPrefix_app p s : HasPrefix (p +:+ s) p = true.
Proof.
  unfold HasPrefix. induction p as [|c p IH]; simpl; [by destruct s|].
  rewrite IH. by destruct (ascii_dec c c).
Qed.

Lemma HasPrefix_spec s p : HasPrefix s p = true ↔ ∃ t, s = p +:+ t.
Proof.
  split; [|intros [t ->]; apply HasPrefix_app].
  unfold HasPrefix. revert s. induction p as [|c p IH]; intros s H; [by exists s|].
  destruct s as [|d s]; [done|]. simpl in H.
  destruct (ascii_dec c d) as [->|]; [|done].
  destruct (IH s H) as [t ->]. by exists t.
Qed.

Lemma drop_str_app s1 s2 : drop_str (String.length s1) (s1 +:+ s2) = s2.
Proof. by induction s1. Qed.

Lemma TrimPrefix_app p s : TrimPrefix (p +:+ s) p = s.
Proof. unfold TrimPrefix. by rewrite HasPrefix_app, drop_str_app. Qed.

Lemma Contains_spec s sub : Contains s sub = true ↔ ∃ a b, s = a +:+ sub +:+ b.
Proof.
  induction s as [|c s IH]; simpl.
  - rewrite orb_false_r, HasPrefix_spec. split.
    + intros [t Ht]. by exists "", t.
    + intros (a & b & H). destruct a; [|done]. by exists b.
  - rewrite orb_true_iff, HasPrefix_spec, IH. split.
    + intros [[t Ht]|(a & b & ->)]; [by exists "", t|]. by exists (String c a), b.
    + intros ([|d a] & b & H); simpl in H; [left; by exists b|].
      injection H as -> ->. right. by exists a, b.
Qed.

Lemma Contains_length s sub :
  Contains s sub = true → (String.length sub ≤ String.length s)%nat.
Proof. intros (a & b & ->)%Contains_spec. rewrite !str_app_length. lia. Qed.

Lemma cut_char_Some c s a b :
  cut_char c s = Some (a, b) ↔ s = a +:+ String c b ∧ str_forall (λ d, bool_decide (d ≠ c)) a = true.
Proof.
  revert a. induction s as [|d s IH]; intros a; simpl.
  { split; [done|]. intros [H _]. by destruct a. }
  case_decide as Hd; [subst d|].
  - split.
    + intros [= <- <-]. done.
    + intros [H Ha]. destruct a as [|e a]; simpl in *; [by injection H as ->|].
      injection H as <- ->. rewrite bool_decide_eq_false_2 in Ha by (intros []; done). done.
  - destruct (cut_char c s) as [[x y]|] eqn:E.
    + split.
      * intros [= <- <-]. destruct (proj1 (IH x) eq_refl) as [-> Hx]. simpl.
        by rewrite bool_decide_eq_true_2.
      * intros [H Ha]. destruct a as [|e a]; simpl in *; [by injection H as ->|].
        injection H as <- ->. apply andb_true_iff in Ha as [_ Ha].
        assert (Some (x, y) = Some (a, b)) as [= -> ->]; [|done].
        apply IH. done.
    + split; [done|]. intros [H Ha].
      destruct a as [|e a]; simpl in *; [by injection H as ->|].
      injection H as <- ->. apply andb_true_iff in Ha as [_ Ha].
      assert (None = Some (a, b)); [|done]. by apply IH.
Qed.

Lemma cut_char_None c s :
  cut_char c s = None ↔ str_forall (λ d, bool_decide (d ≠ c)) s = true.
Proof.
  induction s as [|d s IH]; simpl; [done|].
  case_decide as Hd; [subst|].
  - split; [done|]. rewrite bool_decide_eq_false_2 by (intros []; done). done.
  - rewrite bool_decide_eq_true_2 by done. simpl. rewrite <-IH.
    by destruct (cut_char c s) as [[]|].
Qed.

Lemma split_char_none c s :
  str_forall (λ d, bool_decide (d ≠ c)) s = true → split_char c s = [s].
Proof.
  induction s as [|d s IH]; simpl; [done|].
  intros [Hd Hs]%andb_true_iff. apply bool_decide_eq_true in Hd.
  rewrite decide_False by done. by rewrite IH.
Qed.

Lemma split_char_app c a b :
  str_forall (λ d, bool_decide (d ≠ c)) a = true →
  split_char c (a +:+ String c b) = a :: split_char c b.
Proof.
  induction a as [|d a IH]; simpl; [by rewrite decide_True|].
  intros [Hd Hs]%andb_true_iff. apply bool_decide_eq_true in Hd.
  rewrite decide_False by done. by rewrite IH.
Qed.

Lemma split_char_nonempty c s : split_char c s ≠ [].
Proof.
  induction s as [|d s IH]; simpl; [done|]. case_decide; [done|].
  by destruct (split_char c s).
Qed.

#[export] Hint Rewrite str_app_nil_r str_app_assoc str_app_length : flex.
