(* ===== verification/GoNet.v ===== *)
(** * Go's [net] package: IP addresses and CIDR blocks

    The functions of the standard library's [net], [net/netip] and
    [encoding/binary] packages that the WireGuard allocator calls: parsing and
    printing of IPv4 and IPv6 addresses, [ParseCIDR], masks, and big-endian
    words.  A [net.IP] is its list of 4 or 16 bytes. *)
From S2P Require Import Prelude GoStr.
From stdpp Require Import options.

Definition is_byte (b : Z) : Prop := 0 ≤ b < 256.

(** ** IPv4 text *)

(** One digit of a field: leading zeros and values over 255 are refused. *)
Definition digit_step (st : Z * nat) (c : ascii) : option (Z * nat) :=
  let '(val, len) := st in
  if bool_decide (len = 1%nat ∧ val = 0) then None
  else let val' := val * 10 + (code c - 48) in
       if 255 <? val' then None else Some (val', S len).

(** The loop of [parseIPv4Fields]; [fields] are the octets already closed by a
    dot.  An empty field is refused where it ends. *)
Fixpoint v4_loop (s : string) (st : Z * nat) (fields : list Z) : option (list Z) :=
  match s with
  | "" => if bool_decide (st.2 = 0%nat) then None
          else if bool_decide (length fields = 3%nat) then Some (fields ++ [st.1]) else None
  | String c s' =>
      if is_digit c then st' ← digit_step st c; v4_loop s' st' fields
      else if decide (c = "."%char) then
        if bool_decide (st.2 = 0%nat) then None
        else if bool_decide (length fields = 3%nat) then None
        else v4_loop s' (0, 0%nat) (fields ++ [st.1])
      else None
  end.

Definition parseIPv4 (s : string) : option (list Z) := v4_loop s (0, 0%nat) [].

(** ** IPv6 text *)
Definition hex_val (c : ascii) : option Z :=
  if is_digit c then Some (code c - 48)
  else if (97 <=? code c) && (code c <=? 102) then Some (code c - 87)
  else if (65 <=? code c) && (code c <=? 70) then Some (code c - 55)
  else None.

(** The longest run of hex digits: its length, its value, the rest. *)
Fixpoint hex_run (s : string) (off : nat) (acc : Z) : option (nat * Z * string) :=
  match s with
  | "" => Some (off, acc, "")
  | String c s' =>
      match hex_val c with
      | None => Some (off, acc, s)
      | Some d =>
          let acc' := acc * 16 + d in
          if bool_decide (3 < off)%nat then None
          else if 65535 <? acc' then None
          else hex_run s' (S off) acc'
      end
  end.

Definition is_Some_b {A} (o : option A) : bool := match o with Some _ => true | None => false end.

(** The field loop of [parseIPv6]; each turn adds two bytes, so eight turns
    exhaust the address. *)
Fixpoint v6_loop (fuel : nat) (ip : list Z) (ell : option nat) (s : string)
    : option (list Z * option nat * string) :=
  match fuel with
  | O => Some (ip, ell, s)
  | S fuel =>
      '(off, acc, rest) ← hex_run s 0 0;
      if bool_decide (off = 0%nat) then None else
      match rest with
      | "" => Some (ip ++ [acc / 256; acc mod 256], ell, "")
      | String c rest' =>
          if decide (c = "."%char) then
            if negb (is_Some_b ell) && bool_decide (length ip ≠ 12%nat) then None
            else if bool_decide (16 < length ip + 4)%nat then None
            else q ← parseIPv4 s; Some (ip ++ q, ell, "")
          else if decide (c = ":"%char) then
            let ip := ip ++ [acc / 256; acc mod 256] in
            match rest' with
            | "" => None
            | String c2 rest2 =>
                if decide (c2 = ":"%char) then
                  if is_Some_b ell then None
                  else match rest2 with
                       | "" => Some (ip, Some (length ip), "")
                       | _ => v6_loop fuel ip (Some (length ip)) rest2
                       end
                else v6_loop fuel ip ell rest'
            end
          else None
      end
  end.

Definition v6_finish (r : list Z * option nat * string) : option (list Z) :=
  let '(ip, ell, s) := r in
  if bool_decide (s ≠ "") then None
  else if bool_decide (length ip < 16)%nat then
    e ← ell;
    Some (take e ip ++ replicate (16 - length ip) 0 ++ drop e ip)
  else if is_Some_b ell then None else Some ip.

(** [netip.Addr]. *)
Inductive Addr := Addr4 (b : list Z) | Addr6 (b : list Z) (zone : string).

(** The zone after the first [%], which must not be empty when there is one. *)
Definition v6_zone (s : string) : option (string * string) :=
  match cut_char "%" s with
  | Some (_, "") => None
  | Some (s, zone) => Some (s, zone)
  | None => Some (s, "")
  end.

Definition v6_body (s : string) : option (list Z) :=
  if HasPrefix s "::" then
    match drop_str 2 s with
    | "" => Some (replicate 16 0)
    | s' => r ← v6_loop 8 [] (Some 0%nat) s'; v6_finish r
    end
  else r ← v6_loop 8 [] None s; v6_finish r.

Definition parseIPv6 (s : string) : option Addr :=
  '(s, zone) ← v6_zone s; b ← v6_body s; Some (Addr6 b zone).

(** [netip.ParseAddr]: the first of [. : %] decides. *)
Fixpoint addr_kind (s : string) : option ascii :=
  match s with
  | "" => None
  | String c s => if bool_decide (c = "."%char ∨ c = ":"%char ∨ c = "%"%char)
                  then Some c else addr_kind s
  end.

Definition ParseAddr (s : string) : option Addr :=
  match addr_kind s with
  | Some "."%char => Addr4 <$> parseIPv4 s
  | Some ":"%char => parseIPv6 s
  | _ => None
  end.

(** ** [net.IP] *)
Definition v4InV6Prefix : list Z := [0;0;0;0;0;0;0;0;0;0;255;255].

Definition As16 (a : Addr) : list Z :=
  match a with Addr4 b => v4InV6Prefix ++ b | Addr6 b _ => b end.
Definition Addr_zone (a : Addr) : string :=
  match a with Addr4 _ => "" | Addr6 _ z => z end.
Definition BitLen (a : Addr) : Z :=
  match a with Addr4 _ => 32 | Addr6 _ _ => 128 end.

Definition ParseIP (s : string) : option (list Z) :=
  a ← ParseAddr s;
  if bool_decide (Addr_zone a ≠ "") then None else Some (As16 a).

Definition To4 (ip : list Z) : option (list Z) :=
  if bool_decide (length ip = 4%nat) then Some ip
  else if bool_decide (length ip = 16%nat ∧ take 12 ip = v4InV6Prefix) then Some (drop 12 ip)
  else None.

(** ** Printing *)
Definition dotted (b : list Z) : string := Join (Itoa <$> b) ".".

Fixpoint zero_run (g : list Z) : nat :=
  match g with z :: g => if decide (z = 0) then S (zero_run g) else O | [] => O end.

(** The first longest run of two or more zero groups, as (start, end). *)
Fixpoint best_zeros (i : nat) (g : list Z) (best : nat * nat) : nat * nat :=
  match g with
  | [] => best
  | _ :: g' =>
      let l := zero_run g in
      best_zeros (S i) g'
        (if bool_decide (2 ≤ l ∧ best.2 - best.1 < l)%nat then (i, i + l)%nat else best)
  end.

Fixpoint groups16 (b : list Z) : list Z :=
  match b with x :: y :: b => (x * 256 + y) :: groups16 b | _ => [] end.

Fixpoint fmt6 (fuel i : nat) (g : list Z) (zs ze : nat) : string :=
  match fuel with
  | O => ""
  | S fuel =>
      if bool_decide (8 ≤ i)%nat then "" else
      if bool_decide (i = zs) then
        if bool_decide (8 ≤ ze)%nat then "::"
        else "::" +:+ print_nat 16 (nth ze g 0) +:+ fmt6 fuel (S ze) g zs ze
      else (if bool_decide (0 < i)%nat then ":" else "")
           +:+ print_nat 16 (nth i g 0) +:+ fmt6 fuel (S i) g zs ze
  end.

Definition v6_string (b : list Z) : string :=
  let g := groups16 b in
  let '(zs, ze) := best_zeros 0 g (255, 255)%nat in fmt6 8 0 g zs ze.

Fixpoint hexString (b : list Z) : string :=
  match b with
  | [] => ""
  | x :: b => String (digit_char (x / 16)) (String (digit_char (x mod 16)) (hexString b))
  end.

Definition IP_String (ip : list Z) : string :=
  if bool_decide (length ip = 0%nat) then "<nil>"
  else match To4 ip with
       | Some b => dotted b
       | None => if bool_decide (length ip = 16%nat) then v6_string ip else "?" +:+ hexString ip
       end.

(** ** Masks and CIDR blocks *)
Fixpoint mask_bytes (len : nat) (n : Z) : list Z :=
  match len with
  | O => []
  | S len =>
      if 8 <=? n then 255 :: mask_bytes len (n - 8)
      else (255 - Z.shiftr 255 n) :: mask_bytes len 0
  end.

(** [net.CIDRMask]. *)
Definition CIDRMask (ones bits : Z) : list Z := mask_bytes (Z.to_nat (bits / 8)) ones.

Fixpoint lead_ones (fuel : nat) (v : Z) (n : Z) : Z * Z :=
  match fuel with
  | O => (v, n)
  | S fuel => if Z.testbit v 7 then lead_ones fuel (Z.shiftl v 1 mod 256) (n + 1) else (v, n)
  end.

(** [simpleMaskLength]. *)
Fixpoint mask_length (m : list Z) : Z :=
  match m with
  | [] => 0
  | v :: m =>
      if decide (v = 255) then let n := mask_length m in if n <? 0 then n else 8 + n
      else let '(v', n) := lead_ones 8 v 0 in
           if bool_decide (v' = 0 ∧ Forall (λ x, x = 0) m) then n else -1
  end.

(** [IPMask.Size]. *)
Definition Size (m : list Z) : Z * Z :=
  let ones := mask_length m in
  let bits := 8 * Z.of_nat (length m) in
  if ones =? -1 then (0, 0) else (ones, bits).

(** [IP.Mask]. *)
Definition Mask (ip m : list Z) : list Z :=
  let m := if bool_decide (length m = 16%nat ∧ length ip = 4%nat ∧ take 12 m = replicate 12 255)
           then drop 12 m else m in
  let ip := if bool_decide (length m = 4%nat ∧ length ip = 16%nat ∧ take 12 ip = v4InV6Prefix)
            then drop 12 ip else ip in
  if bool_decide (length ip = length m) then zip_with Z.land ip m else [].

Record IPNet := { IPNet_IP : list Z; IPNet_Mask : list Z }.

(** [dtoi] on a string that must be all digits and below [0xFFFFFF]. *)
Fixpoint dtoi (s : string) (n : Z) : option Z :=
  match s with
  | "" => Some n
  | String c s => if is_digit c then
                    let n := n * 10 + (code c - 48) in
                    if 16777215 <=? n then None else dtoi s n
                  else None
  end.

Definition ParseCIDR (s : string) : option (list Z * IPNet) :=
  '(addr, mask) ← cut_char "/" s;
  a ← ParseAddr addr;
  n ← match mask with "" => None | _ => dtoi mask 0 end;
  if bool_decide (Addr_zone a ≠ "") then None
  else if BitLen a <? n then None
  else let m := CIDRMask n (BitLen a) in
       Some (As16 a, {| IPNet_IP := Mask (As16 a) m; IPNet_Mask := m |}).

(** ** Big-endian words *)
Definition BigEndian_Uint32 (b : list Z) : Z :=
  match b with [a; b; c; d] => ((a * 256 + b) * 256 + c) * 256 + d | _ => 0 end.

Definition BigEndian_PutUint32 (v : Z) : list Z :=
  [v / 2 ^ 24 mod 256; v / 2 ^ 16 mod 256; v / 2 ^ 8 mod 256; v mod 256].

Example ParseIP_ex : ParseIP "10.0.0.255" = Some (v4InV6Prefix ++ [10;0;0;255]).
Proof. reflexivity. Qed.
Example ParseIP_ex2 : ParseIP "fe80::1:2" = Some [254;128;0;0;0;0;0;0;0;0;0;0;0;1;0;2].
Proof. vm_compute. reflexivity. Qed.
Example ParseIP_ex3 : ParseIP "::ffff:1.2.3.4" = Some (v4InV6Prefix ++ [1;2;3;4]).
Proof. vm_compute. reflexivity. Qed.
Example IP_String_ex : IP_String [254;128;0;0;0;0;0;0;0;0;0;0;0;1;0;2] = "fe80::1:2".
Proof. vm_compute. reflexivity. Qed.
Example ParseCIDR_ex :
  ParseCIDR "100.96.1.9/24" =
  Some (v4InV6Prefix ++ [100;96;1;9], {| IPNet_IP := [100;96;1;0]; IPNet_Mask := [255;255;255;0] |}).
Proof. vm_compute. reflexivity. Qed.

(** ** Lemmas: IPv4 text *)

(** Run [f] over the bytes of a string. *)
Fixpoint run_digits (s : string) (st : Z * nat) : option (Z * nat) :=
  match s with
  | "" => Some st
  | String c s => if is_digit c then st' ← digit_step st c; run_digits s st' else None
  end.

Definition byte_text_ok (b : Z) : bool :=
  match run_digits (Itoa b) (0, 0%nat) with
  | Some (v, n) => bool_decide (v = b ∧ n ≠ 0%nat)
  | None => false
  end.

(** Decide a fact about every byte by computation. *)
Lemma byte_forall (P : Z → bool) :
  forallb P (seqZ 0 256) = true → ∀ b, is_byte b → P b = true.
Proof.
  intros H b Hb. rewrite forallb_forall in H. apply H.
  apply list_elem_of_In, elem_of_seqZ. unfold is_byte in Hb. lia.
Qed.

Lemma Itoa_byte b : is_byte b →
  ∃ n, n ≠ 0%nat ∧ run_digits (Itoa b) (0, 0%nat) = Some (b, n).
Proof.
  intros Hb. pose proof (byte_forall byte_text_ok ltac:(vm_compute; reflexivity) b Hb) as H.
  unfold byte_text_ok in H. destruct run_digits as [[v n]|]; [|done].
  apply bool_decide_eq_true in H as [-> Hn]. eauto.
Qed.

Lemma v4_loop_digits s rest st st' fields :
  run_digits s st = Some st' → v4_loop (s +:+ rest) st fields = v4_loop rest st' fields.
Proof.
  revert st. induction s as [|c s IH]; intros st H; [by injection H as ->|].
  change (String c s +:+ rest) with (String c (s +:+ rest)).
  simpl in *. destruct (is_digit c); [|done].
  destruct (digit_step st c) as [st1|]; simpl in *; [by apply IH|done].
Qed.

Lemma v4_loop_field b rest fields : is_byte b → (length fields < 3)%nat →
  v4_loop (Itoa b +:+ String "." rest) (0, 0%nat) fields
  = v4_loop rest (0, 0%nat) (fields ++ [b]).
Proof.
  intros Hb Hl. destruct (Itoa_byte b Hb) as (n & Hn & E).
  rewrite (v4_loop_digits _ _ _ _ _ E). simpl.
  rewrite !bool_decide_eq_false_2 by lia. done.
Qed.

Lemma v4_loop_last b fields : is_byte b → length fields = 3%nat →
  v4_loop (Itoa b) (0, 0%nat) fields = Some (fields ++ [b]).
Proof.
  intros Hb Hl. destruct (Itoa_byte b Hb) as (n & Hn & E).
  rewrite <-(str_app_nil_r (Itoa b)), (v4_loop_digits _ _ _ _ _ E). simpl.
  rewrite bool_decide_eq_false_2 by done. by rewrite bool_decide_eq_true_2.
Qed.

Lemma dotted_4 a b c d :
  dotted [a; b; c; d] =
  Itoa a +:+ String "." (Itoa b +:+ String "." (Itoa c +:+ String "." (Itoa d))).
Proof. done. Qed.

(** Printing an IPv4 address and parsing it gives it back. *)
Lemma parseIPv4_dotted a b c d :
  Forall is_byte [a; b; c; d] → parseIPv4 (dotted [a; b; c; d]) = Some [a; b; c; d].
Proof.
  intros H. decompose_Forall_hyps. rewrite dotted_4. unfold parseIPv4.
  rewrite !v4_loop_field by (done || simpl; lia). by rewrite v4_loop_last.
Qed.

Lemma length_4 {A} (l : list A) :
  length l = 4%nat → ∃ a b c d, l = [a; b; c; d].
Proof. destruct l as [|a [|b [|c [|d [|]]]]]; naive_solver. Qed.

Lemma dotted_inj x y :
  length x = 4%nat → length y = 4%nat → Forall is_byte x → Forall is_byte y →
  dotted x = dotted y → x = y.
Proof.
  intros (a & b & c & d & ->)%length_4 (a' & b' & c' & d' & ->)%length_4 Hx Hy H.
  apply parseIPv4_dotted in Hx, Hy. congruence.
Qed.

Definition no_colon (c : ascii) : bool := negb (bool_decide (c = ":"%char)).

Lemma Itoa_byte_no_colon b : is_byte b → str_forall no_colon (Itoa b) = true.
Proof. apply (byte_forall (λ b, str_forall no_colon (Itoa b))). vm_compute. reflexivity. Qed.

Lemma dotted_no_colon x :
  length x = 4%nat → Forall is_byte x → str_forall no_colon (dotted x) = true.
Proof.
  intros (a & b & c & d & ->)%length_4 H. decompose_Forall_hyps. rewrite dotted_4.
  repeat (rewrite str_forall_app, Itoa_byte_no_colon by done; simpl). by apply Itoa_byte_no_colon.
Qed.

Lemma fmt6_colon fuel i g zs ze :
  (0 < i < 8)%nat → str_forall no_colon (fmt6 (S fuel) i g zs ze) = false.
Proof.
  intros Hi. cbn [fmt6]. rewrite (bool_decide_eq_false_2 (8 ≤ i)%nat) by lia.
  case_bool_decide; [by case_bool_decide|]. by rewrite (bool_decide_eq_true_2 (0 < i)%nat) by lia.
Qed.

Lemma fmt6_colon_0 fuel g zs ze :
  str_forall no_colon (fmt6 (S (S fuel)) 0 g zs ze) = false.
Proof.
  remember (S fuel) as n eqn:En. cbn [fmt6].
  rewrite (bool_decide_eq_false_2 (8 ≤ 0)%nat) by lia.
  case_bool_decide; [by case_bool_decide|]. subst n.
  by rewrite !str_forall_app, (fmt6_colon fuel 1), !andb_false_r by lia.
Qed.

Lemma v6_string_colon b : str_forall no_colon (v6_string b) = false.
Proof. unfold v6_string. destruct (best_zeros _ _ _) as [zs ze]. apply fmt6_colon_0. Qed.

(** ** Lemmas: masks and words *)
Definition V4 (b : list Z) : Prop := length b = 4%nat ∧ Forall is_byte b.

Lemma BigEndian_Put_Get b : V4 b → BigEndian_PutUint32 (BigEndian_Uint32 b) = b.
Proof.
  intros [(a & c & d & e & ->)%length_4 H]. decompose_Forall_hyps. unfold is_byte in *.
  unfold BigEndian_PutUint32, BigEndian_Uint32.
  repeat f_equal; apply Z.eq_sym.
  - apply (Z.mod_unique _ _ 0); [lia|]. symmetry.
    apply (Z.div_unique _ _ _ ((c * 256 + d) * 256 + e)); lia.
  - replace ((((a * 256 + c) * 256 + d) * 256 + e) / 2 ^ 16) with (a * 256 + c);
      [by apply (Z.mod_unique _ _ a); lia|].
    apply (Z.div_unique _ _ _ (d * 256 + e)); lia.
  - replace ((((a * 256 + c) * 256 + d) * 256 + e) / 2 ^ 8) with ((a * 256 + c) * 256 + d);
      [by apply (Z.mod_unique _ _ (a * 256 + c)); lia|].
    apply (Z.div_unique _ _ _ e); lia.
  - apply (Z.mod_unique _ _ ((a * 256 + c) * 256 + d)); lia.
Qed.

Lemma BigEndian_Put_V4 v : V4 (BigEndian_PutUint32 v).
Proof.
  split; [done|]. unfold BigEndian_PutUint32, is_byte.
  repeat constructor; apply Z.mod_pos_bound; lia.
Qed.

Lemma BigEndian_Get_range b : V4 b → 0 ≤ BigEndian_Uint32 b < 2 ^ 32.
Proof.
  intros [(a & c & d & e & ->)%length_4 H]. decompose_Forall_hyps. unfold is_byte in *. simpl. lia.
Qed.

Lemma BigEndian_Get_Put v : 0 ≤ v < 2 ^ 32 → BigEndian_Uint32 (BigEndian_PutUint32 v) = v.
Proof.
  intros Hv. unfold BigEndian_Uint32, BigEndian_PutUint32.
  pose proof (Z.div_mod v 256 ltac:(lia)).
  pose proof (Z.div_mod (v / 256) 256 ltac:(lia)).
  pose proof (Z.div_mod (v / 256 / 256) 256 ltac:(lia)).
  change (2 ^ 8) with 256. change (2 ^ 16) with (256 * 256). change (2 ^ 24) with (256 * 256 * 256).
  rewrite <-!Z.div_div by lia.
  rewrite (Z.mod_small (v / 256 / 256 / 256)) by (rewrite !Z.div_div by lia; split;
    [apply Z.div_pos; lia|apply Z.div_lt_upper_bound; lia]).
  lia.
Qed.

Lemma BigEndian_Put_inj v w :
  0 ≤ v < 2 ^ 32 → 0 ≤ w < 2 ^ 32 → BigEndian_PutUint32 v = BigEndian_PutUint32 w → v = w.
Proof. intros Hv Hw H. by rewrite <-(BigEndian_Get_Put v), <-(BigEndian_Get_Put w), H. Qed.

(** Masking works byte by byte. *)
Lemma land_256 a b m k :
  is_byte b → is_byte k →
  Z.land (a * 256 + b) (m * 256 + k) = Z.land a m * 256 + Z.land b k.
Proof.
  intros Hb Hk. unfold is_byte in *.
  assert (∀ x y, 0 ≤ y < 256 →
    Z.shiftr (x * 256 + y) 8 = x ∧ Z.land (x * 256 + y) (Z.ones 8) = y) as Hs.
  { intros x y Hy. rewrite Z.shiftr_div_pow2, Z.land_ones by lia. change (2 ^ 8) with 256.
    split; symmetry; [apply (Z.div_unique _ _ _ y)|apply (Z.mod_unique _ _ x)]; lia. }
  destruct (Hs a b Hb) as [Ha1 Ha2], (Hs m k Hk) as [Hm1 Hm2].
  set (X := a * 256 + b) in *. set (Y := m * 256 + k) in *.
  assert (Z.land X Y / 256 = Z.land a m) as Hdiv.
  { change 256 with (2 ^ 8). by rewrite <-Z.shiftr_div_pow2, Z.shiftr_land, Ha1, Hm1 by lia. }
  assert (Z.land X Y mod 256 = Z.land b k) as Hmod.
  { change 256 with (2 ^ 8). rewrite <-Z.land_ones by lia. rewrite <-Ha2 at 1. rewrite <-Hm2 at 1.
    apply Z.bits_inj'. intros n _. rewrite !Z.land_spec.
    by destruct (Z.testbit X n), (Z.testbit Y n), (Z.testbit (Z.ones 8) n). }
  pose proof (Z.div_mod (Z.land X Y) 256 ltac:(lia)). lia.
Qed.

Lemma BigEndian_land x m :
  V4 x → V4 m →
  BigEndian_Uint32 (zip_with Z.land x m) = Z.land (BigEndian_Uint32 x) (BigEndian_Uint32 m).
Proof.
  intros [(a & b & c & d & ->)%length_4 Hx] [(a' & b' & c' & d' & ->)%length_4 Hm].
  decompose_Forall_hyps. simpl. by rewrite !land_256.
Qed.

(** Clearing the low [h] bits of a 32-bit word. *)
Lemma land_high x h :
  0 ≤ x < 2 ^ 32 → 0 ≤ h ≤ 32 → Z.land x (2 ^ 32 - 2 ^ h) = x - x mod 2 ^ h.
Proof.
  intros Hx Hh.
  assert (2 ^ 32 - 2 ^ h = Z.ldiff (Z.ones 32) (Z.ones h)) as ->.
  { rewrite <-Z.sub_nocarry_ldiff, !Z.ones_equiv; [lia|].
    apply Z.bits_inj'. intros n Hn. rewrite Z.ldiff_spec, !Z.testbit_ones_nonneg, Z.bits_0 by lia.
    destruct (Z.ltb_spec n h), (Z.ltb_spec n 32); simpl; lia || done. }
  replace (Z.land x (Z.ldiff (Z.ones 32) (Z.ones h))) with (Z.ldiff x (Z.ones h)).
  - rewrite Z.ldiff_ones_r, Z.shiftl_mul_pow2, Z.shiftr_div_pow2 by lia.
    pose proof (Z.div_mod x (2 ^ h) ltac:(lia)). lia.
  - rewrite <-(Z.mod_small x (2 ^ 32)) at 1 by lia. rewrite <-Z.land_ones by lia.
    apply Z.bits_inj'. intros n Hn. rewrite !Z.land_spec, !Z.ldiff_spec, !Z.land_spec.
    by rewrite andb_assoc.
Qed.

Definition mask_ok (n : Z) : bool :=
  let m := CIDRMask n 32 in
  bool_decide (length m = 4%nat) && forallb (λ b, (0 <=? b) && (b <? 256)) m
  && bool_decide (Size m = (n, 32)) && bool_decide (BigEndian_Uint32 m = 2 ^ 32 - 2 ^ (32 - n)).

Lemma CIDRMask_32 n : 0 ≤ n ≤ 32 →
  V4 (CIDRMask n 32) ∧ Size (CIDRMask n 32) = (n, 32)
  ∧ BigEndian_Uint32 (CIDRMask n 32) = 2 ^ 32 - 2 ^ (32 - n).
Proof.
  intros Hn. assert (mask_ok n = true) as H.
  { assert (forallb mask_ok (seqZ 0 33) = true) as H by (vm_compute; reflexivity).
    rewrite forallb_forall in H. apply H, list_elem_of_In, elem_of_seqZ. lia. }
  unfold mask_ok in H. rewrite !andb_true_iff, !bool_decide_eq_true in H.
  destruct H as [[[Hl Hb] Hs] He]. split_and!; [split; [done|]|done..].
  rewrite forallb_forall in Hb. apply Forall_forall. intros b Hin%list_elem_of_In%Hb.
  unfold is_byte. lia.
Qed.

(** The network word of an IPv4 block: the address with its host bits cleared. *)
Lemma network_word x n :
  V4 x → 0 ≤ n ≤ 32 →
  let w := BigEndian_Uint32 (zip_with Z.land x (CIDRMask n 32)) in
  w = BigEndian_Uint32 x - BigEndian_Uint32 x mod 2 ^ (32 - n)
  ∧ 0 ≤ w ∧ w + 2 ^ (32 - n) ≤ 2 ^ 32.
Proof.
  intros Hx Hn w. destruct (CIDRMask_32 n Hn) as (Hm & _ & He).
  assert (w = BigEndian_Uint32 x - BigEndian_Uint32 x mod 2 ^ (32 - n)) as Hw.
  { unfold w. rewrite BigEndian_land, He by done. apply land_high; [by apply BigEndian_Get_range|lia]. }
  pose proof (BigEndian_Get_range x Hx) as Hr.
  split; [done|]. rewrite Hw.
  pose proof (Z.div_mod (BigEndian_Uint32 x) (2 ^ (32 - n)) ltac:(lia)) as Hd.
  pose proof (Z.mod_pos_bound (BigEndian_Uint32 x) (2 ^ (32 - n)) ltac:(lia)).
  pose proof (Z.mod_le (BigEndian_Uint32 x) (2 ^ (32 - n)) ltac:(lia) ltac:(lia)).
  split; [lia|].
  assert (2 ^ 32 = 2 ^ n * 2 ^ (32 - n)) as E by (rewrite <-Z.pow_add_r by lia; f_equal; lia).
  rewrite E in *. set (p := 2 ^ (32 - n)) in *. set (q := BigEndian_Uint32 x / p) in *.
  assert (q < 2 ^ n) by (apply Z.div_lt_upper_bound; lia).
  assert (p * (q + 1) ≤ p * 2 ^ n) by (apply Z.mul_le_mono_nonneg_l; lia). lia.
Qed.

(** ** Lemmas: shapes of parsed addresses *)
Lemma digit_step_byte st c st' :
  is_digit c = true → is_byte st.1 → digit_step st c = Some st' → is_byte st'.1.
Proof.
  unfold digit_step, is_digit, is_byte. destruct st as [v n]. intros Hc Hv.
  case_bool_decide; [done|]. case_match eqn:E; [done|]. intros [= <-]. simpl in *. lia.
Qed.

Lemma v4_loop_shape s st fields q :
  is_byte st.1 → Forall is_byte fields → v4_loop s st fields = Some q → V4 q.
Proof.
  revert st fields. induction s as [|c s IH]; intros st fields Hst Hf; simpl.
  - case_bool_decide; [done|]. case_bool_decide as Hl; [|done]. intros [= <-].
    split; [rewrite length_app; simpl; lia|]. apply Forall_app; auto.
  - destruct (is_digit c) eqn:Hc.
    + destruct (digit_step st c) as [st'|] eqn:E; [|done]. simpl.
      apply IH; [by eapply digit_step_byte|done].
    + case_decide; [|done]. case_bool_decide; [done|]. case_bool_decide; [done|].
      apply IH; [done|]. apply Forall_app; auto.
Qed.

Lemma parseIPv4_V4 s q : parseIPv4 s = Some q → V4 q.
Proof. by apply v4_loop_shape. Qed.

Lemma hex_val_range c d : hex_val c = Some d → 0 ≤ d < 16.
Proof. unfold hex_val, is_digit. intros H. repeat case_match; simplify_eq; lia. Qed.

Lemma hex_run_range s off acc off' acc' rest :
  0 ≤ acc ≤ 65535 → hex_run s off acc = Some (off', acc', rest) → 0 ≤ acc' ≤ 65535.
Proof.
  revert off acc. induction s as [|c s IH]; intros off acc Hacc; simpl; [by intros [= _ <- _]|].
  destruct (hex_val c) as [d|] eqn:Ed; [|by intros [= _ <- _]].
  case_bool_decide; [done|]. case_match eqn:E; [done|].
  apply hex_val_range in Ed. apply IH. lia.
Qed.

Lemma word_bytes acc : 0 ≤ acc ≤ 65535 → Forall is_byte [acc / 256; acc mod 256].
Proof.
  intros. repeat constructor; unfold is_byte.
  - apply Z.div_pos; lia.
  - apply Z.div_lt_upper_bound; lia.
  - apply Z.mod_pos_bound; lia.
  - apply Z.mod_pos_bound; lia.
Qed.

Definition Bytes16 (b : list Z) : Prop := length b = 16%nat ∧ Forall is_byte b.

Lemma v6_loop_shape fuel ip ell s ip' ell' s' :
  Forall is_byte ip → (length ip + 2 * fuel = 16)%nat →
  v6_loop fuel ip ell s = Some (ip', ell', s') → Forall is_byte ip' ∧ (length ip' ≤ 16)%nat.
Proof.
  revert ip ell s. induction fuel as [|fuel IH]; intros ip ell s Hip Hlen; simpl.
  { intros [= <- _ _]. split; [done|lia]. }
  destruct (hex_run s 0 0) as [[[off acc] rest]|] eqn:E; [|done]. simpl.
  apply hex_run_range in E; [|lia]. pose proof (word_bytes acc E) as Hw.
  assert (Forall is_byte (ip ++ [acc / 256; acc mod 256])) as Hip' by (by apply Forall_app).
  assert (length (ip ++ [acc / 256; acc mod 256]%Z) + 2 * fuel = 16)%nat as Hlen'.
  { rewrite length_app. simpl. lia. }
  case_bool_decide; [done|]. destruct rest as [|c rest].
  { intros [= <- _ _]. split; [done|lia]. }
  case_decide; [|case_decide; [|done]].
  - destruct (negb _ && _); [done|]. case_bool_decide; [done|].
    destruct (parseIPv4 s) as [q|] eqn:Eq; [|done]. intros [= <- _ _].
    apply parseIPv4_V4 in Eq as [Hq1 Hq2]. rewrite length_app. split; [by apply Forall_app|lia].
  - destruct rest as [|c2 rest2]; [done|]. case_decide.
    + case_match; [done|]. destruct rest2; [|by apply IH].
      intros [= <- _ _]. split; [done|lia].
    + by apply IH.
Qed.

Lemma v6_finish_shape ip ell s b :
  Forall is_byte ip → (length ip ≤ 16)%nat → v6_finish (ip, ell, s) = Some b → Bytes16 b.
Proof.
  intros Hip Hlen. unfold v6_finish, Bytes16. case_bool_decide; [done|]. case_bool_decide.
  - destruct ell as [e|]; [|done]. intros [= <-]. split.
    + rewrite !length_app, length_replicate, length_take, length_drop. lia.
    + rewrite <-(take_drop e ip), Forall_app in Hip. destruct Hip.
      rewrite !Forall_app. split_and!; [done| |done]. by apply Forall_replicate.
  - case_match; [done|]. intros [= <-]. split; [lia|done].
Qed.

Lemma v6_run_shape ell s b :
  (r ← v6_loop 8 [] ell s; v6_finish r) = Some b → Bytes16 b.
Proof.
  destruct (v6_loop 8 [] ell s) as [[[ip e] s']|] eqn:E; [|done].
  apply v6_loop_shape in E as [??]; [by apply v6_finish_shape|done|done].
Qed.

Lemma v6_body_shape s b : v6_body s = Some b → Bytes16 b.
Proof.
  unfold v6_body. destruct (HasPrefix s "::"); [|apply v6_run_shape].
  destruct (drop_str 2 s) as [|c s']; [|apply v6_run_shape].
  intros [= <-]. split; [done|]. unfold is_byte. repeat constructor; lia.
Qed.

Lemma ParseAddr_shape s a :
  ParseAddr s = Some a → match a with Addr4 b => V4 b | Addr6 b _ => Bytes16 b end.
Proof.
  assert (parseIPv6 s = Some a → match a with Addr4 b => V4 b | Addr6 b _ => Bytes16 b end) as H6.
  { unfold parseIPv6. destruct (v6_zone s) as [[s1 z]|]; [|done]. simpl.
    destruct (v6_body s1) as [b|] eqn:E; [|done]. intros [= <-]. by apply v6_body_shape in E. }
  unfold ParseAddr. destruct (addr_kind s) as [[[] [] [] [] [] [] [] []]|]; try done.
  destruct (parseIPv4 s) as [q|] eqn:E; [|done]. intros [= <-]. by apply parseIPv4_V4 in E.
Qed.

Lemma ParseIP_shape s p : ParseIP s = Some p → Bytes16 p.
Proof.
  unfold ParseIP. destruct (ParseAddr s) as [a|] eqn:E; [|done]. simpl.
  apply ParseAddr_shape in E. case_bool_decide; [done|]. intros [= <-].
  destruct a as [b|b z]; [|done]. destruct E as [Hl Hb]. unfold As16. split.
  - rewrite length_app, Hl. done.
  - apply Forall_app. split; [|done]. unfold v4InV6Prefix, is_byte.
    repeat constructor; lia.
Qed.

Lemma To4_V4 p v : Bytes16 p → To4 p = Some v → V4 v.
Proof.
  intros [Hl Hb]. unfold To4. rewrite bool_decide_eq_false_2 by lia.
  case_bool_decide; [|done]. intros [= <-]. split; [rewrite length_drop; lia|].
  by apply Forall_drop.
Qed.

(** The text of an address and the text of an IPv4 address agree only when the
    address is that IPv4 address. *)
Lemma IP_String_dotted p b :
  Bytes16 p → V4 b → IP_String p = dotted b → To4 p = Some b.
Proof.
  intros Hp [Hl Hb]. unfold IP_String. destruct (Hp) as [Hl16 _].
  rewrite bool_decide_eq_false_2 by lia. destruct (To4 p) as [v|] eqn:E.
  - intros H. apply (To4_V4 p v) in E as [Hv1 Hv2]; [|done]. f_equal. by apply dotted_inj.
  - rewrite bool_decide_eq_true_2 by lia. intros H.
    pose proof (v6_string_colon p) as Hc. by rewrite H, dotted_no_colon in Hc.
Qed.

Lemma IP_String_4 b : length b = 4%nat → IP_String b = dotted b.
Proof.
  intros Hl. unfold IP_String, To4. rewrite bool_decide_eq_false_2 by lia.
  by rewrite bool_decide_eq_true_2.
Qed.
