(* ===== verification/GoURL.v ===== *)
(** * Go's [net/url] parser

    [url.Parse] of the standard library, as far as its error and the [Scheme],
    [Host], [Opaque] and [Path] fields of its result: the provider IDs of the
    cloud providers are URLs. *)
From S2P Require Import Prelude GoStr GoNet.
From stdpp Require Import options.

Definition is_alpha (c : ascii) : bool := is_lower c || is_upper c.
Definition is_alnum (c : ascii) : bool := is_alpha c || is_digit c.
Definition one_of (s : string) (c : ascii) : bool :=
  str_exists (λ d, bool_decide (d = c)) s.

(** [getScheme]: [None] is the missing-scheme error; [pre] are the scheme's
    bytes read so far.  Without a scheme the whole text remains. *)
Fixpoint scheme_loop (whole pre s : string) : option (string * string) :=
  match s with
  | "" => Some ("", whole)
  | String c s' =>
      if is_alpha c then scheme_loop whole (pre +:+ String c "") s'
      else if is_digit c || one_of "+-." c then
        if decide (pre = "") then Some ("", whole)
        else scheme_loop whole (pre +:+ String c "") s'
      else if decide (c = ":"%char) then
        if decide (pre = "") then None else Some (pre, s')
      else Some ("", whole)
  end.
Definition getScheme (s : string) : option (string * string) := scheme_loop s "" s.

Inductive encoding := encodeHost | encodeZone | encodeOther.

Definition host_char (c : ascii) : bool :=
  is_alnum c || one_of "!$&'()*+,;=:[]<>-_.~" c || bool_decide (code c = 34).

(** [unescape], [None] for its errors. *)
Fixpoint unescape (m : encoding) (s : string) : option string :=
  match s with
  | "" => Some ""
  | String c s1 =>
      if decide (c = "%"%char) then
        match s1 with
        | String a (String b s2) =>
            match hex_val a, hex_val b with
            | Some x, Some y =>
                let v := chr (Z.to_nat (x * 16 + y)) in
                let is25 := bool_decide (a = "2"%char ∧ b = "5"%char) in
                let bad := match m with
                           | encodeHost => (x <? 8) && negb is25
                           | encodeZone => negb is25 && negb (bool_decide (v = " "%char)) && negb (host_char v)
                           | encodeOther => false
                           end in
                if bad then None else String v <$> unescape m s2
            | _, _ => None
            end
        | _ => None
        end
      else
        let bad := match m with
                   | encodeOther => false
                   | _ => (code c <? 128) && negb (host_char c)
                   end in
        if bad then None else String c <$> unescape m s1
  end.

(** [validOptionalPort]. *)
Definition validOptionalPort (s : string) : bool :=
  match s with
  | "" => true
  | String c p => bool_decide (c = ":"%char) && str_forall is_digit p
  end.

(** [s[:i], s[i:]] at the first occurrence of the three bytes ["%25"]. *)
Fixpoint cut_at_25 (s : string) : option (string * string) :=
  if HasPrefix s "%25" then Some ("", s)
  else match s with
       | "" => None
       | String c s' => '(a, b) ← cut_at_25 s'; Some (String c a, b)
       end.

(** [parseHost]. *)
Definition parseHost (host : string) : option string :=
  if HasPrefix host "[" then
    '(pre, colonPort) ← cut_last_char "]" host;
    if negb (validOptionalPort colonPort) then None
    else match cut_at_25 pre with
         | Some (h1, z) =>
             a ← unescape encodeHost h1;
             b ← unescape encodeZone z;
             c ← unescape encodeHost (String "]" colonPort);
             Some (a +:+ b +:+ c)
         | None => unescape encodeHost host
         end
  else match cut_last_char ":" host with
       | Some (_, port) =>
           if str_forall is_digit port then unescape encodeHost host else None
       | None => unescape encodeHost host
       end.

Definition userinfo_char (c : ascii) : bool := is_alnum c || one_of "-._:~!$&'()*+,;=%@" c.

(** [parseAuthority]: the host, when user info and host are well formed. *)
Definition parseAuthority (authority : string) : option string :=
  match cut_last_char "@" authority with
  | None => parseHost authority
  | Some (userinfo, h) =>
      host ← parseHost h;
      if negb (str_forall userinfo_char userinfo) then None
      else match cut_char ":" userinfo with
           | None => _ ← unescape encodeOther userinfo; Some host
           | Some (u, p) => _ ← unescape encodeOther u; _ ← unescape encodeOther p; Some host
           end
  end.

Record URL := { Scheme : string; Opaque : string; Host : string; Path : string }.

Definition is_ctl (c : ascii) : bool := (code c <? 32) || (code c =? 127).

(** The query cut off [rest]; [ForceQuery] and [RawQuery] are not kept. *)
Definition cut_query (rest : string) : string :=
  match cut_char "?" rest with Some (a, _) => a | None => rest end.

Definition url_parse (raw : string) : option URL :=
  if str_exists is_ctl raw then None else
  if decide (raw = "*") then Some {| Scheme := ""; Opaque := ""; Host := ""; Path := "*" |} else
  '(scheme, rest) ← getScheme raw;
  let scheme := ToLower scheme in
  let rest := cut_query rest in
  if negb (HasPrefix rest "/") && negb (bool_decide (scheme = "")) then
    Some {| Scheme := scheme; Opaque := rest; Host := ""; Path := "" |}
  else if negb (HasPrefix rest "/") &&
          Contains (match cut_char "/" rest with Some (a, _) => a | None => rest end) ":" then None
  else if (negb (bool_decide (scheme = "")) || negb (HasPrefix rest "///")) && HasPrefix rest "//" then
    let auth := drop_str 2 rest in
    let '(authority, rest) :=
      match cut_char "/" auth with Some (a, b) => (a, String "/" b) | None => (auth, "") end in
    host ← parseAuthority authority;
    path ← unescape encodeOther rest;
    Some {| Scheme := scheme; Opaque := ""; Host := host; Path := path |}
  else
    path ← unescape encodeOther rest;
    Some {| Scheme := scheme; Opaque := ""; Host := ""; Path := path |}.

Definition Parse (s : string) : res URL :=
  let '(u, frag) := match cut_char "#" s with Some p => p | None => (s, "") end in
  match url_parse u with
  | None => Err (ErrExt ("parse " +:+ u))
  | Some r => match unescape encodeOther frag with
              | None => Err (ErrExt ("parse " +:+ s))
              | Some _ => Ok r
              end
  end.

Example Parse_ex1 : Host <$> Parse "aks-nebius://pool-1" = Ok "pool-1".
Proof. vm_compute. reflexivity. Qed.
Example Parse_ex2 : Scheme <$> Parse "azure:///subscriptions/x" = Ok "azure".
Proof. vm_compute. reflexivity. Qed.
Example Parse_ex3 : Parse "kind://a b" = Err (ErrExt "parse kind://a b").
Proof. vm_compute. reflexivity. Qed.

(** ** Lemmas *)

(** The bytes of a Kubernetes object name. *)
Definition name_char (c : ascii) : bool := is_lower c || is_digit c || one_of "-." c.

Lemma ascii_forall (P : ascii → bool) :
  forallb P (chr <$> seq 0 256) = true → ∀ c, P c = true.
Proof.
  intros H c. rewrite forallb_forall in H. apply H, list_elem_of_In, list_elem_of_fmap.
  exists (nat_of_ascii c). split; [symmetry; apply ascii_nat_embedding|].
  apply elem_of_seq. pose proof (nat_ascii_bounded c). lia.
Qed.

(** What name bytes are not, and that host parsing keeps them. *)
Definition name_char_facts (c : ascii) : bool :=
  implb (name_char c)
    (negb (is_ctl c) && host_char c && negb (one_of "%#?/@:[],=" c)).

Lemma name_char_spec c :
  name_char c = true →
  is_ctl c = false ∧ host_char c = true ∧ one_of "%#?/@:[],=" c = false.
Proof.
  pose proof (ascii_forall name_char_facts ltac:(vm_compute; reflexivity) c) as H.
  unfold name_char_facts in H. intros Hc. rewrite Hc in H. simpl in H.
  rewrite !andb_true_iff, !negb_true_iff in H. tauto.
Qed.

Lemma one_of_ne s c d : one_of s c = false → one_of s d = true → c ≠ d.
Proof. intros H1 H2 ->. congruence. Qed.

Lemma cut_char_name d s :
  one_of "%#?/@:[],=" d = true → str_forall name_char s = true → cut_char d s = None.
Proof.
  intros Hd. induction s as [|c s IH]; [done|]. simpl. intros [Hc Hs]%andb_true_iff.
  apply name_char_spec in Hc as (_ & _ & Hc).
  rewrite decide_False by (by eapply one_of_ne). by rewrite IH.
Qed.

Lemma cut_last_char_name d s :
  one_of "%#?/@:[],=" d = true → str_forall name_char s = true → cut_last_char d s = None.
Proof.
  intros Hd. induction s as [|c s IH]; [done|]. simpl. intros [Hc Hs]%andb_true_iff.
  apply name_char_spec in Hc as (_ & _ & Hc).
  by rewrite IH, decide_False by (done || by eapply one_of_ne).
Qed.

Lemma unescape_name s : str_forall name_char s = true → unescape encodeHost s = Some s.
Proof.
  induction s as [|c s IH]; [done|]. cbn [str_forall unescape]. intros [Hc Hs]%andb_true_iff.
  apply name_char_spec in Hc as (_ & Hh & Hc).
  rewrite decide_False by (by eapply one_of_ne). rewrite Hh, andb_false_r, IH by done. done.
Qed.

Lemma HasPrefix_char_name d s :
  one_of "%#?/@:[],=" d = true → str_forall name_char s = true → HasPrefix s (String d "") = false.
Proof.
  intros Hd. destruct s as [|c s]; [done|]. cbn [str_forall]. intros [Hc _]%andb_true_iff.
  apply name_char_spec in Hc as (_ & _ & Hc). unfold HasPrefix. simpl.
  destruct (ascii_dec d c) as [->|]; [congruence|done].
Qed.

Lemma parseAuthority_name s : str_forall name_char s = true → parseAuthority s = Some s.
Proof.
  intros H. unfold parseAuthority. rewrite cut_last_char_name by done. unfold parseHost.
  rewrite HasPrefix_char_name, cut_last_char_name by done. by apply unescape_name.
Qed.

Lemma str_exists_ctl_name s : str_forall name_char s = true → str_exists is_ctl s = false.
Proof.
  induction s as [|c s IH]; [done|]. simpl. intros [Hc Hs]%andb_true_iff.
  apply name_char_spec in Hc as (-> & _). by apply IH.
Qed.

Lemma str_exists_app p s1 s2 : str_exists p (s1 +:+ s2) = str_exists p s1 || str_exists p s2.
Proof.
  induction s1 as [|c s1 IH]; [done|].
  change (String c s1 +:+ s2) with (String c (s1 +:+ s2)). simpl. by rewrite IH, orb_assoc.
Qed.

Lemma cut_char_app d s1 s2 :
  cut_char d s1 = None → cut_char d s2 = None → cut_char d (s1 +:+ s2) = None.
Proof.
  induction s1 as [|c s1 IH]; [done|].
  change (String c s1 +:+ s2) with (String c (s1 +:+ s2)). simpl.
  case_decide; [done|]. intros H1 H2. rewrite IH; [done|by destruct (cut_char d s1) as [[]|]|done].
Qed.

Definition scheme_char (c : ascii) : bool := is_lower c || bool_decide (c = "-"%char).

(** A scheme of this repository: lower-case letters and dashes, a letter first. *)
Definition scheme_ok (s : string) : bool :=
  match s with "" => false | String c s => is_lower c && str_forall scheme_char s end.

Lemma scheme_loop_app whole pre s rest :
  pre ≠ "" → str_forall scheme_char s = true →
  scheme_loop whole pre (s +:+ String ":" rest) = Some (pre +:+ s, rest).
Proof.
  revert pre. induction s as [|c s IH]; intros pre Hpre Hs.
  { simpl. rewrite decide_False by done. by rewrite str_app_nil_r. }
  change (String c s +:+ String ":" rest) with (String c (s +:+ String ":" rest)).
  cbn [str_forall scheme_loop] in *. apply andb_true_iff in Hs as [Hc Hs].
  assert (pre +:+ String c "" ≠ "") as Hne by (by destruct pre).
  assert ((pre +:+ String c "") +:+ s = pre +:+ String c s) as Heq by (by rewrite str_app_assoc).
  destruct (is_alpha c) eqn:Ha; [by rewrite IH, Heq|].
  unfold scheme_char in Hc. unfold is_alpha in Ha. apply orb_false_iff in Ha as [Hl _].
  rewrite Hl in Hc. apply bool_decide_eq_true in Hc as ->. simpl.
  rewrite decide_False by done. by rewrite IH, Heq.
Qed.

Lemma getScheme_ok s rest :
  scheme_ok s = true → getScheme (s +:+ String ":" rest) = Some (s, rest).
Proof.
  destruct s as [|c s]; [done|]. cbn [scheme_ok]. intros [Hc Hs]%andb_true_iff.
  unfold getScheme. change (String c s +:+ String ":" rest) with (String c (s +:+ String ":" rest)).
  cbn [scheme_loop]. unfold is_alpha. rewrite Hc. simpl orb. cbn iota.
  by rewrite scheme_loop_app.
Qed.

Definition scheme_char_facts (c : ascii) : bool :=
  implb (scheme_char c) (name_char c && bool_decide (lower_char c = c)).

Lemma scheme_char_spec c :
  scheme_char c = true → name_char c = true ∧ lower_char c = c.
Proof.
  pose proof (ascii_forall scheme_char_facts ltac:(vm_compute; reflexivity) c) as H.
  unfold scheme_char_facts in H. intros Hc. rewrite Hc in H. simpl in H.
  rewrite andb_true_iff, bool_decide_eq_true in H. done.
Qed.

Lemma scheme_str_spec s :
  str_forall scheme_char s = true → str_forall name_char s = true ∧ ToLower s = s.
Proof.
  induction s as [|c s IH]; [done|]. cbn [str_forall]. unfold ToLower in *. cbn [str_map].
  intros [Hc Hs]%andb_true_iff. apply scheme_char_spec in Hc as [-> ->].
  destruct (IH Hs) as [-> ->]. done.
Qed.

Lemma scheme_ok_spec s : scheme_ok s = true → str_forall scheme_char s = true ∧ s ≠ "".
Proof.
  destruct s as [|c s]; [done|]. cbn [scheme_ok str_forall]. intros [Hc ->]%andb_true_iff.
  unfold scheme_char. by rewrite Hc.
Qed.

Lemma HasPrefix_slashes s : str_forall name_char s = true →
  HasPrefix (String "/" (String "/" s)) "/" = true ∧ HasPrefix (String "/" (String "/" s)) "//" = true.
Proof. by destruct s. Qed.

(** *** Authorities: name bytes and colons *)
Definition auth_char (c : ascii) : bool := name_char c || bool_decide (c = ":"%char).

Definition auth_char_facts (c : ascii) : bool :=
  implb (auth_char c) (negb (is_ctl c) && host_char c && negb (one_of "%#?/@[]" c)).

Lemma auth_char_spec c :
  auth_char c = true → is_ctl c = false ∧ host_char c = true ∧ one_of "%#?/@[]" c = false.
Proof.
  pose proof (ascii_forall auth_char_facts ltac:(vm_compute; reflexivity) c) as H.
  unfold auth_char_facts in H. intros Hc. rewrite Hc in H. simpl in H.
  rewrite !andb_true_iff, !negb_true_iff in H. tauto.
Qed.

Lemma name_auth s : str_forall name_char s = true → str_forall auth_char s = true.
Proof.
  induction s as [|c s IH]; [done|]. cbn [str_forall]. intros [Hc Hs]%andb_true_iff.
  rewrite IH by done. unfold auth_char. by rewrite Hc.
Qed.

Lemma cut_char_auth d s :
  one_of "%#?/@[]" d = true → str_forall auth_char s = true → cut_char d s = None.
Proof.
  intros Hd. induction s as [|c s IH]; [done|]. simpl. intros [Hc Hs]%andb_true_iff.
  apply auth_char_spec in Hc as (_ & _ & Hc).
  rewrite decide_False by (by eapply one_of_ne). by rewrite IH.
Qed.

Lemma cut_last_char_auth d s :
  one_of "%#?/@[]" d = true → str_forall auth_char s = true → cut_last_char d s = None.
Proof.
  intros Hd. induction s as [|c s IH]; [done|]. simpl. intros [Hc Hs]%andb_true_iff.
  apply auth_char_spec in Hc as (_ & _ & Hc).
  by rewrite IH, decide_False by (done || by eapply one_of_ne).
Qed.

Lemma unescape_auth s : str_forall auth_char s = true → unescape encodeHost s = Some s.
Proof.
  induction s as [|c s IH]; [done|]. cbn [str_forall unescape]. intros [Hc Hs]%andb_true_iff.
  apply auth_char_spec in Hc as (_ & Hh & Hc).
  rewrite decide_False by (by eapply one_of_ne). rewrite Hh, andb_false_r, IH by done. done.
Qed.

Lemma str_exists_ctl_auth s : str_forall auth_char s = true → str_exists is_ctl s = false.
Proof.
  induction s as [|c s IH]; [done|]. simpl. intros [Hc Hs]%andb_true_iff.
  apply auth_char_spec in Hc as (-> & _). by apply IH.
Qed.

Lemma HasPrefix_bracket_auth s : str_forall auth_char s = true → HasPrefix s "[" = false.
Proof.
  destruct s as [|c s]; [done|]. cbn [str_forall]. intros [Hc _]%andb_true_iff.
  apply auth_char_spec in Hc as (_ & _ & Hc). apply not_true_iff_false.
  intros [t Ht]%HasPrefix_spec. injection Ht as -> _. done.
Qed.

(** A URL of a scheme and an authority parses to that scheme and host. *)
Lemma Parse_scheme_auth scheme auth :
  scheme_ok scheme = true → str_forall auth_char auth = true → parseAuthority auth = Some auth →
  Parse (scheme +:+ "://" +:+ auth) =
  Ok {| Scheme := scheme; Opaque := ""; Host := auth; Path := "" |}.
Proof.
  intros Hs Hn Hauth. destruct (scheme_ok_spec _ Hs) as [Hsc Hne].
  destruct (scheme_str_spec _ Hsc) as [Hsn Hlow].
  set (rest := String "/" (String "/" auth)).
  assert (scheme +:+ "://" +:+ auth = scheme +:+ String ":" rest) as -> by done.
  assert (cut_char "#" (scheme +:+ String ":" rest) = None) as Hfrag.
  { apply cut_char_app; [by apply cut_char_name|]. unfold rest. cbn [cut_char].
    rewrite !decide_False by done. by rewrite cut_char_auth. }
  assert (url_parse (scheme +:+ String ":" rest) =
          Some {| Scheme := scheme; Opaque := ""; Host := auth; Path := "" |}) as Hu.
  { unfold url_parse. rewrite str_exists_app, str_exists_ctl_name by done. cbn [orb].
    assert (str_exists is_ctl (String ":" rest) = false) as ->
      by (unfold rest; cbn [str_exists]; by rewrite str_exists_ctl_auth).
    rewrite decide_False by (by destruct scheme as [|? []]).
    rewrite getScheme_ok by done. cbn [mbind option_bind].
    rewrite Hlow. unfold cut_query.
    assert (cut_char "?" rest = None) as ->.
    { unfold rest. cbn [cut_char]. rewrite !decide_False by done. by rewrite cut_char_auth. }
    assert (HasPrefix rest "/" = true ∧ HasPrefix rest "//" = true) as [-> ->]
      by (unfold rest; by destruct auth).
    rewrite bool_decide_eq_false_2 by done. cbn [negb andb orb].
    change (drop_str 2 rest) with auth. by rewrite cut_char_auth, Hauth by done. }
  unfold Parse. by rewrite Hfrag, Hu.
Qed.

(** A URL of a scheme and an object name parses to that scheme and host. *)
Lemma Parse_scheme_name scheme name :
  scheme_ok scheme = true → str_forall name_char name = true →
  Parse (scheme +:+ "://" +:+ name) =
  Ok {| Scheme := scheme; Opaque := ""; Host := name; Path := "" |}.
Proof. intros Hs Hn. by apply Parse_scheme_auth; [|apply name_auth|apply parseAuthority_name]. Qed.

(** ** Host names and ports: [URL.Hostname] and [URL.Port] *)
Definition HasSuffix_bracket (s : string) : bool :=
  match cut_last_char "]" s with Some (_, "") => true | _ => false end.
Definition strip_brackets (host : string) : string :=
  if HasPrefix host "[" && HasSuffix_bracket host then
    take_str (String.length host - 2) (drop_str 1 host)
  else host.
Definition splitHostPort (hostPort : string) : string * string :=
  match cut_last_char ":" hostPort with
  | Some (h, p) =>
      if str_forall is_digit p then (strip_brackets h, p) else (strip_brackets hostPort, "")
  | None => (strip_brackets hostPort, "")
  end.
Definition Hostname (u : URL) : string := (splitHostPort (Host u)).1.
Definition Port (u : URL) : string := (splitHostPort (Host u)).2.

Example Hostname_ex : splitHostPort "[::1]:443" = ("::1", "443").
Proof. reflexivity. Qed.

Lemma cut_last_char_colon name port :
  str_forall is_digit port = true →
  cut_last_char ":" (name +:+ String ":" port) = Some (name, port).
Proof.
  intros Hp. assert (cut_last_char ":" port = None) as Hn.
  { induction port as [|c p IH]; [done|]. simpl. cbn [str_forall] in Hp.
    apply andb_true_iff in Hp as [Hc Hp]. rewrite IH by done. rewrite decide_False; [done|]. by intros ->. }
  induction name as [|c name IH].
  - change (cut_last_char ":" (String ":" port) = Some ("", port)). cbn [cut_last_char]. by rewrite Hn.
  - change (cut_last_char ":" (String c (name +:+ String ":" port)) = Some (String c name, port)).
    cbn [cut_last_char]. by rewrite IH.
Qed.

Lemma strip_brackets_name name : str_forall name_char name = true → strip_brackets name = name.
Proof. intros H. unfold strip_brackets. by rewrite HasPrefix_char_name. Qed.

(** [scheme://name] and [scheme://name:port]. *)
Lemma Parse_host scheme name :
  scheme_ok scheme = true → str_forall name_char name = true →
  ∃ u, Parse (scheme +:+ "://" +:+ name) = Ok u ∧ Scheme u = scheme ∧ Hostname u = name ∧ Port u = "".
Proof.
  intros Hs Hn. eexists. split; [by apply Parse_scheme_name|]. unfold Hostname, Port. cbn [Host Scheme].
  unfold splitHostPort. rewrite cut_last_char_name by done. by rewrite strip_brackets_name.
Qed.

Lemma digit_auth port : str_forall is_digit port = true → str_forall auth_char port = true.
Proof.
  induction port as [|c p IH]; [done|]. cbn [str_forall]. intros [Hc Hp]%andb_true_iff.
  rewrite IH by done. unfold auth_char, name_char. rewrite Hc. by destruct (is_lower c).
Qed.

Lemma Parse_host_port scheme name port :
  scheme_ok scheme = true → str_forall name_char name = true → str_forall is_digit port = true →
  ∃ u, Parse (scheme +:+ "://" +:+ name +:+ ":" +:+ port) = Ok u ∧
       Scheme u = scheme ∧ Hostname u = name ∧ Port u = port.
Proof.
  intros Hs Hn Hp. set (auth := name +:+ String ":" port).
  assert (str_forall auth_char auth = true) as Ha.
  { unfold auth. rewrite str_forall_app, name_auth by done. cbn [str_forall]. by rewrite digit_auth. }
  eexists. split.
  - apply (Parse_scheme_auth scheme auth); [done|done|]. unfold parseAuthority.
    rewrite cut_last_char_auth by done. unfold parseHost. rewrite HasPrefix_bracket_auth by done.
    unfold auth at 1. rewrite cut_last_char_colon, Hp by done. by apply unescape_auth.
  - unfold Hostname, Port. cbn [Host Scheme]. unfold splitHostPort, auth.
    rewrite cut_last_char_colon, Hp by done. by rewrite strip_brackets_name.
Qed.
