(* ===== verification/Karp.v ===== *)
(** * Kubernetes and Karpenter objects

    The object types of the Kubernetes and Karpenter APIs, with the fields the
    source reads or writes, the reasons of Kubernetes API errors, and the label
    keys and resource names of those APIs the source names. *)
From S2P Require Import Prelude GoStr.
From stdpp Require Import options.

(** ** API errors *)
Inductive K8sReason := ReasonNotFound | ReasonConflict.

#[global] Instance K8sReason_eq_dec : EqDecision K8sReason.
Proof. solve_decision. Defined.

Definition first_some {A} (l : list (option A)) : option A :=
  foldr (λ o r, match o with Some a => Some a | None => r end) None l.

(** [apierrors.ReasonForError]: the first API status in the wrap chain. *)
Fixpoint k8s_reason (e : error) : option K8sReason :=
  match e with
  | ErrK8sNotFound _ => Some ReasonNotFound
  | ErrK8sConflict _ => Some ReasonConflict
  | Errorf _ _ ws => first_some (map k8s_reason ws)
  | ErrJoin es => first_some (map k8s_reason es)
  | _ => None
  end.

Definition k8s_IsNotFound (e : error) : bool :=
  bool_decide (k8s_reason e = Some ReasonNotFound).
Definition k8s_IsConflict (e : error) : bool :=
  bool_decide (k8s_reason e = Some ReasonConflict).

(** [client.IgnoreNotFound]. *)
Definition IgnoreNotFound (e : error) : option error :=
  if k8s_IsNotFound e then None else Some e.

(** ** Objects *)
Record GroupKind := { gk_Group : string; gk_Kind : string }.

#[global] Instance GroupKind_eq_dec : EqDecision GroupKind.
Proof. solve_decision. Defined.
#[global] Instance GroupKind_countable : Countable GroupKind.
Proof.
  refine (inj_countable' (λ g, (gk_Group g, gk_Kind g)) (λ p, {| gk_Group := p.1; gk_Kind := p.2 |}) _).
  by intros [].
Defined.

Record NodeClassReference := { ref_Group : string; ref_Kind : string; ref_Name : string }.
#[global] Instance NodeClassReference_eq_dec : EqDecision NodeClassReference.
Proof. solve_decision. Defined.

(** [NodeClassReference.GroupKind]; a nil receiver panics. *)
Definition ref_GroupKind (r : option NodeClassReference) : res GroupKind :=
  match r with
  | Some r => Ok {| gk_Group := ref_Group r; gk_Kind := ref_Kind r |}
  | None => Panic "nil pointer dereference"
  end.

(** One element of [NodeClaim.Spec.Requirements]. *)
Record NodeSelectorRequirement := {
  req_Key : string; req_Operator : string; req_Values : list string; req_MinValues : option Z;
}.
#[global] Instance NodeSelectorRequirement_eq_dec : EqDecision NodeSelectorRequirement.
Proof. solve_decision. Defined.

(** Quantities are their value as an integer number of units. *)
Record NodeClaim := {
  nc_Name : string;
  nc_Labels : gmap string string;
  nc_CreationTimestamp : Z;
  nc_NodeClassRef : option NodeClassReference;
  nc_Requirements : list NodeSelectorRequirement;
  nc_Requests : gmap string Z;
  nc_ProviderID : string;
  nc_Capacity : gmap string Z;
  nc_Allocatable : gmap string Z;
}.
#[global] Instance NodeClaim_eq_dec : EqDecision NodeClaim.
Proof. solve_decision. Defined.

Record NodePool := { np_Name : string; np_NodeClassRef : option NodeClassReference }.

Record NodeAddress := { addr_Type : string; addr_Address : string }.
#[global] Instance NodeAddress_eq_dec : EqDecision NodeAddress.
Proof. solve_decision. Defined.

Record Node := {
  node_Name : string;
  node_Labels : gmap string string;
  node_Addresses : list NodeAddress;
  node_ProviderID : string;
}.
#[global] Instance Node_eq_dec : EqDecision Node.
Proof. solve_decision. Defined.

Definition NodeInternalIP : string := "InternalIP".

(** ** Label keys and resource names *)
Definition LabelInstanceTypeStable : string := "node.kubernetes.io/instance-type".
Definition LabelTopologyZone : string := "topology.kubernetes.io/zone".
Definition LabelTopologyRegion : string := "topology.kubernetes.io/region".
Definition LabelOSStable : string := "kubernetes.io/os".
Definition LabelArchStable : string := "kubernetes.io/arch".
Definition CapacityTypeLabelKey : string := "karpenter.sh/capacity-type".
Definition CapacityTypeOnDemand : string := "on-demand".
Definition CapacityTypeSpot : string := "spot".
Definition CapacityTypeReserved : string := "reserved".
Definition ResourceCPU : string := "cpu".
Definition ResourceMemory : string := "memory".
Definition ResourceEphemeralStorage : string := "ephemeral-storage".
Definition ResourcePods : string := "pods".
Definition ResourceStorage : string := "storage".

(** A taint of the core API. *)
Record Taint := { taint_Key : string; taint_Value : string; taint_Effect : string }.
#[global] Instance Taint_eq_dec : EqDecision Taint.
Proof. solve_decision. Defined.

Definition UnregisteredNoExecuteTaint : Taint :=
  {| taint_Key := "karpenter.sh/unregistered"; taint_Value := ""; taint_Effect := "NoExecute" |}.
