(* ===== verification/IPAllocator.v ===== *)
(** * The WireGuard peer IP allocator

    [karpenter/pkg/utils/wireguard/allocator.go]: the choice of a free address
    of an IPv4 block ([AllocateRandomIP]), the allocator with its pre-allocated
    addresses ([AllocateIP], [cleanup]), and the system of allocator, nodes and
    node claims with its uniqueness invariant. *)
From S2P Require Import Prelude GoStr GoNet Karp.
From stdpp Require Import options.

(** ** Choice of an address *)

(** [rand.IntN(n)]: [rnd] is the value the generator draws. *)
Definition IntN (rnd n : Z) : Z := rnd mod n.

(** The map key of one allocated address: IPv4 addresses in their 4-byte form. *)
Definition normalize_ip (ip : string) : option string :=
  parsed ← ParseIP ip;
  Some (IP_String (match To4 parsed with Some v4 => v4 | None => parsed end)).

(** Lines 189-200: the set of taken addresses, or the first that does not parse. *)
Fixpoint allocated_set (ips : list string) (allocated : gset string) : res (gset string) :=
  match ips with
  | [] => Ok allocated
  | ip :: ips =>
      match normalize_ip ip with
      | None => Err (Errorf "parsing allocated IP %q: invalid IP address" [ip] [])
      | Some s => allocated_set ips ({[ s ]} ∪ allocated)
      end
  end.

(** The text of the address at [offset] in the block; the sum is a uint32 sum. *)
Definition candidate (networkAddr offset : Z) : string :=
  IP_String (BigEndian_PutUint32 (u32 (networkAddr + offset))).

(** Lines 212-225: the range of usable offsets of a block, in uint32 arithmetic. *)
Definition host_range (ones bits : Z) : Z * Z :=
  let hostBits := bits - ones in
  let totalHosts := u32 (Z.shiftl 1 hostBits) in
  if hostBits <=? 1 then (0, u32 (totalHosts - 1)) else (1, u32 (totalHosts - 2)).

(** Lines 228-236: the free offsets, counting up from [offset] in uint32. *)
Fixpoint free_loop (fuel : nat) (allocated : gset string) (networkAddr end_ offset : Z)
    (free : list Z) : option (list Z) :=
  match fuel with
  | O => None
  | S fuel =>
      if offset <=? end_ then
        free_loop fuel allocated networkAddr end_ (u32 (offset + 1))
          (if bool_decide (candidate networkAddr offset ∈ allocated)
           then free else free ++ [offset])
      else Some free
  end.

Definition AllocateRandomIP (rnd : Z) (cidr : string) (allocatedIPs : list string) : res string :=
  match ParseCIDR cidr with
  | None => Err (Errorf "parsing CIDR %q: %w" [cidr] [ErrExt ("invalid CIDR address: " +:+ cidr)])
  | Some (_, ipNet) =>
      allocated ← allocated_set allocatedIPs ∅;
      match To4 (IPNet_IP ipNet) with
      | None => Err (Errorf "only IPv4 CIDRs are supported, got %q" [cidr] [])
      | Some networkIP =>
          let networkAddr := BigEndian_Uint32 networkIP in
          let '(ones, bits) := Size (IPNet_Mask ipNet) in
          if negb (bits =? 32) then
            Err (Errorf "only IPv4 CIDRs are supported, got %q" [cidr] [])
          else
            let '(start, end_) := host_range ones bits in
            let rangeSize := u32 (end_ - start + 1) in
            match free_loop (S (Z.to_nat rangeSize)) allocated networkAddr end_ start [] with
            | None => Panic "loop does not end"
            | Some [] => Err (Errorf "no free IP addresses available in CIDR %q" [cidr] [])
            | Some free =>
                let chosen := nth (Z.to_nat (IntN rnd (Z.of_nat (length free)))) free 0 in
                Ok (candidate networkAddr chosen)
            end
      end
  end.

Example AllocateRandomIP_ex1 :
  AllocateRandomIP 5 "10.1.2.0/29" ["10.1.2.1"; "::ffff:10.1.2.3"] = Ok "10.1.2.4".
Proof. vm_compute. reflexivity. Qed.
Example AllocateRandomIP_ex2 :
  is_Err (AllocateRandomIP 0 "10.1.2.0/30" ["10.1.2.1"; "10.1.2.2"]) = true.
Proof. vm_compute. reflexivity. Qed.

(** ** The allocator *)

(** The allocator's [preAllocated]: NodeClass name to IP to NodeClaim name. *)
Notation PreAllocated := (gmap string (gmap string string)).

Record IPAllocator := {
  groupKind : GroupKind;
  preAllocated : PreAllocated;
  running : bool;  (* the cleanup goroutine has not been cancelled *)
}.

(** The informer cache: nodes by a label's value, and a NodeClaim by name. *)
Record Cache := {
  cache_List : string → string → res (list Node);
  cache_Get : string → option error;
}.

Definition NewIPAllocator (gk : GroupKind) : IPAllocator :=
  {| groupKind := gk; preAllocated := ∅; running := true |}.

Definition Close (a : IPAllocator) : IPAllocator :=
  {| groupKind := groupKind a; preAllocated := preAllocated a; running := false |}.

Definition set_preAllocated (f : PreAllocated → PreAllocated) (a : IPAllocator) : IPAllocator :=
  {| groupKind := groupKind a; preAllocated := f (preAllocated a); running := running a |}.

(** Lines 81-93: the internal addresses of the nodes. *)
Definition node_ips (n : Node) : list string :=
  addr_Address <$> filter (λ a, addr_Type a = NodeInternalIP) (node_Addresses n).
Definition confirmed_ips (nodes : list Node) : gset string :=
  list_to_set (nodes ≫= node_ips).

(** Lines 102-106: drop the pre-allocated addresses that are on a node now. *)
Definition reconcile_pre (confirmed : gset string) (pre : gmap string string) : gmap string string :=
  foldl (λ m ip, if bool_decide (ip ∈ confirmed) then delete ip m else m) pre
    (map_to_list pre).*1.

Section allocator.
(** [karpv1.NodeClassLabelKey], and the order in which a Go map is ranged over. *)
Context (NodeClassLabelKey : GroupKind → string) (range : list string → list string).

Definition AllocateIP (cache : Cache) (rnd : Z) (cidr nodeClassName nodeClaimName : string)
    : M IPAllocator string := λ a,
  match cache_List cache (NodeClassLabelKey (groupKind a)) nodeClassName with
  | Err e => (Err (Errorf "listing nodes for nodeclass %q: %w" [nodeClassName] [e]), a)
  | Panic p => (Panic p, a)
  | Ok nodes =>
      let confirmed := confirmed_ips nodes in
      let preAlloc := reconcile_pre confirmed (preAllocated a !!! nodeClassName) in
      let a := set_preAllocated <[nodeClassName := preAlloc]> a in
      let all := range (elements confirmed) ++ range (map_to_list preAlloc).*1 in
      match AllocateRandomIP rnd cidr all with
      | Err e => (Err (ErrInsufficientCapacity
                         (Errorf "allocating wireguard peer IP: %w" [] [e])), a)
      | Panic p => (Panic p, a)
      | Ok peerIP =>
          (Ok peerIP,
           set_preAllocated <[nodeClassName := <[peerIP := nodeClaimName]> preAlloc]> a)
      end
  end.
End allocator.

(** Lines 157-167: whether the cleanup deletes the entry of a NodeClaim. *)
Definition claim_gone (cache : Cache) (nodeClaimName : string) : bool :=
  match cache_Get cache nodeClaimName with
  | Some e => k8s_IsNotFound e
  | None => false
  end.

Definition cleanup_class (cache : Cache) (pre : gmap string string) : gmap string string :=
  foldl (λ m '(ip, claim), if claim_gone cache claim then delete ip m else m) pre
    (map_to_list pre).

Definition cleanup (cache : Cache) (a : IPAllocator) : IPAllocator :=
  set_preAllocated (λ pre,
    foldl (λ m '(class, preAlloc),
             let preAlloc := cleanup_class cache preAlloc in
             if bool_decide (preAlloc = ∅) then delete class m
             else <[class := preAlloc]> m)
      pre (map_to_list pre)) a.

(** One tick of the cleanup goroutine: nothing once [Close] cancelled it. *)
Definition cleanup_tick (cache : Cache) (a : IPAllocator) : IPAllocator :=
  if running a then cleanup cache a else a.

(** ** Lemmas: the loop over the offsets *)
Lemma free_loop_spec fuel allocated w end_ offset free :
  0 ≤ offset ≤ end_ + 1 → end_ + 1 < 2 ^ 32 → end_ + 1 - offset < Z.of_nat fuel →
  free_loop fuel allocated w end_ offset free =
  Some (free ++ filter (λ o, candidate w o ∉ allocated) (seqZ offset (end_ + 1 - offset))).
Proof.
  revert offset free. induction fuel as [|fuel IH]; intros offset free Ho He Hf; [lia|].
  cbn [free_loop]. destruct (Z.leb_spec offset end_) as [Hle|Hgt].
  - rewrite u32_small, IH by lia. rewrite (seqZ_cons offset) by lia.
    replace (Z.pred (end_ + 1 - offset)) with (end_ + 1 - (offset + 1)) by lia.
    replace (Z.succ offset) with (offset + 1) by lia.
    rewrite filter_cons. case_bool_decide; case_decide; try done. by rewrite <-app_assoc.
  - replace (end_ + 1 - offset) with 0 by lia. by rewrite app_nil_r.
Qed.

(** The usable offsets of a block with [n] mask bits, as numbers. *)
Definition first_host (n : Z) : Z := if 32 - n <=? 1 then 0 else 1.
Definition last_host (n : Z) : Z :=
  if 32 - n <=? 1 then 2 ^ (32 - n) - 1 else 2 ^ (32 - n) - 2.

Lemma host_bounds n : 0 ≤ n ≤ 32 →
  0 ≤ first_host n ≤ last_host n + 1 ∧ last_host n < 2 ^ (32 - n) ∧ last_host n + 1 < 2 ^ 32.
Proof.
  intros Hn. unfold first_host, last_host.
  assert (2 ^ (32 - n) ≤ 2 ^ 32) by (apply Z.pow_le_mono_r; lia).
  destruct (Z.leb_spec (32 - n) 1).
  - assert (2 ^ (32 - n) ≤ 2 ^ 1) by (apply Z.pow_le_mono_r; lia).
    pose proof (Z.pow_pos_nonneg 2 (32 - n)). lia.
  - assert (2 ^ 2 ≤ 2 ^ (32 - n)) by (apply Z.pow_le_mono_r; lia). lia.
Qed.

(** The uint32 computation of the range gives these numbers, [/0] included,
    where the shift and the subtraction both wrap. *)
Lemma host_range_spec n : 0 ≤ n ≤ 32 → host_range n 32 = (first_host n, last_host n).
Proof.
  intros Hn. unfold host_range, first_host, last_host. rewrite Z.shiftl_mul_pow2, Z.mul_1_l by lia.
  destruct (Z.leb_spec (32 - n) 1).
  - assert (2 ^ (32 - n) ≤ 2 ^ 1) by (apply Z.pow_le_mono_r; lia).
    pose proof (Z.pow_pos_nonneg 2 (32 - n)).
    rewrite (u32_small (2 ^ (32 - n))), u32_small by lia. done.
  - destruct (decide (n = 0)) as [->|]; [done|].
    assert (2 ^ 2 ≤ 2 ^ (32 - n)) by (apply Z.pow_le_mono_r; lia).
    assert (2 ^ (32 - n) < 2 ^ 32) by (apply Z.pow_lt_mono_r; lia).
    rewrite (u32_small (2 ^ (32 - n))), u32_small by lia. done.
Qed.

(** ** Lemmas: IPv4 blocks *)

(** The network word and the mask length of a CIDR the allocator accepts. *)
Definition ipv4_block (cidr : string) : option (Z * Z) :=
  '(_, net) ← ParseCIDR cidr;
  v ← To4 (IPNet_IP net);
  if bool_decide ((Size (IPNet_Mask net)).2 = 32)
  then Some (BigEndian_Uint32 v, (Size (IPNet_Mask net)).1) else None.

Lemma dtoi_nonneg s acc n : 0 ≤ acc → dtoi s acc = Some n → 0 ≤ n.
Proof.
  revert acc. induction s as [|c s IH]; intros acc Hacc; simpl; [by intros [= <-]|].
  destruct (is_digit c) eqn:E; [|done]. case_match; [done|]. apply IH.
  unfold is_digit in E. lia.
Qed.

Lemma length_mask_bytes len n : length (mask_bytes len n) = len.
Proof. revert n. induction len as [|len IH]; intros n; simpl; [done|]. case_match; simpl; by rewrite IH. Qed.

(** A parsed block is an IPv4 block with its network masked, or has a 16-byte mask. *)
Lemma ParseCIDR_shape cidr a net :
  ParseCIDR cidr = Some (a, net) →
  (∃ b n, V4 b ∧ 0 ≤ n ≤ 32 ∧ IPNet_Mask net = CIDRMask n 32 ∧
          IPNet_IP net = zip_with Z.land b (CIDRMask n 32))
  ∨ length (IPNet_Mask net) = 16%nat.
Proof.
  unfold ParseCIDR. destruct (cut_char "/" cidr) as [[addr mask]|]; [|done]. simpl.
  destruct (ParseAddr addr) as [ad|] eqn:Ea; [|done]. simpl.
  destruct mask as [|c mask]; [done|].
  destruct (dtoi (String c mask) 0) as [n|] eqn:En; [|done]. cbn [mbind option_bind].
  apply dtoi_nonneg in En; [|lia]. case_bool_decide; [done|].
  destruct (Z.ltb_spec (BitLen ad) n) as [|Hle]; [done|].
  intros [= _ <-]. destruct ad as [b|b z]; simpl in *.
  - left. apply ParseAddr_shape in Ea. exists b, n. destruct (CIDRMask_32 n) as ([Hm ?] & ? & ?); [lia|].
    split_and!; [done|lia|lia|done|]. destruct Ea as [Hl Hb]. unfold Mask. simpl.
    rewrite (bool_decide_eq_false_2 (length (CIDRMask n 32) = 16%nat ∧ _)) by lia.
    rewrite !(bool_decide_eq_true_2 (_ ∧ _)) by (by rewrite Hl).
    rewrite drop_0. by rewrite bool_decide_eq_true_2 by lia.
  - right. unfold CIDRMask. by rewrite length_mask_bytes.
Qed.

Lemma ipv4_block_inv cidr a net v :
  ParseCIDR cidr = Some (a, net) → To4 (IPNet_IP net) = Some v → (Size (IPNet_Mask net)).2 = 32 →
  ∃ w n, ipv4_block cidr = Some (w, n) ∧ w = BigEndian_Uint32 v ∧ Size (IPNet_Mask net) = (n, 32)
         ∧ 0 ≤ n ≤ 32 ∧ 0 ≤ w ∧ w mod 2 ^ (32 - n) = 0 ∧ w + 2 ^ (32 - n) ≤ 2 ^ 32.
Proof.
  intros Hp Hv Hs. destruct (ParseCIDR_shape _ _ _ Hp) as [(b & n & Hb & Hn & Hm & Hi)|Hl].
  - destruct (CIDRMask_32 n Hn) as ([Hml ?] & Hsz & _).
    assert (v = IPNet_IP net) as ->.
    { unfold To4 in Hv. rewrite Hi in Hv. destruct Hb as [Hbl _].
      rewrite bool_decide_eq_true_2 in Hv by (rewrite length_zip_with; lia). by rewrite Hi; simplify_eq. }
    destruct (network_word b n Hb Hn) as (Hw & Hw0 & Hw1). rewrite <-Hi in *.
    exists (BigEndian_Uint32 (IPNet_IP net)), n. unfold ipv4_block.
    rewrite Hp. simpl. rewrite Hv. simpl. rewrite Hm, Hsz. simpl.
    split_and!; try (done || lia).
    rewrite Hw, Zminus_mod, Z.mod_mod, Z.sub_diag by lia. apply Z.mod_0_l. lia.
  - exfalso. unfold Size in Hs. rewrite Hl in Hs. by case_match.
Qed.

(** ** Lemmas: the taken addresses *)
Definition all_parse (ips : list string) : Prop := ∀ x, x ∈ ips → is_Some (normalize_ip x).

Lemma allocated_set_ok ips S :
  all_parse ips →
  ∃ S', allocated_set ips S = Ok S' ∧
        ∀ s, s ∈ S' ↔ s ∈ S ∨ ∃ x, x ∈ ips ∧ normalize_ip x = Some s.
Proof.
  unfold all_parse. revert S. induction ips as [|ip ips IH]; intros S H; simpl; [set_solver|].
  destruct (H ip ltac:(set_solver)) as [s Hs]. rewrite Hs.
  destruct (IH ({[ s ]} ∪ S)) as (S' & -> & HS'); [set_solver|].
  exists S'. split; [done|]. intros t. rewrite HS'. set_solver.
Qed.

Lemma allocated_set_bad ips S :
  ¬ all_parse ips →
  ∃ x, x ∈ ips ∧ normalize_ip x = None ∧
       allocated_set ips S = Err (Errorf "parsing allocated IP %q: invalid IP address" [x] []).
Proof.
  unfold all_parse. revert S. induction ips as [|ip ips IH]; intros S H; simpl; [set_solver|].
  destruct (normalize_ip ip) as [s|] eqn:E.
  - destruct (IH ({[ s ]} ∪ S)) as (x & ? & ? & ?); [|set_solver].
    intros Hall. apply H. intros x [->|?]%elem_of_cons; [eauto|auto].
  - exists ip. split_and!; set_solver.
Qed.

Lemma parse_allocated_dec ips :
  all_parse ips ∨ ¬ all_parse ips.
Proof.
  destruct (decide (Forall (λ x, is_Some (normalize_ip x)) ips)) as [H|H];
    rewrite Forall_forall in H; unfold all_parse; auto.
Qed.

(** The choice among the free offsets, once the inputs parse. *)
Definition choose (rnd w : Z) (cidr : string) (free : list Z) : res string :=
  match free with
  | [] => Err (Errorf "no free IP addresses available in CIDR %q" [cidr] [])
  | _ => Ok (candidate w (nth (Z.to_nat (IntN rnd (Z.of_nat (length free)))) free 0))
  end.

Definition host_offsets (n : Z) : list Z :=
  seqZ (first_host n) (last_host n + 1 - first_host n).

Lemma AllocateRandomIP_block rnd cidr ips S w n :
  ipv4_block cidr = Some (w, n) → allocated_set ips ∅ = Ok S →
  AllocateRandomIP rnd cidr ips = choose rnd w cidr (filter (λ o, candidate w o ∉ S) (host_offsets n)).
Proof.
  intros Hb HS. unfold ipv4_block in Hb.
  destruct (ParseCIDR cidr) as [[a net]|] eqn:Hp; [|done]. simpl in Hb.
  destruct (To4 (IPNet_IP net)) as [v|] eqn:Hv; [|done]. simpl in Hb.
  case_bool_decide as Hs; [|done]. simplify_eq.
  destruct (ipv4_block_inv _ _ _ _ Hp Hv Hs) as (w & n & _ & Hw & Hsz & Hn & _).
  unfold AllocateRandomIP. rewrite Hp, HS. cbn [mbind res_bind]. rewrite Hv, Hsz.
  cbn [Z.eqb negb Pos.eqb fst]. rewrite host_range_spec by done.
  destruct (host_bounds n Hn) as (? & ? & ?).
  replace (32 =? 32) with true by done. cbn [negb].
  rewrite free_loop_spec by (try rewrite u32_small; lia). simpl app. fold (host_offsets n).
  unfold choose. by destruct (filter _ (host_offsets n)).
Qed.

Lemma AllocateRandomIP_not_block rnd cidr ips :
  ipv4_block cidr = None → is_Err (AllocateRandomIP rnd cidr ips) = true.
Proof.
  unfold ipv4_block, AllocateRandomIP. destruct (ParseCIDR cidr) as [[a net]|]; [|done]. simpl.
  destruct (parse_allocated_dec ips) as [H|H].
  - destruct (allocated_set_ok ips ∅ H) as (S & -> & _). cbn [mbind res_bind].
    destruct (To4 (IPNet_IP net)) as [v|]; [|done]. simpl.
    destruct (Size (IPNet_Mask net)) as [ones bits]. simpl. case_bool_decide; [done|].
    destruct (Z.eqb_spec bits 32); done.
  - by destruct (allocated_set_bad ips ∅ H) as (x & _ & _ & ->).
Qed.

(** An address is usable in a block when it is the text of one of its hosts. *)
Definition usable_ip (cidr ip : string) : Prop :=
  ∃ w n o, ipv4_block cidr = Some (w, n) ∧ first_host n ≤ o ≤ last_host n ∧
           ip = dotted (BigEndian_PutUint32 (w + o)).

Lemma candidate_dotted w o :
  0 ≤ w + o < 2 ^ 32 → candidate w o = dotted (BigEndian_PutUint32 (w + o)).
Proof. intros. unfold candidate. by rewrite u32_small, IP_String_4. Qed.

Lemma ipv4_block_bounds cidr w n :
  ipv4_block cidr = Some (w, n) →
  0 ≤ n ≤ 32 ∧ 0 ≤ w ∧ w mod 2 ^ (32 - n) = 0 ∧ w + 2 ^ (32 - n) ≤ 2 ^ 32.
Proof.
  unfold ipv4_block. destruct (ParseCIDR cidr) as [[a net]|] eqn:Hp; [|done]. simpl.
  destruct (To4 (IPNet_IP net)) as [v|] eqn:Hv; [|done]. simpl.
  case_bool_decide as Hs; [|done]. intros [= <- <-].
  destruct (ipv4_block_inv _ _ _ _ Hp Hv Hs) as (w & n & _ & -> & Hsz & ?). by rewrite Hsz.
Qed.

Lemma host_candidate cidr w n o :
  ipv4_block cidr = Some (w, n) → first_host n ≤ o ≤ last_host n →
  candidate w o = dotted (BigEndian_PutUint32 (w + o)).
Proof.
  intros Hb Ho. destruct (ipv4_block_bounds _ _ _ Hb) as (Hn & ? & _ & ?).
  destruct (host_bounds n Hn) as (? & ? & ?). apply candidate_dotted. lia.
Qed.

Lemma elem_of_host_offsets n o : o ∈ host_offsets n ↔ first_host n ≤ o ≤ last_host n.
Proof. unfold host_offsets. rewrite elem_of_seqZ. lia. Qed.

Lemma nth_elem {A} (l : list A) i d : (i < length l)%nat → nth i l d ∈ l.
Proof. intros. by apply list_elem_of_In, nth_In. Qed.

Lemma choose_Ok rnd w cidr free ip :
  choose rnd w cidr free = Ok ip → ∃ o, o ∈ free ∧ ip = candidate w o.
Proof.
  intros H. destruct (decide (free = [])) as [->|Hne]; [done|].
  assert (Ok (candidate w (nth (Z.to_nat (IntN rnd (Z.of_nat (length free)))) free 0)) = Ok ip)
    as [= <-] by (by destruct free).
  eexists. split; [|done]. apply nth_elem.
  assert (length free ≠ 0%nat) by (by destruct free).
  unfold IntN. pose proof (Z.mod_pos_bound rnd (Z.of_nat (length free))). lia.
Qed.

(** Any free offset is the choice of some draw. *)
Lemma choose_draw w cidr free o :
  o ∈ free → ∃ rnd, choose rnd w cidr free = Ok (candidate w o).
Proof.
  intros Ho. assert (free ≠ []) by (by destruct free; set_solver).
  apply list_elem_of_lookup in Ho as [i Hi]. exists (Z.of_nat i).
  pose proof (lookup_lt_Some _ _ _ Hi).
  assert (nth (Z.to_nat (IntN (Z.of_nat i) (Z.of_nat (length free)))) free 0 = o) as E.
  { unfold IntN. rewrite Z.mod_small, Nat2Z.id by lia. by apply nth_lookup_Some with (d := 0) in Hi. }
  destruct free; [done|]. unfold choose. by rewrite E.
Qed.

(** What a successful draw returns. *)
Lemma AllocateRandomIP_Ok_inv rnd cidr ips ip :
  AllocateRandomIP rnd cidr ips = Ok ip →
  all_parse ips ∧ usable_ip cidr ip ∧ ∀ x, x ∈ ips → normalize_ip x ≠ Some ip.
Proof.
  intros H. destruct (ipv4_block cidr) as [[w n]|] eqn:Hb.
  2:{ apply (AllocateRandomIP_not_block rnd _ ips) in Hb. by rewrite H in Hb. }
  destruct (parse_allocated_dec ips) as [Hp|Hp].
  - destruct (allocated_set_ok ips ∅ Hp) as (S & HS & HinS).
    rewrite (AllocateRandomIP_block _ _ _ _ _ _ Hb HS) in H.
    apply choose_Ok in H as (o & [Hno Ho]%list_elem_of_filter & ->).
    rewrite elem_of_host_offsets in Ho. split_and!; [done| |].
    + exists w, n, o. split_and!; [done|lia|lia|]. by eapply host_candidate.
    + intros x Hx Hn. apply Hno, HinS. eauto.
  - exfalso. destruct (allocated_set_bad ips ∅ Hp) as (x & _ & _ & HS).
    unfold AllocateRandomIP in H. rewrite HS in H. by destruct (ParseCIDR cidr) as [[??]|].
Qed.

Lemma AllocateRandomIP_total rnd cidr ips p : AllocateRandomIP rnd cidr ips ≠ Panic p.
Proof.
  destruct (ipv4_block cidr) as [[w n]|] eqn:Hb.
  2:{ intros H. apply (AllocateRandomIP_not_block rnd _ ips) in Hb. by rewrite H in Hb. }
  destruct (parse_allocated_dec ips) as [Hp|Hp].
  - destruct (allocated_set_ok ips ∅ Hp) as (S & HS & _).
    rewrite (AllocateRandomIP_block _ _ _ _ _ _ Hb HS). unfold choose. by destruct (filter _ _).
  - destruct (allocated_set_bad ips ∅ Hp) as (x & _ & _ & HS).
    unfold AllocateRandomIP. rewrite HS. by destruct (ParseCIDR cidr) as [[??]|].
Qed.

(** A usable address that is not taken is free for the draw. *)
Lemma usable_free rnd cidr ips ip :
  all_parse ips → usable_ip cidr ip → (∀ x, x ∈ ips → normalize_ip x ≠ Some ip) →
  is_Ok (AllocateRandomIP rnd cidr ips) = true ∧ ∃ rnd', AllocateRandomIP rnd' cidr ips = Ok ip.
Proof.
  intros Hp (w & n & o & Hb & Ho & ->) Hfree.
  destruct (allocated_set_ok ips ∅ Hp) as (S & HS & HinS).
  assert (o ∈ filter (λ o, candidate w o ∉ S) (host_offsets n)) as Hin.
  { apply list_elem_of_filter. rewrite elem_of_host_offsets. split; [|done].
    rewrite (host_candidate _ _ _ _ Hb Ho), HinS. set_solver. }
  split.
  - rewrite (AllocateRandomIP_block _ _ _ _ _ _ Hb HS). unfold choose.
    by destruct (filter _ _); [set_solver|].
  - destruct (choose_draw w cidr _ _ Hin) as [rnd' Hr]. exists rnd'.
    rewrite (AllocateRandomIP_block _ _ _ _ _ _ Hb HS), Hr. f_equal. by eapply host_candidate.
Qed.

(** The text of an IPv4 address is its own map key. *)
Definition not_special (c : ascii) : bool :=
  negb (bool_decide (c = "."%char ∨ c = ":"%char ∨ c = "%"%char)).

Lemma addr_kind_skip s rest :
  str_forall not_special s = true → addr_kind (s +:+ rest) = addr_kind rest.
Proof.
  induction s as [|c s IH]; [done|]. change (String c s +:+ rest) with (String c (s +:+ rest)).
  cbn [str_forall addr_kind]. unfold not_special at 1.
  intros [Hc Hs]%andb_true_iff. apply negb_true_iff in Hc. rewrite Hc. by apply IH.
Qed.

Lemma normalize_dotted b : V4 b → normalize_ip (dotted b) = Some (dotted b).
Proof.
  intros [(x & y & z & t & ->)%length_4 Hb]. pose proof (parseIPv4_dotted _ _ _ _ Hb) as Hp.
  assert (addr_kind (dotted [x; y; z; t]) = Some "."%char) as Hk.
  { decompose_Forall_hyps. rewrite dotted_4, addr_kind_skip; [done|].
    apply (byte_forall (λ b, str_forall not_special (Itoa b)) ltac:(vm_compute; reflexivity)). done. }
  unfold normalize_ip, ParseIP, ParseAddr. rewrite Hk, Hp. done.
Qed.

Lemma usable_normal cidr ip : usable_ip cidr ip → normalize_ip ip = Some ip.
Proof. intros (w & n & o & _ & _ & ->). apply normalize_dotted, BigEndian_Put_V4. Qed.

(** ** Lemmas: the allocator's map *)

(** The NodeClaim an address is pre-allocated to. *)
Definition pre_lookup (a : IPAllocator) (class ip : string) : option string :=
  (preAllocated a !!! class) !! ip.

Lemma pre_lookup_set f a class ip :
  pre_lookup (set_preAllocated f a) class ip = (f (preAllocated a) !!! class) !! ip.
Proof. done. Qed.

(** A loop that deletes some keys of a map. *)
Lemma foldl_delete_lookup {A B} (key : B → string) (drop : B → bool) (l : list B)
    (m : gmap string A) k :
  foldl (λ m x, if drop x then delete (key x) m else m) m l !! k =
  (if existsb (λ x, drop x && bool_decide (key x = k)) l then None else m !! k).
Proof.
  revert m. induction l as [|x l IH]; intros m; simpl; [done|].
  rewrite IH. destruct (drop x); simpl; [|done].
  case_bool_decide as Hk; simpl.
  - rewrite Hk, lookup_delete_eq. by case_match.
  - by rewrite lookup_delete_ne.
Qed.

Lemma existsb_elem {A} (f : A → bool) l : existsb f l = true ↔ ∃ x, x ∈ l ∧ f x = true.
Proof. rewrite existsb_exists. by setoid_rewrite <-list_elem_of_In. Qed.

Lemma reconcile_pre_lookup confirmed pre ip :
  reconcile_pre confirmed pre !! ip = (if bool_decide (ip ∈ confirmed) then None else pre !! ip).
Proof.
  unfold reconcile_pre. rewrite (foldl_delete_lookup id (λ ip, bool_decide (ip ∈ confirmed))).
  destruct (existsb _ _) eqn:E.
  - apply existsb_elem in E as (x & _ & [Hx Hk]%andb_true_iff).
    apply bool_decide_eq_true in Hk as <-. unfold id. by rewrite Hx.
  - case_bool_decide as Hc; [|done]. destruct (pre !! ip) as [c|] eqn:Hp; [|done].
    apply not_true_iff_false in E. destruct E. apply existsb_elem. exists ip. split.
    + apply list_elem_of_fmap. exists (ip, c). by rewrite elem_of_map_to_list.
    + unfold id. by rewrite !bool_decide_eq_true_2.
Qed.

Lemma cleanup_class_lookup cache pre ip :
  cleanup_class cache pre !! ip =
  (c ← pre !! ip; if claim_gone cache c then None else Some c).
Proof.
  unfold cleanup_class.
  transitivity (foldl (λ m p, if claim_gone cache p.2 then delete p.1 m else m) pre
                  (map_to_list pre) !! ip).
  { generalize (map_to_list pre) as l. intros l. generalize pre as m.
    induction l as [|[??] l IH]; intros m; simpl; [done|]. apply IH. }
  rewrite (foldl_delete_lookup fst (λ p, claim_gone cache p.2)).
  destruct (existsb _ _) eqn:E.
  - apply existsb_elem in E as ([i c] & Hin%elem_of_map_to_list & [Hg Hk]%andb_true_iff).
    apply bool_decide_eq_true in Hk as <-. simpl in *. rewrite Hin. simpl. by rewrite Hg.
  - destruct (pre !! ip) as [c|] eqn:Hp; [|done]. simpl. destruct (claim_gone cache c) eqn:Hg; [|done].
    apply not_true_iff_false in E. destruct E. apply existsb_elem. exists (ip, c).
    rewrite elem_of_map_to_list. simpl. by rewrite Hg, bool_decide_eq_true_2.
Qed.

(** The cleanup treats every class on its own, and drops the empty ones. *)
Definition cleaned (cache : Cache) (pre : gmap string string) : option (gmap string string) :=
  if bool_decide (cleanup_class cache pre = ∅) then None else Some (cleanup_class cache pre).

Lemma cleanup_fold_lookup cache l (m : PreAllocated) class :
  NoDup l.*1 →
  foldl (λ m '(class, pre), let pre := cleanup_class cache pre in
           if bool_decide (pre = ∅) then delete class m else <[class := pre]> m) m l !! class =
  match (list_to_map l : PreAllocated) !! class with
  | Some pre => cleaned cache pre
  | None => m !! class
  end.
Proof.
  unfold cleaned. revert m. induction l as [|[k pre] l IH]; intros m Hnd; [done|].
  inversion Hnd as [|?? Hk Hnd']; subst. simpl foldl. rewrite IH by done. rewrite list_to_map_cons.
  destruct (decide (k = class)) as [->|Hne].
  - rewrite lookup_insert_eq.
    assert ((list_to_map l : PreAllocated) !! class = None) as -> by (by apply not_elem_of_list_to_map_1).
    case_bool_decide; [apply lookup_delete_eq|apply lookup_insert_eq].
  - rewrite lookup_insert_ne by done. case_match; [done|].
    case_bool_decide; [by rewrite lookup_delete_ne|by rewrite lookup_insert_ne].
Qed.

Lemma cleanup_class_of cache a class :
  preAllocated (cleanup cache a) !! class = (pre ← preAllocated a !! class; cleaned cache pre).
Proof.
  unfold cleanup. simpl. rewrite cleanup_fold_lookup by apply NoDup_fst_map_to_list.
  rewrite list_to_map_to_list. by destruct (preAllocated a !! class).
Qed.

Lemma cleanup_lookup cache a class ip :
  pre_lookup (cleanup cache a) class ip =
  (c ← pre_lookup a class ip; if claim_gone cache c then None else Some c).
Proof.
  unfold pre_lookup. rewrite !lookup_total_alt, cleanup_class_of.
  destruct (preAllocated a !! class) as [pre|]; simpl; [|by rewrite lookup_empty].
  rewrite <-cleanup_class_lookup. unfold cleaned. case_bool_decide as H; [by rewrite H|done].
Qed.

Section allocator_lemmas.
#[local] Set Default Proof Using "Type*".
Context (key : GroupKind → string) (range : list string → list string).
Context (range_perm : ∀ l, range l ≡ₚ l).

Definition all_ips (confirmed : gset string) (pre : gmap string string) : list string :=
  range (elements confirmed) ++ range (map_to_list pre).*1.

Lemma elem_of_all_ips confirmed pre ip :
  ip ∈ all_ips confirmed pre ↔ ip ∈ confirmed ∨ is_Some (pre !! ip).
Proof.
  unfold all_ips. rewrite elem_of_app, !range_perm, elem_of_elements, list_elem_of_fmap.
  split; (intros [?|H]; [by left|right]).
  - destruct H as ([i c] & -> & H%elem_of_map_to_list). simpl. eauto.
  - destruct H as [c H]. exists (ip, c). by rewrite elem_of_map_to_list.
Qed.

(** What a successful allocation returns and stores. *)
Lemma AllocateIP_Ok cache rnd cidr class claim a ip a' :
  AllocateIP key range cache rnd cidr class claim a = (Ok ip, a') →
  ∃ nodes, cache_List cache (key (groupKind a)) class = Ok nodes ∧
    usable_ip cidr ip ∧ ip ∉ confirmed_ips nodes ∧ pre_lookup a class ip = None ∧
    ∀ class' ip', pre_lookup a' class' ip' =
      if bool_decide (class' = class) then
        if bool_decide (ip' = ip) then Some claim
        else if bool_decide (ip' ∈ confirmed_ips nodes) then None else pre_lookup a class' ip'
      else pre_lookup a class' ip'.
Proof.
  unfold AllocateIP. destruct (cache_List _ _ _) as [nodes|e|p]; [|done..].
  fold (all_ips (confirmed_ips nodes) (reconcile_pre (confirmed_ips nodes) (preAllocated a !!! class))).
  set (pre := reconcile_pre _ _). destruct (AllocateRandomIP _ _ _) as [ip1|e|p] eqn:E; [|done..].
  intros [= -> <-]. apply AllocateRandomIP_Ok_inv in E as (_ & Hu & Hfree).
  assert (ip ∉ all_ips (confirmed_ips nodes) pre) as Hnew.
  { intros Hin. apply (Hfree ip Hin). by eapply usable_normal. }
  rewrite elem_of_all_ips in Hnew. unfold pre in Hnew. rewrite reconcile_pre_lookup in Hnew.
  exists nodes. split_and!; [done|done|naive_solver| |].
  - case_bool_decide; [naive_solver|]. apply eq_None_not_Some. naive_solver.
  - intros class' ip'. rewrite !pre_lookup_set. simpl.
    destruct (decide (class' = class)) as [->|Hc].
    + rewrite bool_decide_eq_true_2, lookup_total_insert_eq by done.
      destruct (decide (ip' = ip)) as [->|Hi].
      * by rewrite bool_decide_eq_true_2, lookup_insert_eq.
      * rewrite bool_decide_eq_false_2, lookup_insert_ne by done. apply reconcile_pre_lookup.
    + by rewrite bool_decide_eq_false_2, !lookup_total_insert_ne by done.
Qed.

(** A failed allocation forgets only addresses that a node carries. *)
Lemma AllocateIP_not_Ok cache rnd cidr class claim a r a' :
  AllocateIP key range cache rnd cidr class claim a = (r, a') → is_Ok r = false →
  (∀ class' ip', pre_lookup a' class' ip' = pre_lookup a class' ip') ∨
  ∃ nodes, cache_List cache (key (groupKind a)) class = Ok nodes ∧
    ∀ class' ip', pre_lookup a' class' ip' =
      if bool_decide (class' = class ∧ ip' ∈ confirmed_ips nodes)
      then None else pre_lookup a class' ip'.
Proof.
  unfold AllocateIP. destruct (cache_List _ _ _) as [nodes|e|p]; [|intros [= _ <-]; by left..].
  destruct (AllocateRandomIP _ _ _) as [ip1|e|p]; intros [= <- <-]; [done|intros _..];
    right; (exists nodes; split; [done|]); intros class' ip'; rewrite pre_lookup_set; simpl.
  all: destruct (decide (class' = class)) as [->|Hne];
    [rewrite lookup_total_insert_eq, reconcile_pre_lookup; by repeat case_bool_decide; naive_solver
    |rewrite lookup_total_insert_ne by done; by rewrite bool_decide_eq_false_2 by naive_solver].
Qed.

Lemma AllocateIP_groupKind cache rnd cidr class claim a r a' :
  AllocateIP key range cache rnd cidr class claim a = (r, a') → groupKind a' = groupKind a.
Proof.
  unfold AllocateIP. destruct (cache_List _ _ _); [|by intros [= _ <-]..].
  by destruct (AllocateRandomIP _ _ _); intros [= _ <-].
Qed.
End allocator_lemmas.

(** ** The system

    The allocator together with the nodes and node claims it reads through the
    cache.  [held] is the ghost list of the addresses handed out for instances
    that still exist, as (NodeClass, NodeClaim, IP).  [AllocateIP] and [cleanup]
    hold the allocator's mutex, so each is one step.  A NodeClaim object goes
    away only after its instances are gone, and a node object that carries a
    held address only after that instance is gone. *)
Record holding := { h_class : string; h_claim : string; h_ip : string }.
#[global] Instance holding_eq_dec : EqDecision holding.
Proof. solve_decision. Defined.

Record World := {
  w_alloc : IPAllocator;
  w_nodes : list Node;
  w_claims : gset string;
  w_held : list holding;
}.

Section system.
#[local] Set Default Proof Using "Type*".
Context (key : GroupKind → string) (range : list string → list string).
Context (range_perm : ∀ l, range l ≡ₚ l).

(** What the cache answers, when it answers: the matching nodes, and
    not-found only for a NodeClaim that does not exist.  It may also fail. *)
Definition cache_view (w : World) (cache : Cache) : Prop :=
  (∀ k v nodes, cache_List cache k v = Ok nodes →
     nodes = filter (λ n, node_Labels n !! k = Some v) (w_nodes w)) ∧
  (∀ c, claim_gone cache c = true → c ∉ w_claims w).

(** Node [n] carries the address of [h]. *)
Definition carries (w : World) (h : holding) (n : Node) : Prop :=
  node_Labels n !! key (groupKind (w_alloc w)) = Some (h_class h) ∧ h_ip h ∈ node_ips n.

Inductive step (w : World) : World → Prop :=
| step_alloc cache rnd cidr class claim r a' :
    cache_view w cache → claim ∈ w_claims w →
    AllocateIP key range cache rnd cidr class claim (w_alloc w) = (r, a') →
    step w {| w_alloc := a'; w_nodes := w_nodes w; w_claims := w_claims w;
              w_held := match r with
                        | Ok ip => {| h_class := class; h_claim := claim; h_ip := ip |} :: w_held w
                        | _ => w_held w
                        end |}
| step_cleanup cache :
    cache_view w cache →
    step w {| w_alloc := cleanup_tick cache (w_alloc w); w_nodes := w_nodes w;
              w_claims := w_claims w; w_held := w_held w |}
| step_close :
    step w {| w_alloc := Close (w_alloc w); w_nodes := w_nodes w;
              w_claims := w_claims w; w_held := w_held w |}
| step_join n :
    step w {| w_alloc := w_alloc w; w_nodes := n :: w_nodes w;
              w_claims := w_claims w; w_held := w_held w |}
| step_instance_gone h :
    step w {| w_alloc := w_alloc w; w_nodes := w_nodes w;
              w_claims := w_claims w; w_held := filter (λ h', h' ≠ h) (w_held w) |}
| step_node_gone n :
    (∀ h, h ∈ w_held w → ¬ carries w h n) →
    step w {| w_alloc := w_alloc w; w_nodes := filter (λ n', n' ≠ n) (w_nodes w);
              w_claims := w_claims w; w_held := w_held w |}
| step_claim_new c :
    step w {| w_alloc := w_alloc w; w_nodes := w_nodes w;
              w_claims := {[ c ]} ∪ w_claims w; w_held := w_held w |}
| step_claim_gone c :
    (∀ h, h ∈ w_held w → h_claim h ≠ c) →
    step w {| w_alloc := w_alloc w; w_nodes := w_nodes w;
              w_claims := w_claims w ∖ {[ c ]}; w_held := w_held w |}.

Definition init (gk : GroupKind) (nodes : list Node) (claims : gset string) : World :=
  {| w_alloc := NewIPAllocator gk; w_nodes := nodes; w_claims := claims; w_held := [] |}.

Definition carried (w : World) (h : holding) : Prop := ∃ n, n ∈ w_nodes w ∧ carries w h n.

(** Every held address belongs to a live claim, and is pre-allocated to that
    claim or carried by a node. *)
Definition accounted (w : World) : Prop :=
  ∀ h, h ∈ w_held w →
    h_claim h ∈ w_claims w ∧
    (pre_lookup (w_alloc w) (h_class h) (h_ip h) = Some (h_claim h) ∨ carried w h).

Definition unique (w : World) : Prop :=
  NoDup ((λ h, (h_class h, h_ip h)) <$> w_held w).

Definition world_inv (w : World) : Prop := accounted w ∧ unique w.

Lemma elem_of_confirmed nodes ip :
  ip ∈ confirmed_ips nodes ↔ ∃ n, n ∈ nodes ∧ ip ∈ node_ips n.
Proof. unfold confirmed_ips. rewrite elem_of_list_to_set, list_elem_of_bind. naive_solver. Qed.

Lemma confirmed_carried w cache class nodes ip claim :
  cache_view w cache → cache_List cache (key (groupKind (w_alloc w))) class = Ok nodes →
  (ip ∈ confirmed_ips nodes ↔
   carried w {| h_class := class; h_claim := claim; h_ip := ip |}).
Proof.
  intros [Hl _] ->%Hl. rewrite elem_of_confirmed. unfold carried, carries. simpl.
  setoid_rewrite list_elem_of_filter. naive_solver.
Qed.

Lemma world_inv_init gk nodes claims : world_inv (init gk nodes claims).
Proof. split; [by intros h ?%elem_of_nil|constructor]. Qed.

Lemma unique_filter {P : holding → Prop} `{!∀ h, Decision (P h)} l :
  NoDup ((λ h, (h_class h, h_ip h)) <$> l) →
  NoDup ((λ h, (h_class h, h_ip h)) <$> filter P l).
Proof. intros. eapply sublist_NoDup; [done|]. apply fmap_sublist, sublist_filter. Qed.

Lemma carried_ext w w' h :
  groupKind (w_alloc w') = groupKind (w_alloc w) → w_nodes w' = w_nodes w →
  carried w h → carried w' h.
Proof. unfold carried, carries. by intros -> ->. Qed.

(** Whether a node carries a holding's address does not depend on its claim. *)
Lemma carried_confirmed w cache h nodes :
  cache_view w cache → cache_List cache (key (groupKind (w_alloc w))) (h_class h) = Ok nodes →
  (h_ip h ∈ confirmed_ips nodes ↔ carried w h).
Proof. intros Hv Hl. rewrite (confirmed_carried w cache (h_class h) nodes (h_ip h) (h_claim h)); by destruct h. Qed.

(** An address of a holding is never the fresh one of an allocation. *)
Lemma held_not_fresh w cache class h nodes ip :
  accounted w → cache_view w cache → h ∈ w_held w → h_class h = class →
  cache_List cache (key (groupKind (w_alloc w))) class = Ok nodes →
  ip ∉ confirmed_ips nodes → pre_lookup (w_alloc w) class ip = None → h_ip h ≠ ip.
Proof.
  intros Hacc Hview Hin <- Hl Hnc Hnp <-.
  destruct (Hacc h Hin) as [_ [Hp|Hc]]; [congruence|].
  by apply Hnc, (carried_confirmed w cache h nodes).
Qed.

Lemma step_alloc_inv w cache rnd cidr class claim r a' :
  world_inv w → cache_view w cache → claim ∈ w_claims w →
  AllocateIP key range cache rnd cidr class claim (w_alloc w) = (r, a') →
  world_inv {| w_alloc := a'; w_nodes := w_nodes w; w_claims := w_claims w;
               w_held := match r with
                         | Ok ip => {| h_class := class; h_claim := claim; h_ip := ip |} :: w_held w
                         | _ => w_held w
                         end |}.
Proof.
  intros [Hacc Huniq] Hview Hclaim E. pose proof (AllocateIP_groupKind _ _ range_perm _ _ _ _ _ _ _ _ E) as Hgk.
  destruct (is_Ok r) eqn:Hr.
  - destruct r as [ip|e|p]; [|done..].
    destruct (AllocateIP_Ok _ _ range_perm _ _ _ _ _ _ _ _ E) as (nodes & Hl & _ & Hnc & Hnp & Hlk).
    assert (∀ h, h ∈ w_held w → h_class h = class → h_ip h ≠ ip) as Hfresh.
    { intros h Hin Hc. by eapply (held_not_fresh w cache class). }
    split.
    + intros h [->|Hin]%elem_of_cons; simpl in *.
      { split; [done|]. left. rewrite Hlk. by rewrite !bool_decide_eq_true_2. }
      destruct (Hacc h Hin) as [? Hor]. split; [done|]. rewrite Hlk. simpl.
      destruct Hor as [Hp|Hc]; [|right; by eapply carried_ext, Hc].
      case_bool_decide as Hc; [|by left]. rewrite bool_decide_eq_false_2 by auto.
      case_bool_decide as Hconf; [right|by left]. subst class.
      by eapply carried_ext, (carried_confirmed w cache).
    + constructor; [|done].
      intros ([] & [= <- <-] & Hin)%list_elem_of_fmap. by eapply Hfresh.
  - assert (match r with Ok ip => {| h_class := class; h_claim := claim; h_ip := ip |} :: w_held w
                    | _ => w_held w end = w_held w) as -> by (by destruct r).
    split; [|done]. intros h Hin. destruct (Hacc h Hin) as [? Hor]. simpl in *. split; [done|].
    destruct Hor as [Hp|Hc]; [|right; by eapply carried_ext, Hc].
    destruct (AllocateIP_not_Ok _ _ range_perm _ _ _ _ _ _ _ _ E Hr) as [Hlk|(nodes & Hl & Hlk)]; rewrite Hlk;
      [by left|]. case_bool_decide as Hc; [right|by left]. destruct Hc as [<- Hconf].
    by eapply carried_ext, (carried_confirmed w cache).
Qed.

Lemma cleanup_accounted w cache h :
  cache_view w cache → h_claim h ∈ w_claims w →
  pre_lookup (w_alloc w) (h_class h) (h_ip h) = Some (h_claim h) →
  pre_lookup (cleanup_tick cache (w_alloc w)) (h_class h) (h_ip h) = Some (h_claim h).
Proof.
  intros [_ Hg] Hc Hp. unfold cleanup_tick. case_match; [|done]. rewrite cleanup_lookup, Hp. simpl.
  destruct (claim_gone cache (h_claim h)) eqn:E; [|done]. by apply Hg in E.
Qed.

Lemma world_inv_step w w' : world_inv w → step w w' → world_inv w'.
Proof.
  intros Hinv Hst. pose proof Hinv as [Hacc Huniq].
  destruct Hst as [cache rnd cidr class claim r a' Hv Hc E|cache Hv| |n|h0|n Hn|c|c Hc].
  { by eapply step_alloc_inv. }
  all: split; [|done || by apply unique_filter]; intros h Hin; simpl in *.
  all: try (apply list_elem_of_filter in Hin as [Hne Hin]);
    destruct (Hacc h Hin) as [Hclaim Hor]; split; [set_solver|].
  - destruct Hor as [?|Hc]; [left; by apply cleanup_accounted|right].
    eapply carried_ext, Hc; [|done]. unfold cleanup_tick. by case_match.
  - done.
  - destruct Hor as [?|(n' & ? & Hcn)]; [by left|right]. exists n'. split; [by right|done].
  - done.
  - destruct Hor as [?|(n' & ? & Hcn)]; [by left|right]. exists n'. split; [|done].
    apply list_elem_of_filter. split; [|done]. intros ->. by eapply Hn.
  - done.
  - done.
Qed.
End system.

(** ** Properties *)

(** C4: over every interleaving of allocations (successful or failed, with any
    CIDR and any random draw), cleanup ticks, node joins and departures, and
    NodeClaim creations and deletions, no two instances that exist together
    hold the same WireGuard address of a NodeClass, and every held address is
    pre-allocated to its claim or carried by a node. *)
Theorem reachable_unique (key : GroupKind → string) (range : list string → list string)
    (gk : GroupKind) (nodes : list Node) (claims : gset string) (w : World) :
  (∀ l, range l ≡ₚ l) →
  rtc (step key range) (init gk nodes claims) w →
  unique w ∧ accounted key w.
Proof.
  intros Hperm Hreach.
  assert (world_inv key (init gk nodes claims)) as Hinv by apply world_inv_init.
  induction Hreach as [w|w w' w'' Hst _ IH]; [by destruct Hinv|].
  apply IH. by eapply world_inv_step.
Qed.

(** C8: with parsable allocated addresses, the addresses some random draw
    returns are exactly the usable hosts of the block (network and broadcast
    excluded below [/31]) that no allocated address denotes. *)
Theorem AllocateRandomIP_exact (cidr : string) (ips : list string) (ip : string) :
  all_parse ips →
  (∃ rnd, AllocateRandomIP rnd cidr ips = Ok ip) ↔
  usable_ip cidr ip ∧ ∀ x, x ∈ ips → normalize_ip x ≠ Some ip.
Proof.
  intros Hp. split.
  - intros [rnd H]. by apply AllocateRandomIP_Ok_inv in H as (_ & ? & ?).
  - intros [Hu Hf]. by apply (usable_free 0 _ _ _ Hp Hu Hf).
Qed.

(** An allocation succeeds for every draw or for none: it succeeds exactly
    when every allocated address parses and some usable host is free. *)
Theorem AllocateRandomIP_succeeds (rnd : Z) (cidr : string) (ips : list string) :
  is_Ok (AllocateRandomIP rnd cidr ips) = true ↔
  all_parse ips ∧ ∃ ip, usable_ip cidr ip ∧ ∀ x, x ∈ ips → normalize_ip x ≠ Some ip.
Proof.
  split.
  - destruct (AllocateRandomIP rnd cidr ips) as [ip|e|p] eqn:E; [|done..]. intros _.
    apply AllocateRandomIP_Ok_inv in E as (? & ? & ?). eauto.
  - intros (Hp & ip & Hu & Hf). by destruct (usable_free rnd _ _ _ Hp Hu Hf).
Qed.

(** C39: the uint32 loop over the offsets ends for every block, [/0] included,
    where the number of hosts wraps to zero: no input makes the call run out of
    its [rangeSize + 1] turns or panic. *)
Theorem AllocateRandomIP_terminates (rnd : Z) (cidr : string) (ips : list string) (p : string) :
  AllocateRandomIP rnd cidr ips ≠ Panic p.
Proof. apply AllocateRandomIP_total. Qed.

(** A cleanup removes exactly the pre-allocations whose NodeClaim the cache
    reports as not found (a failing lookup keeps the entry), and leaves no
    NodeClass with an empty map that had one before. *)
Theorem cleanup_exact (cache : Cache) (a : IPAllocator) (class : string) :
  (∀ ip c, pre_lookup (cleanup cache a) class ip = Some c ↔
           pre_lookup a class ip = Some c ∧ claim_gone cache c = false) ∧
  preAllocated (cleanup cache a) !! class ≠ Some ∅.
Proof.
  split.
  - intros ip c. rewrite cleanup_lookup. destruct (pre_lookup a class ip) as [c'|]; [|naive_solver].
    simpl. destruct (claim_gone cache c') eqn:E; (split; [intros; simplify_eq; done|]);
      intros [[= ->] ?]; congruence.
  - rewrite cleanup_class_of. destruct (preAllocated a !! class) as [pre|]; [|done].
    simpl. unfold cleaned. case_bool_decide; [done|]. by intros [= ?].
Qed.

(** ** Witnesses *)
Definition test_gk : GroupKind := {| gk_Group := "flex.aks.azure.com"; gk_Kind := "NebiusNodeClass" |}.
Definition test_key (gk : GroupKind) : string := gk_Group gk +:+ "/" +:+ ToLower (gk_Kind gk).
Definition test_cache : Cache :=
  {| cache_List := λ _ _, Ok []; cache_Get := λ _, Some (ErrExt "no answer") |}.

(** One allocation of the test system, with whatever the allocator returns. *)
Definition test_alloc (rnd : Z) (claim : string) (w : World) : World :=
  let p := AllocateIP test_key id test_cache rnd "10.0.0.0/30" "c" claim (w_alloc w) in
  {| w_alloc := p.2; w_nodes := w_nodes w; w_claims := w_claims w;
     w_held := match p.1 with
               | Ok ip => {| h_class := "c"; h_claim := claim; h_ip := ip |} :: w_held w
               | _ => w_held w
               end |}.

Lemma test_alloc_step rnd claim w :
  w_nodes w = [] → claim ∈ w_claims w → step test_key id w (test_alloc rnd claim w).
Proof.
  intros Hn Hc. apply (step_alloc _ _ _ test_cache rnd "10.0.0.0/30" "c" claim);
    [|done|apply surjective_pairing].
  split; [|done]. intros k v nodes [= <-]. by rewrite Hn.
Qed.

Definition test_init : World := init test_gk [] {["a"; "b"]}.

Lemma test_reach : rtc (step test_key id) test_init (test_alloc 0 "b" (test_alloc 1 "a" test_init)).
Proof.
  apply (rtc_l _ _ (test_alloc 1 "a" test_init));
    [|apply (rtc_l _ _ (test_alloc 0 "b" (test_alloc 1 "a" test_init))); [|apply rtc_refl]];
    (apply test_alloc_step; [reflexivity|simpl; set_solver]).
Qed.

Lemma reachable_unique_witness :
  let w := test_alloc 0 "b" (test_alloc 1 "a" test_init) in
  (h_ip <$> w_held w) = ["10.0.0.1"; "10.0.0.2"] ∧ unique w ∧ accounted test_key w.
Proof.
  split; [vm_compute; reflexivity|].
  exact (reachable_unique test_key id test_gk [] {["a"; "b"]} _ (λ l, reflexivity l) test_reach).
Defined.

Lemma AllocateRandomIP_exact_witness :
  all_parse ["10.1.2.1"] ∧
  ((∃ rnd, AllocateRandomIP rnd "10.1.2.0/30" ["10.1.2.1"] = Ok "10.1.2.2") ↔
   usable_ip "10.1.2.0/30" "10.1.2.2" ∧ ∀ x, x ∈ ["10.1.2.1"] → normalize_ip x ≠ Some "10.1.2.2").
Proof.
  assert (all_parse ["10.1.2.1"]) as H
    by (intros x ->%list_elem_of_singleton; vm_compute; eauto).
  split; [exact H|]. apply (AllocateRandomIP_exact "10.1.2.0/30" ["10.1.2.1"] "10.1.2.2"). exact H.
Defined.
