(* ===== verification/Hub.v ===== *)
(** * The cloud provider hub

    [karpenter/pkg/cloudproviders/hub.go]: the provider set with its two index
    maps, and the hub that dispatches each operation of Karpenter's
    [CloudProvider] interface to the provider registered for a node class's
    group-kind or for a provider ID's scheme. *)
From S2P Require Import Prelude GoStr GoNet GoURL Karp.
From stdpp Require Import options.

Section hub.
(** The state the providers act on, and the instance type, node class, drift
    reason and repair policy values that the hub only passes on. *)
Context {W InstanceType NodeClass RepairPolicy : Type}.

(** Karpenter's [CloudProvider] interface; [cp_Close] is present for a provider
    that implements [Closeable]. *)
Record CloudProvider := {
  cp_Create : NodeClaim → M W NodeClaim;
  cp_Delete : NodeClaim → M W ();
  cp_Get : string → M W NodeClaim;
  cp_List : M W (list NodeClaim);
  cp_GetInstanceTypes : NodePool → M W (list InstanceType);
  cp_GetSupportedNodeClasses : list NodeClass;
  cp_IsDrifted : NodeClaim → M W string;
  cp_RepairPolicies : list RepairPolicy;
  cp_Close : option (M W ());
}.

Record cloudProviderSet := {
  providers : list CloudProvider;
  byGroupKind : gmap GroupKind nat;
  byProviderIDScheme : gmap string nat;
}.

Definition newCloudProviderSet : cloudProviderSet :=
  {| providers := []; byGroupKind := ∅; byProviderIDScheme := ∅ |}.

(** [set.providers[idx]]. *)
Definition provider_at (set : cloudProviderSet) (idx : nat) : res (option CloudProvider) :=
  match providers set !! idx with
  | Some p => Ok (Some p)
  | None => Panic "index out of range"
  end.

Definition GetByGroupKind (set : cloudProviderSet) (gk : GroupKind) : res (option CloudProvider) :=
  match byGroupKind set !! gk with
  | None => Ok None
  | Some idx => provider_at set idx
  end.

Definition GetByProviderIDScheme (set : cloudProviderSet) (scheme : string)
    : res (option CloudProvider) :=
  match byProviderIDScheme set !! scheme with
  | None => Ok None
  | Some idx => provider_at set idx
  end.

Definition All (set : cloudProviderSet) : list CloudProvider := providers set.

Definition Register (set : cloudProviderSet) (c : CloudProvider) (gk : GroupKind)
    (scheme : string) : cloudProviderSet :=
  let idx := length (providers set) in
  {| providers := providers set ++ [c];
     byGroupKind := <[gk := idx]> (byGroupKind set);
     byProviderIDScheme := <[scheme := idx]> (byProviderIDScheme set) |}.

Definition ErrNoCloudProviderRegistered : error := errors_New "no cloud provider registered".

(** [GroupKind.String]. *)
Definition gk_String (gk : GroupKind) : string :=
  if decide (gk_Group gk = "") then gk_Kind gk else gk_Kind gk +:+ "." +:+ gk_Group gk.

Definition no_provider (gk : GroupKind) : error :=
  Errorf "%w for %s" [gk_String gk] [ErrNoCloudProviderRegistered].

(** The provider of a node class reference, shared by lines 78-82 and their
    copies in the other handlers. *)
Definition by_ref {A} (set : cloudProviderSet) (ref : option NodeClassReference)
    (f : CloudProvider → M W A) : M W A :=
  gk ← lift (ref_GroupKind ref);
  cp ← lift (GetByGroupKind set gk);
  match cp with
  | None => fail (no_provider gk)
  | Some cp => f cp
  end.

Definition Hub_Create (set : cloudProviderSet) (nodeClaim : NodeClaim) : M W NodeClaim :=
  by_ref set (nc_NodeClassRef nodeClaim) (λ cp, cp_Create cp nodeClaim).

Definition Hub_Delete (set : cloudProviderSet) (nodeClaim : NodeClaim) : M W () :=
  by_ref set (nc_NodeClassRef nodeClaim) (λ cp, cp_Delete cp nodeClaim).

Definition Hub_Get (set : cloudProviderSet) (providerID : string) : M W NodeClaim :=
  u ← wrapf "parsing provider ID %q: %w" [providerID] (lift (Parse providerID));
  cp ← lift (GetByProviderIDScheme set (Scheme u));
  match cp with
  | None => fail (Errorf "%w for provider ID scheme %q" [Scheme u] [ErrNoCloudProviderRegistered])
  | Some cp => cp_Get cp providerID
  end.

Definition Hub_GetInstanceTypes (set : cloudProviderSet) (nodePool : NodePool)
    : M W (list InstanceType) :=
  by_ref set (np_NodeClassRef nodePool) (λ cp, cp_GetInstanceTypes cp nodePool).

Definition Hub_GetSupportedNodeClasses (set : cloudProviderSet) : list NodeClass :=
  foldl (λ result cp, result ++ cp_GetSupportedNodeClasses cp) [] (providers set).

Definition Hub_IsDrifted (set : cloudProviderSet) (nodeClaim : NodeClaim) : M W string :=
  by_ref set (nc_NodeClassRef nodeClaim) (λ cp, cp_IsDrifted cp nodeClaim).

Fixpoint list_loop (cps : list CloudProvider) (result : list NodeClaim) : M W (list NodeClaim) :=
  match cps with
  | [] => mret result
  | cp :: cps => nodeClaims ← cp_List cp; list_loop cps (result ++ nodeClaims)
  end.
Definition Hub_List (set : cloudProviderSet) : M W (list NodeClaim) :=
  list_loop (providers set) [].

Definition Hub_Name : string := "aks-flex".

Definition Hub_RepairPolicies (set : cloudProviderSet) : list RepairPolicy :=
  foldl (λ result cp, result ++ cp_RepairPolicies cp) [] (providers set).

(** Every closeable provider is closed; the errors are collected in order. *)
Fixpoint close_loop (cps : list CloudProvider) (errs : list error) : M W (list error) :=
  match cps with
  | [] => mret errs
  | cp :: cps =>
      match cp_Close cp with
      | None => close_loop cps errs
      | Some close =>
          r ← attempt close;
          close_loop cps (match r with inl e => errs ++ [e] | inr _ => errs end)
      end
  end.
Definition Hub_Close (set : cloudProviderSet) : M W () :=
  errs ← close_loop (providers set) [];
  match errors_Join errs with Some e => fail e | None => mret () end.

(** ** Registrations *)
Definition registration : Type := CloudProvider * GroupKind * string.
Definition reg_cp (r : registration) : CloudProvider := r.1.1.
Definition reg_gk (r : registration) : GroupKind := r.1.2.
Definition reg_scheme (r : registration) : string := r.2.

(** The set after a sequence of [Register] calls on a new hub. *)
Definition registered (regs : list registration) : cloudProviderSet :=
  foldl (λ set r, Register set (reg_cp r) (reg_gk r) (reg_scheme r)) newCloudProviderSet regs.

(** The specification of the lookups: the last registration that matches. *)
Definition last_match (P : registration → bool) (regs : list registration) : option CloudProvider :=
  reg_cp <$> last (filter (λ r, P r = true) regs).

Lemma registered_snoc regs r :
  registered (regs ++ [r]) = Register (registered regs) (reg_cp r) (reg_gk r) (reg_scheme r).
Proof. unfold registered. by rewrite foldl_app. Qed.

Lemma registered_providers regs : providers (registered regs) = reg_cp <$> regs.
Proof.
  induction regs as [|r regs IH] using rev_ind; [done|].
  by rewrite registered_snoc, fmap_app, <-IH.
Qed.

(** The index maps hold, for each key, the position of its last registration. *)
Lemma registered_index {K} `{Countable K} (key : registration → K)
    (index : cloudProviderSet → gmap K nat) regs k :
  index newCloudProviderSet = ∅ →
  (∀ set r, index (Register set (reg_cp r) (reg_gk r) (reg_scheme r)) =
            <[key r := length (providers set)]> (index set)) →
  match index (registered regs) !! k with
  | None => last (filter (λ r, bool_decide (key r = k) = true) regs) = None
  | Some i => ∃ r, regs !! i = Some r ∧
                   last (filter (λ r, bool_decide (key r = k) = true) regs) = Some r
  end.
Proof.
  intros Hnew Hreg. induction regs as [|r regs IH] using rev_ind.
  { unfold registered. simpl. by rewrite Hnew, lookup_empty. }
  rewrite registered_snoc, Hreg, filter_app, registered_providers, length_fmap.
  rewrite filter_cons, filter_nil. destruct (decide (key r = k)) as [<-|Hne].
  - rewrite lookup_insert_eq, decide_True by (by apply bool_decide_eq_true).
    exists r. rewrite last_snoc. split; [|done]. by apply list_lookup_middle.
  - rewrite lookup_insert_ne by done.
    rewrite decide_False by (by rewrite bool_decide_eq_false_2). rewrite app_nil_r.
    destruct (index (registered regs) !! k) as [i|]; [|done].
    destruct IH as (r' & Hi & Hl). exists r'. split; [|done]. by apply lookup_app_l_Some.
Qed.

Lemma provider_at_registered regs i r :
  regs !! i = Some r → provider_at (registered regs) i = Ok (Some (reg_cp r)).
Proof. intros Hi. unfold provider_at. by rewrite registered_providers, list_lookup_fmap, Hi. Qed.

Lemma GetByGroupKind_registered regs gk :
  GetByGroupKind (registered regs) gk = Ok (last_match (λ r, bool_decide (reg_gk r = gk)) regs).
Proof.
  pose proof (registered_index reg_gk byGroupKind regs gk eq_refl (λ _ _, eq_refl)) as H.
  unfold GetByGroupKind, last_match. destruct (byGroupKind _ !! gk) as [i|]; [|by rewrite H].
  destruct H as (r & Hi & ->). by apply provider_at_registered.
Qed.

Lemma GetByProviderIDScheme_registered regs s :
  GetByProviderIDScheme (registered regs) s =
  Ok (last_match (λ r, bool_decide (reg_scheme r = s)) regs).
Proof.
  pose proof (registered_index reg_scheme byProviderIDScheme regs s eq_refl (λ _ _, eq_refl)) as H.
  unfold GetByProviderIDScheme, last_match.
  destruct (byProviderIDScheme _ !! s) as [i|]; [|by rewrite H].
  destruct H as (r & Hi & ->). by apply provider_at_registered.
Qed.

(** A provider registered for a group-kind and scheme that no later registration
    takes over. *)
Definition apart (gk : GroupKind) (scheme : string) (r : registration) : Prop :=
  reg_gk r ≠ gk ∧ reg_scheme r ≠ scheme.

Lemma last_match_mid (P : registration → bool) before r after :
  P r = true → Forall (λ r, P r = false) after →
  last_match P (before ++ r :: after) = Some (reg_cp r).
Proof.
  intros Hr Ha. unfold last_match. rewrite filter_app, filter_cons_True by done.
  assert (filter (λ r, P r = true) after = []) as ->.
  { induction Ha as [|x l Hx _ IH]; [done|]. rewrite filter_cons_False by by rewrite Hx. done. }
  by rewrite last_snoc.
Qed.

Lemma by_ref_mid {A} before cp gk scheme after ref (f : CloudProvider → M W A) w :
  ref_GroupKind ref = Ok gk → Forall (apart gk scheme) after →
  by_ref (registered (before ++ (cp, gk, scheme) :: after)) ref f w = f cp w.
Proof.
  intros Hr Ha. unfold by_ref. rewrite (bind_lift_Ok _ _ _ _ Hr), GetByGroupKind_registered.
  rewrite last_match_mid; [done|by rewrite bool_decide_eq_true_2|].
  eapply Forall_impl; [exact Ha|]. intros r [Hg _]. by apply bool_decide_eq_false_2.
Qed.

Lemma Hub_Get_mid before cp gk scheme after id u w :
  Parse id = Ok u → Scheme u = scheme → Forall (apart gk scheme) after →
  Hub_Get (registered (before ++ (cp, gk, scheme) :: after)) id w = cp_Get cp id w.
Proof.
  intros Hp Hs Ha. unfold Hub_Get. munfold. rewrite Hp, GetByProviderIDScheme_registered.
  rewrite last_match_mid; [done|by rewrite bool_decide_eq_true_2|].
  eapply Forall_impl; [exact Ha|]. intros r [_ Hg]. rewrite Hs. by apply bool_decide_eq_false_2.
Qed.

(** ** Closing: a specification as a fold over the closeable providers *)
Definition close_all (cps : list CloudProvider) (w : W) : list error * W :=
  foldl (λ '(errs, w) cp,
           match cp_Close cp with
           | None => (errs, w)
           | Some close => match close w with
                           | (Err e, w') => (errs ++ [e], w')
                           | (_, w') => (errs, w')
                           end
           end) ([], w) cps.

(** No [Close] of a provider panics. *)
Definition close_total (cps : list CloudProvider) : Prop :=
  Forall (λ cp, ∀ close, cp_Close cp = Some close → ∀ w p, (close w).1 ≠ Panic p) cps.

Lemma close_loop_all cps errs w :
  close_total cps →
  close_loop cps errs w =
  let '(errs', w') :=
    foldl (λ '(errs, w) cp,
           match cp_Close cp with
           | None => (errs, w)
           | Some close => match close w with
                           | (Err e, w') => (errs ++ [e], w')
                           | (_, w') => (errs, w')
                           end
           end) (errs, w) cps in (Ok errs', w').
Proof.
  intros Ht. revert errs w. induction Ht as [|cp cps Hcp Ht IH]; intros errs w; [done|].
  simpl. destruct (cp_Close cp) as [close|]; [|apply IH].
  specialize (Hcp close eq_refl w). unfold mbind, M_bind, attempt.
  destruct (close w) as [[a|e|p] w']; simpl in *; [apply IH|apply IH|by destruct (Hcp p)].
Qed.

Lemma list_loop_Ok cps acc w :
  ∀ l w', list_loop cps acc w = (Ok l, w') ↔
  ∃ ls, traverse cp_List cps w = (Ok ls, w') ∧ l = acc ++ concat ls.
Proof.
  revert acc w. induction cps as [|cp cps IH]; intros acc w l w'; simpl.
  - unfold mret, M_ret. split; [intros [= <- <-]; exists []; by rewrite app_nil_r|].
    intros (ls & [= <- <-] & ->). by rewrite app_nil_r.
  - unfold mbind, M_bind. destruct (cp_List cp w) as [[x|e|p] w1]; [|naive_solver..].
    rewrite IH. destruct (traverse cp_List cps w1) as [[ys|e|p] w2]; [|naive_solver..].
    unfold mret, M_ret. split.
    + intros (ls & [= -> ->] & ->). eexists. split; [done|]. simpl. by rewrite app_assoc.
    + intros (ls & [= <- ->] & ->). eexists. split; [done|]. simpl. by rewrite app_assoc.
Qed.

(** ** Properties *)

(** After any sequence of [Register] calls, a node claim's operations go to
    the last provider registered for the group-kind of its node class, and to
    no other; with none registered they fail without touching the world, and a
    claim without a node class reference is a nil dereference. *)
Theorem hub_dispatch (regs : list registration) (nc : NodeClaim) (w : W) :
  let set := registered regs in
  match nc_NodeClassRef nc with
  | None => Hub_Create set nc w = (Panic "nil pointer dereference", w) ∧
            Hub_Delete set nc w = (Panic "nil pointer dereference", w)
  | Some r =>
      let gk := {| gk_Group := ref_Group r; gk_Kind := ref_Kind r |} in
      match last_match (λ r, bool_decide (reg_gk r = gk)) regs with
      | Some cp => Hub_Create set nc w = cp_Create cp nc w ∧
                   Hub_Delete set nc w = cp_Delete cp nc w ∧
                   Hub_IsDrifted set nc w = cp_IsDrifted cp nc w
      | None => Hub_Create set nc w = (Err (no_provider gk), w) ∧
                Hub_Delete set nc w = (Err (no_provider gk), w) ∧
                Hub_IsDrifted set nc w = (Err (no_provider gk), w)
      end
  end.
Proof.
  simpl. unfold Hub_Create, Hub_Delete, Hub_IsDrifted, by_ref.
  destruct (nc_NodeClassRef nc) as [r|]; [|done].
  munfold. rewrite GetByGroupKind_registered. by destruct (last_match _ regs).
Qed.

(** [Get] dispatches on the scheme of the provider ID: a URL that parses
    goes to the last provider registered for its scheme. *)
Theorem hub_get_dispatch (regs : list registration) (providerID : string) (w : W) :
  Hub_Get (registered regs) providerID w =
  match Parse providerID with
  | Ok u => match last_match (λ r, bool_decide (reg_scheme r = Scheme u)) regs with
            | Some cp => cp_Get cp providerID w
            | None => (Err (Errorf "%w for provider ID scheme %q" [Scheme u]
                              [ErrNoCloudProviderRegistered]), w)
            end
  | Err e => (Err (Errorf "parsing provider ID %q: %w" [providerID] [e]), w)
  | Panic p => (Panic p, w)
  end.
Proof.
  unfold Hub_Get. munfold. destruct (Parse providerID) as [u|e|p]; [|done..].
  rewrite GetByProviderIDScheme_registered. by destruct (last_match _ regs).
Qed.

(** [List] returns a value exactly when every provider's [List] does, each
    called once in registration order, and then it is their concatenation. *)
Theorem hub_list_all_or_error (regs : list registration) (w w' : W) (l : list NodeClaim) :
  Hub_List (registered regs) w = (Ok l, w') ↔
  ∃ ls, traverse cp_List (reg_cp <$> regs) w = (Ok ls, w') ∧ l = concat ls.
Proof. unfold Hub_List. by rewrite registered_providers, list_loop_Ok. Qed.

(** [Close] closes every closeable provider in order, the ones after a
    failure included, and joins all the errors. *)
Theorem hub_close_all (regs : list registration) (w : W) :
  close_total (reg_cp <$> regs) →
  Hub_Close (registered regs) w =
  let '(errs, w') := close_all (reg_cp <$> regs) w in
  (match errs with [] => Ok () | _ => Err (ErrJoin errs) end, w').
Proof.
  intros Ht. unfold Hub_Close. rewrite registered_providers.
  unfold mbind at 1, M_bind at 1. rewrite close_loop_all by done.
  unfold close_all. destruct (foldl _ _ _) as [[|e errs] w']; done.
Qed.
End hub.
Arguments CloudProvider : clear implicits.
Arguments cloudProviderSet : clear implicits.

(** A provider that counts its calls of [Close]. *)
Definition test_provider (fails : bool) : CloudProvider nat () () () :=
  {| cp_Create := λ nc, mret nc; cp_Delete := λ _, mret (); cp_Get := λ _, fail (ErrExt "get");
     cp_List := mret []; cp_GetInstanceTypes := λ _, mret []; cp_GetSupportedNodeClasses := [];
     cp_IsDrifted := λ _, mret ""; cp_RepairPolicies := [];
     cp_Close := Some (λ n, (if fails then Err (ErrExt "close") else Ok (), S n)) |}.
Definition test_gk : GroupKind := {| gk_Group := "g"; gk_Kind := "k" |}.

Lemma hub_close_all_witness :
  Hub_Close (registered [(test_provider true, test_gk, "a"); (test_provider false, test_gk, "b")]) 0%nat
  = (Err (ErrJoin [ErrExt "close"]), 2%nat).
Proof.
  rewrite (hub_close_all [(test_provider true, test_gk, "a"); (test_provider false, test_gk, "b")] 0%nat);
    [reflexivity|].
  repeat constructor; intros close [= <-] w p; discriminate.
Defined.
