(* ===== verification/Proto.v ===== *)
(** * The API messages

    The protobuf messages the services exchange: [plugin/api] and the feature
    configurations under [plugin/pkg/services/*/api/features], the Nebius agent
    pool and network, with their nil-safe getters, and the hand-written methods
    on them (node labels, registration taints, redaction).  A message pointer
    is an [option]; a field is [None] when it is not set.  A bytes field is a
    string of bytes. *)
From S2P Require Import Prelude GoStr Karp.
From stdpp Require Import options.

(** A generated getter: the zero value of the field for a nil message or an
    unset field. *)
Definition getf {R A} (f : R → option A) (zero : A) (x : option R) : A :=
  match x with Some r => default zero (f r) | None => zero end.

(** A getter of a message field, which returns a pointer. *)
Definition getm {R A} (f : R → option A) (x : option R) : option A := x ≫= f.

(** A method that writes through its receiver: a nil receiver panics. *)
Definition setf {R} (upd : R → R) (x : option R) : res (option R) :=
  match x with
  | Some r => Ok (Some (upd r))
  | None => Panic "nil pointer dereference"
  end.

(** ** [plugin/api] *)
Module api.
Record Metadata := { Type_ : option string; Id : option string }.
#[global] Instance Metadata_eq_dec : EqDecision Metadata.
Proof. solve_decision. Defined.
#[global] Instance Metadata_countable : Countable Metadata.
Proof.
  refine (inj_countable' (λ x, (Type_ x, Id x)) (λ '(a0, a1), {| Type_ := a0; Id := a1 |}) _).
  by intros [].
Defined.
Definition GetType : option Metadata → string := getf Type_ "".
Definition GetId : option Metadata → string := getf Id "".

(** [NewMetadata[T](id)], given the full name of [T]. *)
Definition NewMetadata (typeName id : string) : Metadata :=
  {| Type_ := Some typeName; Id := Some id |}.
End api.

(** ** Agent pool features *)
Module kubeadm.
Record Taint := { Key : option string; Value : option string; Effect : option string }.
#[global] Instance Taint_eq_dec : EqDecision Taint.
Proof. solve_decision. Defined.
#[global] Instance Taint_countable : Countable Taint.
Proof.
  refine (inj_countable' (λ x, (Key x, Value x, Effect x)) (λ '(a0, a1, a2), {| Key := a0; Value := a1; Effect := a2 |}) _).
  by intros [].
Defined.
Definition GetKey : option Taint → string := getf Key "".
Definition GetValue : option Taint → string := getf Value "".
Definition GetEffect : option Taint → string := getf Effect "".

Record Config := {
  Server : option string;
  CertificateAuthorityData : option string;
  Token : option string;
  NodeLabels : option (gmap string string);
  NodeIp : option string;
  RegisterWithTaints : option (list Taint);
  MaxPodsPerNode : option Z;
}.
#[global] Instance Config_eq_dec : EqDecision Config.
Proof. solve_decision. Defined.
#[global] Instance Config_countable : Countable Config.
Proof.
  refine (inj_countable' (λ x, (Server x, CertificateAuthorityData x, Token x, NodeLabels x, NodeIp x, RegisterWithTaints x, MaxPodsPerNode x)) (λ '(a0, a1, a2, a3, a4, a5, a6), {| Server := a0; CertificateAuthorityData := a1; Token := a2; NodeLabels := a3; NodeIp := a4; RegisterWithTaints := a5; MaxPodsPerNode := a6 |}) _).
  by intros [].
Defined.
Definition GetServer : option Config → string := getf Server "".
Definition GetCertificateAuthorityData : option Config → option string :=
  getm CertificateAuthorityData.
Definition GetToken : option Config → string := getf Token "".
Definition GetNodeLabels : option Config → option (gmap string string) := getm NodeLabels.
Definition GetNodeIp : option Config → string := getf NodeIp "".
Definition GetRegisterWithTaints : option Config → list Taint := getf RegisterWithTaints [].
Definition GetMaxPodsPerNode : option Config → Z := getf MaxPodsPerNode 0.

Definition SetNodeLabels (v : gmap string string) : option Config → res (option Config) :=
  setf (λ c, {| Server := Server c; CertificateAuthorityData := CertificateAuthorityData c;
                Token := Token c; NodeLabels := Some v; NodeIp := NodeIp c;
                RegisterWithTaints := RegisterWithTaints c;
                MaxPodsPerNode := MaxPodsPerNode c |}).
Definition SetNodeIp (v : string) : option Config → res (option Config) :=
  setf (λ c, {| Server := Server c; CertificateAuthorityData := CertificateAuthorityData c;
                Token := Token c; NodeLabels := NodeLabels c; NodeIp := Some v;
                RegisterWithTaints := RegisterWithTaints c;
                MaxPodsPerNode := MaxPodsPerNode c |}).
Definition SetRegisterWithTaints (v : list Taint) : option Config → res (option Config) :=
  setf (λ c, {| Server := Server c; CertificateAuthorityData := CertificateAuthorityData c;
                Token := Token c; NodeLabels := NodeLabels c; NodeIp := NodeIp c;
                RegisterWithTaints := Some v; MaxPodsPerNode := MaxPodsPerNode c |}).
Definition ClearToken : option Config → res (option Config) :=
  setf (λ c, {| Server := Server c; CertificateAuthorityData := CertificateAuthorityData c;
                Token := None; NodeLabels := NodeLabels c; NodeIp := NodeIp c;
                RegisterWithTaints := RegisterWithTaints c;
                MaxPodsPerNode := MaxPodsPerNode c |}).

(** [maps.Copy] into the existing labels, the new ones winning. *)
Definition AddNodeLabels (extra : gmap string string) (x : option Config) : res (option Config) :=
  let labels := match GetNodeLabels x with Some l => l | None => ∅ end in
  SetNodeLabels (extra ∪ labels) x.

Definition GetK8SRegisterTaints (x : option Config) : list Karp.Taint :=
  (λ t, {| taint_Key := GetKey (Some t); taint_Value := GetValue (Some t);
           taint_Effect := GetEffect (Some t) |}) <$> GetRegisterWithTaints x.

Definition AddK8SRegisterTaints (xs : list Karp.Taint) (x : option Config) : res (option Config) :=
  SetRegisterWithTaints
    (GetRegisterWithTaints x ++
     ((λ o, {| Key := Some (taint_Key o); Value := Some (taint_Value o);
               Effect := Some (taint_Effect o) |}) <$> xs)) x.

Definition Redact (x : option Config) : res (option Config) := ClearToken x.

Lemma AddNodeLabels_spec extra c :
  ∃ c', AddNodeLabels extra (Some c) = Ok (Some c') ∧
        NodeLabels c' = Some (extra ∪ default ∅ (NodeLabels c)) ∧
        Server c' = Server c ∧ Token c' = Token c ∧ NodeIp c' = NodeIp c ∧
        CertificateAuthorityData c' = CertificateAuthorityData c ∧
        RegisterWithTaints c' = RegisterWithTaints c ∧ MaxPodsPerNode c' = MaxPodsPerNode c.
Proof. eexists. split; [reflexivity|]. destruct c as [????[]??]; by split_and!. Qed.
End kubeadm.

Module wireguard.
Record Config := { PeerIp : option string }.
#[global] Instance Config_eq_dec : EqDecision Config.
Proof. solve_decision. Defined.
#[global] Instance Config_countable : Countable Config.
Proof.
  refine (inj_countable' (λ x, PeerIp x) (λ a0, {| PeerIp := a0 |}) _).
  by intros [].
Defined.
Definition GetPeerIp : option Config → string := getf PeerIp "".
End wireguard.

Module gpu.
Record Config := {}.
#[global] Instance Config_eq_dec : EqDecision Config.
Proof. solve_decision. Defined.
#[global] Instance Config_countable : Countable Config.
Proof. refine (inj_countable' (λ _, ()) (λ _, Build_Config) _). by intros []. Defined.
End gpu.

Module capacity.
Inductive CapacityType := UNSPECIFIED | ON_DEMAND | SPOT | RESERVED.
#[global] Instance CapacityType_eq_dec : EqDecision CapacityType.
Proof. solve_decision. Defined.
#[global] Instance CapacityType_countable : Countable CapacityType.
Proof.
  refine (inj_countable'
    (λ c, match c with UNSPECIFIED => 0 | ON_DEMAND => 1 | SPOT => 2 | RESERVED => 3 end)
    (λ z, match z with 0 => UNSPECIFIED | 1 => ON_DEMAND | 2 => SPOT | _ => RESERVED end) _).
  by intros [].
Defined.
Record Config := { Capacity : option Z; CapacityType_ : option CapacityType }.
#[global] Instance Config_eq_dec : EqDecision Config.
Proof. solve_decision. Defined.
#[global] Instance Config_countable : Countable Config.
Proof.
  refine (inj_countable' (λ x, (Capacity x, CapacityType_ x)) (λ '(a0, a1), {| Capacity := a0; CapacityType_ := a1 |}) _).
  by intros [].
Defined.
Definition GetCapacity : option Config → Z := getf Capacity 0.
Definition GetCapacityType : option Config → CapacityType := getf CapacityType_ UNSPECIFIED.
End capacity.

Module arc.
Record Config := {
  ResourceId : option string; TenantId : option string;
  ServicePrincipalId : option string; ServicePrincipalSecret : option string;
}.
Definition GetServicePrincipalSecret : option Config → string := getf ServicePrincipalSecret "".
Definition ClearServicePrincipalSecret : option Config → res (option Config) :=
  setf (λ c, {| ResourceId := ResourceId c; TenantId := TenantId c;
                ServicePrincipalId := ServicePrincipalId c; ServicePrincipalSecret := None |}).
Definition Redact (x : option Config) : res (option Config) := ClearServicePrincipalSecret x.
End arc.

(** ** Network and peering features *)
Module vnet.
Record Config := { CidrBlock : option string }.
#[global] Instance Config_eq_dec : EqDecision Config.
Proof. solve_decision. Defined.
#[global] Instance Config_countable : Countable Config.
Proof.
  refine (inj_countable' (λ x, CidrBlock x) (λ a0, {| CidrBlock := a0 |}) _).
  by intros [].
Defined.
Definition GetCidrBlock : option Config → string := getf CidrBlock "".
End vnet.

Module ipsec.
Record Config := { RemoteIp : option string; PreSharedKey : option string }.
Definition GetRemoteIp : option Config → string := getf RemoteIp "".
Definition GetPreSharedKey : option Config → string := getf PreSharedKey "".
Definition ClearPreSharedKey : option Config → res (option Config) :=
  setf (λ c, {| RemoteIp := RemoteIp c; PreSharedKey := None |}).
Definition Redact (x : option Config) : res (option Config) := ClearPreSharedKey x.
End ipsec.

(** ** The Nebius agent pool *)
Module nebius.
Record AgentPoolSpec := {
  ProjectId : option string;
  Region : option string;
  SubnetId : option string;
  Platform : option string;
  Preset : option string;
  ImageFamily : option string;
  OsDiskSizeGibibytes : option Z;
  Kubeadm : option kubeadm.Config;
  Wireguard : option wireguard.Config;
  Gpu : option gpu.Config;
  Zone : option string;
  Capacity : option capacity.Config;
  KubernetesVersion : option string;
}.
#[global] Instance AgentPoolSpec_eq_dec : EqDecision AgentPoolSpec.
Proof. solve_decision. Defined.
#[global] Instance AgentPoolSpec_countable : Countable AgentPoolSpec.
Proof.
  refine (inj_countable' (λ x, (ProjectId x, Region x, SubnetId x, Platform x, Preset x, ImageFamily x, OsDiskSizeGibibytes x, Kubeadm x, Wireguard x, Gpu x, Zone x, Capacity x, KubernetesVersion x)) (λ '(a0, a1, a2, a3, a4, a5, a6, a7, a8, a9, a10, a11, a12), {| ProjectId := a0; Region := a1; SubnetId := a2; Platform := a3; Preset := a4; ImageFamily := a5; OsDiskSizeGibibytes := a6; Kubeadm := a7; Wireguard := a8; Gpu := a9; Zone := a10; Capacity := a11; KubernetesVersion := a12 |}) _).
  by intros [].
Defined.
Definition GetProjectId : option AgentPoolSpec → string := getf ProjectId "".
Definition GetRegion : option AgentPoolSpec → string := getf Region "".
Definition GetSubnetId : option AgentPoolSpec → string := getf SubnetId "".
Definition GetPlatform : option AgentPoolSpec → string := getf Platform "".
Definition GetPreset : option AgentPoolSpec → string := getf Preset "".
Definition GetImageFamily : option AgentPoolSpec → string := getf ImageFamily "".
Definition GetOsDiskSizeGibibytes : option AgentPoolSpec → Z := getf OsDiskSizeGibibytes 0.
Definition GetKubeadm : option AgentPoolSpec → option kubeadm.Config := getm Kubeadm.
Definition GetWireguard : option AgentPoolSpec → option wireguard.Config := getm Wireguard.
Definition GetGpu : option AgentPoolSpec → option gpu.Config := getm Gpu.
Definition HasGpu (x : option AgentPoolSpec) : bool :=
  match GetGpu x with Some _ => true | None => false end.
Definition GetZone : option AgentPoolSpec → string := getf Zone "".
Definition GetCapacity : option AgentPoolSpec → option capacity.Config := getm Capacity.
Definition GetKubernetesVersion : option AgentPoolSpec → string := getf KubernetesVersion "".

(** A nanosecond count stands for the timestamp. *)
Record AgentPoolStatus := {
  InstanceId : option string; OsDiskId : option string; CreatedAt : option Z;
}.
#[global] Instance AgentPoolStatus_eq_dec : EqDecision AgentPoolStatus.
Proof. solve_decision. Defined.
#[global] Instance AgentPoolStatus_countable : Countable AgentPoolStatus.
Proof.
  refine (inj_countable' (λ x, (InstanceId x, OsDiskId x, CreatedAt x)) (λ '(a0, a1, a2), {| InstanceId := a0; OsDiskId := a1; CreatedAt := a2 |}) _).
  by intros [].
Defined.
Definition GetInstanceId : option AgentPoolStatus → string := getf InstanceId "".
Definition GetOsDiskId : option AgentPoolStatus → string := getf OsDiskId "".
Definition GetCreatedAt : option AgentPoolStatus → option Z := getm CreatedAt.
Definition SetInstanceId (v : string) : option AgentPoolStatus → res (option AgentPoolStatus) :=
  setf (λ s, {| InstanceId := Some v; OsDiskId := OsDiskId s; CreatedAt := CreatedAt s |}).
Definition SetOsDiskId (v : string) : option AgentPoolStatus → res (option AgentPoolStatus) :=
  setf (λ s, {| InstanceId := InstanceId s; OsDiskId := Some v; CreatedAt := CreatedAt s |}).
Definition SetCreatedAt (v : option Z) : option AgentPoolStatus → res (option AgentPoolStatus) :=
  setf (λ s, {| InstanceId := InstanceId s; OsDiskId := OsDiskId s; CreatedAt := v |}).

Record AgentPool := {
  Metadata : option api.Metadata; Spec : option AgentPoolSpec; Status : option AgentPoolStatus;
}.
#[global] Instance AgentPool_eq_dec : EqDecision AgentPool.
Proof. solve_decision. Defined.
#[global] Instance AgentPool_countable : Countable AgentPool.
Proof.
  refine (inj_countable' (λ x, (Metadata x, Spec x, Status x)) (λ '(a0, a1, a2), {| Metadata := a0; Spec := a1; Status := a2 |}) _).
  by intros [].
Defined.
Definition GetMetadata : option AgentPool → option api.Metadata := getm Metadata.
Definition GetSpec : option AgentPool → option AgentPoolSpec := getm Spec.
Definition GetStatus : option AgentPool → option AgentPoolStatus := getm Status.

Definition SetKubeadm (v : option kubeadm.Config) : option AgentPoolSpec → res (option AgentPoolSpec) :=
  setf (λ s, {| ProjectId := ProjectId s; Region := Region s; SubnetId := SubnetId s;
                Platform := Platform s; Preset := Preset s; ImageFamily := ImageFamily s;
                OsDiskSizeGibibytes := OsDiskSizeGibibytes s; Kubeadm := v;
                Wireguard := Wireguard s; Gpu := Gpu s; Zone := Zone s; Capacity := Capacity s;
                KubernetesVersion := KubernetesVersion s |}).
Definition SetSpec (v : option AgentPoolSpec) : option AgentPool → res (option AgentPool) :=
  setf (λ p, {| Metadata := Metadata p; Spec := v; Status := Status p |}).
Definition SetStatus (v : option AgentPoolStatus) : option AgentPool → res (option AgentPool) :=
  setf (λ p, {| Metadata := Metadata p; Spec := Spec p; Status := v |}).

(** The agent pool's [Redact] does nothing. *)
Definition Redact (x : option AgentPool) : res (option AgentPool) := Ok x.
End nebius.

(** ** The Nebius network *)
Module vpc.
Record NetworkSpec := {
  ProjectId : option string; Region : option string; Vnet : option vnet.Config;
}.
#[global] Instance NetworkSpec_eq_dec : EqDecision NetworkSpec.
Proof. solve_decision. Defined.
#[global] Instance NetworkSpec_countable : Countable NetworkSpec.
Proof.
  refine (inj_countable' (λ x, (ProjectId x, Region x, Vnet x)) (λ '(a0, a1, a2), {| ProjectId := a0; Region := a1; Vnet := a2 |}) _).
  by intros [].
Defined.
Definition GetProjectId : option NetworkSpec → string := getf ProjectId "".
Definition GetRegion : option NetworkSpec → string := getf Region "".
Definition GetVnet : option NetworkSpec → option vnet.Config := getm Vnet.
Record NetworkStatus := {
  PoolId : option string; VnetId : option string; SubnetId : option string;
}.
#[global] Instance NetworkStatus_eq_dec : EqDecision NetworkStatus.
Proof. solve_decision. Defined.
#[global] Instance NetworkStatus_countable : Countable NetworkStatus.
Proof.
  refine (inj_countable' (λ x, (PoolId x, VnetId x, SubnetId x)) (λ '(a0, a1, a2), {| PoolId := a0; VnetId := a1; SubnetId := a2 |}) _).
  by intros [].
Defined.
Definition GetPoolId : option NetworkStatus → string := getf PoolId "".
Definition GetVnetId : option NetworkStatus → string := getf VnetId "".
Definition GetSubnetId : option NetworkStatus → string := getf SubnetId "".
Record Network := {
  Metadata : option api.Metadata; Spec : option NetworkSpec; Status : option NetworkStatus;
}.
#[global] Instance Network_eq_dec : EqDecision Network.
Proof. solve_decision. Defined.
#[global] Instance Network_countable : Countable Network.
Proof.
  refine (inj_countable' (λ x, (Metadata x, Spec x, Status x)) (λ '(a0, a1, a2), {| Metadata := a0; Spec := a1; Status := a2 |}) _).
  by intros [].
Defined.
Definition GetMetadata : option Network → option api.Metadata := getm Metadata.
Definition GetSpec : option Network → option NetworkSpec := getm Spec.
Definition GetStatus : option Network → option NetworkStatus := getm Status.
Definition SetPoolId (v : string) : option NetworkStatus → res (option NetworkStatus) :=
  setf (λ s, {| PoolId := Some v; VnetId := VnetId s; SubnetId := SubnetId s |}).
Definition SetVnetId (v : string) : option NetworkStatus → res (option NetworkStatus) :=
  setf (λ s, {| PoolId := PoolId s; VnetId := Some v; SubnetId := SubnetId s |}).
Definition SetSubnetId (v : string) : option NetworkStatus → res (option NetworkStatus) :=
  setf (λ s, {| PoolId := PoolId s; VnetId := VnetId s; SubnetId := Some v |}).
Definition SetStatus (v : option NetworkStatus) : option Network → res (option Network) :=
  setf (λ n, {| Metadata := Metadata n; Spec := Spec n; Status := v |}).
Definition Redact (x : option Network) : res (option Network) := Ok x.
End vpc.

(** ** Node labels of the plugin, [plugin/pkg/topology] *)
Definition NodeLabelKeyCloudProviderManaged : string := "kubernetes.azure.com/managed".
Definition NodeLabelKeyCloudProviderCluster : string := "kubernetes.azure.com/cluster".
Definition NodeLabelKeyStretchManaged : string := "aks.azure.com/stretch-managed".
Definition NodeLabelKeyCloud : string := "aks.azure.com/cloud".
Definition NodeLabelKeyRegion : string := "aks.azure.com/region".
Definition NodeLabelKeyZone : string := "aks.azure.com/zone".
Definition NodeLabelKeyInstanceType : string := "aks.azure.com/instance-type".
