(* ===== verification/Store.v ===== *)
(** * The byte stores

    [plugin/pkg/db/filestore.go] and [plugin/pkg/db/secretstore.go]: the
    interface [Store] with its read-after-write law, the file store over a file
    with an offset, a lock and failing system calls, and the Secret store, which
    chunks the compressed bytes over Kubernetes Secrets. *)
From S2P Require Import Prelude GoStr GoNet GoURL Karp.
From stdpp Require Import options.

(** ** The interface *)
Record Store (W : Type) := {
  store_Read : M W (list Z);
  store_Write : list Z → M W ();
  store_Close : M W ();
}.
Arguments store_Read {W}.
Arguments store_Write {W}.
Arguments store_Close {W}.

(** What a store promises: [contents w b] when the world holds the bytes [b];
    a write of bytes that fit stores them, and a read returns them and keeps
    them. *)
Class StoreLaws {W} (s : Store W) := {
  contents : W → list Z → Prop;
  fits : list Z → Prop;
  store_read_law w b : contents w b → ∃ w', store_Read s w = (Ok b, w') ∧ contents w' b;
  store_write_law w b b' :
    contents w b → fits b' → ∃ w', store_Write s b' w = (Ok (), w') ∧ contents w' b';
}.

(** ** The file store *)
Module File.

(** An open file: its bytes, the offset, the advisory lock, and the results of
    the system calls to come ([None] for success; successes once it is empty). *)
Record file := {
  data : list Z;
  offset : nat;
  locked : bool;
  faults : list (option error);
}.

Definition pop (f : file) : option error * file :=
  match faults f with
  | [] => (None, f)
  | e :: fs => (e, {| data := data f; offset := offset f; locked := locked f; faults := fs |})
  end.

(** A system call that does [k] when it succeeds. *)
Definition syscall {A} (k : file → A * file) : M file A := λ f,
  match pop f with
  | (Some e, f') => (Err e, f')
  | (None, f') => let '(a, f'') := k f' in (Ok a, f'')
  end.

Definition Seek0 : M file () :=
  syscall (λ f, ((), {| data := data f; offset := 0; locked := locked f; faults := faults f |})).
Definition Truncate0 : M file () :=
  syscall (λ f, ((), {| data := []; offset := offset f; locked := locked f; faults := faults f |})).
Definition ReadAll : M file (list Z) :=
  syscall (λ f, (drop (offset f) (data f),
                 {| data := data f; offset := Nat.max (offset f) (length (data f));
                    locked := locked f; faults := faults f |})).

(** A write at the offset: a gap is filled with zeros. *)
Definition write_at (off : nat) (b old : list Z) : list Z :=
  take off old ++ replicate (off - length old) 0 ++ b ++ drop (off + length b) old.
Definition WriteBytes (b : list Z) : M file () :=
  syscall (λ f, ((), {| data := write_at (offset f) b (data f); offset := offset f + length b;
                        locked := locked f; faults := faults f |})).

Definition Flock (l : bool) : M file () :=
  syscall (λ f, ((), {| data := data f; offset := offset f; locked := l; faults := faults f |})).

(** Lines 67-81.  The mutex is not part of the state: a process runs one call
    of the store at a time. *)
Definition lock : M file () := must (Flock true).
Definition unlock : M file () := must (Flock false).

(** A body with a deferred [unlock]; the deferred call runs on every exit. *)
Definition with_lock {A} (body : M file A) : M file A := λ f,
  match lock f with
  | (Ok _, f1) =>
      let '(r, f2) := body f1 in
      match unlock f2 with
      | (Ok _, f3) => (r, f3)
      | (Err e, f3) => (Err e, f3)
      | (Panic p, f3) => (Panic p, f3)
      end
  | (Err e, f1) => (Err e, f1)
  | (Panic p, f1) => (Panic p, f1)
  end.

Definition Read : M file (list Z) := with_lock (_ ← Seek0; ReadAll).
Definition Write (b : list Z) : M file () := with_lock (_ ← Truncate0; _ ← Seek0; WriteBytes b).
Definition CloseFile : M file () := syscall (λ f, ((), f)).

(** [os.OpenFile] of a file with the given bytes; a failure panics. *)
Definition newLockedFileStore (opened : res (list Z)) : res file :=
  match opened with
  | Ok b => Ok {| data := b; offset := 0; locked := false; faults := [] |}
  | Err _ => Panic "panic(err)"
  | Panic p => Panic p
  end.

Definition store : Store file :=
  {| store_Read := Read; store_Write := Write; store_Close := CloseFile |}.

(** Nothing fails, and the lock is free. *)
Definition holds (f : file) (b : list Z) : Prop :=
  data f = b ∧ faults f = [] ∧ locked f = false.

Lemma write_at_0 b : write_at 0 b [] = b.
Proof. unfold write_at. simpl. by rewrite drop_nil, app_nil_r. Qed.

Lemma Write_ok f b :
  faults f = [] →
  Write b f = (Ok (), {| data := b; offset := length b; locked := false; faults := [] |}).
Proof.
  intros Hf. unfold Write, with_lock, lock, unlock, must, Flock, syscall, pop. rewrite Hf. simpl.
  unfold mbind, M_bind, Truncate0, Seek0, WriteBytes, syscall, pop. simpl. rewrite Hf. simpl.
  by rewrite write_at_0.
Qed.

Lemma Read_ok f :
  faults f = [] →
  Read f = (Ok (data f), {| data := data f; offset := length (data f); locked := false; faults := [] |}).
Proof.
  intros Hf. unfold Read, with_lock, lock, unlock, must, Flock, syscall, pop. rewrite Hf. simpl.
  unfold mbind, M_bind, Seek0, ReadAll, syscall, pop. simpl. rewrite Hf. simpl. done.
Qed.

#[global] Program Instance laws : StoreLaws store := {| contents := holds; fits _ := True |}.
Next Obligation.
  intros f b (<- & Hf & _). simpl. rewrite Read_ok by done. eexists. split; [done|]. by split_and!.
Qed.
Next Obligation.
  intros f b b' (_ & Hf & _) _. simpl. rewrite Write_ok by done. eexists. split; [done|]. by split_and!.
Qed.

(** Whatever system calls fail, a read or a write that returns has released
    the lock; a failed unlock panics. *)
Theorem file_lock_released (f : file) (b : list Z) :
  ((∃ p, (Read f).1 = Panic p) ∨ locked (Read f).2 = false) ∧
  ((∃ p, (Write b f).1 = Panic p) ∨ locked (Write b f).2 = false).
Proof.
  assert (∀ A (body : M file A), (∃ p, (with_lock body f).1 = Panic p) ∨
                                 locked (with_lock body f).2 = false) as H.
  { intros A body. unfold with_lock, lock, unlock, must.
    destruct (Flock true f) as [[]f1] eqn:E1; [|left; by eexists..].
    destruct (body f1) as [r f2]. unfold Flock, syscall, pop in *.
    destruct (faults f2) as [|[e|] fs]; [by right|left; by eexists|by right]. }
  split; apply H.
Qed.
End File.

(** ** The Secret store *)
Module Secrets.

Record Secret := {
  s_Name : string;
  s_Labels : gmap string string;
  s_Data : gmap string (list Z);
}.

(** Equality-based label selectors of the Kubernetes API: comma-separated
    [key=value] terms, all of which must hold. *)
Definition term_matches (labels : gmap string string) (term : string) : bool :=
  match cut_char "=" term with
  | Some (k, v) => bool_decide (labels !! k = Some v)
  | None => false
  end.
Definition selector_matches (sel : string) (labels : gmap string string) : bool :=
  forallb (term_matches labels) (split_char "," sel).

(** The Secrets of one namespace behind the Kubernetes API. *)
Record SecretsAPI (W : Type) := {
  api_Get : string → M W Secret;
  api_Create : Secret → M W ();
  api_Update : Secret → M W ();
  api_Delete : string → M W ();
  api_List : string → M W (list Secret);
}.
Arguments api_Get {W}.
Arguments api_Create {W}.
Arguments api_Update {W}.
Arguments api_Delete {W}.
Arguments api_List {W}.

(** The documented behaviour of the API, on the Secrets it stores by name. *)
Class SecretsLaws {W} (api : SecretsAPI W) := {
  secrets : W → gmap string Secret;
  secrets_named w n s : secrets w !! n = Some s → s_Name s = n;
  get_found w n s : secrets w !! n = Some s → api_Get api n w = (Ok s, w);
  get_missing w n :
    secrets w !! n = None → ∃ m, api_Get api n w = (Err (ErrK8sNotFound m), w);
  create_new w s :
    secrets w !! s_Name s = None →
    ∃ w', api_Create api s w = (Ok (), w') ∧ secrets w' = <[s_Name s := s]> (secrets w);
  update_found w s :
    is_Some (secrets w !! s_Name s) →
    ∃ w', api_Update api s w = (Ok (), w') ∧ secrets w' = <[s_Name s := s]> (secrets w);
  delete_found w n :
    is_Some (secrets w !! n) →
    ∃ w', api_Delete api n w = (Ok (), w') ∧ secrets w' = delete n (secrets w);
  delete_missing w n :
    secrets w !! n = None → ∃ m, api_Delete api n w = (Err (ErrK8sNotFound m), w);
  list_matching w sel :
    ∃ l, api_List api sel w = (Ok l, w) ∧
         l ≡ₚ filter (λ s, selector_matches sel (s_Labels s) = true) (map_to_list (secrets w)).*2;
}.

Definition maxChunkSize : nat := N.to_nat (2 ^ 20).
Definition secretDataKey : string := "data".

(** [chunk(data, size)]; every turn takes at least one byte when [size > 0]. *)
Fixpoint chunk_loop (fuel : nat) (data : list Z) (size : nat) : list (list Z) :=
  match fuel with
  | O => []
  | S fuel =>
      match data with
      | [] => []
      | _ => let end_ := Nat.min (length data) size in
             take end_ data :: chunk_loop fuel (drop end_ data) size
      end
  end.
Definition chunk (data : list Z) (size : nat) : list (list Z) :=
  match data with
  | [] => [[]]
  | _ => chunk_loop (length data) data size
  end.

(** The order of [sort.Slice] on the chunks: by name. *)
Definition name_lt (a b : Secret) : bool := String.ltb (s_Name a) (s_Name b).

Section secretStore.
(** The API and the namespace's Secrets; [compress] and [decompress] call gzip. *)
Context {W : Type} (api : SecretsAPI W) (namePrefix : string).
Context (compress decompress : list Z → res (list Z)).

Definition chunkName (index : nat) : string := namePrefix +:+ "-" +:+ Itoa (Z.of_nat index).

Definition chunkLabels : gmap string string :=
  {[ "app.kubernetes.io/managed-by" := "stretch-db"; "stretch-db/store" := namePrefix ]}.

(** The two terms of the selector, sorted: the first key is the smaller. *)
Definition labelSelector : string :=
  Join ["app.kubernetes.io/managed-by=stretch-db"; "stretch-db/store=" +:+ namePrefix] ",".

Definition listChunks : M W (list Secret) :=
  l ← wrapf "listing chunk secrets: %w" [] (api_List api labelSelector);
  mret (sort_by name_lt l).

Definition secret_bytes (s : Secret) : list Z := default [] (s_Data s !! secretDataKey).

Definition Read : M W (list Z) :=
  chunks ← listChunks;
  match chunks with
  | [] => mret []
  | _ => lift (decompress (concat (secret_bytes <$> chunks)))
  end.

Definition chunk_secret (i : nat) (data : list Z) : Secret :=
  {| s_Name := chunkName i; s_Labels := chunkLabels; s_Data := {[ secretDataKey := data ]} |}.

(** Lines 92-119: one chunk is created, or its Secret updated in place. *)
Definition write_chunk (i : nat) (data : list Z) : M W () :=
  let name := chunkName i in
  let secret := chunk_secret i data in
  existing ← attempt (api_Get api name);
  match existing with
  | inl err =>
      if k8s_IsNotFound err then
        wrapf "creating secret %s: %w" [name] (api_Create api secret)
      else fail (Errorf "getting secret %s: %w" [name] [err])
  | inr existing =>
      wrapf "updating secret %s: %w" [name]
        (api_Update api {| s_Name := s_Name existing; s_Labels := s_Labels secret;
                           s_Data := s_Data secret |})
  end.

Fixpoint write_chunks (i : nat) (chunks : list (list Z)) : M W () :=
  match chunks with
  | [] => mret ()
  | data :: chunks => _ ← write_chunk i data; write_chunks (S i) chunks
  end.

(** The unbounded loop of lines 179-188; [fuel] bounds its turns. *)
Fixpoint deleteChunksFrom (fuel fromIndex : nat) : M W () :=
  match fuel with
  | O => panic "out of fuel"
  | S fuel =>
      let name := chunkName fromIndex in
      r ← attempt (api_Delete api name);
      match r with
      | inl err => if k8s_IsNotFound err then mret ()
                   else fail (Errorf "deleting stale secret %s: %w" [name] [err])
      | inr _ => deleteChunksFrom fuel (S fromIndex)
      end
  end.

Definition Write (fuel : nat) (b : list Z) : M W () :=
  compressed ← wrapf "compressing data: %w" [] (lift (compress b));
  let chunks := chunk compressed maxChunkSize in
  _ ← write_chunks 0 chunks;
  deleteChunksFrom fuel (length chunks).

(** The store, for a bound on the turns of the delete loop. *)
Definition store (fuel : nat) : Store W :=
  {| store_Read := Read; store_Write := Write fuel; store_Close := mret () |}.

(** ** Lemmas: chunks *)
Lemma chunk_loop_spec fuel data size :
  (0 < size)%nat → (length data ≤ fuel)%nat →
  concat (chunk_loop fuel data size) = data ∧
  Forall (λ c, length c ≤ size)%nat (chunk_loop fuel data size) ∧
  (length data ≤ length (chunk_loop fuel data size) * size)%nat ∧
  (length (chunk_loop fuel data size) * size < length data + size ∨ data = [])%nat.
Proof.
  intros Hs. revert data. induction fuel as [|fuel IH]; intros data Hl.
  { destruct data; simpl in *; [|lia]. split_and!; [done|constructor|lia|by right]. }
  destruct data as [|x data]; [split_and!; [done|constructor|simpl; lia|by right]|].
  cbn [chunk_loop]. set (d := x :: data) in *. set (e := Nat.min (length d) size).
  assert (1 ≤ e ≤ size ∧ e ≤ length d ∧ (e = size ∨ e = length d))%nat as He
    by (unfold e, d; cbn [length]; lia).
  clearbody e.
  destruct (IH (drop e d)) as (Hc & Hf & Hn & Hm); [rewrite length_drop; lia|].
  cbn [concat length]. rewrite Hc, take_drop. rewrite length_drop in *.
  split_and!; [done| |lia|].
  - constructor; [cbn beta; rewrite length_take; lia|done].
  - left. destruct (decide (e = length d)) as [->|Hne].
    + rewrite drop_all. destruct fuel; simpl; lia.
    + destruct Hm as [Hm|Hm]; [lia|].
      apply length_zero_iff_nil in Hm. rewrite length_drop in Hm. lia.
Qed.

Lemma chunk_concat data size : (0 < size)%nat → concat (chunk data size) = data.
Proof. intros Hs. destruct data as [|x data]; [done|]. by apply chunk_loop_spec. Qed.

Lemma chunk_nonempty data size : chunk data size ≠ [].
Proof. by destruct data. Qed.

Lemma chunk_count data size n :
  (0 < size)%nat → (1 ≤ n)%nat → (length data ≤ n * size)%nat → (length (chunk data size) ≤ n)%nat.
Proof.
  intros Hs Hn Hl. destruct data as [|x data]; [done|].
  destruct (chunk_loop_spec (length (x :: data)) (x :: data) size Hs) as (_ & _ & _ & [Hc|Hc]); [lia| |done].
  cbn [chunk]. nia.
Qed.

Lemma chunk_size data size : (0 < size)%nat → Forall (λ c, length c ≤ size)%nat (chunk data size).
Proof.
  intros Hs. destruct data as [|x data]; [repeat constructor; simpl; lia|]. by apply chunk_loop_spec.
Qed.

(** ** Lemmas: names of up to ten chunks *)
Lemma ltb_app p s t : String.ltb (p +:+ s) (p +:+ t) = String.ltb s t.
Proof.
  unfold String.ltb. induction p as [|c p IH]; [done|].
  change (String c p +:+ s) with (String c (p +:+ s)). change (String c p +:+ t) with (String c (p +:+ t)).
  simpl. unfold Ascii.compare. by rewrite N.compare_refl.
Qed.

Definition digits_ok : bool :=
  forallb (λ i, forallb (λ j,
    bool_decide (String.ltb ("-" +:+ Itoa (Z.of_nat i)) ("-" +:+ Itoa (Z.of_nat j)) = true ↔ (i < j)%nat))
    (seq 0 10)) (seq 0 10).
Definition digits_inj : bool :=
  forallb (λ i, forallb (λ j,
    implb (bool_decide ("-" +:+ Itoa (Z.of_nat i) = "-" +:+ Itoa (Z.of_nat j))) (i =? j)%nat)
    (seq 0 11)) (seq 0 11).

Lemma forallb_seq P n i : forallb P (seq 0 n) = true → (i < n)%nat → P i = true.
Proof. intros H Hi. rewrite forallb_forall in H. apply H, in_seq. lia. Qed.

Lemma chunkName_lt i j :
  (i < 10)%nat → (j < 10)%nat → String.ltb (chunkName i) (chunkName j) = (i <? j)%nat.
Proof.
  intros Hi Hj. unfold chunkName. rewrite ltb_app.
  assert (digits_ok = true) as H by (vm_compute; reflexivity). unfold digits_ok in H.
  apply (forallb_seq _ _ i) in H; [|done]. apply (forallb_seq _ _ j) in H; [|done].
  apply bool_decide_eq_true in H. apply eq_true_iff_eq. by rewrite H, Nat.ltb_lt.
Qed.

Lemma str_app_inj_l p s t : p +:+ s = p +:+ t → s = t.
Proof.
  induction p as [|c p IH]; [done|].
  change (String c p +:+ s) with (String c (p +:+ s)). change (String c p +:+ t) with (String c (p +:+ t)).
  intros [= H]. by apply IH.
Qed.

Lemma chunkName_inj i j :
  (i ≤ 10)%nat → (j ≤ 10)%nat → chunkName i = chunkName j → i = j.
Proof.
  intros Hi Hj H. apply str_app_inj_l in H.
  assert (digits_inj = true) as Hd by (vm_compute; reflexivity). unfold digits_inj in Hd.
  apply (forallb_seq _ _ i) in Hd; [|lia]. apply (forallb_seq _ _ j) in Hd; [|lia]. cbn beta in Hd.
  rewrite bool_decide_eq_true_2 in Hd by done. simpl in Hd. by apply Nat.eqb_eq.
Qed.
(** ** Lemmas: sorting by name *)
(** The Secrets of a list of chunks, in order. *)
Definition chunk_secrets (cs : list (list Z)) : list Secret := imap chunk_secret cs.

Definition rank (s : Secret) : nat :=
  match list_find (λ n, n = s_Name s) (chunkName <$> seq 0 10) with
  | Some (i, _) => i
  | None => 10
  end.

Lemma rank_chunk i d : (i < 10)%nat → rank (chunk_secret i d) = i.
Proof.
  intros Hi. unfold rank.
  assert (list_find (λ n, n = s_Name (chunk_secret i d)) (chunkName <$> seq 0 10) = Some (i, chunkName i)) as ->;
    [|done].
  apply list_find_Some. rewrite list_lookup_fmap, lookup_seq_lt by lia. split_and!; [done|done|].
  intros j y Hj Hlt. rewrite list_lookup_fmap, lookup_seq_lt in Hj by lia. simplify_eq/=.
  intros H. apply chunkName_inj in H; lia.
Qed.

Lemma elem_of_chunk_secrets cs s :
  s ∈ chunk_secrets cs ↔ ∃ i d, cs !! i = Some d ∧ s = chunk_secret i d.
Proof.
  clear api compress decompress. unfold chunk_secrets. rewrite elem_of_lookup_imap. naive_solver.
Qed.

Lemma chunk_secrets_sorted cs :
  (length cs ≤ 10)%nat → StronglySorted (λ a b, rank a < rank b)%nat (chunk_secrets cs).
Proof.
  unfold chunk_secrets. intros Hl.
  assert (∀ k, (k + length cs ≤ 10)%nat →
    StronglySorted (λ a b, rank a < rank b)%nat (imap (λ i, chunk_secret (k + i)) cs)) as H;
    [|by apply (H 0%nat)].
  clear Hl. induction cs as [|d cs IH]; intros k Hk; [constructor|]. simpl in Hk. rewrite imap_cons.
  constructor.
  - specialize (IH (S k) ltac:(lia)). erewrite imap_ext; [exact IH|].
    intros i x _. simpl. by rewrite Nat.add_succ_r.
  - apply Forall_forall. intros s (i & x & -> & Hi)%elem_of_lookup_imap. simpl.
    apply lookup_lt_Some in Hi. rewrite !rank_chunk by lia. lia.
Qed.

Lemma sort_chunk_secrets l cs :
  (length cs ≤ 10)%nat → l ≡ₚ chunk_secrets cs → sort_by name_lt l = chunk_secrets cs.
Proof.
  intros Hl Hp. apply (sort_by_unique _ rank); [done|by apply chunk_secrets_sorted|].
  intros x y (i & d & Hi & ->)%elem_of_chunk_secrets (j & e & Hj & ->)%elem_of_chunk_secrets.
  apply lookup_lt_Some in Hi, Hj. rewrite !rank_chunk by lia. unfold name_lt. simpl.
  apply chunkName_lt; lia.
Qed.
(** ** Lemmas: the store's Secrets *)
Context {laws : SecretsLaws api} (Hprefix : str_forall name_char namePrefix = true).
#[local] Set Default Proof Using "Type*".

Lemma name_no_comma s :
  str_forall name_char s = true → str_forall (λ d, bool_decide (d ≠ ","%char)) s = true.
Proof. intros H. apply cut_char_None. by apply cut_char_name. Qed.

Lemma selector_spec ls :
  selector_matches labelSelector ls = true ↔
  ls !! "app.kubernetes.io/managed-by" = Some "stretch-db" ∧ ls !! "stretch-db/store" = Some namePrefix.
Proof.
  unfold selector_matches, labelSelector. cbn [Join].
  change ("app.kubernetes.io/managed-by=stretch-db" +:+ "," +:+ "stretch-db/store=" +:+ namePrefix)
    with ("app.kubernetes.io/managed-by=stretch-db" +:+ String "," ("stretch-db/store=" +:+ namePrefix)).
  rewrite split_char_app by done. rewrite split_char_none.
  2:{ rewrite str_forall_app. apply andb_true_iff. split; [done|by apply name_no_comma]. }
  cbn [forallb]. rewrite andb_true_r, andb_true_iff.
  unfold term_matches at 1 2.
  change (cut_char "=" "app.kubernetes.io/managed-by=stretch-db") with
    (Some ("app.kubernetes.io/managed-by", "stretch-db")).
  change (cut_char "=" ("stretch-db/store=" +:+ namePrefix)) with (Some ("stretch-db/store", namePrefix)).
  cbn iota. by rewrite !bool_decide_eq_true.
Qed.

Lemma chunkLabels_selected : selector_matches labelSelector chunkLabels = true.
Proof. apply selector_spec. unfold chunkLabels. split; by simplify_map_eq. Qed.

(** The Secrets of the store are exactly those of the chunks [cs], and no other
    Secret has the name of a chunk up to the tenth. *)
Record has_chunks (w : W) (cs : list (list Z)) : Prop := {
  hc_count : (length cs ≤ 10)%nat;
  hc_named i : (i ≤ 10)%nat → secrets w !! chunkName i = chunk_secret i <$> cs !! i;
  hc_only n s : secrets w !! n = Some s → selector_matches labelSelector (s_Labels s) = true →
                ∃ i, (i < length cs)%nat ∧ n = chunkName i;
}.

Lemma NoDup_secrets w : NoDup (map_to_list (secrets w)).*2.
Proof.
  apply (NoDup_fmap_1 s_Name). rewrite <-list_fmap_compose.
  assert (s_Name ∘ snd <$> map_to_list (secrets w) = (map_to_list (secrets w)).*1) as ->.
  { apply list_fmap_ext. intros i [n s] Hi. apply list_elem_of_lookup_2, elem_of_map_to_list in Hi.
    simpl. by apply (secrets_named _ _ _ Hi). }
  apply NoDup_fst_map_to_list.
Qed.

Lemma NoDup_chunk_secrets cs : (length cs ≤ 10)%nat → NoDup (chunk_secrets cs).
Proof.
  intros Hl. pose proof (chunk_secrets_sorted cs Hl) as Hs.
  induction Hs as [|s l Hs IH Hf]; [constructor|]. constructor; [|done].
  rewrite Forall_forall in Hf. intros Hin%Hf. lia.
Qed.

Lemma matching_chunks w cs :
  has_chunks w cs →
  filter (λ s, selector_matches labelSelector (s_Labels s) = true) (map_to_list (secrets w)).*2
  ≡ₚ chunk_secrets cs.
Proof.
  intros [Hc Hn Ho]. apply NoDup_Permutation; [apply NoDup_filter, NoDup_secrets|by apply NoDup_chunk_secrets|].
  intros s. rewrite list_elem_of_filter, list_elem_of_fmap, elem_of_chunk_secrets. split.
  - intros (Hsel & ([n s'] & -> & Hin%elem_of_map_to_list)). simpl in *.
    destruct (Ho n s' Hin Hsel) as (i & Hi & ->). rewrite Hn in Hin by lia.
    apply fmap_Some in Hin as (d & Hd & ->). eauto.
  - intros (i & d & Hi & ->). split; [apply chunkLabels_selected|].
    exists (chunkName i, chunk_secret i d). split; [done|]. apply elem_of_map_to_list.
    rewrite Hn, Hi; [done|]. apply lookup_lt_Some in Hi. lia.
Qed.

Lemma listChunks_chunks w cs : has_chunks w cs → listChunks w = (Ok (chunk_secrets cs), w).
Proof.
  intros H. destruct (list_matching w labelSelector) as (l & Hl & Hp).
  unfold listChunks. munfold. rewrite Hl. f_equal. f_equal.
  apply sort_chunk_secrets; [apply H|]. by rewrite Hp, matching_chunks.
Qed.

Lemma secret_bytes_chunk i d : secret_bytes (chunk_secret i d) = d.
Proof. unfold secret_bytes. simpl. by rewrite lookup_singleton_eq. Qed.

Lemma chunk_secrets_bytes cs : secret_bytes <$> chunk_secrets cs = cs.
Proof.
  unfold chunk_secrets. rewrite fmap_imap. apply list_eq. intros i. rewrite list_lookup_imap.
  destruct (cs !! i); [|done]. simpl. by rewrite secret_bytes_chunk.
Qed.

Lemma Read_chunks w cs :
  has_chunks w cs →
  Read w = (match cs with [] => Ok [] | _ => decompress (concat cs) end, w).
Proof.
  intros H. unfold Read. unfold mbind, M_bind. rewrite (listChunks_chunks _ _ H).
  rewrite chunk_secrets_bytes. by destruct cs.
Qed.

(** Writing one chunk stores its Secret, whatever was there under its name. *)
Lemma write_chunk_ok w i d :
  ∃ w', write_chunk i d w = (Ok (), w') ∧
        secrets w' = <[chunkName i := chunk_secret i d]> (secrets w).
Proof.
  unfold write_chunk. munfold. destruct (secrets w !! chunkName i) as [s|] eqn:E.
  - rewrite (get_found _ _ _ E).
    pose proof (secrets_named _ _ _ E) as Hname. unfold chunkName in *.
    destruct (update_found w {| s_Name := s_Name s; s_Labels := chunkLabels;
      s_Data := {[ secretDataKey := d ]} |}) as (w' & Hw & Hs); [simpl; by rewrite Hname, E|].
    simpl in *. rewrite Hw. exists w'. split; [done|]. rewrite Hs, Hname. done.
  - destruct (get_missing _ _ E) as [m ->]. unfold k8s_IsNotFound. simpl.
    destruct (create_new w (chunk_secret i d) E) as (w' & Hw & Hs).
    rewrite Hw. by exists w'.
Qed.

(** The Secrets stored by writing the chunks [cs] from index [i] on. *)
Fixpoint chunk_map (i : nat) (cs : list (list Z)) : gmap string Secret :=
  match cs with
  | [] => ∅
  | d :: cs => <[chunkName i := chunk_secret i d]> (chunk_map (S i) cs)
  end.

Lemma chunk_map_lookup cs i j :
  (j ≤ 10)%nat → (i + length cs ≤ 11)%nat →
  chunk_map i cs !! chunkName j = if (i <=? j)%nat then chunk_secret j <$> cs !! (j - i)%nat else None.
Proof.
  intros Hj. revert i. induction cs as [|d cs IH]; intros i Hi; simpl in *.
  { rewrite lookup_empty. by case_match. }
  destruct (decide (i = j)) as [->|Hne].
  - rewrite lookup_insert_eq, Nat.leb_refl, Nat.sub_diag. done.
  - rewrite lookup_insert_ne by (intros H%chunkName_inj; lia). rewrite IH by lia.
    destruct (Nat.leb_spec (S i) j), (Nat.leb_spec i j); try lia; [|done].
    by replace (j - i)%nat with (S (j - S i)) by lia.
Qed.

Lemma chunk_map_only cs i n s :
  chunk_map i cs !! n = Some s → ∃ j, (i ≤ j < i + length cs)%nat ∧ n = chunkName j.
Proof.
  revert i. induction cs as [|d cs IH]; intros i; simpl; [done|].
  intros [[<- _]|[_ H]]%lookup_insert_Some; [exists i; split; [lia|done]|].
  apply IH in H as (j & ? & ->). exists j. split; [lia|done].
Qed.

Lemma write_chunks_ok cs i w :
  (i + length cs ≤ 11)%nat →
  ∃ w', write_chunks i cs w = (Ok (), w') ∧ secrets w' = chunk_map i cs ∪ secrets w.
Proof.
  revert i w. induction cs as [|d cs IH]; intros i w Hi; simpl in *.
  { exists w. split; [done|]. by rewrite (left_id ∅ (∪)). }
  destruct (write_chunk_ok w i d) as (w1 & H1 & Hs1).
  destruct (IH (S i) w1) as (w2 & H2 & Hs2); [lia|].
  exists w2. split; [by rewrite (M_bind_Ok _ _ _ _ _ H1)|].
  rewrite Hs2, Hs1. rewrite <-insert_union_r; [by rewrite insert_union_l|].
  destruct cs; [done|]. apply eq_None_not_Some. intros [s Hs].
  apply chunk_map_only in Hs as (j & Hj & Hn). simpl in *. apply chunkName_inj in Hn; lia.
Qed.
Lemma deleteChunksFrom_ok fuel i e w :
  (i ≤ e ≤ 10)%nat → (e - i < fuel)%nat →
  (∀ x, (i ≤ x < e)%nat → is_Some (secrets w !! chunkName x)) → secrets w !! chunkName e = None →
  ∃ w', deleteChunksFrom fuel i w = (Ok (), w') ∧
        (∀ x, (i ≤ x < e)%nat → secrets w' !! chunkName x = None) ∧
        (∀ n, (∀ x, (i ≤ x < e)%nat → n ≠ chunkName x) → secrets w' !! n = secrets w !! n).
Proof.
  revert i w. induction fuel as [|fuel IH]; intros i w Hi Hf Hs He; [lia|].
  cbn [deleteChunksFrom]. munfold. destruct (decide (i = e)) as [->|Hne].
  - destruct (delete_missing _ _ He) as [m ->]. unfold k8s_IsNotFound. simpl.
    exists w. split_and!; [done|intros; lia|done].
  - destruct (delete_found w (chunkName i) (Hs i ltac:(lia))) as (w1 & -> & H1).
    destruct (IH (S i) w1) as (w2 & H2 & Hn & Ho); [lia|lia|..].
    + intros x Hx. rewrite H1, lookup_delete_ne; [apply Hs; lia|].
      intros Hc%chunkName_inj; lia.
    + rewrite H1, lookup_delete_ne; [done|]. intros Hc%chunkName_inj; lia.
    + exists w2. split_and!; [done| |].
      * intros x Hx. destruct (decide (x = i)) as [->|]; [|apply Hn; lia].
        rewrite Ho, H1, lookup_delete_eq; [done|]. intros y Hy Hc%chunkName_inj; lia.
      * intros n Hall. rewrite Ho by (intros; apply Hall; lia). rewrite H1, lookup_delete_ne; [done|].
        intros <-. by apply (Hall i); [lia|].
Qed.

(** Replacing the chunks of a store, whether it held more or fewer before. *)
Lemma replace_chunks fuel w cs0 cs :
  has_chunks w cs0 → (length cs ≤ 10)%nat → (11 ≤ fuel)%nat →
  ∃ w', (_ ← write_chunks 0 cs; deleteChunksFrom fuel (length cs)) w = (Ok (), w') ∧ has_chunks w' cs.
Proof.
  intros [Hc0 Hn0 Ho0] Hc Hf. destruct (write_chunks_ok cs 0 w) as (w1 & H1 & Hs1); [lia|].
  assert (∀ j, (j ≤ 10)%nat → secrets w1 !! chunkName j =
    if (j <? length cs)%nat then chunk_secret j <$> cs !! j else chunk_secret j <$> cs0 !! j) as Hl1.
  { intros j Hj. rewrite Hs1, lookup_union, chunk_map_lookup, Hn0 by lia. simpl. rewrite Nat.sub_0_r.
    destruct (Nat.ltb_spec j (length cs)) as [Hlt|Hge].
    - destruct (lookup_lt_is_Some_2 cs j Hlt) as [d ->]. simpl. by destruct (cs0 !! j).
    - rewrite (lookup_ge_None_2 cs j) by lia. simpl. by rewrite (left_id None _). }
  set (e := Nat.max (length cs) (length cs0)).
  destruct (deleteChunksFrom_ok fuel (length cs) e w1) as (w2 & H2 & Hd & Hk); [unfold e; lia|unfold e; lia|..].
  { intros x Hx. rewrite Hl1 by (unfold e in *; lia). rewrite (proj2 (Nat.ltb_ge _ _)) by lia.
    apply fmap_is_Some, lookup_lt_is_Some_2. unfold e in *. lia. }
  { rewrite Hl1 by (unfold e; lia). destruct (Nat.ltb_spec e (length cs)); [unfold e in *; lia|].
    rewrite lookup_ge_None_2; [done|unfold e; lia]. }
  exists w2. split; [by rewrite (M_bind_Ok _ _ _ _ _ H1)|]. split; [done|..].
  - intros j Hj. destruct (decide (length cs ≤ j < e)%nat) as [Hin|Hout].
    + rewrite Hd, lookup_ge_None_2 by (done || lia). done.
    + rewrite Hk by (intros x Hx Heq%chunkName_inj; unfold e in *; lia). rewrite Hl1 by done.
      destruct (Nat.ltb_spec j (length cs)); [done|].
      rewrite !lookup_ge_None_2 by (unfold e in *; lia). done.
  - intros n s Hn Hsel.
    destruct (decide (n ∈ chunkName <$> seq (length cs) (e - length cs))) as [Hin|Hout].
    + apply list_elem_of_fmap in Hin as (x & -> & Hx%elem_of_seq).
      rewrite Hd in Hn; [done|unfold e in *; lia].
    + assert (secrets w1 !! n = Some s) as E1.
      { rewrite <-Hk; [done|]. intros x Hx ->. apply Hout, list_elem_of_fmap.
        exists x. split; [done|]. apply elem_of_seq. lia. }
      rewrite Hs1 in E1. apply lookup_union_Some_raw in E1 as [E1|[_ E1]].
      { apply chunk_map_only in E1 as (j & Hj & ->). exists j. split; [lia|done]. }
      destruct (Ho0 _ _ E1 Hsel) as (j & Hj & ->). exists j. split; [|done].
      destruct (decide (j < length cs)%nat); [done|]. destruct Hout. apply list_elem_of_fmap.
      exists j. split; [done|]. apply elem_of_seq. unfold e. lia.
Qed.

(** ** The store keeps its promise, up to ten chunks *)
Context (Hgzip : ∀ b c, compress b = Ok c → decompress c = Ok b).

Definition holds (w : W) (b : list Z) : Prop :=
  ∃ cs, has_chunks w cs ∧ match cs with [] => b = [] | _ => decompress (concat cs) = Ok b end.
Definition small (b : list Z) : Prop :=
  ∃ c, compress b = Ok c ∧ (length c ≤ 10 * maxChunkSize)%nat.

Lemma maxChunkSize_pos : (0 < maxChunkSize)%nat.
Proof. unfold maxChunkSize. lia. Qed.

Lemma Read_holds w b : holds w b → Read w = (Ok b, w).
Proof.
  intros (cs & Hcs & Hb). rewrite (Read_chunks _ _ Hcs). destruct cs; [by subst|by rewrite Hb].
Qed.

Lemma Write_holds fuel w b b' :
  (11 ≤ fuel)%nat → holds w b → small b' →
  ∃ w', Write fuel b' w = (Ok (), w') ∧ holds w' b'.
Proof.
  intros Hf (cs0 & Hcs0 & _) (c & Hc & Hl).
  pose proof maxChunkSize_pos as Hpos.
  pose proof (chunk_count c maxChunkSize 10 Hpos ltac:(lia) Hl) as Hcount.
  destruct (replace_chunks fuel w cs0 (chunk c maxChunkSize) Hcs0 Hcount Hf) as (w' & Hw & Hh).
  exists w'. split.
  - unfold Write. unfold mbind at 1, M_bind at 1, wrapf, lift. rewrite Hc. exact Hw.
  - exists (chunk c maxChunkSize). split; [done|].
    rewrite chunk_concat by done. pose proof (chunk_nonempty c maxChunkSize) as Hne.
    destruct (chunk c maxChunkSize); [done|]. by apply Hgzip.
Qed.

#[program] Definition store_laws (fuel : nat) (Hf : (11 ≤ fuel)%nat) : StoreLaws (store fuel) :=
  {| contents := holds; fits := small |}.
Next Obligation. intros fuel Hf w b H. exists w. split; [by apply Read_holds|done]. Qed.
Next Obligation. intros fuel Hf w b b' H Hs. by eapply Write_holds. Qed.
End secretStore.

(** ** A Secrets API in memory: labels and data by name *)
Notation mem_world := (gmap string (gmap string string * gmap string (list Z))).

Definition mem_secret (n : string) (p : gmap string string * gmap string (list Z)) : Secret :=
  {| s_Name := n; s_Labels := p.1; s_Data := p.2 |}.
Definition mem_secrets (w : mem_world) : gmap string Secret :=
  map_imap (λ n p, Some (mem_secret n p)) w.

Definition mem_api : SecretsAPI mem_world :=
  {| api_Get := λ n w, match w !! n with
                       | Some p => (Ok (mem_secret n p), w)
                       | None => (Err (ErrK8sNotFound n), w) end;
     api_Create := λ s w, match w !! s_Name s with
                          | Some _ => (Err (ErrExt "already exists"), w)
                          | None => (Ok (), <[s_Name s := (s_Labels s, s_Data s)]> w) end;
     api_Update := λ s w, match w !! s_Name s with
                          | Some _ => (Ok (), <[s_Name s := (s_Labels s, s_Data s)]> w)
                          | None => (Err (ErrK8sNotFound (s_Name s)), w) end;
     api_Delete := λ n w, match w !! n with
                          | Some _ => (Ok (), delete n w)
                          | None => (Err (ErrK8sNotFound n), w) end;
     api_List := λ sel w, (Ok (filter (λ s, selector_matches sel (s_Labels s) = true)
                                 (map_to_list (mem_secrets w)).*2), w) |}.

Lemma mem_secrets_lookup w n : mem_secrets w !! n = mem_secret n <$> w !! n.
Proof. unfold mem_secrets. rewrite map_lookup_imap. by destruct (w !! n). Qed.

Lemma mem_secrets_insert (w : mem_world) s :
  mem_secrets (<[s_Name s := (s_Labels s, s_Data s)]> w) = <[s_Name s := s]> (mem_secrets w).
Proof.
  apply map_eq. intros n. rewrite mem_secrets_lookup. destruct (decide (n = s_Name s)) as [->|].
  - rewrite !lookup_insert_eq. by destruct s.
  - rewrite !lookup_insert_ne by done. symmetry. apply mem_secrets_lookup.
Qed.

Lemma mem_secrets_delete (w : mem_world) n : mem_secrets (delete n w) = delete n (mem_secrets w).
Proof.
  apply map_eq. intros k. rewrite mem_secrets_lookup. destruct (decide (k = n)) as [->|].
  - by rewrite !lookup_delete_eq.
  - rewrite !lookup_delete_ne by done. symmetry. apply mem_secrets_lookup.
Qed.

#[global] Program Instance mem_laws : SecretsLaws mem_api := {| secrets := mem_secrets |}.
Next Obligation. intros w n s. rewrite mem_secrets_lookup. by intros (p & _ & ->)%fmap_Some. Qed.
Next Obligation.
  intros w n s. rewrite mem_secrets_lookup. intros (p & Hp & ->)%fmap_Some. simpl. by rewrite Hp.
Qed.
Next Obligation.
  intros w n. rewrite mem_secrets_lookup. intros Hn%fmap_None. simpl. rewrite Hn. by eexists.
Qed.
Next Obligation.
  intros w s. rewrite mem_secrets_lookup. intros Hn%fmap_None. simpl. rewrite Hn.
  eexists. split; [done|]. apply mem_secrets_insert.
Qed.
Next Obligation.
  intros w s. rewrite mem_secrets_lookup. intros [p Hp]%fmap_is_Some. simpl. rewrite Hp.
  eexists. split; [done|]. apply mem_secrets_insert.
Qed.
Next Obligation.
  intros w n. rewrite mem_secrets_lookup. intros [p Hp]%fmap_is_Some. simpl. rewrite Hp.
  eexists. split; [done|]. apply mem_secrets_delete.
Qed.
Next Obligation.
  intros w n. rewrite mem_secrets_lookup. intros Hn%fmap_None. simpl. rewrite Hn. by eexists.
Qed.
Next Obligation. intros w sel. by eexists. Qed.

(** ** Properties *)

(** C5: a write to a Secret store that held any bytes of up to ten chunks, more
    or fewer than now, succeeds when the compressed bytes fit ten chunks; stale
    chunks are gone afterwards, and a read returns the written bytes. *)
Theorem secret_store_round_trip {W} (api : SecretsAPI W) {laws : SecretsLaws api}
    (namePrefix : string) (compress decompress : list Z → res (list Z)) (fuel : nat)
    (w : W) (cs0 : list (list Z)) (b c : list Z) :
  str_forall name_char namePrefix = true →
  (∀ b c, compress b = Ok c → decompress c = Ok b) →
  (11 ≤ fuel)%nat →
  has_chunks api namePrefix w cs0 →
  compress b = Ok c → (length c ≤ 10 * maxChunkSize)%nat →
  ∃ w', Write api namePrefix compress fuel b w = (Ok (), w') ∧
        has_chunks api namePrefix w' (chunk c maxChunkSize) ∧
        Read api namePrefix decompress w' = (Ok b, w').
Proof.
  intros Hp Hgzip Hf H0 Hc Hl. pose proof maxChunkSize_pos as Hpos.
  pose proof (chunk_count c maxChunkSize 10 Hpos ltac:(lia) Hl) as Hcount.
  destruct (replace_chunks api namePrefix Hp fuel w cs0 _ H0 Hcount Hf) as (w' & Hw & Hh).
  exists w'. split_and!; [|done|].
  - unfold Write. unfold mbind at 1, M_bind at 1, wrapf, lift. rewrite Hc. exact Hw.
  - rewrite (Read_chunks api namePrefix decompress Hp w' _ Hh), chunk_concat by done.
    pose proof (chunk_nonempty c maxChunkSize) as Hne. rewrite (Hgzip b c Hc).
    by destruct (chunk c maxChunkSize).
Qed.

(** The chunks of some bytes concatenate to them, none is larger than the
    chunk size, and there are as few as their number allows. *)
Theorem chunk_spec (data : list Z) (size n : nat) :
  (0 < size)%nat →
  concat (chunk data size) = data ∧ Forall (λ c, length c ≤ size)%nat (chunk data size) ∧
  ((1 ≤ n)%nat → (length data ≤ n * size)%nat → (length (chunk data size) ≤ n)%nat).
Proof.
  intros Hs. split_and!; [by apply chunk_concat|by apply chunk_size|]. by apply chunk_count.
Qed.

(** Eleven one-byte chunks, written into an empty namespace. *)
Definition eleven : list (list Z) := (λ i, [i]) <$> seqZ 0 11.

(** With eleven chunks a read does not give back what was written: the
    Secrets are listed in the lexicographic order of their names, where
    [p-10] comes before [p-2]. *)
Theorem eleven_chunks_misread :
  let '(r, w) := write_chunks mem_api "p" 0 eleven ∅ in
  r = Ok () ∧
  (Read mem_api "p" Ok w).1 = Ok [0; 1; 10; 2; 3; 4; 5; 6; 7; 8; 9] ∧
  concat eleven = [0; 1; 2; 3; 4; 5; 6; 7; 8; 9; 10].
Proof. vm_compute. by split_and!. Qed.

(** ** Witnesses *)
Lemma empty_has_chunks p : has_chunks mem_api p ∅ [].
Proof.
  split; [simpl; lia|intros i _; done|]. intros n s H.
  change (mem_secrets ∅ !! n = Some s) in H. by rewrite mem_secrets_lookup, lookup_empty in H.
Qed.

Lemma secret_store_round_trip_witness :
  ∃ w', Write mem_api "agentpools" Ok 11 [1; 2; 3] ∅ = (Ok (), w') ∧
        has_chunks mem_api "agentpools" w' (chunk [1; 2; 3] maxChunkSize) ∧
        Read mem_api "agentpools" Ok w' = (Ok [1; 2; 3], w').
Proof.
  apply (secret_store_round_trip mem_api "agentpools" Ok Ok 11 ∅ [] [1; 2; 3] [1; 2; 3]).
  - reflexivity.
  - intros b c [= ->]. reflexivity.
  - lia.
  - apply empty_has_chunks.
  - reflexivity.
  - unfold maxChunkSize. simpl length. lia.
Defined.

Lemma chunk_spec_witness :
  concat (chunk [1; 2; 3; 4; 5] 2) = [1; 2; 3; 4; 5] ∧
  Forall (λ c, length c ≤ 2)%nat (chunk [1; 2; 3; 4; 5] 2) ∧
  ((1 ≤ 3)%nat → (length [1; 2; 3; 4; 5]%Z ≤ 3 * 2)%nat → (length (chunk [1; 2; 3; 4; 5]%Z 2) ≤ 3)%nat).
Proof. apply (chunk_spec [1; 2; 3; 4; 5] 2 3). lia. Defined.
End Secrets.
