(* ===== verification/Helper.v ===== *)
(** * Protobuf messages as [Any] values, and the gRPC client helpers

    [plugin/pkg/helper/helper.go]: conversion of [anypb.Any] values to messages
    of an expected type, and the wrappers that clients use around the generated
    gRPC stubs.  The protobuf runtime is an interface with its documented
    round-trip laws. *)
From S2P Require Import Prelude GoStr.
From stdpp Require Import options.

Record Any := { TypeUrl : string; Value : list Z }.

(** The protobuf runtime on the messages [Msg]; [Marshal_items] and
    [Unmarshal_items] are [proto.Marshal] and [proto.Unmarshal] at
    [api.ListResponse]. *)
Class ProtoRuntime (Msg : Type) := {
  FullName : Msg → string;
  any_New : Msg → res Any;
  UnmarshalNew : Any → res Msg;
  Marshal_items : list Any → res (list Z);
  Unmarshal_items : list Z → res (list Any);
}.

Class ProtoLaws (Msg : Type) `{ProtoRuntime Msg} := {
  any_New_url m a : any_New m = Ok a → TypeUrl a = "type.googleapis.com/" +:+ FullName m;
  any_round m a : any_New m = Ok a → UnmarshalNew a = Ok m;
  items_round l b : Marshal_items l = Ok b → Unmarshal_items b = Ok l;
  items_empty : Unmarshal_items [] = Ok [];
}.

(** [api.Object]: the messages that implement it, their id and redaction. *)
Class Object (Msg : Type) := {
  is_Object : Msg → bool;
  ObjectId : Msg → string;
  Redact : Msg → res Msg;
}.

Section helper.
Context {Msg : Type} `{PR : ProtoRuntime Msg}.

(** [To[T](m)], for a type [T] given by its type assertion. *)
Definition To {T} (cast : Msg → option T) (m : Msg) : res T :=
  match cast m with
  | Some t => Ok t
  | None => Err (ErrStatus InvalidArgument "type mismatch")
  end.

(** [AnyTo[T](o)]; unmarshalling a nil [Any] is an error. *)
Definition AnyTo {T} (cast : Msg → option T) (o : option Any) : res T :=
  match o with
  | None => Err (ErrExt "invalid empty type URL")
  | Some a => UnmarshalNew a ≫= To cast
  end.

(** The assertion to [api.Object]. *)
Definition as_object `{Object Msg} (m : Msg) : option Msg :=
  if is_Object m then Some m else None.

Context {W : Type}.

Definition Client_CreateOrUpdate {T} (cast : Msg → option T)
    (createOrUpdate : option Any → M W (option Any)) (m : Msg) : M W T :=
  item ← lift (any_New m);
  resp ← createOrUpdate (Some item);
  lift (AnyTo cast resp).

Definition Client_Delete (delete_ : string → M W ()) (id : string) : M W () := delete_ id.

Definition Client_Get {T} (cast : Msg → option T)
    (get : string → M W (option Any)) (id : string) : M W T :=
  resp ← get id;
  lift (AnyTo cast resp).

Definition Client_List {T} (cast : Msg → option T)
    (list_ : string → M W (list Any)) (id : string) : M W (list T) :=
  items ← list_ id;
  traverse (λ item, lift (AnyTo cast (Some item))) items.

(** A traversal of results that do not touch the world. *)
Lemma traverse_lift_Ok {A B} (f : A → res B) (l : list A) (w w' : W) ys :
  traverse (λ x, lift (f x)) l w = (Ok ys, w') ↔ Forall2 (λ x y, f x = Ok y) l ys ∧ w' = w.
Proof.
  revert ys w'. induction l as [|x l IH]; intros ys w'; simpl.
  - unfold mret, M_ret. split; [intros [= <- <-]; done|]. by intros [->%Forall2_nil_inv_l ->].
  - unfold mbind, M_bind, lift at 1. destruct (f x) as [y|e|p] eqn:E.
    2,3: split; [done|]; intros [(y & ys' & Hy & _)%Forall2_cons_inv_l _]; congruence.
    destruct (traverse _ l w) as [r w1] eqn:Et. split.
    + destruct r as [ys1|e|p]; [|done..]. unfold mret, M_ret. intros [= <- <-].
      destruct (proj1 (IH ys1 w1) eq_refl) as [H1 ->]. split; [by constructor|done].
    + intros [(y' & ys' & Hy & Hl & ->)%Forall2_cons_inv_l ->].
      pose proof (proj2 (IH ys' w) (conj Hl eq_refl)) as He.
      assert (y' = y) as -> by congruence. by injection He as -> ->.
Qed.

Lemma traverse_lift {A B} (f : A → res B) (l : list A) (w : W) ys :
  Forall2 (λ x y, f x = Ok y) l ys → traverse (λ x, lift (f x)) l w = (Ok ys, w).
Proof. intros. by apply traverse_lift_Ok. Qed.
End helper.

(** ** A small protobuf runtime

    Messages of a type name, an id and a secret that [Redact] clears, with an
    injective encoding: an instance of the interfaces above. *)
Module Mem.
Record msg := { m_type : string; m_id : string; m_secret : string }.
#[global] Instance msg_eq_dec : EqDecision msg.
Proof. solve_decision. Defined.

#[global] Instance Any_eq_dec : EqDecision Any.
Proof. solve_decision. Defined.
#[global] Instance Any_countable : Countable Any.
Proof.
  refine (inj_countable' (λ a, (TypeUrl a, Value a)) (λ p, {| TypeUrl := p.1; Value := p.2 |}) _).
  by intros [].
Defined.

Definition url_prefix : string := "type.googleapis.com/".

Definition bytes_of {A} `{Countable A} (x : A) : list Z := [Z.pos (encode x)].
Definition of_bytes {A} `{Countable A} (b : list Z) : option A :=
  match b with [Zpos p] => decode p | _ => None end.

Lemma of_bytes_of {A} `{Countable A} (x : A) : of_bytes (bytes_of x) = Some x.
Proof. apply decode_encode. Qed.

#[global] Instance runtime : ProtoRuntime msg := {|
  FullName := m_type;
  any_New m := Ok {| TypeUrl := url_prefix +:+ m_type m; Value := bytes_of (m_id m, m_secret m) |};
  UnmarshalNew a :=
    match of_bytes (A := string * string) (Value a) with
    | Some (i, s) => Ok {| m_type := TrimPrefix (TypeUrl a) url_prefix; m_id := i; m_secret := s |}
    | None => Err (ErrExt "proto: cannot parse")
    end;
  Marshal_items l := Ok (match l with [] => [] | _ => bytes_of l end);
  Unmarshal_items b := match b with
                       | [] => Ok []
                       | _ => match of_bytes b with
                              | Some l => Ok l | None => Err (ErrExt "proto: cannot parse") end
                       end;
|}.

#[global] Instance runtime_laws : ProtoLaws msg.
Proof.
  split.
  - by intros m a [= <-].
  - intros m a [= <-]. simpl. rewrite decode_encode, TrimPrefix_app. by destruct m.
  - intros l b [= <-]. destruct l as [|a l]; [done|]. simpl. by rewrite decode_encode.
  - done.
Qed.

(** A runtime of one message type with a countable set of values. *)
Definition countable_runtime (A : Type) `{Countable A} (name : string) : ProtoRuntime A := {|
  FullName _ := name;
  any_New m := Ok {| TypeUrl := url_prefix +:+ name; Value := bytes_of m |};
  UnmarshalNew a :=
    match of_bytes (Value a) with Some m => Ok m | None => Err (ErrExt "proto: cannot parse") end;
  Marshal_items l := Ok (match l with [] => [] | _ => bytes_of l end);
  Unmarshal_items b := match b with
                       | [] => Ok []
                       | _ => match of_bytes b with
                              | Some l => Ok l | None => Err (ErrExt "proto: cannot parse") end
                       end;
|}.

Lemma countable_laws (A : Type) `{Countable A} (name : string) :
  @ProtoLaws A (countable_runtime A name).
Proof.
  split.
  - by intros m a [= <-].
  - intros m a [= <-]. simpl. by rewrite decode_encode.
  - intros l b [= <-]. destruct l as [|a l]; [done|]. simpl. by rewrite decode_encode.
  - done.
Qed.

#[global] Instance object : Object msg := {|
  is_Object _ := true;
  ObjectId := m_id;
  Redact m := Ok {| m_type := m_type m; m_id := m_id m; m_secret := "" |};
|}.
End Mem.
