(* ===== verification/DB.v ===== *)
(** * The object database

    [plugin/pkg/db/db.go]: [StupidDB] keeps a list of objects, one per id, as a
    marshalled [ListResponse] in a byte store.  Its operations refine those of
    a finite map from ids to objects, for any store that keeps the law of
    [Store].  [DB] is the interface the servers use it through. *)
From S2P Require Import Prelude GoStr Store Helper.
From stdpp Require Import options.

(** ** The interface *)
Record DB (W Msg : Type) := {
  db_List : M W (list Msg);
  db_Get : string → M W (option Msg);
  db_CreateOrUpdate : Msg → M W ();
  db_Delete : string → M W ();
}.
Arguments db_List {W Msg}.
Arguments db_Get {W Msg}.
Arguments db_CreateOrUpdate {W Msg}.
Arguments db_Delete {W Msg}.

Section lists.
Context {Msg : Type} `{OB : Object Msg}.

(** The object list without an id, and with an object put at its end. *)
Definition without (id : string) (objs : list Msg) : list Msg :=
  filter (λ o, ObjectId o ≠ id) objs.
Definition upsert (obj : Msg) (objs : list Msg) : list Msg :=
  without (ObjectId obj) objs ++ [obj].

(** The first object with an id, as the loop of [Get] finds it. *)
Definition find_id (id : string) (objs : list Msg) : option Msg :=
  snd <$> list_find (λ o, ObjectId o = id) objs.

(** The map a list of objects stands for. *)
Definition objects_map (objs : list Msg) : gmap string Msg :=
  list_to_map ((λ o, (ObjectId o, o)) <$> objs).

Definition distinct (objs : list Msg) : Prop := NoDup (ObjectId <$> objs).

Lemma objects_map_cons o objs : objects_map (o :: objs) = <[ObjectId o := o]> (objects_map objs).
Proof. done. Qed.

Lemma find_id_map id objs : find_id id objs = objects_map objs !! id.
Proof.
  unfold find_id. induction objs as [|o objs IH]; [done|].
  rewrite objects_map_cons. simpl. case_decide as Hd.
  - by rewrite Hd, lookup_insert_eq.
  - rewrite lookup_insert_ne by done. rewrite <-IH. by destruct (list_find _ objs) as [[]|].
Qed.

Lemma distinct_without id objs : distinct objs → distinct (without id objs).
Proof.
  intros H. eapply sublist_NoDup; [exact H|]. apply fmap_sublist, sublist_filter.
Qed.

Lemma without_id id objs : id ∉ ObjectId <$> without id objs.
Proof. intros (o & -> & [Ho _]%list_elem_of_filter)%list_elem_of_fmap. done. Qed.

Lemma distinct_upsert obj objs : distinct objs → distinct (upsert obj objs).
Proof.
  intros H. unfold distinct, upsert. rewrite fmap_app. apply NoDup_app. split_and!.
  - by apply distinct_without.
  - intros id Hin ->%list_elem_of_singleton. by apply without_id in Hin.
  - apply NoDup_singleton.
Qed.

Lemma objects_map_without id objs : objects_map (without id objs) = delete id (objects_map objs).
Proof.
  induction objs as [|o objs IH]; [symmetry; apply delete_empty|].
  unfold without in *. rewrite filter_cons, objects_map_cons. case_decide as Hd.
  - by rewrite objects_map_cons, IH, delete_insert_ne.
  - subst id. by rewrite IH, delete_insert_eq.
Qed.

Lemma objects_map_app o objs :
  ObjectId o ∉ ObjectId <$> objs →
  objects_map (objs ++ [o]) = <[ObjectId o := o]> (objects_map objs).
Proof.
  induction objs as [|x objs IH]; [done|]. intros Hn.
  rewrite fmap_cons in Hn. apply not_elem_of_cons in Hn as [Hne Hn].
  rewrite <-app_comm_cons, !objects_map_cons, IH by done. by apply insert_insert_ne.
Qed.

Lemma objects_map_upsert obj objs :
  objects_map (upsert obj objs) = <[ObjectId obj := obj]> (objects_map objs).
Proof.
  unfold upsert. rewrite objects_map_app by apply without_id. rewrite objects_map_without.
  apply insert_delete_eq.
Qed.
End lists.

(** What a database promises: [view w objs] when it holds the objects [objs],
    one per id; each operation behaves as on that list. *)
Class DBLaws {W Msg} `{OB : Object Msg} (db : DB W Msg) := {
  view : W → list Msg → Prop;
  storable : list Msg → Prop;
  view_distinct w objs : view w objs → distinct objs;
  db_list_law w objs : view w objs → ∃ w', db_List db w = (Ok objs, w') ∧ view w' objs;
  db_get_law w objs id :
    view w objs → ∃ w', db_Get db id w = (Ok (find_id id objs), w') ∧ view w' objs;
  db_upsert_law w objs obj :
    view w objs → is_Object obj = true → storable (upsert obj objs) →
    ∃ w', db_CreateOrUpdate db obj w = (Ok (), w') ∧ view w' (upsert obj objs);
  db_delete_law w objs id :
    view w objs → storable (without id objs) →
    ∃ w', db_Delete db id w = (Ok (), w') ∧ view w' (without id objs);
}.

(** ** [StupidDB] *)
Section StupidDB.
Context {W Msg : Type} `{PR : ProtoRuntime Msg} `{OB : Object Msg} (store : Store W).

Definition list_ : M W (list Msg) :=
  b ← must (store_Read store);
  items ← must (lift (Unmarshal_items b));
  traverse (λ item, must (lift (AnyTo as_object (Some item)))) items.

Definition write (objs : list Msg) : M W () :=
  items ← traverse (λ obj, must (lift (any_New obj))) objs;
  b ← must (lift (Marshal_items items));
  must (store_Write store b).

Definition CreateOrUpdate (obj : Msg) : M W () :=
  objs ← list_;
  write (filter (λ o, ObjectId o ≠ ObjectId obj) objs ++ [obj]).

Definition List : M W (list Msg) := list_.

Fixpoint get_loop (id : string) (objs : list Msg) : option Msg :=
  match objs with
  | [] => None
  | obj :: objs => if decide (ObjectId obj = id) then Some obj else get_loop id objs
  end.
Definition Get (id : string) : M W (option Msg) :=
  objs ← list_;
  mret (get_loop id objs).

Definition Delete (id : string) : M W () :=
  objs ← list_;
  write (filter (λ o, ObjectId o ≠ id) objs).

Definition CloseDB : M W () := must (store_Close store).

Definition StupidDB : DB W Msg :=
  {| db_List := List; db_Get := Get; db_CreateOrUpdate := CreateOrUpdate; db_Delete := Delete |}.

Context {PL : ProtoLaws Msg} {SL : StoreLaws store}.
#[local] Set Default Proof Using "Type*".

(** The bytes [b] encode the objects [objs]. *)
Definition encodes (objs : list Msg) (b : list Z) : Prop :=
  ∃ items, Unmarshal_items b = Ok items ∧
           Forall2 (λ item obj, UnmarshalNew item = Ok obj ∧ is_Object obj = true) items objs.

Definition db_holds (w : W) (objs : list Msg) : Prop :=
  distinct objs ∧ ∃ b, contents w b ∧ encodes objs b.

(** The objects marshal, to bytes that fit the store. *)
Definition db_fits (objs : list Msg) : Prop :=
  ∃ items b, Forall2 (λ obj item, any_New obj = Ok item) objs items ∧
             Marshal_items items = Ok b ∧ fits b.

Lemma must_lift_Ok {A B} (f : A → res B) x y (w : W) :
  f x = Ok y → must (lift (f x)) w = (Ok y, w).
Proof using Type. unfold must, lift. by intros ->. Qed.

Lemma traverse_must {A B} (f : A → res B) l ys (w : W) :
  Forall2 (λ x y, f x = Ok y) l ys → traverse (λ x, must (lift (f x))) l w = (Ok ys, w).
Proof using Type.
  induction 1 as [|x y l ys Hxy Hl IH]; [done|]. simpl.
  rewrite (M_bind_Ok _ _ _ _ _ (must_lift_Ok f x y w Hxy)), (M_bind_Ok _ _ _ _ _ IH). done.
Qed.

Lemma list_ok w objs : db_holds w objs → ∃ w', list_ w = (Ok objs, w') ∧ db_holds w' objs.
Proof.
  intros (Hd & b & Hc & items & Hu & Hf). destruct (store_read_law w b Hc) as (w1 & Hr & Hc1).
  exists w1. split; [|split; [done|]; exists b; split; [done|]; by exists items].
  unfold list_. unfold mbind, M_bind, must at 1. rewrite Hr.
  rewrite (must_lift_Ok _ _ _ _ Hu). apply traverse_must.
  eapply Forall2_impl; [exact Hf|]. intros item obj [Hi Ho]. unfold AnyTo. rewrite Hi.
  unfold mbind, res_bind, To, as_object. by rewrite Ho.
Qed.

Lemma write_ok w objs0 objs :
  db_holds w objs0 → distinct objs → Forall (λ o, is_Object o = true) objs → db_fits objs →
  ∃ w', write objs w = (Ok (), w') ∧ db_holds w' objs.
Proof.
  intros (_ & b0 & Hc0 & _) Hd Ho (items & b & Hi & Hm & Hb).
  destruct (store_write_law w b0 b Hc0 Hb) as (w1 & Hw & Hc1).
  exists w1. split.
  - unfold write. rewrite (M_bind_Ok _ _ _ _ _ (traverse_must _ _ _ w Hi)).
    rewrite (M_bind_Ok _ _ _ _ _ (must_lift_Ok _ _ _ w Hm)). unfold must. by rewrite Hw.
  - split; [done|]. exists b. split; [done|]. exists items. split; [by apply items_round|].
    clear Hm Hd Hb. induction Hi as [|o a objs items Hoa Hi IH]; [constructor|].
    apply Forall_cons in Ho as [Ho1 Ho2]. constructor; [|by apply IH].
    split; [by apply any_round|done].
Qed.

Lemma db_holds_objects w objs : db_holds w objs → Forall (λ o, is_Object o = true) objs.
Proof.
  intros (_ & b & _ & items & _ & Hf). apply Forall_forall. intros o Ho.
  apply list_elem_of_lookup in Ho as [i Hi].
  destruct (Forall2_lookup_r _ _ _ _ _ Hf Hi) as (a & _ & _ & ?). done.
Qed.

Lemma db_holds_without w objs id :
  db_holds w objs → Forall (λ o, is_Object o = true) (without id objs).
Proof.
  intros H%db_holds_objects. rewrite Forall_forall in *.
  intros o [_ Ho]%list_elem_of_filter. by apply H.
Qed.

Lemma get_loop_find id objs : get_loop id objs = find_id id objs.
Proof using Type.
  unfold find_id. induction objs as [|o objs IH]; [done|]. simpl. rewrite IH.
  case_decide; [done|]. by destruct (list_find _ objs) as [[]|].
Qed.

#[global] Program Instance StupidDB_laws : DBLaws StupidDB :=
  {| view := db_holds; storable := db_fits |}.
Next Obligation. intros w objs [Hd _]. done. Qed.
Next Obligation. intros w objs Hv. by apply list_ok. Qed.
Next Obligation.
  intros w objs id Hv. destruct (list_ok w objs Hv) as (w1 & Hl & Hv1). exists w1. split; [|done].
  simpl. unfold Get. rewrite (M_bind_Ok _ _ _ _ _ Hl). unfold mret, M_ret. by rewrite get_loop_find.
Qed.
Next Obligation.
  intros w objs obj Hv Ho Hs. destruct (list_ok w objs Hv) as (w1 & Hl & Hv1).
  simpl. unfold CreateOrUpdate. rewrite (M_bind_Ok _ _ _ _ _ Hl).
  apply (write_ok w1 objs); [done| | |done].
  - by apply distinct_upsert; destruct Hv.
  - apply Forall_app. split; [|by constructor]. by apply (db_holds_without w1).
Qed.
Next Obligation.
  intros w objs id Hv Hs. destruct (list_ok w objs Hv) as (w1 & Hl & Hv1).
  simpl. unfold Delete. rewrite (M_bind_Ok _ _ _ _ _ Hl).
  apply (write_ok w1 objs); [done| | |done].
  - by apply distinct_without; destruct Hv.
  - by apply (db_holds_without w1).
Qed.
End StupidDB.

(** ** Properties *)

(** C6: over any store that keeps its law, [StupidDB] refines a finite map from
    ids to objects: from a database holding [objs], [Get] looks an id up,
    [CreateOrUpdate] is the map's insertion and [Delete] its deletion, with the
    ids distinct in every database reached. *)
Theorem db_refines_map {W Msg} `{PR : ProtoRuntime Msg} `{OB : Object Msg} {PL : ProtoLaws Msg}
    (store : Store W) {SL : StoreLaws store} (w : W) (objs : list Msg) :
  db_holds store w objs →
  (∀ id, ∃ w', Get store id w = (Ok (objects_map objs !! id), w') ∧ db_holds store w' objs) ∧
  (∀ obj, is_Object obj = true → db_fits store (upsert obj objs) →
     ∃ w' objs', CreateOrUpdate store obj w = (Ok (), w') ∧ db_holds store w' objs' ∧
                 objects_map objs' = <[ObjectId obj := obj]> (objects_map objs)) ∧
  (∀ id, db_fits store (without id objs) →
     ∃ w' objs', Delete store id w = (Ok (), w') ∧ db_holds store w' objs' ∧
                 objects_map objs' = delete id (objects_map objs)).
Proof.
  intros Hv. split_and!.
  - intros id. destruct (@db_get_law _ _ _ _ (StupidDB_laws store) w objs id Hv) as (w' & Hg & Hv').
    exists w'. split; [|done]. by rewrite <-find_id_map.
  - intros obj Ho Hf. destruct (@db_upsert_law _ _ _ _ (StupidDB_laws store) w objs obj Hv Ho Hf) as (w' & Hg & Hv').
    exists w', (upsert obj objs). split_and!; [done|done|]. apply objects_map_upsert.
  - intros id Hf. destruct (@db_delete_law _ _ _ _ (StupidDB_laws store) w objs id Hv Hf) as (w' & Hg & Hv').
    exists w', (without id objs). split_and!; [done|done|]. apply objects_map_without.
Qed.

(** ** Witness: the file store, from an empty file *)
Definition empty_file : File.file :=
  {| File.data := []; File.offset := 0; File.locked := false; File.faults := [] |}.

Lemma empty_file_holds : db_holds (Msg := Mem.msg) File.store empty_file [].
Proof.
  split; [constructor|]. exists []. split; [by repeat split|]. exists []. split; [done|constructor].
Qed.

Lemma mem_db_fits (objs : list Mem.msg) : db_fits File.store objs.
Proof.
  exists ((λ m, {| TypeUrl := Mem.url_prefix +:+ Mem.m_type m;
                   Value := Mem.bytes_of (Mem.m_id m, Mem.m_secret m) |}) <$> objs).
  eexists. split_and!; [|reflexivity|done].
  induction objs as [|m objs IH]; constructor; [reflexivity|exact IH].
Qed.

Definition test_msg : Mem.msg := {| Mem.m_type := "t"; Mem.m_id := "a"; Mem.m_secret := "s" |}.

Lemma db_refines_map_witness :
  db_holds (Msg := Mem.msg) File.store empty_file [] ∧
  ∃ w' objs', CreateOrUpdate File.store test_msg empty_file = (Ok (), w') ∧
              db_holds File.store w' objs' ∧ objects_map objs' = <["a" := test_msg]> ∅.
Proof.
  split; [exact empty_file_holds|].
  destruct (db_refines_map (Msg := Mem.msg) File.store empty_file [] empty_file_holds) as (_ & H & _).
  apply (H test_msg eq_refl). apply mem_db_fits.
Defined.
