(* ===== verification/Server.v ===== *)
(** * The aggregating servers

    [plugin/pkg/server]: [Parent] serves top-level objects from a database and
    dispatches changes to the back-end server registered for the object's type;
    [VirtualChild] dispatches reads of child objects.  [plugin/pkg/services]:
    the registries of the agent pool, instance, network and peering services,
    and the start of all services once per process. *)
From S2P Require Import Prelude GoStr Store Helper DB.
From stdpp Require Import options.

(** The CRUD interface of [server]; requests are their item or id. *)
Record server (W : Type) := {
  srv_CreateOrUpdate : option Any → M W (option Any);
  srv_List : string → M W (list Any);
  srv_Get : string → M W (option Any);
  srv_Delete : string → M W ();
}.
Arguments srv_CreateOrUpdate {W}.
Arguments srv_List {W}.
Arguments srv_Get {W}.
Arguments srv_Delete {W}.

Section server.
Context {W Msg : Type} `{PR : ProtoRuntime Msg} `{OB : Object Msg}.

Definition TypeURL (msg : Msg) : string := "type.googleapis.com/" +:+ FullName msg.

(** [MustRegister]: a back end that cannot be made panics. *)
Definition MustRegister {S} (m : gmap string S) (newServer : res S) (msg : Msg) : res (gmap string S) :=
  match newServer with
  | Ok srv => Ok (<[TypeURL msg := srv]> m)
  | Err _ => Panic "panic(err)"
  | Panic p => Panic p
  end.

(** ** [Parent] *)
Record Parent := { DB_ : DB W Msg; Servers : gmap string (server W) }.

Definition NewParent (db : DB W Msg) : Parent := {| DB_ := db; Servers := ∅ |}.

(** The redacted object as an [Any]; the object in the database is not the one
    that is redacted, since a read decodes a fresh one. *)
Definition redacted_item (obj : Msg) : res Any := obj ← Redact obj; any_New obj.

Definition Parent_CreateOrUpdate (srv : Parent) (item : option Any) : M W (option Any) :=
  match item with
  | None => panic "nil pointer dereference"
  | Some it =>
      match Servers srv !! TypeUrl it with
      | None => fail (ErrStatus InvalidArgument "")
      | Some srv2 =>
          resp ← srv_CreateOrUpdate srv2 item;
          obj ← lift (AnyTo as_object resp);
          _ ← db_CreateOrUpdate (DB_ srv) obj;
          item ← lift (redacted_item obj);
          mret (Some item)
      end
  end.

Definition Parent_List (srv : Parent) (id : string) : M W (list Any) :=
  objs ← db_List (DB_ srv);
  traverse (λ obj, lift (redacted_item obj)) objs.

Definition Parent_Get (srv : Parent) (id : string) : M W (option Any) :=
  obj ← db_Get (DB_ srv) id;
  match obj with
  | None => fail (ErrStatus NotFound "")
  | Some obj => item ← lift (redacted_item obj); mret (Some item)
  end.

Definition Parent_Delete (srv : Parent) (id : string) : M W () :=
  obj ← db_Get (DB_ srv) id;
  match obj with
  | None => mret ()
  | Some obj =>
      match Servers srv !! TypeURL obj with
      | None => fail (ErrStatus InvalidArgument "")
      | Some srv2 =>
          _ ← srv_Delete srv2 id;
          db_Delete (DB_ srv) id
      end
  end.

Definition Parent_server (srv : Parent) : server W :=
  {| srv_CreateOrUpdate := Parent_CreateOrUpdate srv; srv_List := Parent_List srv;
     srv_Get := Parent_Get srv; srv_Delete := Parent_Delete srv |}.

(** ** [VirtualChild] *)
Record VirtualChild := { child_DB : DB W Msg; child_Servers : gmap string (server W) }.

Definition NewVirtualChild (db : DB W Msg) : VirtualChild :=
  {| child_DB := db; child_Servers := ∅ |}.

Definition Child_CreateOrUpdate (item : option Any) : M W (option Any) :=
  fail (ErrStatus Unimplemented "method CreateOrUpdate not implemented").

Definition Child_List (srv : VirtualChild) (id : string) : M W (list Any) :=
  obj ← db_Get (child_DB srv) id;
  match obj with
  | None => fail (ErrStatus NotFound "")
  | Some obj =>
      match child_Servers srv !! TypeURL obj with
      | None => fail (ErrStatus InvalidArgument "")
      | Some srv2 => srv_List srv2 id
      end
  end.

(** [strings.Split(id, "/")[0]]. *)
Definition parent_id (id : string) : string :=
  match split_char "/" id with x :: _ => x | [] => "" end.

Definition Child_Get (srv : VirtualChild) (id : string) : M W (option Any) :=
  obj ← db_Get (child_DB srv) (parent_id id);
  match obj with
  | None => fail (ErrStatus NotFound "")
  | Some obj =>
      match child_Servers srv !! TypeURL obj with
      | None => fail (ErrStatus InvalidArgument "")
      | Some srv2 => srv_Get srv2 id
      end
  end.

Definition Child_Delete (id : string) : M W () :=
  fail (ErrStatus Unimplemented "method Delete not implemented").

(** The extra [Restart] of the instances service, over the back ends' own. *)
Definition Instances_Restart (db : DB W Msg) (restart : gmap string (string → M W ()))
    (id : string) : M W () :=
  obj ← db_Get db (parent_id id);
  match obj with
  | None => fail (ErrStatus NotFound "")
  | Some obj =>
      match restart !! TypeURL obj with
      | None => fail (ErrStatus InvalidArgument "")
      | Some srv2 => srv2 id
      end
  end.

(** ** The registries *)

(** The back ends of one service, registered in order under the message of
    their type; the constructors are the back ends' own. *)
Fixpoint register_all (m : gmap string (server W)) (l : list (res (server W) * Msg))
    : res (gmap string (server W)) :=
  match l with
  | [] => Ok m
  | (new, msg) :: l => m ← MustRegister m new msg; register_all m l
  end.

Definition NewAgentPoolsServer (db : DB W Msg)
    (newAws newAzure newNebius : res (server W)) (aws azure nebius : Msg) : res Parent :=
  m ← register_all (Servers (NewParent db)) [(newAws, aws); (newAzure, azure); (newNebius, nebius)];
  Ok {| DB_ := db; Servers := m |}.

Definition NewInstancesServer (db : DB W Msg)
    (newAws newAzure : res (server W)) (aws azure : Msg) : res VirtualChild :=
  m ← register_all (child_Servers (NewVirtualChild db)) [(newAws, aws); (newAzure, azure)];
  Ok {| child_DB := db; child_Servers := m |}.

Definition NewNetworksServer (db : DB W Msg)
    (newAws newNebius : res (server W)) (aws nebius : Msg) : res Parent :=
  m ← register_all (Servers (NewParent db)) [(newAws, aws); (newNebius, nebius)];
  Ok {| DB_ := db; Servers := m |}.

Definition NewPeeringsServer (db : DB W Msg) (newAws : res (server W)) (aws : Msg) : res Parent :=
  m ← register_all (Servers (NewParent db)) [(newAws, aws)];
  Ok {| DB_ := db; Servers := m |}.

(** ** Lemmas *)
Context {PL : ProtoLaws Msg} (db : DB W Msg) {DL : DBLaws db}.
#[local] Set Default Proof Using "Type*".

(** A back end reads the database at most: its calls keep what it holds. *)
Definition keeps_db (srv : server W) : Prop :=
  (∀ objs item w r w', view w objs → srv_CreateOrUpdate srv item w = (r, w') → view w' objs) ∧
  (∀ objs id w r w', view w objs → srv_Delete srv id w = (r, w') → view w' objs).

Lemma find_upsert obj (objs : list Msg) id :
  find_id id (upsert obj objs) = if decide (id = ObjectId obj) then Some obj else find_id id objs.
Proof using Type.
  rewrite !find_id_map, objects_map_upsert. case_decide as H.
  - by rewrite H, lookup_insert_eq.
  - by rewrite lookup_insert_ne.
Qed.

Lemma find_without (objs : list Msg) id : find_id id (without id objs) = None.
Proof using Type. by rewrite find_id_map, objects_map_without, lookup_delete_eq. Qed.

Lemma Get_view m w objs id :
  view w objs →
  ∃ w', view w' objs ∧
    Parent_Get {| DB_ := db; Servers := m |} id w =
    (match find_id id objs with
     | Some obj => Some <$> redacted_item obj
     | None => Err (ErrStatus NotFound "")
     end, w').
Proof.
  intros Hv. destruct (db_get_law w objs id Hv) as (w' & Hg & Hv'). exists w'. split; [done|].
  unfold Parent_Get. simpl. rewrite (M_bind_Ok _ _ _ _ _ Hg).
  destruct (find_id id objs) as [obj|]; [|done]. munfold. by destruct (redacted_item obj).
Qed.

Lemma as_object_Ok a obj : AnyTo as_object (Some a) = Ok obj → is_Object obj = true.
Proof using Type.
  simpl. unfold To, as_object. destruct (UnmarshalNew a) as [x|e|p]; [|done..].
  simpl. unfold mbind, res_bind. destruct (is_Object x) eqn:E; [|done]. by intros [= <-].
Qed.

(** What the back end answers is stored, and answered redacted. *)
Lemma Create_view m srv2 item a a' obj objs w w1 :
  view w objs → keeps_db srv2 → m !! TypeUrl item = Some srv2 →
  srv_CreateOrUpdate srv2 (Some item) w = (Ok (Some a), w1) →
  AnyTo as_object (Some a) = Ok obj → storable (upsert obj objs) → redacted_item obj = Ok a' →
  ∃ w2, Parent_CreateOrUpdate {| DB_ := db; Servers := m |} (Some item) w = (Ok (Some a'), w2) ∧
        view w2 (upsert obj objs) ∧ db_CreateOrUpdate db obj w1 = (Ok (), w2).
Proof.
  intros Hv [Hk _] Hm Hc Ha Hs Hr. pose proof (Hk _ _ _ _ _ Hv Hc) as Hv1.
  destruct (db_upsert_law w1 objs obj Hv1 (as_object_Ok _ _ Ha) Hs) as (w2 & Hu & Hv2).
  exists w2. split_and!; [|done|done]. unfold Parent_CreateOrUpdate. simpl. rewrite Hm.
  rewrite (M_bind_Ok _ _ _ _ _ Hc). unfold mbind at 1, M_bind at 1, lift at 1. rewrite Ha.
  rewrite (M_bind_Ok _ _ _ _ _ Hu). munfold. by rewrite Hr.
Qed.
(** A deletion the back end carries out. *)
Lemma Delete_view m srv2 obj objs id w w0 w1 :
  view w objs → storable (without id objs) → keeps_db srv2 →
  find_id id objs = Some obj → m !! TypeURL obj = Some srv2 →
  db_Get db id w = (Ok (Some obj), w0) → srv_Delete srv2 id w0 = (Ok (), w1) → view w0 objs →
  ∃ w2, Parent_Delete {| DB_ := db; Servers := m |} id w = (Ok (), w2) ∧ view w2 (without id objs) ∧
        db_Delete db id w1 = (Ok (), w2).
Proof.
  intros Hv Hs [_ Hk] Hf Hm Hg Hd Hv0. pose proof (Hk _ _ _ _ _ Hv0 Hd) as Hv1.
  destruct (db_delete_law w1 objs id Hv1 Hs) as (w2 & Hdd & Hv2).
  exists w2. split_and!; [|done|done]. unfold Parent_Delete. simpl.
  by rewrite (M_bind_Ok _ _ _ _ _ Hg), Hm, (M_bind_Ok _ _ _ _ _ Hd).
Qed.
End server.
Arguments Parent : clear implicits.
Arguments VirtualChild : clear implicits.

(** ** Starting the services

    [startOnce]: the first caller decides the database backing all services of
    the process; later callers, of either kind, only connect. *)
Inductive backing := FileDB | SecretDB (namespace : string).

Record process := { started : option backing; serves : nat }.

(** [startOnce.Do(f)], where [f] builds the databases, registers the services
    and serves; [startErr] is never assigned. *)
Definition start (b : backing) (p : process) : process :=
  match started p with
  | Some _ => p
  | None => {| started := Some b; serves := S (serves p) |}
  end.

Definition startWithFileDB : M process () := λ p, (Ok (), start FileDB p).
Definition startWithSecretDB (namespace : string) : M process () := λ p,
  (Ok (), start (SecretDB namespace) p).

(** [NewConnection]: a connection is the dial of the in-memory listener. *)
Definition NewConnection (dial : res ()) : M process () := _ ← startWithFileDB; lift dial.
Definition NewConnectionWithSecretDB (dial : res ()) (namespace : string) : M process () :=
  _ ← startWithSecretDB namespace; lift dial.

(** One connection request. *)
Definition connect (dial : res ()) (b : backing) : M process () :=
  match b with
  | FileDB => NewConnection dial
  | SecretDB ns => NewConnectionWithSecretDB dial ns
  end.

Definition process_init : process := {| started := None; serves := 0 |}.

(** ** Properties *)

(** When the back end returns an object, [CreateOrUpdate] stores it with its
    secrets and answers with the redacted object; a later [Get] of its id
    answers with the same redacted object, and other ids are as before. *)
Theorem parent_create_get {W Msg} `{PR : ProtoRuntime Msg} `{OB : Object Msg}
    {PL : ProtoLaws Msg} (db : DB W Msg) {DL : DBLaws db} (m : gmap string (server W))
    (srv2 : server W) (item a a' : Any) (obj : Msg) (objs : list Msg) (w w1 : W) :
  view w objs → keeps_db db srv2 → m !! TypeUrl item = Some srv2 →
  srv_CreateOrUpdate srv2 (Some item) w = (Ok (Some a), w1) →
  AnyTo as_object (Some a) = Ok obj → storable (upsert obj objs) →
  redacted_item obj = Ok a' →
  ∃ w2 w3,
    Parent_CreateOrUpdate {| DB_ := db; Servers := m |} (Some item) w = (Ok (Some a'), w2) ∧
    view w2 (upsert obj objs) ∧
    Parent_Get {| DB_ := db; Servers := m |} (ObjectId obj) w2 = (Ok (Some a'), w3) ∧
    (∀ id, id ≠ ObjectId obj → find_id id (upsert obj objs) = find_id id objs).
Proof.
  intros Hv Hk Hm Hc Ha Hs Hr.
  destruct (Create_view db m srv2 item a a' obj objs w w1) as (w2 & Hu & Hv2 & _); [done..|].
  destruct (Get_view db m w2 (upsert obj objs) (ObjectId obj) Hv2) as (w3 & _ & Hg).
  exists w2, w3. split_and!; [done|done| |].
  - rewrite Hg, find_upsert, decide_True by done. by rewrite Hr.
  - intros id Hne. by rewrite find_upsert, decide_False.
Qed.

(** A request of an unregistered type is refused with no effect, and when
    the back end fails the database keeps exactly what it held. *)
Theorem parent_create_error {W Msg} `{PR : ProtoRuntime Msg} `{OB : Object Msg}
    (db : DB W Msg) {DL : DBLaws db} (m : gmap string (server W)) (item : Any) (w : W) :
  match m !! TypeUrl item with
  | None => Parent_CreateOrUpdate {| DB_ := db; Servers := m |} (Some item) w =
            (Err (ErrStatus InvalidArgument ""), w)
  | Some srv2 => keeps_db db srv2 → ∀ objs e w1,
      view w objs → srv_CreateOrUpdate srv2 (Some item) w = (Err e, w1) →
      Parent_CreateOrUpdate {| DB_ := db; Servers := m |} (Some item) w = (Err e, w1) ∧
      view w1 objs
  end.
Proof.
  unfold Parent_CreateOrUpdate. simpl. destruct (m !! TypeUrl item) as [srv2|]; [|done].
  intros [Hk _] objs e w1 Hv Hc. split; [|by eapply Hk].
  by rewrite (M_bind_Err _ _ _ _ _ Hc).
Qed.

(** [Delete] of an id the database does not hold succeeds without calling a
    back end; of one it holds, it succeeds exactly when the back end does, and
    only then does the object leave the database. *)
Theorem parent_delete {W Msg} `{PR : ProtoRuntime Msg} `{OB : Object Msg}
    (db : DB W Msg) {DL : DBLaws db} (m : gmap string (server W)) (objs : list Msg)
    (id : string) (w : W) :
  view w objs → storable (without id objs) →
  ∃ w0, db_Get db id w = (Ok (find_id id objs), w0) ∧ view w0 objs ∧
  let srv := {| DB_ := db; Servers := m |} in
  match find_id id objs with
  | None => Parent_Delete srv id w = (Ok (), w0)
  | Some obj =>
      match m !! TypeURL obj with
      | None => Parent_Delete srv id w = (Err (ErrStatus InvalidArgument ""), w0)
      | Some srv2 => keeps_db db srv2 →
          match srv_Delete srv2 id w0 with
          | (Ok _, w1) => ∃ w2, Parent_Delete srv id w = (Ok (), w2) ∧
                                view w2 (without id objs) ∧ find_id id (without id objs) = None
          | (Err e, w1) => Parent_Delete srv id w = (Err e, w1) ∧ view w1 objs
          | (Panic p, w1) => Parent_Delete srv id w = (Panic p, w1) ∧ view w1 objs
          end
      end
  end.
Proof.
  intros Hv Hs. destruct (db_get_law w objs id Hv) as (w0 & Hg & Hv0).
  exists w0. split_and!; [done|done|]. simpl. unfold Parent_Delete. simpl.
  rewrite (M_bind_Ok _ _ _ _ _ Hg). destruct (find_id id objs) as [obj|]; [|done].
  destruct (m !! TypeURL obj) as [srv2|]; [|done]. intros [_ Hk].
  destruct (srv_Delete srv2 id w0) as [[[]|e|p] w1] eqn:E; pose proof (Hk _ _ _ _ _ Hv0 E) as Hv1.
  - rewrite (M_bind_Ok _ _ _ _ _ E). destruct (db_delete_law w1 objs id Hv1 Hs) as (w2 & Hd & Hv2).
    exists w2. split_and!; [done|done|]. apply find_without.
  - by rewrite (M_bind_Err _ _ _ _ _ E).
  - split; [|done]. unfold mbind, M_bind. by rewrite E.
Qed.

(** [List] answers with every object of the database, redacted, in order. *)
Theorem parent_list_redacted {W Msg} `{PR : ProtoRuntime Msg} `{OB : Object Msg}
    (db : DB W Msg) {DL : DBLaws db} (m : gmap string (server W)) (objs : list Msg)
    (items : list Any) (id : string) (w : W) :
  view w objs →
  (∃ w', Parent_List {| DB_ := db; Servers := m |} id w = (Ok items, w')) ↔
  Forall2 (λ obj item, redacted_item obj = Ok item) objs items.
Proof.
  intros Hv. destruct (db_list_law w objs Hv) as (w0 & Hl & Hv0).
  unfold Parent_List. simpl. rewrite (M_bind_Ok _ _ _ _ _ Hl). split.
  - intros [w' H]. by apply traverse_lift_Ok in H as [? _].
  - intros H. exists w0. by apply traverse_lift_Ok.
Qed.

(** However many connections are made and in whatever order, the services
    are started once, with the database of the first request. *)
Theorem services_start_once (dial : res ()) (b : backing) (bs : list backing) :
  let p := foldl (λ p b, (connect dial b p).2) process_init (b :: bs) in
  started p = Some b ∧ serves p = 1%nat.
Proof.
  assert (∀ b p, (connect dial b p).2 = start b p) as Hc by (by intros []).
  assert (∀ bs, foldl (λ p b, (connect dial b p).2) {| started := Some b; serves := 1 |} bs =
                {| started := Some b; serves := 1 |}) as Hs.
  { clear bs. intros bs. induction bs as [|b' bs IH]; [done|]. simpl. by rewrite Hc. }
  simpl. rewrite Hc. change (start b process_init) with {| started := Some b; serves := 1 |}.
  by rewrite Hs.
Qed.

(** ** Witnesses: the test runtime over the file store *)
Module Test.
Definition db : DB File.file Mem.msg := StupidDB File.store.
#[local] Existing Instance StupidDB_laws.

(** A back end that answers with the object it is given. *)
Definition echo : server File.file :=
  {| srv_CreateOrUpdate := λ item w, (Ok item, w); srv_List := λ _ w, (Ok [], w);
     srv_Get := λ _ w, (Ok None, w); srv_Delete := λ _ w, (Ok (), w) |}.

Lemma echo_keeps : keeps_db db echo.
Proof. split; intros objs x w r w' Hv [= <- <-]; exact Hv. Qed.

Definition any_of (secret : string) : Any :=
  {| TypeUrl := "type.googleapis.com/t"; Value := Mem.bytes_of ("a", secret) |}.
Definition registry : gmap string (server File.file) := {[ "type.googleapis.com/t" := echo ]}.
Definition stored : File.file := (CreateOrUpdate File.store test_msg empty_file).2.

Lemma stored_view : view (db := db) stored [test_msg].
Proof.
  destruct (db_upsert_law (db := db) empty_file [] test_msg) as (w' & Hc & Hv);
    [exact empty_file_holds|done|apply mem_db_fits|].
  unfold stored. change (CreateOrUpdate File.store test_msg empty_file) with
    (db_CreateOrUpdate db test_msg empty_file). rewrite Hc. exact Hv.
Qed.
End Test.

Lemma parent_create_get_witness :
  ∃ w2 w3,
    Parent_CreateOrUpdate {| DB_ := Test.db; Servers := Test.registry |}
      (Some (Test.any_of "s")) empty_file = (Ok (Some (Test.any_of "")), w2) ∧
    view (db := Test.db) w2 [test_msg] ∧
    Parent_Get {| DB_ := Test.db; Servers := Test.registry |} "a" w2 =
      (Ok (Some (Test.any_of "")), w3) ∧
    (∀ id, id ≠ "a" → find_id id [test_msg] = find_id id []).
Proof.
  exact (parent_create_get Test.db Test.registry Test.echo (Test.any_of "s") (Test.any_of "s")
           (Test.any_of "") test_msg [] empty_file empty_file
           empty_file_holds Test.echo_keeps eq_refl eq_refl eq_refl (mem_db_fits _) eq_refl).
Defined.

Lemma parent_create_error_witness :
  Parent_CreateOrUpdate {| DB_ := Test.db; Servers := ∅ |} (Some (Test.any_of "s")) empty_file
  = (Err (ErrStatus InvalidArgument ""), empty_file).
Proof.
  pose proof (parent_create_error Test.db ∅ (Test.any_of "s") empty_file) as H.
  rewrite lookup_empty in H. exact H.
Defined.

Lemma parent_delete_witness :
  ∃ w0, db_Get Test.db "a" Test.stored = (Ok (Some test_msg), w0) ∧
  ∃ w2, Parent_Delete {| DB_ := Test.db; Servers := Test.registry |} "a" Test.stored = (Ok (), w2) ∧
        view (db := Test.db) w2 [].
Proof.
  destruct (parent_delete Test.db Test.registry [test_msg] "a" Test.stored Test.stored_view
              (mem_db_fits _)) as (w0 & Hg & _ & H).
  exists w0. split; [exact Hg|].
  assert (Test.registry !! TypeURL test_msg = Some Test.echo) as E by reflexivity.
  change (find_id "a" [test_msg]) with (Some test_msg) in H. simpl in H. rewrite E in H.
  destruct (H Test.echo_keeps) as (w2 & Hd & Hv & _).
  exists w2. split; [exact Hd|exact Hv].
Defined.

Lemma parent_list_redacted_witness :
  ∃ w', Parent_List {| DB_ := Test.db; Servers := Test.registry |} "" Test.stored
        = (Ok [Test.any_of ""], w').
Proof.
  apply (parent_list_redacted Test.db Test.registry [test_msg] [Test.any_of ""] "" Test.stored
           Test.stored_view). repeat constructor.
Defined.
