(* ===== verification/UserData.v ===== *)
(** * Cloud-init user data

    [plugin/pkg/util/cloudinit/cloudinit.go], [userdata/flex/flex.go] and
    [userdata/ubuntu/ubuntu.go] under [plugin/pkg/services/agentpools]: the user
    data of a node, with the bootstrap steps of the flex node as values.  The
    JSON, YAML, template and kubeadm encoders are parameters. *)
From S2P Require Import Prelude GoStr Karp Proto.
From stdpp Require Import options.

(** ** [cloudinit] *)
Record WriteFile := {
  wf_Path : string; wf_Content : string; wf_Permissions : string; wf_Append : bool;
}.
#[global] Instance WriteFile_eq_dec : EqDecision WriteFile.
Proof. solve_decision. Defined.

(** An element of [runcmd]: an argument list or a shell script. *)
Inductive RunCmdItem := CmdArgs (args : list string) | CmdShell (script : string).

Record APTSource := { apt_Source : string; apt_Key : string; apt_KeyID : string }.

Record UserData := {
  ud_APT : option (gmap string APTSource);
  ud_PackageUpdate : bool;
  ud_PackageUpgrade : bool;
  ud_Packages : list string;
  ud_FQDN : string;
  ud_PreferFQDNOverHostname : bool;
  ud_SSHAuthorizedKeys : list string;
  ud_WriteFiles : list WriteFile;
  ud_RunCmd : list RunCmdItem;
}.

(** [Marshal], over the YAML encoder. *)
Definition cloudinit_Marshal (yaml_Marshal : UserData → res string) (ud : UserData) : res string :=
  b ← yaml_Marshal ud;
  Ok ("#cloud-config" +:+ String "010" b).

(** [Gzip], over the YAML encoder and gzip. *)
Definition cloudinit_Gzip (yaml_Marshal : UserData → res string) (gzip : string → res string)
    (ud : UserData) : res string :=
  b ← cloudinit_Marshal yaml_Marshal ud;
  gzip b.

(** ** [flex] *)
Module flex.
Definition flexNodeVersion : string := "v0.0.17".
Definition defaultArch : string := "amd64".
Definition DefaultKubeVer : string := "1.34.2".

Record Options := {
  EnableNvidiaGPURuntime : bool;
  KubeVersion : string;
  Arch : string;
  KubeadmConfig : option kubeadm.Config;
}.

Definition Option_ : Type := Options → Options.
Definition WithEnableNvidiaGPURuntime (enable : bool) : Option_ := λ o,
  {| EnableNvidiaGPURuntime := enable; KubeVersion := KubeVersion o; Arch := Arch o;
     KubeadmConfig := KubeadmConfig o |}.
Definition WithKubeVersion (v : string) : Option_ := λ o,
  {| EnableNvidiaGPURuntime := EnableNvidiaGPURuntime o; KubeVersion := v; Arch := Arch o;
     KubeadmConfig := KubeadmConfig o |}.
Definition WithArch (arch : string) : Option_ := λ o,
  {| EnableNvidiaGPURuntime := EnableNvidiaGPURuntime o; KubeVersion := KubeVersion o; Arch := arch;
     KubeadmConfig := KubeadmConfig o |}.
Definition WithKubeadmConfig (cfg : option kubeadm.Config) : Option_ := λ o,
  {| EnableNvidiaGPURuntime := EnableNvidiaGPURuntime o; KubeVersion := KubeVersion o; Arch := Arch o;
     KubeadmConfig := cfg |}.

Definition defaultOptions : Options :=
  {| EnableNvidiaGPURuntime := false; KubeVersion := DefaultKubeVer; Arch := defaultArch;
     KubeadmConfig := None |}.

Definition supportedArchs : list string := ["amd64"; "arm64"].

(** [validate] also trims the version. *)
Definition validate (o : Options) : res Options :=
  if bool_decide (Arch o ∉ supportedArchs) then
    Err (Errorf "unsupported arch %q, supported: amd64, arm64" [Arch o] [])
  else
    let o := WithKubeVersion (TrimPrefix (KubeVersion o) "v") o in
    if bool_decide (KubeVersion o = "") then
      Err (Errorf "kube version must not be empty" [] [])
    else Ok o.

(** The kubelet settings of the join step. *)
Record Kubelet := {
  k_Token : string;
  k_NodeLabels : option (gmap string string);
  k_NodeIp : option string;
  k_Taints : list Karp.Taint;
}.

(** The bootstrap steps, in the component API of the flex node. *)
Inductive Step :=
| ConfigureBaseOS
| DisableDocker
| DownloadCRIBinaries (containerd runc : string)
| DownloadKubeBinaries (version : string)
| StartContainerdService (nvidia : bool)
| ConfigureIPTables
| KubeadmNodeJoin (server : string) (ca : option string) (kubelet : Kubelet).

Definition flex_steps (enableNvidiaGPURuntime : bool) (kubeVersion : string)
    (cfg : option kubeadm.Config) : list Step :=
  let nodeIP := kubeadm.GetNodeIp cfg in
  let kubelet :=
    {| k_Token := kubeadm.GetToken cfg;
       k_NodeLabels := kubeadm.GetNodeLabels cfg;
       k_NodeIp := if bool_decide (nodeIP ≠ "") then Some nodeIP else None;
       k_Taints := kubeadm.GetK8SRegisterTaints cfg |} in
  [ConfigureBaseOS; DisableDocker; DownloadCRIBinaries "2.0.4" "1.2.5";
   DownloadKubeBinaries kubeVersion; StartContainerdService enableNvidiaGPURuntime;
   ConfigureIPTables;
   KubeadmNodeJoin (kubeadm.GetServer cfg) (kubeadm.GetCertificateAuthorityData cfg) kubelet].

Section flex.
(** [protojson] on a step, [json.Marshal] on the list, and the script template. *)
Context (marshal_step : Step → res string) (json_Marshal : list string → res string)
        (bootstrapTemplate : string → string → res string).

Fixpoint marshal_steps (steps : list Step) : res (list string) :=
  match steps with
  | [] => Ok []
  | s :: steps => b ← marshal_step s; xs ← marshal_steps steps; Ok (b :: xs)
  end.

Definition resolveFlexComponentConfigs (enableNvidiaGPURuntime : bool) (kubeVersion : string)
    (cfg : option kubeadm.Config) : res string :=
  xs ← marshal_steps (flex_steps enableNvidiaGPURuntime kubeVersion cfg);
  json_Marshal xs.

Definition renderBootstrapScript (arch : string) : res string :=
  match bootstrapTemplate arch flexNodeVersion with
  | Err e => Err (Errorf "rendering bootstrap script: %w" [] [e])
  | r => r
  end.

Definition UserData (opts : list Option_) : res UserData :=
  let o := foldl (λ o opt, opt o) defaultOptions opts in
  o ← validate o;
  componentConfigsJSON ←
    resolveFlexComponentConfigs (EnableNvidiaGPURuntime o) (KubeVersion o) (KubeadmConfig o);
  bootstrapScript ← renderBootstrapScript (Arch o);
  Ok {| ud_APT := None; ud_PackageUpdate := true; ud_PackageUpgrade := false;
        ud_Packages := ["curl"]; ud_FQDN := ""; ud_PreferFQDNOverHostname := false;
        ud_SSHAuthorizedKeys := [];
        ud_WriteFiles := [{| wf_Path := "/tmp/flex-config.json";
                             wf_Content := componentConfigsJSON; wf_Permissions := "0644";
                             wf_Append := false |}];
        ud_RunCmd := [CmdArgs ["set"; "-e"]; CmdShell bootstrapScript] |}.
End flex.
End flex.

(** ** [ubuntu] *)
Module ubuntu.
Definition joinConfigPath : string := "/root/joinconfig".
Definition kubeConfigPath : string := "/root/.kube/config".
Definition newline : string := String "010" "".

(** [UserData], over the kubeconfig and join configuration encoders. *)
Definition UserData (Kubeconfig : option kubeadm.Config → res string)
    (JoinConfig : option kubeadm.Config → string → res string)
    (cfg : option kubeadm.Config) : res UserData :=
  kubeconfig ← Kubeconfig cfg;
  joinconfig ← JoinConfig cfg kubeConfigPath;
  Ok {| ud_APT := Some {[ "kubernetes" :=
          {| apt_Source := "deb https://pkgs.k8s.io/core:/stable:/v1.34/deb/ /";
             apt_Key := ""; apt_KeyID := "DE15B14486CD377B9E876E1A234654DA9A296436" |} ]};
        ud_PackageUpdate := true; ud_PackageUpgrade := true;
        ud_Packages := ["containerd"; "kubeadm"; "kubelet"]; ud_FQDN := "";
        ud_PreferFQDNOverHostname := false; ud_SSHAuthorizedKeys := [];
        ud_WriteFiles :=
          [{| wf_Path := kubeConfigPath; wf_Content := kubeconfig; wf_Permissions := "0600"; wf_Append := false |};
           {| wf_Path := joinConfigPath; wf_Content := joinconfig; wf_Permissions := ""; wf_Append := false |}];
        ud_RunCmd :=
          [CmdArgs ["set"; "-e"];
           CmdShell (Join ["mkdir -p /etc/containerd";
             "containerd config default | sed -e '/SystemdCgroup/ s/false/true/' >/etc/containerd/config.toml";
             "systemctl restart containerd.service"] newline);
           CmdArgs ["kubeadm"; "join"; "--config"; joinConfigPath];
           CmdArgs ["rm"; "-rf"; joinConfigPath; kubeConfigPath]] |}.
End ubuntu.

(** ** Properties *)

(** The user data is made when the encoders succeed. *)
Lemma flex_UserData_ok (marshal_step : flex.Step → res string)
    (json_Marshal : list string → res string) (template : string → string → res string)
    (cfg : option kubeadm.Config) (v : string) (gpu : bool) :
  (∀ s, is_Ok (marshal_step s)) → (∀ l, is_Ok (json_Marshal l)) → (∀ a b, is_Ok (template a b)) →
  TrimPrefix v "v" ≠ "" →
  ∃ ud, flex.UserData marshal_step json_Marshal template
    [flex.WithEnableNvidiaGPURuntime gpu; flex.WithKubeadmConfig cfg; flex.WithKubeVersion v]
    = Ok ud.
Proof.
  intros Hs Hj Ht Hv.
  assert (∀ l, ∃ xs, flex.marshal_steps marshal_step l = Ok xs) as Hl.
  { induction l as [|x l [xs IH]]; [by exists []|]. simpl. specialize (Hs x).
    destruct (marshal_step x) as [b| |]; [|done..]. simpl. rewrite IH. by exists (b :: xs). }
  unfold flex.UserData. simpl. unfold flex.validate. rewrite bool_decide_eq_false_2 by
    (unfold flex.supportedArchs; set_solver).
  simpl. rewrite bool_decide_eq_false_2 by done. simpl.
  unfold flex.resolveFlexComponentConfigs.
  destruct (Hl (flex.flex_steps gpu (TrimPrefix v "v") cfg)) as [xs ->]. simpl.
  specialize (Hj xs). destruct (json_Marshal xs) as [json| |]; [|done..]. simpl.
  unfold flex.renderBootstrapScript. specialize (Ht flex.defaultArch flex.flexNodeVersion).
  destruct (template _ _); [|done..]. simpl. eauto.
Qed.

(** The flex user data is made exactly when the architecture is supported
    and the version is more than an optional leading [v], as far as the options
    decide; the node then downloads the version without the [v], joins with the
    token, labels and taints of the kubeadm configuration, and pins the node IP
    exactly when one is set. *)
Theorem flex_userdata_steps
    (marshal_step : flex.Step → res string) (json_Marshal : list string → res string)
    (template : string → string → res string) (cfg : kubeadm.Config) (v : string) (gpu : bool)
    (ud : UserData) :
  flex.UserData marshal_step json_Marshal template
    [flex.WithEnableNvidiaGPURuntime gpu; flex.WithKubeadmConfig (Some cfg); flex.WithKubeVersion v]
  = Ok ud →
  TrimPrefix v "v" ≠ "" ∧
  ∃ xs json,
    flex.marshal_steps marshal_step (flex.flex_steps gpu (TrimPrefix v "v") (Some cfg)) = Ok xs ∧
    json_Marshal xs = Ok json ∧
    ud_WriteFiles ud = [{| wf_Path := "/tmp/flex-config.json"; wf_Content := json;
                           wf_Permissions := "0644"; wf_Append := false |}] ∧
    flex.KubeadmNodeJoin (kubeadm.GetServer (Some cfg)) (kubeadm.CertificateAuthorityData cfg)
      {| flex.k_Token := kubeadm.GetToken (Some cfg);
         flex.k_NodeLabels := kubeadm.NodeLabels cfg;
         flex.k_NodeIp := if bool_decide (kubeadm.GetNodeIp (Some cfg) ≠ "")
                          then Some (kubeadm.GetNodeIp (Some cfg)) else None;
         flex.k_Taints := kubeadm.GetK8SRegisterTaints (Some cfg) |}
      ∈ flex.flex_steps gpu (TrimPrefix v "v") (Some cfg) ∧
    flex.DownloadKubeBinaries (TrimPrefix v "v")
      ∈ flex.flex_steps gpu (TrimPrefix v "v") (Some cfg).
Proof.
  unfold flex.UserData. simpl. unfold flex.validate.
  rewrite bool_decide_eq_false_2 by (unfold flex.supportedArchs; set_solver). simpl.
  case_bool_decide as Hv; [done|]. unfold flex.resolveFlexComponentConfigs.
  unfold mbind, res_bind. cbn [flex.EnableNvidiaGPURuntime flex.KubeVersion flex.KubeadmConfig flex.Arch].
  destruct (flex.marshal_steps _ _) as [xs|e|p] eqn:Ex; [|done..].
  destruct (json_Marshal xs) as [json|e|p] eqn:Ej; [|done..].
  destruct (flex.renderBootstrapScript _ _) as [sc|e|p]; [|done..].
  intros [= <-]. split; [done|]. exists xs, json.
  split_and!; [exact Ex|done|done| |]; unfold flex.flex_steps; set_solver.
Qed.

Definition test_cfg : kubeadm.Config :=
  {| kubeadm.Server := Some "https://s"; kubeadm.CertificateAuthorityData := None;
     kubeadm.Token := Some "t"; kubeadm.NodeLabels := None; kubeadm.NodeIp := None;
     kubeadm.RegisterWithTaints := None; kubeadm.MaxPodsPerNode := None |}.

Lemma flex_userdata_steps_witness :
  ∃ ud, flex.UserData (λ _, Ok "{}") (λ _, Ok "[]") (λ _ _, Ok "#!")
    [flex.WithEnableNvidiaGPURuntime false; flex.WithKubeadmConfig (Some test_cfg);
     flex.WithKubeVersion "v1.30.2"] = Ok ud ∧ TrimPrefix "v1.30.2" "v" ≠ "".
Proof.
  eexists. split; [vm_compute; reflexivity|].
  eapply (proj1 (flex_userdata_steps (λ _, Ok "{}") (λ _, Ok "[]") (λ _ _, Ok "#!")
            test_cfg "v1.30.2" false _ ltac:(vm_compute; reflexivity))).
Defined.
