(* ===== verification/NebiusResource.v ===== *)
(** * Ensuring and deleting Nebius resources

    [plugin/pkg/util/nebius]: the generic CRUD object built from a Nebius
    service client, with [CreateOrUpdate] (get by id or name, then create,
    keep or update) and [Delete].  The service client is an interface; its
    laws state how the cloud stores resources by id, one per parent and name. *)
From S2P Require Import Prelude GoStr Karp.
From stdpp Require Import pretty options.
Open Scope Z_scope.

(** [nebiuscommon.ResourceMetadata]; a nil metadata reads as the zero value. *)
Record ResourceMetadata := {
  md_ParentId : string;
  md_Id : string;
  md_Name : string;
  md_CreatedAt : option Z;
}.

Record Resource (S : Type) := { r_Metadata : ResourceMetadata; r_Spec : S }.
Arguments r_Metadata {S}.
Arguments r_Spec {S}.
Arguments Build_Resource {S}.

Definition r_Id {S} (r : Resource S) : string := md_Id (r_Metadata r).
Definition r_ParentId {S} (r : Resource S) : string := md_ParentId (r_Metadata r).
Definition r_Name {S} (r : Resource S) : string := md_Name (r_Metadata r).

(** The getters of a nil resource. *)
Definition md_zero : ResourceMetadata :=
  {| md_ParentId := ""; md_Id := ""; md_Name := ""; md_CreatedAt := None |}.
Definition GetMetadata {S} (r : option (Resource S)) : ResourceMetadata := from_option r_Metadata md_zero r.
Definition GetSpec {S} (r : option (Resource S)) : option S := r_Spec <$> r.

(** The methods of a service client the factory finds by reflection.  A change
    starts an operation; waiting for it gives the id of the resource. *)
Record Service (W S : Type) := {
  Op : Type;
  svc_GetByName : string → string → M W (Resource S);  (* parent id, name *)
  svc_Get : string → M W (Resource S);
  svc_Create : ResourceMetadata → S → M W Op;
  svc_Update : ResourceMetadata → option S → M W Op;
  svc_Delete : string → M W Op;
  svc_Wait : Op → M W string;
}.
Arguments svc_GetByName {W S}.
Arguments svc_Get {W S}.
Arguments svc_Create {W S}.
Arguments svc_Update {W S}.
Arguments svc_Delete {W S}.
Arguments svc_Wait {W S}.

(** [Desired] is nil unless there is drift. *)
Record ResourceDrift (S : Type) := { HasDrift : bool; Desired : option (Resource S) }.
Arguments HasDrift {S}.
Arguments Desired {S}.
Arguments Build_ResourceDrift {S}.

Section crud.
Context {W S : Type}.
(** [status.FromError]: the status code an error carries. *)
Context (FromError : error → option Code).

Definition IsNotFound (e : error) : bool :=
  match FromError e with Some c => bool_decide (c = NotFound) | None => false end.
Definition IsAlreadyExists (e : error) : bool :=
  match FromError e with Some c => bool_decide (c = AlreadyExists) | None => false end.

(** [ignoreNotFound] on the error of a call. *)
Definition ignoreNotFound (e : error) : option error := if IsNotFound e then None else Some e.

Definition DriftDetectFunc : Type := Resource S → Resource S → M W (ResourceDrift S).

(** Drift is not detected: an existing resource is kept as it is. *)
Definition DriftTODO : DriftDetectFunc := λ _ desired,
  mret (Build_ResourceDrift false None).

(** [MustGetSDK]: the client the process has set. *)
Definition MustGetSDK {A} (sdkPointer : option A) : res A :=
  match sdkPointer with Some sdk => Ok sdk | None => Panic "SDK not set" end.

Record ResourceCRUD := {
  getByName : Resource S → M W (Resource S);
  getById : Resource S → M W (Resource S);
  create : Resource S → M W (Resource S);
  update : option (Resource S) → M W (Resource S);
  delete : Resource S → M W ();
}.

Definition ResourceCRUDFactory (s : Service W S) : ResourceCRUD := {|
  getByName desired := svc_GetByName s (r_ParentId desired) (r_Name desired);
  getById desired := svc_Get s (r_Id desired);
  create desired :=
    op ← svc_Create s (r_Metadata desired) (r_Spec desired);
    id ← svc_Wait s op;
    svc_Get s id;
  update desired :=
    op ← svc_Update s (GetMetadata desired) (GetSpec desired);
    id ← svc_Wait s op;
    svc_Get s id;
  delete desired :=
    op ← attempt (svc_Delete s (r_Id desired));
    match op with
    | inl err => match ignoreNotFound err with None => mret () | Some e => fail e end
    | inr op => _ ← svc_Wait s op; mret ()
    end;
|}.

Definition CRUD_CreateOrUpdate (res : ResourceCRUD) (detectDrift : DriftDetectFunc)
    (desired : Resource S) : M W (Resource S) :=
  existing ← attempt (if bool_decide (r_Id desired ≠ "") then getById res desired
                      else getByName res desired);
  match existing with
  | inl err => if IsNotFound err then create res desired else fail err
  | inr existing =>
      drifted ← detectDrift existing desired;
      if HasDrift drifted then update res (Desired drifted) else mret existing
  end.

Definition CRUD_Delete (res : ResourceCRUD) (t : Resource S) : M W () :=
  if bool_decide (r_Id t ≠ "") then delete res t
  else
    existing ← attempt (getByName res t);
    match existing with
    | inl err => if IsNotFound err then mret () else fail err
    | inr existing => delete res existing
    end.
End crud.
Arguments ResourceCRUD : clear implicits.

(** ** The laws of a service *)

(** The resource with a parent and name, if the cloud has one. *)
Definition named {S} (v : gmap string (Resource S)) (parent name : string) (r : Resource S) : Prop :=
  ∃ id, v !! id = Some r ∧ r_ParentId r = parent ∧ r_Name r = name.

(** The documented behaviour of a service without failures: resources by id,
    one per parent and name; a created resource gets a new id. *)
Class ServiceLaws {W S} (FromError : error → option Code) (s : Service W S) := {
  resources : W → gmap string (Resource S);
  code_not_found m : FromError (ErrStatus NotFound m) = Some NotFound;
  resources_id w id r : resources w !! id = Some r → r_Id r = id ∧ id ≠ "";
  resources_unique w parent name r r' :
    named (resources w) parent name r → named (resources w) parent name r' → r = r';
  get_law w id :
    svc_Get s id w =
    (match resources w !! id with Some r => Ok r | None => Err (ErrStatus NotFound id) end, w);
  by_name_found w parent name r :
    named (resources w) parent name r → svc_GetByName s parent name w = (Ok r, w);
  by_name_missing w parent name :
    (∀ r, ¬ named (resources w) parent name r) →
    svc_GetByName s parent name w = (Err (ErrStatus NotFound name), w);
  create_law w md spec :
    (∀ r, ¬ named (resources w) (md_ParentId md) (md_Name md) r) →
    ∃ op w1 id w2 r, svc_Create s md spec w = (Ok op, w1) ∧ svc_Wait s op w1 = (Ok id, w2) ∧
      resources w !! id = None ∧ resources w2 = <[id := r]> (resources w) ∧
      r_ParentId r = md_ParentId md ∧ r_Name r = md_Name md ∧ r_Spec r = spec;
  delete_missing w id :
    resources w !! id = None → svc_Delete s id w = (Err (ErrStatus NotFound id), w);
  delete_law w id :
    is_Some (resources w !! id) →
    ∃ op w1 w2, svc_Delete s id w = (Ok op, w1) ∧ svc_Wait s op w1 = (Ok id, w2) ∧
      resources w2 = base.delete id (resources w);
}.

(** The calls of a service leave a part of the world alone. *)
Class ServiceFrame {W S V} (s : Service W S) (part : W → V) := {
  get_frame id : keeps part (svc_Get s id);
  by_name_frame parent name : keeps part (svc_GetByName s parent name);
  create_frame md spec : keeps part (svc_Create s md spec);
  update_frame md spec : keeps part (svc_Update s md spec);
  delete_frame id : keeps part (svc_Delete s id);
  wait_frame op : keeps part (svc_Wait s op);
}.
#[export] Hint Resolve get_frame by_name_frame create_frame update_frame delete_frame
  wait_frame : flex.

Section frame.
Context {W S V : Type} (FromError : error → option Code) (s : Service W S) (part : W → V).
Context {SF : ServiceFrame s part}.
#[local] Set Default Proof Using "Type*".

Lemma CRUD_CreateOrUpdate_keeps (desired : Resource S) :
  keeps part (CRUD_CreateOrUpdate FromError (ResourceCRUDFactory FromError s) DriftTODO desired).
Proof.
  unfold CRUD_CreateOrUpdate, DriftTODO, getById, getByName, create, update, ResourceCRUDFactory.
  solve_keeps.
Qed.

Lemma CRUD_Delete_keeps (t : Resource S) :
  keeps part (CRUD_Delete FromError (ResourceCRUDFactory FromError s) t).
Proof. unfold CRUD_Delete, delete, getByName, ResourceCRUDFactory. solve_keeps. Qed.
End frame.

Section laws.
Context {W S : Type} (FromError : error → option Code) (s : Service W S).
Context {SL : ServiceLaws FromError s}.
#[local] Set Default Proof Using "Type*".

Lemma not_found_code m : IsNotFound FromError (ErrStatus NotFound m) = true.
Proof. unfold IsNotFound. rewrite code_not_found. by apply bool_decide_eq_true. Qed.

Lemma named_dec w parent name :
  (∃ r, named (resources w) parent name r) ∨ (∀ r, ¬ named (resources w) parent name r).
Proof.
  destruct (decide (Exists (λ p, r_ParentId p.2 = parent ∧ r_Name p.2 = name)
                      (map_to_list (resources w)))) as [H|H].
  - left. apply Exists_exists in H as ([id r] & Hin%elem_of_map_to_list & Hp & Hn).
    exists r, id. done.
  - right. intros r (id & Hl & Hp & Hn). apply H, Exists_exists.
    exists (id, r). by rewrite elem_of_map_to_list.
Qed.

(** Creating what is missing. *)
Lemma create_missing w (desired : Resource S) :
  (∀ r, ¬ named (resources w) (r_ParentId desired) (r_Name desired) r) →
  ∃ r w', create (ResourceCRUDFactory FromError s) desired w = (Ok r, w') ∧
          resources w' = <[r_Id r := r]> (resources w) ∧ resources w !! r_Id r = None ∧
          r_ParentId r = r_ParentId desired ∧ r_Name r = r_Name desired ∧ r_Spec r = r_Spec desired ∧
          r_Id r ≠ "".
Proof.
  intros Hn. destruct (create_law w (r_Metadata desired) (r_Spec desired) Hn)
    as (op & w1 & id & w2 & r & Hc & Hw & Hfree & Hres & Hp & Hnm & Hs).
  assert (resources w2 !! id = Some r) as Hid by (by rewrite Hres, lookup_insert_eq).
  destruct (resources_id _ _ _ Hid) as [<- Hne].
  exists r, w2. split_and!; try done.
  unfold create, ResourceCRUDFactory.
  rewrite (M_bind_Ok _ _ _ _ _ Hc), (M_bind_Ok _ _ _ _ _ Hw), get_law. by rewrite Hid.
Qed.

Lemma run_getByName_found w (t r : Resource S) :
  named (resources w) (r_ParentId t) (r_Name t) r →
  getByName (ResourceCRUDFactory FromError s) t w = (Ok r, w).
Proof. apply by_name_found. Qed.

Lemma run_getByName_missing w (t : Resource S) :
  (∀ r, ¬ named (resources w) (r_ParentId t) (r_Name t) r) →
  getByName (ResourceCRUDFactory FromError s) t w = (Err (ErrStatus NotFound (r_Name t)), w).
Proof. apply by_name_missing. Qed.

Lemma run_delete w (t : Resource S) :
  ∃ w', delete (ResourceCRUDFactory FromError s) t w = (Ok (), w') ∧
        resources w' = base.delete (r_Id t) (resources w) ∧
        (resources w !! r_Id t = None → w' = w).
Proof.
  unfold delete, ResourceCRUDFactory.
  destruct (resources w !! r_Id t) as [r|] eqn:E.
  - destruct (delete_law w (r_Id t)) as (op & w1 & w2 & Hd & Hw & Hr); [by rewrite E|].
    exists w2. rewrite (attempt_Ok _ _ _ _ _ Hd), (M_bind_Ok _ _ _ _ _ Hw). done.
  - exists w. rewrite (attempt_Err _ _ _ _ _ (delete_missing w (r_Id t) E)).
    unfold ignoreNotFound. rewrite not_found_code, delete_id by done. done.
Qed.

Lemma delete_by_id w (t : Resource S) :
  r_Id t ≠ "" →
  ∃ w', CRUD_Delete FromError (ResourceCRUDFactory FromError s) t w = (Ok (), w') ∧
        resources w' = base.delete (r_Id t) (resources w) ∧
        (resources w !! r_Id t = None → w' = w).
Proof.
  intros Hne. unfold CRUD_Delete. rewrite bool_decide_eq_true_2 by done. apply run_delete.
Qed.

Lemma delete_by_name_missing w (t : Resource S) :
  r_Id t = "" → (∀ r, ¬ named (resources w) (r_ParentId t) (r_Name t) r) →
  CRUD_Delete FromError (ResourceCRUDFactory FromError s) t w = (Ok (), w).
Proof.
  intros He Hn. unfold CRUD_Delete. rewrite bool_decide_eq_false_2 by naive_solver.
  rewrite (attempt_Err _ _ _ _ _ (run_getByName_missing _ _ Hn)). by rewrite not_found_code.
Qed.

(** No resource is left under the name of one that is deleted. *)
Lemma named_delete w parent name (r r' : Resource S) :
  named (resources w) parent name r →
  ¬ named (base.delete (r_Id r) (resources w)) parent name r'.
Proof.
  intros Hr (id' & Hid' & Hp' & Hn'). pose proof Hr as (id & Hid & _).
  destruct (resources_id _ _ _ Hid) as [<- _].
  apply lookup_delete_Some in Hid' as [Hne Hid'].
  assert (r = r') as -> by (eapply resources_unique; [done|by exists id']).
  by destruct (resources_id _ _ _ Hid').
Qed.

Lemma delete_by_name w (t : Resource S) :
  r_Id t = "" →
  ∃ w', CRUD_Delete FromError (ResourceCRUDFactory FromError s) t w = (Ok (), w') ∧
        (∀ r, ¬ named (resources w') (r_ParentId t) (r_Name t) r) ∧
        (∀ id r, resources w !! id = Some r → resources w' !! id = Some r ∨
                 (r_ParentId r = r_ParentId t ∧ r_Name r = r_Name t)).
Proof.
  intros He. destruct (named_dec w (r_ParentId t) (r_Name t)) as [[r Hr]|Hn].
  2: { exists w. split_and!; [by apply delete_by_name_missing|done|auto]. }
  destruct (run_delete w r) as (w' & Hd & Hres & _).
  pose proof Hr as (id & Hid & Hp & Hnm). destruct (resources_id _ _ _ Hid) as [Hrid Hne].
  rewrite Hrid in Hres. exists w'. split_and!.
  - unfold CRUD_Delete. rewrite bool_decide_eq_false_2 by naive_solver.
    rewrite (attempt_Ok _ _ _ _ _ (run_getByName_found _ _ _ Hr)). exact Hd.
  - intros r'. rewrite Hres, <-Hrid. by apply named_delete.
  - intros id' r' Hid'. rewrite Hres. destruct (decide (id' = id)) as [->|Hne'].
    + right. rewrite Hid in Hid'. by injection Hid' as <-.
    + left. by rewrite lookup_delete_ne.
Qed.

Lemma ensure_existing w (desired r : Resource S) :
  r_Id desired = "" → named (resources w) (r_ParentId desired) (r_Name desired) r →
  CRUD_CreateOrUpdate FromError (ResourceCRUDFactory FromError s) DriftTODO desired w = (Ok r, w).
Proof.
  intros He Hr. unfold CRUD_CreateOrUpdate. rewrite bool_decide_eq_false_2 by naive_solver.
  by rewrite (attempt_Ok _ _ _ _ _ (run_getByName_found _ _ _ Hr)).
Qed.

Lemma ensure_missing w (desired : Resource S) :
  r_Id desired = "" → (∀ r, ¬ named (resources w) (r_ParentId desired) (r_Name desired) r) →
  CRUD_CreateOrUpdate FromError (ResourceCRUDFactory FromError s) DriftTODO desired w =
  create (ResourceCRUDFactory FromError s) desired w.
Proof.
  intros He Hr. unfold CRUD_CreateOrUpdate. rewrite bool_decide_eq_false_2 by naive_solver.
  rewrite (attempt_Err _ _ _ _ _ (run_getByName_missing _ _ Hr)). by rewrite not_found_code.
Qed.

(** Ensuring a resource by name puts it in the resources; it has the spec asked
    for unless it existed. *)
Lemma ensure_ok w (desired : Resource S) :
  r_Id desired = "" →
  ∃ r w', CRUD_CreateOrUpdate FromError (ResourceCRUDFactory FromError s) DriftTODO desired w
            = (Ok r, w') ∧
    resources w' = <[r_Id r := r]> (resources w) ∧ r_Id r ≠ "" ∧
    r_ParentId r = r_ParentId desired ∧ r_Name r = r_Name desired ∧
    ((∀ r, ¬ named (resources w) (r_ParentId desired) (r_Name desired) r) →
     r_Spec r = r_Spec desired ∧ resources w !! r_Id r = None) ∧
    (∀ r', resources w !! r_Id r = Some r' → r' = r).
Proof.
  intros He. destruct (named_dec w (r_ParentId desired) (r_Name desired)) as [[r Hr]|Hn].
  - exists r, w. split; [by apply ensure_existing|].
    pose proof Hr as (id & Hid & Hp & Hnm). destruct (resources_id _ _ _ Hid) as [-> Hne].
    rewrite insert_id by done. split_and!; try done; [|congruence].
    intros Hn. by destruct (Hn r).
  - destruct (create_missing w desired Hn) as (r & w' & Hc & Hres & Hfree & Hp & Hnm & Hs & Hne).
    exists r, w'. rewrite ensure_missing by done. split_and!; try done. congruence.
Qed.

(** Ensuring a resource named without an id makes it exist with the parent
    and name asked for (the spec asked for when it was missing, the existing one
    otherwise), leaves every other resource alone, and doing it again returns
    the same resource and changes nothing. *)
Theorem crud_ensure_idempotent (w : W) (desired : Resource S) :
  r_Id desired = "" →
  ∃ r w', CRUD_CreateOrUpdate FromError (ResourceCRUDFactory FromError s) DriftTODO desired w
            = (Ok r, w') ∧
    named (resources w') (r_ParentId desired) (r_Name desired) r ∧
    (∀ id r', resources w !! id = Some r' → resources w' !! id = Some r') ∧
    (w' = w ∨ r_Spec r = r_Spec desired) ∧
    CRUD_CreateOrUpdate FromError (ResourceCRUDFactory FromError s) DriftTODO desired w'
      = (Ok r, w').
Proof.
  intros He. destruct (named_dec w (r_ParentId desired) (r_Name desired)) as [[r Hr]|Hn].
  - exists r, w. pose proof (ensure_existing w desired r He Hr) as Hc. split_and!; auto.
  - destruct (create_missing w desired Hn) as (r & w' & Hc & Hres & Hfree & Hp & Hnm & Hs & Hne).
    assert (named (resources w') (r_ParentId desired) (r_Name desired) r) as Hr.
    { exists (r_Id r). rewrite Hres, lookup_insert_eq. done. }
    exists r, w'. split_and!; [by rewrite ensure_missing|done| |by right|by apply ensure_existing].
    intros id r' Hid. rewrite Hres, lookup_insert_ne; [done|]. intros <-. congruence.
Qed.

(** Deleting a resource by id or by name succeeds whether or not it exists,
    removes it, touches no resource of another parent or name, and deleting it
    again succeeds and changes nothing more. *)
Theorem crud_delete_idempotent (w : W) (t : Resource S) :
  ∃ w', CRUD_Delete FromError (ResourceCRUDFactory FromError s) t w = (Ok (), w') ∧
    (if bool_decide (r_Id t ≠ "") then resources w' = base.delete (r_Id t) (resources w)
     else (∀ r, ¬ named (resources w') (r_ParentId t) (r_Name t) r) ∧
          (∀ id r, resources w !! id = Some r → resources w' !! id = Some r ∨
                   (r_ParentId r = r_ParentId t ∧ r_Name r = r_Name t))) ∧
    CRUD_Delete FromError (ResourceCRUDFactory FromError s) t w' = (Ok (), w').
Proof.
  destruct (decide (r_Id t = "")) as [He|Hne].
  - destruct (delete_by_name w t He) as (w' & Hd & Hn & Ho). exists w'.
    rewrite bool_decide_eq_false_2 by naive_solver.
    split_and!; [done..|by apply delete_by_name_missing].
  - destruct (delete_by_id w t Hne) as (w' & Hd & Hres & _).
    destruct (delete_by_id w' t Hne) as (w'' & Hd' & _ & Hsame).
    rewrite Hsame in Hd' by (by rewrite Hres, lookup_delete_eq).
    exists w'. rewrite bool_decide_eq_true_2 by done. done.
Qed.
End laws.

(** ** A service in memory

    The resources of a parent by name, each with an id computed from both: the
    laws above hold of it. *)
Module MemService.
Definition id_of (k : string * string) : string := "r" +:+ pretty (N.pos (encode k)).

Definition mk {S} (k : string * string) (spec : S) : Resource S :=
  Build_Resource {| md_ParentId := k.1; md_Id := id_of k; md_Name := k.2; md_CreatedAt := Some 0 |} spec.

Definition mem_resources {S} (w : gmap (string * string) S) : gmap string (Resource S) :=
  kmap id_of (map_imap (λ k spec, Some (mk k spec)) w).

Definition code_of (e : error) : option Code :=
  match e with ErrStatus c _ => Some c | _ => None end.

Definition mem_service (S : Type) : Service (gmap (string * string) S) S := {|
  Op := string;
  svc_GetByName parent name w :=
    (match w !! (parent, name) with
     | Some spec => Ok (mk (parent, name) spec)
     | None => Err (ErrStatus NotFound name)
     end, w);
  svc_Get id w :=
    (match mem_resources w !! id with Some r => Ok r | None => Err (ErrStatus NotFound id) end, w);
  svc_Create md spec w :=
    (Ok (id_of (md_ParentId md, md_Name md)), <[(md_ParentId md, md_Name md) := spec]> w);
  svc_Update md spec w :=
    (Ok (id_of (md_ParentId md, md_Name md)),
     match spec with Some spec => <[(md_ParentId md, md_Name md) := spec]> w | None => w end);
  svc_Delete id w :=
    match mem_resources w !! id with
    | Some r => (Ok id, base.delete (r_ParentId r, r_Name r) w)
    | None => (Err (ErrStatus NotFound id), w)
    end;
  svc_Wait op w := (Ok op, w);
|}.

#[global] Instance id_of_inj : Inj eq eq id_of.
Proof.
  intros k k' H. apply (inj (String.app "r")) in H.
  apply (inj (pretty (A:=N))) in H. injection H as H. by apply (inj encode) in H.
Qed.

Lemma mem_resources_Some {S} (w : gmap (string * string) S) id r :
  mem_resources w !! id = Some r ↔ ∃ k spec, id = id_of k ∧ w !! k = Some spec ∧ r = mk k spec.
Proof.
  unfold mem_resources. rewrite lookup_kmap_Some by apply _.
  setoid_rewrite map_lookup_imap. split.
  - intros (k & -> & H). destruct (w !! k) eqn:E; [|done]. naive_solver.
  - intros (k & spec & -> & H & ->). exists k. by rewrite H.
Qed.

Lemma mem_resources_insert {S} (w : gmap (string * string) S) k spec :
  mem_resources (<[k := spec]> w) = <[id_of k := mk k spec]> (mem_resources w).
Proof.
  unfold mem_resources. rewrite <-(kmap_insert _ _ k). f_equal.
  apply map_eq. intros i. rewrite map_lookup_imap. destruct (decide (i = k)) as [->|Hne].
  - by rewrite !lookup_insert_eq.
  - by rewrite !lookup_insert_ne, map_lookup_imap.
Qed.

Lemma mem_resources_delete {S} (w : gmap (string * string) S) k :
  mem_resources (base.delete k w) = base.delete (id_of k) (mem_resources w).
Proof.
  unfold mem_resources. rewrite <-(kmap_delete id_of _ k). f_equal.
  apply map_eq. intros i. rewrite map_lookup_imap. destruct (decide (i = k)) as [->|Hne].
  - by rewrite !lookup_delete_eq.
  - by rewrite !lookup_delete_ne, map_lookup_imap.
Qed.

Lemma mem_named {S} (w : gmap (string * string) S) parent name r :
  named (mem_resources w) parent name r ↔
  ∃ spec, w !! (parent, name) = Some spec ∧ r = mk (parent, name) spec.
Proof.
  split.
  - intros (id & (k & spec & -> & Hk & ->)%mem_resources_Some & Hp & Hn).
    destruct k as [p n]. cbn in Hp, Hn. subst. eauto.
  - intros (spec & Hk & ->). exists (id_of (parent, name)). split; [|done].
    apply mem_resources_Some. eauto.
Qed.

#[global] Program Instance mem_laws (S : Type) : ServiceLaws code_of (mem_service S) :=
  {| resources := mem_resources |}.
Next Obligation. done. Qed.
Next Obligation.
  intros S w id r (k & spec & -> & _ & ->)%mem_resources_Some. done.
Qed.
Next Obligation. intros S w parent name r r' ?%mem_named ?%mem_named. naive_solver. Qed.
Next Obligation. done. Qed.
Next Obligation. intros S w parent name r (spec & H & ->)%mem_named. simpl. by rewrite H. Qed.
Next Obligation.
  intros S w parent name H. simpl. destruct (w !! (parent, name)) as [spec|] eqn:E; [|done].
  destruct (H (mk (parent, name) spec)). apply mem_named. eauto.
Qed.
Next Obligation.
  intros S w md spec H. do 5 eexists. split; [reflexivity|]. split; [reflexivity|].
  split; [|split; [apply mem_resources_insert|done]].
  apply eq_None_not_Some. intros [r (k & spec' & Hk%(inj id_of) & Hl & ->)%mem_resources_Some].
  subst. eapply H, mem_named. eauto.
Qed.
Next Obligation. intros S w id H. simpl. by rewrite H. Qed.
Next Obligation.
  intros S w id [r H]. do 3 eexists. split; [simpl; by rewrite H|]. split; [reflexivity|].
  apply mem_resources_Some in H as (k & spec & -> & Hk & ->).
  destruct k. apply mem_resources_delete.
Qed.
End MemService.

(** A service on a component of a bigger world. *)
Section zoom.
Context {W L S : Type} (get : W → L) (set : L → W → W).

Definition zoom_service (s : Service L S) : Service W S := {|
  Op := Op L S s;
  svc_GetByName parent name := zoom get set (svc_GetByName s parent name);
  svc_Get id := zoom get set (svc_Get s id);
  svc_Create md spec := zoom get set (svc_Create s md spec);
  svc_Update md spec := zoom get set (svc_Update s md spec);
  svc_Delete id := zoom get set (svc_Delete s id);
  svc_Wait op := zoom get set (svc_Wait s op);
|}.

Context (get_set : ∀ l w, get (set l w) = l) (set_get : ∀ w, set (get w) w = w).

Lemma zoom_run {A} (c : M L A) w r l : c (get w) = (r, l) → zoom get set c w = (r, set l w).
Proof. unfold zoom. by intros ->. Qed.

Program Definition zoom_laws {FromError} {s : Service L S} (SL : ServiceLaws FromError s) :
    ServiceLaws FromError (zoom_service s) := {| resources w := resources (get w) |}.
Next Obligation. intros. apply code_not_found. Qed.
Next Obligation. intros FE s SL w id r. apply resources_id. Qed.
Next Obligation. intros FE s SL w parent name r r'. apply resources_unique. Qed.
Next Obligation.
  intros FE s SL w id. simpl. erewrite zoom_run by apply get_law. by rewrite set_get.
Qed.
Next Obligation.
  intros FE s SL w parent name r H. simpl. erewrite zoom_run by (by apply by_name_found).
  by rewrite set_get.
Qed.
Next Obligation.
  intros FE s SL w parent name H. simpl. erewrite zoom_run by (by apply by_name_missing).
  by rewrite set_get.
Qed.
Next Obligation.
  intros FE s SL w md spec H. destruct (create_law _ md spec H) as (op & w1 & id & w2 & r & Hc & Hw & Hr).
  exists op, (set w1 w), id, (set w2 (set w1 w)), r. simpl. rewrite get_set.
  split; [by apply zoom_run|]. split; [|done]. apply zoom_run. by rewrite get_set.
Qed.
Next Obligation.
  intros FE s SL w id H. simpl. erewrite zoom_run by (by apply delete_missing). by rewrite set_get.
Qed.
Next Obligation.
  intros FE s SL w id H. destruct (delete_law _ id H) as (op & w1 & w2 & Hc & Hw & Hr).
  exists op, (set w1 w), (set w2 (set w1 w)). simpl. rewrite get_set.
  split; [by apply zoom_run|]. split; [|done]. apply zoom_run. by rewrite get_set.
Qed.

Lemma zoom_frame {V} (part : W → V) (s : Service L S) :
  (∀ l w, part (set l w) = part w) → ServiceFrame (zoom_service s) part.
Proof.
  intros H. split; intros; intros w; cbn; unfold zoom;
    match goal with |- context [match ?x with _ => _ end] => destruct x end; apply H.
Qed.

Lemma zoom_frame_in {V} (part : L → V) (s : Service L S) :
  ServiceFrame s part → ServiceFrame (zoom_service s) (λ w, part (get w)).
Proof using get_set.
  intros [H1 H2 H3 H4 H5 H6].
  split; intros; intros w; cbn; unfold zoom;
    match goal with |- context [match ?c (get w) with _ => _ end] =>
      assert (keeps part c) as Hk by done; specialize (Hk (get w)); destruct (c (get w)) end;
    simpl in *; by rewrite get_set.
Qed.
End zoom.

(** ** The hypotheses can hold *)
Definition test_disk : Resource Z :=
  Build_Resource {| md_ParentId := "p"; md_Id := ""; md_Name := "d"; md_CreatedAt := None |} 7.

Lemma crud_ensure_idempotent_witness :
  ∃ r w', CRUD_CreateOrUpdate MemService.code_of
      (ResourceCRUDFactory MemService.code_of (MemService.mem_service Z)) DriftTODO test_disk ∅
    = (Ok r, w') ∧ named (resources w') "p" "d" r.
Proof.
  destruct (crud_ensure_idempotent MemService.code_of (MemService.mem_service Z) ∅ test_disk
    ltac:(reflexivity)) as (r & w' & H & Hn & _). exists r, w'. by split.
Defined.

Lemma crud_delete_idempotent_witness :
  ∃ w', CRUD_Delete MemService.code_of
      (ResourceCRUDFactory MemService.code_of (MemService.mem_service Z)) test_disk
      {[ ("p", "d") := 7 ]}
    = (Ok (), w') ∧ (∀ r, ¬ named (resources w') "p" "d" r).
Proof.
  destruct (crud_delete_idempotent MemService.code_of (MemService.mem_service Z)
    {[ ("p", "d") := 7 ]} test_disk) as (w' & H & Hn & _).
  exists w'. split; [exact H|]. exact (proj1 Hn).
Defined.
