(* ===== verification/NebiusInstance.v ===== *)
(** * The Nebius agent pool server

    [plugin/pkg/services/agentpools/nebius/instance/agentpools.go]: an agent
    pool is a boot disk and an instance of a Nebius project.  Creation checks
    the request, builds the user data of the node, ensures the disk and the
    instance, and answers the pool with their ids; deletion removes both. *)
From S2P Require Import Prelude GoStr Karp Helper Proto UserData NebiusResource.
From stdpp Require Import options.
Import nebius.

(** ** The cloud's messages *)
Inductive DiskType := NETWORK_SSD.
Record DiskSpec := { Size_SizeGibibytes : Z; disk_Type : DiskType; SourceImageFamily : string }.

Inductive AttachMode := READ_WRITE.
Record NetworkInterfaceSpec := { nic_SubnetId : string; nic_Name : string; nic_IpAddress : option string }.
Inductive OnPreemption := STOP.
Record PreemptibleSpec := { OnPreemption_ : OnPreemption; Priority : Z }.
Inductive RecoveryPolicy := RECOVER | FAIL.
Record InstanceSpec := {
  Resources_Platform : string;
  Resources_Preset : string;
  BootDisk_AttachMode : AttachMode;
  BootDisk_ExistingDisk : string;
  NetworkInterfaces : list NetworkInterfaceSpec;
  CloudInitUserData : string;
  Preemptible : option PreemptibleSpec;
  RecoveryPolicy_ : RecoveryPolicy;
}.

(** ** The desired resources of a pool *)
Definition DesiredBootDisk (ap : option AgentPool) : Resource DiskSpec :=
  Build_Resource
    {| md_ParentId := GetProjectId (GetSpec ap); md_Id := GetOsDiskId (GetStatus ap);
       md_Name := api.GetId (GetMetadata ap) +:+ "-boot"; md_CreatedAt := None |}
    {| Size_SizeGibibytes := GetOsDiskSizeGibibytes (GetSpec ap); disk_Type := NETWORK_SSD;
       SourceImageFamily := GetImageFamily (GetSpec ap) |}.

Definition DesiredInstance (ap : option AgentPool) (osDisk : Resource DiskSpec) (userdata : string)
    : Resource InstanceSpec :=
  let nic := {| nic_SubnetId := GetSubnetId (GetSpec ap); nic_Name := "eth0"; nic_IpAddress := Some "" |} in
  let spot := bool_decide (capacity.GetCapacityType (GetCapacity (GetSpec ap)) = capacity.SPOT) in
  Build_Resource
    {| md_ParentId := GetProjectId (GetSpec ap); md_Id := GetInstanceId (GetStatus ap);
       md_Name := api.GetId (GetMetadata ap); md_CreatedAt := None |}
    {| Resources_Platform := GetPlatform (GetSpec ap); Resources_Preset := GetPreset (GetSpec ap);
       BootDisk_AttachMode := READ_WRITE; BootDisk_ExistingDisk := r_Id osDisk;
       NetworkInterfaces := [nic]; CloudInitUserData := userdata;
       Preemptible := if spot then Some {| OnPreemption_ := STOP; Priority := 5 |} else None;
       RecoveryPolicy_ := if spot then FAIL else RECOVER |}.

(** ** The node's configuration *)
Definition WireguardIP (spec : option AgentPoolSpec) : string :=
  wireguard.GetPeerIp (GetWireguard spec).

(** The labels and the node IP, written into the kubeadm configuration of the
    request: a request without one panics. *)
Definition node_config (spec : option AgentPoolSpec) : res (option kubeadm.Config) :=
  cfg ← kubeadm.AddNodeLabels
          {[ NodeLabelKeyCloud := "nebius"; NodeLabelKeyRegion := ToLower (GetRegion spec);
             NodeLabelKeyInstanceType := GetPlatform spec +:+ "-" +:+ GetPreset spec ]}
          (GetKubeadm spec);
  cfg ← (if bool_decide (GetZone spec ≠ "") then
           kubeadm.AddNodeLabels {[ NodeLabelKeyZone := ToLower (GetZone spec) ]} cfg
         else Ok cfg);
  if bool_decide (WireguardIP spec ≠ "") then kubeadm.SetNodeIp (WireguardIP spec) cfg else Ok cfg.

(** The user data extended with the WireGuard set-up of a spoke. *)
Definition with_wireguard (wgSpokeScript : string) (spec : option AgentPoolSpec) (ud : UserData)
    : UserData :=
  let ip := WireguardIP spec in
  if bool_decide (ip ≠ "") then
    {| ud_APT := ud_APT ud; ud_PackageUpdate := ud_PackageUpdate ud;
       ud_PackageUpgrade := ud_PackageUpgrade ud;
       ud_Packages := ud_Packages ud ++ ["wireguard"; "wireguard-tools"];
       ud_FQDN := ud_FQDN ud; ud_PreferFQDNOverHostname := ud_PreferFQDNOverHostname ud;
       ud_SSHAuthorizedKeys := ud_SSHAuthorizedKeys ud;
       ud_WriteFiles := ud_WriteFiles ud ++
         [{| wf_Path := "/root/wg-spoke.sh"; wf_Content := wgSpokeScript;
             wf_Permissions := "0755"; wf_Append := false |}];
       ud_RunCmd := ud_RunCmd ud ++
         [CmdShell (Join ["export ANNOTATION_PREFIX='stretch.azure.com/wireguard-'";
                          "export WG_ADDRESS='" +:+ ip +:+ "/32'";
                          "export WG_SITE='" +:+ GetSubnetId spec +:+ "'";
                          "export WG_DAEMONIZE='true'";
                          "/root/wg-spoke.sh"] ubuntu.newline)] |}
  else ud.

(** The status of the answer: the existing one, or a new one, with the ids. *)
Definition new_status (old : option AgentPoolStatus) (instance : Resource InstanceSpec)
    (bootDisk : Resource DiskSpec) : res (option AgentPoolStatus) :=
  let status := match old with
                | None => Some {| InstanceId := None; OsDiskId := None; CreatedAt := None |}
                | s => s
                end in
  status ← SetInstanceId (r_Id instance) status;
  status ← SetOsDiskId (r_Id bootDisk) status;
  SetCreatedAt (md_CreatedAt (r_Metadata instance)) status.

(** The clients of the SDK this server uses. *)
Record SDK (W : Type) := { Compute_Instance : Service W InstanceSpec; Compute_Disk : Service W DiskSpec }.
Arguments Compute_Instance {W}.
Arguments Compute_Disk {W}.

Section server.
Context {W Msg : Type} `{PR : ProtoRuntime Msg}.
(** The agent pool as a message, the status code of an error, the SDK the
    process has set, and the database the server reads. *)
Context (of_AgentPool : AgentPool → Msg) (as_AgentPool : Msg → option AgentPool).
Context (FromError : error → option Code).
Context (sdkPointer : option (SDK W)).
Context (storage_Get : string → M W (option Msg)).
(** The encoders and templates of the user data, and the embedded script. *)
Context (marshal_step : flex.Step → res string) (json_Marshal : list string → res string)
        (bootstrapTemplate : string → string → res string) (yaml_Marshal : UserData → res string)
        (wgSpokeScript : string).

Definition InstanceCRUD (sdk : SDK W) : ResourceCRUD W InstanceSpec :=
  ResourceCRUDFactory FromError (Compute_Instance sdk).
Definition DiskCRUD (sdk : SDK W) : ResourceCRUD W DiskSpec :=
  ResourceCRUDFactory FromError (Compute_Disk sdk).

Definition node_userdata (spec : option AgentPoolSpec) (cfg : option kubeadm.Config)
    (kubeVersion : string) : M W string :=
  ud ← wrapf "failed to generate userdata: %w" []
    (lift (flex.UserData marshal_step json_Marshal bootstrapTemplate
             [flex.WithEnableNvidiaGPURuntime (HasGpu spec); flex.WithKubeadmConfig cfg;
              flex.WithKubeVersion kubeVersion]));
  wrapf "failed to marshal cloud-init: %w" []
    (lift (cloudinit_Marshal yaml_Marshal (with_wireguard wgSpokeScript spec ud))).

(** Ensure the instance; when that fails, delete the boot disk. *)
Definition ensure_instance (sdk : SDK W) (bootDisk : Resource DiskSpec) (desired : Resource InstanceSpec)
    : M W (Resource InstanceSpec) :=
  instance ← attempt (CRUD_CreateOrUpdate FromError (InstanceCRUD sdk) DriftTODO desired);
  match instance with
  | inr instance => mret instance
  | inl err =>
      diskErr ← attempt (CRUD_Delete FromError (DiskCRUD sdk) bootDisk);
      match diskErr with
      | inl diskErr =>
          fail (Errorf "instance creation failed (%w); also failed to delete disk: %w" []
                  [err; diskErr])
      | inr _ => fail err
      end
  end.

Definition Instance_CreateOrUpdate (item : option Any) : M W (option Any) :=
  ap ← lift (AnyTo as_AgentPool item);
  let apSpec := GetSpec (Some ap) in
  let kubeVersion := GetKubernetesVersion apSpec in
  if bool_decide (kubeVersion = "") then
    fail (ErrStatus InvalidArgument "kubernetes_version is required")
  else
    sdk ← lift (MustGetSDK sdkPointer);
    kubeadmConfig ← lift (node_config apSpec);
    (* the configuration is the request's own: the change is visible in [ap] *)
    apSpec ← lift (SetKubeadm kubeadmConfig apSpec);
    ap ← lift (SetSpec apSpec (Some ap));
    userdataContent ← node_userdata apSpec kubeadmConfig kubeVersion;
    bootDisk ← CRUD_CreateOrUpdate FromError (DiskCRUD sdk) DriftTODO (DesiredBootDisk ap);
    instance ← ensure_instance sdk bootDisk (DesiredInstance ap bootDisk userdataContent);
    status ← lift (new_status (GetStatus ap) instance bootDisk);
    ap ← lift (SetStatus status ap);
    match ap with
    | Some ap => item ← lift (any_New (of_AgentPool ap)); mret (Some item)
    | None => panic "nil pointer dereference"
    end.

Definition Instance_Delete (id : string) : M W () :=
  obj ← storage_Get id;
  match obj with
  | None => mret ()
  | Some obj =>
      ap ← lift (To as_AgentPool obj);
      sdk ← lift (MustGetSDK sdkPointer);
      let osDisk := DesiredBootDisk (Some ap) in
      let instance := DesiredInstance (Some ap) osDisk "" in
      _ ← CRUD_Delete FromError (InstanceCRUD sdk) instance;
      CRUD_Delete FromError (DiskCRUD sdk) osDisk
  end.
End server.

(** ** Lemmas *)

(** The configuration of a node: the labels of the pool win over the ones of the
    request, which are kept; the WireGuard address is the node IP. *)
Lemma node_config_ok (spec : option AgentPoolSpec) (cfg : kubeadm.Config) :
  GetKubeadm spec = Some cfg →
  ∃ cfg', node_config spec = Ok (Some cfg') ∧
    kubeadm.NodeLabels cfg' = Some
      ((if bool_decide (GetZone spec ≠ "") then {[ NodeLabelKeyZone := ToLower (GetZone spec) ]} else ∅) ∪
       ({[ NodeLabelKeyCloud := "nebius"; NodeLabelKeyRegion := ToLower (GetRegion spec);
           NodeLabelKeyInstanceType := GetPlatform spec +:+ "-" +:+ GetPreset spec ]} ∪
        default ∅ (kubeadm.NodeLabels cfg))) ∧
    kubeadm.NodeIp cfg' =
      (if bool_decide (WireguardIP spec ≠ "") then Some (WireguardIP spec) else kubeadm.NodeIp cfg) ∧
    kubeadm.Token cfg' = kubeadm.Token cfg.
Proof.
  intros Hk. unfold node_config. rewrite Hk.
  match goal with |- context [kubeadm.AddNodeLabels ?e (Some cfg)] =>
    destruct (kubeadm.AddNodeLabels_spec e cfg) as (c1 & -> & Hl1 & _ & Ht1 & Hi1 & _) end. cbn [mbind res_bind].
  destruct (bool_decide (GetZone spec ≠ "")); cbn [mbind res_bind].
  - match goal with |- context [kubeadm.AddNodeLabels ?e (Some c1)] =>
      destruct (kubeadm.AddNodeLabels_spec e c1) as (c2 & -> & Hl2 & _ & Ht2 & Hi2 & _) end.
    cbn [mbind res_bind]. rewrite Hl1 in Hl2.
    destruct (bool_decide (WireguardIP spec ≠ "")); (eexists; split; [cbn; reflexivity|]; cbn);
      rewrite Hl2, Ht2, Ht1, ?Hi2, ?Hi1; done.
  - destruct (bool_decide (WireguardIP spec ≠ "")); (eexists; split; [cbn; reflexivity|]; cbn);
      rewrite Hl1, Ht1, ?Hi1, map_empty_union; done.
Qed.

Lemma label_kept (b : bool) (z k v : string) (base old : gmap string string) :
  base !! k = Some v → k ≠ NodeLabelKeyZone →
  ((if b then {[ NodeLabelKeyZone := z ]} else ∅) ∪ (base ∪ old)) !! k = Some v.
Proof.
  intros Hb Hk. rewrite lookup_union_r; [by apply lookup_union_Some_l|].
  destruct b; [by rewrite lookup_singleton_ne|apply lookup_empty].
Qed.

Lemma new_status_ok instance bootDisk :
  new_status None instance bootDisk =
  Ok (Some {| InstanceId := Some (r_Id instance); OsDiskId := Some (r_Id bootDisk);
              CreatedAt := md_CreatedAt (r_Metadata instance) |}).
Proof. done. Qed.

(** A request the server accepts: a first request for a pool, with a version
    and a kubeadm configuration. *)
Record valid_pool (ap : AgentPool) (spec : AgentPoolSpec) (cfg : kubeadm.Config) : Prop := {
  vp_spec : Spec ap = Some spec;
  vp_kubeadm : Kubeadm spec = Some cfg;
  vp_version : TrimPrefix (GetKubernetesVersion (Some spec)) "v" ≠ "";
  vp_status : Status ap = None;
}.

Section properties.
Context {W Msg : Type} `{PR : ProtoRuntime Msg}.
Context (of_AgentPool : AgentPool → Msg) (as_AgentPool : Msg → option AgentPool).
Context (FromError : error → option Code) (sdk : SDK W).
Context (storage_Get : string → M W (option Msg)).
Context (marshal_step : flex.Step → res string) (json_Marshal : list string → res string)
        (bootstrapTemplate : string → string → res string) (yaml_Marshal : UserData → res string)
        (wgSpokeScript : string).

Notation Create := (Instance_CreateOrUpdate of_AgentPool as_AgentPool FromError (Some sdk)
  marshal_step json_Marshal bootstrapTemplate yaml_Marshal wgSpokeScript).
Notation Delete := (Instance_Delete as_AgentPool FromError (Some sdk) storage_Get).

(** The encoders succeed. *)
Record encoders : Prop := {
  enc_step s : is_Ok (marshal_step s);
  enc_json l : is_Ok (json_Marshal l);
  enc_template a v : is_Ok (bootstrapTemplate a v);
  enc_yaml ud : is_Ok (yaml_Marshal ud);
}.

Lemma node_userdata_ok spec cfg v :
  encoders → TrimPrefix v "v" ≠ "" →
  ∃ s, ∀ w : W, node_userdata marshal_step json_Marshal bootstrapTemplate yaml_Marshal wgSpokeScript
         spec cfg v w = (Ok s, w).
Proof.
  intros [Hs Hj Ht Hy] Hv.
  destruct (flex_UserData_ok marshal_step json_Marshal bootstrapTemplate cfg v (HasGpu spec)
              Hs Hj Ht Hv) as [ud Hud].
  unfold node_userdata, wrapf, lift. rewrite Hud. unfold mbind, M_bind, cloudinit_Marshal.
  specialize (Hy (with_wireguard wgSpokeScript spec ud)).
  destruct (yaml_Marshal _) as [b| |]; [|done..]. eexists. reflexivity.
Qed.

(** The pool of a valid request with the node's configuration in it. *)
Definition configured (ap : AgentPool) (spec : AgentPoolSpec) (cfg : kubeadm.Config) : AgentPool :=
  {| Metadata := Metadata ap;
     Spec := Some {| ProjectId := ProjectId spec; Region := Region spec; SubnetId := SubnetId spec;
                     Platform := Platform spec; Preset := Preset spec;
                     ImageFamily := ImageFamily spec;
                     OsDiskSizeGibibytes := OsDiskSizeGibibytes spec; Kubeadm := Some cfg;
                     Wireguard := Wireguard spec; Gpu := Gpu spec; Zone := Zone spec;
                     Capacity := Capacity spec; KubernetesVersion := KubernetesVersion spec |};
     Status := Status ap |}.

(** After the checks, a valid request is the two calls to the cloud. *)
Lemma create_run it ap spec cfg :
  encoders → AnyTo as_AgentPool (Some it) = Ok ap → valid_pool ap spec cfg →
  ∃ cfg' ud, node_config (Some spec) = Ok (Some cfg') ∧
    let ap1 := configured ap spec cfg' in
    ∀ w : W, Create (Some it) w =
    (bootDisk ← CRUD_CreateOrUpdate FromError (DiskCRUD FromError sdk) DriftTODO
                  (DesiredBootDisk (Some ap1));
     instance ← ensure_instance FromError sdk bootDisk (DesiredInstance (Some ap1) bootDisk ud);
     let ap2 := {| Metadata := Metadata ap1; Spec := Spec ap1;
                   Status := Some {| InstanceId := Some (r_Id instance);
                                     OsDiskId := Some (r_Id bootDisk);
                                     CreatedAt := md_CreatedAt (r_Metadata instance) |} |} in
     item ← lift (any_New (of_AgentPool ap2)); mret (Some item)) w.
Proof.
  intros Henc Hit [Hs Hk Hv Hst].
  destruct (node_config_ok (Some spec) cfg) as (cfg' & Hc & _); [done|].
  destruct (node_userdata_ok (Some (default spec (Spec (configured ap spec cfg')))) (Some cfg')
              (GetKubernetesVersion (Some spec)) Henc Hv) as [ud Hud].
  exists cfg', ud. split; [done|]. intros ap1 w. unfold Instance_CreateOrUpdate.
  rewrite (bind_lift_Ok _ _ _ _ Hit). assert (GetSpec (Some ap) = Some spec) as -> by done.
  cbv zeta. rewrite bool_decide_eq_false_2 by (intros E; by rewrite E in Hv).
  rewrite (bind_lift_Ok _ _ sdk), (bind_lift_Ok _ _ _ _ Hc) by done.
  do 2 step_lift.
  rewrite (M_bind_Ok _ _ _ _ _ (Hud w)).
  destruct ap as [md sp st]. cbn in Hst. by subst st.
Qed.

(** A request without a version is refused before anything else. *)
Lemma create_no_version (sdkPointer : option (SDK W)) it ap (w : W) :
  AnyTo as_AgentPool (Some it) = Ok ap → GetKubernetesVersion (GetSpec (Some ap)) = "" →
  Instance_CreateOrUpdate of_AgentPool as_AgentPool FromError sdkPointer marshal_step json_Marshal
    bootstrapTemplate yaml_Marshal wgSpokeScript (Some it) w =
  (Err (ErrStatus InvalidArgument "kubernetes_version is required"), w).
Proof.
  intros Hit Hv. unfold Instance_CreateOrUpdate. rewrite (bind_lift_Ok _ _ _ _ Hit).
  by rewrite bool_decide_eq_true_2.
Qed.

(** A request without a Kubernetes version is refused as an invalid argument,
    and one without a kubeadm configuration panics, both before any call to
    the cloud. *)
Theorem instance_checks_first it ap (w : W) :
  AnyTo as_AgentPool (Some it) = Ok ap →
  (GetKubernetesVersion (GetSpec (Some ap)) = "" →
   Create (Some it) w = (Err (ErrStatus InvalidArgument "kubernetes_version is required"), w)) ∧
  (GetKubernetesVersion (GetSpec (Some ap)) ≠ "" → GetKubeadm (GetSpec (Some ap)) = None →
   Create (Some it) w = (Panic "nil pointer dereference", w)).
Proof.
  intros Hit. split; [by apply create_no_version|].
  unfold Instance_CreateOrUpdate. rewrite (bind_lift_Ok _ _ _ _ Hit).
  intros Hv Hk. rewrite bool_decide_eq_false_2 by done.
  rewrite (bind_lift_Ok _ _ sdk) by done. unfold node_config. by rewrite Hk.
Qed.

Context {PL : ProtoLaws Msg} (as_of : ∀ ap, as_AgentPool (of_AgentPool ap) = Some ap).
Context {DL : ServiceLaws FromError (Compute_Disk sdk)}.
Notation disks := (resources (s := Compute_Disk sdk)).
Context {IF : ServiceFrame (Compute_Instance sdk) disks}.

(** The names of a pool's resources. *)
Definition project (spec : AgentPoolSpec) : string := GetProjectId (Some spec).
Definition pool_id (ap : AgentPool) : string := api.GetId (GetMetadata (Some ap)).
Definition disk_name (ap : AgentPool) : string := pool_id ap +:+ "-boot".

(** Ensuring the disk of a first request. *)
Lemma ensure_disk ap spec cfg cfg' w :
  valid_pool ap spec cfg →
  ∃ disk w', CRUD_CreateOrUpdate FromError (DiskCRUD FromError sdk) DriftTODO
               (DesiredBootDisk (Some (configured ap spec cfg'))) w = (Ok disk, w') ∧
    disks w' = <[r_Id disk := disk]> (disks w) ∧ r_Id disk ≠ "" ∧
    named (disks w') (project spec) (disk_name ap) disk ∧
    ((∀ r, ¬ named (disks w) (project spec) (disk_name ap) r) → disks w !! r_Id disk = None) ∧
    (∀ r, disks w !! r_Id disk = Some r → r = disk).
Proof using DL.
  intros [_ _ _ Hst].
  destruct (ensure_ok FromError (Compute_Disk sdk) w (DesiredBootDisk (Some (configured ap spec cfg'))))
    as (disk & w' & Hc & Hres & Hne & Hp & Hn & Hfresh & Hsame).
  { unfold r_Id. simpl. by rewrite Hst. }
  exists disk, w'. split_and!; [exact Hc|done|done| | |done].
  - exists (r_Id disk). rewrite Hres, lookup_insert_eq. done.
  - intros H. apply Hfresh. exact H.
Qed.

(** When the cloud fails to make the instance, creation fails with its error
    and no boot disk is left under the pool's name, the disk of an existing
    pool of that name included; every other disk is kept. *)
Theorem instance_failure_deletes_disk it ap spec cfg (w : W) e :
  encoders → AnyTo as_AgentPool (Some it) = Ok ap → valid_pool ap spec cfg →
  (∀ desired w, ∃ w', CRUD_CreateOrUpdate FromError (InstanceCRUD FromError sdk) DriftTODO desired w
                      = (Err e, w')) →
  ∃ w', Create (Some it) w = (Err e, w') ∧
    (∀ r, ¬ named (disks w') (project spec) (disk_name ap) r) ∧
    (∀ id r, disks w !! id = Some r → disks w' !! id = Some r ∨
             (r_ParentId r = project spec ∧ r_Name r = disk_name ap)).
Proof using IF.
  intros Henc Hit Hvalid Hfail.
  destruct (create_run it ap spec cfg Henc Hit Hvalid) as (cfg' & ud & _ & Hrun). rewrite Hrun.
  destruct (ensure_disk ap spec cfg cfg' w Hvalid) as 
    (disk & w1 & Hd & Hres & Hne & Hnamed & _ & Hsame).
  rewrite (M_bind_Ok _ _ _ _ _ Hd).
  destruct (Hfail (DesiredInstance (Some (configured ap spec cfg')) disk ud) w1) as [w2 Hi].
  pose proof (keeps_eq _ _ _ _ _ (CRUD_CreateOrUpdate_keeps FromError (Compute_Instance sdk) disks _) Hi)
    as Hkeep.
  destruct (delete_by_id FromError (Compute_Disk sdk) w2 disk Hne) as (w3 & Hdel & Hres3 & _).
  exists w3. split_and!.
  - apply M_bind_Err. unfold ensure_instance. rewrite (attempt_Err _ _ _ _ _ Hi).
    by rewrite (attempt_Ok _ _ _ _ _ Hdel).
  - intros r. rewrite Hres3, Hkeep. by apply named_delete.
  - intros id r Hid. rewrite Hres3, Hkeep, Hres.
    destruct (decide (id = r_Id disk)) as [->|Hne'].
    + right. apply Hsame in Hid as ->. destruct Hnamed as (? & Hid & Hp & Hn). done.
    + left. by rewrite lookup_delete_ne, lookup_insert_ne.
Qed.

Context {IL : ServiceLaws FromError (Compute_Instance sdk)}.
Notation instances := (resources (s := Compute_Instance sdk)).
Context {DF : ServiceFrame (Compute_Disk sdk) instances}.

(** The pool of the answer. *)
Definition answered (ap : AgentPool) (instance : Resource InstanceSpec) (disk : Resource DiskSpec)
    : AgentPool :=
  {| Metadata := Metadata ap; Spec := Spec ap;
     Status := Some {| InstanceId := Some (r_Id instance); OsDiskId := Some (r_Id disk);
                       CreatedAt := md_CreatedAt (r_Metadata instance) |} |}.

(** What a creation that succeeds has done. *)
Record created (ap : AgentPool) (spec : AgentPoolSpec) (cfg' : kubeadm.Config)
    (disk : Resource DiskSpec) (inst : Resource InstanceSpec) (w w' : W) : Prop := {
  cr_config : node_config (Some spec) = Ok (Some cfg');
  cr_disks : disks w' = <[r_Id disk := disk]> (disks w);
  cr_instances : instances w' = <[r_Id inst := inst]> (instances w);
  cr_disk_id : r_Id disk ≠ "";
  cr_inst_id : r_Id inst ≠ "";
  cr_disk : named (disks w') (project spec) (disk_name ap) disk;
  cr_inst : r_ParentId inst = project spec ∧ r_Name inst = pool_id ap;
  cr_disk_fresh : (∀ r, ¬ named (disks w) (project spec) (disk_name ap) r) →
                  disks w !! r_Id disk = None;
  cr_inst_fresh : (∀ r, ¬ named (instances w) (project spec) (pool_id ap) r) →
                  instances w !! r_Id inst = None ∧
                  ∃ ud, r_Spec inst =
                        r_Spec (DesiredInstance (Some (configured ap spec cfg')) disk ud);
}.

Lemma instance_create_ok it ap spec cfg (w : W) :
  encoders → AnyTo as_AgentPool (Some it) = Ok ap → valid_pool ap spec cfg →
  (∀ ap', is_Ok (any_New (of_AgentPool ap'))) →
  ∃ cfg' disk inst it' w', Create (Some it) w = (Ok (Some it'), w') ∧
    UnmarshalNew it' = Ok (of_AgentPool (answered (configured ap spec cfg') inst disk)) ∧
    created ap spec cfg' disk inst w w'.
Proof using PL IF DF IL.
  intros Henc Hit Hvalid Hany.
  destruct (create_run it ap spec cfg Henc Hit Hvalid) as (cfg' & ud & Hcfg & Hrun).
  destruct (ensure_disk ap spec cfg cfg' w Hvalid)
    as (disk & w1 & Hd & Hres & Hne & Hnamed & Hfresh & _).
  pose proof (keeps_eq _ _ _ _ _ (CRUD_CreateOrUpdate_keeps FromError (Compute_Disk sdk) instances _) Hd)
    as Hkd.
  destruct (ensure_ok FromError (Compute_Instance sdk) w1
              (DesiredInstance (Some (configured ap spec cfg')) disk ud))
    as (inst & w2 & Hi & Hresi & Hnei & Hpi & Hni & Hfreshi & _).
  { unfold r_Id. simpl. by rewrite (vp_status _ _ _ Hvalid). }
  pose proof (keeps_eq _ _ _ _ _ (CRUD_CreateOrUpdate_keeps FromError (Compute_Instance sdk) disks _) Hi)
    as Hki.
  pose proof (Hany (answered (configured ap spec cfg') inst disk)) as Hok.
  destruct (any_New _) as [it'| |] eqn:Eit; [|done..].
  exists cfg', disk, inst, it', w2. split_and!.
  - rewrite Hrun, (M_bind_Ok _ _ _ _ _ Hd).
    assert (ensure_instance FromError sdk disk
              (DesiredInstance (Some (configured ap spec cfg')) disk ud) w1 = (Ok inst, w2)) as He
      by (unfold ensure_instance; by rewrite (attempt_Ok _ _ _ _ _ Hi)).
    rewrite (M_bind_Ok _ _ _ _ _ He). cbv zeta. by rewrite (bind_lift_Ok _ _ _ _ Eit).
  - by apply any_round.
  - rewrite Hkd in Hresi, Hfreshi.
    split; [done|by rewrite Hki|done|done|done|by rewrite Hki|done|done|].
    intros H. destruct (Hfreshi H) as [Hs Hf]. split; [done|by exists ud].
Qed.

(** A valid first request makes a boot disk and an instance exist under the
    names of the pool and answers the pool with their ids; an instance that did
    not exist boots from that disk on the platform asked for, preemptible
    exactly when spot capacity is asked for; the answer carries the node labels
    and, with WireGuard, the peer address as node IP. *)
Theorem instance_create it ap spec cfg (w : W) :
  encoders → AnyTo as_AgentPool (Some it) = Ok ap → valid_pool ap spec cfg →
  (∀ ap', is_Ok (any_New (of_AgentPool ap'))) →
  ∃ it' ap' disk inst cfg' w', Create (Some it) w = (Ok (Some it'), w') ∧
    AnyTo as_AgentPool (Some it') = Ok ap' ∧
    named (disks w') (project spec) (disk_name ap) disk ∧
    named (instances w') (project spec) (pool_id ap) inst ∧
    Metadata ap' = Metadata ap ∧
    GetInstanceId (Status ap') = r_Id inst ∧ GetOsDiskId (Status ap') = r_Id disk ∧
    ((∀ r, ¬ named (instances w) (project spec) (pool_id ap) r) →
     BootDisk_ExistingDisk (r_Spec inst) = r_Id disk ∧
     Resources_Platform (r_Spec inst) = GetPlatform (Some spec) ∧
     (Preemptible (r_Spec inst) ≠ None ↔
      capacity.GetCapacityType (GetCapacity (Some spec)) = capacity.SPOT)) ∧
    GetKubeadm (Spec ap') = Some cfg' ∧
    default ∅ (kubeadm.NodeLabels cfg') !! NodeLabelKeyCloud = Some "nebius" ∧
    default ∅ (kubeadm.NodeLabels cfg') !! NodeLabelKeyRegion = Some (ToLower (GetRegion (Some spec))) ∧
    (WireguardIP (Some spec) ≠ "" → kubeadm.NodeIp cfg' = Some (WireguardIP (Some spec))).
Proof using PL as_of IF DF IL.
  intros Henc Hit Hvalid Hany.
  destruct (instance_create_ok it ap spec cfg w Henc Hit Hvalid Hany)
    as (cfg' & disk & inst & it' & w' & Hc & Hun & [Hcfg Hd Hi Hdne Hine Hnd [Hpi Hni] _ Hif]).
  destruct (node_config_ok (Some spec) cfg (vp_kubeadm _ _ _ Hvalid)) as (c & Hc' & Hl & Hip & _).
  rewrite Hc' in Hcfg. injection Hcfg as ->.
  exists it', (answered (configured ap spec cfg') inst disk), disk, inst, cfg', w'. split_and!; try done.
  - unfold AnyTo, To. rewrite Hun. simpl. by rewrite as_of.
  - exists (r_Id inst). by rewrite Hi, lookup_insert_eq.
  - intros H. destruct (Hif H) as (_ & ud & ->). split_and!; [done|done|]. simpl.
    destruct (decide (capacity.GetCapacityType (Capacity spec) = capacity.SPOT)) as [E|E];
      [rewrite bool_decide_eq_true_2 by done|rewrite bool_decide_eq_false_2 by done];
      split; intros Hp; (done || by destruct Hp).
  - rewrite Hl. apply label_kept; [apply lookup_insert_eq|done].
  - rewrite Hl. apply label_kept; [|done]. rewrite lookup_insert_ne by done.
    apply lookup_insert_eq.
  - intros H. by rewrite Hip, bool_decide_eq_true_2.
Qed.

(** Deleting a pool the database holds with its ids removes exactly the two
    resources of those ids. *)
Lemma instance_delete_ok ap id (w w1 : W) :
  storage_Get id w = (Ok (Some (of_AgentPool ap)), w1) →
  GetInstanceId (Status ap) ≠ "" → GetOsDiskId (Status ap) ≠ "" →
  ∃ w2, Delete id w = (Ok (), w2) ∧
    disks w2 = base.delete (GetOsDiskId (Status ap)) (disks w1) ∧
    instances w2 = base.delete (GetInstanceId (Status ap)) (instances w1).
Proof using as_of IF DF IL.
  intros Hget Hi Hd.
  destruct (delete_by_id FromError (Compute_Instance sdk) w1
              (DesiredInstance (Some ap) (DesiredBootDisk (Some ap)) "") Hi) as (w2 & Hdi & Hri & _).
  pose proof (keeps_eq _ _ _ _ _ (CRUD_Delete_keeps FromError (Compute_Instance sdk) disks _) Hdi) as Hk2.
  destruct (delete_by_id FromError (Compute_Disk sdk) w2 (DesiredBootDisk (Some ap)) Hd)
    as (w3 & Hdd & Hrd & _).
  pose proof (keeps_eq _ _ _ _ _ (CRUD_Delete_keeps FromError (Compute_Disk sdk) instances _) Hdd) as Hk3.
  exists w3. split_and!.
  - unfold Instance_Delete. rewrite (M_bind_Ok _ _ _ _ _ Hget). unfold To. rewrite as_of.
    do 2 step_lift. by rewrite (M_bind_Ok _ _ _ _ _ Hdi).
  - by rewrite Hrd, Hk2.
  - by rewrite Hk3, Hri.
Qed.

(** C9: deleting a pool right after its creation, with the database holding the
    answered object, removes exactly the instance and the disk: the cloud is as
    it was before, when neither name was taken. *)
Theorem instance_create_delete it ap spec cfg id (w : W) :
  encoders → AnyTo as_AgentPool (Some it) = Ok ap → valid_pool ap spec cfg →
  (∀ ap', is_Ok (any_New (of_AgentPool ap'))) →
  (∀ r, ¬ named (disks w) (project spec) (disk_name ap) r) →
  (∀ r, ¬ named (instances w) (project spec) (pool_id ap) r) →
  ∃ it' m w1, Create (Some it) w = (Ok (Some it'), w1) ∧ UnmarshalNew it' = Ok m ∧
    (storage_Get id w1 = (Ok (Some m), w1) →
     ∃ w2, Delete id w1 = (Ok (), w2) ∧ disks w2 = disks w ∧ instances w2 = instances w).
Proof using PL as_of IF DF IL.
  intros Henc Hit Hvalid Hany Hnd Hni.
  destruct (instance_create_ok it ap spec cfg w Henc Hit Hvalid Hany)
    as (cfg' & disk & inst & it' & w1 & Hc & Hun & [Hcfg Hd Hi Hdne Hine _ _ Hdf Hif]).
  exists it', (of_AgentPool (answered (configured ap spec cfg') inst disk)), w1.
  split; [exact Hc|]. split; [exact Hun|]. intros Hget.
  destruct (instance_delete_ok _ _ _ _ Hget Hine Hdne) as (w2 & Hdel & Hdd & Hdi).
  exists w2. split_and!; [done| |].
  - rewrite Hdd, Hd. apply delete_insert_id, Hdf, Hnd.
  - rewrite Hdi, Hi. apply delete_insert_id, Hif, Hni.
Qed.
End properties.

(** ** The hypotheses can hold *)

(** A cloud in memory with a database of at most one message. *)
Module Mem.
Definition W : Type := (gmap (string * string) InstanceSpec * gmap (string * string) DiskSpec)%type.
Definition sdk : SDK W := {|
  Compute_Instance := zoom_service fst (λ l w, (l, w.2)) (MemService.mem_service InstanceSpec);
  Compute_Disk := zoom_service snd (λ l w, (w.1, l)) (MemService.mem_service DiskSpec);
|}.

#[global] Instance instance_laws : ServiceLaws MemService.code_of (Compute_Instance sdk) :=
  zoom_laws _ _ (λ _ _, eq_refl) (λ '(_, _), eq_refl) (MemService.mem_laws _).
#[global] Instance disk_laws : ServiceLaws MemService.code_of (Compute_Disk sdk) :=
  zoom_laws _ _ (λ _ _, eq_refl) (λ '(_, _), eq_refl) (MemService.mem_laws _).
#[global] Instance instance_frame :
  ServiceFrame (Compute_Instance sdk) (resources (s := Compute_Disk sdk)).
Proof. by apply zoom_frame. Defined.
#[global] Instance disk_frame :
  ServiceFrame (Compute_Disk sdk) (resources (s := Compute_Instance sdk)).
Proof. by apply zoom_frame. Defined.

(** An SDK whose instance service always fails. *)
Definition broken_service (S : Type) : Service W S := {|
  Op := ();
  svc_GetByName _ _ := fail (ErrExt "quota exceeded");
  svc_Get _ := fail (ErrExt "quota exceeded");
  svc_Create _ _ := fail (ErrExt "quota exceeded");
  svc_Update _ _ := fail (ErrExt "quota exceeded");
  svc_Delete _ := fail (ErrExt "quota exceeded");
  svc_Wait _ := fail (ErrExt "quota exceeded");
|}.
Definition broken_sdk : SDK W :=
  {| Compute_Instance := broken_service InstanceSpec; Compute_Disk := Compute_Disk sdk |}.
#[global] Instance broken_laws : ServiceLaws MemService.code_of (Compute_Disk broken_sdk) := disk_laws.
#[global] Instance broken_frame :
  ServiceFrame (Compute_Instance broken_sdk) (resources (s := Compute_Disk broken_sdk)).
Proof. by split. Defined.

(** The messages are the pools. *)
#[global] Instance runtime : ProtoRuntime AgentPool := Helper.Mem.countable_runtime AgentPool "AgentPool".
#[global] Instance runtime_laws : ProtoLaws AgentPool := Helper.Mem.countable_laws AgentPool "AgentPool".
Definition cfg : kubeadm.Config :=
  {| kubeadm.Server := Some "https://s"; kubeadm.CertificateAuthorityData := None;
     kubeadm.Token := Some "t"; kubeadm.NodeLabels := None; kubeadm.NodeIp := None;
     kubeadm.RegisterWithTaints := None; kubeadm.MaxPodsPerNode := None |}.
Definition spec : AgentPoolSpec :=
  {| ProjectId := Some "project"; Region := Some "EU-North1"; SubnetId := Some "subnet";
     Platform := Some "cpu-d3"; Preset := Some "4vcpu-16gb"; ImageFamily := Some "ubuntu24.04";
     OsDiskSizeGibibytes := Some 128; Kubeadm := Some cfg;
     Wireguard := Some {| wireguard.PeerIp := Some "100.96.0.7" |}; Gpu := None; Zone := None;
     Capacity := None; KubernetesVersion := Some "v1.34.2" |}.
Definition pool : AgentPool :=
  {| Metadata := Some (api.NewMetadata "AgentPool" "pool1"); Spec := Some spec; Status := None |}.
Lemma pool_valid : valid_pool pool spec cfg.
Proof. by split. Qed.

Lemma encoders_ok : encoders (λ _, Ok "{}") (λ _, Ok "[]") (λ _ _, Ok "#!") (λ _, Ok "yaml").
Proof. by split. Qed.

Definition item (p : AgentPool) : Any := {| TypeUrl := "AgentPool"; Value := Helper.Mem.bytes_of p |}.
Lemma pool_item_ok p : AnyTo Some (Some (item p)) = Ok p.
Proof. unfold AnyTo. simpl. by rewrite decode_encode. Qed.

Notation create sdk := (Instance_CreateOrUpdate (λ p, p) Some MemService.code_of (Some sdk)
  (λ _, Ok "{}") (λ _, Ok "[]") (λ _ _, Ok "#!") (λ _, Ok "yaml") "#!wg").

Lemma no_disks w parent name :
  w.2 = ∅ → ∀ r, ¬ named (resources (s := Compute_Disk sdk) w) parent name r.
Proof.
  intros Hw r H. apply (MemService.mem_named w.2) in H as (? & H & _). by rewrite Hw in H.
Qed.
Lemma no_instances w parent name :
  w.1 = ∅ → ∀ r, ¬ named (resources (s := Compute_Instance sdk) w) parent name r.
Proof.
  intros Hw r H. apply (MemService.mem_named w.1) in H as (? & H & _). by rewrite Hw in H.
Qed.
End Mem.

Lemma instance_checks_first_witness :
  ∃ it, Mem.create Mem.sdk (Some it) (∅, ∅) =
        (Err (ErrStatus InvalidArgument "kubernetes_version is required"), (∅, ∅)).
Proof.
  set (p := {| Metadata := None; Spec := None; Status := None |}). exists (Mem.item p).
  apply (proj1 (instance_checks_first (λ p, p) Some MemService.code_of Mem.sdk
    (λ _, Ok "{}") (λ _, Ok "[]") (λ _ _, Ok "#!") (λ _, Ok "yaml") "#!wg" (Mem.item p) p (∅, ∅)
    (Mem.pool_item_ok p))). reflexivity.
Defined.

Lemma instance_create_witness :
  ∃ it' ap' w', Mem.create Mem.sdk (Some (Mem.item Mem.pool)) (∅, ∅) = (Ok (Some it'), w') ∧
                Metadata ap' = Metadata Mem.pool.
Proof.
  destruct (instance_create (λ p, p) Some MemService.code_of Mem.sdk
    (λ _, Ok "{}") (λ _, Ok "[]") (λ _ _, Ok "#!") (λ _, Ok "yaml") "#!wg" (λ _, eq_refl)
    (Mem.item Mem.pool) Mem.pool Mem.spec Mem.cfg (∅, ∅) Mem.encoders_ok (Mem.pool_item_ok _)
    Mem.pool_valid (λ _, I)) as (it' & ap' & _ & _ & _ & w' & H & _ & _ & _ & Hm & _).
  exists it', ap', w'. by split.
Defined.

Lemma instance_failure_deletes_disk_witness :
  ∃ w', Mem.create Mem.broken_sdk (Some (Mem.item Mem.pool)) (∅, ∅)
        = (Err (ErrExt "quota exceeded"), w').
Proof.
  destruct (instance_failure_deletes_disk (λ p, p) Some MemService.code_of Mem.broken_sdk
    (λ _, Ok "{}") (λ _, Ok "[]") (λ _ _, Ok "#!") (λ _, Ok "yaml") "#!wg"
    (Mem.item Mem.pool) Mem.pool Mem.spec Mem.cfg (∅, ∅) (ErrExt "quota exceeded")
    Mem.encoders_ok (Mem.pool_item_ok _) Mem.pool_valid) as (w' & H & _).
  - intros desired w. exists w. unfold CRUD_CreateOrUpdate. simpl. unfold getById, getByName.
    by case_bool_decide.
  - by exists w'.
Defined.

Lemma instance_create_delete_witness :
  ∃ it' m w1 w2, Mem.create Mem.sdk (Some (Mem.item Mem.pool)) (∅, ∅) = (Ok (Some it'), w1) ∧
    Instance_Delete Some MemService.code_of (Some Mem.sdk) (λ _, mret (Some m)) "pool1" w1
      = (Ok (), w2) ∧
    resources (s := Compute_Disk Mem.sdk) w2 = resources (s := Compute_Disk Mem.sdk) (∅, ∅).
Proof.
  pose proof (λ m, instance_create_delete (λ p, p) Some MemService.code_of Mem.sdk (λ _, mret (Some m))
    (λ _, Ok "{}") (λ _, Ok "[]") (λ _ _, Ok "#!") (λ _, Ok "yaml") "#!wg" (λ _, eq_refl)
    (Mem.item Mem.pool) Mem.pool Mem.spec Mem.cfg "pool1" (∅, ∅) Mem.encoders_ok (Mem.pool_item_ok _)
    Mem.pool_valid (λ _, I) (Mem.no_disks (∅, ∅) _ _ eq_refl)
    (Mem.no_instances (∅, ∅) _ _ eq_refl)) as H.
  destruct (H Mem.pool) as (it' & m & w1 & Hc & Hu & _).
  destruct (H m) as (it2 & m2 & w1' & Hc' & Hu' & Hd).
  rewrite Hc in Hc'. injection Hc' as <- <-. rewrite Hu in Hu'. injection Hu' as <-.
  destruct (Hd eq_refl) as (w2 & Hdel & Hdisks & _).
  exists it', m, w1, w2. by split_and!.
Defined.
