(* ===== verification/NebiusNetwork.v ===== *)
(** * The Nebius network server

    [plugin/pkg/services/networks/nebius/vpc/vpc.go]: a network is an address
    pool, a network that takes its addresses from it, and a subnet of that
    network.  Creation ensures them in this order; deletion goes the other way
    and stops at the first failure. *)
From S2P Require Import Prelude GoStr Karp Helper Proto NebiusResource.
From stdpp Require Import options.
Import vpc.

(** ** The cloud's messages *)
Inductive IpVersion := IPV4.
Inductive IpVisibility := PRIVATE.
Record PoolSpec := { Version : IpVersion; Visibility : IpVisibility; Cidrs : list string }.
Record VpcNetworkSpec := { Ipv4PrivatePools : list string }.  (* the ids of the pools *)
Record SubnetSpec := { NetworkId : string; UseNetworkPools : bool }.

(** ** The desired resources of a network *)
Definition DesiredPool (n : option Network) : Resource PoolSpec :=
  Build_Resource
    {| md_ParentId := GetProjectId (GetSpec n); md_Id := GetPoolId (GetStatus n);
       md_Name := api.GetId (GetMetadata n) +:+ "-pool"; md_CreatedAt := None |}
    {| Version := IPV4; Visibility := PRIVATE; Cidrs := [vnet.GetCidrBlock (GetVnet (GetSpec n))] |}.

Definition DesiredNetwork (n : option Network) (pool : Resource PoolSpec) : Resource VpcNetworkSpec :=
  Build_Resource
    {| md_ParentId := GetProjectId (GetSpec n); md_Id := GetVnetId (GetStatus n);
       md_Name := api.GetId (GetMetadata n); md_CreatedAt := None |}
    {| Ipv4PrivatePools := if bool_decide (r_Id pool ≠ "") then [r_Id pool] else [] |}.

Definition DesiredSubnet (n : option Network) (network : Resource VpcNetworkSpec) : Resource SubnetSpec :=
  Build_Resource
    {| md_ParentId := GetProjectId (GetSpec n); md_Id := GetSubnetId (GetStatus n);
       md_Name := api.GetId (GetMetadata n) +:+ "-subnet"; md_CreatedAt := None |}
    {| NetworkId := if bool_decide (r_Id network ≠ "") then r_Id network else "";
       UseNetworkPools := true |}.

(** The clients of the SDK this server uses. *)
Record SDK (W : Type) := {
  VPC_Pool : Service W PoolSpec;
  VPC_Network : Service W VpcNetworkSpec;
  VPC_Subnet : Service W SubnetSpec;
}.
Arguments VPC_Pool {W}.
Arguments VPC_Network {W}.
Arguments VPC_Subnet {W}.

(** ** The server *)
Section server.
Context {W Msg : Type} `{PR : ProtoRuntime Msg}.
(** The network as a message, the status code of an error, the SDK the process
    has set, and the database the server reads. *)
Context (of_Network : Network → Msg) (as_Network : Msg → option Network).
Context (FromError : error → option Code).
Context (sdkPointer : option (SDK W)).
Context (storage_Get : string → M W (option Msg)).

Definition PoolCRUD (sdk : SDK W) : ResourceCRUD W PoolSpec :=
  ResourceCRUDFactory FromError (VPC_Pool sdk).
Definition NetworkCRUD (sdk : SDK W) : ResourceCRUD W VpcNetworkSpec :=
  ResourceCRUDFactory FromError (VPC_Network sdk).
Definition SubnetCRUD (sdk : SDK W) : ResourceCRUD W SubnetSpec :=
  ResourceCRUDFactory FromError (VPC_Subnet sdk).

(** The status of the answer: the existing one, or a new one, with the ids. *)
Definition new_status (old : option NetworkStatus) (pool network subnet : string)
    : res (option NetworkStatus) :=
  let status := match old with
                | None => Some {| PoolId := None; VnetId := None; SubnetId := None |}
                | s => s
                end in
  status ← SetPoolId pool status;
  status ← SetVnetId network status;
  SetSubnetId subnet status.

Definition Vpc_CreateOrUpdate (item : option Any) : M W (option Any) :=
  n ← lift (AnyTo as_Network item);
  sdk ← lift (MustGetSDK sdkPointer);
  pool ← CRUD_CreateOrUpdate FromError (PoolCRUD sdk) DriftTODO (DesiredPool (Some n));
  network ← CRUD_CreateOrUpdate FromError (NetworkCRUD sdk) DriftTODO (DesiredNetwork (Some n) pool);
  subnet ← CRUD_CreateOrUpdate FromError (SubnetCRUD sdk) DriftTODO (DesiredSubnet (Some n) network);
  status ← lift (new_status (GetStatus (Some n)) (r_Id pool) (r_Id network) (r_Id subnet));
  n ← lift (SetStatus status (Some n));
  match n with
  | Some n => item ← lift (any_New (of_Network n)); mret (Some item)
  | None => panic "nil pointer dereference"
  end.

Definition Vpc_Delete (id : string) : M W () :=
  obj ← storage_Get id;
  match obj with
  | None => mret ()
  | Some obj =>
      n ← lift (To as_Network obj);
      sdk ← lift (MustGetSDK sdkPointer);
      let pool := DesiredPool (Some n) in
      let network := DesiredNetwork (Some n) pool in
      let subnet := DesiredSubnet (Some n) network in
      _ ← CRUD_Delete FromError (SubnetCRUD sdk) subnet;
      _ ← CRUD_Delete FromError (NetworkCRUD sdk) network;
      CRUD_Delete FromError (PoolCRUD sdk) pool
  end.
End server.

(** ** Properties *)
Section properties.
Context {W Msg : Type} `{PR : ProtoRuntime Msg}.
Context (of_Network : Network → Msg) (as_Network : Msg → option Network).
Context (FromError : error → option Code) (sdk : SDK W).
Context (storage_Get : string → M W (option Msg)).
#[local] Set Default Proof Using "Type*".

Notation Create := (Vpc_CreateOrUpdate of_Network as_Network FromError (Some sdk)).
Notation Delete := (Vpc_Delete as_Network FromError (Some sdk) storage_Get).

(** Deletion goes from the subnet to the network to the pool and stops at the
    first failure, whatever the services do: the later resources are not
    touched, so the ids needed to try again stay valid. *)
Theorem vpc_delete_stops id n obj (w w0 w1 w2 : W) e :
  storage_Get id w = (Ok (Some obj), w0) → as_Network obj = Some n →
  let pool := DesiredPool (Some n) in
  let network := DesiredNetwork (Some n) pool in
  let subnet := DesiredSubnet (Some n) network in
  (CRUD_Delete FromError (SubnetCRUD FromError sdk) subnet w0 = (Err e, w1) →
   Delete id w = (Err e, w1)) ∧
  (CRUD_Delete FromError (SubnetCRUD FromError sdk) subnet w0 = (Ok (), w1) →
   CRUD_Delete FromError (NetworkCRUD FromError sdk) network w1 = (Err e, w2) →
   Delete id w = (Err e, w2)) ∧
  (CRUD_Delete FromError (SubnetCRUD FromError sdk) subnet w0 = (Ok (), w1) →
   CRUD_Delete FromError (NetworkCRUD FromError sdk) network w1 = (Ok (), w2) →
   Delete id w = CRUD_Delete FromError (PoolCRUD FromError sdk) pool w2).
Proof.
  intros Hg Ho pool network subnet. unfold Vpc_Delete. rewrite (M_bind_Ok _ _ _ _ _ Hg).
  unfold To. rewrite Ho. rewrite (bind_lift_Ok _ _ n), (bind_lift_Ok _ _ sdk) by done. cbv zeta.
  split_and!.
  - intros H. by apply M_bind_Err.
  - intros H H'. rewrite (M_bind_Ok _ _ _ _ _ H). by apply M_bind_Err.
  - intros H H'. by rewrite (M_bind_Ok _ _ _ _ _ H), (M_bind_Ok _ _ _ _ _ H').
Qed.

Context {PL : ProtoLaws Msg} (as_of : ∀ n, as_Network (of_Network n) = Some n).
Context {PoolL : ServiceLaws FromError (VPC_Pool sdk)}.
Context {NetL : ServiceLaws FromError (VPC_Network sdk)}.
Context {SubL : ServiceLaws FromError (VPC_Subnet sdk)}.
Notation pools := (resources (s := VPC_Pool sdk)).
Notation networks := (resources (s := VPC_Network sdk)).
Notation subnets := (resources (s := VPC_Subnet sdk)).
Context {PoolF : ServiceFrame (VPC_Pool sdk) (λ w, (networks w, subnets w))}.
Context {NetF : ServiceFrame (VPC_Network sdk) (λ w, (pools w, subnets w))}.
Context {SubF : ServiceFrame (VPC_Subnet sdk) (λ w, (pools w, networks w))}.

Definition project (n : Network) : string := GetProjectId (GetSpec (Some n)).
Definition net_id (n : Network) : string := api.GetId (GetMetadata (Some n)).

(** What a creation that succeeds has done. *)
Record created (n : Network) (pool : Resource PoolSpec) (net : Resource VpcNetworkSpec)
    (sub : Resource SubnetSpec) (w w' : W) : Prop := {
  cr_pools : pools w' = <[r_Id pool := pool]> (pools w);
  cr_networks : networks w' = <[r_Id net := net]> (networks w);
  cr_subnets : subnets w' = <[r_Id sub := sub]> (subnets w);
  cr_ids : r_Id pool ≠ "" ∧ r_Id net ≠ "" ∧ r_Id sub ≠ "";
  cr_pool : r_ParentId pool = project n ∧ r_Name pool = net_id n +:+ "-pool";
  cr_net : r_ParentId net = project n ∧ r_Name net = net_id n;
  cr_sub : r_ParentId sub = project n ∧ r_Name sub = net_id n +:+ "-subnet";
  cr_pool_fresh : (∀ r, ¬ named (pools w) (project n) (net_id n +:+ "-pool") r) →
    pools w !! r_Id pool = None ∧ r_Spec pool = r_Spec (DesiredPool (Some n));
  cr_net_fresh : (∀ r, ¬ named (networks w) (project n) (net_id n) r) →
    networks w !! r_Id net = None ∧ r_Spec net = r_Spec (DesiredNetwork (Some n) pool);
  cr_sub_fresh : (∀ r, ¬ named (subnets w) (project n) (net_id n +:+ "-subnet") r) →
    subnets w !! r_Id sub = None ∧ r_Spec sub = r_Spec (DesiredSubnet (Some n) net);
}.

(** The network of the answer. *)
Definition answered (n : Network) (pool net sub : string) : Network :=
  {| Metadata := Metadata n; Spec := Spec n;
     Status := Some {| PoolId := Some pool; VnetId := Some net; SubnetId := Some sub |} |}.

Lemma vpc_create_ok it n (w : W) :
  AnyTo as_Network (Some it) = Ok n → Status n = None →
  (∀ n', is_Ok (any_New (of_Network n'))) →
  ∃ pool net sub it' w', Create (Some it) w = (Ok (Some it'), w') ∧
    UnmarshalNew it' = Ok (of_Network (answered n (r_Id pool) (r_Id net) (r_Id sub))) ∧
    created n pool net sub w w'.
Proof.
  intros Hit Hst Hany. assert (GetStatus (Some n) = None) as Hst' by done.
  destruct (ensure_ok FromError (VPC_Pool sdk) w (DesiredPool (Some n)))
    as (pool & w1 & Hp & Hpr & Hpne & Hpp & Hpn & Hpf & _); [change (GetPoolId (GetStatus (Some n)) = ""); by rewrite Hst'|].
  destruct (ensure_ok FromError (VPC_Network sdk) w1 (DesiredNetwork (Some n) pool))
    as (net & w2 & Hn & Hnr & Hnne & Hnp & Hnn & Hnf & _); [change (GetVnetId (GetStatus (Some n)) = ""); by rewrite Hst'|].
  destruct (ensure_ok FromError (VPC_Subnet sdk) w2 (DesiredSubnet (Some n) net))
    as (sub & w3 & Hs & Hsr & Hsne & Hsp & Hsn & Hsf & _); [change (GetSubnetId (GetStatus (Some n)) = ""); by rewrite Hst'|].
  pose proof (keeps_eq _ _ _ _ _ (CRUD_CreateOrUpdate_keeps FromError _ _ _) Hp) as [= Kn1 Ks1].
  pose proof (keeps_eq _ _ _ _ _ (CRUD_CreateOrUpdate_keeps FromError _ _ _) Hn) as [= Kp2 Ks2].
  pose proof (keeps_eq _ _ _ _ _ (CRUD_CreateOrUpdate_keeps FromError _ _ _) Hs) as [= Kp3 Kn3].
  pose proof (Hany (answered n (r_Id pool) (r_Id net) (r_Id sub))) as Hok.
  destruct (any_New _) as [it'| |] eqn:Eit; [|done..].
  exists pool, net, sub, it', w3. split_and!; [|by apply any_round|].
  - unfold Vpc_CreateOrUpdate. rewrite (bind_lift_Ok _ _ _ _ Hit).
    rewrite (bind_lift_Ok _ _ sdk) by done.
    rewrite (M_bind_Ok _ _ _ _ _ Hp), (M_bind_Ok _ _ _ _ _ Hn), (M_bind_Ok _ _ _ _ _ Hs).
    rewrite Hst'. do 2 step_lift.
    exact (bind_lift_Ok _ (λ item, mret (Some item)) it' w3 Eit).
  - rewrite Ks2, Ks1 in *. rewrite Kn1 in *. split; try done.
    + by rewrite Kp3, Kp2.
    + by rewrite Kn3.
    + intros H. by apply and_comm, Hpf.
    + intros H. by apply and_comm, Hnf.
    + intros H. by apply and_comm, Hsf.
Qed.

(** A first request makes the pool, the network and the subnet exist under
    the names of the network and answers with their ids; what did not exist is
    linked: the network takes the addresses of the pool, which has the block
    asked for, and the subnet is of the network. *)
Theorem vpc_create it n (w : W) :
  AnyTo as_Network (Some it) = Ok n → Status n = None →
  (∀ n', is_Ok (any_New (of_Network n'))) →
  ∃ it' n' pool net sub w', Create (Some it) w = (Ok (Some it'), w') ∧
    AnyTo as_Network (Some it') = Ok n' ∧ Metadata n' = Metadata n ∧ Spec n' = Spec n ∧
    GetPoolId (Status n') = r_Id pool ∧ GetVnetId (Status n') = r_Id net ∧
    GetSubnetId (Status n') = r_Id sub ∧
    named (pools w') (project n) (net_id n +:+ "-pool") pool ∧
    named (networks w') (project n) (net_id n) net ∧
    named (subnets w') (project n) (net_id n +:+ "-subnet") sub ∧
    ((∀ r, ¬ named (pools w) (project n) (net_id n +:+ "-pool") r) →
     Cidrs (r_Spec pool) = [vnet.GetCidrBlock (GetVnet (GetSpec (Some n)))]) ∧
    ((∀ r, ¬ named (networks w) (project n) (net_id n) r) →
     Ipv4PrivatePools (r_Spec net) = [r_Id pool]) ∧
    ((∀ r, ¬ named (subnets w) (project n) (net_id n +:+ "-subnet") r) →
     NetworkId (r_Spec sub) = r_Id net).
Proof.
  intros Hit Hst Hany. destruct (vpc_create_ok it n w Hit Hst Hany)
    as (pool & net & sub & it' & w' & Hc & Hun & [Hp Hn Hs (Hi1 & Hi2 & Hi3) [Q1 Q2] [Q3 Q4] [Q5 Q6] Hpf Hnf Hsf]).
  exists it', (answered n (r_Id pool) (r_Id net) (r_Id sub)), pool, net, sub, w'.
  split_and!; try done.
  - unfold AnyTo, To. rewrite Hun. simpl. by rewrite as_of.
  - exists (r_Id pool). by rewrite Hp, lookup_insert_eq.
  - exists (r_Id net). by rewrite Hn, lookup_insert_eq.
  - exists (r_Id sub). by rewrite Hs, lookup_insert_eq.
  - intros H. by destruct (Hpf H) as [_ ->].
  - intros H. destruct (Hnf H) as [_ ->]. simpl. by rewrite bool_decide_eq_true_2.
  - intros H. destruct (Hsf H) as [_ ->]. simpl. by rewrite bool_decide_eq_true_2.
Qed.

(** Deleting a network right after its creation, with the database holding
    the answered object, restores the three kinds of resources, when none of
    the names was taken. *)
Theorem vpc_create_delete it n id (w : W) :
  AnyTo as_Network (Some it) = Ok n → Status n = None →
  (∀ n', is_Ok (any_New (of_Network n'))) →
  (∀ r, ¬ named (pools w) (project n) (net_id n +:+ "-pool") r) →
  (∀ r, ¬ named (networks w) (project n) (net_id n) r) →
  (∀ r, ¬ named (subnets w) (project n) (net_id n +:+ "-subnet") r) →
  ∃ it' m w1, Create (Some it) w = (Ok (Some it'), w1) ∧ UnmarshalNew it' = Ok m ∧
    (storage_Get id w1 = (Ok (Some m), w1) →
     ∃ w2, Delete id w1 = (Ok (), w2) ∧ pools w2 = pools w ∧ networks w2 = networks w ∧
           subnets w2 = subnets w).
Proof.
  intros Hit Hst Hany Fp Fn Fs. destruct (vpc_create_ok it n w Hit Hst Hany)
    as (pool & net & sub & it' & w' & Hc & Hun & [Hp Hn Hs (Hi1 & Hi2 & Hi3) _ _ _ Hpf Hnf Hsf]).
  set (n' := answered n (r_Id pool) (r_Id net) (r_Id sub)) in *.
  exists it', (of_Network n'), w'. split; [exact Hc|]. split; [exact Hun|]. intros Hget.
  set (dp := DesiredPool (Some n')). set (dn := DesiredNetwork (Some n') dp).
  set (ds := DesiredSubnet (Some n') dn).
  destruct (delete_by_id FromError (VPC_Subnet sdk) w' ds Hi3) as (w1 & D1 & R1 & _).
  destruct (delete_by_id FromError (VPC_Network sdk) w1 dn Hi2) as (w2 & D2 & R2 & _).
  destruct (delete_by_id FromError (VPC_Pool sdk) w2 dp Hi1) as (w3 & D3 & R3 & _).
  pose proof (keeps_eq _ _ _ _ _ (CRUD_Delete_keeps FromError _ _ _) D1) as [= Kp1 Kn1].
  pose proof (keeps_eq _ _ _ _ _ (CRUD_Delete_keeps FromError _ _ _) D2) as [= Kp2 Ks2].
  pose proof (keeps_eq _ _ _ _ _ (CRUD_Delete_keeps FromError _ _ _) D3) as [= Kn3 Ks3].
  exists w3. split_and!.
  - unfold Vpc_Delete. rewrite (M_bind_Ok _ _ _ _ _ Hget). unfold To. rewrite as_of.
    do 2 step_lift. by rewrite (M_bind_Ok _ _ _ _ _ D1), (M_bind_Ok _ _ _ _ _ D2).
  - rewrite R3, Kp2, Kp1, Hp. apply delete_insert_id, Hpf, Fp.
  - rewrite Kn3, R2, Kn1, Hn. apply delete_insert_id, Hnf, Fn.
  - rewrite Ks3, Ks2, R1, Hs. apply delete_insert_id, Hsf, Fs.
Qed.
End properties.

(** ** The hypotheses can hold *)
Module Mem.
Definition W : Type :=
  (gmap (string * string) PoolSpec * gmap (string * string) VpcNetworkSpec *
   gmap (string * string) SubnetSpec)%type.
Definition sdk : SDK W := {|
  VPC_Pool := zoom_service (λ w : W, w.1.1) (λ l w, (l, w.1.2, w.2)) (MemService.mem_service PoolSpec);
  VPC_Network :=
    zoom_service (λ w : W, w.1.2) (λ l w, (w.1.1, l, w.2)) (MemService.mem_service VpcNetworkSpec);
  VPC_Subnet :=
    zoom_service (λ w : W, w.2) (λ l w, (w.1.1, w.1.2, l)) (MemService.mem_service SubnetSpec);
|}.

#[global] Instance pool_laws : ServiceLaws MemService.code_of (VPC_Pool sdk) :=
  zoom_laws _ _ (λ _ _, eq_refl) (λ '(_, _, _), eq_refl) (MemService.mem_laws _).
#[global] Instance network_laws : ServiceLaws MemService.code_of (VPC_Network sdk) :=
  zoom_laws _ _ (λ _ _, eq_refl) (λ '(_, _, _), eq_refl) (MemService.mem_laws _).
#[global] Instance subnet_laws : ServiceLaws MemService.code_of (VPC_Subnet sdk) :=
  zoom_laws _ _ (λ _ _, eq_refl) (λ '(_, _, _), eq_refl) (MemService.mem_laws _).
#[global] Instance pool_frame : ServiceFrame (VPC_Pool sdk)
  (λ w, (resources (s := VPC_Network sdk) w, resources (s := VPC_Subnet sdk) w)).
Proof. by apply zoom_frame. Defined.
#[global] Instance network_frame : ServiceFrame (VPC_Network sdk)
  (λ w, (resources (s := VPC_Pool sdk) w, resources (s := VPC_Subnet sdk) w)).
Proof. by apply zoom_frame. Defined.
#[global] Instance subnet_frame : ServiceFrame (VPC_Subnet sdk)
  (λ w, (resources (s := VPC_Pool sdk) w, resources (s := VPC_Network sdk) w)).
Proof. by apply zoom_frame. Defined.

#[global] Instance runtime : ProtoRuntime Network := Helper.Mem.countable_runtime Network "Network".
#[global] Instance runtime_laws : ProtoLaws Network := Helper.Mem.countable_laws Network "Network".

Definition net : Network :=
  {| Metadata := Some (api.NewMetadata "Network" "net1");
     Spec := Some {| ProjectId := Some "project"; Region := Some "eu-north1";
                     Vnet := Some {| vnet.CidrBlock := Some "10.0.0.0/16" |} |};
     Status := None |}.
Definition item (n : Network) : Any := {| TypeUrl := "Network"; Value := Helper.Mem.bytes_of n |}.
Lemma network_item_ok n : AnyTo Some (Some (item n)) = Ok n.
Proof. unfold AnyTo. simpl. by rewrite decode_encode. Qed.
Definition w0 : W := (∅, ∅, ∅).

Lemma none {S} (m : gmap (string * string) S) parent name :
  m = ∅ → ∀ r, ¬ named (MemService.mem_resources m) parent name r.
Proof. intros -> r H. by apply MemService.mem_named in H as (? & H & _). Qed.

Notation create := (Vpc_CreateOrUpdate (λ n, n) Some MemService.code_of (Some sdk)).
Notation delete storage := (Vpc_Delete Some MemService.code_of (Some sdk) storage).
End Mem.

Lemma vpc_delete_stops_witness :
  ∃ w', Mem.delete (λ _, mret (Some Mem.net)) "net1" Mem.w0 = (Ok (), w').
Proof.
  edestruct (vpc_delete_stops (λ n, n) Some MemService.code_of Mem.sdk (λ _, mret (Some Mem.net)) "net1"
    Mem.net Mem.net Mem.w0 Mem.w0 Mem.w0 Mem.w0 (ErrExt "") eq_refl eq_refl) as (_ & _ & H).
  eexists. rewrite H; [|vm_compute; reflexivity|vm_compute; reflexivity].
  vm_compute. reflexivity.
Defined.

Lemma vpc_create_witness :
  ∃ it' n' w', Mem.create (Some (Mem.item Mem.net)) Mem.w0 = (Ok (Some it'), w') ∧
               Spec n' = Spec Mem.net.
Proof.
  destruct (vpc_create (λ n, n) Some MemService.code_of Mem.sdk (λ _, mret None) (λ _, eq_refl) (Mem.item Mem.net)
    Mem.net Mem.w0 (Mem.network_item_ok _) eq_refl (λ _, I))
    as (it' & n' & _ & _ & _ & w' & H & _ & _ & Hs & _).
  exists it', n', w'. by split.
Defined.

Lemma vpc_create_delete_witness :
  ∃ it' m w1 w2, Mem.create (Some (Mem.item Mem.net)) Mem.w0 = (Ok (Some it'), w1) ∧
    Mem.delete (λ _, mret (Some m)) "net1" w1 = (Ok (), w2) ∧
    resources (s := VPC_Pool Mem.sdk) w2 = resources (s := VPC_Pool Mem.sdk) Mem.w0.
Proof.
  pose proof (λ m, vpc_create_delete (λ n, n) Some MemService.code_of Mem.sdk (λ _, mret (Some m))
    (λ _, eq_refl) (Mem.item Mem.net) Mem.net "net1" Mem.w0 (Mem.network_item_ok _) eq_refl (λ _, I)
    (Mem.none ∅ _ _ eq_refl) (Mem.none ∅ _ _ eq_refl) (Mem.none ∅ _ _ eq_refl)) as H.
  destruct (H Mem.net) as (it' & m & w1 & Hc & Hu & _).
  destruct (H m) as (it2 & m2 & w1' & Hc' & Hu' & Hd).
  rewrite Hc in Hc'. injection Hc' as <- <-. rewrite Hu in Hu'. injection Hu' as <-.
  destruct (Hd eq_refl) as (w2 & Hdel & Hp & _).
  exists it', m, w1, w2. by split_and!.
Defined.
