(* ===== verification/InstanceTypes.v ===== *)
(** * Nebius instance types

    [karpenter/pkg/cloudproviders/nebius/instancetype]: the platform and preset
    pairs of a project as Karpenter instance types with priced offerings, the
    cached provider of them, and the choice of the cheapest pair for a node
    claim.  Prices are IEEE doubles ([spec_float]).  The Nebius API during one
    call is a value of [Cloud]; the scheduling requirements of Karpenter, the
    LRU cache, [strconv.ParseFloat] and the Azure reservation formulas are
    parameters. *)
From Stdlib Require Import SpecFloat.
From S2P Require Import Prelude GoStr Karp.
From stdpp Require Import options.
Open Scope Z_scope.

(** ** [platform.go] *)
Definition ArchitectureAmd64 : string := "amd64".

Record Preset := {
  preset_Name : string; VcpuCount : Z; MemoryGibibytes : Z; GpuCount : Z;
}.
Record Platform := {
  platform_Name : string;
  GpuMemoryGigabytes : Z;
  Presets : list Preset;
  Status_AllowedForPreemptibles : bool;
}.
Record PlatformPreset := { pp_platform : Platform; pp_preset : Preset }.

Definition NewPlatformPreset (platform : Platform) (preset : Preset) : PlatformPreset :=
  {| pp_platform := platform; pp_preset := preset |}.
Definition AllowedForPreemptibles (p : PlatformPreset) : bool :=
  Status_AllowedForPreemptibles (pp_platform p).
Definition InstanceTypeName (p : PlatformPreset) : string :=
  platform_Name (pp_platform p) +:+ "-" +:+ preset_Name (pp_preset p).

(** Quantities as their value: a gibibyte count is scaled by the decimal [Giga]. *)
Definition Giga (x : Z) : Z := x * 10 ^ 9.
Definition VCPUCount (p : PlatformPreset) : Z := VcpuCount (pp_preset p).
Definition MemoryGiB (p : PlatformPreset) : Z := Giga (MemoryGibibytes (pp_preset p)).
Definition NvidiaGPUCount (p : PlatformPreset) : Z := GpuCount (pp_preset p).
Definition Architecture (p : PlatformPreset) : string := ArchitectureAmd64.

Record PlatformPresetLaunchSettings := {
  launch_PlatformPreset : PlatformPreset; launch_CapacityType : string; launch_Zone : string;
}.

(** ** Karpenter's requirements, instance types and offerings *)

(** [scheduling.Requirements]: built from a key and its allowed values each;
    [Values r k] is [r.Get(k).Values()]; [claim_reqs] is
    [NewNodeSelectorRequirementsWithMinValues]; [IsCompatible] is the method
    with [AllowUndefinedWellKnownLabels]. *)
Class Scheduling := {
  Requirements : Type;
  NewRequirements : list (string * list string) → Requirements;
  Values : Requirements → string → list string;
  claim_reqs : list NodeSelectorRequirement → Requirements;
  IsCompatible : Requirements → Requirements → bool;
}.

(** A key that occurs once has the values it was given. *)
Class SchedulingLaws `{Scheduling} := {
  values_law (l : list (string * list string)) k vs :
    NoDup (fst <$> l) → (k, vs) ∈ l → Values (NewRequirements l) k = vs;
}.

Section types.
Context `{SCH : Scheduling}.

Record Offering := { Price : spec_float; Available : bool; of_Requirements : Requirements }.
Record InstanceTypeOverhead := {
  KubeReserved : gmap string Z; SystemReserved : gmap string Z; EvictionThreshold : gmap string Z;
}.
Record InstanceType := {
  it_Name : string;
  it_Requirements : Requirements;
  it_Offerings : list Offering;
  it_Capacity : gmap string Z;
  it_Overhead : InstanceTypeOverhead;
}.
End types.

(** ** [offerings.go] *)

(** 1000.0 and [math.MaxFloat64]. *)
Definition defaultPrice : spec_float := S754_finite false 8796093022208000 (-43).
Definition MaxFloat64 : spec_float := S754_finite false 9007199254740991 971.

Record Prices := { OnDemand : spec_float; PreemptiblePrice : spec_float; Prices_Err : option error }.
Definition default_prices : Prices :=
  {| OnDemand := defaultPrice; PreemptiblePrice := defaultPrice; Prices_Err := None |}.

Record PriceKey := { PlatformName : string; PresetName : string; pk_OSDiskSizeGiB : Z }.
#[global] Instance PriceKey_eq_dec : EqDecision PriceKey.
Proof. solve_decision. Defined.
#[global] Instance PriceKey_countable : Countable PriceKey.
Proof.
  refine (inj_countable' (λ k, (PlatformName k, PresetName k, pk_OSDiskSizeGiB k))
    (λ '(a, b, c), {| PlatformName := a; PresetName := b; pk_OSDiskSizeGiB := c |}) _).
  by intros [].
Defined.

Inductive ResourceSpec :=
| ComputeInstanceSpec (parentID platform preset : string) (preemptible : bool)
| ComputeDiskSpec (parentID : string) (sizeGibibytes : Z).

Definition buildComputeInstanceResourceSpec (parentID : string) (p : PlatformPreset)
    (preemptible : bool) : ResourceSpec :=
  ComputeInstanceSpec parentID (platform_Name (pp_platform p)) (preset_Name (pp_preset p)) preemptible.
Definition buildComputeDiskResourceSpec (parentID : string) (sizeGiB : Z) : ResourceSpec :=
  ComputeDiskSpec parentID sizeGiB.

(** The Nebius API as it answers during one call: the platforms of a project,
    one by one with a possible error, and the rounded total cost of a batch. *)
Record Cloud := {
  Filter : string → list (error + Platform);
  EstimateBatch : list ResourceSpec → error + string;
}.

Definition price_key (osDiskSizeGiB : Z) (p : PlatformPreset) : PriceKey :=
  {| PlatformName := platform_Name (pp_platform p); PresetName := preset_Name (pp_preset p);
     pk_OSDiskSizeGiB := osDiskSizeGiB |}.

Section offerings.
Context `{SCH : Scheduling}.

Definition newOffering (capacityType zone : string) (price : spec_float) (available : bool) : Offering :=
  {| Price := price; Available := available;
     of_Requirements := NewRequirements
       [(CapacityTypeLabelKey, [capacityType]); (LabelTopologyZone, [zone])] |}.

Definition CreateOfferings (p : PlatformPreset) (region : string) (prices : Prices) : list Offering :=
  let available := match Prices_Err prices with None => true | Some _ => false end in
  newOffering CapacityTypeOnDemand region (OnDemand prices) available ::
  (if AllowedForPreemptibles p
   then [newOffering CapacityTypeSpot region (PreemptiblePrice prices) available] else []).
End offerings.

Section pricing.
(** [strconv.ParseFloat(s, 64)], and the order in which the concurrent lookups
    of one call store their prices. *)
Context (ParseFloat : string → option spec_float).
Context (completion : list PlatformPreset → list PlatformPreset).

Definition extractHourlyPrice (costRounded : string) : spec_float :=
  if bool_decide (costRounded = "") then defaultPrice
  else match ParseFloat costRounded with Some price => price | None => defaultPrice end.

(** The lookup of one preset: the on-demand price, then the preemptible one. *)
Definition price_preset (cloud : Cloud) (parentID : string) (osDiskSizeGiB : Z) (p : PlatformPreset)
    : Prices :=
  let diskSpec := buildComputeDiskResourceSpec parentID osDiskSizeGiB in
  match EstimateBatch cloud [buildComputeInstanceResourceSpec parentID p false; diskSpec] with
  | inl err => {| OnDemand := defaultPrice; PreemptiblePrice := defaultPrice; Prices_Err := Some err |}
  | inr onDemand =>
      let onDemand := extractHourlyPrice onDemand in
      if AllowedForPreemptibles p then
        match EstimateBatch cloud [buildComputeInstanceResourceSpec parentID p true; diskSpec] with
        | inl err => {| OnDemand := onDemand; PreemptiblePrice := defaultPrice; Prices_Err := Some err |}
        | inr preemptible => {| OnDemand := onDemand;
                                PreemptiblePrice := extractHourlyPrice preemptible;
                                Prices_Err := None |}
        end
      else {| OnDemand := onDemand; PreemptiblePrice := defaultPrice; Prices_Err := None |}
  end.

Definition GetPrices (cloud : Cloud) (parentID : string) (presets : list PlatformPreset)
    (osDiskSizeGiB : Z) : gmap PriceKey Prices :=
  foldl (λ prices p, <[price_key osDiskSizeGiB p := price_preset cloud parentID osDiskSizeGiB p]> prices)
    ∅ (completion presets).
End pricing.

(** ** [provider.go]: the key and the cache *)
Definition DefaultPerNodePodsCount : Z := 110.

Record NodeClassKey := {
  ProjectID : string; Region : string; OSDiskSizeGiB : Z; PerNodePodsCount : Z;
}.
#[global] Instance NodeClassKey_eq_dec : EqDecision NodeClassKey.
Proof. solve_decision. Defined.
#[global] Instance NodeClassKey_countable : Countable NodeClassKey.
Proof.
  refine (inj_countable' (λ k, (ProjectID k, Region k, OSDiskSizeGiB k, PerNodePodsCount k))
    (λ '(a, b, c, d), {| ProjectID := a; Region := b; OSDiskSizeGiB := c; PerNodePodsCount := d |}) _).
  by intros [].
Defined.

(** The LRU cache: [Get] may reorder it, [Add] may evict other entries. *)
Class LRU (V : Type) := {
  Cache : Type;
  lru_New : Cache;
  lru_Get : NodeClassKey → Cache → option V * Cache;
  lru_Add : NodeClassKey → V → Cache → Cache;
}.
Arguments Cache V {_}.

Class LRULaws (V : Type) `{LRU V} := {
  contents : Cache V → gmap NodeClassKey V;
  new_law : contents lru_New = ∅;
  get_law k c : (lru_Get k c).1 = contents c !! k ∧ contents (lru_Get k c).2 = contents c;
  add_law k v c : contents (lru_Add k v c) !! k = Some v;
  add_subset k v c : contents (lru_Add k v c) ⊆ <[k := v]> (contents c);
}.

(** ** [instancetype.go] *)
(** The label keys of the Azure provider. *)
Record AzureLabels := {
  LabelSKUCPU : string; LabelSKUMemory : string; AKSLabelCPU : string; AKSLabelMemory : string;
  LabelSKUGPUCount : string;
}.

Section instancetype.
Context `{SCH : Scheduling}.
(** [azinstancetype], the reservations of an AKS node, and the label keys of
    [azurev1beta1]. *)
Context (azurev1beta1 : AzureLabels) (KubeReservedResources : Z → Z → gmap string Z)
        (SystemReservedResources EvictionThreshold_ : gmap string Z).

(** The set of the values of the available offerings at a key. *)
Definition available_values (offerings : list Offering) (key : string) : gset string :=
  list_to_set (o ← offerings; if Available o then Values (of_Requirements o) key else []).

(** [memoryMIB] is the memory in thousandths of a byte. *)
Definition computeRequirements (region : string) (p : PlatformPreset) (offerings : list Offering)
    : Requirements :=
  let vCPUCount := Itoa (VCPUCount p) in
  let memoryMIB := Itoa (MemoryGiB p * 1000) in
  let gpuCount := Itoa (NvidiaGPUCount p) in
  NewRequirements
    [(LabelInstanceTypeStable, [InstanceTypeName p]);
     (LabelTopologyZone, elements (available_values offerings LabelTopologyZone));
     (LabelTopologyRegion, [region]);
     (LabelOSStable, ["linux"]);
     (LabelArchStable, [Architecture p]);
     (CapacityTypeLabelKey, elements (available_values offerings CapacityTypeLabelKey));
     (LabelSKUCPU azurev1beta1, [vCPUCount]);
     (LabelSKUMemory azurev1beta1, [memoryMIB]);
     (AKSLabelCPU azurev1beta1, [vCPUCount]);
     (AKSLabelMemory azurev1beta1, [memoryMIB]);
     (LabelSKUGPUCount azurev1beta1, [gpuCount])].

Definition computeCapacity (key : NodeClassKey) (p : PlatformPreset) : gmap string Z :=
  {[ ResourceCPU := VCPUCount p;
     ResourceMemory := MemoryGiB p;
     ResourceEphemeralStorage := Giga (OSDiskSizeGiB key);
     ResourcePods := PerNodePodsCount key;
     "nvidia.com/gpu" := NvidiaGPUCount p ]}.

Definition computeOverhead (p : PlatformPreset) : InstanceTypeOverhead :=
  {| KubeReserved := KubeReservedResources (VcpuCount (pp_preset p)) (MemoryGibibytes (pp_preset p));
     SystemReserved := SystemReservedResources; EvictionThreshold := EvictionThreshold_ |}.

Definition NewInstanceType (key : NodeClassKey) (p : PlatformPreset) (offerings : list Offering)
    : InstanceType :=
  {| it_Name := InstanceTypeName p;
     it_Requirements := computeRequirements (Region key) p offerings;
     it_Offerings := offerings;
     it_Capacity := computeCapacity key p;
     it_Overhead := computeOverhead p |}.
End instancetype.

(** ** [provider.go] *)
Record cachedEntry `{Scheduling} := {
  ce_instanceTypes : list InstanceType; ce_presets : list PlatformPreset;
}.

Section provider.
Context `{SCH : Scheduling} `{LR : LRU cachedEntry}.
Context (ParseFloat : string → option spec_float).
Context (completion : list PlatformPreset → list PlatformPreset).
Context (azurev1beta1 : AzureLabels) (KubeReservedResources : Z → Z → gmap string Z)
        (SystemReservedResources EvictionThreshold_ : gmap string Z).

(** The state of the provider; the stop channel is open or closed. *)
Record Provider := {
  cache : Cache cachedEntry;
  activeKeys : gset NodeClassKey;
  stopped : bool;
}.

Definition newProvider : Provider := {| cache := lru_New; activeKeys := ∅; stopped := false |}.

Definition set_cache (c : Cache cachedEntry) (op : Provider) : Provider :=
  {| cache := c; activeKeys := activeKeys op; stopped := stopped op |}.

(** Closing a closed channel panics. *)
Definition Stop : M Provider () := λ op,
  if stopped op then (Panic "close of closed channel", op)
  else (Ok (), {| cache := cache op; activeKeys := activeKeys op; stopped := true |}).

Definition cache_Get (key : NodeClassKey) : M Provider (option cachedEntry) := λ op,
  let '(v, c) := lru_Get key (cache op) in (Ok v, set_cache c op).
Definition cache_Add (key : NodeClassKey) (entry : cachedEntry) : M Provider () :=
  modify (λ op, set_cache (lru_Add key entry (cache op)) op).
Definition trackKey (key : NodeClassKey) : M Provider () :=
  modify (λ op, {| cache := cache op; activeKeys := {[ key ]} ∪ activeKeys op; stopped := stopped op |}).

(** The pairs of the platforms of a project, up to the first error. *)
Fixpoint collect_presets (platforms : list (error + Platform)) : res (list PlatformPreset) :=
  match platforms with
  | [] => Ok []
  | inl err :: _ => Err err
  | inr platform :: platforms =>
      presets ← collect_presets platforms;
      Ok ((NewPlatformPreset platform <$> Presets platform) ++ presets)
  end.
Definition listPlatformPresets (cloud : Cloud) (projectID : string) : res (list PlatformPreset) :=
  collect_presets (Filter cloud projectID).

(** A preset without a price gets the default one. *)
Definition instance_type (key : NodeClassKey) (prices : gmap PriceKey Prices) (p : PlatformPreset)
    : InstanceType :=
  NewInstanceType azurev1beta1 KubeReservedResources SystemReservedResources EvictionThreshold_ key p
    (CreateOfferings p (Region key)
       (default default_prices (prices !! price_key (OSDiskSizeGiB key) p))).

Definition resolve (cloud : Cloud) (key : NodeClassKey) : res cachedEntry :=
  match listPlatformPresets cloud (ProjectID key) with
  | Err err => Err (Errorf "listing platform presets for project %q: %w" [ProjectID key] [err])
  | Panic p => Panic p
  | Ok presets =>
      match presets with
      | [] => Ok {| ce_instanceTypes := []; ce_presets := [] |}
      | _ =>
          let prices := GetPrices ParseFloat completion cloud (ProjectID key) presets (OSDiskSizeGiB key) in
          Ok {| ce_instanceTypes := instance_type key prices <$> presets; ce_presets := presets |}
      end
  end.

Definition getOrResolveCachedEntry (cloud : Cloud) (key : NodeClassKey) : M Provider cachedEntry :=
  cached ← cache_Get key;
  match cached with
  | Some entry => mret entry
  | None =>
      entry ← lift (resolve cloud key);
      _ ← cache_Add key entry;
      _ ← trackKey key;
      mret entry
  end.

Definition GetInstanceTypes (cloud : Cloud) (key : NodeClassKey) : M Provider (list InstanceType) :=
  entry ← getOrResolveCachedEntry cloud key;
  mret (ce_instanceTypes entry).

Definition find_instance_type (name : string) (its : list InstanceType) : option InstanceType :=
  snd <$> list_find (λ it, it_Name it = name) its.

Definition GetInstanceTypeByPlatformPreset (cloud : Cloud) (key : NodeClassKey) (preset : PlatformPreset)
    : M Provider InstanceType :=
  cached ← cache_Get key;
  match cached ≫= λ entry, find_instance_type (InstanceTypeName preset) (ce_instanceTypes entry) with
  | Some it => mret it
  | None =>
      let prices := GetPrices ParseFloat completion cloud (ProjectID key) [preset] (OSDiskSizeGiB key) in
      mret (instance_type key prices preset)
  end.

Definition getCachedOrListPresets (cloud : Cloud) (key : NodeClassKey)
    : M Provider (list PlatformPreset) :=
  cached ← cache_Get key;
  match cached with
  | Some entry => mret (ce_presets entry)
  | None => lift (listPlatformPresets cloud (ProjectID key))
  end.

Definition GetPlatformPreset (cloud : Cloud) (key : NodeClassKey) (platformName presetName : string)
    : M Provider PlatformPreset :=
  let instanceTypeName := platformName +:+ "-" +:+ presetName in
  presets ← getCachedOrListPresets cloud key;
  match list_find (λ p, InstanceTypeName p = instanceTypeName) presets with
  | Some (_, p) => mret p
  | None => fail (Errorf "platform preset %q not found in project %q"
                    [instanceTypeName; ProjectID key] [])
  end.

(** *** The choice of a preset *)

(** The best preset, offering and price so far. *)
Definition best : Type := option PlatformPreset * option Offering * spec_float.

Definition offering_step (requirements : Requirements) (preset : option PlatformPreset)
    (b : best) (o : Offering) : best :=
  if negb (Available o) then b
  else if negb (IsCompatible requirements (of_Requirements o)) then b
  else if SFltb (Price o) b.2 then (preset, Some o, Price o)
  else b.

Definition type_step (requirements : Requirements) (requestedNames : gset string)
    (presetByName : gmap string PlatformPreset) (b : best) (it : InstanceType) : best :=
  if bool_decide (it_Name it ∉ requestedNames) then b
  else foldl (offering_step requirements (presetByName !! it_Name it)) b (it_Offerings it).

Definition preset_index (presets : list PlatformPreset) : gmap string PlatformPreset :=
  foldl (λ m p, <[InstanceTypeName p := p]> m) ∅ presets.

Definition find_best (requirements : Requirements) (requestedNames : gset string) (entry : cachedEntry)
    : best :=
  foldl (type_step requirements requestedNames (preset_index (ce_presets entry)))
    (None, None, MaxFloat64) (ce_instanceTypes entry).

Definition first_value (r : Requirements) (key fallback : string) : string :=
  match Values r key with v :: _ => v | [] => fallback end.

Definition ResolvePlatformPresetFromNodeClaim (cloud : Cloud) (key : NodeClassKey) (nodeClaim : NodeClaim)
    : M Provider PlatformPresetLaunchSettings :=
  let requirements := claim_reqs (nc_Requirements nodeClaim) in
  let requestedNames : gset string := list_to_set (Values requirements LabelInstanceTypeStable) in
  if bool_decide (requestedNames = ∅) then
    fail (Errorf "nodeClaim has no instance type requirements" [] [])
  else
    entry ← wrapf "resolving instance types: %w" [] (getOrResolveCachedEntry cloud key);
    match find_best requirements requestedNames entry with
    | (Some bestPreset, Some bestOffering, _) =>
        mret {| launch_PlatformPreset := bestPreset;
                launch_CapacityType :=
                  first_value (of_Requirements bestOffering) CapacityTypeLabelKey CapacityTypeOnDemand;
                launch_Zone :=
                  first_value (of_Requirements bestOffering) LabelTopologyZone (Region key) |}
    | _ => fail (Errorf "no matching available platform preset found for nodeClaim requirements" [] [])
    end.

(** *** Background refresh *)

(** The active keys, one after the other; a failure keeps the cached entry. *)
Definition refresh_key (cloud : Cloud) (key : NodeClassKey) : M Provider () :=
  match resolve cloud key with
  | Ok entry => cache_Add key entry
  | Err _ => mret ()
  | Panic p => panic p
  end.
Definition refreshAll (cloud : Cloud) : M Provider () :=
  op ← get_world;
  for_each (refresh_key cloud) (elements (activeKeys op)).
End provider.

(** ** Lemmas *)

Lemma SFltb_trans a b c : SFltb a b = true → SFltb b c = true → SFltb a c = true.
Proof.
  unfold SFltb, SFcompare.
  destruct a as [sa|sa| |sa ma ea], b as [sb|sb| |sb mb eb], c as [sc|sc| |sc mc ec];
    try destruct sa; try destruct sb; try destruct sc; try done;
    destruct (Z.compare_spec ea eb), (Z.compare_spec eb ec); try done; subst;
    repeat match goal with
    | |- context [(?x ?= ?y)%positive] => destruct (Pos.compare_spec x y)
    | |- context [?x ?= ?y] => destruct (Z.compare_spec x y)
    end; simpl; intros; try done; try (subst; lia);
    change (PosDef.Pos.compare_cont Eq) with Pos.compare in *;
    destruct (Pos.compare_spec ma mb), (Pos.compare_spec mb mc), (Pos.compare_spec ma mc);
    simpl in *; try done; lia.
Qed.

Lemma SFltb_irrefl a : SFltb a a = false.
Proof.
  unfold SFltb, SFcompare. destruct a as [s|s| |s m e]; try destruct s; try done;
    by rewrite Z.compare_refl, Pos.compare_refl.
Qed.

(** A fold of insertions holds, at each key inserted, the value of an element
    with that key. *)
Lemma foldl_insert {A K V} `{Countable K} (key : A → K) (val : A → V) (l : list A) (m : gmap K V) k :
  (∃ x, x ∈ l ∧ key x = k ∧ foldl (λ m x, <[key x := val x]> m) m l !! k = Some (val x)) ∨
  ((∀ x, x ∈ l → key x ≠ k) ∧ foldl (λ m x, <[key x := val x]> m) m l !! k = m !! k).
Proof.
  revert m. induction l as [|x l IH]; intros m; [right; split; [|done]; intros x H'; by inv H'|].
  simpl. destruct (IH (<[key x := val x]> m)) as [(y & Hy & Hk & Hl)|[Hno Hl]].
  - left. exists y. split_and!; [by right|done|done].
  - rewrite Hl. destruct (decide (key x = k)) as [<-|Hne].
    + left. exists x. rewrite lookup_insert_eq. split_and!; [left|done|done].
    + right. rewrite lookup_insert_ne by done. split; [|done].
      intros y [->|Hy]%elem_of_cons; [done|by apply Hno].
Qed.

Section lemmas.
Context `{SCH : Scheduling}.

(** The candidates of a choice, in the order they are seen. *)
Definition candidates (requirements : Requirements) (requestedNames : gset string) (entry : cachedEntry)
    : list (option PlatformPreset * Offering) :=
  it ← ce_instanceTypes entry;
  if bool_decide (it_Name it ∉ requestedNames) then []
  else (λ o, (preset_index (ce_presets entry) !! it_Name it, o)) <$>
         filter (λ o, Available o && IsCompatible requirements (of_Requirements o)) (it_Offerings it).

Lemma elem_of_candidates requirements names entry c :
  c ∈ candidates requirements names entry ↔
  ∃ it, it ∈ ce_instanceTypes entry ∧ it_Name it ∈ names ∧ c.2 ∈ it_Offerings it ∧
        Available c.2 = true ∧ IsCompatible requirements (of_Requirements c.2) = true ∧
        c.1 = preset_index (ce_presets entry) !! it_Name it.
Proof.
  unfold candidates. rewrite list_elem_of_bind. split.
  - intros (it & Hc & Hit). case_bool_decide as Hn; [by inv Hc|].
    apply list_elem_of_fmap in Hc as (o & -> & [Ho Hin]%list_elem_of_filter).
    apply andb_prop_elim in Ho as [Ha Hco]. exists it. simpl.
    split_and!; [done|first [done|by apply dec_stable]|done|by apply Is_true_eq_true|by apply Is_true_eq_true|done].
  - intros (it & Hit & Hn & Ho & Ha & Hco & Hc). exists it. split; [|done].
    rewrite bool_decide_eq_false_2 by (intros H; by apply H).
    apply list_elem_of_fmap. exists c.2. destruct c as [p o]. simpl in *. subst p. split; [done|].
    apply list_elem_of_filter. by rewrite Ha, Hco.
Qed.

(** The index has every name, with a preset of that name. *)
Lemma preset_index_total p presets :
  p ∈ presets → ∃ p', p' ∈ presets ∧ InstanceTypeName p' = InstanceTypeName p ∧
                      preset_index presets !! InstanceTypeName p = Some p'.
Proof.
  intros Hp. unfold preset_index.
  destruct (foldl_insert InstanceTypeName (λ p, p) presets ∅ (InstanceTypeName p))
    as [(p' & Hin & Hn & Hl)|[Hno _]]; [by exists p'|]. by destruct (Hno p).
Qed.

Definition pick (b : best) (c : option PlatformPreset * Offering) : best :=
  if SFltb (Price c.2) b.2 then (c.1, Some c.2, Price c.2) else b.

Lemma offering_fold requirements preset b os :
  foldl (offering_step requirements preset) b os =
  foldl pick b ((λ o, (preset, o)) <$>
    filter (λ o, Available o && IsCompatible requirements (of_Requirements o)) os).
Proof.
  revert b. induction os as [|o os IH]; intros b; [done|]. rewrite filter_cons. simpl.
  rewrite IH. unfold offering_step, pick.
  by destruct (Available o), (IsCompatible _ _); simpl.
Qed.

Lemma find_best_candidates requirements names entry :
  find_best requirements names entry =
  foldl pick (None, None, MaxFloat64) (candidates requirements names entry).
Proof.
  unfold find_best, candidates. generalize ((None, None, MaxFloat64) : best).
  generalize (preset_index (ce_presets entry)) as idx. intros idx.
  induction (ce_instanceTypes entry) as [|it its IH]; intros b; [done|].
  simpl. rewrite IH. unfold type_step. rewrite foldl_app.
  case_bool_decide; [done|]. by rewrite offering_fold.
Qed.

(** The fold keeps the first cheapest candidate below the initial price. *)
Lemma pick_spec b l :
  (foldl pick b l = b ∧ ∀ c, c ∈ l → SFltb (Price c.2) b.2 = false) ∨
  (∃ c, c ∈ l ∧ foldl pick b l = (c.1, Some c.2, Price c.2) ∧ SFltb (Price c.2) b.2 = true ∧
        ∀ c', c' ∈ l → SFltb (Price c'.2) (Price c.2) = false).
Proof.
  revert b. induction l as [|c l IH]; intros b; [left; split; [done|]; intros c H; by inv H|].
  change (foldl pick b (c :: l)) with (foldl pick (pick b c) l).
  destruct (SFltb (Price c.2) b.2) eqn:E; unfold pick at 2 4; rewrite E.
  - right. destruct (IH (c.1, Some c.2, Price c.2)) as [[-> Hmin]|(c' & Hin & -> & Hlt & Hmin)].
    + exists c. split_and!; [left|done|done|]. intros c' [->|Hc']%elem_of_cons; [|by apply Hmin].
      apply SFltb_irrefl.
    + exists c'. split_and!; [by right|done|by exact (SFltb_trans _ _ _ Hlt E)|].
      intros c'' [->|Hc'']%elem_of_cons; [|by apply Hmin].
      destruct (SFltb (Price c.2) (Price c'.2)) eqn:E'; [|done].
      assert (SFltb (Price c.2) (Price c.2) = true) as H by (by eapply SFltb_trans).
      by rewrite SFltb_irrefl in H.
  - destruct (IH b) as [[-> Hmin]|(c' & Hin & -> & Hlt & Hmin)].
    + left. split; [done|]. intros c' [->|Hc']%elem_of_cons; [done|by apply Hmin].
    + right. exists c'. split_and!; [by right|done|done|].
      intros c'' [->|Hc'']%elem_of_cons; [|by apply Hmin].
      destruct (SFltb (Price c.2) (Price c'.2)) eqn:E'; [|done].
      exfalso. rewrite (SFltb_trans _ _ _ E' Hlt) in E. done.
Qed.
End lemmas.

Section properties.
Context `{SCH : Scheduling} `{LR : LRU cachedEntry}.
Context (ParseFloat : string → option spec_float).
Context (completion : list PlatformPreset → list PlatformPreset).
Context (azurev1beta1 : AzureLabels) (KubeReservedResources : Z → Z → gmap string Z)
        (SystemReservedResources EvictionThreshold_ : gmap string Z).

Notation GetPrices := (GetPrices ParseFloat completion).
Notation price_preset := (price_preset ParseFloat).
Notation resolve :=
  (resolve ParseFloat completion azurev1beta1 KubeReservedResources SystemReservedResources EvictionThreshold_).
Notation instance_type :=
  (instance_type azurev1beta1 KubeReservedResources SystemReservedResources EvictionThreshold_).
Notation getOrResolveCachedEntry := (getOrResolveCachedEntry ParseFloat completion azurev1beta1
  KubeReservedResources SystemReservedResources EvictionThreshold_).
Notation Resolve := (ResolvePlatformPresetFromNodeClaim ParseFloat completion azurev1beta1
  KubeReservedResources SystemReservedResources EvictionThreshold_).
Notation refresh_key := (refresh_key ParseFloat completion azurev1beta1 KubeReservedResources
  SystemReservedResources EvictionThreshold_).
Notation refreshAll := (refreshAll ParseFloat completion azurev1beta1 KubeReservedResources
  SystemReservedResources EvictionThreshold_).
Notation GetInstanceTypes := (GetInstanceTypes ParseFloat completion azurev1beta1
  KubeReservedResources SystemReservedResources EvictionThreshold_).
Notation GetInstanceTypeByPlatformPreset := (GetInstanceTypeByPlatformPreset ParseFloat completion
  azurev1beta1 KubeReservedResources SystemReservedResources EvictionThreshold_).

(** ** Prices *)

Context (completion_perm : ∀ l, completion l ≡ₚ l).

(** Whatever the order in which the concurrent lookups finish, every preset
    gets a price, and its own one when the platform and preset names of the
    presets are distinct. *)
Theorem GetPrices_total (cloud : Cloud) (parentID : string) (presets : list PlatformPreset)
    (size : Z) (p : PlatformPreset) :
  p ∈ presets →
  (∃ p', p' ∈ presets ∧ price_key size p' = price_key size p ∧
         GetPrices cloud parentID presets size !! price_key size p
         = Some (price_preset cloud parentID size p')) ∧
  (NoDup (price_key size <$> presets) →
   GetPrices cloud parentID presets size !! price_key size p
   = Some (price_preset cloud parentID size p)).
Proof using completion_perm.
  intros Hp. unfold InstanceTypes.GetPrices.
  destruct (foldl_insert (price_key size) (price_preset cloud parentID size) (completion presets) ∅
              (price_key size p)) as [(p' & Hin & Hk & Hl)|[Hno _]].
  - rewrite completion_perm in Hin. split; [by exists p'|]. intros Hnd. rewrite Hl. repeat f_equal.
    apply list_elem_of_lookup in Hp as [i Hi], Hin as [j Hj].
    assert (i = j) as <-.
    { eapply NoDup_lookup; [exact Hnd|rewrite list_lookup_fmap, Hi; done|].
      by rewrite list_lookup_fmap, Hj, <-Hk. }
    congruence.
  - destruct (Hno p); [by rewrite completion_perm|done].
Qed.

(** What a successful resolution holds. *)
Definition entry_wf (key : NodeClassKey) (entry : cachedEntry) : Prop :=
  ∃ prices, ce_instanceTypes entry = instance_type key prices <$> ce_presets entry.

Lemma resolve_wf cloud key entry : resolve cloud key = Ok entry → entry_wf key entry.
Proof using Type.
  unfold InstanceTypes.resolve. destruct (listPlatformPresets _ _) as [[|p ps]|e|]; [..|done|done].
  - intros [= <-]. by exists ∅.
  - intros [= <-]. by eexists.
Qed.

Lemma resolve_no_panic cloud key p : resolve cloud key ≠ Panic p.
Proof using Type.
  unfold InstanceTypes.resolve, listPlatformPresets.
  assert (∀ l, collect_presets l ≠ Panic p) as H.
  { induction l as [|[e|x] l IH]; [done|done|]. simpl. by destruct (collect_presets l). }
  specialize (H (Filter cloud (ProjectID key))).
  destruct (collect_presets _) as [[|? ?]| |]; congruence.
Qed.

(** A resolution that succeeds gives one instance type per preset of the
    project, on-demand always offered and spot exactly when the platform allows
    it, in the zone of the region; an offering is available exactly when the
    billing calls of its preset succeeded, with the price they gave. *)
Theorem resolve_offerings (cloud : Cloud) (key : NodeClassKey) (entry : cachedEntry) (p : PlatformPreset) :
  resolve cloud key = Ok entry →
  NoDup (price_key (OSDiskSizeGiB key) <$> ce_presets entry) →
  p ∈ ce_presets entry →
  let price := price_preset cloud (ProjectID key) (OSDiskSizeGiB key) p in
  let available := bool_decide (Prices_Err price = None) in
  listPlatformPresets cloud (ProjectID key) = Ok (ce_presets entry) ∧
  length (ce_instanceTypes entry) = length (ce_presets entry) ∧
  ∃ it, it ∈ ce_instanceTypes entry ∧ it_Name it = InstanceTypeName p ∧
    it_Offerings it =
      newOffering CapacityTypeOnDemand (Region key) (OnDemand price) available ::
      (if AllowedForPreemptibles p
       then [newOffering CapacityTypeSpot (Region key) (PreemptiblePrice price) available] else []).
Proof using completion_perm.
  intros Hr Hnd Hp price available. revert Hr. unfold InstanceTypes.resolve.
  destruct (listPlatformPresets cloud (ProjectID key)) as [l|e|] eqn:El; [|done|done].
  destruct l as [|p0 ps]; [intros [= <-]; by inv Hp|]. intros [= <-]. simpl in Hp, Hnd |- *.
  rewrite length_fmap. split; [done|]. split; [done|].
  eexists. split; [apply (list_elem_of_fmap_2 _ (p0 :: ps)), Hp|]. split; [done|]. simpl.
  destruct (GetPrices_total cloud (ProjectID key) (p0 :: ps) (OSDiskSizeGiB key) p Hp) as [_ Hprice].
  rewrite (Hprice Hnd). unfold CreateOfferings. simpl. fold price. unfold available.
  destruct (Prices_Err price) as [e|] eqn:Ee.
  - by rewrite bool_decide_eq_false_2.
  - by rewrite bool_decide_eq_true_2.
Qed.

(** ** The cache *)
Context {LL : LRULaws cachedEntry}.

(** Every cached entry is one of its key's resolutions, and every cached key is
    refreshed. *)
Definition provider_ok (op : Provider) : Prop :=
  (∀ k e, contents (cache op) !! k = Some e → entry_wf k e) ∧
  dom (contents (cache op)) ⊆ activeKeys op.

Lemma run_Get key op :
  ∃ op', cache_Get key op = (Ok (contents (cache op) !! key), op') ∧
         contents (cache op') = contents (cache op) ∧ activeKeys op' = activeKeys op ∧
         stopped op' = stopped op.
Proof using LL.
  unfold cache_Get. destruct (get_law key (cache op)) as [Hg Hc].
  destruct (lru_Get key (cache op)) as [v c]. simpl in Hg, Hc. subst v.
  by exists (set_cache c op).
Qed.

Lemma add_entry k k' (v e : cachedEntry) c :
  contents (lru_Add k v c) !! k' = Some e → (k' = k ∧ e = v) ∨ (k' ≠ k ∧ contents c !! k' = Some e).
Proof using LL.
  intros H. pose proof (lookup_weaken _ _ _ _ H (add_subset k v c)) as H'.
  apply lookup_insert_Some in H' as [[-> ->]|[Hne H']]; auto.
Qed.

(** The entry of a key: the cached one, without a call to the cloud, or the
    resolved one, which is then cached. *)
Lemma getOrResolve_run cloud key op :
  ∃ op', getOrResolveCachedEntry cloud key op =
    (match contents (cache op) !! key with Some e => Ok e | None => resolve cloud key end, op') ∧
    (∀ e, contents (cache op) !! key = Some e → contents (cache op') = contents (cache op)) ∧
    (contents (cache op) !! key = None → ∀ e, resolve cloud key = Ok e →
       contents (cache op') !! key = Some e) ∧
    (provider_ok op → provider_ok op').
Proof using LL.
  unfold InstanceTypes.getOrResolveCachedEntry.
  destruct (run_Get key op) as (op1 & Hg & Hc & Ha & _).
  rewrite (M_bind_Ok _ _ _ _ _ Hg). unfold provider_ok. rewrite <-Hc, <-Ha.
  destruct (contents (cache op1) !! key) as [e|] eqn:E; [by exists op1|].
  destruct (resolve cloud key) as [e|err|pn] eqn:Er; [|by exists op1..].
  eexists. split; [reflexivity|]. simpl. split; [done|]. split.
  - intros _ e' [= <-]. apply add_law.
  - intros [Hwf Hdom]. split.
    + intros k e' [[-> ->]|[_ H]]%add_entry; [by eapply resolve_wf|by eapply Hwf].
    + intros k [e' [[-> ->]|[_ H]]%add_entry]%elem_of_dom; [by apply elem_of_union_l, elem_of_singleton|].
      apply elem_of_union_r, Hdom, elem_of_dom. by exists e'.
Qed.

Lemma refresh_key_run cloud key op :
  ∃ op', refresh_key cloud key op = (Ok (), op') ∧ activeKeys op' = activeKeys op ∧
    (∀ k e, contents (cache op') !! k = Some e →
      (k = key ∧ resolve cloud key = Ok e) ∨
      ((k = key → is_Err (resolve cloud key)) ∧ contents (cache op) !! k = Some e)).
Proof using LL.
  unfold InstanceTypes.refresh_key. destruct (resolve cloud key) as [e|err|pn] eqn:Er.
  - eexists. split; [reflexivity|]. split; [done|]. simpl.
    intros k e' [[-> ->]|[Hne H]]%add_entry; [by left|right; by split].
  - exists op. split_and!; [done|done|]. intros k e H. right. by split.
  - by apply resolve_no_panic in Er.
Qed.

(** A cached key is answered from the cache whatever the cloud says, and the
    cache is not changed; an uncached one is resolved, and cached when that
    succeeds. *)
Theorem GetInstanceTypes_cached (cloud : Cloud) (key : NodeClassKey) (op : Provider) :
  ∃ op', GetInstanceTypes cloud key op =
    (ce_instanceTypes <$> match contents (cache op) !! key with
                          | Some e => Ok e
                          | None => resolve cloud key
                          end, op') ∧
    (∀ e, contents (cache op) !! key = Some e → contents (cache op') = contents (cache op)) ∧
    (contents (cache op) !! key = None → ∀ e, resolve cloud key = Ok e →
       ∀ cloud', ∃ op'', GetInstanceTypes cloud' key op' = (Ok (ce_instanceTypes e), op'')).
Proof using LL.
  destruct (getOrResolve_run cloud key op) as (op' & Hrun & Hhit & Hmiss & _).
  exists op'. split_and!; [|done|].
  - unfold InstanceTypes.GetInstanceTypes. unfold mbind, M_bind. rewrite Hrun.
    by destruct (match contents _ !! _ with Some _ => _ | None => _ end).
  - intros Hnone e He cloud'. destruct (getOrResolve_run cloud' key op') as (op'' & Hrun' & _).
    rewrite (Hmiss Hnone e He) in Hrun'. exists op''. unfold InstanceTypes.GetInstanceTypes.
    by rewrite (M_bind_Ok _ _ _ _ _ Hrun').
Qed.

(** C7: the choice for a node claim.  With the entry of its key, the result is a
    preset of the project, requested by name, of an available compatible
    offering such that no other one is cheaper; the capacity type and zone are
    the offering's.  It fails exactly when no such offering is cheaper than the
    largest double. *)
Theorem resolve_platform_cheapest (cloud : Cloud) (key : NodeClassKey) (claim : NodeClaim)
    (op op1 : Provider) (entry : cachedEntry) :
  let reqs := claim_reqs (nc_Requirements claim) in
  let names : gset string := list_to_set (Values reqs LabelInstanceTypeStable) in
  getOrResolveCachedEntry cloud key op = (Ok entry, op1) → entry_wf key entry → names ≠ ∅ →
  (∃ it o preset, Resolve cloud key claim op =
      (Ok {| launch_PlatformPreset := preset;
             launch_CapacityType :=
               first_value (of_Requirements o) CapacityTypeLabelKey CapacityTypeOnDemand;
             launch_Zone := first_value (of_Requirements o) LabelTopologyZone (Region key) |}, op1) ∧
     preset ∈ ce_presets entry ∧ it ∈ ce_instanceTypes entry ∧ it_Name it = InstanceTypeName preset ∧
     it_Name it ∈ names ∧ o ∈ it_Offerings it ∧ Available o = true ∧
     IsCompatible reqs (of_Requirements o) = true ∧
     ∀ it' o', it' ∈ ce_instanceTypes entry → it_Name it' ∈ names → o' ∈ it_Offerings it' →
       Available o' = true → IsCompatible reqs (of_Requirements o') = true →
       SFltb (Price o') (Price o) = false) ∨
  (is_Err (Resolve cloud key claim op).1 ∧
   ∀ it' o', it' ∈ ce_instanceTypes entry → it_Name it' ∈ names → o' ∈ it_Offerings it' →
     Available o' = true → IsCompatible reqs (of_Requirements o') = true →
     SFltb (Price o') MaxFloat64 = false).
Proof using Type.
  intros reqs names Hrun [prices Hwf] Hne.
  assert (∀ it o, it ∈ ce_instanceTypes entry → it_Name it ∈ names → o ∈ it_Offerings it →
    Available o = true → IsCompatible reqs (of_Requirements o) = true →
    (preset_index (ce_presets entry) !! it_Name it, o) ∈ candidates reqs names entry) as Hcand.
  { intros it o ?????. apply elem_of_candidates. by exists it. }
  unfold ResolvePlatformPresetFromNodeClaim. fold reqs. fold names.
  rewrite bool_decide_eq_false_2 by done.
  rewrite (M_bind_Ok _ _ _ _ _ (wrapf_Ok _ _ _ _ _ _ Hrun)).
  rewrite find_best_candidates.
  destruct (pick_spec (None, None, MaxFloat64) (candidates reqs names entry))
    as [[-> Hmin]|(c & Hin & -> & Hlt & Hmin)].
  - right. split; [done|]. intros it o Hit Hn Ho Ha Hc.
    apply (Hmin _ (Hcand it o Hit Hn Ho Ha Hc)).
  - left. apply elem_of_candidates in Hin as (it & Hit & Hn & Ho & Ha & Hc & Hpre).
    assert (∃ preset, preset ∈ ce_presets entry ∧ InstanceTypeName preset = it_Name it ∧
              preset_index (ce_presets entry) !! it_Name it = Some preset) as (preset & Hp & Hpn & Hidx).
    { rewrite Hwf in Hit. apply list_elem_of_fmap in Hit as (p & -> & Hp).
      apply preset_index_total, Hp. }
    exists it, c.2, preset. rewrite Hpre, Hidx. simpl.
    split_and!; try done. intros it' o' Hit' Hn' Ho' Ha' Hc'.
    apply (Hmin _ (Hcand it' o' Hit' Hn' Ho' Ha' Hc')).
Qed.

(** ** Steps of the provider *)

Inductive step : Provider → Provider → Prop :=
| step_types cloud key op : step op (GetInstanceTypes cloud key op).2
| step_type cloud key p op : step op (GetInstanceTypeByPlatformPreset cloud key p op).2
| step_preset cloud key platform preset op : step op (GetPlatformPreset cloud key platform preset op).2
| step_choose cloud key claim op : step op (Resolve cloud key claim op).2
| step_refresh cloud op : step op (refreshAll cloud op).2
| step_stop op : step op (Stop op).2.

Lemma preserves_Get key : preserves provider_ok (cache_Get key).
Proof using LL.
  intros op H. destruct (run_Get key op) as (op' & -> & Hc & Ha & _). unfold provider_ok. simpl.
  by rewrite Hc, Ha.
Qed.

Lemma preserves_getOrResolve cloud key : preserves provider_ok (getOrResolveCachedEntry cloud key).
Proof using LL. intros op H. destruct (getOrResolve_run cloud key op) as (op' & -> & _ & _ & Hk). by apply Hk. Qed.

Lemma refreshAll_run cloud op keys :
  ∃ op', for_each (refresh_key cloud) keys op = (Ok (), op') ∧ activeKeys op' = activeKeys op ∧
    (∀ k e, contents (cache op') !! k = Some e →
      (k ∈ keys ∧ resolve cloud k = Ok e) ∨
      ((k ∈ keys → is_Err (resolve cloud k)) ∧ contents (cache op) !! k = Some e)).
Proof using LL.
  revert op. induction keys as [|key keys IH]; intros op.
  - exists op. split_and!; [done|done|]. intros k e H. right. split; [|done]. intros Hk. by inv Hk.
  - destruct (refresh_key_run cloud key op) as (op1 & Hr & Ha & Hc).
    destruct (IH op1) as (op2 & Hf & Ha2 & Hc2). exists op2. simpl.
    rewrite (M_bind_Ok _ _ _ _ _ Hr). split_and!; [done|by rewrite Ha2|].
    intros k e [[Hin He]|[Hno H]]%Hc2; [left; split; [by right|done]|].
    destruct (Hc k e H) as [[-> He]|[Hne H']]; [left; split; [left|done]|].
    right. split; [|done]. intros [->|Hin]%elem_of_cons; [by apply Hne|by apply Hno].
Qed.

Lemma refreshAll_failing cloud keys op :
  (∀ k, k ∈ keys → is_Err (resolve cloud k)) → for_each (refresh_key cloud) keys op = (Ok (), op).
Proof using Type.
  revert op. induction keys as [|key keys IH]; intros op H; [done|]. simpl.
  assert (refresh_key cloud key op = (Ok (), op)) as Hk.
  { unfold InstanceTypes.refresh_key. specialize (H key (list_elem_of_here _ _)).
    by destruct (resolve cloud key). }
  rewrite (M_bind_Ok _ _ _ _ _ Hk). apply IH. intros k Hin. apply H. by right.
Qed.

Lemma refreshAll_ok cloud op :
  provider_ok op →
  ∃ op', refreshAll cloud op = (Ok (), op') ∧ activeKeys op' = activeKeys op ∧ provider_ok op' ∧
    (∀ k e, contents (cache op') !! k = Some e →
       resolve cloud k = Ok e ∨
       (is_Err (resolve cloud k) ∧ contents (cache op) !! k = Some e)).
Proof using LL.
  intros [Hwf Hdom]. unfold InstanceTypes.refreshAll.
  destruct (refreshAll_run cloud op (elements (activeKeys op))) as (op' & Hr & Ha & Hc).
  exists op'. rewrite (M_bind_Ok _ _ _ op op) by done.
  assert (∀ k e, contents (cache op) !! k = Some e → k ∈ elements (activeKeys op)) as Hin.
  { intros k e He. apply elem_of_elements, Hdom, elem_of_dom. by exists e. }
  split_and!; [done|done| |].
  - split.
    + intros k e [[_ He]|[_ He]]%Hc; [by eapply resolve_wf|by eapply Hwf].
    + intros k [e [[Hk _]|[_ He]]%Hc]%elem_of_dom; rewrite Ha; apply elem_of_elements;
        [done|by eapply Hin].
  - intros k e [[_ He]|[Hf He]]%Hc; [by left|right; split; [|done]]. eapply Hf, Hin, He.
Qed.

(** A refresh never fails, and no cached entry is lost to a failing cloud:
    each entry it leaves is the freshly resolved one, or, when the resolution
    of its key failed, the stale one. *)
Theorem refresh_keeps_stale (cloud : Cloud) (op : Provider) :
  provider_ok op →
  ∃ op', refreshAll cloud op = (Ok (), op') ∧ activeKeys op' = activeKeys op ∧ provider_ok op' ∧
    (∀ k e, contents (cache op') !! k = Some e →
       resolve cloud k = Ok e ∨
       (is_Err (resolve cloud k) ∧ contents (cache op) !! k = Some e)) ∧
    ((∀ k, k ∈ activeKeys op → is_Err (resolve cloud k)) →
       ∀ k, contents (cache op') !! k = contents (cache op) !! k).
Proof using LL.
  intros Hok. destruct (refreshAll_ok cloud op Hok) as (op' & Hr & Ha & Hok' & Hc).
  exists op'. split_and!; try done. intros Hall k. unfold InstanceTypes.refreshAll in Hr.
  rewrite (M_bind_Ok _ _ _ op op), refreshAll_failing in Hr; [by injection Hr as <-| |done].
  intros k' Hk'. by apply Hall, elem_of_elements.
Qed.

Lemma step_ok op op' : step op op' → provider_ok op → provider_ok op'.
Proof using LL.
  intros Hstep Hok. destruct Hstep.
  - revert Hok. apply preserves_bind; [apply preserves_getOrResolve|intros ?; apply preserves_ret].
  - revert Hok. apply preserves_bind; [apply preserves_Get|intros e].
    destruct (e ≫= _); apply preserves_ret.
  - revert Hok. apply preserves_bind.
    + apply preserves_bind; [apply preserves_Get|intros e]. destruct e; auto with flex.
    + intros l. destruct (list_find _ l) as [[]|]; auto with flex.
  - revert Hok. unfold ResolvePlatformPresetFromNodeClaim. case_bool_decide; [done|].
    apply preserves_bind; [apply preserves_wrapf, preserves_getOrResolve|intros e].
    destruct (find_best _ _ e) as [[[] []] ?]; auto with flex.
  - destruct (refreshAll_ok cloud op Hok) as (op' & -> & _ & H & _). exact H.
  - unfold Stop. by destruct (stopped op).
Qed.

(** In every reachable state of the provider each cached entry pairs the
    presets of its key with their instance types, and each cached key is one
    the background refresh renews. *)
Theorem provider_reachable_ok (op : Provider) : rtc step newProvider op → provider_ok op.
Proof using LL.
  assert (provider_ok newProvider) as Hok.
  { assert (contents (cache newProvider) = ∅) as He by apply new_law.
    split; [intros k e; by rewrite He|]. rewrite He, dom_empty. apply empty_subseteq. }
  intros H. revert Hok. induction H as [|a b c Hab _ IH]; [done|].
  intros Hok. by eapply IH, step_ok.
Qed.
End properties.

(** ** The hypotheses can hold *)

(** Requirements as lists of allowed values, a cache without bound, and a cloud
    of two platforms with prices 1 and 2. *)
Module Mem.
Definition reqs : Type := list (string * list string).
Definition values (r : reqs) (k : string) : list string :=
  match list_find (λ p, p.1 = k) r with Some (_, p) => p.2 | None => [] end.

#[global] Instance scheduling : Scheduling := {|
  Requirements := reqs;
  NewRequirements l := l;
  Values := values;
  claim_reqs l := (λ r, (req_Key r, req_Values r)) <$> l;
  IsCompatible r o :=
    forallb (λ p, match values o p.1 with
                  | [] => true
                  | vs => existsb (λ v, bool_decide (v ∈ vs)) p.2
                  end) r;
|}.

#[global] Instance lru : LRU cachedEntry := {|
  Cache := gmap NodeClassKey cachedEntry;
  lru_New := ∅;
  lru_Get k c := (c !! k, c);
  lru_Add k v c := <[k := v]> c;
|}.
#[global] Program Instance lru_laws : LRULaws cachedEntry := {| contents c := c |}.
Next Obligation. done. Qed.
Next Obligation. done. Qed.
Next Obligation. intros. apply lookup_insert_eq. Qed.
Next Obligation. done. Qed.

(** 1.0 and 2.0. *)
Definition one : spec_float := S754_finite false 4503599627370496 (-52).
Definition two : spec_float := S754_finite false 4503599627370496 (-51).
Definition ParseFloat (s : string) : option spec_float :=
  if bool_decide (s = "1") then Some one else if bool_decide (s = "2") then Some two else None.

Definition preset4 : Preset :=
  {| preset_Name := "4vcpu-16gb"; VcpuCount := 4; MemoryGibibytes := 16; GpuCount := 0 |}.
Definition d3 : Platform :=
  {| platform_Name := "cpu-d3"; GpuMemoryGigabytes := 0; Presets := [preset4];
     Status_AllowedForPreemptibles := false |}.
Definition e2 : Platform :=
  {| platform_Name := "cpu-e2"; GpuMemoryGigabytes := 0; Presets := [preset4];
     Status_AllowedForPreemptibles := true |}.
Definition cloud : Cloud := {|
  Filter _ := [inr d3; inr e2];
  EstimateBatch specs :=
    match specs with
    | ComputeInstanceSpec _ platform _ _ :: _ =>
        inr (if bool_decide (platform = "cpu-e2") then "1" else "2")
    | _ => inl (ErrExt "bad request")
    end;
|}.
Definition down : Cloud := {| Filter _ := [inl (ErrExt "down")]; EstimateBatch _ := inl (ErrExt "down") |}.
Definition key : NodeClassKey :=
  {| ProjectID := "project"; Region := "eu-north1"; OSDiskSizeGiB := 128; PerNodePodsCount := 110 |}.
Definition az : AzureLabels :=
  {| LabelSKUCPU := "cpu"; LabelSKUMemory := "memory"; AKSLabelCPU := "aks-cpu";
     AKSLabelMemory := "aks-memory"; LabelSKUGPUCount := "gpus" |}.
Definition claim : NodeClaim :=
  {| nc_Name := "claim"; nc_Labels := ∅; nc_CreationTimestamp := 0; nc_NodeClassRef := None;
     nc_Requirements := [{| req_Key := LabelInstanceTypeStable; req_Operator := "In";
       req_Values := ["cpu-d3-4vcpu-16gb"; "cpu-e2-4vcpu-16gb"]; req_MinValues := None |}];
     nc_Requests := ∅; nc_ProviderID := ""; nc_Capacity := ∅; nc_Allocatable := ∅ |}.

Notation resolve := (resolve ParseFloat id az (λ _ _, ∅) ∅ ∅).
Definition entry : cachedEntry :=
  Eval vm_compute in
  match resolve cloud key with Ok e => e | _ => {| ce_instanceTypes := []; ce_presets := [] |} end.
Lemma resolve_entry : resolve cloud key = Ok entry.
Proof. vm_compute. reflexivity. Qed.

Definition dummy : InstanceType :=
  {| it_Name := ""; it_Requirements := []; it_Offerings := []; it_Capacity := ∅;
     it_Overhead := {| KubeReserved := ∅; SystemReserved := ∅; EvictionThreshold := ∅ |} |}.
Notation names := (list_to_set (Values (claim_reqs (nc_Requirements claim)) LabelInstanceTypeStable)
                    : gset string).
Lemma names_d3 : "cpu-d3-4vcpu-16gb" ∈ names.
Proof. apply elem_of_list_to_set. left. Qed.
Lemma names_nonempty : names ≠ ∅.
Proof. intros H. pose proof names_d3 as H'. rewrite H in H'. by apply elem_of_empty in H'. Qed.
End Mem.

Lemma GetPrices_total_witness :
  NewPlatformPreset Mem.d3 Mem.preset4 ∈ [NewPlatformPreset Mem.d3 Mem.preset4] ∧
  is_Some (GetPrices Mem.ParseFloat id Mem.cloud "project" [NewPlatformPreset Mem.d3 Mem.preset4] 128
             !! price_key 128 (NewPlatformPreset Mem.d3 Mem.preset4)).
Proof.
  split; [left|].
  destruct (GetPrices_total Mem.ParseFloat id (λ l, reflexivity l) Mem.cloud "project"
    [NewPlatformPreset Mem.d3 Mem.preset4] 128 (NewPlatformPreset Mem.d3 Mem.preset4)
    (list_elem_of_here _ _)) as [(p' & _ & _ & H) _].
  eexists. exact H.
Defined.

Lemma resolve_offerings_witness :
  ∃ it, it ∈ ce_instanceTypes Mem.entry ∧ it_Name it = "cpu-e2-4vcpu-16gb".
Proof.
  destruct (resolve_offerings Mem.ParseFloat id Mem.az (λ _ _, ∅) ∅ ∅ (λ l, reflexivity l)
    Mem.cloud Mem.key Mem.entry (NewPlatformPreset Mem.e2 Mem.preset4) Mem.resolve_entry)
    as (_ & _ & it & Hin & Hn & _).
  - apply (bool_decide_unpack _). vm_compute. exact I.
  - right. left.
  - by exists it.
Defined.

Lemma resolve_platform_cheapest_witness :
  ∃ ls op, ResolvePlatformPresetFromNodeClaim Mem.ParseFloat id Mem.az (λ _ _, ∅) ∅ ∅
             Mem.cloud Mem.key Mem.claim newProvider = (Ok ls, op).
Proof.
  destruct (getOrResolve_run Mem.ParseFloat id Mem.az (λ _ _, ∅) ∅ ∅ Mem.cloud Mem.key newProvider)
    as (op1 & Hrun & _).
  rewrite Mem.resolve_entry in Hrun.
  destruct (resolve_platform_cheapest Mem.ParseFloat id Mem.az (λ _ _, ∅) ∅ ∅ Mem.cloud Mem.key
    Mem.claim newProvider op1 Mem.entry Hrun (resolve_wf _ _ _ _ _ _ _ _ _ Mem.resolve_entry)
    Mem.names_nonempty) as [(it & o & p & H & _)|[_ H]]; [by eexists _, op1|].
  exfalso.
  assert (SFltb Mem.two MaxFloat64 = false) as Hf; [|by vm_compute in Hf].
  apply (H (hd Mem.dummy (ce_instanceTypes Mem.entry))
           (newOffering CapacityTypeOnDemand "eu-north1" Mem.two true)).
  - left.
  - by apply Mem.names_d3.
  - left.
  - done.
  - vm_compute. reflexivity.
Defined.

Lemma refresh_keeps_stale_witness :
  ∃ op op', provider_ok Mem.az (λ _ _, ∅) ∅ ∅ op ∧
    refreshAll Mem.ParseFloat id Mem.az (λ _ _, ∅) ∅ ∅ Mem.down op = (Ok (), op') ∧
    contents (cache op') !! Mem.key = Some Mem.entry.
Proof.
  set (op := {| cache := {[ Mem.key := Mem.entry ]} : Cache cachedEntry;
                activeKeys := {[ Mem.key ]}; stopped := false |}).
  assert (provider_ok Mem.az (λ _ _, ∅) ∅ ∅ op) as Hok.
  { split.
    - intros k e H. change (({[ Mem.key := Mem.entry ]} : gmap NodeClassKey cachedEntry) !! k = Some e) in H.
      apply lookup_singleton_Some in H as [<- <-].
      apply (resolve_wf _ _ _ _ _ _ _ _ _ Mem.resolve_entry).
    - change (dom ({[ Mem.key := Mem.entry ]} : gmap NodeClassKey cachedEntry) ⊆ {[ Mem.key ]}).
      by rewrite dom_singleton. }
  destruct (refresh_keeps_stale Mem.ParseFloat id Mem.az (λ _ _, ∅) ∅ ∅ Mem.down op Hok)
    as (op' & H & _ & _ & _ & Hstale).
  exists op, op'. split_and!; [done|done|]. rewrite Hstale; [|by intros].
  apply (lookup_singleton_eq (M := gmap NodeClassKey)).
Defined.

Lemma provider_reachable_ok_witness :
  provider_ok Mem.az (λ _ _, ∅) ∅ ∅
    (GetInstanceTypes Mem.ParseFloat id Mem.az (λ _ _, ∅) ∅ ∅ Mem.cloud Mem.key newProvider).2.
Proof.
  apply (provider_reachable_ok Mem.ParseFloat id Mem.az (λ _ _, ∅) ∅ ∅).
  eapply rtc_once, step_types.
Defined.
