(* ===== verification/V1alpha1.v ===== *)
(** * The Nebius node class

    [karpenter/pkg/apis]: the [NebiusNodeClass] resource with the metadata
    Kubernetes keeps of it, its conditions and its finalizer. *)
From S2P Require Import Prelude GoStr.
From stdpp Require Import options.

Definition Group : string := "flex.aks.azure.com".
Definition TerminationFinalizer : string := Group +:+ "/termination".
Definition ConditionTypeValidationSucceeded : string := "ValidationSucceeded".

Record NebiusNodeClassSpec := {
  ProjectID : string;
  Region : string;
  SubnetID : string;
  OSDiskSizeGB : option Z;
  OSDiskImageFamily : option string;
  AllocateNodePublicIP : option bool;
  WireguardPeerCIDR : option string;
  MaxPodsPerNode : option Z;
}.
#[global] Instance NebiusNodeClassSpec_eq_dec : EqDecision NebiusNodeClassSpec.
Proof. solve_decision. Defined.

(** A condition by its type and status. *)
Record Condition := { cond_Type : string; cond_Status : bool }.
#[global] Instance Condition_eq_dec : EqDecision Condition.
Proof. solve_decision. Defined.

Record NebiusNodeClass := {
  nbc_Name : string;
  nbc_ResourceVersion : nat;
  nbc_DeletionTimestamp : option Z;
  nbc_Finalizers : list string;
  nbc_Spec : NebiusNodeClassSpec;
  nbc_Conditions : list Condition;
}.
#[global] Instance NebiusNodeClass_eq_dec : EqDecision NebiusNodeClass.
Proof. solve_decision. Defined.

Definition GetConditions (s : NebiusNodeClass) : list Condition := nbc_Conditions s.
Definition SetConditions (conditions : list Condition) (s : NebiusNodeClass) : NebiusNodeClass :=
  {| nbc_Name := nbc_Name s; nbc_ResourceVersion := nbc_ResourceVersion s;
     nbc_DeletionTimestamp := nbc_DeletionTimestamp s; nbc_Finalizers := nbc_Finalizers s;
     nbc_Spec := nbc_Spec s; nbc_Conditions := conditions |}.
Definition set_finalizers (finalizers : list string) (s : NebiusNodeClass) : NebiusNodeClass :=
  {| nbc_Name := nbc_Name s; nbc_ResourceVersion := nbc_ResourceVersion s;
     nbc_DeletionTimestamp := nbc_DeletionTimestamp s; nbc_Finalizers := finalizers;
     nbc_Spec := nbc_Spec s; nbc_Conditions := nbc_Conditions s |}.
