(* ===== verification/NebiusProvider.v ===== *)
(** * The Nebius cloud provider

    [karpenter/pkg/cloudproviders/nebius]: Karpenter's [CloudProvider] interface
    over the agent pool service of the plugin.  A node claim is created as an
    agent pool of the cheapest matching preset, with a WireGuard address when
    the node class asks for one; provider IDs name agent pools. *)
From S2P Require Import Prelude GoStr GoNet GoURL Karp IPAllocator Hub Proto Helper InstanceTypes V1alpha1.
From stdpp Require Import options.
Open Scope Z_scope.

(** [cloudproviders/nodes.go]. *)
Definition NodeClaimLabelKey : string := "karpenter.azure.com/node-claim".

(** ** [consts.go] and [api.go] *)
Definition ProviderIDScheme : string := "aks-nebius".
Definition GroupKind_ : GroupKind := {| gk_Group := Group; gk_Kind := "NebiusNodeClass" |}.

Section api.
(** [status.FromError] and the [Error] method of errors. *)
Context (FromError : error → option Code) (Error_ : error → string).

Definition Nebius_IsNotFound (err : error) : bool :=
  match FromError err with Some c => bool_decide (c = NotFound) | None => false end.

Definition IsQuotaError (err : option error) : bool :=
  match err with
  | None => false
  | Some err =>
      let errString := Error_ err in
      Contains errString "Quota failure" || Contains errString "Not enough resources" ||
      Contains errString "insufficient capacity"
  end.
End api.

(** ** [nodeclaim.go] *)
Definition providerIDToAgentPoolName (providerID : string) : res string :=
  match Parse providerID with
  | Ok parsedURL =>
      if bool_decide (Scheme parsedURL ≠ ProviderIDScheme) then
        Err (Errorf "unexpected providerID scheme %q, expected %q"
               [Scheme parsedURL; ProviderIDScheme] [])
      else Ok (Host parsedURL)
  | Err err => Err (Errorf "parsing providerID %q: %w" [providerID] [err])
  | Panic p => Panic p
  end.

Definition agentPoolNameToProviderID (agentPoolName : string) : string :=
  ProviderIDScheme +:+ "://" +:+ agentPoolName.

(** The fields of the Azure provider's options the source reads. *)
Record KarpOptions := {
  ClusterEndpoint : string; KubeletClientTLSBootstrapToken : string; NodeResourceGroup : string;
}.

Definition filterNoneZeroResource (v : Z) : bool := bool_decide (v ≠ 0).
Definition PickNonZero (m : gmap string Z) : gmap string Z :=
  filter (λ kv, filterNoneZeroResource kv.2 = true) m.

Definition capacity_label (t : capacity.CapacityType) : string :=
  match t with
  | capacity.ON_DEMAND => CapacityTypeOnDemand
  | capacity.SPOT => CapacityTypeSpot
  | capacity.RESERVED => CapacityTypeReserved
  | capacity.UNSPECIFIED => CapacityTypeOnDemand
  end.
Definition capacity_of_label (t : string) : capacity.CapacityType :=
  if bool_decide (t = CapacityTypeSpot) then capacity.SPOT
  else if bool_decide (t = CapacityTypeOnDemand) then capacity.ON_DEMAND
  else if bool_decide (t = CapacityTypeReserved) then capacity.RESERVED
  else capacity.ON_DEMAND.

Section nodeclaim.
Context `{SCH : Scheduling}.
(** [GetAllSingleValuedRequirementLabels] and [InstanceType.Allocatable]. *)
Context (all_labels : Requirements → gmap string string) (Allocatable : InstanceType → gmap string Z).

Definition stretchAgentPoolToNodeClaim (agentPool : option nebius.AgentPool) (instanceType : InstanceType)
    : NodeClaim :=
  let labels := all_labels (it_Requirements instanceType) in
  let zone := nebius.GetZone (nebius.GetSpec agentPool) in
  let labels := if bool_decide (zone ≠ "") then <[LabelTopologyZone := zone]> labels else labels in
  let labels := <[CapacityTypeLabelKey := capacity_label
                    (capacity.GetCapacityType (nebius.GetCapacity (nebius.GetSpec agentPool)))]> labels in
  {| nc_Name := api.GetId (nebius.GetMetadata agentPool);
     nc_Labels := labels;
     nc_CreationTimestamp := default 0 (nebius.GetCreatedAt (nebius.GetStatus agentPool));
     nc_NodeClassRef := None; nc_Requirements := []; nc_Requests := ∅;
     nc_ProviderID := agentPoolNameToProviderID (api.GetId (nebius.GetMetadata agentPool));
     nc_Capacity := PickNonZero (it_Capacity instanceType);
     nc_Allocatable := PickNonZero (Allocatable instanceType) |}.
End nodeclaim.

(** The kubeadm configuration of a claim's node. *)
Definition claim_kubeadm (karpOpts : KarpOptions) (clusterCA : string) (name : string)
    (labels : gmap string string) : res (option kubeadm.Config) :=
  cfg ← kubeadm.AddNodeLabels labels
    (Some {| kubeadm.Server := Some (ClusterEndpoint karpOpts);
             kubeadm.CertificateAuthorityData := Some clusterCA;
             kubeadm.Token := Some (KubeletClientTLSBootstrapToken karpOpts);
             kubeadm.NodeLabels := Some {[
               NodeClaimLabelKey := name;
               NodeLabelKeyCloudProviderManaged := "false";
               NodeLabelKeyCloudProviderCluster := NodeResourceGroup karpOpts;
               NodeLabelKeyStretchManaged := "true" ]};
             kubeadm.NodeIp := None; kubeadm.RegisterWithTaints := None;
             kubeadm.MaxPodsPerNode := None |});
  cfg ← kubeadm.AddNodeLabels {[ "kubernetes.azure.com/mode" := "user" ]} cfg;
  kubeadm.AddK8SRegisterTaints [UnregisteredNoExecuteTaint] cfg.

Definition nodeClaimToStretchAgentPool (karpOpts : KarpOptions) (clusterVersion clusterCA : string)
    (nodeClass : NebiusNodeClass) (nodeClaim : NodeClaim) (launchSettings : PlatformPresetLaunchSettings)
    (wgConfig : option wireguard.Config) : res nebius.AgentPool :=
  let spec := nbc_Spec nodeClass in
  let pp := launch_PlatformPreset launchSettings in
  let platform := pp_platform pp in
  let hasGPU := bool_decide (GpuMemoryGigabytes platform > 0) in
  let imageFamily := if hasGPU then "ubuntu24.04-cuda12"
                     else from_ptr_or (OSDiskImageFamily spec) "ubuntu24.04-driverless" in
  let osDiskSize := from_ptr_or (OSDiskSizeGB spec) 100 in
  kubeadmConfig ← claim_kubeadm karpOpts clusterCA (nc_Name nodeClaim)
    {[ LabelInstanceTypeStable := InstanceTypeName pp;
       LabelTopologyZone := launch_Zone launchSettings;
       LabelTopologyRegion := Region spec;
       CapacityTypeLabelKey := launch_CapacityType launchSettings ]};
  Ok {| nebius.Metadata := Some {| api.Type_ := None; api.Id := Some (nc_Name nodeClaim) |};
        nebius.Spec := Some
          {| nebius.ProjectId := Some (ProjectID spec); nebius.Region := Some (Region spec);
             nebius.SubnetId := Some (SubnetID spec);
             nebius.Platform := Some (platform_Name platform);
             nebius.Preset := Some (preset_Name (pp_preset pp));
             nebius.ImageFamily := Some imageFamily;
             nebius.OsDiskSizeGibibytes := Some osDiskSize;
             nebius.Kubeadm := kubeadmConfig; nebius.Wireguard := wgConfig;
             nebius.Gpu := if hasGPU then Some gpu.Build_Config else None;
             nebius.Zone := None;
             nebius.Capacity := Some {| capacity.Capacity := Some 1;
               capacity.CapacityType_ := Some (capacity_of_label (launch_CapacityType launchSettings)) |};
             nebius.KubernetesVersion := Some clusterVersion |};
        nebius.Status := None |}.

Lemma capacity_of_spot t : capacity_of_label t = capacity.SPOT ↔ t = CapacityTypeSpot.
Proof. unfold capacity_of_label. repeat case_bool_decide; naive_solver. Qed.

(** ** [cloudprovider.go] *)

(** The state the provider works on: the agent pool service and the Kubernetes
    API behind [w_ext], the address allocator, the instance type provider, and
    the node claims whose clean-up runs in the background. *)
Record World (E : Type) `{SCH : Scheduling} `{LR : LRU cachedEntry} := {
  w_ext : E;
  w_alloc : IPAllocator;
  w_types : Provider;
  w_cleanups : list NodeClaim;
}.
Arguments w_ext {E SCH LR}.
Arguments w_alloc {E SCH LR}.
Arguments w_types {E SCH LR}.
Arguments w_cleanups {E SCH LR}.
Arguments Build_World {E SCH LR}.

Section provider.
Context `{SCH : Scheduling} `{LR : LRU cachedEntry}.
Context {E Msg : Type} `{PR : ProtoRuntime Msg}.
Notation World := (World E).

(** The agent pool as a message, and the calls of the agent pool service and of
    the Kubernetes client. *)
Context (of_AgentPool : nebius.AgentPool → Msg) (as_AgentPool : Msg → option nebius.AgentPool).
Context (pools_CreateOrUpdate : option Any → M E (option Any)) (pools_Get : string → M E (option Any))
        (pools_List : string → M E (list Any)) (pools_Delete : string → M E ()).
Context (kube_Get : string → M E NebiusNodeClass).
(** Errors, the Azure provider's options and helpers, as above. *)
Context (FromError : error → option Code) (Error_ : error → string) (karpOpts : KarpOptions).
Context (all_labels wellknown_labels : Requirements → gmap string string)
        (Allocatable : InstanceType → gmap string Z).
(** The fields of the provider that do not change. *)
Context (clusterVersionNoVPrefix clusterCA : string).
(** The parameters of the allocator and of the instance types. *)
Context (NodeClassLabelKey : GroupKind → string) (range : list string → list string).
Context (ParseFloat : string → option SpecFloat.spec_float)
        (completion : list PlatformPreset → list PlatformPreset)
        (azurev1beta1 : AzureLabels) (KubeReservedResources : Z → Z → gmap string Z)
        (SystemReservedResources EvictionThreshold_ : gmap string Z).

(** What the environment answers during one call: the Nebius API, the informer
    cache and the random draw of the allocator. *)
Record Env := { env_cloud : Cloud; env_cache : IPAllocator.Cache; env_rnd : Z }.

Definition on_ext {A} (c : M E A) : M World A :=
  zoom w_ext (λ e w, Build_World e (w_alloc w) (w_types w) (w_cleanups w)) c.
Definition on_alloc {A} (c : M IPAllocator A) : M World A :=
  zoom w_alloc (λ a w, Build_World (w_ext w) a (w_types w) (w_cleanups w)) c.
Definition on_types {A} (c : M Provider A) : M World A :=
  zoom w_types (λ p w, Build_World (w_ext w) (w_alloc w) p (w_cleanups w)) c.
(** [go func() { c.Delete(nodeClaim) }()]. *)
Definition spawn_cleanup (nodeClaim : NodeClaim) : M World () :=
  modify (λ w, Build_World (w_ext w) (w_alloc w) (w_types w) (w_cleanups w ++ [nodeClaim])).

Definition getNodeClass (nodeClassRef : option NodeClassReference) : M World NebiusNodeClass :=
  match nodeClassRef with
  | None => fail (Errorf "nodeClaim must reference a node class" [] [])
  | Some ref =>
      if bool_decide (ref_Group ref ≠ Group) then
        fail (Errorf "nodeClassRef %s references a node class in group %q, expected %q"
                [ref_Name ref; ref_Group ref; Group] [])
      else
        rv ← wrapf "getting NebiusNodeClass %s: %w" [ref_Name ref] (on_ext (kube_Get (ref_Name ref)));
        match nbc_DeletionTimestamp rv with
        | Some _ => fail (ErrTerminatingResource Group "nebiusnodeclass" (nbc_Name rv))
        | None => mret rv
        end
  end.

Definition class_key (spec : NebiusNodeClassSpec) (osDiskSize : Z) : NodeClassKey :=
  {| InstanceTypes.ProjectID := ProjectID spec; InstanceTypes.Region := Region spec;
     OSDiskSizeGiB := osDiskSize;
     PerNodePodsCount := from_ptr_or (MaxPodsPerNode spec) DefaultPerNodePodsCount |}.

(** The key an agent pool is looked up under. *)
Definition pool_key (agentPool : option nebius.AgentPool) : NodeClassKey :=
  let spec := nebius.GetSpec agentPool in
  {| InstanceTypes.ProjectID := nebius.GetProjectId spec;
     InstanceTypes.Region := nebius.GetRegion spec;
     OSDiskSizeGiB := nebius.GetOsDiskSizeGibibytes spec;
     PerNodePodsCount := DefaultPerNodePodsCount |}.

Definition alloc_wireguard (env : Env) (nodeClass : NebiusNodeClass) (nodeClaim : NodeClaim)
    : M World (option wireguard.Config) :=
  match WireguardPeerCIDR (nbc_Spec nodeClass) with
  | None => mret None
  | Some cidr =>
      peerIP ← on_alloc (AllocateIP NodeClassLabelKey range (env_cache env) (env_rnd env) cidr
                           (nbc_Name nodeClass) (nc_Name nodeClaim));
      mret (Some {| wireguard.PeerIp := Some peerIP |})
  end.

(** What is decided before the agent pool is created: the key and launch
    settings of the claim and the agent pool asked for. *)
Record Launch := {
  la_key : NodeClassKey; la_settings : PlatformPresetLaunchSettings; la_pool : nebius.AgentPool;
}.
Definition prepare (env : Env) (nodeClaim : NodeClaim) : M World Launch :=
  nodeClass ← getNodeClass (nc_NodeClassRef nodeClaim);
  let key := class_key (nbc_Spec nodeClass) (from_ptr_or (OSDiskSizeGB (nbc_Spec nodeClass)) 100) in
  launchSettings ← on_types (ResolvePlatformPresetFromNodeClaim ParseFloat completion azurev1beta1
    KubeReservedResources SystemReservedResources EvictionThreshold_ (env_cloud env) key nodeClaim);
  wgConfig ← alloc_wireguard env nodeClass nodeClaim;
  agentPool ← lift (nodeClaimToStretchAgentPool karpOpts clusterVersionNoVPrefix clusterCA
                      nodeClass nodeClaim launchSettings wgConfig);
  mret {| la_key := key; la_settings := launchSettings; la_pool := agentPool |}.

(** [lo.Assign]: the labels of the requirements win. *)
Definition with_labels (labels : gmap string string) (nc : NodeClaim) : NodeClaim :=
  {| nc_Name := nc_Name nc; nc_Labels := labels ∪ nc_Labels nc;
     nc_CreationTimestamp := nc_CreationTimestamp nc; nc_NodeClassRef := nc_NodeClassRef nc;
     nc_Requirements := nc_Requirements nc; nc_Requests := nc_Requests nc;
     nc_ProviderID := nc_ProviderID nc; nc_Capacity := nc_Capacity nc;
     nc_Allocatable := nc_Allocatable nc |}.

Definition Nebius_Create (env : Env) (nodeClaim : NodeClaim) : M World NodeClaim :=
  l ← prepare env nodeClaim;
  created ← attempt (on_ext (Client_CreateOrUpdate as_AgentPool pools_CreateOrUpdate
                               (of_AgentPool (la_pool l))));
  match created with
  | inl err =>
      if IsQuotaError Error_ (Some err) then
        _ ← spawn_cleanup nodeClaim;
        fail (ErrInsufficientCapacity err)
      else fail (Errorf "creating stretch agent pool: %w" [] [err])
  | inr agentPoolCreated =>
      launchedInstanceType ← on_types (GetInstanceTypeByPlatformPreset ParseFloat completion azurev1beta1
        KubeReservedResources SystemReservedResources EvictionThreshold_ (env_cloud env) (la_key l)
        (launch_PlatformPreset (la_settings l)));
      mret (with_labels (wellknown_labels (claim_reqs (nc_Requirements nodeClaim)))
              (stretchAgentPoolToNodeClaim all_labels Allocatable (Some agentPoolCreated)
                 launchedInstanceType))
  end.

Definition Nebius_Delete (nodeClaim : NodeClaim) : M World () :=
  let providerID := nc_ProviderID nodeClaim in
  if bool_decide (providerID = "") then mret ()
  else
    match providerIDToAgentPoolName providerID with
    | Err _ => mret ()
    | Panic p => panic p
    | Ok agentPoolName =>
        got ← attempt (on_ext (Client_Get as_AgentPool pools_Get agentPoolName));
        match got with
        | inl err =>
            if Nebius_IsNotFound FromError err then fail (ErrNodeClaimNotFound err)
            else wrapf "deleting agent pool: %w" [] (on_ext (Client_Delete pools_Delete agentPoolName))
        | inr _ => wrapf "deleting agent pool: %w" [] (on_ext (Client_Delete pools_Delete agentPoolName))
        end
    end.

(** The clean-up goroutine; its error is logged. *)
Definition Nebius_run_cleanup (nodeClaim : NodeClaim) : M World () := _ ← attempt (Nebius_Delete nodeClaim); mret ().

(** The node claim of an agent pool, with the instance type of its preset. *)
Definition pool_claim (env : Env) (agentPool : nebius.AgentPool) : M World NodeClaim :=
  let spec := nebius.GetSpec (Some agentPool) in
  let key := pool_key (Some agentPool) in
  let platformName := nebius.GetPlatform spec in
  let presetName := nebius.GetPreset spec in
  preset ← wrapf "resolving platform preset %q/%q: %w" [platformName; presetName]
             (on_types (GetPlatformPreset (env_cloud env) key platformName presetName));
  it ← on_types (GetInstanceTypeByPlatformPreset ParseFloat completion azurev1beta1
         KubeReservedResources SystemReservedResources EvictionThreshold_ (env_cloud env) key preset);
  mret (stretchAgentPoolToNodeClaim all_labels Allocatable (Some agentPool) it).

Definition Nebius_Get (env : Env) (providerID : string) : M World NodeClaim :=
  agentPoolName ← lift (providerIDToAgentPoolName providerID);
  got ← attempt (on_ext (Client_Get as_AgentPool pools_Get agentPoolName));
  match got with
  | inl err => if Nebius_IsNotFound FromError err then fail (ErrNodeClaimNotFound err) else fail err
  | inr agentPool => pool_claim env agentPool
  end.

Definition Nebius_List (env : Env) : M World (list NodeClaim) :=
  agentPools ← on_ext (Client_List as_AgentPool pools_List "");
  traverse (pool_claim env) agentPools.

(** A class without a disk size panics here. *)
Definition Nebius_GetInstanceTypes (env : Env) (nodePool : NodePool) : M World (list InstanceType) :=
  nodeClass ← wrapf "getting node class for node pool: %w" [] (getNodeClass (np_NodeClassRef nodePool));
  match OSDiskSizeGB (nbc_Spec nodeClass) with
  | None => panic "nil pointer dereference"
  | Some osDiskSize =>
      let key := class_key (nbc_Spec nodeClass) osDiskSize in
      wrapf "getting instance types for project %q region %q: %w"
        [InstanceTypes.ProjectID key; InstanceTypes.Region key]
        (on_types (InstanceTypes.GetInstanceTypes ParseFloat completion azurev1beta1
           KubeReservedResources SystemReservedResources EvictionThreshold_ (env_cloud env) key))
  end.

Definition Nebius_GetSupportedNodeClasses : list string := ["NebiusNodeClass"].
Definition Nebius_IsDrifted (nodeClaim : NodeClaim) : M World string := mret "".
Definition Nebius_Name : string := ProviderIDScheme.
Definition Nebius_RepairPolicies : list () := [].

(** [Close]: the SDK and the connection when they are set, their errors joined,
    and the end of the background refresh. *)
Definition join_close (closeErr : option error) (close : option (M E ())) : M World (option error) :=
  match close with
  | None => mret closeErr
  | Some close =>
      r ← attempt (on_ext close);
      mret (errors_Join (match closeErr with Some e => [e] | None => [] end ++
                         match r with inl e => [e] | inr _ => [] end))
  end.
Definition Nebius_Close (sdk_Close conn_Close : option (M E ())) : M World () :=
  closeErr ← join_close None sdk_Close;
  closeErr ← join_close closeErr conn_Close;
  _ ← on_types Stop;
  match closeErr with Some e => fail e | None => mret () end.

(** The provider as the hub sees it, and its registration. *)
Definition as_provider (env : Env) (sdk_Close conn_Close : option (M E ()))
    : @CloudProvider World InstanceType string () :=
  {| cp_Create := Nebius_Create env; cp_Delete := Nebius_Delete; cp_Get := Nebius_Get env;
     cp_List := Nebius_List env;
     cp_GetInstanceTypes := Nebius_GetInstanceTypes env;
     cp_GetSupportedNodeClasses := Nebius_GetSupportedNodeClasses;
     cp_IsDrifted := Nebius_IsDrifted;
     cp_RepairPolicies := Nebius_RepairPolicies;
     cp_Close := Some (Nebius_Close sdk_Close conn_Close) |}.

Definition Nebius_Register (NewConnection : res ())
    (hub : @cloudProviderSet World InstanceType string ()) (env : Env)
    (sdk_Close conn_Close : option (M E ())) : res (@cloudProviderSet World InstanceType string ()) :=
  match NewConnection with
  | Err err => Err (Errorf "creating stretch plugin connection: %w" [] [err])
  | Panic p => Panic p
  | Ok _ => Ok (Register hub (as_provider env sdk_Close conn_Close) GroupKind_ ProviderIDScheme)
  end.

(** ** Lemmas *)

(** The agent pool of a claim, given the kubeadm configuration. *)
Definition claim_pool (nodeClass : NebiusNodeClass) (nodeClaim : NodeClaim)
    (ls : PlatformPresetLaunchSettings) (wg : option wireguard.Config) (cfg : kubeadm.Config)
    : nebius.AgentPool :=
  let spec := nbc_Spec nodeClass in
  let platform := pp_platform (launch_PlatformPreset ls) in
  let hasGPU := bool_decide (GpuMemoryGigabytes platform > 0) in
  {| nebius.Metadata := Some {| api.Type_ := None; api.Id := Some (nc_Name nodeClaim) |};
     nebius.Spec := Some
       {| nebius.ProjectId := Some (ProjectID spec); nebius.Region := Some (Region spec);
          nebius.SubnetId := Some (SubnetID spec);
          nebius.Platform := Some (platform_Name platform);
          nebius.Preset := Some (preset_Name (pp_preset (launch_PlatformPreset ls)));
          nebius.ImageFamily := Some (if hasGPU then "ubuntu24.04-cuda12"
            else from_ptr_or (OSDiskImageFamily spec) "ubuntu24.04-driverless");
          nebius.OsDiskSizeGibibytes := Some (from_ptr_or (OSDiskSizeGB spec) 100);
          nebius.Kubeadm := Some cfg; nebius.Wireguard := wg;
          nebius.Gpu := if hasGPU then Some gpu.Build_Config else None;
          nebius.Zone := None;
          nebius.Capacity := Some {| capacity.Capacity := Some 1;
            capacity.CapacityType_ := Some (capacity_of_label (launch_CapacityType ls)) |};
          nebius.KubernetesVersion := Some clusterVersionNoVPrefix |};
     nebius.Status := None |}.

Lemma on_ext_inv {A} (c : M E A) w r w' :
  on_ext c w = (r, w') →
  ∃ e', c (w_ext w) = (r, e') ∧ w' = Build_World e' (w_alloc w) (w_types w) (w_cleanups w).
Proof. unfold on_ext, zoom. destruct (c (w_ext w)) as [r' e'] eqn:Ec. intros [= <- <-]. eauto. Qed.

Lemma on_alloc_inv {A} (c : M IPAllocator A) w r w' :
  on_alloc c w = (r, w') →
  ∃ a', c (w_alloc w) = (r, a') ∧ w' = Build_World (w_ext w) a' (w_types w) (w_cleanups w).
Proof. unfold on_alloc, zoom. destruct (c (w_alloc w)) as [r' e'] eqn:Ec. intros [= <- <-]. eauto. Qed.

Lemma on_types_inv {A} (c : M Provider A) w r w' :
  on_types c w = (r, w') →
  ∃ p', c (w_types w) = (r, p') ∧ w' = Build_World (w_ext w) (w_alloc w) p' (w_cleanups w).
Proof. unfold on_types, zoom. destruct (c (w_types w)) as [r' e'] eqn:Ec. intros [= <- <-]. eauto. Qed.

(** A node class is read, in the group and not being deleted. *)
Lemma getNodeClass_inv ref w class w' :
  getNodeClass ref w = (Ok class, w') →
  ∃ r e', ref = Some r ∧ ref_Group r = Group ∧ nbc_DeletionTimestamp class = None ∧
    kube_Get (ref_Name r) (w_ext w) = (Ok class, e') ∧
    w' = Build_World e' (w_alloc w) (w_types w) (w_cleanups w).
Proof.
  unfold getNodeClass. destruct ref as [r|]; [|done]. case_bool_decide as Hg; [done|].
  intros (c & w1 & H%wrapf_Ok_inv%on_ext_inv & Hc)%M_bind_Ok_inv.
  destruct H as (e' & Hk & ->). destruct (nbc_DeletionTimestamp c) eqn:Ed; [done|].
  injection Hc as <- <-. exists r, e'. by split_and!.
Qed.

Lemma alloc_wireguard_inv env class claim w wg w' :
  (∀ x, range x ≡ₚ x) →
  alloc_wireguard env class claim w = (Ok wg, w') →
  w_ext w' = w_ext w ∧ w_cleanups w' = w_cleanups w ∧
  match WireguardPeerCIDR (nbc_Spec class) with
  | None => wg = None ∧ w_alloc w' = w_alloc w
  | Some cidr => ∃ ip, wg = Some {| wireguard.PeerIp := Some ip |} ∧
      usable_ip cidr ip ∧ pre_lookup (w_alloc w') (nbc_Name class) ip = Some (nc_Name claim)
  end.
Proof.
  intros Hrange. unfold alloc_wireguard. destruct (WireguardPeerCIDR _) as [cidr|].
  2: { by intros [= <- <-]. }
  intros (ip & w1 & (a' & Ha & ->)%on_alloc_inv & H)%M_bind_Ok_inv. injection H as <- <-.
  split; [done|]. split; [done|]. exists ip.
  destruct (AllocateIP_Ok _ _ Hrange _ _ _ _ _ _ _ _ Ha) as (nodes & _ & Hu & _ & _ & Hlk).
  split_and!; [done|done|]. simpl. by rewrite Hlk, !bool_decide_eq_true_2.
Qed.

Lemma nodeClaimToStretchAgentPool_ok class claim ls wg :
  ∃ cfg, nodeClaimToStretchAgentPool karpOpts clusterVersionNoVPrefix clusterCA class claim ls wg =
    Ok (claim_pool class claim ls wg cfg) ∧
    default ∅ (kubeadm.NodeLabels cfg) !! NodeClaimLabelKey = Some (nc_Name claim) ∧
    kubeadm.GetK8SRegisterTaints (Some cfg) = [UnregisteredNoExecuteTaint].
Proof. eexists. split; [reflexivity|]. split; [|done]. vm_compute. reflexivity. Qed.

(** What a preparation that succeeds has decided. *)
Lemma prepare_inv env claim w l w' :
  (∀ x, range x ≡ₚ x) →
  prepare env claim w = (Ok l, w') →
  ∃ ref class wg cfg, nc_NodeClassRef claim = Some ref ∧ ref_Group ref = Group ∧
    nbc_DeletionTimestamp class = None ∧
    kube_Get (ref_Name ref) (w_ext w) = (Ok class, w_ext w') ∧ w_cleanups w' = w_cleanups w ∧
    la_key l = class_key (nbc_Spec class) (from_ptr_or (OSDiskSizeGB (nbc_Spec class)) 100) ∧
    la_pool l = claim_pool class claim (la_settings l) wg cfg ∧
    default ∅ (kubeadm.NodeLabels cfg) !! NodeClaimLabelKey = Some (nc_Name claim) ∧
    kubeadm.GetK8SRegisterTaints (Some cfg) = [UnregisteredNoExecuteTaint] ∧
    match WireguardPeerCIDR (nbc_Spec class) with
    | None => wg = None ∧ w_alloc w' = w_alloc w
    | Some cidr => ∃ ip, wg = Some {| wireguard.PeerIp := Some ip |} ∧
        usable_ip cidr ip ∧ pre_lookup (w_alloc w') (nbc_Name class) ip = Some (nc_Name claim)
    end.
Proof.
  intros Hrange (class & w1 & (ref & e' & Href & Hg & Hdel & Hk & ->)%getNodeClass_inv & H)%M_bind_Ok_inv.
  apply M_bind_Ok_inv in H as (ls & w2 & (p' & Hls & ->)%on_types_inv & H).
  apply M_bind_Ok_inv in H as (wg & w3 & Hwg & H).
  apply M_bind_Ok_inv in H as (pool & w4 & Hpool & H). injection H as <- <-.
  apply lift_inv in Hpool as [Hpool ->].
  apply alloc_wireguard_inv in Hwg as (Hext & Hcl & Hwg); [|done]. simpl in Hext, Hcl, Hwg.
  destruct (nodeClaimToStretchAgentPool_ok class claim ls wg) as (cfg & Hp & Hlabel & Htaint).
  rewrite Hp in Hpool. injection Hpool as <-.
  exists ref, class, wg, cfg. rewrite Hext, Hcl. by split_and!.
Qed.

(** C30: the agent pool asked for a claim.  Nothing is asked unless the claim's
    node class exists in the provider's group and is not being deleted; the pool
    is named after the claim, has the platform, preset, capacity type, version
    and disk size decided for it, a GPU exactly on GPU platforms, the label that
    links the node to the claim, the taint Karpenter removes, and, exactly when
    the class has a WireGuard block, an address of the block allocated to the
    claim. *)
Theorem nebius_claim_pool env claim w l w' :
  (∀ x, range x ≡ₚ x) →
  prepare env claim w = (Ok l, w') →
  ∃ ref class cfg, nc_NodeClassRef claim = Some ref ∧ ref_Group ref = Group ∧
    nbc_DeletionTimestamp class = None ∧
    kube_Get (ref_Name ref) (w_ext w) = (Ok class, w_ext w') ∧ w_cleanups w' = w_cleanups w ∧
    let pool := la_pool l in
    let spec := nebius.GetSpec (Some pool) in
    api.GetId (nebius.GetMetadata (Some pool)) = nc_Name claim ∧
    nebius.GetProjectId spec = ProjectID (nbc_Spec class) ∧
    nebius.GetPlatform spec = platform_Name (pp_platform (launch_PlatformPreset (la_settings l))) ∧
    nebius.GetPreset spec = preset_Name (pp_preset (launch_PlatformPreset (la_settings l))) ∧
    nebius.GetKubernetesVersion spec = clusterVersionNoVPrefix ∧
    nebius.GetOsDiskSizeGibibytes spec = OSDiskSizeGiB (la_key l) ∧
    (capacity.GetCapacityType (nebius.GetCapacity spec) = capacity.SPOT ↔
     launch_CapacityType (la_settings l) = CapacityTypeSpot) ∧
    (nebius.HasGpu spec = true ↔
     GpuMemoryGigabytes (pp_platform (launch_PlatformPreset (la_settings l))) > 0) ∧
    nebius.GetKubeadm spec = Some cfg ∧
    default ∅ (kubeadm.NodeLabels cfg) !! NodeClaimLabelKey = Some (nc_Name claim) ∧
    kubeadm.GetK8SRegisterTaints (Some cfg) = [UnregisteredNoExecuteTaint] ∧
    match WireguardPeerCIDR (nbc_Spec class) with
    | None => nebius.GetWireguard spec = None ∧ w_alloc w' = w_alloc w
    | Some cidr => ∃ ip, nebius.GetWireguard spec = Some {| wireguard.PeerIp := Some ip |} ∧
        usable_ip cidr ip ∧ pre_lookup (w_alloc w') (nbc_Name class) ip = Some (nc_Name claim)
    end.
Proof.
  intros Hrange (ref & class & wg & cfg & Href & Hg & Hdel & Hk & Hcl & Hkey & -> & Hlabel & Htaint & Hwg)%prepare_inv;
    [|done].
  exists ref, class, cfg. rewrite Hkey. cbn [la_pool la_key la_settings]. split_and!; try done.
  - simpl. apply capacity_of_spot.
  - simpl. case_bool_decide; split; (done || lia).
Qed.

Lemma instance_type_total cloud key preset (op : Provider) :
  ∃ it op', GetInstanceTypeByPlatformPreset ParseFloat completion azurev1beta1 KubeReservedResources
              SystemReservedResources EvictionThreshold_ cloud key preset op = (Ok it, op').
Proof.
  unfold GetInstanceTypeByPlatformPreset. unfold mbind at 1, M_bind, InstanceTypes.cache_Get.
  destruct (lru_Get key (cache op)) as [v c]. destruct (v ≫= _); eauto.
Qed.

(** A creation whose agent pool the service makes. *)
Lemma Nebius_Create_run env claim w l w1 pool e2 :
  prepare env claim w = (Ok l, w1) →
  Client_CreateOrUpdate as_AgentPool pools_CreateOrUpdate (of_AgentPool (la_pool l)) (w_ext w1)
    = (Ok pool, e2) →
  ∃ it types, Nebius_Create env claim w =
    (Ok (with_labels (wellknown_labels (claim_reqs (nc_Requirements claim)))
           (stretchAgentPoolToNodeClaim all_labels Allocatable (Some pool) it)),
     Build_World e2 (w_alloc w1) types (w_cleanups w1)).
Proof.
  intros Hp Hr. unfold Nebius_Create. rewrite (M_bind_Ok _ _ _ _ _ Hp).
  assert (on_ext (Client_CreateOrUpdate as_AgentPool pools_CreateOrUpdate (of_AgentPool (la_pool l))) w1
          = (Ok pool, Build_World e2 (w_alloc w1) (w_types w1) (w_cleanups w1))) as Hext
    by (unfold on_ext, zoom; by rewrite Hr).
  rewrite (attempt_Ok _ _ _ _ _ Hext).
  destruct (instance_type_total (env_cloud env) (la_key l) (launch_PlatformPreset (la_settings l))
              (w_types w1)) as (it & op' & Hit).
  exists it, op'. unfold on_types, zoom, mbind, M_bind. cbn [w_types]. by rewrite Hit.
Qed.

Lemma on_ext_run {A} (c : M E A) w r e :
  c (w_ext w) = (r, e) → on_ext c w = (r, Build_World e (w_alloc w) (w_types w) (w_cleanups w)).
Proof. unfold on_ext, zoom. by intros ->. Qed.

Lemma on_types_run {A} (c : M Provider A) w r t :
  c (w_types w) = (r, t) → on_types c w = (r, Build_World (w_ext w) (w_alloc w) t (w_cleanups w)).
Proof. unfold on_types, zoom. by intros ->. Qed.

(** A pool the service knows is found by its provider ID. *)
Lemma Nebius_Get_run env providerID name w pool e1 preset types :
  providerIDToAgentPoolName providerID = Ok name →
  Client_Get as_AgentPool pools_Get name (w_ext w) = (Ok pool, e1) →
  GetPlatformPreset (env_cloud env) (pool_key (Some pool))
    (nebius.GetPlatform (nebius.GetSpec (Some pool)))
    (nebius.GetPreset (nebius.GetSpec (Some pool))) (w_types w) = (Ok preset, types) →
  ∃ it types', Nebius_Get env providerID w =
    (Ok (stretchAgentPoolToNodeClaim all_labels Allocatable (Some pool) it),
     Build_World e1 (w_alloc w) types' (w_cleanups w)).
Proof.
  intros Hn Hg Hp. unfold Nebius_Get. rewrite (bind_lift_Ok _ _ _ _ Hn).
  rewrite (attempt_Ok _ _ _ _ _ (on_ext_run _ _ _ _ Hg)).
  destruct (instance_type_total (env_cloud env) (pool_key (Some pool)) preset types) as (it & t' & Hit).
  set (w1 := Build_World e1 (w_alloc w) (w_types w) (w_cleanups w)).
  pose proof (on_types_run _ w1 _ _ Hp) as Hp1.
  pose proof (on_types_run _ (Build_World e1 (w_alloc w) types (w_cleanups w)) _ _ Hit) as Hit1.
  exists it, t'. unfold pool_claim. cbv zeta. rewrite (M_bind_Ok _ _ _ _ _ (wrapf_Ok _ _ _ _ _ _ Hp1)).
  by rewrite (M_bind_Ok _ _ _ _ _ Hit1).
Qed.

Lemma Nebius_Get_missing env providerID name w err e1 :
  providerIDToAgentPoolName providerID = Ok name →
  Client_Get as_AgentPool pools_Get name (w_ext w) = (Err err, e1) →
  Nebius_IsNotFound FromError err = true →
  Nebius_Get env providerID w =
    (Err (ErrNodeClaimNotFound err), Build_World e1 (w_alloc w) (w_types w) (w_cleanups w)).
Proof.
  intros Hn Hg Hf. unfold Nebius_Get. rewrite (bind_lift_Ok _ _ _ _ Hn).
  by rewrite (attempt_Err _ _ _ _ _ (on_ext_run _ _ _ _ Hg)), Hf.
Qed.

Lemma Nebius_Delete_run claim name w pool e1 e2 :
  nc_ProviderID claim ≠ "" → providerIDToAgentPoolName (nc_ProviderID claim) = Ok name →
  Client_Get as_AgentPool pools_Get name (w_ext w) = (Ok pool, e1) →
  Client_Delete pools_Delete name e1 = (Ok (), e2) →
  Nebius_Delete claim w = (Ok (), Build_World e2 (w_alloc w) (w_types w) (w_cleanups w)).
Proof.
  intros Hid Hn Hg Hd. unfold Nebius_Delete. rewrite bool_decide_eq_false_2, Hn by done.
  rewrite (attempt_Ok _ _ _ _ _ (on_ext_run _ _ _ _ Hg)).
  apply wrapf_Ok, (on_ext_run _ (Build_World e1 (w_alloc w) (w_types w) (w_cleanups w)) _ _ Hd).
Qed.

Lemma Nebius_Delete_missing claim name w err e1 :
  nc_ProviderID claim ≠ "" → providerIDToAgentPoolName (nc_ProviderID claim) = Ok name →
  Client_Get as_AgentPool pools_Get name (w_ext w) = (Err err, e1) →
  Nebius_IsNotFound FromError err = true →
  Nebius_Delete claim w =
    (Err (ErrNodeClaimNotFound err), Build_World e1 (w_alloc w) (w_types w) (w_cleanups w)).
Proof.
  intros Hid Hn Hg Hf. unfold Nebius_Delete. rewrite bool_decide_eq_false_2, Hn by done.
  by rewrite (attempt_Err _ _ _ _ _ (on_ext_run _ _ _ _ Hg)), Hf.
Qed.

(** The outcome of a creation, once the agent pool is decided.  When the
    service makes the pool, the node claim is named after the pool it answers and
    carries its provider ID; a quota failure becomes an insufficient-capacity
    error and starts a clean-up, another failure is wrapped.  The clean-up of a
    claim without provider ID, as claims are when they are created, does
    nothing: the failed pool is left behind. *)
Theorem nebius_create_outcome env claim w l w1 r e2 :
  prepare env claim w = (Ok l, w1) →
  Client_CreateOrUpdate as_AgentPool pools_CreateOrUpdate (of_AgentPool (la_pool l)) (w_ext w1)
    = (r, e2) →
  match r with
  | Ok pool => ∃ nc w', Nebius_Create env claim w = (Ok nc, w') ∧ w_ext w' = e2 ∧
      w_cleanups w' = w_cleanups w1 ∧ nc_Name nc = api.GetId (nebius.GetMetadata (Some pool)) ∧
      nc_ProviderID nc = agentPoolNameToProviderID (nc_Name nc)
  | Err err => ∃ w', w_ext w' = e2 ∧ w_alloc w' = w_alloc w1 ∧
      (if IsQuotaError Error_ (Some err)
       then Nebius_Create env claim w = (Err (ErrInsufficientCapacity err), w') ∧
            w_cleanups w' = w_cleanups w1 ++ [claim]
       else Nebius_Create env claim w
              = (Err (Errorf "creating stretch agent pool: %w" [] [err]), w') ∧
            w_cleanups w' = w_cleanups w1) ∧
      (nc_ProviderID claim = "" → Nebius_run_cleanup claim w' = (Ok (), w'))
  | Panic _ => True
  end.
Proof.
  intros Hp Hr.
  assert (on_ext (Client_CreateOrUpdate as_AgentPool pools_CreateOrUpdate (of_AgentPool (la_pool l))) w1
          = (r, Build_World e2 (w_alloc w1) (w_types w1) (w_cleanups w1))) as Hext
    by (unfold on_ext, zoom; by rewrite Hr).
  assert (∀ w', nc_ProviderID claim = "" → Nebius_run_cleanup claim w' = (Ok (), w')) as Hnoop.
  { intros w' Hid. unfold Nebius_run_cleanup, Nebius_Delete. by rewrite bool_decide_eq_true_2. }
  destruct r as [pool|err|p]; [| |done].
  - destruct (Nebius_Create_run env claim w l w1 pool e2 Hp Hr) as (it & types & ->).
    eexists _, _. split_and!; reflexivity.
  - unfold Nebius_Create. rewrite (M_bind_Ok _ _ _ _ _ Hp), (attempt_Err _ _ _ _ _ Hext).
    destruct (IsQuotaError Error_ (Some err)).
    + exists (Build_World e2 (w_alloc w1) (w_types w1) (w_cleanups w1 ++ [claim])). split_and!; try done; apply Hnoop.
    + exists (Build_World e2 (w_alloc w1) (w_types w1) (w_cleanups w1)). split_and!; try done; apply Hnoop.
Qed.

(** Deletion keeps Karpenter's contract.  A claim whose provider ID is empty
    or of another scheme is left alone without an error; a pool the service does
    not know is reported as a node claim not found, without a delete call;
    otherwise the pool is deleted, even when reading it failed. *)
Theorem nebius_delete_contract claim w :
  (nc_ProviderID claim = "" → Nebius_Delete claim w = (Ok (), w)) ∧
  (∀ err, nc_ProviderID claim ≠ "" → providerIDToAgentPoolName (nc_ProviderID claim) = Err err →
     Nebius_Delete claim w = (Ok (), w)) ∧
  (∀ name err e1, nc_ProviderID claim ≠ "" →
     providerIDToAgentPoolName (nc_ProviderID claim) = Ok name →
     Client_Get as_AgentPool pools_Get name (w_ext w) = (Err err, e1) →
     Nebius_IsNotFound FromError err = true →
     ∃ w', Nebius_Delete claim w = (Err (ErrNodeClaimNotFound err), w') ∧ w_ext w' = e1) ∧
  (∀ name got e1 d e2, nc_ProviderID claim ≠ "" →
     providerIDToAgentPoolName (nc_ProviderID claim) = Ok name →
     Client_Get as_AgentPool pools_Get name (w_ext w) = (got, e1) →
     match got with Err err => Nebius_IsNotFound FromError err = false | Ok _ => True | _ => False end →
     pools_Delete name e1 = (d, e2) →
     ∃ w', w_ext w' = e2 ∧ Nebius_Delete claim w =
       (match d with Err e => Err (Errorf "deleting agent pool: %w" [] [e]) | d => d end, w')).
Proof.
  assert (∀ name got e1, nc_ProviderID claim ≠ "" →
    providerIDToAgentPoolName (nc_ProviderID claim) = Ok name →
    Client_Get as_AgentPool pools_Get name (w_ext w) = (got, e1) →
    on_ext (Client_Get as_AgentPool pools_Get name) w =
      (got, Build_World e1 (w_alloc w) (w_types w) (w_cleanups w))) as Hget.
  { intros name got e1 _ _ Hg. unfold on_ext, zoom. by rewrite Hg. }
  unfold Nebius_Delete. split_and!.
  - intros Hid. by rewrite bool_decide_eq_true_2.
  - intros err Hid Hn. by rewrite bool_decide_eq_false_2, Hn by done.
  - intros name err e1 Hid Hn Hg Hnf. rewrite bool_decide_eq_false_2, Hn by done.
    rewrite (attempt_Err _ _ _ _ _ (Hget _ _ _ Hid Hn Hg)), Hnf. by eexists.
  - intros name got e1 d e2 Hid Hn Hg Hok Hd. rewrite bool_decide_eq_false_2, Hn by done.
    destruct got as [pool|err|p]; [| |done].
    + rewrite (attempt_Ok _ _ _ _ _ (Hget _ _ _ Hid Hn Hg)).
      unfold wrapf, on_ext, zoom, Client_Delete. cbn [w_ext]. rewrite Hd.
      exists (Build_World e2 (w_alloc w) (w_types w) (w_cleanups w)). by destruct d.
    + rewrite (attempt_Err _ _ _ _ _ (Hget _ _ _ Hid Hn Hg)), Hok.
      unfold wrapf, on_ext, zoom, Client_Delete. cbn [w_ext]. rewrite Hd.
      exists (Build_World e2 (w_alloc w) (w_types w) (w_cleanups w)). by destruct d.
Qed.
End provider.

(** ** Provider IDs *)

Lemma scheme_ok_nebius : scheme_ok ProviderIDScheme = true.
Proof. reflexivity. Qed.

(** The provider ID of an agent pool with a DNS name gives the name back, so
    distinct pools have distinct IDs; the ID of another provider's scheme is
    refused. *)
Theorem provider_id_round_trip (scheme name : string) :
  scheme_ok scheme = true → str_forall name_char name = true →
  providerIDToAgentPoolName (agentPoolNameToProviderID name) = Ok name ∧
  (scheme ≠ ProviderIDScheme →
   is_Err (providerIDToAgentPoolName (scheme +:+ "://" +:+ name))).
Proof.
  intros Hs Hn. unfold providerIDToAgentPoolName, agentPoolNameToProviderID.
  rewrite !Parse_scheme_name by (done || apply scheme_ok_nebius). simpl. split; [done|].
  intros Hne. by rewrite bool_decide_eq_true_2.
Qed.

Lemma provider_id_round_trip_witness :
  providerIDToAgentPoolName (agentPoolNameToProviderID "pool-1") = Ok "pool-1" ∧
  is_Err (providerIDToAgentPoolName ("aks-kaito" +:+ "://" +:+ "pool-1")).
Proof.
  destruct (provider_id_round_trip "aks-kaito" "pool-1" eq_refl eq_refl) as [H1 H2].
  split; [exact H1|]. apply H2. done.
Defined.

(** ** Creation and deletion *)

Lemma claim_kubeadm_ok karpOpts clusterCA name labels :
  ∃ cfg, claim_kubeadm karpOpts clusterCA name labels = Ok (Some cfg) ∧
    kubeadm.Token cfg = Some (KubeletClientTLSBootstrapToken karpOpts) ∧
    kubeadm.NodeLabels cfg = Some ({[ "kubernetes.azure.com/mode" := "user" ]} ∪ (labels ∪
      {[ NodeClaimLabelKey := name; NodeLabelKeyCloudProviderManaged := "false";
         NodeLabelKeyCloudProviderCluster := NodeResourceGroup karpOpts;
         NodeLabelKeyStretchManaged := "true" ]})) ∧
    kubeadm.GetK8SRegisterTaints (Some cfg) = [UnregisteredNoExecuteTaint].
Proof. eexists. split; [reflexivity|]. done. Qed.

(** ** The hypotheses can hold *)
Module Mem.
Import InstanceTypes.Mem.
#[global] Instance runtime : ProtoRuntime nebius.AgentPool :=
  Helper.Mem.countable_runtime nebius.AgentPool "AgentPool".

Definition class : NebiusNodeClass :=
  {| nbc_Name := "default"; nbc_ResourceVersion := 1; nbc_DeletionTimestamp := None;
     nbc_Finalizers := []; nbc_Conditions := [];
     nbc_Spec := {| ProjectID := "project"; Region := "eu-north1"; SubnetID := "subnet";
       OSDiskSizeGB := Some 128; OSDiskImageFamily := None; AllocateNodePublicIP := None;
       WireguardPeerCIDR := Some "100.96.0.0/24"; MaxPodsPerNode := None |} |}.
Definition claim : NodeClaim :=
  {| nc_Name := "claim-1"; nc_Labels := ∅; nc_CreationTimestamp := 0;
     nc_NodeClassRef := Some {| ref_Group := Group; ref_Kind := "NebiusNodeClass"; ref_Name := "default" |};
     nc_Requirements := nc_Requirements InstanceTypes.Mem.claim;
     nc_Requests := ∅; nc_ProviderID := ""; nc_Capacity := ∅; nc_Allocatable := ∅ |}.
Definition env : Env :=
  {| env_cloud := cloud; env_rnd := 0;
     env_cache := {| cache_List := λ _ _, Ok []; IPAllocator.cache_Get := λ _, None |} |}.
Definition opts : KarpOptions :=
  {| ClusterEndpoint := "https://api"; KubeletClientTLSBootstrapToken := "token";
     NodeResourceGroup := "group" |}.
Definition w0 : World () := Build_World () (NewIPAllocator GroupKind_) newProvider [].

Notation prepare := (prepare (λ _, mret class) opts "1.34.2" "ca" gk_Kind id ParseFloat id az
  (λ _ _, ∅) ∅ ∅ env claim).
Lemma prepare_ok : ∃ l w', prepare w0 = (Ok l, w').
Proof.
  destruct (prepare w0) as [r w'] eqn:H.
  assert (is_Ok (prepare w0).1 = true) as Hok by (vm_compute; reflexivity).
  rewrite H in Hok. destruct r as [l| |]; [|done..]. by exists l, w'.
Qed.
End Mem.

Lemma nebius_claim_pool_witness :
  ∃ l w', Mem.prepare Mem.w0 = (Ok l, w') ∧
    api.GetId (nebius.GetMetadata (Some (la_pool l))) = "claim-1".
Proof.
  destruct Mem.prepare_ok as (l & w' & H). exists l, w'. split; [exact H|].
  destruct (nebius_claim_pool (λ _, mret Mem.class) Mem.opts "1.34.2" "ca" gk_Kind id
    InstanceTypes.Mem.ParseFloat id InstanceTypes.Mem.az (λ _ _, ∅) ∅ ∅ Mem.env Mem.claim Mem.w0 l w'
    (λ x, reflexivity x) H) as (ref & c & cfg & _ & _ & _ & _ & _ & Hid & _). exact Hid.
Defined.

Lemma nebius_create_outcome_witness :
  ∃ w1 w' : World (), Nebius_Create (Msg := nebius.AgentPool) (λ p, p) Some
    (λ _, fail (ErrExt "Quota failure: too many disks"))
    (λ _, mret Mem.class) (λ e, match e with ErrExt s => s | _ => "" end) Mem.opts
    (λ _, ∅) (λ _, ∅) it_Capacity "1.34.2" "ca" gk_Kind id InstanceTypes.Mem.ParseFloat id
    InstanceTypes.Mem.az (λ _ _, ∅) ∅ ∅ Mem.env Mem.claim Mem.w0
    = (Err (ErrInsufficientCapacity (ErrExt "Quota failure: too many disks")), w') ∧
    w_cleanups w' = w_cleanups w1 ++ [Mem.claim].
Proof.
  destruct Mem.prepare_ok as (l & w1 & H).
  destruct (nebius_create_outcome (Msg := nebius.AgentPool) (λ p, p) Some
    (λ _, fail (ErrExt "Quota failure: too many disks")) (λ _, mret None)
    (λ _, mret ()) (λ _, mret Mem.class) (λ _, None) (λ e, match e with ErrExt s => s | _ => "" end)
    Mem.opts (λ _, ∅) (λ _, ∅) it_Capacity "1.34.2" "ca" gk_Kind id InstanceTypes.Mem.ParseFloat id
    InstanceTypes.Mem.az (λ _ _, ∅) ∅ ∅ Mem.env Mem.claim Mem.w0 l w1
    (Err (ErrExt "Quota failure: too many disks")) () H) as (w' & _ & _ & Hr & _).
  - unfold Client_CreateOrUpdate. by destruct (w_ext w1).
  - exists w1, w'. exact Hr.
Defined.
