(* ===== verification/Kaito.v ===== *)
(** * The Kaito cloud provider

    [karpenter/pkg/cloudproviders/kaito] and [karpenter/pkg/options/kaito.go]:
    node claims of Kaito, which name an Azure GPU size, as Nebius agent pools of
    a fixed preset.  The provider shares the agent pool service with the Nebius
    one. *)
From S2P Require Import Prelude GoStr GoNet GoURL Karp IPAllocator Hub Proto Store Helper DB Server.
From S2P Require Import UserData NebiusResource NebiusInstance InstanceTypes V1alpha1 NebiusProvider.
From stdpp Require Import options.
Open Scope Z_scope.

Definition Kaito_Group : string := "kaito.sh".
Definition Kaito_ProviderIDScheme : string := "aks-kaito".
Definition kaitoNodeClassName : string := "default".
Definition Kaito_GroupKind : GroupKind := {| gk_Group := Kaito_Group; gk_Kind := "KaitoNodeClass" |}.

(** ** The options *)
Record KaitoOptions := {
  NebiusProjectID : string; NebiusRegion : string; NebiusSubnetID : string;
  NebiusWireguardPeerCIDR : string;
}.

Definition Validate (k : KaitoOptions) : res () :=
  if bool_decide (NebiusProjectID k = "") then
    Err (Errorf "flex-kaito.nebius-project-id is required" [] [])
  else if bool_decide (NebiusRegion k = "") then
    Err (Errorf "flex-kaito.nebius-region is required" [] [])
  else if bool_decide (NebiusSubnetID k = "") then
    Err (Errorf "flex-kaito.nebius-subnet-id is required" [] [])
  else Ok ().

Definition MustGetKaitoOptionsFromContext (opts : option KaitoOptions) : res KaitoOptions :=
  match opts with Some k => Ok k | None => Panic "kaito options not found in context" end.

(** ** [nodeclaim.go] *)
Definition Kaito_providerIDToAgentPoolName (providerID : string) : res string :=
  match Parse providerID with
  | Ok parsedURL =>
      if bool_decide (Scheme parsedURL ≠ Kaito_ProviderIDScheme) then
        Err (Errorf "unexpected providerID scheme %q, expected %q"
               [Scheme parsedURL; Kaito_ProviderIDScheme] [])
      else Ok (Host parsedURL)
  | Err err => Err (Errorf "parsing providerID %q: %w" [providerID] [err])
  | Panic p => Panic p
  end.
Definition Kaito_agentPoolNameToProviderID (agentPoolName : string) : string :=
  Kaito_ProviderIDScheme +:+ "://" +:+ agentPoolName.

Record nodeClaimRequirements := {
  InstanceTypeRequested : string; DiskSizeGibibytesRequested : Z;
}.

(** The requested size: the stable label's, or else the SKU name's. *)
Definition requested_step (rv : string) (req : NodeSelectorRequirement) : string :=
  if bool_decide (req_Key req = LabelInstanceTypeStable) then
    match req_Values req with v :: _ => v | [] => rv end
  else if bool_decide (req_Key req = "karpenter.azure.com/sku-name") then
    match req_Values req with v :: _ => if bool_decide (rv = "") then v else rv | [] => rv end
  else rv.

Definition resolveNodeClaimRequirements (nodeClaim : NodeClaim) : res nodeClaimRequirements :=
  let requested := foldl requested_step "" (nc_Requirements nodeClaim) in
  if bool_decide (requested = "") then
    Err (Errorf "no instance type requirement from kaito node claim: %q" [nc_Name nodeClaim] [])
  else
    let disk := match nc_Requests nodeClaim !! ResourceStorage with
                | Some quantity => Z.quot quantity (1024 * 1024 * 1024)
                | None => 0
                end in
    if bool_decide (disk <= 0) then
      Err (Errorf "invalid disk size requirement from kaito node claim: %q" [nc_Name nodeClaim] [])
    else Ok {| InstanceTypeRequested := requested; DiskSizeGibibytesRequested := disk |}.

Record resolvedNebiusAgentPoolSettings := {
  set_Platform : string; set_Preset : string; set_ImageFamily : string;
  set_OSDiskSizeGibibytes : Z; set_Wireguard : option wireguard.Config;
}.

(** The Azure sizes known: platform, preset and image family. *)
Definition azureGPUInstanceTypeToNebiusPlatformPreset : gmap string (string * string * string) :=
  {[ "Standard_NC6s_v3" := ("gpu-h100-sxm", "1gpu-16vcpu-200gb", "ubuntu24.04-cuda12") ]}.

Definition minimalOSDiskSizeGibibytes : Z := 100.

(** The kubeadm configuration of a claim's node; the zone and capacity type are
    constants. *)
Definition Kaito_claim_pool (karpOpts : KarpOptions) (kaitoOpts : KaitoOptions) (clusterCA : string)
    (nodeClaim : NodeClaim) (reqs : nodeClaimRequirements) (settings : resolvedNebiusAgentPoolSettings)
    : res nebius.AgentPool :=
  kubeadmConfig ← claim_kubeadm karpOpts clusterCA (nc_Name nodeClaim)
    {[ LabelInstanceTypeStable := InstanceTypeRequested reqs;
       LabelTopologyZone := "1";
       CapacityTypeLabelKey := "on-demand" ]};
  Ok {| nebius.Metadata := Some {| api.Type_ := None; api.Id := Some (nc_Name nodeClaim) |};
        nebius.Spec := Some
          {| nebius.ProjectId := Some (NebiusProjectID kaitoOpts);
             nebius.Region := Some (NebiusRegion kaitoOpts);
             nebius.SubnetId := Some (NebiusSubnetID kaitoOpts);
             nebius.Platform := Some (set_Platform settings);
             nebius.Preset := Some (set_Preset settings);
             nebius.ImageFamily := Some (set_ImageFamily settings);
             nebius.OsDiskSizeGibibytes := Some (set_OSDiskSizeGibibytes settings);
             nebius.Kubeadm := kubeadmConfig; nebius.Wireguard := set_Wireguard settings;
             nebius.Gpu := None; nebius.Zone := None; nebius.Capacity := None;
             nebius.KubernetesVersion := None |};
        nebius.Status := None |}.

Definition strechAgentPoolToNodeClaim (agentPool : option nebius.AgentPool) : NodeClaim :=
  {| nc_Name := api.GetId (nebius.GetMetadata agentPool);
     nc_Labels := ∅;
     nc_CreationTimestamp := default 0 (nebius.GetCreatedAt (nebius.GetStatus agentPool));
     nc_NodeClassRef := None; nc_Requirements := []; nc_Requests := ∅;
     nc_ProviderID := Kaito_agentPoolNameToProviderID (api.GetId (nebius.GetMetadata agentPool));
     nc_Capacity := ∅; nc_Allocatable := ∅ |}.

(** ** [cloudprovider.go] *)
Record KWorld (E : Type) := { k_ext : E; k_alloc : IPAllocator; k_cleanups : list NodeClaim }.
Arguments k_ext {E}.
Arguments k_alloc {E}.
Arguments k_cleanups {E}.
Arguments Build_KWorld {E}.

Section provider.
Context `{SCH : Scheduling} {E Msg : Type} `{PR : ProtoRuntime Msg}.
Notation World := (KWorld E).
Context (of_AgentPool : nebius.AgentPool → Msg) (as_AgentPool : Msg → option nebius.AgentPool).
Context (pools_CreateOrUpdate : option Any → M E (option Any)) (pools_Get : string → M E (option Any))
        (pools_List : string → M E (list Any)) (pools_Delete : string → M E ()).
Context (FromError : error → option Code) (Error_ : error → string) (karpOpts : KarpOptions).
Context (wellknown_labels : Requirements → gmap string string).
Context (clusterCA : string) (kaitoOptions : option KaitoOptions).
Context (NodeClassLabelKey : GroupKind → string) (range : list string → list string).
(** The informer cache and the random draw of the allocator during one call. *)
Context (env_cache : IPAllocator.Cache) (env_rnd : Z).

Definition k_on_ext {A} (c : M E A) : M World A :=
  zoom k_ext (λ e w, Build_KWorld e (k_alloc w) (k_cleanups w)) c.
Definition k_on_alloc {A} (c : M IPAllocator A) : M World A :=
  zoom k_alloc (λ a w, Build_KWorld (k_ext w) a (k_cleanups w)) c.
Definition k_spawn_cleanup (nodeClaim : NodeClaim) : M World () :=
  modify (λ w, Build_KWorld (k_ext w) (k_alloc w) (k_cleanups w ++ [nodeClaim])).

Definition resolveNebiusAgentPoolSettings (kaitoOpts : KaitoOptions) (nodeClaim : NodeClaim)
    (reqs : nodeClaimRequirements) : M World resolvedNebiusAgentPoolSettings :=
  match azureGPUInstanceTypeToNebiusPlatformPreset !! InstanceTypeRequested reqs with
  | None => fail (Errorf "no predefined mapping for SKU %q in nebius" [InstanceTypeRequested reqs] [])
  | Some (platform, preset, imageFamily) =>
      let size := Z.max (DiskSizeGibibytesRequested reqs + 30) minimalOSDiskSizeGibibytes in
      let cidr := NebiusWireguardPeerCIDR kaitoOpts in
      wg ← (if bool_decide (cidr ≠ "") then
              wgPeerIP ← wrapf "failed to allocate wireguard peer IP: %w" []
                (k_on_alloc (AllocateIP NodeClassLabelKey range env_cache env_rnd cidr
                               kaitoNodeClassName (nc_Name nodeClaim)));
              mret (Some {| wireguard.PeerIp := Some wgPeerIP |})
            else mret None);
      mret {| set_Platform := platform; set_Preset := preset; set_ImageFamily := imageFamily;
              set_OSDiskSizeGibibytes := size; set_Wireguard := wg |}
  end.

Definition Kaito_prepare (nodeClaim : NodeClaim) : M World nebius.AgentPool :=
  nodeClaimReqs ← lift (resolveNodeClaimRequirements nodeClaim);
  kaitoOpts ← lift (MustGetKaitoOptionsFromContext kaitoOptions);
  _ ← wrapf "kaito options not configured: %w" [] (lift (Validate kaitoOpts));
  settings ← resolveNebiusAgentPoolSettings kaitoOpts nodeClaim nodeClaimReqs;
  lift (Kaito_claim_pool karpOpts kaitoOpts clusterCA nodeClaim nodeClaimReqs settings).

Definition Kaito_Create (nodeClaim : NodeClaim) : M World NodeClaim :=
  agentPool ← Kaito_prepare nodeClaim;
  created ← attempt (k_on_ext (Client_CreateOrUpdate as_AgentPool pools_CreateOrUpdate
                                 (of_AgentPool agentPool)));
  match created with
  | inl err =>
      if IsQuotaError Error_ (Some err) then
        _ ← k_spawn_cleanup nodeClaim;
        fail (ErrInsufficientCapacity err)
      else fail (Errorf "creating stretch agent pool: %w" [] [err])
  | inr agentPoolCreated =>
      mret (with_labels (wellknown_labels (claim_reqs (nc_Requirements nodeClaim)))
              (strechAgentPoolToNodeClaim (Some agentPoolCreated)))
  end.

Definition Kaito_Delete (nodeClaim : NodeClaim) : M World () :=
  let providerID := nc_ProviderID nodeClaim in
  if bool_decide (providerID = "") then mret ()
  else
    match Kaito_providerIDToAgentPoolName providerID with
    | Err _ => mret ()
    | Panic p => panic p
    | Ok agentPoolName =>
        got ← attempt (k_on_ext (Client_Get as_AgentPool pools_Get agentPoolName));
        match got with
        | inl err =>
            if Nebius_IsNotFound FromError err then fail (ErrNodeClaimNotFound err)
            else wrapf "deleting agent pool: %w" [] (k_on_ext (Client_Delete pools_Delete agentPoolName))
        | inr _ => wrapf "deleting agent pool: %w" [] (k_on_ext (Client_Delete pools_Delete agentPoolName))
        end
    end.

Definition Kaito_Get (providerID : string) : M World NodeClaim :=
  agentPoolName ← lift (Kaito_providerIDToAgentPoolName providerID);
  got ← attempt (k_on_ext (Client_Get as_AgentPool pools_Get agentPoolName));
  match got with
  | inl err => if Nebius_IsNotFound FromError err then fail (ErrNodeClaimNotFound err) else fail err
  | inr agentPool => mret (strechAgentPoolToNodeClaim (Some agentPool))
  end.

Definition Kaito_GetInstanceTypes (nodePool : NodePool) : M World (list InstanceType) :=
  panic "unimplemented".

Definition Kaito_List : M World (list NodeClaim) :=
  agentPools ← k_on_ext (Client_List as_AgentPool pools_List "");
  mret ((λ agentPool, strechAgentPoolToNodeClaim (Some agentPool)) <$> agentPools).

Definition Kaito_GetSupportedNodeClasses : list string := ["KaitoNodeClass"].
Definition Kaito_IsDrifted (nodeClaim : NodeClaim) : M World string := mret "".
Definition Kaito_Name : string := Kaito_ProviderIDScheme.
Definition Kaito_RepairPolicies : list () := [].
Definition Kaito_Close (conn_Close : option (M E ())) : M World () :=
  match conn_Close with
  | None => mret ()
  | Some close =>
      r ← attempt (k_on_ext close);
      match r with inl e => fail (ErrJoin [e]) | inr _ => mret () end
  end.

Definition Kaito_provider (conn_Close : option (M E ())) : @CloudProvider World InstanceType string () :=
  {| cp_Create := Kaito_Create; cp_Delete := Kaito_Delete; cp_Get := Kaito_Get; cp_List := Kaito_List;
     cp_GetInstanceTypes := Kaito_GetInstanceTypes;
     cp_GetSupportedNodeClasses := Kaito_GetSupportedNodeClasses; cp_IsDrifted := Kaito_IsDrifted;
     cp_RepairPolicies := Kaito_RepairPolicies; cp_Close := Some (Kaito_Close conn_Close) |}.

Definition Kaito_Register (NewConnection : res ())
    (hub : @cloudProviderSet World InstanceType string ()) (conn_Close : option (M E ()))
    : res (@cloudProviderSet World InstanceType string ()) :=
  match NewConnection with
  | Err err => Err (Errorf "creating stretch plugin connection: %w" [] [err])
  | Panic p => Panic p
  | Ok _ => Ok (Register hub (Kaito_provider conn_Close) Kaito_GroupKind Kaito_ProviderIDScheme)
  end.
End provider.

(** ** Properties *)

Lemma scheme_ok_kaito : scheme_ok Kaito_ProviderIDScheme = true.
Proof. reflexivity. Qed.

Lemma kaito_id_round_trip name :
  str_forall name_char name = true →
  Kaito_providerIDToAgentPoolName (Kaito_agentPoolNameToProviderID name) = Ok name.
Proof.
  intros Hn. unfold Kaito_providerIDToAgentPoolName, Kaito_agentPoolNameToProviderID.
  by rewrite Parse_scheme_name by (done || apply scheme_ok_kaito).
Qed.

(** The settings decided for a claim: a known size, and a disk at least 30 GiB
    above the request and of the minimal size. *)
Lemma kaito_requirements_ok nodeClaim reqs :
  resolveNodeClaimRequirements nodeClaim = Ok reqs →
  InstanceTypeRequested reqs ≠ "" ∧ 0 < DiskSizeGibibytesRequested reqs.
Proof.
  unfold resolveNodeClaimRequirements. case_bool_decide as Hr; [done|].
  case_bool_decide as Hd; [done|]. intros [= <-]. simpl. split; [done|lia].
Qed.

Lemma kaito_pool_version karpOpts kaitoOpts clusterCA nodeClaim reqs settings pool :
  Kaito_claim_pool karpOpts kaitoOpts clusterCA nodeClaim reqs settings = Ok pool →
  nebius.GetKubernetesVersion (nebius.GetSpec (Some pool)) = "".
Proof.
  unfold Kaito_claim_pool.
  destruct (claim_kubeadm_ok karpOpts clusterCA (nc_Name nodeClaim)
    {[ LabelInstanceTypeStable := InstanceTypeRequested reqs; LabelTopologyZone := "1";
       CapacityTypeLabelKey := "on-demand" ]}) as (cfg & -> & _). by intros [= <-].
Qed.

Section composed.
Context `{SCH : Scheduling} {E Msg : Type} `{PR : ProtoRuntime Msg} `{OB : Object Msg}.
Context (of_AgentPool : nebius.AgentPool → Msg) (as_AgentPool : Msg → option nebius.AgentPool).
Context (FromError : error → option Code) (Error_ : error → string) (karpOpts : KarpOptions).
Context (wellknown_labels : Requirements → gmap string string).
Context (clusterCA : string) (kaitoOptions : option KaitoOptions).
Context (NodeClassLabelKey : GroupKind → string) (range : list string → list string).
Context (env_cache : IPAllocator.Cache) (env_rnd : Z).
(** The plugin behind the provider: the agent pools server with the Nebius back
    end registered. *)
Context (srv : @Parent E Msg) (back : server E).
Context (sdkPointer : option (NebiusInstance.SDK E))
        (marshal_step : flex.Step → res string) (json_Marshal : list string → res string)
        (bootstrapTemplate : string → string → res string) (yaml_Marshal : UserData → res string)
        (wgSpokeScript : string).

(** C29: with the agent pools server of the plugin behind it, the Kaito provider
    never creates a node: its agent pools carry no Kubernetes version, which the
    Nebius back end refuses.  A claim it can resolve fails with that refusal, and
    the plugin's state is not changed. *)
Theorem kaito_create_fails claim w pool w1 :
  ProtoLaws Msg → (∀ p, as_AgentPool (of_AgentPool p) = Some p) →
  (∀ p, is_Ok (any_New (of_AgentPool p))) →
  (∀ p, Servers srv !! TypeURL (of_AgentPool p) = Some back) →
  srv_CreateOrUpdate back = Instance_CreateOrUpdate of_AgentPool as_AgentPool FromError sdkPointer
    marshal_step json_Marshal bootstrapTemplate yaml_Marshal wgSpokeScript →
  IsQuotaError Error_ (Some (ErrStatus InvalidArgument "kubernetes_version is required")) = false →
  Kaito_prepare karpOpts clusterCA kaitoOptions NodeClassLabelKey range env_cache env_rnd claim w
    = (Ok pool, w1) →
  ∃ w', Kaito_Create of_AgentPool as_AgentPool (Parent_CreateOrUpdate srv) Error_ karpOpts
    wellknown_labels clusterCA kaitoOptions NodeClassLabelKey range env_cache env_rnd claim w =
    (Err (Errorf "creating stretch agent pool: %w" []
            [ErrStatus InvalidArgument "kubernetes_version is required"]), w') ∧
    k_ext w' = k_ext w1.
Proof.
  intros PL Has Hany Hreg Hback Hquota Hprep. unfold Kaito_Create.
  rewrite (M_bind_Ok _ _ _ _ _ Hprep).
  assert (nebius.GetKubernetesVersion (nebius.GetSpec (Some pool)) = "") as Hv.
  { apply M_bind_Ok_inv in Hprep as (? & ? & _ & Hprep).
    apply M_bind_Ok_inv in Hprep as (? & ? & _ & Hprep).
    apply M_bind_Ok_inv in Hprep as (? & ? & _ & Hprep).
    apply M_bind_Ok_inv in Hprep as (? & ? & _ & [Hprep _]%lift_inv).
    by eapply kaito_pool_version. }
  pose proof (Hany pool) as Hok. destruct (any_New (of_AgentPool pool)) as [it| |] eqn:Eit; [|done..].
  assert (AnyTo as_AgentPool (Some it) = Ok pool) as Hit.
  { unfold AnyTo, To. rewrite (any_round _ _ Eit). simpl. by rewrite Has. }
  assert (k_on_ext (Client_CreateOrUpdate as_AgentPool (Parent_CreateOrUpdate srv) (of_AgentPool pool)) w1
    = (Err (ErrStatus InvalidArgument "kubernetes_version is required"),
       Build_KWorld (k_ext w1) (k_alloc w1) (k_cleanups w1))) as Hext.
  { unfold k_on_ext, zoom, Client_CreateOrUpdate. rewrite (bind_lift_Ok _ _ _ _ Eit).
    assert (Parent_CreateOrUpdate srv (Some it) (k_ext w1) =
            (Err (ErrStatus InvalidArgument "kubernetes_version is required"), k_ext w1)) as Hp.
    { unfold Parent_CreateOrUpdate. rewrite (any_New_url _ _ Eit).
      change ("type.googleapis.com/" +:+ FullName (of_AgentPool pool))
        with (TypeURL (of_AgentPool pool)).
      rewrite Hreg, Hback. apply M_bind_Err. by eapply create_no_version. }
    by rewrite (M_bind_Err _ _ _ _ _ Hp). }
  rewrite (attempt_Err _ _ _ _ _ Hext), Hquota. by eexists.
Qed.
End composed.

(** ** The hypotheses can hold *)
Module Mem.
Import InstanceTypes.Mem.
#[global] Instance runtime : ProtoRuntime nebius.AgentPool :=
  Helper.Mem.countable_runtime nebius.AgentPool "AgentPool".
#[global] Instance object : Object nebius.AgentPool :=
  {| is_Object _ := true; ObjectId p := api.GetId (nebius.GetMetadata (Some p)); Redact p := Ok p |}.

Definition create : option Any → M () (option Any) :=
  Instance_CreateOrUpdate (λ p, p) Some MemService.code_of None (λ _, Ok "{}") (λ _, Ok "[]")
    (λ _ _, Ok "#!") (λ _, Ok "yaml") "#!wg".
Definition back : server () :=
  {| srv_CreateOrUpdate := create; srv_List _ := mret []; srv_Get _ := mret None; srv_Delete _ := mret () |}.
Definition db : DB () nebius.AgentPool :=
  {| db_List := mret []; db_Get _ := mret None; db_CreateOrUpdate _ := mret (); db_Delete _ := mret () |}.
Definition srv : Parent () nebius.AgentPool :=
  {| DB_ := db; Servers := {[ "type.googleapis.com/AgentPool" := back ]} |}.

Definition options : KaitoOptions :=
  {| NebiusProjectID := "project"; NebiusRegion := "eu-north1"; NebiusSubnetID := "subnet";
     NebiusWireguardPeerCIDR := "100.96.1.0/24" |}.
Definition claim : NodeClaim :=
  {| nc_Name := "ws-1"; nc_Labels := ∅; nc_CreationTimestamp := 0; nc_NodeClassRef := None;
     nc_Requirements := [{| req_Key := LabelInstanceTypeStable; req_Operator := "In";
                            req_Values := ["Standard_NC6s_v3"]; req_MinValues := None |}];
     nc_Requests := {[ ResourceStorage := 75161927680 ]}; nc_ProviderID := "";
     nc_Capacity := ∅; nc_Allocatable := ∅ |}.
Definition cache : IPAllocator.Cache :=
  {| cache_List := λ _ _, Ok []; IPAllocator.cache_Get := λ _, None |}.
Definition w0 : KWorld () := Build_KWorld () (NewIPAllocator Kaito_GroupKind) [].

Notation prepare := (Kaito_prepare NebiusProvider.Mem.opts "ca" (Some options) gk_Kind id cache 0 claim).
Lemma kaito_prepare_ok : ∃ pool w', prepare w0 = (Ok pool, w').
Proof.
  destruct (prepare w0) as [r w'] eqn:H.
  assert (is_Ok (prepare w0).1 = true) as Hok by (vm_compute; reflexivity).
  rewrite H in Hok. destruct r as [l| |]; [|done..]. by exists l, w'.
Qed.
End Mem.

Lemma kaito_create_fails_witness :
  ∃ w', Kaito_Create (λ p, p) Some (Parent_CreateOrUpdate Mem.srv) (λ _, "") NebiusProvider.Mem.opts
    (λ _, ∅) "ca" (Some Mem.options) gk_Kind id Mem.cache 0 Mem.claim Mem.w0 =
  (Err (Errorf "creating stretch agent pool: %w" []
          [ErrStatus InvalidArgument "kubernetes_version is required"]), w').
Proof.
  destruct Mem.kaito_prepare_ok as (pool & w1 & H).
  destruct (kaito_create_fails (λ p, p) Some MemService.code_of (λ _, "") NebiusProvider.Mem.opts
    (λ _, ∅) "ca" (Some Mem.options) gk_Kind id Mem.cache 0 Mem.srv Mem.back None (λ _, Ok "{}")
    (λ _, Ok "[]") (λ _ _, Ok "#!") (λ _, Ok "yaml") "#!wg" Mem.claim Mem.w0 pool w1
    (Helper.Mem.countable_laws _ _) (λ _, eq_refl) (λ _, I) (λ _, lookup_singleton_eq _ _) eq_refl
    eq_refl H) as (w' & Hc & _).
  by exists w'.
Defined.
