(* ===== verification/Controllers.v ===== *)
(** * The controllers

    [karpenter/pkg/controllers]: the status and termination controllers of the
    Nebius node class, and the controller that gives nodes the provider ID of
    their node claim.  The Kubernetes API is an interface; its laws say what a
    merge patch can change. *)
From S2P Require Import Prelude GoStr Karp InstanceTypes V1alpha1 NebiusProvider.
From stdpp Require Import options.
Open Scope Z_scope.

(** [reconcile.Result]; delays in seconds. *)
Record Result := { Requeue : bool; RequeueAfter : option Z }.
Definition done_ : Result := {| Requeue := false; RequeueAfter := None |}.

(** ** The Kubernetes client *)

(** The calls the controllers make.  [Patch obj base] sends the difference of
    [obj] to [base] and answers the object the server has then. *)
Class NodeClassClient (W : Type) := {
  Patch : NebiusNodeClass → NebiusNodeClass → M W NebiusNodeClass;
  Patch_Lock : NebiusNodeClass → NebiusNodeClass → M W NebiusNodeClass;  (* with optimistic lock *)
  Status_Patch : NebiusNodeClass → NebiusNodeClass → M W NebiusNodeClass;
  List_NodeClaims : string → M W (list string);  (* by node class name: their names *)
  Publish : string → list string → M W ();
}.

(** The node classes the server stores, and what a call may change of their
    finalizers: a patch of the object replaces the list when the patched object
    has another one than the base, and the status subresource never does. *)
Definition finalizers_of (o : option NebiusNodeClass) : option (list string) := nbc_Finalizers <$> o.

Class NodeClassLaws (W : Type) `{NodeClassClient W} := {
  stored : W → string → option NebiusNodeClass;
  patch_law obj base w r w' name :
    Patch obj base w = (r, w') ∨ Patch_Lock obj base w = (r, w') →
    finalizers_of (stored w' name) = finalizers_of (stored w name) ∨
    (nbc_Finalizers obj ≠ nbc_Finalizers base ∧
     finalizers_of (stored w' name) = Some (nbc_Finalizers obj));
  status_law obj base w r w' name :
    Status_Patch obj base w = (r, w') →
    finalizers_of (stored w' name) = finalizers_of (stored w name);
  list_law class w : stored (List_NodeClaims class w).2 = stored w;
  publish_law class names w : stored (Publish class names w).2 = stored w;
}.

(** ** The status controller *)
Section nodeclass.
Context {W : Type} `{NC : NodeClassClient W}.
(** [StatusConditions().SetTrue]. *)
Context (SetTrue : string → NebiusNodeClass → NebiusNodeClass).

Definition ContainsFinalizer (o : NebiusNodeClass) (f : string) : bool :=
  bool_decide (f ∈ nbc_Finalizers o).
Definition AddFinalizer (o : NebiusNodeClass) (f : string) : NebiusNodeClass :=
  if ContainsFinalizer o f then o else set_finalizers (nbc_Finalizers o ++ [f]) o.
Definition RemoveFinalizer (o : NebiusNodeClass) (f : string) : NebiusNodeClass :=
  set_finalizers (filter (λ x, x ≠ f) (nbc_Finalizers o)) o.

(** The object and the base of the patch are the same object, finalizer
    included; the call leaves in the object what the server answers. *)
Definition ensureFinalizer (nodeClass : NebiusNodeClass) : M W NebiusNodeClass :=
  if ContainsFinalizer nodeClass TerminationFinalizer then mret nodeClass
  else
    let nodeClass := AddFinalizer nodeClass TerminationFinalizer in
    wrapf "patch finalizer: %w" [] (Patch nodeClass nodeClass).

Definition Status_Reconcile (nodeClass : NebiusNodeClass) : M W Result :=
  let existing := nodeClass in
  future ← ensureFinalizer nodeClass;
  let future := SetTrue ConditionTypeValidationSucceeded future in
  if bool_decide (existing ≠ future) then
    _ ← Status_Patch future existing;
    mret done_
  else mret done_.

(** ** The termination controller *)

(** The node class a deleted node claim wakes the controller for. *)
Definition claim_requests (nc : NodeClaim) : list string :=
  match nc_NodeClassRef nc with
  | None => []
  | Some ref =>
      if bool_decide (ref_Group ref ≠ Group) then []
      else if bool_decide (ref_Kind ref ≠ "NebiusNodeClass") then []
      else [ref_Name ref]
  end.

Definition finalize (nodeClass : NebiusNodeClass) : M W Result :=
  if negb (ContainsFinalizer nodeClass TerminationFinalizer) then mret done_
  else
    let stored := nodeClass in
    claims ← wrapf "listing nodeclaims that are using nodeclass, %w" []
               (List_NodeClaims (nbc_Name nodeClass));
    if bool_decide (claims ≠ []) then
      _ ← Publish (nbc_Name nodeClass) claims;
      mret {| Requeue := false; RequeueAfter := Some 600 |}
    else
      let nodeClass := RemoveFinalizer nodeClass TerminationFinalizer in
      if bool_decide (stored ≠ nodeClass) then
        r ← attempt (Patch_Lock nodeClass stored);
        match r with
        | inl err =>
            if k8s_IsConflict err then mret {| Requeue := true; RequeueAfter := None |}
            else match IgnoreNotFound (Errorf "removing termination finalizer, %w" [] [err]) with
                 | None => mret done_
                 | Some e => fail e
                 end
        | inr _ => mret done_
        end
      else mret done_.

Definition Termination_Reconcile (nodeClass : NebiusNodeClass) : M W Result :=
  match nbc_DeletionTimestamp nodeClass with
  | None => mret done_
  | Some _ => finalize nodeClass
  end.

(** The reconciliations, of any version of a node class the cache holds. *)
Inductive reconcile_step : W → W → Prop :=
| status_step nodeClass w : reconcile_step w (Status_Reconcile nodeClass w).2
| termination_step nodeClass w : reconcile_step w (Termination_Reconcile nodeClass w).2.
End nodeclass.

(** ** The node controller *)
Section nodes.
Context {W : Type}.
(** The client's calls on node claims and nodes. *)
Context (Get_NodeClaim : string → M W NodeClaim) (Patch_Node : Node → Node → M W ()).

Definition with_ProviderID (providerID : string) (node : Node) : Node :=
  {| node_Name := node_Name node; node_Labels := node_Labels node;
     node_Addresses := node_Addresses node; node_ProviderID := providerID |}.

Definition SetProviderID_Reconcile (node : Node) : M W Result :=
  if bool_decide (node_ProviderID node ≠ "") then mret done_
  else
    match node_Labels node !! NodeClaimLabelKey with
    | None => mret done_
    | Some nodeClaimName =>
        got ← attempt (Get_NodeClaim nodeClaimName);
        match got with
        | inl err => match IgnoreNotFound err with None => mret done_ | Some e => fail e end
        | inr nodeClaim =>
            if bool_decide (nc_ProviderID nodeClaim = "") then
              mret {| Requeue := false; RequeueAfter := Some 30 |}
            else
              _ ← Patch_Node (with_ProviderID (nc_ProviderID nodeClaim) node) node;
              mret done_
        end
    end.

(** A node that has a provider ID keeps it; a node without one gets the ID
    of the claim its label names, once the claim has one, and until then the
    controller comes back; nothing else of the node is changed, and a further
    reconciliation of the result does nothing. *)
Theorem set_provider_id node w r w' :
  SetProviderID_Reconcile node w = (Ok r, w') →
  (w' = w ∧ node_ProviderID node ≠ "") ∨
  (w' = w ∧ node_Labels node !! NodeClaimLabelKey = None) ∨
  ∃ name got w1, node_ProviderID node = "" ∧ node_Labels node !! NodeClaimLabelKey = Some name ∧
    Get_NodeClaim name w = (got, w1) ∧
    match got with
    | Ok claim =>
        if bool_decide (nc_ProviderID claim = "") then w' = w1 ∧ RequeueAfter r = Some 30
        else Patch_Node (with_ProviderID (nc_ProviderID claim) node) node w1 = (Ok (), w') ∧
             SetProviderID_Reconcile (with_ProviderID (nc_ProviderID claim) node) w' = (Ok done_, w')
    | Err err => k8s_IsNotFound err = true ∧ w' = w1 ∧ r = done_
    | Panic _ => False
    end.
Proof.
  unfold SetProviderID_Reconcile. case_bool_decide as Hid; [intros [= _ <-]; by left|].
  destruct (node_Labels node !! NodeClaimLabelKey) as [name|] eqn:El;
    [|intros [= _ <-]; by right; left].
  intros H. right. right. destruct (Get_NodeClaim name w) as [got w1] eqn:Eg.
  exists name, got, w1. split_and!; [done|done|done|].
  destruct got as [claim|err|p].
  - rewrite (attempt_Ok _ _ _ _ _ Eg) in H. case_bool_decide as Hc; [by injection H as <- <-|].
    apply M_bind_Ok_inv in H as ([] & w2 & Hp & H). injection H as <- <-.
    split; [done|]. simpl. by rewrite bool_decide_eq_true_2.
  - rewrite (attempt_Err _ _ _ _ _ Eg) in H. unfold IgnoreNotFound in H.
    destruct (k8s_IsNotFound err); [|done]. by injection H as <- <-.
  - unfold mbind, M_bind, attempt in H. by rewrite Eg in H.
Qed.
End nodes.

(** ** The finalizer *)
Lemma RemoveFinalizer_ne o f : f ∈ nbc_Finalizers o → o ≠ RemoveFinalizer o f.
Proof.
  intros Hf He. rewrite He in Hf. apply list_elem_of_filter in Hf as [H _]. by apply H.
Qed.

Lemma k8s_IsNotFound_wrap fmt args err :
  k8s_IsNotFound (Errorf fmt args [err]) = k8s_IsNotFound err.
Proof. unfold k8s_IsNotFound. simpl. by destruct (k8s_reason err). Qed.

Section finalizer.
Context {W : Type} `{NC : NodeClassClient W} {NL : NodeClassLaws W}.
Context (SetTrue : string → NebiusNodeClass → NebiusNodeClass).
#[local] Set Default Proof Using "NL".

(** No stored node class has the termination finalizer. *)
Definition unprotected (w : W) : Prop :=
  ∀ name fs, finalizers_of (stored w name) = Some fs → TerminationFinalizer ∉ fs.

Lemma Patch_same obj w r w' name :
  Patch obj obj w = (r, w') → finalizers_of (stored w' name) = finalizers_of (stored w name).
Proof. intros H. destruct (patch_law _ _ _ _ _ name (or_introl H)) as [->|[? _]]; done. Qed.

Lemma Patch_removed obj base w r w' :
  Patch_Lock obj base w = (r, w') → TerminationFinalizer ∉ nbc_Finalizers obj →
  unprotected w → unprotected w'.
Proof.
  intros H Hobj Hw name fs Hfs.
  destruct (patch_law _ _ _ _ _ name (or_intror H)) as [E|[_ E]]; rewrite E in Hfs.
  - by eapply Hw.
  - by injection Hfs as <-.
Qed.

Lemma ensureFinalizer_keeps nodeClass : preserves unprotected (ensureFinalizer nodeClass).
Proof.
  unfold ensureFinalizer. destruct (ContainsFinalizer _ _); [auto with flex|].
  apply preserves_wrapf. intros w Hw.
  destruct (Patch _ _ w) as [r w'] eqn:E. intros name fs. simpl.
  rewrite (Patch_same _ _ _ _ _ E). apply Hw.
Qed.

Lemma Status_Patch_keeps obj base : preserves unprotected (Status_Patch obj base).
Proof.
  intros w Hw. destruct (Status_Patch obj base w) as [r w'] eqn:E. intros name fs. simpl.
  rewrite (status_law _ _ _ _ _ _ E). apply Hw.
Qed.

Lemma Status_Reconcile_keeps nodeClass : preserves unprotected (Status_Reconcile SetTrue nodeClass).
Proof.
  unfold Status_Reconcile. apply preserves_bind; [apply ensureFinalizer_keeps|intros future].
  case_bool_decide; [|auto with flex].
  apply preserves_bind; [apply Status_Patch_keeps|auto with flex].
Qed.

Lemma Termination_Reconcile_keeps nodeClass : preserves unprotected (Termination_Reconcile nodeClass).
Proof.
  unfold Termination_Reconcile. destruct (nbc_DeletionTimestamp nodeClass); [|auto with flex].
  unfold finalize. destruct (negb _); [auto with flex|].
  apply preserves_bind.
  { apply preserves_wrapf. intros w Hw name fs. rewrite list_law. apply Hw. }
  intros claims. case_bool_decide.
  { apply preserves_bind; [|auto with flex]. intros w Hw name fs. rewrite publish_law. apply Hw. }
  case_bool_decide; [|auto with flex].
  apply preserves_bind.
  - apply preserves_attempt. intros w Hw. destruct (Patch_Lock _ _ w) as [r w'] eqn:E.
    apply (Patch_removed _ _ _ _ _ E); [|done].
    cbn [nbc_Finalizers RemoveFinalizer set_finalizers]. by intros [? _]%list_elem_of_filter.
  - intros [err|o]; [|auto with flex]. destruct (k8s_IsConflict err); [auto with flex|].
    destruct (IgnoreNotFound _); auto with flex.
Qed.

(** C28: the termination finalizer is never stored.  The patch that should add it
    compares the object with itself, so from a server without it no sequence of
    reconciliations, of whatever versions of the node classes, stores it: a
    deleted node class is gone at once, whatever node claims still use it. *)
Theorem finalizer_never_stored (w w' : W) :
  rtc (reconcile_step SetTrue) w w' → unprotected w → unprotected w'.
Proof.
  induction 1 as [|a b c Hab _ IH]; [done|]. intros Ha. apply IH.
  destruct Hab; [by apply Status_Reconcile_keeps|by apply Termination_Reconcile_keeps].
Qed.

(** A node class that is being deleted and has the finalizer loses it exactly
    when no node claim uses it; while one does, the controller reports the claims
    and comes back after ten minutes without touching the node class. *)
Theorem finalize_waits (nodeClass : NebiusNodeClass) t (w : W) claims w1 :
  nbc_DeletionTimestamp nodeClass = Some t → TerminationFinalizer ∈ nbc_Finalizers nodeClass →
  List_NodeClaims (nbc_Name nodeClass) w = (Ok claims, w1) →
  match claims with
  | [] => Termination_Reconcile nodeClass w =
      (match (Patch_Lock (RemoveFinalizer nodeClass TerminationFinalizer) nodeClass w1).1 with
       | Ok _ => Ok done_
       | Panic p => Panic p
       | Err err =>
           if k8s_IsConflict err then Ok {| Requeue := true; RequeueAfter := None |}
           else if k8s_IsNotFound err then Ok done_
           else Err (Errorf "removing termination finalizer, %w" [] [err])
       end, (Patch_Lock (RemoveFinalizer nodeClass TerminationFinalizer) nodeClass w1).2)
  | _ => ∀ w2, Publish (nbc_Name nodeClass) claims w1 = (Ok (), w2) →
      Termination_Reconcile nodeClass w = (Ok {| Requeue := false; RequeueAfter := Some 600 |}, w2) ∧
      stored w2 = stored w
  end.
Proof.
  intros Ht Hf Hl. unfold Termination_Reconcile. rewrite Ht. unfold finalize, ContainsFinalizer.
  rewrite bool_decide_eq_true_2 by done. cbn [negb]. cbv zeta.
  destruct claims as [|c cs].
  - rewrite (M_bind_Ok _ _ _ _ _ (wrapf_Ok _ _ _ _ _ _ Hl)). simpl.
    rewrite bool_decide_eq_true_2 by (by apply RemoveFinalizer_ne).
    destruct (Patch_Lock _ _ w1) as [[o|err|p] w2] eqn:E.
    + by rewrite (attempt_Ok _ _ _ _ _ E).
    + rewrite (attempt_Err _ _ _ _ _ E). simpl. destruct (k8s_IsConflict err); [done|].
      unfold IgnoreNotFound. rewrite k8s_IsNotFound_wrap. by destruct (k8s_IsNotFound err).
    + unfold mbind, M_bind, attempt. by rewrite E.
  - intros w2 Hp. rewrite (M_bind_Ok _ _ _ _ _ (wrapf_Ok _ _ _ _ _ _ Hl)).
    rewrite bool_decide_eq_true_2 by done. rewrite (M_bind_Ok _ _ _ _ _ Hp). split; [done|].
    pose proof (publish_law (nbc_Name nodeClass) (c :: cs) w1) as H1. rewrite Hp in H1.
    pose proof (list_law (nbc_Name nodeClass) w) as H2. rewrite Hl in H2. simpl in *. congruence.
Qed.
End finalizer.

(** ** The hypotheses can hold *)

(** A server in memory: the node classes by name; no node claim exists. *)
Module Mem.
Notation W := (gmap string NebiusNodeClass).

(** The stored object with the finalizers and conditions of the difference. *)
Definition merged (obj base old : NebiusNodeClass) : NebiusNodeClass :=
  if bool_decide (nbc_Finalizers obj = nbc_Finalizers base) then old
  else set_finalizers (nbc_Finalizers obj) old.
Definition patch (obj base : NebiusNodeClass) : M W NebiusNodeClass := λ w,
  match w !! nbc_Name obj with
  | Some old => (Ok (merged obj base old), <[nbc_Name obj := merged obj base old]> w)
  | None => (Err (ErrK8sNotFound (nbc_Name obj)), w)
  end.
Definition patch_lock (obj base : NebiusNodeClass) : M W NebiusNodeClass := λ w,
  match w !! nbc_Name obj with
  | Some old => if bool_decide (nbc_ResourceVersion old ≠ nbc_ResourceVersion base)
                then (Err (ErrK8sConflict (nbc_Name obj)), w) else patch obj base w
  | None => (Err (ErrK8sNotFound (nbc_Name obj)), w)
  end.
Definition status_patch (obj base : NebiusNodeClass) : M W NebiusNodeClass := λ w,
  match w !! nbc_Name obj with
  | Some old => let new := SetConditions (nbc_Conditions obj) old in
                (Ok new, <[nbc_Name obj := new]> w)
  | None => (Err (ErrK8sNotFound (nbc_Name obj)), w)
  end.

#[global] Instance client : NodeClassClient W := {|
  Patch := patch; Patch_Lock := patch_lock; Status_Patch := status_patch;
  List_NodeClaims _ := mret []; Publish _ _ := mret ();
|}.

Lemma patch_finalizers obj base w r w' name :
  patch obj base w = (r, w') →
  finalizers_of (w' !! name) = finalizers_of (w !! name) ∨
  (nbc_Finalizers obj ≠ nbc_Finalizers base ∧
   finalizers_of (w' !! name) = Some (nbc_Finalizers obj)).
Proof.
  unfold patch, merged. destruct (w !! nbc_Name obj) as [old|] eqn:E; intros [= _ <-]; [|by left].
  destruct (decide (name = nbc_Name obj)) as [->|Hne]; [|left; by rewrite lookup_insert_ne].
  rewrite lookup_insert_eq, E. case_bool_decide; [by left|by right].
Qed.

#[global] Program Instance laws : NodeClassLaws W := {| stored w name := w !! name |}.
Next Obligation.
  intros obj base w r w' name [H|H]; [by eapply patch_finalizers|].
  simpl in H. unfold patch_lock in H. destruct (w !! nbc_Name obj) eqn:E; [|injection H as _ <-; by left].
  case_bool_decide; [injection H as _ <-; by left|by eapply patch_finalizers].
Qed.
Next Obligation.
  intros obj base w r w' name H. simpl in H. unfold status_patch in H.
  destruct (w !! nbc_Name obj) as [old|] eqn:E; injection H as _ <-; [|done].
  destruct (decide (name = nbc_Name obj)) as [->|Hne]; [|by rewrite lookup_insert_ne].
  by rewrite lookup_insert_eq, E.
Qed.
Next Obligation. done. Qed.
Next Obligation. done. Qed.

Definition set_true (t : string) (o : NebiusNodeClass) : NebiusNodeClass :=
  SetConditions [{| cond_Type := t; cond_Status := true |}] o.
Definition class : NebiusNodeClass := NebiusProvider.Mem.class.
Definition deleting : NebiusNodeClass :=
  {| nbc_Name := "default"; nbc_ResourceVersion := 1; nbc_DeletionTimestamp := Some 5;
     nbc_Finalizers := [TerminationFinalizer]; nbc_Spec := nbc_Spec class; nbc_Conditions := [] |}.
Definition w0 : W := {[ "default" := class ]}.
Definition node : Node :=
  {| node_Name := "node"; node_Labels := {[ NodeClaimLabelKey := "claim-1" ]};
     node_Addresses := []; node_ProviderID := "" |}.
Definition get : string → M () NodeClaim := λ name, mret
  {| nc_Name := name; nc_Labels := ∅; nc_CreationTimestamp := 0; nc_NodeClassRef := None;
     nc_Requirements := []; nc_Requests := ∅; nc_ProviderID := agentPoolNameToProviderID name;
     nc_Capacity := ∅; nc_Allocatable := ∅ |}.
Definition put : Node → Node → M () () := λ _ _, mret ().
End Mem.

Lemma finalizer_never_stored_witness :
  unprotected (Status_Reconcile Mem.set_true Mem.class Mem.w0).2.
Proof.
  apply (finalizer_never_stored Mem.set_true Mem.w0).
  - apply rtc_once. constructor.
  - intros name fs H. change (finalizers_of (Mem.w0 !! name) = Some fs) in H. unfold Mem.w0 in H.
    destruct (decide (name = "default")) as [->|Hne].
    + rewrite lookup_singleton_eq in H. injection H as <-. intros H. by inv H.
    + by rewrite lookup_singleton_ne in H.
Defined.

Lemma finalize_waits_witness :
  Termination_Reconcile Mem.deleting {[ "default" := Mem.deleting ]} =
  (Ok done_, {[ "default" := set_finalizers [] Mem.deleting ]}).
Proof.
  etransitivity.
  - apply (finalize_waits Mem.deleting 5 ({[ "default" := Mem.deleting ]} : Mem.W) []
             ({[ "default" := Mem.deleting ]} : Mem.W)); [done| |done].
    apply list_elem_of_singleton. done.
  - vm_compute. reflexivity.
Defined.

Lemma set_provider_id_witness :
  SetProviderID_Reconcile Mem.get Mem.put Mem.node () = (Ok done_, ()) ∧
  node_ProviderID Mem.node = "".
Proof.
  assert (SetProviderID_Reconcile Mem.get Mem.put Mem.node () = (Ok done_, ())) as Hr
    by (vm_compute; reflexivity).
  split; [exact Hr|].
  destruct (set_provider_id Mem.get Mem.put Mem.node () done_ () Hr)
    as [[_ H]|[[_ H]|(name & got & w1 & H & _)]]; [done|vm_compute in H; done|exact H].
Defined.
