(* ===== verification/Script.v ===== *)
(** * The node bootstrap script

    [cli/internal/config/nodebootstrap]: the cloud-init user data of a node as a
    standalone bash script ([script.go] and its template), the variants of the
    [node-bootstrap] command, and the router of the configuration commands
    ([configcmd.go]).  The shell grammar the script relies on, here-documents,
    redirections and quoting, is a specification against which the rendering is
    proved. *)
From S2P Require Import Prelude GoStr Karp Proto UserData.
From stdpp Require Import options.

Definition nl : string := String "010" "".
Definition sq : ascii := "'".

(** ** Quoting *)

(** A byte [needsQuoting] lets through; every byte of a multi-byte rune is
    above the ASCII range, so it is none of them, as the rune is not. *)
Definition plain (c : ascii) : bool :=
  is_lower c || is_upper c || is_digit c
  || bool_decide (c ∈ ["-"; "_"; "/"; "."; ","; "+"; ":"; "="]%char).
Definition needsQuoting (s : string) : bool := str_exists (λ c, negb (plain c)) s.

(** [strings.ReplaceAll(a, "'", `'\''`)]. *)
Fixpoint escape_quotes (s : string) : string :=
  match s with
  | "" => ""
  | String c s => if decide (c = sq) then "'\''" +:+ escape_quotes s else String c (escape_quotes s)
  end.

Definition shell_quote (a : string) : string :=
  if needsQuoting a then "'" +:+ escape_quotes a +:+ "'" else a.
Definition shellJoin (args : list string) : string := Join (shell_quote <$> args) " ".

Definition renderShellCmd (cmd : RunCmdItem) : string :=
  match cmd with CmdShell s => s | CmdArgs l => shellJoin l end.

(** ** Here-documents *)

(** Each round makes the candidate longer, so it stops being contained after
    at most as many rounds as the content has bytes. *)
Fixpoint pick_loop (fuel : nat) (content candidate : string) : string :=
  match fuel with
  | O => candidate
  | S fuel => if Contains content candidate then pick_loop fuel content ("_" +:+ candidate) else candidate
  end.
Definition pickDelimiter (content : string) : string :=
  pick_loop (String.length content) content "EOF".

(** [strings.HasSuffix(s, "\n")]. *)
Fixpoint HasSuffix_nl (s : string) : bool :=
  match s with
  | "" => false
  | String c "" => bool_decide (c = "010"%char)
  | String _ s => HasSuffix_nl s
  end.

(** [wf.Path[:strings.LastIndex(wf.Path, "/")]] panics without a slash. *)
Definition renderWriteFile (wf : WriteFile) : res string :=
  match cut_last_char "/" (wf_Path wf) with
  | None => Panic "slice bounds out of range [:-1]"
  | Some (dir, _) =>
      let mkdir := if bool_decide (dir ≠ "") then "mkdir -p '" +:+ dir +:+ "'" +:+ nl else "" in
      let delimiter := pickDelimiter (wf_Content wf) in
      let operator := if wf_Append wf then ">>" else ">" in
      let cat := "cat <<'" +:+ delimiter +:+ "' " +:+ operator +:+ " '" +:+ wf_Path wf +:+ "'" +:+ nl in
      let newline := if HasSuffix_nl (wf_Content wf) then "" else nl in
      let chmod :=
        if bool_decide (wf_Permissions wf ≠ "") then
          nl +:+ "chmod " +:+ wf_Permissions wf +:+ " '" +:+ wf_Path wf +:+ "'"
        else "" in
      Ok (mkdir +:+ cat +:+ wf_Content wf +:+ newline +:+ delimiter +:+ chmod)
  end.

(** ** APT sources *)

(** [strings.Replace(s, old, new, 1)], for a non-empty [old]. *)
Fixpoint Replace1 (s old new : string) : string :=
  if HasPrefix s old then new +:+ drop_str (String.length old) s
  else match s with "" => "" | String c s' => String c (Replace1 s' old new) end.

Definition aptSourceLine (name : string) (src : APTSource) : string :=
  if bool_decide (apt_Key src ≠ "") && negb (Contains (apt_Source src) "signed-by") then
    Replace1 (apt_Source src) "deb " ("deb [signed-by=/usr/share/keyrings/" +:+ name +:+ ".gpg] ")
  else apt_Source src.

(** ** The template *)
Definition concat_str (l : list string) : string := foldr String.append "" l.

Definition apt_block (kv : string * APTSource) : string :=
  let '(name, src) := kv in
  nl +:+ nl +:+ "# --- APT source: " +:+ name +:+ " ---" +:+
  (if bool_decide (apt_Key src ≠ "") then
     nl +:+ "cat <<'GPGKEY' | gpg --dearmor -o '/usr/share/keyrings/" +:+ name +:+ ".gpg'" +:+
     nl +:+ apt_Key src +:+
     nl +:+ "GPGKEY" +:+
     nl +:+ "echo '" +:+ aptSourceLine name src +:+ "' > '/etc/apt/sources.list.d/" +:+ name +:+ ".list'"
   else if bool_decide (apt_KeyID src ≠ "") then
     nl +:+ "apt-key adv --recv-keys --keyserver keyserver.ubuntu.com '" +:+ apt_KeyID src +:+ "'" +:+
     nl +:+ "echo '" +:+ apt_Source src +:+ "' > '/etc/apt/sources.list.d/" +:+ name +:+ ".list'"
   else "").

(** A template ranges over a map in the order of its keys. *)
Definition sorted_entries {A} (m : gmap string A) : list (string * A) :=
  sort_by (λ a b, String.ltb a.1 b.1) (map_to_list m).

Definition apt_section (apt : option (gmap string APTSource)) : string :=
  match apt with
  | None => ""
  | Some sources => concat_str (apt_block <$> sorted_entries sources)
  end.

Definition packages_section (ud : UserData) : string :=
  if ud_PackageUpdate ud || ud_PackageUpgrade ud || bool_decide (ud_Packages ud ≠ []) then
    nl +:+ nl +:+ "# --- Packages ---" +:+
    (if ud_PackageUpdate ud then nl +:+ "apt-get update -y" else "") +:+
    (if ud_PackageUpgrade ud then nl +:+ "apt-get upgrade -y" else "") +:+
    (if bool_decide (ud_Packages ud ≠ []) then
       nl +:+ "apt-get install -y --allow-change-held-packages " +:+ Join (ud_Packages ud) " "
     else "")
  else "".

Definition hostname_section (ud : UserData) : string :=
  if bool_decide (ud_FQDN ud ≠ "") then
    nl +:+ nl +:+ "# --- Hostname ---" +:+ nl +:+ "hostnamectl set-hostname '" +:+ ud_FQDN ud +:+ "'"
  else "".

Definition ssh_section (ud : UserData) : string :=
  match ud_SSHAuthorizedKeys ud with
  | [] => ""
  | keys =>
      nl +:+ nl +:+ "# --- SSH authorized keys ---" +:+
      nl +:+ "mkdir -p ~/.ssh && chmod 700 ~/.ssh" +:+
      concat_str ((λ k, nl +:+ "echo '" +:+ k +:+ "' >> ~/.ssh/authorized_keys") <$> keys) +:+
      nl +:+ "chmod 600 ~/.ssh/authorized_keys"
  end.

(** The blocks of the write-files range.  A panic of a template function is
    recovered by the template and answered as an error. *)
Fixpoint write_blocks (wfs : list WriteFile) : res string :=
  match wfs with
  | [] => Ok ""
  | wf :: wfs =>
      match renderWriteFile wf with
      | Ok s => rest ← write_blocks wfs; Ok (nl +:+ s +:+ rest)
      | Err e => Err e
      | Panic why => Err (Errorf "error calling writeFile: %s" [why] [])
      end
  end.
Definition write_files_section (ud : UserData) : res string :=
  match ud_WriteFiles ud with
  | [] => Ok ""
  | wfs => s ← write_blocks wfs; Ok (nl +:+ nl +:+ "# --- Write files ---" +:+ s)
  end.

Definition run_section (ud : UserData) : string :=
  match ud_RunCmd ud with
  | [] => ""
  | cmds =>
      nl +:+ nl +:+ "# --- Run commands ---" +:+ concat_str ((λ c, nl +:+ renderShellCmd c) <$> cmds)
  end.

Definition script_header : string :=
  "#!/bin/bash" +:+ nl +:+
  "# Auto-generated script equivalent to cloud-init user data." +:+ nl +:+
  "# This script can be executed directly on a node without cloud-init." +:+ nl +:+
  "set -euo pipefail".
Definition script_footer : string := nl +:+ nl +:+ "echo 'Node bootstrap script completed.'" +:+ nl.

Definition scriptTemplate (ud : UserData) : res string :=
  files ← write_files_section ud;
  Ok (script_header +:+ apt_section (ud_APT ud) +:+ packages_section ud +:+ hostname_section ud +:+
      ssh_section ud +:+ files +:+ run_section ud +:+ script_footer).

Definition marshalScript (ud : UserData) : res string :=
  match scriptTemplate ud with
  | Err e => Err (Errorf "rendering script template: %w" [] [e])
  | r => r
  end.

(** ** The command *)
Definition variantCloudInit : string := "cloud-init".
Definition variantScript : string := "script".

(** [marshalUserData], with what it writes as its result. *)
Definition marshalUserData (yaml_Marshal : UserData → res string) (flagVariant : string)
    (ud : UserData) : res string :=
  let wrap (r : res string) : res string :=
    match r with
    | Err e => Err (Errorf "marshaling userdata as %s: %w" [flagVariant] [e])
    | r => r
    end in
  if bool_decide (flagVariant = variantCloudInit) then wrap (cloudinit_Marshal yaml_Marshal ud)
  else if bool_decide (flagVariant = variantScript) then wrap (marshalScript ud)
  else Err (Errorf "unsupported variant %q, supported: %s, %s"
              [flagVariant; variantCloudInit; variantScript] []).

(** ** The router *)
Section router.
(** A handler writes to the output of the command. *)
Context {W : Type}.
Definition Handler : Type := M W ().

Record Router := { rt_clouds : list string; rt_routes : gmap string Handler }.
Definition NewRouter : Router := {| rt_clouds := []; rt_routes := ∅ |}.

Definition Handle (cloud : string) (h : Handler) (r : Router) : res Router :=
  match rt_routes r !! cloud with
  | Some _ => Panic "configcmd: duplicate handler for cloud"
  | None => Ok {| rt_clouds := rt_clouds r ++ [cloud]; rt_routes := <[cloud := h]> (rt_routes r) |}
  end.

(** [RunE] of the command, on the one argument [cobra.ExactArgs(1)] lets in. *)
Definition Router_RunE (r : Router) (arg : string) : M W () :=
  let cloud := ToLower arg in
  match rt_routes r !! cloud with
  | None => fail (Errorf "unsupported remote cloud %q, supported: %v" (cloud :: rt_clouds r) [])
  | Some h => h
  end.
End router.
Arguments Router : clear implicits.

(** ** The shell: words

    Word splitting of the POSIX shell for a command of plain bytes, single
    quotes and backslashes; [None] for an unfinished word and for a byte with
    another meaning.  [cur] is the word being read. *)
Fixpoint sh_words (cur : option string) (quoted : bool) (s : string) : option (list string) :=
  match s with
  | "" => if quoted then None else Some (match cur with Some w => [w] | None => [] end)
  | String c s' =>
      if quoted then
        if decide (c = sq) then sh_words cur false s'
        else sh_words (Some (default "" cur +:+ String c "")) true s'
      else if decide (c = " "%char) then
        match cur with
        | Some w => cons w <$> sh_words None false s'
        | None => sh_words None false s'
        end
      else if decide (c = sq) then sh_words (Some (default "" cur)) true s'
      else if decide (c = "\"%char) then
        match s' with
        | String d s'' => sh_words (Some (default "" cur +:+ String d "")) false s''
        | "" => None
        end
      else if plain c then sh_words (Some (default "" cur +:+ String c "")) false s'
      else None
  end.

(** ** The shell: files

    The files, modes and directories that a script of comments, [mkdir -p],
    [chmod] and here-documents redirected to files leaves behind. *)
Record FS := { fs_files : gmap string string; fs_modes : gmap string string; fs_dirs : gset string }.

Inductive command :=
| CNop
| CMkdir (dir : string)
| CHere (delimiter : string) (append : bool) (path : string)
| CChmod (mode path : string).

(** A single-quoted word and what follows it. *)
Definition quoted_word (s : string) : option (string * string) :=
  match s with
  | String c s => if decide (c = sq) then cut_char sq s else None
  | "" => None
  end.
Definition last_word (s : string) : option string :=
  match quoted_word s with Some (w, "") => Some w | _ => None end.

Definition parse_here (s : string) : option command :=
  match quoted_word s with
  | Some (d, r) =>
      if HasPrefix r " >> " then CHere d true <$> last_word (TrimPrefix r " >> ")
      else if HasPrefix r " > " then CHere d false <$> last_word (TrimPrefix r " > ")
      else None
  | None => None
  end.
Definition parse_chmod (s : string) : option command :=
  match cut_char " " s with
  | Some (mode, r) => CChmod mode <$> last_word r
  | None => None
  end.
Definition parse_line (l : string) : option command :=
  if bool_decide (l = "") || HasPrefix l "#" then Some CNop
  else if HasPrefix l "mkdir -p " then CMkdir <$> last_word (TrimPrefix l "mkdir -p ")
  else if HasPrefix l "cat <<" then parse_here (TrimPrefix l "cat <<")
  else if HasPrefix l "chmod " then parse_chmod (TrimPrefix l "chmod ")
  else None.

Definition dir_of (path : string) : option string := fst <$> cut_last_char "/" path.
Definition dir_exists (fs : FS) (path : string) : bool :=
  match dir_of path with
  | Some dir => bool_decide (dir = "" ∨ dir ∈ fs_dirs fs)
  | None => false
  end.

Definition add_dir (dir : string) (fs : FS) : FS :=
  {| fs_files := fs_files fs; fs_modes := fs_modes fs; fs_dirs := {[dir]} ∪ fs_dirs fs |}.
Definition put_file (append : bool) (path content : string) (fs : FS) : FS :=
  let old := if append then default "" (fs_files fs !! path) else "" in
  {| fs_files := <[path := old +:+ content]> (fs_files fs); fs_modes := fs_modes fs;
     fs_dirs := fs_dirs fs |}.
Definition put_mode (mode path : string) (fs : FS) : FS :=
  {| fs_files := fs_files fs; fs_modes := <[path := mode]> (fs_modes fs); fs_dirs := fs_dirs fs |}.

(** [here] is the here-document being read, with the body so far. *)
Fixpoint sh_run (here : option (string * bool * string * string)) (lines : list string) (fs : FS) : option FS :=
  match lines, here with
  | [], None => Some fs
  | [], Some _ => None
  | l :: lines, Some (delimiter, append, path, body) =>
      if decide (l = delimiter) then
        if dir_exists fs path then sh_run None lines (put_file append path body fs) else None
      else sh_run (Some (delimiter, append, path, body +:+ l +:+ nl)) lines fs
  | l :: lines, None =>
      match parse_line l with
      | Some CNop => sh_run None lines fs
      | Some (CMkdir dir) => sh_run None lines (add_dir dir fs)
      | Some (CHere delimiter append path) => sh_run (Some (delimiter, append, path, "")) lines fs
      | Some (CChmod mode path) =>
          if bool_decide (is_Some (fs_files fs !! path)) then sh_run None lines (put_mode mode path fs)
          else None
      | None => None
      end
  end.

(** What cloud-init does with an entry of [write_files]. *)
Definition cloud_write (fs : FS) (wf : WriteFile) : FS :=
  let fs := match dir_of (wf_Path wf) with
            | Some "" | None => fs
            | Some dir => add_dir dir fs
            end in
  let fs := put_file (wf_Append wf) (wf_Path wf) (wf_Content wf) fs in
  if bool_decide (wf_Permissions wf = "") then fs else put_mode (wf_Permissions wf) (wf_Path wf) fs.

(** The entry with its content ended by a newline. *)
Definition terminated (wf : WriteFile) : WriteFile :=
  {| wf_Path := wf_Path wf;
     wf_Content := wf_Content wf +:+ (if HasSuffix_nl (wf_Content wf) then "" else nl);
     wf_Permissions := wf_Permissions wf; wf_Append := wf_Append wf |}.

(** Entries that need no quoting the script does not do. *)
Definition no_char (c : ascii) (s : string) : bool := str_forall (λ d, bool_decide (d ≠ c)) s.
Definition shell_safe (wf : WriteFile) : Prop :=
  is_Some (cut_last_char "/" (wf_Path wf)) ∧
  no_char sq (wf_Path wf) = true ∧ no_char "010" (wf_Path wf) = true ∧
  no_char " " (wf_Permissions wf) = true ∧ no_char "010" (wf_Permissions wf) = true.

(** ** Lemmas: words *)
#[local] Arguments String.append !_ _ / : simpl nomatch.

Lemma plain_special c : plain c = true → c ≠ " "%char ∧ c ≠ sq ∧ c ≠ "\"%char.
Proof. intros H. split_and!; intros ->; vm_compute in H; discriminate. Qed.

Lemma sh_words_plain a w rest :
  needsQuoting a = false → sh_words (Some w) false (a +:+ rest) = sh_words (Some (w +:+ a)) false rest.
Proof.
  revert w. induction a as [|c a IH]; intros w H; [by rewrite str_app_nil_r|].
  unfold needsQuoting in H. simpl in H. apply orb_false_iff in H as [Hc Ha].
  apply negb_false_iff in Hc. destruct (plain_special c Hc) as (H1 & H2 & H3).
  simpl. rewrite !decide_False by done. rewrite Hc. cbn [default]. by rewrite IH, str_app_assoc.
Qed.

Lemma sh_words_quoted a w rest :
  sh_words (Some w) true (escape_quotes a +:+ String sq rest) = sh_words (Some (w +:+ a)) false rest.
Proof.
  revert w. induction a as [|c a IH]; intros w; simpl.
  { by rewrite str_app_nil_r. }
  case_decide as Hc.
  - subst c. simpl. by rewrite IH, str_app_assoc.
  - simpl. rewrite decide_False by done. by rewrite IH, str_app_assoc.
Qed.

Lemma sh_words_quote a rest :
  a ≠ "" → sh_words None false (shell_quote a +:+ rest) = sh_words (Some a) false rest.
Proof.
  intros Ha. unfold shell_quote. destruct (needsQuoting a) eqn:H.
  - rewrite !str_app_assoc. simpl. by rewrite sh_words_quoted.
  - destruct a as [|c a]; [done|]. unfold needsQuoting in H. simpl in H.
    apply orb_false_iff in H as [Hc H]. apply negb_false_iff in Hc.
    destruct (plain_special c Hc) as (H1 & H2 & H3).
    simpl. rewrite !decide_False by done. rewrite Hc. cbn [default]. by rewrite sh_words_plain.
Qed.

(** ** Lemmas: lines *)
#[local] Notation line_break := "010"%char.
Definition lines_of (s : string) : list string := split_char line_break s.

Lemma lines_of_app a b : lines_of (a +:+ nl +:+ b) = lines_of a ++ lines_of b.
Proof.
  unfold lines_of, nl. simpl. induction a as [|c a IH]; simpl; [done|].
  case_decide; [by rewrite IH|]. rewrite IH.
  destruct (split_char line_break a) as [|x l] eqn:E; [by destruct (split_char_nonempty line_break a)|done].
Qed.

Lemma lines_of_line a : no_char line_break a = true → lines_of a = [a].
Proof. apply split_char_none. Qed.

Lemma lines_of_cons a b :
  no_char line_break a = true → lines_of (a +:+ nl +:+ b) = a :: lines_of b.
Proof. intros H. by rewrite lines_of_app, (lines_of_line a). Qed.

(** A string without a line break. *)
Definition no_nl (s : string) : Prop := no_char "010" s = true.

Lemma no_nl_app a b : no_nl a → no_nl b → no_nl (a +:+ b).
Proof. unfold no_nl, no_char. rewrite str_forall_app. by intros -> ->. Qed.

Lemma no_nl_Join l sep : Forall no_nl l → no_nl sep → no_nl (Join l sep).
Proof.
  intros H Hs. induction H as [|x l Hx H IH]; [done|]. simpl. destruct l as [|y l]; [done|].
  apply no_nl_app; [done|]. by apply no_nl_app.
Qed.

Definition unlines_str (l : list string) : string := concat_str ((λ x, x +:+ nl) <$> l).

Lemma unlines_app a b : unlines_str (a ++ b) = unlines_str a +:+ unlines_str b.
Proof.
  induction a as [|x a IH]; [done|].
  change (unlines_str ((x :: a) ++ b)) with ((x +:+ nl) +:+ unlines_str (a ++ b)).
  by rewrite IH, <-str_app_assoc.
Qed.

Lemma lines_of_unlines l : Forall no_nl l → lines_of (unlines_str l) = l ++ [""].
Proof.
  intros H. induction H as [|x l Hx H IH]; [done|].
  change (unlines_str (x :: l)) with ((x +:+ nl) +:+ unlines_str l).
  rewrite str_app_assoc, (lines_of_cons x _ Hx). by rewrite IH.
Qed.

Lemma split_char_first c s y ys : split_char c s = y :: ys → ∃ b, s = y +:+ b.
Proof.
  revert y ys. induction s as [|d s IH]; intros y ys H; simpl in H; [simplify_eq; by exists ""|].
  case_decide; [simplify_eq; by eexists|].
  destruct (split_char c s) as [|x l] eqn:E; simplify_eq; [by destruct (split_char_nonempty c s)|].
  destruct (IH _ _ eq_refl) as [b ->]. by exists b.
Qed.

Lemma lines_of_contains l s : l ∈ lines_of s → Contains s l = true.
Proof.
  unfold lines_of. rewrite Contains_spec. induction s as [|c s IH]; simpl; intros H.
  { apply list_elem_of_singleton in H as ->. by exists "", "". }
  case_decide as Hc.
  - apply elem_of_cons in H as [->|H]; [by exists "", (String c s)|].
    destruct (IH H) as (a & b & ->). by exists (String c a), b.
  - destruct (split_char line_break s) as [|y ys] eqn:E; [by destruct (split_char_nonempty line_break s)|].
    apply elem_of_cons in H as [->|H].
    + destruct (split_char_first _ _ _ _ E) as [b ->]. by exists "", b.
    + destruct IH as (a & b & ->); [set_solver|]. by exists (String c a), b.
Qed.

(** A text is its lines, each followed by a line break, without the last one. *)
Lemma unlines s : foldl (λ body l, body +:+ l +:+ nl) "" (lines_of s) = s +:+ nl.
Proof.
  assert (∀ acc l, foldl (λ body l, body +:+ l +:+ nl) acc l
            = acc +:+ foldl (λ body l, body +:+ l +:+ nl) "" l) as Hacc.
  { intros acc l. revert acc. induction l as [|x l IH]; intros acc; simpl; [by rewrite str_app_nil_r|].
    rewrite IH, (IH (x +:+ nl)). by rewrite !str_app_assoc. }
  unfold lines_of. induction s as [|c s IH]; [done|]. simpl. case_decide as Hc; [subst|].
  - simpl. rewrite Hacc, IH. done.
  - destruct (split_char line_break s) as [|y ys] eqn:E; [by destruct (split_char_nonempty line_break s)|].
    simpl in IH |- *. rewrite Hacc in IH |- *. simpl. by rewrite IH.
Qed.

(** ** Lemmas: the delimiter *)
Lemma pick_loop_free fuel content candidate :
  (String.length content < fuel + String.length candidate)%nat →
  Contains content (pick_loop fuel content candidate) = false.
Proof.
  revert candidate. induction fuel as [|fuel IH]; intros candidate Hl; simpl.
  - apply not_true_iff_false. intros H%Contains_length. lia.
  - destruct (Contains content candidate) eqn:E; [|done]. apply IH. simpl. lia.
Qed.

Lemma pickDelimiter_free content : Contains content (pickDelimiter content) = false.
Proof. apply pick_loop_free. simpl. lia. Qed.

Lemma pick_loop_no_char c fuel content candidate :
  c ≠ "_"%char → no_char c candidate = true → no_char c (pick_loop fuel content candidate) = true.
Proof.
  intros Hc. revert candidate. induction fuel as [|fuel IH]; intros candidate H; simpl; [done|].
  case_match; [|done]. apply IH. unfold no_char in *. simpl. rewrite H, bool_decide_eq_true_2; done.
Qed.

Lemma pickDelimiter_no_char c content :
  no_char c "_EOF" = true → no_char c (pickDelimiter content) = true.
Proof.
  unfold no_char. simpl. intros H. apply andb_true_iff in H as [Hc H].
  apply pick_loop_no_char; [|done]. by apply bool_decide_eq_true in Hc.
Qed.

(** ** Lemmas: commands *)
Lemma cut_last_char_app c s a b : cut_last_char c s = Some (a, b) → s = a +:+ String c b.
Proof.
  revert a. induction s as [|d s IH]; intros a; simpl; [done|].
  destruct (cut_last_char c s) as [[x y]|] eqn:E.
  - intros [= <- <-]. by rewrite (IH x).
  - case_decide; [|done]. intros [= <- <-]. by subst.
Qed.

Lemma no_char_app c a b : no_char c (a +:+ b) = no_char c a && no_char c b.
Proof. apply str_forall_app. Qed.

Lemma last_word_quoted w : no_char sq w = true → last_word ("'" +:+ w +:+ "'") = Some w.
Proof.
  intros H. unfold last_word. simpl.
  assert (cut_char sq (w +:+ "'") = Some (w, "")) as ->; [|done]. by apply cut_char_Some.
Qed.

Lemma parse_mkdir dir :
  no_char sq dir = true → parse_line ("mkdir -p '" +:+ dir +:+ "'") = Some (CMkdir dir).
Proof.
  intros H. transitivity (CMkdir <$> last_word ("'" +:+ dir +:+ "'")); [reflexivity|].
  by rewrite last_word_quoted.
Qed.

Lemma parse_cat delimiter (append : bool) path :
  no_char sq delimiter = true → no_char sq path = true →
  parse_line ("cat <<'" +:+ delimiter +:+ "' " +:+ (if append then ">>" else ">") +:+ " '" +:+ path +:+ "'")
  = Some (CHere delimiter append path).
Proof.
  intros Hd Hp. set (op := if append then ">>" else ">").
  transitivity (parse_here (String sq (delimiter +:+ String sq (" " +:+ op +:+ " '" +:+ path +:+ "'"))));
    [reflexivity|].
  unfold parse_here, quoted_word. rewrite decide_True by done.
  assert (cut_char sq (delimiter +:+ String sq (" " +:+ op +:+ " '" +:+ path +:+ "'"))
    = Some (delimiter, " " +:+ op +:+ " '" +:+ path +:+ "'")) as -> by (by apply cut_char_Some).
  subst op. destruct append.
  - transitivity (CHere delimiter true <$> last_word ("'" +:+ path +:+ "'")); [reflexivity|].
    by rewrite last_word_quoted.
  - transitivity (CHere delimiter false <$> last_word ("'" +:+ path +:+ "'")); [reflexivity|].
    by rewrite last_word_quoted.
Qed.

Lemma parse_chmod_line mode path :
  no_char " " mode = true → no_char sq path = true →
  parse_line ("chmod " +:+ mode +:+ " '" +:+ path +:+ "'") = Some (CChmod mode path).
Proof.
  intros Hm Hp. transitivity (parse_chmod (mode +:+ " '" +:+ path +:+ "'")).
  { generalize (mode +:+ " '" +:+ path +:+ "'"). by intros []. }
  unfold parse_chmod.
  assert (cut_char " " (mode +:+ " '" +:+ path +:+ "'") = Some (mode, "'" +:+ path +:+ "'")) as ->
    by (by apply cut_char_Some).
  by rewrite last_word_quoted.
Qed.

(** A here-document is read up to the line of its delimiter. *)
Lemma sh_run_here delimiter append path body ls rest fs :
  Forall (λ l, l ≠ delimiter) ls →
  sh_run (Some (delimiter, append, path, body)) (ls ++ delimiter :: rest) fs =
  (if dir_exists fs path then
     sh_run None rest (put_file append path (foldl (λ b l, b +:+ l +:+ nl) body ls) fs)
   else None).
Proof.
  intros H. revert body. induction H as [|l ls Hl H IH]; intros body; simpl.
  - by rewrite decide_True.
  - by rewrite decide_False.
Qed.

Lemma ends_nl s : HasSuffix_nl s = true → ∃ t, s = t +:+ nl.
Proof.
  induction s as [|c [|d s] IH]; simpl; intros H; [done| |].
  - apply bool_decide_eq_true in H as ->. by exists "".
  - destruct (IH H) as [t Ht]. exists (String c t). simpl. by rewrite <-Ht.
Qed.

(** The lines of the content, which end in a line break in the script. *)
Lemma content_lines wf :
  ∃ t, wf_Content (terminated wf) = t +:+ nl ∧ (∀ d, Contains (wf_Content wf) d = false → d ∉ lines_of t).
Proof.
  simpl. destruct (HasSuffix_nl (wf_Content wf)) eqn:E.
  - destruct (ends_nl _ E) as [t Ht]. exists t. rewrite str_app_nil_r. split; [done|].
    intros d Hd Hin%lines_of_contains%Contains_spec. destruct Hin as (a & b & Hab).
    apply not_true_iff_false in Hd. apply Hd, Contains_spec. exists a, (b +:+ nl).
    rewrite Ht, Hab. by rewrite !str_app_assoc.
  - exists (wf_Content wf). split; [done|]. intros d Hd Hin%lines_of_contains. congruence.
Qed.

(** ** Lemmas: write_files *)
Definition mkdir_lines (dir : string) : list string :=
  if bool_decide (dir = "") then [] else ["mkdir -p '" +:+ dir +:+ "'"].
Definition chmod_lines (wf : WriteFile) : list string :=
  if bool_decide (wf_Permissions wf = "") then []
  else ["chmod " +:+ wf_Permissions wf +:+ " '" +:+ wf_Path wf +:+ "'"].
Definition cat_line (wf : WriteFile) : string :=
  "cat <<'" +:+ pickDelimiter (wf_Content wf) +:+ "' " +:+ (if wf_Append wf then ">>" else ">") +:+
  " '" +:+ wf_Path wf +:+ "'".

Lemma safe_dir wf dir b :
  shell_safe wf → cut_last_char "/" (wf_Path wf) = Some (dir, b) →
  no_char sq dir = true ∧ no_char line_break dir = true.
Proof.
  intros (_ & Hq & Hn & _) Hcut%cut_last_char_app. rewrite Hcut in Hq, Hn.
  rewrite no_char_app in Hq, Hn. apply andb_true_iff in Hq as [? _], Hn as [? _]. done.
Qed.

(** The lines of a rendered entry. *)
Lemma render_lines wf dir b t :
  shell_safe wf → cut_last_char "/" (wf_Path wf) = Some (dir, b) →
  wf_Content (terminated wf) = t +:+ nl →
  ∃ s, renderWriteFile wf = Ok s ∧
    lines_of s = mkdir_lines dir ++ cat_line wf :: lines_of t ++
                 pickDelimiter (wf_Content wf) :: chmod_lines wf.
Proof.
  intros Hs Hcut Ht. destruct (safe_dir _ _ _ Hs Hcut) as [Hdq Hdn].
  destruct Hs as (_ & Hq & Hn & Hps & Hpn).
  set (D := pickDelimiter (wf_Content wf)).
  assert (no_char line_break D = true) as HD by (by apply pickDelimiter_no_char).
  assert (no_char line_break (cat_line wf) = true) as Hcat.
  { unfold cat_line. rewrite !no_char_app. fold D. rewrite HD. rewrite Hn.
    by destruct (wf_Append wf). }
  assert (∀ x, lines_of ((wf_Content wf +:+ (if HasSuffix_nl (wf_Content wf) then "" else nl)) +:+ x)
               = lines_of t ++ lines_of x) as Hbody.
  { intros x. simpl in Ht. rewrite Ht, str_app_assoc. apply lines_of_app. }
  unfold renderWriteFile. rewrite Hcut. eexists. split; [reflexivity|]. fold D.
  unfold mkdir_lines, chmod_lines.
  assert (∀ x, lines_of ("cat <<'" +:+ D +:+ "' " +:+ (if wf_Append wf then ">>" else ">") +:+ " '" +:+
             wf_Path wf +:+ "'" +:+ nl +:+ x) = cat_line wf :: lines_of x) as Hc.
  { intros x. rewrite <-(lines_of_cons _ _ Hcat). unfold cat_line. by rewrite !str_app_assoc. }
  assert (∀ x, lines_of ((if bool_decide (dir ≠ "") then "mkdir -p '" +:+ dir +:+ "'" +:+ nl else "") +:+ x)
               = (if bool_decide (dir = "") then [] else ["mkdir -p '" +:+ dir +:+ "'"]) ++ lines_of x) as Hm.
  { intros x. destruct (decide (dir = "")) as [->|Hd]; [done|].
    rewrite bool_decide_eq_true_2, bool_decide_eq_false_2 by done.
    assert (no_char line_break ("mkdir -p '" +:+ dir +:+ "'") = true) as Hl.
    { rewrite !no_char_app. by rewrite Hdn. }
    cbn [app]. rewrite <-(lines_of_cons _ _ Hl). by rewrite !str_app_assoc. }
  rewrite Hm. f_equal. rewrite !str_app_assoc, Hc. f_equal.
  rewrite <-str_app_assoc, Hbody. f_equal.
  destruct (decide (wf_Permissions wf = "")) as [Hp|Hp].
  - rewrite Hp. change (bool_decide ("" ≠ "")) with false. change (bool_decide ("" = "")) with true.
    cbn iota. by rewrite str_app_nil_r, lines_of_line.
  - rewrite bool_decide_eq_true_2, (bool_decide_eq_false_2 (_ = _)) by done.
    rewrite lines_of_cons by done. f_equal. apply lines_of_line.
    rewrite !no_char_app. by rewrite Hpn, Hn.
Qed.

Lemma sh_run_mkdir dir rest fs :
  no_char sq dir = true →
  sh_run None (mkdir_lines dir ++ rest) fs =
  sh_run None rest (if bool_decide (dir = "") then fs else add_dir dir fs).
Proof.
  intros H. unfold mkdir_lines. case_bool_decide; [done|]. cbn [app sh_run]. by rewrite parse_mkdir.
Qed.

Lemma sh_run_chmod wf content rest fs :
  no_char " " (wf_Permissions wf) = true → no_char sq (wf_Path wf) = true →
  let fs := put_file (wf_Append wf) (wf_Path wf) content fs in
  sh_run None (chmod_lines wf ++ rest) fs =
  sh_run None rest (if bool_decide (wf_Permissions wf = "") then fs
                    else put_mode (wf_Permissions wf) (wf_Path wf) fs).
Proof.
  intros Hp Hq. unfold chmod_lines. case_bool_decide as He; [done|]. cbn [app sh_run].
  rewrite parse_chmod_line by done. rewrite bool_decide_eq_true_2; [done|].
  simpl. rewrite lookup_insert_eq. by eexists.
Qed.

(** Running the rendering of an entry writes it. *)
Lemma sh_run_write wf :
  shell_safe wf → ∃ s, renderWriteFile wf = Ok s ∧
    ∀ rest fs, sh_run None (lines_of s ++ rest) fs = sh_run None rest (cloud_write fs (terminated wf)).
Proof.
  intros Hs. destruct (content_lines wf) as (t & Ht & Hfree).
  pose proof Hs as ([[dir b] Hcut] & Hq & Hn & Hps & Hpn).
  destruct (safe_dir _ _ _ Hs Hcut) as [Hdq Hdn].
  destruct (render_lines wf dir b t Hs Hcut Ht) as (s & Hr & Hl).
  exists s. split; [done|]. intros rest fs. rewrite Hl, <-app_assoc, sh_run_mkdir by done.
  cbn [app sh_run]. unfold cat_line. rewrite parse_cat; [|by apply pickDelimiter_no_char|done].
  rewrite <-app_assoc, <-app_comm_cons, sh_run_here.
  2: { apply Forall_forall. intros l Hin ->. by apply (Hfree _ (pickDelimiter_free _)). }
  rewrite unlines, <-Ht. unfold cloud_write, dir_exists, dir_of. simpl wf_Path. simpl wf_Append.
  simpl wf_Permissions. rewrite Hcut. cbn [fmap option_fmap option_map fst].
  rewrite bool_decide_eq_true_2 by (case_bool_decide; [by left|right; set_solver]).
  rewrite sh_run_chmod by done. by destruct dir.
Qed.

Lemma sh_run_blocks wfs :
  Forall shell_safe wfs → ∃ s L, write_blocks wfs = Ok s ∧ (∀ x, lines_of (x +:+ s) = lines_of x ++ L) ∧
    ∀ rest fs, sh_run None (L ++ rest) fs =
               sh_run None rest (foldl (λ fs wf, cloud_write fs (terminated wf)) fs wfs).
Proof.
  induction 1 as [|wf wfs Hs _ (s2 & L2 & E2 & Hl2 & Hr2)].
  { exists "", []. split_and!; [done| |done]. intros x. by rewrite str_app_nil_r, app_nil_r. }
  destruct (sh_run_write wf Hs) as (s1 & E1 & Hr1).
  exists (nl +:+ s1 +:+ s2), (lines_of s1 ++ L2). split_and!.
  - simpl. by rewrite E1, E2.
  - intros x. by rewrite lines_of_app, Hl2.
  - intros rest fs. by rewrite <-app_assoc, Hr1, Hr2.
Qed.

Lemma write_blocks_slash wfs s :
  write_blocks wfs = Ok s → Forall (λ wf, is_Some (cut_last_char "/" (wf_Path wf))) wfs.
Proof.
  revert s. induction wfs as [|wf wfs IH]; intros s; simpl; [by constructor|].
  unfold renderWriteFile. destruct (cut_last_char "/" (wf_Path wf)) as [[]|] eqn:E; [|done].
  destruct (write_blocks wfs); [|done..]. intros _. constructor; [by eexists|by eapply IH].
Qed.

Lemma write_blocks_no_slash wfs :
  ¬ Forall (λ wf, is_Some (cut_last_char "/" (wf_Path wf))) wfs →
  write_blocks wfs = Err (Errorf "error calling writeFile: %s" ["slice bounds out of range [:-1]"] []).
Proof.
  induction wfs as [|wf wfs IH]; [by intros []|]. intros H. simpl. unfold renderWriteFile.
  destruct (cut_last_char "/" (wf_Path wf)) as [[]|] eqn:E; [|done].
  rewrite IH; [done|]. intros Hf. apply H. constructor; [by eexists|done].
Qed.

(** ** The theorems *)

(** A shell splits the rendering of an argument list into its non-empty
    arguments, whatever bytes they hold; empty arguments are lost. *)
Theorem shellJoin_words (args : list string) :
  sh_words None false (shellJoin args) = Some (filter (λ a, a ≠ "") args).
Proof.
  unfold shellJoin. induction args as [|a args IH]; [done|].
  destruct args as [|b args].
  - simpl. destruct (decide (a = "")) as [->|Ha]; [done|].
    rewrite <-(str_app_nil_r (shell_quote a)), sh_words_quote by done. simpl.
    by rewrite filter_cons_True.
  - set (rest := b :: args) in *.
    change (Join (shell_quote <$> a :: rest) " ")
      with (shell_quote a +:+ String " " (Join (shell_quote <$> rest) " ")).
    clearbody rest.
    destruct (decide (a = "")) as [->|Ha].
    + rewrite filter_cons_False by naive_solver. done.
    + rewrite sh_words_quote, filter_cons_True by done. simpl. by rewrite IH.
Qed.


Definition test_files : list WriteFile :=
  [{| wf_Path := "/etc/kubeadm/config.yaml"; wf_Content := "it's an EOF file";
      wf_Permissions := "0600"; wf_Append := false |};
   {| wf_Path := "/etc/hosts"; wf_Content := "10.0.0.1 $node" +:+ nl; wf_Permissions := ""; wf_Append := true |}].
Definition test_ud : UserData :=
  {| ud_APT := None; ud_PackageUpdate := true; ud_PackageUpgrade := false; ud_Packages := ["curl"];
     ud_FQDN := ""; ud_PreferFQDNOverHostname := false; ud_SSHAuthorizedKeys := [];
     ud_WriteFiles := test_files; ud_RunCmd := [CmdArgs ["echo"; "hello world"; ""]; CmdShell "true"] |}.
Definition empty_fs : FS := {| fs_files := ∅; fs_modes := ∅; fs_dirs := ∅ |}.

(** The path of the entry holds a slash. *)
Definition has_slash (wf : WriteFile) : Prop := is_Some (cut_last_char "/" (wf_Path wf)).

(** Rendering succeeds exactly when every file path holds a slash; the
    panic of the slice expression otherwise comes back as an error. *)
Theorem marshalScript_outcome (ud : UserData) :
  (Forall has_slash (ud_WriteFiles ud) →
   ∃ body, marshalScript ud = Ok (script_header +:+ body +:+ script_footer)) ∧
  (¬ Forall has_slash (ud_WriteFiles ud) →
   marshalScript ud =
     Err (Errorf "rendering script template: %w" []
            [Errorf "error calling writeFile: %s" ["slice bounds out of range [:-1]"] []])).
Proof.
  assert (∀ wfs, Forall has_slash wfs → ∃ s, write_blocks wfs = Ok s) as Hok.
  { induction 1 as [|wf wfs [[a b] Ha] _ [s IH]]; [by eexists|]. simpl. unfold renderWriteFile.
    rewrite Ha, IH. by eexists. }
  split; intros H.
  - assert (∃ files, write_files_section ud = Ok files) as [files Hf].
    { unfold write_files_section. destruct (Hok _ H) as [s Hs].
      destruct (ud_WriteFiles ud); [by eexists|]. rewrite Hs. by eexists. }
    unfold marshalScript, scriptTemplate. rewrite Hf. cbn [mbind res_bind].
    exists (apt_section (ud_APT ud) +:+ packages_section ud +:+ hostname_section ud +:+
            ssh_section ud +:+ files +:+ run_section ud).
    generalize script_header (apt_section (ud_APT ud)) (packages_section ud) (hostname_section ud)
      (ssh_section ud) (run_section ud) script_footer.
    intros. by rewrite !str_app_assoc.
  - apply write_blocks_no_slash in H. unfold marshalScript, scriptTemplate, write_files_section.
    destruct (ud_WriteFiles ud) as [|wf wfs]; [done|]. by rewrite H.
Qed.

(** ** Examples and witnesses *)
Example shellJoin_ex : shellJoin ["echo"; "hello world"; "foo"] = "echo 'hello world' foo".
Proof. reflexivity. Qed.
Example pickDelimiter_ex1 : pickDelimiter "contains EOF in text" = "_EOF".
Proof. reflexivity. Qed.
Example pickDelimiter_ex2 : pickDelimiter "has EOF and _EOF" = "__EOF".
Proof. reflexivity. Qed.
Example aptSourceLine_ex :
  aptSourceLine "k8s" {| apt_Source := "deb https://x /"; apt_Key := "k"; apt_KeyID := "" |}
  = "deb [signed-by=/usr/share/keyrings/k8s.gpg] https://x /".
Proof. reflexivity. Qed.
Example run_section_ex : run_section test_ud =
  nl +:+ nl +:+ "# --- Run commands ---" +:+ nl +:+ "echo 'hello world' " +:+ nl +:+ "true".
Proof. reflexivity. Qed.

Lemma marshalScript_outcome_witness :
  ∃ body, marshalScript test_ud = Ok (script_header +:+ body +:+ script_footer).
Proof. apply (proj1 (marshalScript_outcome test_ud)). repeat constructor; by eexists. Defined.
