(* ===== verification/Encoding.v ===== *)
(** * Go's [encoding/hex], [encoding/base64] and [crypto/sha256]

    The functions of these standard packages that the source calls, on strings
    of bytes: lower-case hexadecimal, the standard base64 alphabet with padding,
    and SHA-256 over 32-bit words with their wrap-around. *)
From S2P Require Import Prelude GoStr.
From stdpp Require Import options.

Definition byte_of (z : Z) : ascii := chr (Z.to_nat (z mod 256)).

(** ** Hexadecimal *)
Fixpoint hex_EncodeToString (s : string) : string :=
  match s with
  | "" => ""
  | String c s =>
      String (digit_char (code c / 16)) (String (digit_char (code c mod 16)) (hex_EncodeToString s))
  end.

(** ** Base64 *)
Definition b64_char (n : Z) : ascii :=
  if n <? 26 then chr (Z.to_nat (65 + n))
  else if n <? 52 then chr (Z.to_nat (71 + n))
  else if n <? 62 then chr (Z.to_nat (n - 4))
  else if n =? 62 then "+"%char else "/"%char.

Fixpoint base64_EncodeToString (s : string) : string :=
  match s with
  | "" => ""
  | String a s1 =>
      let a := code a in
      match s1 with
      | "" => String (b64_char (a / 4)) (String (b64_char (a mod 4 * 16)) "==")
      | String b s2 =>
          let b := code b in
          match s2 with
          | "" => String (b64_char (a / 4)) (String (b64_char (a mod 4 * 16 + b / 16))
                    (String (b64_char (b mod 16 * 4)) "="))
          | String c s3 =>
              let c := code c in
              String (b64_char (a / 4)) (String (b64_char (a mod 4 * 16 + b / 16))
                (String (b64_char (b mod 16 * 4 + c / 64)) (String (b64_char (c mod 64))
                  (base64_EncodeToString s3))))
          end
      end
  end.

(** ** SHA-256 *)
Definition rotr (x n : Z) : Z := u32 (Z.lor (Z.shiftr x n) (Z.shiftl x (32 - n))).
(** The round constants are the first 32 fractional bits of the cube roots of
    the first 64 primes, the initial hash value those of the square roots of the
    first eight. *)
Definition is_prime (n : nat) : bool := forallb (λ d, negb (n mod d =? 0)%nat) (seq 2 (n - 2)).
Definition primes : list Z := Eval vm_compute in Z.of_nat <$> filter (λ n, is_prime n = true) (seq 2 310).
Fixpoint root_below (cube : Z) (bit : nat) (r : Z) : Z :=
  let r' := r + 2 ^ Z.of_nat bit in
  let r := if r' ^ 3 <=? cube then r' else r in
  match bit with
  | O => r
  | S bit => root_below cube bit r
  end.
Definition sha_k : list Z :=
  Eval vm_compute in (λ p, u32 (root_below (p * 2 ^ 96) 40 0)) <$> primes.
Definition sha_init : list Z := Eval vm_compute in (λ p, u32 (Z.sqrt (p * 2 ^ 64))) <$> take 8 primes.

Fixpoint byte_codes (s : string) : list Z := match s with "" => [] | String c s => code c :: byte_codes s end.
Definition be_bytes (n : nat) (x : Z) : list Z :=
  (λ i, Z.shiftr x (8 * Z.of_nat i) mod 256) <$> rev (seq 0 n).

(** The message, a one bit, zeros to 56 bytes modulo 64, and the bit length. *)
Definition sha_pad (m : list Z) : list Z :=
  let len := Z.of_nat (length m) in
  m ++ [128] ++ replicate (Z.to_nat ((55 - len) mod 64)) 0 ++ be_bytes 8 (8 * len).

Fixpoint be_words (l : list Z) : list Z :=
  match l with
  | a :: b :: c :: d :: l => (((a * 256 + b) * 256 + c) * 256 + d) :: be_words l
  | _ => []
  end.

(** The message schedule, the last word first: [n] more words. *)
Fixpoint schedule (n : nat) (w : list Z) : list Z :=
  match n with
  | O => w
  | S n =>
      let x := nth 14 w 0 in let y := nth 1 w 0 in
      let s0 := Z.lxor (Z.lxor (rotr x 7) (rotr x 18)) (Z.shiftr x 3) in
      let s1 := Z.lxor (Z.lxor (rotr y 17) (rotr y 19)) (Z.shiftr y 10) in
      schedule n (u32 (nth 15 w 0 + s0 + nth 6 w 0 + s1) :: w)
  end.

Definition sha_round (h : list Z) (kw : Z * Z) : list Z :=
  match h with
  | [a; b; c; d; e; f; g; hh] =>
      let s1 := Z.lxor (Z.lxor (rotr e 6) (rotr e 11)) (rotr e 25) in
      let ch := Z.lxor (Z.land e f) (Z.land (Z.lxor e (2 ^ 32 - 1)) g) in
      let t1 := u32 (hh + s1 + ch + kw.1 + kw.2) in
      let s0 := Z.lxor (Z.lxor (rotr a 2) (rotr a 13)) (rotr a 22) in
      let maj := Z.lxor (Z.lxor (Z.land a b) (Z.land a c)) (Z.land b c) in
      let t2 := u32 (s0 + maj) in
      [u32 (t1 + t2); a; b; c; u32 (d + t1); e; f; g]
  | _ => h
  end.

(** One block of 16 words. *)
Definition sha_block (h : list Z) (block : list Z) : list Z :=
  let w := rev (schedule 48 (rev block)) in
  zip_with (λ x y, u32 (x + y)) h (foldl sha_round h (zip sha_k w)).

Fixpoint sha_blocks (n : nat) (h words : list Z) : list Z :=
  match n with
  | O => h
  | S n => sha_blocks n (sha_block h (take 16 words)) (drop 16 words)
  end.

Definition bytes_str (l : list Z) : string := foldr (λ z s, String (byte_of z) s) "" l.

Definition sha256 (s : string) : string :=
  let words := be_words (sha_pad (byte_codes s)) in
  bytes_str (sha_blocks (length words / 16) sha_init words ≫= be_bytes 4).

Example sha_tables : length primes = 64%nat ∧ length sha_k = 64%nat ∧ head sha_k = Some 1116352408.
Proof. vm_compute. done. Qed.
Example sha256_abc :
  hex_EncodeToString (sha256 "abc") =
  "ba7816bf8f01cfea414140de5dae2223b00361a396177a9cb410ff61f20015ad".
Proof. vm_compute. reflexivity. Qed.
Example sha256_two_blocks :
  hex_EncodeToString (sha256 "abcdbcdecdefdefgefghfghighijhijkijkljklmklmnlmnomnopnopq") =
  "248d6a61d20638b8e5c026930c3e6039a33ce45964ff2167f6ecedd419db06c1".
Proof. vm_compute. reflexivity. Qed.
Example base64_ex : base64_EncodeToString "ab+/?" = "YWIrLz8=".
Proof. vm_compute. reflexivity. Qed.

(** ** Lengths *)
Lemma hex_length s : String.length (hex_EncodeToString s) = (2 * String.length s)%nat.
Proof. induction s as [|c s IH]; [done|]. simpl. lia. Qed.

Lemma bytes_str_length l : String.length (bytes_str l) = length l.
Proof. induction l as [|z l IH]; [done|]. simpl. by rewrite IH. Qed.

Lemma sha_round_length h kw : length h = 8%nat → length (sha_round h kw) = 8%nat.
Proof. by destruct h as [|? [|? [|? [|? [|? [|? [|? [|? [|]]]]]]]]]. Qed.

Lemma sha_block_length h block : length h = 8%nat → length (sha_block h block) = 8%nat.
Proof.
  intros Hh. unfold sha_block. rewrite length_zip_with.
  assert (∀ l h, length h = 8%nat → length (foldl sha_round h l) = 8%nat) as Hf.
  { clear. induction l as [|x l IH]; intros h Hh; [done|]. simpl. by apply IH, sha_round_length. }
  rewrite Hf by done. lia.
Qed.

Lemma sha256_length s : String.length (sha256 s) = 32%nat.
Proof.
  unfold sha256. rewrite bytes_str_length.
  assert (∀ n h w, length h = 8%nat → length (sha_blocks n h w) = 8%nat) as Hb.
  { induction n as [|n IH]; intros h w Hh; [done|]. simpl. by apply IH, sha_block_length. }
  assert (∀ l : list Z, length (l ≫= be_bytes 4) = (4 * length l)%nat) as Hl.
  { induction l as [|x l IH]; [done|]. rewrite bind_cons, length_app, IH.
    unfold be_bytes. rewrite length_fmap, length_rev, length_seq. simpl. lia. }
  rewrite Hl, Hb by done. lia.
Qed.

(** ** Decoding base64

    The decoder of the standard alphabet for padded groups of four, the
    specification [base64_EncodeToString] is inverse to. *)
Definition b64_val (c : ascii) : option Z :=
  let n := code c in
  if (65 <=? n) && (n <=? 90) then Some (n - 65)
  else if (97 <=? n) && (n <=? 122) then Some (n - 71)
  else if (48 <=? n) && (n <=? 57) then Some (n + 4)
  else if n =? 43 then Some 62
  else if n =? 47 then Some 63 else None.

Fixpoint base64_decode (s : string) : option string :=
  match s with
  | "" => Some ""
  | String c1 (String c2 (String c3 (String c4 s))) =>
      x ← b64_val c1; y ← b64_val c2;
      if decide (c3 = "="%char) then
        if decide (c4 = "="%char ∧ s = "") then Some (String (byte_of (x * 4 + y / 16)) "") else None
      else
        z ← b64_val c3;
        if decide (c4 = "="%char) then
          if decide (s = "") then Some (String (byte_of (x * 4 + y / 16)) (String (byte_of (y mod 16 * 16 + z / 4)) ""))
          else None
        else
          u ← b64_val c4; r ← base64_decode s;
          Some (String (byte_of (x * 4 + y / 16)) (String (byte_of (y mod 16 * 16 + z / 4))
                  (String (byte_of (z mod 4 * 64 + u)) r)))
  | _ => None
  end.

Lemma b64_val_char n : 0 ≤ n < 64 → b64_val (b64_char n) = Some n ∧ b64_char n ≠ "="%char.
Proof.
  intros H. assert (∃ k, (k < 64)%nat ∧ n = Z.of_nat k) as (k & Hk & ->) by (exists (Z.to_nat n); lia).
  do 64 (destruct k as [|k]; [by vm_compute|]). lia.
Qed.

Lemma byte_of_code c : byte_of (code c) = c.
Proof.
  unfold byte_of, code, chr. pose proof (nat_ascii_bounded c).
  by rewrite Z.mod_small, Nat2Z.id, ascii_nat_embedding by lia.
Qed.

Lemma code_byte c : 0 ≤ code c < 256.
Proof. unfold code. pose proof (nat_ascii_bounded c). lia. Qed.

Lemma string_ind3 (P : string → Prop) :
  P "" → (∀ a, P (String a "")) → (∀ a b, P (String a (String b ""))) →
  (∀ a b c s, P s → P (String a (String b (String c s)))) → ∀ s, P s.
Proof.
  intros H0 H1 H2 H3 s.
  assert (P s ∧ (∀ a, P (String a s)) ∧ ∀ a b, P (String a (String b s))) as [H _]; [|done].
  induction s as [|c s (IH0 & IH1 & IH2)]; [done|]. split_and!; [by apply IH1|by intros; apply IH2|].
  intros a b. by apply H3.
Qed.

Ltac split_bits :=
  repeat match goal with
  | |- context [code ?c] => lazymatch goal with H : 0 ≤ code c < 256 |- _ => fail | _ => pose proof (code_byte c) end
  end.

Lemma byte_of_eq z c : z = code c → byte_of z = c.
Proof. intros ->. apply byte_of_code. Qed.

Lemma base64_round s : base64_decode (base64_EncodeToString s) = Some s.
Proof.
  induction s as [|a|a b|a b c s IH] using string_ind3; [done| | |]; cbn [base64_EncodeToString base64_decode];
    split_bits;
    repeat match goal with
    | |- context [b64_val (b64_char ?n)] =>
        let H := fresh in let H' := fresh in
        destruct (b64_val_char n) as [H H']; [Z.to_euclidean_division_equations; lia|rewrite H]
    end; cbn [mbind option_bind].
  - rewrite decide_True, decide_True by done.
    f_equal. f_equal. apply byte_of_eq. Z.to_euclidean_division_equations; lia.
  - rewrite decide_False, decide_True, decide_True by done.
    f_equal. f_equal; [|f_equal]; apply byte_of_eq; Z.to_euclidean_division_equations; lia.
  - rewrite decide_False, decide_False, IH by done. cbn [mbind option_bind].
    f_equal. f_equal; [|f_equal; [|f_equal]]; apply byte_of_eq; Z.to_euclidean_division_equations; lia.
Qed.
