(* ===== verification/Config.v ===== *)
(** * Configuration from the environment

    [plugin/pkg/util/config/config.go]: the shared configuration read from
    environment variables and the Azure CLI, and its validation by regular
    expressions.  The part of Go's [regexp] the expressions use is a matcher on
    runes, proved against the language of an expression; [strconv.Atoi] is
    written out.  The environment and the output of commands are parameters. *)
From S2P Require Import Prelude GoStr.
From stdpp Require Import options.
Open Scope Z_scope.

(** ** Runes: UTF-8 decoding of a string, with U+FFFD for an invalid byte *)
Definition RuneError : Z := 65533.
Definition in_range (lo hi c : Z) : bool := (lo <=? c) && (c <=? hi).
Definition cont (c : Z) : bool := in_range 128 191 c.

Fixpoint runes (s : string) : list Z :=
  match s with
  | "" => []
  | String a s1 =>
      let a := code a in
      if a <? 128 then a :: runes s1
      else match s1 with
        | "" => RuneError :: runes s1
        | String b s2 =>
          let b := code b in
          if in_range 194 223 a && cont b then ((a - 192) * 64 + (b - 128)) :: runes s2
          else match s2 with
            | "" => RuneError :: runes s1
            | String c s3 =>
              let c := code c in
              if in_range 224 239 a && cont b && cont c
                 && negb ((a =? 224) && (b <? 160)) && negb ((a =? 237) && (159 <? b)) then
                ((a - 224) * 4096 + (b - 128) * 64 + (c - 128)) :: runes s3
              else match s3 with
                | "" => RuneError :: runes s1
                | String d s4 =>
                  let d := code d in
                  if in_range 240 244 a && cont b && cont c && cont d
                     && negb ((a =? 240) && (b <? 144)) && negb ((a =? 244) && (143 <? b)) then
                    ((a - 240) * 262144 + (b - 128) * 4096 + (c - 128) * 64 + (d - 128)) :: runes s4
                  else RuneError :: runes s1
                end
            end
        end
  end.

(** ** Regular expressions between [^] and [$] *)
Inductive regexp :=
| Class (p : Z → bool)
| Cat (r1 r2 : regexp)
| Repeat (r : regexp) (min max : nat).

(** What is left of the input after each way to match a prefix of it. *)
Fixpoint rep_rests (rests : list Z → list (list Z)) (min max : nat) (l : list Z) : list (list Z) :=
  (match min with O => [l] | S _ => [] end) ++
  match max with
  | O => []
  | S max => rests l ≫= rep_rests rests (pred min) max
  end.
Fixpoint rests (r : regexp) (l : list Z) : list (list Z) :=
  match r with
  | Class p => match l with c :: l => if p c then [l] else [] | [] => [] end
  | Cat r1 r2 => rests r1 l ≫= rests r2
  | Repeat r min max => rep_rests (rests r) min max l
  end.

Definition MatchString (r : regexp) (s : string) : bool :=
  existsb (λ l, bool_decide (l = [])) (rests r (runes s)).

(** [(?i)]: a class matches the runes that fold to one of its runes.  For the
    ASCII letters these are the two cases and, for s and k, the long s U+017F
    and the Kelvin sign U+212A. *)
Definition orbit (c : Z) : list Z :=
  [c] ++ (if in_range 97 122 c then [c - 32] else []) ++ (if in_range 65 90 c then [c + 32] else [])
  ++ (if c =? 383 then [115] else []) ++ (if c =? 8490 then [107] else []).
Definition fold_case (p : Z → bool) (c : Z) : bool := existsb p (orbit c).

Definition rune_of (s : string) (c : Z) : bool := str_exists (λ d, code d =? c) s.
Definition digit : Z → bool := in_range 48 57.
Definition hex : Z → bool := fold_case (λ c, digit c || in_range 97 102 c).
Definition alnum : Z → bool := fold_case (λ c, digit c || in_range 97 122 c).
Definition rg_last : Z → bool := fold_case (λ c, digit c || in_range 97 122 c || rune_of "-()_" c).
Definition rg_char : Z → bool := fold_case (λ c, digit c || in_range 97 122 c || rune_of "-()_." c).
Definition dash : regexp := Class (rune_of "-").
Definition hexes (n : nat) : regexp := Repeat (Class hex) n n.

Definition rxSubscriptionID : regexp :=
  Cat (hexes 8) (Cat dash (Cat (Repeat (Cat (hexes 4) dash) 3 3) (hexes 12))).
Definition rxResourceGroupName : regexp := Cat (Repeat (Class rg_char) 0 89) (Class rg_last).
Definition rxLocation : regexp := Repeat (Class alnum) 1 32.

(** ** [strconv.Atoi] *)
Definition digit_val (c : ascii) : option Z := if is_digit c then Some (code c - 48) else None.
Fixpoint digits_val (acc : Z) (s : string) : option Z :=
  match s with
  | "" => Some acc
  | String c s => match digit_val c with Some d => digits_val (10 * acc + d) s | None => None end
  end.
Definition Atoi (s : string) : option Z :=
  let '(neg, ds) := match s with
    | String c s' => if decide (c = "-"%char) then (true, s')
                     else if decide (c = "+"%char) then (false, s') else (false, s)
    | "" => (false, s)
    end in
  match ds with
  | "" => None
  | _ => match digits_val 0 ds with
         | Some n => let n := if (neg : bool) then - n else n in
                     if (- 2 ^ 63 <=? n) && (n <? 2 ^ 63) then Some n else None
         | None => None
         end
  end.

(** ** The configuration *)
Record Config := {
  SubscriptionID : string;
  ResourceGroupName : string;
  Location : string;
  ClusterName : string;
  ClusterVersion : string;
  SystemPoolSize : Z;
  SystemVMSize : string;
  GatewayVMSize : string;
  StretchNodeVMSize : string;
  StretchNodeZones : list string;
  GCPProjectID : string;
  GCPZone : string;
  GCPRegion : string;
  OCITenancyID : string;
  OCIParentCompartment : string;
  OCICompartmentName : string;
  OCIRegion : string;
  OCIAvailabilityDomain : string;
  NebiusProjectID : string;
  NebiusRegion : string;
  NebiusCredentialsFile : string;
}.

Section config.
(** The environment, and the standard output of a command that ran. *)
Context (environ : gmap string string) (Output : string → list string → res string).

Definition Getenv (k : string) : string := default "" (environ !! k).
Definition getenv_or (k d : string) : string :=
  let v := Getenv k in if bool_decide (v ≠ "") then v else d.

Definition az_account (query : string) : string :=
  match Output "az" ["account"; "show"; "--query"; query; "-o"; "tsv"] with
  | Ok out => TrimSpace out
  | _ => ""
  end.
Definition AzureTenantID : string := az_account "tenantId".
Definition defaultSubscriptionID : string :=
  let subscriptionID := Getenv "AZURE_SUBSCRIPTION_ID" in
  if bool_decide (subscriptionID ≠ "") then subscriptionID else az_account "id".
Definition defaultResourceGroupName : string :=
  let resourceGroupName := Getenv "RESOURCE_GROUP_NAME" in
  if bool_decide (resourceGroupName ≠ "") then resourceGroupName else Getenv "USER".
Definition defaultLocation : string := Getenv "LOCATION".
Definition defaultClusterName : string := getenv_or "CLUSTER_NAME" "flex".
Definition defaultClusterVersion : string := getenv_or "CLUSTER_VERSION" "1.34.2".
Definition defaultSystemPoolSize : Z :=
  let s := Getenv "SYSTEM_POOL_SIZE" in
  if bool_decide (s ≠ "") then match Atoi s with Some n => n | None => 3 end else 3.
Definition defaultGatewayVMSize : string := getenv_or "GATEWAY_VM_SIZE" "Standard_D16ds_v5".
Definition defaultSystemVMSize : string := getenv_or "SYSTEM_VM_SIZE" "Standard_D2s_v3".
Definition defaultStretchNodeVMSize : string := getenv_or "STRETCH_NODE_VM_SIZE" "Standard_D2ds_v5".
Definition defaultStretchNodeZones : list string :=
  let zonesStr := Getenv "STRETCH_NODE_ZONES" in
  if bool_decide (zonesStr = "") then ["1"; "2"; "3"]
  else if bool_decide (zonesStr = "none") then []
  else filter (λ z, z ≠ "") (TrimSpace <$> split_char "," zonesStr).
Definition defaultGCPProjectID : string := Getenv "GOOGLE_CLOUD_PROJECT".
Definition defaultGCPZone : string := Getenv "GOOGLE_CLOUD_ZONE".
Definition defaultGCPRegion : string := Getenv "GOOGLE_CLOUD_REGION".
Definition defaultOCITenancyID : string := Getenv "OCI_TENANCY_OCID".
Definition defaultOCIParentCompartment : string := Getenv "OCI_PARENT_COMPARTMENT".
Definition defaultOCICompartmentName : string := getenv_or "OCI_COMPARTMENT_NAME" "stretch".
Definition defaultOCIRegion : string := Getenv "OCI_REGION".
Definition defaultOCIAvailabilityDomain : string := Getenv "OCI_AVAILABILITY_DOMAIN".
Definition defaultNebiusProjectID : string := Getenv "NEBIUS_PROJECT_ID".
Definition defaultNebiusRegion : string := Getenv "NEBIUS_REGION".
Definition defaultNebiusCredentialsFile : string := Getenv "NEBIUS_CREDENTIALS_FILE".

Definition default_config : Config := {|
  SubscriptionID := defaultSubscriptionID;
  ResourceGroupName := defaultResourceGroupName;
  Location := defaultLocation;
  ClusterName := defaultClusterName;
  ClusterVersion := defaultClusterVersion;
  SystemPoolSize := defaultSystemPoolSize;
  SystemVMSize := defaultSystemVMSize;
  GatewayVMSize := defaultGatewayVMSize;
  StretchNodeVMSize := defaultStretchNodeVMSize;
  StretchNodeZones := defaultStretchNodeZones;
  GCPProjectID := defaultGCPProjectID;
  GCPZone := defaultGCPZone;
  GCPRegion := defaultGCPRegion;
  OCITenancyID := defaultOCITenancyID;
  OCIParentCompartment := defaultOCIParentCompartment;
  OCICompartmentName := defaultOCICompartmentName;
  OCIRegion := defaultOCIRegion;
  OCIAvailabilityDomain := defaultOCIAvailabilityDomain;
  NebiusProjectID := defaultNebiusProjectID;
  NebiusRegion := defaultNebiusRegion;
  NebiusCredentialsFile := defaultNebiusCredentialsFile;
|}.

Definition config_validate (c : Config) : res () :=
  if negb (MatchString rxSubscriptionID (SubscriptionID c)) then
    Err (errors_New "AZURE_SUBSCRIPTION_ID is missing or invalid (expected a UUID)")
  else if negb (MatchString rxResourceGroupName (ResourceGroupName c)) then
    Err (errors_New "RESOURCE_GROUP_NAME is missing or invalid")
  else if negb (MatchString rxLocation (Location c)) then
    Err (errors_New "LOCATION is missing or invalid (e.g. eastus, westeurope)")
  else if bool_decide (ClusterName c = "") then Err (errors_New "CLUSTER_NAME is empty")
  else Ok ().

Definition config_New : res Config :=
  let c := default_config in
  match config_validate c with
  | Err e => Err e
  | Panic p => Panic p
  | Ok _ => Ok c
  end.
End config.

(** ** [configcmd/defaults.go] *)
Definition placeholder : string := "<replace-with-actual-value>".
(** The warnings printed to the standard error are left out. *)
Definition DefaultConfig environ Output : option Config :=
  match config_New environ Output with Ok cfg => Some cfg | _ => None end.
Definition OrPlaceholder (val : string) : string :=
  if bool_decide (val ≠ "") then val else placeholder.

Example sub_ok : MatchString rxSubscriptionID "0b1F6471-1bf0-4dda-aec3-cb9272f09590" = true.
Proof. vm_compute. reflexivity. Qed.
Example sub_bad : MatchString rxSubscriptionID "0b1f6471-1bf0-4dda-aec3cb9272f09590" = false.
Proof. vm_compute. reflexivity. Qed.
Example rg_ok : MatchString rxResourceGroupName "rg.aks-flex_(1)" = true.
Proof. vm_compute. reflexivity. Qed.
Example rg_bad : MatchString rxResourceGroupName "rg." = false.
Proof. vm_compute. reflexivity. Qed.
Example zones_ex : defaultStretchNodeZones {[ "STRETCH_NODE_ZONES" := "1, 2,,3 " ]} = ["1"; "2"; "3"].
Proof. vm_compute. reflexivity. Qed.

(** ** The language of an expression *)
Inductive lang : regexp → list Z → Prop :=
| lang_class p c : p c = true → lang (Class p) [c]
| lang_cat r1 r2 l1 l2 : lang r1 l1 → lang r2 l2 → lang (Cat r1 r2) (l1 ++ l2)
| lang_done r max : lang (Repeat r 0 max) []
| lang_more r min max l1 l2 :
    lang r l1 → lang (Repeat r (pred min) max) l2 → lang (Repeat r min (S max)) (l1 ++ l2).

Lemma elem_of_bind_rests {A B} (f : A → list B) l x : x ∈ (l ≫= f) ↔ ∃ y, y ∈ l ∧ x ∈ f y.
Proof. rewrite list_elem_of_bind. naive_solver. Qed.

Lemma rep_rests_lang r min max l k :
  (∀ l k, k ∈ rests r l ↔ ∃ l1, l = l1 ++ k ∧ lang r l1) →
  k ∈ rep_rests (rests r) min max l ↔ ∃ l1, l = l1 ++ k ∧ lang (Repeat r min max) l1.
Proof.
  intros Hr. revert min l. induction max as [|max IH]; intros min l.
  - simpl. rewrite app_nil_r. split.
    + destruct min; [|set_solver]. intros ->%list_elem_of_singleton. exists []. split; [done|constructor].
    + intros (l1 & -> & H). inversion H; subst; simpl. by left.
  - simpl. rewrite elem_of_app, elem_of_bind_rests. split.
    + intros [H|(y & Hy & H)].
      * destruct min; [|set_solver]. apply list_elem_of_singleton in H as ->.
        exists []. split; [done|constructor].
      * apply Hr in Hy as (l1 & -> & H1). apply IH in H as (l2 & -> & H2).
        exists (l1 ++ l2). split; [by rewrite app_assoc|by constructor].
    + intros (l1 & -> & H). inversion H as [| |? ?|? ? ? l2 l3 H2 H3]; subst; [left; by left|right].
      exists (l3 ++ k). split; [apply Hr; exists l2; by rewrite app_assoc|apply IH; by exists l3].
Qed.

Lemma rests_lang r l k : k ∈ rests r l ↔ ∃ l1, l = l1 ++ k ∧ lang r l1.
Proof.
  revert l k. induction r as [p|r1 IH1 r2 IH2|r IH min max]; intros l k; simpl.
  - split.
    + destruct l as [|c l]; [set_solver|]. destruct (p c) eqn:E; [|set_solver].
      intros ->%list_elem_of_singleton. exists [c]. split; [done|by constructor].
    + intros (l1 & -> & H). inversion H as [? ? Hp| | |]; subst. simpl. rewrite Hp. by left.
  - rewrite elem_of_bind_rests. setoid_rewrite IH1. setoid_rewrite IH2. split.
    + intros (y & (l1 & -> & H1) & (l2 & -> & H2)). exists (l1 ++ l2).
      split; [by rewrite app_assoc|by constructor].
    + intros (l1 & -> & H). inversion H as [|? ? l2 l3 H2 H3| |]; subst.
      exists (l3 ++ k). split; [exists l2; by rewrite app_assoc|by exists l3].
  - by apply rep_rests_lang.
Qed.

Lemma MatchString_lang r s : MatchString r s = true ↔ lang r (runes s).
Proof.
  unfold MatchString. rewrite existsb_exists. setoid_rewrite bool_decide_eq_true.
  setoid_rewrite <-list_elem_of_In. split.
  - intros (l & Hl & ->). apply rests_lang in Hl as (l1 & -> & H). by rewrite app_nil_r.
  - intros H. exists []. split; [|done]. apply rests_lang. exists (runes s). by rewrite app_nil_r.
Qed.

(** ** Languages of classes *)
Definition all_in (p : Z → bool) (l : list Z) : Prop := Forall (λ c, p c = true) l.

Lemma lang_class_inv p l : lang (Class p) l ↔ ∃ c, l = [c] ∧ p c = true.
Proof. split; [inversion 1; subst; eauto|]. intros (c & -> & H). by constructor. Qed.

Lemma lang_cat_inv r1 r2 l : lang (Cat r1 r2) l ↔ ∃ l1 l2, l = l1 ++ l2 ∧ lang r1 l1 ∧ lang r2 l2.
Proof. split; [inversion 1; subst; eauto 6|]. intros (l1 & l2 & -> & ? & ?). by constructor. Qed.

Lemma lang_class_rep p min max l :
  lang (Repeat (Class p) min max) l ↔ (min ≤ length l ≤ max)%nat ∧ all_in p l.
Proof.
  revert min l. induction max as [|max IH]; intros min l; split.
  - inversion 1; subst. split; [simpl; lia|by constructor].
  - intros [Hl _]. destruct l; [|simpl in Hl; lia]. destruct min; [constructor|simpl in Hl; lia].
  - inversion 1 as [| |? ?|? ? ? l1 l2 H1 H2]; subst; [split; [simpl; lia|by constructor]|].
    apply lang_class_inv in H1 as (c & -> & Hc). apply IH in H2 as [Hl H2].
    split; [simpl; lia|by constructor].
  - intros [Hl Ha]. destruct l as [|c l].
    + destruct min; [constructor|simpl in Hl; lia].
    + inversion Ha; subst. apply (lang_more _ _ _ [c] l); [by constructor|].
      apply IH. split; [simpl in Hl; lia|done].
Qed.

(** The classes of an expression of fixed length, in order. *)
Fixpoint pattern (r : regexp) : list (Z → bool) :=
  match r with
  | Class p => [p]
  | Cat r1 r2 => pattern r1 ++ pattern r2
  | Repeat r min _ => concat (replicate min (pattern r))
  end.
Fixpoint fixed (r : regexp) : bool :=
  match r with
  | Class _ => true
  | Cat r1 r2 => fixed r1 && fixed r2
  | Repeat r min max => fixed r && (min =? max)%nat
  end.
Definition fits (ps : list (Z → bool)) (l : list Z) : Prop := Forall2 (λ p c, (p : Z → bool) c = true) ps l.

Lemma lang_fixed r l : fixed r = true → lang r l ↔ fits (pattern r) l.
Proof.
  unfold fits. revert l. induction r as [p|r1 IH1 r2 IH2|r IH min max]; intros l H; simpl in *.
  - rewrite lang_class_inv. split.
    + intros (c & -> & Hc). by repeat constructor.
    + intros (c & l' & Hc & ->%Forall2_nil_inv_l & ->)%Forall2_cons_inv_l. by exists c.
  - apply andb_true_iff in H as [H1 H2]. rewrite lang_cat_inv. split.
    + intros (l1 & l2 & -> & L1 & L2). apply Forall2_app; [by apply IH1|by apply IH2].
    + intros (l1 & l2 & F1 & F2 & ->)%Forall2_app_inv_l. exists l1, l2. by rewrite IH1, IH2.
  - apply andb_true_iff in H as [H <-%Nat.eqb_eq]. revert l. induction min as [|n IHn]; intros l; simpl.
    + split; [inversion 1; subst; constructor|]. intros ->%Forall2_nil_inv_l. constructor.
    + split.
      * inversion 1 as [| |? ?|? ? ? l1 l2 L1 L2]; subst. apply Forall2_app; [by apply IH|by apply IHn].
      * intros (l1 & l2 & F1 & F2 & ->)%Forall2_app_inv_l. constructor; [by apply IH|by apply IHn].
Qed.

Lemma fits_seq (f : nat → Z → bool) n l :
  fits (f <$> seq 0 n) l ↔ length l = n ∧ ∀ i c, l !! i = Some c → f i c = true.
Proof.
  unfold fits. rewrite Forall2_fmap_l, Forall2_lookup. split.
  - intros H. assert (length l = n) as Hl.
    { symmetry. rewrite <-(length_seq n 0) at 1. eapply Forall2_length, Forall2_lookup, H. }
    split; [done|]. intros i c Hi. specialize (H i). rewrite Hi in H.
    apply lookup_lt_Some in Hi. rewrite lookup_seq_lt in H by lia. by inversion H; subst.
  - intros [<- H] i. destruct (l !! i) as [c|] eqn:E.
    + rewrite lookup_seq_lt by (by apply lookup_lt_Some in E). constructor. by apply H.
    + rewrite lookup_seq_ge by (by apply lookup_ge_None). constructor.
Qed.

(** ** ASCII strings decode to their bytes *)
Fixpoint codes (s : string) : list Z := match s with "" => [] | String c s => code c :: codes s end.
Definition ascii_codes (l : list Z) : Prop := Forall (λ c, c < 128) l.

Lemma runes_codes s : ascii_codes (codes s) → runes s = codes s.
Proof.
  induction s as [|a s IH]; intros H; [done|]. inversion H as [|? ? Ha Hs]; subst.
  cbn [runes codes]. rewrite (proj2 (Z.ltb_lt _ _)) by done. by rewrite IH.
Qed.

Lemma codes_runes s : ascii_codes (runes s) → ascii_codes (codes s).
Proof.
  induction s as [|a s IH]; intros H; [done|]. cbn [runes codes] in *.
  destruct (Z.ltb_spec (code a) 128) as [Ha|Ha].
  - inversion H; subst. constructor; [done|by apply IH].
  - exfalso. unfold ascii_codes, RuneError, cont, in_range in H.
    repeat case_match; repeat match goal with
      | H : Forall _ (_ :: _) |- _ => apply Forall_cons in H as [? _]
      end; try lia.
Qed.

(** ** What the expressions accept *)
Definition is_hex (c : Z) : Prop := 48 ≤ c ≤ 57 ∨ 97 ≤ c ≤ 102 ∨ 65 ≤ c ≤ 70.
Definition is_alnum_rune (c : Z) : Prop :=
  48 ≤ c ≤ 57 ∨ 97 ≤ c ≤ 122 ∨ 65 ≤ c ≤ 90 ∨ c = 383 ∨ c = 8490.
Definition dot : Z := 46.
Definition is_rg_rune (c : Z) : Prop := is_alnum_rune c ∨ c ∈ [45; 40; 41; 95; dot].

(** 36 bytes, hyphens at 8, 13, 18 and 23 and hexadecimal digits elsewhere. *)
Definition uuid (s : string) : Prop :=
  length (codes s) = 36%nat ∧
  ∀ i c, codes s !! i = Some c → if decide (i ∈ [8; 13; 18; 23]%nat) then c = 45 else is_hex c.
(** 1 to 90 runes, the last of them not a dot. *)
Definition resource_group_name (s : string) : Prop :=
  (1 ≤ length (runes s) ≤ 90)%nat ∧ Forall is_rg_rune (runes s) ∧ last (runes s) ≠ Some dot.
Definition location_name (s : string) : Prop :=
  (1 ≤ length (runes s) ≤ 32)%nat ∧ Forall is_alnum_rune (runes s).

Lemma fold_case_spec p c :
  fold_case p c = true ↔
  p c = true ∨ (97 ≤ c ≤ 122 ∧ p (c - 32) = true) ∨ (65 ≤ c ≤ 90 ∧ p (c + 32) = true)
  ∨ (c = 383 ∧ p 115 = true) ∨ (c = 8490 ∧ p 107 = true).
Proof.
  unfold fold_case, orbit, in_range. rewrite !existsb_app, !orb_true_iff. cbn [existsb].
  rewrite orb_false_r.
  assert (∀ (b : bool) x, existsb p (if b then [x] else []) = true ↔ b = true ∧ p x = true) as H.
  { intros b x. destruct b; cbn; rewrite ?orb_false_r; naive_solver. }
  rewrite !H, !andb_true_iff, !Z.leb_le, !Z.eqb_eq. done.
Qed.

Lemma in_range_spec lo hi c : in_range lo hi c = true ↔ lo ≤ c ≤ hi.
Proof. unfold in_range. rewrite andb_true_iff, !Z.leb_le. done. Qed.

Lemma rune_of_spec s c : rune_of s c = true ↔ c ∈ codes s.
Proof.
  unfold rune_of. induction s as [|d s IH]; simpl; [set_solver|].
  rewrite orb_true_iff, IH, Z.eqb_eq, elem_of_cons. naive_solver.
Qed.

Ltac class_cases :=
  rewrite fold_case_spec; cbn beta; unfold digit, is_hex, is_rg_rune, is_alnum_rune, dot;
  rewrite ?orb_true_iff, ?in_range_spec, ?rune_of_spec;
  change (codes "-()_.") with [45; 40; 41; 95; 46]; change (codes "-()_") with [45; 40; 41; 95];
  rewrite ?elem_of_cons, ?elem_of_nil; lia.

Lemma hex_spec c : hex c = true ↔ is_hex c.
Proof. unfold hex. class_cases. Qed.
Lemma alnum_spec c : alnum c = true ↔ is_alnum_rune c.
Proof. unfold alnum. class_cases. Qed.
Lemma rg_char_spec c : rg_char c = true ↔ is_rg_rune c.
Proof. unfold rg_char. class_cases. Qed.
Lemma rg_last_spec c : rg_last c = true ↔ is_rg_rune c ∧ c ≠ dot.
Proof. unfold rg_last. class_cases. Qed.

Lemma dash_spec c : rune_of "-" c = true ↔ c = 45.
Proof. rewrite rune_of_spec. change (codes "-") with [45]. set_solver. Qed.

Lemma all_in_iff (p : Z → bool) (P : Z → Prop) l :
  (∀ c, p c = true ↔ P c) → all_in p l ↔ Forall P l.
Proof. intros H. unfold all_in. by setoid_rewrite H. Qed.

(** The classes of the subscription expression by position. *)
Definition uuid_class (i : nat) : Z → bool :=
  if bool_decide (i ∈ [8; 13; 18; 23]%nat) then rune_of "-" else hex.
Lemma uuid_pattern : pattern rxSubscriptionID = uuid_class <$> seq 0 36.
Proof. vm_compute. reflexivity. Qed.

Lemma uuid_class_spec i c :
  uuid_class i c = true ↔ if decide (i ∈ [8; 13; 18; 23]%nat) then c = 45 else is_hex c.
Proof.
  unfold uuid_class. case_bool_decide as H; [rewrite decide_True by done|rewrite decide_False by done].
  - apply dash_spec.
  - apply hex_spec.
Qed.

Lemma subscription_spec s : MatchString rxSubscriptionID s = true ↔ uuid s.
Proof.
  rewrite MatchString_lang, lang_fixed, uuid_pattern, fits_seq by done. unfold uuid.
  setoid_rewrite uuid_class_spec.
  assert (∀ l : list Z, length l = 36%nat → (∀ i c, l !! i = Some c →
    if decide (i ∈ [8; 13; 18; 23]%nat) then c = 45 else is_hex c) → ascii_codes l) as Ha.
  { intros l _ H. apply Forall_lookup. intros i c Hi. apply H in Hi. unfold is_hex in Hi.
    case_decide; lia. }
  split; intros [Hl H].
  - rewrite <-runes_codes by (by apply codes_runes, Ha). done.
  - rewrite runes_codes by (by apply Ha). done.
Qed.

Lemma resource_group_spec s :
  MatchString rxResourceGroupName s = true ↔ resource_group_name s.
Proof.
  rewrite MatchString_lang. unfold rxResourceGroupName, resource_group_name.
  rewrite lang_cat_inv. split.
  - intros (l1 & l2 & E & [Hl H1]%lang_class_rep & (c & -> & Hc)%lang_class_inv).
    apply rg_last_spec in Hc as [Hc Hd]. rewrite E, length_app, last_snoc. simpl.
    split_and!; [lia|lia| |congruence]. apply Forall_app. split; [|by constructor].
    by apply (all_in_iff _ _ _ rg_char_spec).
  - intros (Hl & H & Hd). destruct (runes s) as [|c l _] eqn:E using rev_ind; [simpl in Hl; lia|].
    rewrite length_app in Hl. simpl in Hl. rewrite last_snoc in Hd.
    apply Forall_app in H as [H1 H2]. inversion H2; subst. exists l, [c]. split_and!; [done| |].
    + apply lang_class_rep. split; [lia|]. by apply (all_in_iff _ _ _ rg_char_spec).
    + constructor. apply rg_last_spec. split; [done|congruence].
Qed.

Lemma location_spec s : MatchString rxLocation s = true ↔ location_name s.
Proof.
  rewrite MatchString_lang. unfold rxLocation, location_name.
  by rewrite lang_class_rep, (all_in_iff _ _ _ alnum_spec).
Qed.

(** ** Numbers *)
Lemma digit_val_char d : 0 ≤ d < 10 → digit_val (digit_char d) = Some d.
Proof.
  intros H. assert (∃ n, (n < 10)%nat ∧ d = Z.of_nat n) as (n & Hn & ->) by (exists (Z.to_nat d); lia).
  do 10 (destruct n as [|n]; [reflexivity|]). lia.
Qed.

Lemma digits_val_pos fuel n t :
  0 ≤ n < 10 ^ Z.of_nat fuel → (0 < fuel)%nat → digits_val 0 (pos_digits fuel 10 n t) = digits_val n t.
Proof.
  revert n t. induction fuel as [|fuel IH]; intros n t Hn Hf; [lia|]. cbn [pos_digits].
  pose proof (Z.mod_pos_bound n 10). pose proof (Z_div_mod_eq_full n 10).
  destruct (Z.ltb_spec n 10) as [Hlt|Hge].
  - rewrite Z.mod_small by lia. cbn [digits_val]. by rewrite digit_val_char by lia.
  - destruct fuel as [|fuel]; [simpl in Hn; lia|]. rewrite Nat2Z.inj_succ, Z.pow_succ_r in Hn by lia.
    rewrite IH; [|split; [lia|]|lia].
    + cbn [digits_val]. rewrite digit_val_char by lia. f_equal. lia.
    + apply Z.div_lt_upper_bound; lia.
Qed.

Lemma digits_val_print n : 0 ≤ n → digits_val 0 (print_nat 10 n) = Some n.
Proof.
  intros Hn. unfold print_nat. rewrite digits_val_pos; [done| |lia]. split; [done|].
  rewrite Nat2Z.inj_succ, Z2Nat.id by apply Z.log2_nonneg.
  destruct (decide (n = 0)) as [->|Hz]; [done|].
  eapply Z.lt_le_trans; [apply Z.log2_spec; lia|].
  apply Z.pow_le_mono_l. lia.
Qed.

Lemma pos_digits_cons fuel base n c t : ∃ d u, pos_digits fuel base n (String c t) = String d u.
Proof.
  revert n c t. induction fuel as [|fuel IH]; intros n c t; cbn [pos_digits]; [by eexists _, _|].
  case_match; [by eexists _, _|apply IH].
Qed.

Lemma print_nat_cons n :
  0 ≤ n → ∃ c t, print_nat 10 n = String c t ∧ is_Some (digit_val c).
Proof.
  intros Hn. pose proof (digits_val_print n Hn) as H.
  assert (∃ c t, print_nat 10 n = String c t) as (c & t & E).
  { unfold print_nat. cbn [pos_digits]. case_match; [by eexists _, _|apply pos_digits_cons]. }
  rewrite E in *. exists c, t. split; [done|]. cbn [digits_val] in H. by destruct (digit_val c).
Qed.

Lemma Atoi_print (n : Z) (neg : bool) (s : string) :
  0 ≤ n → s = (if neg then String "-" (print_nat 10 n) else print_nat 10 n) →
  Atoi s = let n := if neg then - n else n in
           if (- 2 ^ 63 <=? n) && (n <? 2 ^ 63) then Some n else None.
Proof.
  intros Hn ->. pose proof (digits_val_print n Hn) as H.
  destruct (print_nat_cons n Hn) as (c & t & E & Hc). rewrite E in *.
  unfold Atoi. destruct neg; [by rewrite decide_True, H by done|].
  rewrite !decide_False; [by rewrite H| |]; intros ->; by inversion Hc.
Qed.

(** ** The theorems *)

(** C38: the configuration read from the environment is accepted exactly when the
    subscription is 36 bytes of hexadecimal digits with hyphens in the four
    places of a UUID, the resource group is 1 to 90 of its runes without a
    final dot, and the location 1 to 32 letters or digits; the cluster name is
    never empty, and a refused configuration is an error, not a panic. *)
Theorem config_New_exact environ Output :
  let c := default_config environ Output in
  (uuid (SubscriptionID c) ∧ resource_group_name (ResourceGroupName c) ∧ location_name (Location c) →
   config_New environ Output = Ok c) ∧
  (¬ (uuid (SubscriptionID c) ∧ resource_group_name (ResourceGroupName c) ∧ location_name (Location c)) →
   is_Err (config_New environ Output) = true) ∧
  ClusterName c ≠ "".
Proof.
  intros c. rewrite <-subscription_spec, <-resource_group_spec, <-location_spec.
  assert (ClusterName c ≠ "") as Hn.
  { subst c. simpl. unfold defaultClusterName, getenv_or. by case_bool_decide. }
  unfold config_New, config_validate. fold c.
  destruct (MatchString rxSubscriptionID (SubscriptionID c)); cbn [negb]; [|naive_solver].
  destruct (MatchString rxResourceGroupName (ResourceGroupName c)); cbn [negb]; [|naive_solver].
  destruct (MatchString rxLocation (Location c)); cbn [negb]; [|naive_solver].
  rewrite bool_decide_eq_false_2 by done. naive_solver.
Qed.

(** A decimal SYSTEM_POOL_SIZE within 64 bits is the size of the system
    pool, negative numbers included; any other decimal leaves the default 3. *)
Theorem system_pool_size_decimal environ (n : Z) :
  environ !! "SYSTEM_POOL_SIZE" = Some (Itoa n) →
  defaultSystemPoolSize environ =
    (if bool_decide (- 2 ^ 63 ≤ n < 2 ^ 63) then n else 3) ∧
  - 2 ^ 63 ≤ defaultSystemPoolSize environ < 2 ^ 63.
Proof.
  intros E. unfold defaultSystemPoolSize, Getenv. rewrite E. cbn [from_option id].
  assert (Atoi (Itoa n) = if (- 2 ^ 63 <=? n) && (n <? 2 ^ 63) then Some n else None) as HA.
  { unfold Itoa. destruct (Z.ltb_spec n 0).
    - rewrite (Atoi_print (- n) true) by (done || lia). by rewrite Z.opp_involutive.
    - by rewrite (Atoi_print n false) by (done || lia). }
  rewrite HA. assert (Itoa n ≠ "") as Hne.
  { intros H0. rewrite H0 in HA. unfold Itoa in H0. destruct (Z.ltb_spec n 0); [done|].
    destruct (print_nat_cons n) as (c & t & Ec & _); [lia|]. congruence. }
  rewrite (bool_decide_eq_true_2 (_ ≠ _)) by done.
  destruct (Z.leb_spec (- 2 ^ 63) n), (Z.ltb_spec n (2 ^ 63)); cbn [andb];
    rewrite ?bool_decide_eq_true_2, ?bool_decide_eq_false_2 by lia; lia.
Qed.

Definition test_environ : gmap string string :=
  {[ "AZURE_SUBSCRIPTION_ID" := "0b1f6471-1bf0-4dda-aec3-cb9272f09590"; "USER" := "dev";
     "LOCATION" := "eastus"; "SYSTEM_POOL_SIZE" := "-7" ]}.

Lemma config_New_exact_witness :
  config_New test_environ (λ _ _, Err (ErrExt "az")) = Ok (default_config test_environ (λ _ _, Err (ErrExt "az"))).
Proof.
  apply (config_New_exact test_environ (λ _ _, Err (ErrExt "az"))).
  rewrite <-subscription_spec, <-resource_group_spec, <-location_spec.
  split_and!; vm_compute; reflexivity.
Defined.

Lemma system_pool_size_decimal_witness : defaultSystemPoolSize test_environ = -7.
Proof. rewrite (proj1 (system_pool_size_decimal test_environ (-7) eq_refl)). reflexivity. Defined.
