(* ===== verification/K8s.v ===== *)
(** * Kubeconfig files and applying manifests

    [plugin/pkg/util/k8s]: the admin kubeconfig of the AKS cluster, its merge
    into a kubeconfig file, the API server of a kubeconfig context, and
    server-side apply of the objects of a YAML document; and
    [plugin/pkg/util/az/aks.go], the managed cluster.  The Azure and Kubernetes
    clients, the file system and the kubeconfig codec are interfaces. *)
From S2P Require Import Prelude GoStr GoNet GoURL Config.
From stdpp Require Import options.

(** ** [path/filepath] *)

(** The components of a cleaned path, the last one first. *)
Fixpoint clean_loop (rooted : bool) (acc : list string) (l : list string) : list string :=
  match l with
  | [] => acc
  | x :: l =>
      if bool_decide (x = "" ∨ x = ".") then clean_loop rooted acc l
      else if bool_decide (x = "..") then
        match acc with
        | y :: acc' => if bool_decide (y = "..") then clean_loop rooted (x :: acc) l
                       else clean_loop rooted acc' l
        | [] => if rooted then clean_loop rooted [] l else clean_loop rooted [x] l
        end
      else clean_loop rooted (x :: acc) l
  end.
Definition filepath_Clean (path : string) : string :=
  let rooted := HasPrefix path "/" in
  let out := Join (rev (clean_loop rooted [] (split_char "/" path))) "/" in
  if rooted then String "/" out else if bool_decide (out = "") then "." else out.
Definition filepath_Dir (path : string) : string :=
  match cut_last_char "/" path with
  | Some (dir, _) => filepath_Clean (dir +:+ "/")
  | None => filepath_Clean ""
  end.

Example Dir_ex1 : filepath_Dir "/home/u/.kube/config" = "/home/u/.kube".
Proof. reflexivity. Qed.
Example Dir_ex2 : filepath_Dir "config" = ".".
Proof. reflexivity. Qed.
Example Clean_ex : filepath_Clean "a/../../b//c/." = "../b/c".
Proof. reflexivity. Qed.

(** ** [clientcmd/api] *)
Record Cluster := { cl_Server : string; cl_CertificateAuthorityData : string }.
Record Context_ := { ctx_Cluster : string; ctx_AuthInfo : string }.
(** The map entries are pointers. *)
Record KConfig := {
  Clusters : gmap string (option Cluster);
  AuthInfos : gmap string (option string);
  Contexts : gmap string (option Context_);
  CurrentContext : string;
}.
#[global] Instance Cluster_eq_dec : EqDecision Cluster.
Proof. solve_decision. Defined.
#[global] Instance Context_eq_dec : EqDecision Context_.
Proof. solve_decision. Defined.
#[global] Instance KConfig_eq_dec : EqDecision KConfig.
Proof. solve_decision. Defined.

Definition NewConfig : KConfig :=
  {| Clusters := ∅; AuthInfos := ∅; Contexts := ∅; CurrentContext := "" |}.

(** [kubeconfig.Clusters[kubeconfig.Contexts[kubeconfig.CurrentContext].Cluster]],
    a pointer; the context is dereferenced. *)
Definition current_cluster (k : KConfig) : res (option Cluster) :=
  match Contexts k !! CurrentContext k with
  | Some (Some c) => Ok (default None (Clusters k !! ctx_Cluster c))
  | _ => Panic "nil pointer dereference"
  end.

(** The codec of [clientcmd]. *)
Class Clientcmd := {
  clientcmd_Load : string → res KConfig;
  clientcmd_Write : KConfig → res string;
}.
(** What is written loads to the configuration written. *)
Class ClientcmdLaws `{Clientcmd} := {
  load_written k s : clientcmd_Write k = Ok s → clientcmd_Load s = Ok k;
}.

(** The file system; [IsNotExist] is [os.IsNotExist]. *)
Record OS (W : Type) := {
  os_ReadFile : string → M W string;
  os_WriteFile : string → string → M W ();
  os_MkdirAll : string → M W ();
  IsNotExist : error → bool;
}.
Arguments os_ReadFile {W}.
Arguments os_WriteFile {W}.
Arguments os_MkdirAll {W}.
Arguments IsNotExist {W}.

(** The part of a managed cluster the program reads. *)
Record ManagedCluster := {
  mc_Fqdn : option string;
  mc_NodeResourceGroup : option string;
  mc_AgentPoolSubnets : list (option string);  (* VnetSubnetID of the profiles *)
  mc_ServiceCidr : option (option string);     (* of the network profile *)
}.

(** The Azure API; [arm_Client] is the construction of a client of a subscription. *)
Record Azure (W : Type) := {
  arm_Client : string → res ();
  ListClusterAdminCredentials : string → string → M W (list string);
  ManagedClusters_Get : string → string → M W (option ManagedCluster); (* its properties *)
}.
Arguments arm_Client {W}.
Arguments ListClusterAdminCredentials {W}.
Arguments ManagedClusters_Get {W}.

Section k8s.
Context {W : Type} (az : Azure W) (os : OS W) `{CC : Clientcmd}.

Definition az_ManagedCluster (cfg : Config) : M W (option ManagedCluster) :=
  _ ← lift (arm_Client az (SubscriptionID cfg));
  ManagedClusters_Get az (ResourceGroupName cfg) (ClusterName cfg).

Definition getKubeconfig (cfg : Config) : M W string :=
  _ ← lift (arm_Client az (SubscriptionID cfg));
  creds ← ListClusterAdminCredentials az (ResourceGroupName cfg) (ClusterName cfg);
  match creds with
  | v :: _ => mret v
  | [] => panic "index out of range [0] with length 0"
  end.

Definition Kubeconfig (cfg : Config) : M W KConfig :=
  creds ← getKubeconfig cfg;
  lift (clientcmd_Load creds).

(** [clientcmd.LoadFromFile]. *)
Definition LoadFromFile (path : string) : M W KConfig :=
  b ← os_ReadFile os path;
  lift (clientcmd_Load b).

Definition SaveKubeconfigTo (cfg : Config) (path : string) : M W () :=
  kubeconfig ← Kubeconfig cfg;
  content ← lift (clientcmd_Write kubeconfig);
  os_WriteFile os path content.

(** The maps of the new configuration win. *)
Definition merge_into (new existing : KConfig) : KConfig := {|
  Clusters := Clusters new ∪ Clusters existing;
  AuthInfos := AuthInfos new ∪ AuthInfos existing;
  Contexts := Contexts new ∪ Contexts existing;
  CurrentContext := if bool_decide (CurrentContext new ≠ "") then CurrentContext new
                    else CurrentContext existing;
|}.

Definition MergeKubeconfigInto (cfg : Config) (path : string) : M W () :=
  newKubeconfig ← Kubeconfig cfg;
  r ← attempt (LoadFromFile path);
  existing ← match r with
             | inl err => if IsNotExist os err then mret NewConfig else fail err
             | inr existing => mret existing
             end;
  let existing := merge_into newKubeconfig existing in
  _ ← os_MkdirAll os (filepath_Dir path);
  content ← lift (clientcmd_Write existing);
  os_WriteFile os path content.

Definition default_port (u : URL) : res string :=
  if bool_decide (Scheme u = "https") then Ok "443"
  else if bool_decide (Scheme u = "http") then Ok "80"
  else Err (Errorf "API server URL missing port and unsupported scheme %q" [Scheme u] []).

(** The host and port of a cluster's server URL. *)
Definition server_host_port (server : string) : res (string * string) :=
  match Parse server with
  | Err e => Err (Errorf "parsing API server URL %q: %w" [server] [e])
  | Panic p => Panic p
  | Ok u =>
      let hostname := Hostname u in
      if bool_decide (hostname = "") then Err (Errorf "API server URL missing hostname: %q" [server] [])
      else
        p ← (if bool_decide (Port u = "") then default_port u else Ok (Port u));
        Ok (hostname, p)
  end.

(** The lookups of a context and its cluster. *)
Definition api_server (kcfg : KConfig) (contextName : string) : res (string * string) :=
  let ctxName := if bool_decide (contextName = "") then CurrentContext kcfg else contextName in
  if bool_decide (ctxName = "") then Err (errors_New "kubeconfig missing current context")
  else match Contexts kcfg !! ctxName with
  | Some (Some ctxCfg) =>
      match Clusters kcfg !! ctx_Cluster ctxCfg with
      | Some (Some clusterCfg) => server_host_port (cl_Server clusterCfg)
      | _ => Err (Errorf "kubeconfig missing cluster %q" [ctx_Cluster ctxCfg] [])
      end
  | _ => Err (Errorf "kubeconfig missing context %q" [ctxName] [])
  end.

Definition APIServerFromKubeconfigFile (path contextName : string) : M W (string * string) :=
  kcfg ← wrapf "loading kubeconfig for API server: %w" [] (LoadFromFile path);
  lift (api_server kcfg contextName).
End k8s.

(** ** Applying objects *)
Section apply.
Context {W Obj : Type}.
(** [client.Patch] with [client.Apply] and forced ownership. *)
Context (Patch_Apply : Obj → string → M W ()).
(** The results of the YAML decoder on a document until the end of the stream;
    the consumer asks for the next one only after using the last. *)
Context (decode : string → list (res Obj)).

Definition ApplyObject (obj : Obj) (fieldOwner : string) : M W () := Patch_Apply obj fieldOwner.

Definition ApplyUnstructuredObjects (objects : list (res Obj)) (fieldOwner : string) : M W () :=
  for_each (λ r, obj ← lift r; ApplyObject obj fieldOwner) objects.

Definition decodeObjectsFromYAML (r : string) : list (res Obj) := decode r.

Definition ApplyYAMLSpec (spec fieldOwner : string) : M W () :=
  ApplyUnstructuredObjects (decodeObjectsFromYAML spec) fieldOwner.
End apply.

(** ** The laws of a file system that does not fail *)
Class OSLaws {W} (os : OS W) := {
  files : W → gmap string string;
  read_law p c w : files w !! p = Some c → os_ReadFile os p w = (Ok c, w);
  read_missing p w :
    files w !! p = None → ∃ e, os_ReadFile os p w = (Err e, w) ∧ IsNotExist os e = true;
  mkdir_law d w : ∃ w', os_MkdirAll os d w = (Ok (), w') ∧ files w' = files w;
  write_law p c w :
    ∃ w', os_WriteFile os p c w = (Ok (), w') ∧ files w' = <[p := c]> (files w);
}.

(** ** Lemmas *)
Section lemmas.
Context {W : Type} (az : Azure W) (os : OS W) `{CC : Clientcmd} {CL : ClientcmdLaws} {OL : OSLaws os}.
#[local] Set Default Proof Using "Type*".

(** What the kubeconfig file at [path] holds: nothing, or a configuration. *)
Definition holds_config (w : W) (path : string) (k : KConfig) : Prop :=
  match files w !! path with
  | None => k = NewConfig
  | Some c => clientcmd_Load c = Ok k
  end.

Lemma load_existing (path : string) (k : KConfig) (w : W) :
  holds_config w path k →
  (r ← attempt (LoadFromFile os path);
   match r with
   | inl err => if IsNotExist os err then mret NewConfig else fail err
   | inr existing => mret existing
   end) w = (Ok k, w).
Proof using OL.
  unfold holds_config, LoadFromFile. destruct (files w !! path) as [c|] eqn:E.
  - intros Hk. rewrite (attempt_Ok _ _ w k w); [done|].
    rewrite (M_bind_Ok _ _ _ _ _ (read_law _ _ _ E)). unfold lift. by rewrite Hk.
  - intros ->. destruct (read_missing _ _ E) as (e & He & Hn).
    rewrite (attempt_Err _ _ w e w); [by rewrite Hn|]. by rewrite (M_bind_Err _ _ _ _ _ He).
Qed.

Lemma merge_idempotent (new old : KConfig) : merge_into new (merge_into new old) = merge_into new old.
Proof using Type.
  unfold merge_into. cbn. rewrite !map_union_assoc, !map_union_idemp.
  f_equal; by destruct (bool_decide _).
Qed.

Lemma merge_run (cfg : Config) (path content : string) (new old : KConfig) (w w0 : W) :
  Kubeconfig az cfg w = (Ok new, w0) → holds_config w0 path old →
  clientcmd_Write (merge_into new old) = Ok content →
  ∃ w1, MergeKubeconfigInto az os cfg path w = (Ok (), w1) ∧
        files w1 = <[path := content]> (files w0).
Proof using OL.
  intros Hk Ho Hw. unfold MergeKubeconfigInto. rewrite (M_bind_Ok _ _ _ _ _ Hk).
  rewrite <-M_bind_assoc. rewrite (M_bind_Ok _ _ _ _ _ (load_existing _ _ _ Ho)).
  destruct (mkdir_law (filepath_Dir path) w0) as (w1 & Hm & Hf). rewrite (M_bind_Ok _ _ _ _ _ Hm).
  rewrite (bind_lift_Ok _ _ _ _ Hw). destruct (write_law path content w1) as (w2 & -> & Hf2).
  exists w2. by rewrite Hf2, Hf.
Qed.

Lemma api_server_file (path content ctx : string) (k : KConfig) (w : W) :
  files w !! path = Some content → clientcmd_Load content = Ok k →
  APIServerFromKubeconfigFile os path ctx w = (api_server k ctx, w).
Proof using OL.
  intros Hf Hl. unfold APIServerFromKubeconfigFile.
  rewrite (M_bind_Ok _ _ w k w); [done|]. apply wrapf_Ok. unfold LoadFromFile.
  rewrite (M_bind_Ok _ _ _ _ _ (read_law _ _ _ Hf)). unfold lift. by rewrite Hl.
Qed.
End lemmas.

(** ** The theorems *)

(** Merging the cluster's kubeconfig into a file writes that file only;
    afterwards every context of the cluster's configuration, the current one
    included, gives the API server that configuration names, contexts of the
    file that share no name with it give what they gave before, and merging
    the same configuration again writes the same content. *)
Theorem merge_then_api_server {W} (az : Azure W) (os : OS W) `{CC : Clientcmd} {CL : ClientcmdLaws}
    {OL : OSLaws os} (cfg : Config) (path content : string) (new old : KConfig) (w w0 : W) :
  Kubeconfig az cfg w = (Ok new, w0) → holds_config os w0 path old →
  clientcmd_Write (merge_into new old) = Ok content →
  ∃ w1, MergeKubeconfigInto az os cfg path w = (Ok (), w1) ∧
    files w1 = <[path := content]> (files w0) ∧
    (∀ ctx c cl, ctx ≠ "" → Contexts new !! ctx = Some (Some c) →
       Clusters new !! ctx_Cluster c = Some (Some cl) →
       APIServerFromKubeconfigFile os path ctx w1 = (server_host_port (cl_Server cl), w1) ∧
       (CurrentContext new = ctx →
        APIServerFromKubeconfigFile os path "" w1 = (server_host_port (cl_Server cl), w1))) ∧
    (∀ ctx c, ctx ≠ "" → Contexts new !! ctx = None → Contexts old !! ctx = Some (Some c) →
       Clusters new !! ctx_Cluster c = None →
       APIServerFromKubeconfigFile os path ctx w1 = (api_server old ctx, w1)) ∧
    (∀ w2, Kubeconfig az cfg w1 = (Ok new, w2) → files w2 = files w1 →
       ∃ w3, MergeKubeconfigInto az os cfg path w1 = (Ok (), w3) ∧ files w3 = files w1).
Proof.
  intros Hk Ho Hw. destruct (merge_run az os _ _ _ _ _ _ _ Hk Ho Hw) as (w1 & Hm & Hf).
  pose proof (load_written _ _ Hw) as Hl.
  assert (files w1 !! path = Some content) as Hp by (by rewrite Hf, lookup_insert_eq).
  exists w1. split_and!; [done|done| | |].
  - intros ctx c cl Hne Hc Hcl.
    assert (Contexts (merge_into new old) !! ctx = Some (Some c)) as Hc'
      by (by apply lookup_union_Some_l).
    assert (Clusters (merge_into new old) !! ctx_Cluster c = Some (Some cl)) as Hcl'
      by (by apply lookup_union_Some_l).
    split; [|intros Hcur]; rewrite (api_server_file os _ _ _ _ _ Hp Hl); unfold api_server.
    + rewrite !(bool_decide_eq_false_2 (ctx = "")) by done. by rewrite Hc', Hcl'.
    + rewrite (bool_decide_eq_true_2 ("" = "")) by done. cbn [CurrentContext merge_into].
      rewrite Hcur, (bool_decide_eq_true_2 (ctx ≠ "")), bool_decide_eq_false_2 by done.
      by rewrite Hc', Hcl'.
  - intros ctx c Hne Hc Hold Hcl. rewrite (api_server_file os _ _ _ _ _ Hp Hl). unfold api_server.
    rewrite !(bool_decide_eq_false_2 (ctx = "")) by done. cbn [Contexts Clusters merge_into].
    by rewrite (lookup_union_r _ _ _ Hc), Hold, (lookup_union_r _ _ _ Hcl).
  - intros w2 Hk2 Hf2. destruct (merge_run az os cfg path content new (merge_into new old) w1 w2)
      as (w3 & Hm3 & Hf3); [done| |by rewrite merge_idempotent|].
    + unfold holds_config. by rewrite Hf2, Hp.
    + exists w3. split; [done|]. rewrite Hf3, Hf2, Hf. by rewrite insert_insert_eq.
Qed.

(** The API server of a URL is its host name with its port or, without a
    port, that of https or http; another scheme without a port is refused. *)
Theorem server_host_port_spec (scheme name port : string) :
  scheme_ok scheme = true → str_forall name_char name = true → name ≠ "" →
  str_forall is_digit port = true → port ≠ "" →
  server_host_port (scheme +:+ "://" +:+ name +:+ ":" +:+ port) = Ok (name, port) ∧
  server_host_port (scheme +:+ "://" +:+ name) =
    (if bool_decide (scheme = "https") then Ok (name, "443")
     else if bool_decide (scheme = "http") then Ok (name, "80")
     else Err (Errorf "API server URL missing port and unsupported scheme %q" [scheme] [])).
Proof.
  intros Hs Hn Hne Hp Hpe.
  destruct (Parse_host_port _ _ _ Hs Hn Hp) as (u & Hu & Hus & Huh & Hup).
  destruct (Parse_host _ _ Hs Hn) as (v & Hv & Hvs & Hvh & Hvp).
  unfold server_host_port. rewrite Hu, Hv, Huh, Hvh, Hup, Hvp.
  rewrite (bool_decide_eq_false_2 (name = "")), (bool_decide_eq_false_2 (port = "")) by done.
  split; [done|]. rewrite (bool_decide_eq_true_2 ("" = "")) by done. unfold default_port. rewrite Hvs.
  by repeat case_bool_decide.
Qed.

(** Objects are applied in the order of the document, up to the first one that
    does not decode or is refused. *)
Lemma apply_until_error {W Obj} (Patch_Apply : Obj → string → M W ()) (pre : list Obj) e post owner w :
  ApplyUnstructuredObjects Patch_Apply ((Ok <$> pre) ++ Err e :: post) owner w =
  match for_each (λ obj, Patch_Apply obj owner) pre w with
  | (Ok _, w') => (Err e, w')
  | r => r
  end.
Proof.
  unfold ApplyUnstructuredObjects, ApplyObject. revert w.
  induction pre as [|obj pre IH]; intros w; [done|].
  cbn [for_each fmap list_fmap app]. destruct (Patch_Apply obj owner w) as [[]] eqn:E.
  - rewrite !(M_bind_Ok _ _ w a w0); [apply IH|exact E..].
  - rewrite !(M_bind_Err _ _ w e0 w0); [done|exact E..].
  - unfold mbind, M_bind, lift. by rewrite E.
Qed.

(** ** A file system in memory *)
Module Mem.
Definition os : OS (gmap string string) := {|
  os_ReadFile p := λ w, (match w !! p with Some c => Ok c | None => Err (ErrExt ("open " +:+ p)) end, w);
  os_WriteFile p c := λ w, (Ok (), <[p := c]> w);
  os_MkdirAll _ := λ w, (Ok (), w);
  IsNotExist e := match e with ErrExt _ => true | _ => false end;
|}.
#[global] Instance os_laws : OSLaws os.
Proof.
  refine {| files := id |}; simpl.
  - by intros p c w ->.
  - intros p w ->. by eexists.
  - intros _ w. by exists w.
  - intros p c w. by eexists.
Defined.

Definition new : KConfig := {|
  Clusters := {[ "flex" := Some {| cl_Server := "https://flex.eastus.azmk8s.io:443"; cl_CertificateAuthorityData := "ca" |} ]};
  AuthInfos := {[ "admin" := Some "token" ]};
  Contexts := {[ "flex-admin" := Some {| ctx_Cluster := "flex"; ctx_AuthInfo := "admin" |} ]};
  CurrentContext := "flex-admin" |}.
(** A codec of two documents. *)
#[global] Instance codec : Clientcmd := {|
  clientcmd_Load s := if decide (s = "new") then Ok new
                      else if decide (s = "merged") then Ok (merge_into new NewConfig)
                      else Err (ErrExt "yaml");
  clientcmd_Write k := if decide (k = merge_into new NewConfig) then Ok "merged" else Err (ErrExt "yaml");
|}.
#[global] Instance codec_laws : ClientcmdLaws.
Proof. split. intros k s. simpl. case_decide as H; [|done]. intros [= <-]. by subst. Qed.

Definition az : Azure (gmap string string) := {|
  arm_Client _ := Ok ();
  ListClusterAdminCredentials _ _ := mret ["new"];
  ManagedClusters_Get _ _ := mret None;
|}.
Definition cfg : Config := default_config test_environ (λ _ _, Err (ErrExt "az")).
End Mem.

Lemma merge_then_api_server_witness :
  ∃ w1, MergeKubeconfigInto Mem.az Mem.os Mem.cfg "/root/.kube/config" ∅ = (Ok (), w1) ∧
    APIServerFromKubeconfigFile Mem.os "/root/.kube/config" "" w1 =
    (Ok ("flex.eastus.azmk8s.io", "443"), w1).
Proof.
  destruct (merge_then_api_server Mem.az Mem.os Mem.cfg "/root/.kube/config" "merged" Mem.new NewConfig ∅ ∅)
    as (w1 & H & _ & Hnew & _); [reflexivity|reflexivity|reflexivity|].
  exists w1. split; [exact H|].
  destruct (Hnew "flex-admin" {| ctx_Cluster := "flex"; ctx_AuthInfo := "admin" |}
    {| cl_Server := "https://flex.eastus.azmk8s.io:443"; cl_CertificateAuthorityData := "ca" |}) as [_ Hc];
    [done|reflexivity|reflexivity|].
  rewrite Hc by reflexivity. vm_compute. reflexivity.
Defined.

Lemma server_host_port_spec_witness :
  server_host_port ("https" +:+ "://" +:+ "flex.azmk8s.io") = Ok ("flex.azmk8s.io", "443").
Proof. apply (server_host_port_spec "https" "flex.azmk8s.io" "443"); done. Defined.
