(* ===== verification/Kubeadm.v ===== *)
(** * Bootstrap tokens and kubeadm configurations

    [cli/internal/config/k8sbootstrap/k8sbootstrap.go]: the bootstrap token
    Secret of the cluster; [cli/internal/aks/deploy/k8s.go]: its deployment with
    the other bootstrap resources; [plugin/pkg/util/kubeadm]: the kubeadm
    configuration read back from the cluster ([FromAKS]), the kubeconfig and
    join configuration of a node; [configcmd.DefaultKubeadmConfig].  The
    Kubernetes API is an interface; encoders are parameters. *)
From S2P Require Import Prelude GoStr Karp Proto Encoding Config K8s.
From stdpp Require Import options.

(** ** The Kubernetes API *)
Definition NamespaceSystem : string := "kube-system".
Definition LabelBootstrapToken : string := "flex.aks.azure.com/bootstrap-token".
Definition BootstrapTokenSecretPrefix : string := "bootstrap-token-".

Record KSecret := {
  sec_Namespace : string; sec_Name : string; sec_Labels : gmap string string;
  sec_Data : gmap string string; sec_Type : string;
}.
#[global] Instance KSecret_eq_dec : EqDecision KSecret.
Proof. solve_decision. Defined.

(** The objects of the documents the program applies; the content of an
    [OOther] object is fixed by the document. *)
Inductive KObject :=
| OWorkload (kind namespace name image : string)
| OOther (kind namespace name : string)
| OConfigMap (namespace name : string) (data : gmap string string)
| OSecret (s : KSecret).

Record Kube (W : Type) := {
  kube_Get : string → string → M W KSecret;
  kube_List : string → gmap string string → M W (list KSecret);
  kube_Apply : KObject → string → M W ();
  kube_ServerVersion : M W string;
}.
Arguments kube_Get {W}.
Arguments kube_List {W}.
Arguments kube_Apply {W}.
Arguments kube_ServerVersion {W}.

(** ** [k8sbootstrap] *)
Record Params := {
  p_CertificateAuthorityData : string; p_Server : string; p_KubernetesVersion : string;
  p_ServiceSubnet : string; p_TokenID : string; p_TokenSecret : string;
}.

Definition TokenID (subscriptionID resourceGroup : string) : string :=
  take_str 6 (hex_EncodeToString
    (sha256 ("/subscriptions/" +:+ subscriptionID +:+ "/resourceGroups/" +:+ resourceGroup))).

Definition letters : string := "0123456789abcdefghijklmnopqrstuvwxyz".

Section bootstrap.
Context {W : Type}.
(** [rand.Int(rand.Reader, max)]. *)
Context (rand_Int : Z → M W Z).

Definition RandomString (n : nat) : M W string :=
  bs ← traverse (λ _, r ← rand_Int (Z.of_nat (String.length letters));
                      match String.get (Z.to_nat r) letters with
                      | Some c => mret c
                      | None => panic "index out of range"
                      end) (seq 0 n);
  mret (string_of_list_ascii bs).

(** The Secret under the name of the token, or the empty one when not found. *)
Definition existing_secret (cli : Kube W) (name : string) : M W (gmap string string) :=
  r ← attempt (kube_Get cli NamespaceSystem name);
  match r with
  | inr s => mret (sec_Data s)
  | inl err => if k8s_IsNotFound err then mret ∅ else fail err
  end.

Definition BootstrapTokenSecret (cfg : Config) (cli : option (Kube W)) : M W KSecret :=
  let tokenID := TokenID (SubscriptionID cfg) (ResourceGroupName cfg) in
  tokenSecret ← match cli with
    | None => mret ""
    | Some cli =>
        data ← existing_secret cli (BootstrapTokenSecretPrefix +:+ tokenID);
        mret (default "" (data !! "token-secret"))
    end;
  tokenSecret ← (if bool_decide (String.length tokenSecret ≠ 16%nat) then RandomString 16
                 else mret tokenSecret);
  mret {| sec_Namespace := NamespaceSystem;
          sec_Name := BootstrapTokenSecretPrefix +:+ tokenID;
          sec_Labels := {[ LabelBootstrapToken := "true" ]};
          sec_Data := {[ "auth-extra-groups" := "system:bootstrappers:kubeadm:default-node-token";
                         "token-id" := tokenID; "token-secret" := tokenSecret;
                         "usage-bootstrap-authentication" := "true";
                         "usage-bootstrap-signing" := "true" ]};
          sec_Type := "bootstrap.kubernetes.io/token" |}.
End bootstrap.

(** The objects of [assets/config.yaml] rendered with parameters. *)
Definition bootstrap_objects (p : Params) : list KObject :=
  [OOther "Role" "kube-system" "kubeadm:nodes-kubeadm-config";
   OOther "RoleBinding" "kube-system" "kubeadm:nodes-kubeadm-config";
   OOther "Role" "kube-system" "kubeadm:kubelet-config";
   OOther "RoleBinding" "kube-system" "kubeadm:kubelet-config";
   OOther "ClusterRole" "" "kubeadm:get-nodes";
   OOther "ClusterRoleBinding" "" "kubeadm:get-nodes";
   OOther "Role" "kube-public" "kubeadm:bootstrap-signer-clusterinfo";
   OOther "RoleBinding" "kube-public" "kubeadm:bootstrap-signer-clusterinfo";
   OConfigMap "kube-public" "cluster-info"
     {[ "certificate-authority-data" := p_CertificateAuthorityData p; "server" := p_Server p ]};
   OConfigMap "kube-system" "kubeadm-config"
     {[ "kubernetesVersion" := p_KubernetesVersion p; "serviceSubnet" := p_ServiceSubnet p ]};
   OConfigMap "kube-system" "kubelet-config" ∅;
   OSecret {| sec_Namespace := "kube-system"; sec_Name := "bootstrap-token-" +:+ p_TokenID p;
              sec_Labels := {[ "flex.aks.azure.com/bootstrap-token" := "true" ]};
              sec_Data := {[ "auth-extra-groups" := "system:bootstrappers:kubeadm:default-node-token";
                             "token-id" := p_TokenID p; "token-secret" := p_TokenSecret p;
                             "usage-bootstrap-authentication" := "true";
                             "usage-bootstrap-signing" := "true" ]};
              sec_Type := "bootstrap.kubernetes.io/token" |}].

(** ** The flows over the cluster *)
Section flows.
Context {W : Type} (az : Azure W) `{CC : Clientcmd}.
(** The Kubernetes API of the cluster, the construction of a client from a
    kubeconfig, and the random source. *)
Context (kube : Kube W) (ClientConfig : KConfig → res ()) (rand_Int : Z → M W Z).
(** Template execution of the bootstrap document, and the YAML decoder. *)
Context (execute : Params → res string) (decode : string → list (res KObject)).
Context (environ : gmap string string) (Output : string → list string → res string).

Definition Render (p : Params) : res string :=
  match execute p with
  | Err e => Err (Errorf "rendering config template: %w" [] [e])
  | r => r
  end.

(** A pointer to a cluster that is read. *)
Definition must_cluster (c : option Cluster) : res Cluster :=
  match c with Some c => Ok c | None => Panic "nil pointer dereference" end.

Definition service_cidr (mc : option ManagedCluster) : res string :=
  match mc with
  | Some m => match mc_ServiceCidr m with Some (Some s) => Ok s | _ => Panic "nil pointer dereference" end
  | None => Panic "nil pointer dereference"
  end.

Definition fieldOwner : string := "aks-flex-cli".

Definition deployK8S (cfg : Config) : M W () :=
  mc ← az_ManagedCluster az cfg;
  kubeconfig ← Kubeconfig az cfg;
  _ ← lift (ClientConfig kubeconfig);
  kubernetesVersion ← kube_ServerVersion kube;
  cluster ← lift (current_cluster kubeconfig);
  bootstrapToken ← BootstrapTokenSecret rand_Int cfg (Some kube);
  let tokenID := default "" (sec_Data bootstrapToken !! "token-id") in
  let tokenSecret := default "" (sec_Data bootstrapToken !! "token-secret") in
  cluster ← lift (must_cluster cluster);
  cidr ← lift (service_cidr mc);
  data ← lift (Render {| p_CertificateAuthorityData :=
                           base64_EncodeToString (cl_CertificateAuthorityData cluster);
                         p_Server := cl_Server cluster;
                         p_KubernetesVersion := kubernetesVersion; p_ServiceSubnet := cidr;
                         p_TokenID := tokenID; p_TokenSecret := tokenSecret |});
  ApplyYAMLSpec (kube_Apply kube) decode data fieldOwner.

(** [util/kubeadm.FromAKS]. *)
Definition node_resource_group (mc : option ManagedCluster) : res string :=
  match mc with
  | None => Panic "nil pointer dereference"
  | Some m => match mc_NodeResourceGroup m with
              | Some g => Ok g
              | None => Err (errors_New "nil node resource group returned from managed cluster")
              end
  end.

Definition FromAKS : M W kubeadm.Config :=
  cfg ← lift (config_New environ Output);
  kubeconfig ← Kubeconfig az cfg;
  _ ← lift (ClientConfig kubeconfig);
  secrets ← kube_List kube NamespaceSystem {[ LabelBootstrapToken := "true" ]};
  match secrets with
  | [secret] =>
      mc ← az_ManagedCluster az cfg;
      group ← lift (node_resource_group mc);
      cluster ← lift (current_cluster kubeconfig);
      cluster ← lift (must_cluster cluster);
      mret {| kubeadm.Server := Some (cl_Server cluster);
              kubeadm.CertificateAuthorityData := Some (cl_CertificateAuthorityData cluster);
              kubeadm.Token := Some (default "" (sec_Data secret !! "token-id") +:+ "." +:+
                                     default "" (sec_Data secret !! "token-secret"));
              kubeadm.NodeLabels := Some
                {[ NodeLabelKeyCloudProviderManaged := "false";
                   NodeLabelKeyCloudProviderCluster := group;
                   NodeLabelKeyStretchManaged := "true" ]};
              kubeadm.NodeIp := None; kubeadm.RegisterWithTaints := None;
              kubeadm.MaxPodsPerNode := None |}
  | _ => fail (errors_New "did not find exactly one stretch bootstrap secret")
  end.

Definition placeholder_kubeadm : kubeadm.Config :=
  {| kubeadm.Server := Some placeholder; kubeadm.CertificateAuthorityData := Some placeholder;
     kubeadm.Token := Some placeholder; kubeadm.NodeLabels := None; kubeadm.NodeIp := None;
     kubeadm.RegisterWithTaints := None; kubeadm.MaxPodsPerNode := None |}.

(** [configcmd.DefaultKubeadmConfig]; [NewAzureCLICredential] is given the tenant. *)
Definition DefaultKubeadmConfig (NewAzureCLICredential : string → res ()) : M W kubeadm.Config :=
  match NewAzureCLICredential (AzureTenantID Output) with
  | Err _ => mret placeholder_kubeadm
  | Panic p => panic p
  | Ok _ =>
      r ← attempt FromAKS;
      match r with inl _ => mret placeholder_kubeadm | inr cfg => mret cfg end
  end.

(** ** [config k8s-bootstrap] *)
Definition placeholderParams : Params :=
  let p := OrPlaceholder "" in
  {| p_CertificateAuthorityData := p; p_Server := p; p_KubernetesVersion := p;
     p_ServiceSubnet := p; p_TokenID := p; p_TokenSecret := p |}.

Definition cidr_or_placeholder (mc : option ManagedCluster) : string :=
  match mc with
  | Some m => match mc_ServiceCidr m with Some (Some s) => s | _ => OrPlaceholder "" end
  | None => OrPlaceholder ""
  end.

Definition paramsFromCluster (cfg : Config) (cluster : option Cluster) : M W Params :=
  kubeconfig ← wrapf "could not create kubeconfig loader: %w" [] (Kubeconfig az cfg);
  _ ← wrapf "could not build rest config: %w" [] (lift (ClientConfig kubeconfig));
  version ← wrapf "could not discover Kubernetes version: %w" [] (kube_ServerVersion kube);
  mc ← wrapf "could not retrieve managed cluster: %w" [] (az_ManagedCluster az cfg);
  cluster ← lift (must_cluster cluster);
  mret {| p_CertificateAuthorityData := base64_EncodeToString (cl_CertificateAuthorityData cluster);
          p_Server := cl_Server cluster; p_KubernetesVersion := version;
          p_ServiceSubnet := cidr_or_placeholder mc; p_TokenID := ""; p_TokenSecret := "" |}.

(** The parameters of the live cluster. *)
Definition live_params (cfg : Config) : M W Params :=
  kubeconfig ← Kubeconfig az cfg;
  cluster ← lift (current_cluster kubeconfig);
  params ← paramsFromCluster cfg cluster;
  secret ← RandomString rand_Int 16;
  mret {| p_CertificateAuthorityData := p_CertificateAuthorityData params;
          p_Server := p_Server params; p_KubernetesVersion := p_KubernetesVersion params;
          p_ServiceSubnet := p_ServiceSubnet params;
          p_TokenID := TokenID (SubscriptionID cfg) (ResourceGroupName cfg);
          p_TokenSecret := secret |}.

(** Any failure warns and gives the placeholders. *)
Definition paramsFromContext (NewAzureCLICredential : res ()) : M W Params :=
  match DefaultConfig environ Output with
  | None => mret placeholderParams
  | Some cfg =>
      r ← attempt (_ ← lift NewAzureCLICredential; live_params cfg);
      match r with inl _ => mret placeholderParams | inr p => mret p end
  end.

Definition writeConfig (NewAzureCLICredential : res ()) : M W string :=
  params ← paramsFromContext NewAzureCLICredential;
  lift (Render params).
End flows.

(** ** [util/kubeadm]: the documents of a node *)
Record JoinConfiguration := {
  jc_KubeConfigPath : string;
  jc_Taints : list Karp.Taint;
  jc_KubeletExtraArgs : list (string * string);
}.

(** The kubeconfig a node starts with; [encode] is [runtime.Encode]. *)
Definition node_KConfig (cfg : option kubeadm.Config) : KConfig := {|
  Clusters := {[ "cluster" := Some {| cl_Server := kubeadm.GetServer cfg;
    cl_CertificateAuthorityData := default "" (kubeadm.GetCertificateAuthorityData cfg) |} ]};
  AuthInfos := {[ "user" := Some (kubeadm.GetToken cfg) ]};
  Contexts := {[ "context" := Some {| ctx_Cluster := "cluster"; ctx_AuthInfo := "user" |} ]};
  CurrentContext := "context";
|}.
Definition kubeadm_Kubeconfig (encode : KConfig → res string) (cfg : option kubeadm.Config) : res string :=
  encode (node_KConfig cfg).

Section join.
(** The order in which a range visits a map. *)
Context (range : gmap string string → list (string * string)).

Definition nodeLabels (labels : gmap string string) : string :=
  Join ((λ kv, kv.1 +:+ "=" +:+ kv.2) <$> range labels) ",".

Definition join_configuration (cfg : option kubeadm.Config) (kubeConfigPath : string) : JoinConfiguration :=
  let l := default ∅ (kubeadm.GetNodeLabels cfg) in
  let labels := if bool_decide (l ≠ ∅) then [("node-labels", nodeLabels l)] else [] in
  let node_ip := match cfg ≫= kubeadm.NodeIp with
                 | Some _ => [("node-ip", kubeadm.GetNodeIp cfg)]
                 | None => []
                 end in
  {| jc_KubeConfigPath := kubeConfigPath; jc_Taints := kubeadm.GetK8SRegisterTaints cfg;
     jc_KubeletExtraArgs := labels ++ node_ip |}.

Definition JoinConfig (encode : JoinConfiguration → res string) (cfg : option kubeadm.Config)
    (kubeConfigPath : string) : res string :=
  encode (join_configuration cfg kubeConfigPath).
End join.

(** ** The laws of the Kubernetes API *)

(** Server-side apply of a Secret: the applied fields win, the others stay. *)
Definition apply_secret (s : KSecret) (old : option KSecret) : KSecret :=
  match old with
  | None => s
  | Some o => {| sec_Namespace := sec_Namespace s; sec_Name := sec_Name s;
                 sec_Labels := sec_Labels s ∪ sec_Labels o; sec_Data := sec_Data s ∪ sec_Data o;
                 sec_Type := sec_Type s |}
  end.

Class KubeLaws {W} (kube : Kube W) := {
  secrets : W → gmap (string * string) KSecret;
  get_found ns n s w : secrets w !! (ns, n) = Some s → kube_Get kube ns n w = (Ok s, w);
  get_missing ns n w :
    secrets w !! (ns, n) = None → ∃ e, kube_Get kube ns n w = (Err e, w) ∧ k8s_IsNotFound e = true;
  list_selected ns sel w :
    ∃ l, kube_List kube ns sel w = (Ok l, w) ∧
         l ≡ₚ filter (λ s, sec_Namespace s = ns ∧ sel ⊆ sec_Labels s) (snd <$> map_to_list (secrets w));
  apply_law s owner w :
    ∃ w', kube_Apply kube (OSecret s) owner w = (Ok (), w') ∧
          secrets w' = <[(sec_Namespace s, sec_Name s) :=
                           apply_secret s (secrets w !! (sec_Namespace s, sec_Name s))]> (secrets w);
  apply_other o owner w :
    match o with OSecret _ => False | _ => True end →
    ∃ w', kube_Apply kube o owner w = (Ok (), w') ∧ secrets w' = secrets w;
  version_law w : ∃ v, kube_ServerVersion kube w = (Ok v, w);
  secrets_named ns n s w :
    secrets w !! (ns, n) = Some s → sec_Namespace s = ns ∧ sec_Name s = n;
}.

Definition token_char (c : ascii) : bool := is_lower c || is_digit c.

(** ** Lemmas *)
Lemma take_str_length n s : (n ≤ String.length s)%nat → String.length (take_str n s) = n.
Proof.
  revert s. induction n as [|n IH]; intros s H; [by destruct s|].
  destruct s as [|c s]; simpl in *; [lia|]. by rewrite IH by lia.
Qed.

Lemma TokenID_length sub rg : String.length (TokenID sub rg) = 6%nat.
Proof.
  unfold TokenID. apply take_str_length. rewrite hex_length, sha256_length. lia.
Qed.

Lemma take_str_forall p n s : str_forall p s = true → str_forall p (take_str n s) = true.
Proof.
  revert s. induction n as [|n IH]; intros s H; [by destruct s|].
  destruct s as [|c s]; [done|]. simpl in *. apply andb_true_iff in H as [-> H]. by rewrite IH.
Qed.

Lemma hex_digit_token n : 0 ≤ n < 16 → token_char (digit_char n) = true.
Proof.
  intros H. assert (∃ k, (k < 16)%nat ∧ n = Z.of_nat k) as (k & Hk & ->) by (exists (Z.to_nat n); lia).
  do 16 (destruct k as [|k]; [reflexivity|]). lia.
Qed.

Lemma TokenID_chars sub rg : str_forall token_char (TokenID sub rg) = true.
Proof.
  unfold TokenID. apply take_str_forall. generalize (sha256 ("/subscriptions/" +:+ sub +:+ "/resourceGroups/" +:+ rg)).
  induction s as [|c s IH]; [done|]. simpl. rewrite IH.
  pose proof (nat_ascii_bounded c) as Hb. unfold code.
  assert (0 ≤ Z.of_nat (nat_of_ascii c) / 16 < 16).
  { split; [apply Z.div_pos; lia|]. apply Z.div_lt_upper_bound; lia. }
  by rewrite !hex_digit_token by (done || by apply Z.mod_pos_bound).
Qed.

Section lemmas.
Context {W : Type} (kube : Kube W) {KL : KubeLaws kube} (rand_Int : Z → M W Z).
(** A working random source. *)
Context (Hrand : ∀ n w, 0 < n → ∃ r w', rand_Int n w = (Ok r, w') ∧ 0 ≤ r < n ∧ secrets w' = secrets w).
#[local] Set Default Proof Using "Type*".

Lemma letter_get r :
  0 ≤ r < 36 → ∃ c, String.get (Z.to_nat r) letters = Some c ∧ token_char c = true.
Proof using Type.
  intros H. assert (∃ k, (k < 36)%nat ∧ r = Z.of_nat k) as (k & Hk & ->) by (exists (Z.to_nat r); lia).
  rewrite Nat2Z.id. do 36 (destruct k as [|k]; [by eexists|]). lia.
Qed.

Lemma RandomString_run n w :
  ∃ s w', RandomString rand_Int n w = (Ok s, w') ∧ String.length s = n ∧
          str_forall token_char s = true ∧ secrets w' = secrets w.
Proof.
  unfold RandomString.
  assert (∀ m i w, ∃ bs w', traverse (λ _, r ← rand_Int (Z.of_nat (String.length letters));
            match String.get (Z.to_nat r) letters with
            | Some c => mret c
            | None => panic "index out of range"
            end) (seq i m) w = (Ok bs, w') ∧ length bs = m ∧ Forall (λ c, token_char c = true) bs ∧
            secrets w' = secrets w) as Ht.
  { induction m as [|m IH]; intros i v; [by exists [], v|]. cbn [seq traverse].
    destruct (Hrand 36 v ltac:(lia)) as (r & v1 & Hr & Hb & Hs1).
    destruct (letter_get r Hb) as (c & Hc & Htc).
    destruct (IH (S i) v1) as (bs & v2 & Hbs & Hl & Hf & Hs2).
    exists (c :: bs), v2. split_and!; [|simpl; by rewrite Hl|by constructor|by rewrite Hs2].
    rewrite M_bind_assoc. change (Z.of_nat (String.length letters)) with 36.
    rewrite (M_bind_Ok _ _ _ _ _ Hr), Hc.
    rewrite (M_bind_Ok (mret c) _ v1 c v1) by done. by rewrite (M_bind_Ok _ _ _ _ _ Hbs). }
  destruct (Ht n 0%nat w) as (bs & w' & Hbs & Hl & Hf & Hs).
  exists (string_of_list_ascii bs), w'. rewrite (M_bind_Ok _ _ _ _ _ Hbs).
  split_and!; [done| | |done].
  - rewrite <-Hl. clear. induction bs as [|c bs IH]; simpl; [done|by rewrite IH].
  - clear -Hf. induction Hf as [|c bs Hc Hf IH]; simpl; [done|by rewrite Hc].
Qed.

(** The Secret of a token. *)
Definition token_secret (id tok : string) : KSecret := {|
  sec_Namespace := NamespaceSystem; sec_Name := BootstrapTokenSecretPrefix +:+ id;
  sec_Labels := {[ LabelBootstrapToken := "true" ]};
  sec_Data := {[ "auth-extra-groups" := "system:bootstrappers:kubeadm:default-node-token";
                 "token-id" := id; "token-secret" := tok;
                 "usage-bootstrap-authentication" := "true"; "usage-bootstrap-signing" := "true" ]};
  sec_Type := "bootstrap.kubernetes.io/token" |}.

(** The token secret the cluster holds for an id, the empty one without a Secret. *)
Definition held_token (w : W) (id : string) : string :=
  match secrets w !! (NamespaceSystem, BootstrapTokenSecretPrefix +:+ id) with
  | Some s => default "" (sec_Data s !! "token-secret")
  | None => ""
  end.

Lemma BootstrapTokenSecret_run (cfg : Config) w :
  let id := TokenID (SubscriptionID cfg) (ResourceGroupName cfg) in
  ∃ tok w', BootstrapTokenSecret rand_Int cfg (Some kube) w = (Ok (token_secret id tok), w') ∧
    secrets w' = secrets w ∧ String.length tok = 16%nat ∧
    (String.length (held_token w id) = 16%nat → tok = held_token w id ∧ w' = w) ∧
    (String.length (held_token w id) ≠ 16%nat → str_forall token_char tok = true).
Proof.
  intros id. unfold BootstrapTokenSecret. fold id.
  assert ((data ← existing_secret kube (BootstrapTokenSecretPrefix +:+ id);
           mret (default "" (data !! "token-secret"))) w = (Ok (held_token w id), w)) as Et.
  { unfold held_token, existing_secret.
    destruct (secrets w !! (NamespaceSystem, BootstrapTokenSecretPrefix +:+ id)) as [s|] eqn:E.
    - rewrite M_bind_assoc. by rewrite (attempt_Ok _ _ _ _ _ (get_found _ _ _ _ E)).
    - destruct (get_missing _ _ _ E) as (e & He & Hn).
      rewrite M_bind_assoc. by rewrite (attempt_Err _ _ _ _ _ He), Hn. }
  erewrite M_bind_Ok; [|exact Et].
  destruct (decide (String.length (held_token w id) = 16%nat)) as [Hl|Hl].
  - rewrite bool_decide_eq_false_2 by naive_solver.
    exists (held_token w id), w. split_and!; [done|done|done|done|done].
  - rewrite bool_decide_eq_true_2 by done.
    destruct (RandomString_run 16 w) as (tok & w' & Hr & Hlen & Hc & Hs).
    exists tok, w'. rewrite (M_bind_Ok _ _ _ _ _ Hr). split_and!; [done|done|done|done|done].
Qed.

(** Applying objects other than Secrets leaves the Secrets as they are. *)
Definition other_object (o : KObject) : Prop := match o with OSecret _ => False | _ => True end.

Lemma apply_objects (objs : list KObject) (s : KSecret) owner w :
  Forall other_object objs →
  ∃ w', ApplyUnstructuredObjects (kube_Apply kube) (Ok <$> objs ++ [OSecret s]) owner w = (Ok (), w') ∧
        secrets w' = <[(sec_Namespace s, sec_Name s) :=
                         apply_secret s (secrets w !! (sec_Namespace s, sec_Name s))]> (secrets w).
Proof using KL.
  intros H. revert w. unfold ApplyUnstructuredObjects, ApplyObject.
  induction H as [|o objs Ho _ IH]; intros w.
  - destruct (apply_law s owner w) as (w' & Ha & Hs). exists w'. split; [|done].
    cbn [fmap list_fmap app for_each]. unfold mbind, M_bind, lift. by rewrite Ha.
  - destruct (apply_other o owner w Ho) as (w1 & Ha & Hs1). destruct (IH w1) as (w2 & Hr & Hs2).
    exists w2. rewrite Hs2, Hs1. split; [|done].
    cbn [fmap list_fmap app for_each]. erewrite M_bind_Ok; [exact Hr|]. exact Ha.
Qed.
End lemmas.

Lemma singleton_elements {A} (l : list A) x : NoDup l → (∀ y, y ∈ l ↔ y = x) → l = [x].
Proof.
  intros Hn H. destruct l as [|y l]; [by destruct (not_elem_of_nil x (proj2 (H x) eq_refl))|].
  assert (y = x) as -> by (apply H; by left). f_equal. apply NoDup_cons in Hn as [Hx _].
  destruct l as [|z l]; [done|]. exfalso. apply Hx. assert (z = x) as ->; [apply H; set_solver|by left].
Qed.

Section flow_lemmas.
Context {W : Type} (az : Azure W) `{CC : Clientcmd} (kube : Kube W) {KL : KubeLaws kube}.
Context (ClientConfig : KConfig → res ()) (rand_Int : Z → M W Z).
Context (execute : Params → res string) (decode : string → list (res KObject)).
Context (environ : gmap string string) (Output : string → list string → res string).
Context (cfg : Config) (kc : KConfig) (cl : Cluster) (m : ManagedCluster) (cidr group : string).
(** The cluster is up: its kubeconfig and its properties are read without
    changing it, and a client can be made. *)
Context (Hkc : ∀ w, Kubeconfig az cfg w = (Ok kc, w)).
Context (Hmc : ∀ w, az_ManagedCluster az cfg w = (Ok (Some m), w)).
Context (Hcc : ClientConfig kc = Ok ()) (Hcl : current_cluster kc = Ok (Some cl)).
Context (Hcidr : mc_ServiceCidr m = Some (Some cidr)) (Hgroup : mc_NodeResourceGroup m = Some group).
#[local] Set Default Proof Using "Type*".

Let id : string := TokenID (SubscriptionID cfg) (ResourceGroupName cfg).
Let key : string * string := (NamespaceSystem, BootstrapTokenSecretPrefix +:+ id).

(** No other Secret carries the label of the bootstrap token. *)
Definition only_token (w : W) : Prop :=
  ∀ n s, secrets w !! (NamespaceSystem, n) = Some s → sec_Labels s !! LabelBootstrapToken = Some "true" →
  n = BootstrapTokenSecretPrefix +:+ TokenID (SubscriptionID cfg) (ResourceGroupName cfg).

Lemma list_token w s :
  only_token w → secrets w !! key = Some s → sec_Labels s !! LabelBootstrapToken = Some "true" →
  kube_List kube NamespaceSystem {[ LabelBootstrapToken := "true" ]} w = (Ok [s], w).
Proof using KL.
  intros Ho Hs Hl. destruct (list_selected NamespaceSystem {[ LabelBootstrapToken := "true" ]} w)
    as (l & -> & Hp). do 2 f_equal. apply singleton_elements.
  - rewrite Hp. apply NoDup_filter, NoDup_fmap_2_strong; [|apply NoDup_map_to_list].
    intros [[n1 k1] s1] [[n2 k2] s2] H1%elem_of_map_to_list H2%elem_of_map_to_list. simpl. intros <-.
    apply secrets_named in H1 as [<- <-], H2 as [<- <-]. done.
  - intros y. rewrite Hp, list_elem_of_filter, map_singleton_subseteq_l, list_elem_of_fmap. split.
    + intros [[Hns Hy] ([[n k] y'] & -> & Hin%elem_of_map_to_list)]. simpl in *.
      pose proof (secrets_named _ _ _ _ Hin) as [Hn Hk]. rewrite Hns in Hn. subst n.
      rewrite (Ho _ _ Hin Hy) in Hin. unfold key, id in Hs. congruence.
    + intros ->. pose proof (secrets_named _ _ _ _ Hs) as [Hn _]. split; [done|].
      exists (key, s). split; [done|]. by apply elem_of_map_to_list.
Qed.

(** What a node of the cluster joins with. *)
Definition joined (tok : string) : kubeadm.Config := {|
  kubeadm.Server := Some (cl_Server cl);
  kubeadm.CertificateAuthorityData := Some (cl_CertificateAuthorityData cl);
  kubeadm.Token := Some (id +:+ "." +:+ tok);
  kubeadm.NodeLabels := Some {[ NodeLabelKeyCloudProviderManaged := "false";
    NodeLabelKeyCloudProviderCluster := group; NodeLabelKeyStretchManaged := "true" ]};
  kubeadm.NodeIp := None; kubeadm.RegisterWithTaints := None; kubeadm.MaxPodsPerNode := None |}.

Lemma FromAKS_run w s tok :
  config_New environ Output = Ok cfg → only_token w → secrets w !! key = Some s →
  sec_Labels s !! LabelBootstrapToken = Some "true" →
  sec_Data s !! "token-id" = Some id → sec_Data s !! "token-secret" = Some tok →
  FromAKS az kube ClientConfig environ Output w = (Ok (joined tok), w).
Proof.
  intros Hn Ho Hs Hl Hi Ht. unfold FromAKS. rewrite (bind_lift_Ok _ _ _ _ Hn).
  rewrite (M_bind_Ok _ _ _ _ _ (Hkc w)), (bind_lift_Ok _ _ _ _ Hcc).
  rewrite (M_bind_Ok _ _ _ _ _ (list_token _ _ Ho Hs Hl)), (M_bind_Ok _ _ _ _ _ (Hmc w)).
  unfold node_resource_group. rewrite Hgroup, (bind_lift_Ok _ _ group) by done.
  rewrite (bind_lift_Ok _ _ _ _ Hcl), (bind_lift_Ok _ _ cl) by done. by rewrite Hi, Ht.
Qed.

Context (Hrand : ∀ n w, 0 < n → ∃ r w', rand_Int n w = (Ok r, w') ∧ 0 ≤ r < n ∧ secrets w' = secrets w).
(** The bootstrap document renders and decodes to its objects. *)
Context (Hdoc : ∀ p, ∃ doc, execute p = Ok doc ∧ decode doc = Ok <$> bootstrap_objects p).

Lemma deployK8S_run w :
  ∃ w' tok, deployK8S az kube ClientConfig rand_Int execute decode cfg w = (Ok (), w') ∧
    secrets w' = <[key := apply_secret (token_secret id tok) (secrets w !! key)]> (secrets w) ∧
    String.length tok = 16%nat ∧
    (String.length (held_token kube w id) = 16%nat → tok = held_token kube w id) ∧
    (String.length (held_token kube w id) ≠ 16%nat → str_forall token_char tok = true).
Proof.
  unfold deployK8S. rewrite (M_bind_Ok _ _ _ _ _ (Hmc w)), (M_bind_Ok _ _ _ _ _ (Hkc w)).
  rewrite (bind_lift_Ok _ _ _ _ Hcc). destruct (version_law w) as [v Hv].
  rewrite (M_bind_Ok _ _ _ _ _ Hv), (bind_lift_Ok _ _ _ _ Hcl).
  destruct (BootstrapTokenSecret_run kube rand_Int Hrand cfg w) as (tok & w1 & Hb & Hs & Hlen & H16 & Hn).
  fold id in Hb, H16, Hn. rewrite (M_bind_Ok _ _ _ _ _ Hb). rewrite (bind_lift_Ok _ _ cl) by done.
  unfold service_cidr. rewrite Hcidr, (bind_lift_Ok _ _ cidr) by done.
  change (default "" (sec_Data (token_secret id tok) !! "token-id")) with id.
  change (default "" (sec_Data (token_secret id tok) !! "token-secret")) with tok.
  set (p := Build_Params _ _ _ _ _ _). destruct (Hdoc p) as (doc & He & Hd).
  unfold Render. rewrite He, (bind_lift_Ok _ _ doc) by done.
  unfold ApplyYAMLSpec, decodeObjectsFromYAML. rewrite Hd.
  destruct (apply_objects kube (take 11 (bootstrap_objects p)) (token_secret id tok) fieldOwner w1)
    as (w2 & Ha & Hs2); [by repeat constructor|].
  exists w2, tok. split_and!; [exact Ha|by rewrite Hs2, Hs|done| |done]. intros H. by apply H16.
Qed.
End flow_lemmas.

(** A random string, with a source that can fail. *)
Lemma RandomString_outcome {W} (rand_Int : Z → M W Z) :
  (∀ n w, 0 < n → match (rand_Int n w).1 with Ok r => 0 ≤ r < n | Err _ => True | Panic _ => False end) →
  ∀ n w, match (RandomString rand_Int n w).1 with
         | Ok s => String.length s = n ∧ str_forall token_char s = true
         | Err _ => True
         | Panic _ => False
         end.
Proof.
  intros Hr n w. unfold RandomString. 
  enough (∀ i w, match (traverse (λ _, r ← rand_Int (Z.of_nat (String.length letters));
            match String.get (Z.to_nat r) letters with
            | Some c => mret c
            | None => panic "index out of range"
            end) (seq i n) w).1 with
          | Ok bs => length bs = n ∧ Forall (λ c, token_char c = true) bs
          | Err _ => True
          | Panic _ => False
          end) as Ht.
  { specialize (Ht 0%nat w). destruct (traverse _ _ w) as [[bs|e|p] w'] eqn:E; [|by rewrite (M_bind_Err _ _ _ _ _ E)|done].
    rewrite (M_bind_Ok _ _ _ _ _ E). destruct Ht as [Hl Hf]. split; [rewrite <-Hl; clear; induction bs as [|c bs IH]; simpl; [done|by rewrite IH]|].
    clear -Hf. induction Hf as [|c bs Hc Hf IH]; simpl; [done|by rewrite Hc]. }
  induction n as [|n IH]; intros i v; [by split|]. cbn [seq traverse].
  change (Z.of_nat (String.length letters)) with 36 in *. specialize (Hr 36 v ltac:(lia)).
  rewrite M_bind_assoc. destruct (rand_Int 36 v) as [[r|e|p] v1] eqn:E1; [|by rewrite (M_bind_Err _ _ _ _ _ E1)|done].
  rewrite (M_bind_Ok _ _ _ _ _ E1). destruct (letter_get r Hr) as (c & -> & Hc).
  rewrite (M_bind_Ok (mret c) _ v1 c v1) by done. specialize (IH (S i) v1).
  destruct (traverse _ (seq (S i) n) v1) as [[bs|e|p] v2] eqn:E2; [|by rewrite (M_bind_Err _ _ _ _ _ E2)|done].
  rewrite (M_bind_Ok _ _ _ _ _ E2). destruct IH as [Hl Hf]. split; [by simpl; rewrite Hl|by constructor].
Qed.

(** ** The theorems *)

(** The format kubeadm accepts: [[a-z0-9]{6}\.[a-z0-9]{16}]. *)
Definition bootstrap_token (t : string) : Prop :=
  ∃ i s, t = i +:+ "." +:+ s ∧ String.length i = 6%nat ∧ String.length s = 16%nat ∧
    str_forall token_char i = true ∧ str_forall token_char s = true.



(** ** Instances the witnesses run on *)
Module KMem.
Definition named (kv : (string * string) * KSecret) : Prop :=
  sec_Namespace kv.2 = kv.1.1 ∧ sec_Name kv.2 = kv.1.2.
#[global] Instance named_dec kv : Decision (named kv).
Proof. unfold named. apply _. Defined.

#[local] Notation W := (gmap (string * string) KSecret).
Definition held (w : W) : W := filter named w.
#[global] Arguments held : simpl never.

Definition kube : Kube W := {|
  kube_Get ns n := λ w, (match held w !! (ns, n) with Some s => Ok s | None => Err (ErrK8sNotFound n) end, w);
  kube_List ns sel := λ w,
    (Ok (filter (λ s, sec_Namespace s = ns ∧ sel ⊆ sec_Labels s) (snd <$> map_to_list (held w))), w);
  kube_Apply o _ := λ w,
    (Ok (), match o with
            | OSecret s => <[(sec_Namespace s, sec_Name s) :=
                apply_secret s (held w !! (sec_Namespace s, sec_Name s))]> w
            | _ => w
            end);
  kube_ServerVersion := λ w, (Ok "v1.34.2", w);
|}.
#[global] Instance kube_laws : KubeLaws kube.
Proof.
  refine {| secrets := held |}.
  - intros ns n s w H. simpl. by rewrite H.
  - intros ns n w H. eexists. simpl. rewrite H. by split.
  - intros ns sel w. by eexists.
  - intros s o w. eexists. split; [done|]. apply map_filter_insert_True.
    unfold apply_secret. by destruct (held w !! (sec_Namespace s, sec_Name s)).
  - intros o n w Ho. exists w. by destruct o.
  - intros w. by eexists.
  - intros ns n s w [_ H]%map_lookup_filter_Some. exact H.
Defined.

Definition az : Azure W := {|
  arm_Client _ := Ok ();
  ListClusterAdminCredentials _ _ := mret ["new"];
  ManagedClusters_Get _ _ := mret (Some {| mc_Fqdn := None; mc_AgentPoolSubnets := [];
    mc_ServiceCidr := Some (Some "10.0.0.0/16"); mc_NodeResourceGroup := Some "MC_flex" |});
|}.

(** A template engine and decoder that keep the parameters. *)
Fixpoint pos_str (p : positive) : string :=
  match p with
  | xH => ""
  | xO p => String "0" (pos_str p)
  | xI p => String "1" (pos_str p)
  end.
Fixpoint str_pos (s : string) : positive :=
  match s with
  | "" => xH
  | String c s => if decide (c = "0"%char) then xO (str_pos s) else xI (str_pos s)
  end.
Lemma str_pos_str p : str_pos (pos_str p) = p.
Proof. induction p as [p IH|p IH|]; simpl; by rewrite ?IH. Qed.

Definition execute (p : Params) : res string :=
  Ok (pos_str (encode (p_CertificateAuthorityData p, p_Server p, p_KubernetesVersion p,
                       p_ServiceSubnet p, p_TokenID p, p_TokenSecret p))).
Definition decode (s : string) : list (res KObject) :=
  match countable.decode (str_pos s) with
  | Some (a, b, c, d, e, f) => Ok <$> bootstrap_objects (Build_Params a b c d e f)
  | None => []
  end.
Lemma decode_execute p : ∃ doc, execute p = Ok doc ∧ decode doc = Ok <$> bootstrap_objects p.
Proof.
  eexists. split; [done|]. unfold decode. rewrite str_pos_str, decode_encode. by destruct p.
Qed.
End KMem.


