(* ===== verification/Aws.v ===== *)
(** * The AWS back ends

    [plugin/pkg/util/aws]: CloudFormation stacks and VPN connections;
    [plugin/pkg/util/ssh]: the public key of the user; the servers of
    [networks/aws/vpc], [peerings/aws/ipsecvpn] and
    [agentpools/aws/ubuntu2404instance], whose objects are one stack each, named
    after the kind and the id of the object.  The AWS clients are interfaces;
    CloudFormation has laws over the map of its stacks. *)
From S2P Require Import Prelude GoStr Karp Helper Proto UserData Encoding K8s Kubeadm.
From stdpp Require Import options.

(** ** [util/ssh] *)
(** [filepath.Join]: the non-empty elements, cleaned. *)
Definition filepath_Join (elems : list string) : string :=
  match filter (λ e, e ≠ "") elems with
  | [] => ""
  | l => filepath_Clean (Join l "/")
  end.

Fixpoint first_readable {W} (os : OS W) (names : list string) : M W string :=
  match names with
  | [] => fail (errors_New "public key not found")
  | name :: names =>
      r ← attempt (os_ReadFile os name);
      match r with inr b => mret b | inl _ => first_readable os names end
  end.

Definition PublicKey {W} (os : OS W) (Getenv : string → string) : M W string :=
  first_readable os [filepath_Join [Getenv "HOME"; ".ssh/id_ed25519.pub"];
                     filepath_Join [Getenv "HOME"; ".ssh/id_rsa.pub"]].

(** ** The AWS clients *)
Record Stack := {
  st_Template : string;
  st_Parameters : list (string * string);
  st_Outputs : list (option string * option string);
}.

(** The VgwTelemetry of a VPN connection: the outside addresses. *)
Record VpnConnection := { vc_VgwTelemetry : list (option string) }.

(** [awscfg] is a loaded configuration; [Wait] calls are the waiters. *)
Record AWS (W Cfg : Type) := {
  LoadDefaultConfig : string → M W Cfg;
  DescribeStacks : Cfg → string → M W (list Stack);
  CreateStack : Cfg → string → string → list (string * string) → M W ();
  StackCreateComplete_Wait : Cfg → string → M W ();
  UpdateStack : Cfg → string → string → list (string * string) → M W ();
  StackUpdateComplete_Wait : Cfg → string → M W ();
  DeleteStack : Cfg → string → M W ();
  StackDeleteComplete_Wait : Cfg → string → M W ();
  DescribeVpnConnections : Cfg → string → M W (list VpnConnection);
  RebootInstances : Cfg → list string → M W ();
}.
Arguments LoadDefaultConfig {W Cfg}.
Arguments DescribeStacks {W Cfg}.
Arguments CreateStack {W Cfg}.
Arguments StackCreateComplete_Wait {W Cfg}.
Arguments UpdateStack {W Cfg}.
Arguments StackUpdateComplete_Wait {W Cfg}.
Arguments DeleteStack {W Cfg}.
Arguments StackDeleteComplete_Wait {W Cfg}.
Arguments DescribeVpnConnections {W Cfg}.
Arguments RebootInstances {W Cfg}.

(** [aws.ToString]. *)
Definition ToString (s : option string) : string := default "" s.

(** ** [util/aws] *)
Section util.
Context {W Cfg : Type} (aws : AWS W Cfg).
(** [errors.As] to a [smithy.APIError]: its code and message. *)
Context (as_APIError : error → option (string * string)).

Definition isErrorCode (err : error) (errorCode : string) : bool :=
  match as_APIError err with Some (c, _) => bool_decide (c = errorCode) | None => false end.
Definition isErrorMessage (err : error) (errorMessage : string) : bool :=
  match as_APIError err with Some (_, m) => bool_decide (m = errorMessage) | None => false end.

Definition create (awscfg : Cfg) (stackName templateb : string) (parameters : list (string * string)) : M W () :=
  _ ← CreateStack aws awscfg stackName templateb parameters;
  StackCreateComplete_Wait aws awscfg stackName.

Definition update (awscfg : Cfg) (stackName templateb : string) (parameters : list (string * string)) : M W () :=
  r ← attempt (UpdateStack aws awscfg stackName templateb parameters);
  match r with
  | inl err => if isErrorMessage err "No updates are to be performed." then mret () else fail err
  | inr _ => StackUpdateComplete_Wait aws awscfg stackName
  end.

(** The outputs of a stack; a later output wins over one of the same key. *)
Definition outputs_of (s : Stack) : gmap string string :=
  foldl (λ m o, <[ToString o.1 := ToString o.2]> m) ∅ (st_Outputs s).

Definition GetStack (awscfg : Cfg) (stackName : string) : M W (gmap string string) :=
  stacks ← DescribeStacks aws awscfg stackName;
  match stacks with
  | s :: _ => mret (outputs_of s)
  | [] => panic "index out of range"
  end.

Definition Deploy (awscfg : Cfg) (stackName templateb : string) (parameters : list (string * string))
    : M W (gmap string string) :=
  r ← attempt (DescribeStacks aws awscfg stackName);
  _ ← match r with
      | inl err => if isErrorCode err "ValidationError"
                   then create awscfg stackName templateb parameters else fail err
      | inr _ => update awscfg stackName templateb parameters
      end;
  GetStack awscfg stackName.

Definition Delete (awscfg : Cfg) (stackName : string) : M W () :=
  _ ← DeleteStack aws awscfg stackName;
  StackDeleteComplete_Wait aws awscfg stackName.

Definition GetVpnConnection (awscfg : Cfg) (id : string) : M W VpnConnection :=
  output ← DescribeVpnConnections aws awscfg id;
  match output with
  | c :: _ => mret c
  | [] => panic "index out of range"
  end.
End util.

(** ** The messages *)
Module awsvpc.
Record NetworkSpec := { Region : option string; Vnet : option vnet.Config }.
Record NetworkStatus := {
  Vpc : option string; Subnet : option string; RouteTable : option string; SecurityGroup : option string;
}.
Record Network := {
  Metadata : option api.Metadata; Spec : option NetworkSpec; Status : option NetworkStatus;
}.
Definition GetRegion : option NetworkSpec → string := getf Region "".
Definition GetVnet : option NetworkSpec → option vnet.Config := getm Vnet.
Definition GetMetadata : option Network → option api.Metadata := getm Metadata.
Definition GetSpec : option Network → option NetworkSpec := getm Spec.
Definition SetStatus (v : option NetworkStatus) (n : Network) : Network :=
  {| Metadata := Metadata n; Spec := Spec n; Status := v |}.
Definition Redact (n : option Network) : res (option Network) := Ok n.
End awsvpc.

Module ipsecvpn.
Record PeeringSpec := {
  Region : option string; Vpc : option string; RouteTable : option string; Ipsec : option ipsec.Config;
}.
Record PeeringStatus := { VpnConnection_ : option string; OutsideIpAddresses : list string }.
Record Peering := {
  Metadata : option api.Metadata; Spec : option PeeringSpec; Status : option PeeringStatus;
}.
Definition GetRegion : option PeeringSpec → string := getf Region "".
Definition GetVpc : option PeeringSpec → string := getf Vpc "".
Definition GetRouteTable : option PeeringSpec → string := getf RouteTable "".
Definition GetIpsec : option PeeringSpec → option ipsec.Config := getm Ipsec.
Definition GetMetadata : option Peering → option api.Metadata := getm Metadata.
Definition GetSpec : option Peering → option PeeringSpec := getm Spec.
Definition SetStatus (v : option PeeringStatus) (p : Peering) : Peering :=
  {| Metadata := Metadata p; Spec := Spec p; Status := v |}.
(** [Redact] writes through the pointer to the IPsec configuration. *)
Definition Redact (p : option Peering) : res (option Peering) :=
  c ← ipsec.Redact (GetIpsec (GetSpec p));
  Ok (match p with
      | Some p => Some {| Metadata := Metadata p; Status := Status p;
          Spec := (λ s, {| Region := Region s; Vpc := Vpc s; RouteTable := RouteTable s; Ipsec := c |}) <$> Spec p |}
      | None => None
      end).
End ipsecvpn.

Module ubuntu2404instance.
Record AgentPoolSpec := {
  Region : option string; Subnet : option string; SecurityGroup : option string;
  Kubeadm : option kubeadm.Config;
}.
Record AgentPoolStatus := { Instance_ : option string }.
Record AgentPool := {
  Metadata : option api.Metadata; Spec : option AgentPoolSpec; Status : option AgentPoolStatus;
}.
Definition GetRegion : option AgentPoolSpec → string := getf Region "".
Definition GetSubnet : option AgentPoolSpec → string := getf Subnet "".
Definition GetSecurityGroup : option AgentPoolSpec → string := getf SecurityGroup "".
Definition GetKubeadm : option AgentPoolSpec → option kubeadm.Config := getm Kubeadm.
Definition GetInstance : option AgentPoolStatus → string := getf Instance_ "".
Definition GetMetadata : option AgentPool → option api.Metadata := getm Metadata.
Definition GetSpec : option AgentPool → option AgentPoolSpec := getm Spec.
Definition GetStatus : option AgentPool → option AgentPoolStatus := getm Status.
Definition SetStatus (v : option AgentPoolStatus) (p : AgentPool) : AgentPool :=
  {| Metadata := Metadata p; Spec := Spec p; Status := v |}.
(** A write through the pointer to the kubeadm configuration of the pool. *)
Definition with_Kubeadm (c : option kubeadm.Config) (p : AgentPool) : AgentPool :=
  {| Metadata := Metadata p; Status := Status p;
     Spec := (λ s, {| Region := Region s; Subnet := Subnet s; SecurityGroup := SecurityGroup s;
                      Kubeadm := c |}) <$> Spec p |}.
Definition Redact (p : option AgentPool) : res (option AgentPool) :=
  c ← kubeadm.Redact (GetKubeadm (GetSpec p));
  Ok (with_Kubeadm c <$> p).
Record Instance := { i_Metadata : option api.Metadata }.
End ubuntu2404instance.

(** ** The servers *)
Section servers.
Context {W Cfg Msg : Type} `{PR : ProtoRuntime Msg} `{OB : Object Msg}.
Context (aws : AWS W Cfg) (as_APIError : error → option (string * string)).
Context (storage_Get : string → M W (option Msg)).
(** The embedded template of a server. *)
Context (awsJSON : string).

(** *** [networks/aws/vpc] *)
Section network.
Context (of_Network : awsvpc.Network → Msg) (as_Network : Msg → option awsvpc.Network).

Definition network_parameters (n : awsvpc.Network) : list (string * string) :=
  [("CidrBlock", vnet.GetCidrBlock (awsvpc.GetVnet (awsvpc.GetSpec (Some n))))].

Definition network_status (outputs : gmap string string) : awsvpc.NetworkStatus := {|
  awsvpc.Vpc := Some (default "" (outputs !! "VPC"));
  awsvpc.Subnet := Some (default "" (outputs !! "Subnet"));
  awsvpc.RouteTable := Some (default "" (outputs !! "RouteTable"));
  awsvpc.SecurityGroup := Some (default "" (outputs !! "SecurityGroup"));
|}.

Definition AwsNetwork_CreateOrUpdate (item : option Any) : M W (option Any) :=
  n ← lift (AnyTo as_Network item);
  awscfg ← LoadDefaultConfig aws (awsvpc.GetRegion (awsvpc.GetSpec (Some n)));
  outputs ← Deploy aws as_APIError awscfg
              ("network-" +:+ api.GetId (awsvpc.GetMetadata (Some n))) awsJSON (network_parameters n);
  item ← lift (any_New (of_Network (awsvpc.SetStatus (Some (network_status outputs)) n)));
  mret (Some item).

Definition AwsNetwork_Delete (id : string) : M W () :=
  obj ← storage_Get id;
  match obj with
  | None => mret ()
  | Some obj =>
      n ← lift (To as_Network obj);
      awscfg ← LoadDefaultConfig aws (awsvpc.GetRegion (awsvpc.GetSpec (Some n)));
      Delete aws awscfg ("network-" +:+ api.GetId (awsvpc.GetMetadata (Some n)))
  end.
End network.

(** *** [peerings/aws/ipsecvpn] *)
Section peering.
Context (of_Peering : ipsecvpn.Peering → Msg) (as_Peering : Msg → option ipsecvpn.Peering).

Definition peering_parameters (p : ipsecvpn.Peering) : list (string * string) :=
  let spec := ipsecvpn.GetSpec (Some p) in
  [("PreSharedKey", ipsec.GetPreSharedKey (ipsecvpn.GetIpsec spec));
   ("RemoteIP", ipsec.GetRemoteIp (ipsecvpn.GetIpsec spec));
   ("RouteTable", ipsecvpn.GetRouteTable spec); ("VPC", ipsecvpn.GetVpc spec)].

(** The first two outside addresses; fewer, or a nil one, panics. *)
Definition outside_addresses (conn : VpnConnection) : res (list string) :=
  match vc_VgwTelemetry conn with
  | Some a :: Some b :: _ => Ok [a; b]
  | None :: _ | Some _ :: None :: _ => Panic "nil pointer dereference"
  | _ => Panic "index out of range"
  end.

Definition AwsPeering_CreateOrUpdate (item : option Any) : M W (option Any) :=
  p ← lift (AnyTo as_Peering item);
  awscfg ← LoadDefaultConfig aws (ipsecvpn.GetRegion (ipsecvpn.GetSpec (Some p)));
  outputs ← Deploy aws as_APIError awscfg
              ("peering-" +:+ api.GetId (ipsecvpn.GetMetadata (Some p))) awsJSON (peering_parameters p);
  let vpn := default "" (outputs !! "VPNConnection") in
  conn ← GetVpnConnection aws awscfg vpn;
  ips ← lift (outside_addresses conn);
  item ← lift (any_New (of_Peering (ipsecvpn.SetStatus
    (Some {| ipsecvpn.VpnConnection_ := Some vpn; ipsecvpn.OutsideIpAddresses := ips |}) p)));
  mret (Some item).

Definition AwsPeering_Delete (id : string) : M W () :=
  obj ← storage_Get id;
  match obj with
  | None => mret ()
  | Some obj =>
      n ← lift (To as_Peering obj);
      awscfg ← LoadDefaultConfig aws (ipsecvpn.GetRegion (ipsecvpn.GetSpec (Some n)));
      Delete aws awscfg ("peering-" +:+ api.GetId (ipsecvpn.GetMetadata (Some n)))
  end.
End peering.

(** *** [agentpools/aws/ubuntu2404instance] *)
Section agentpool.
Context (of_AgentPool : ubuntu2404instance.AgentPool → Msg)
        (as_AgentPool : Msg → option ubuntu2404instance.AgentPool).
Context (os : OS W) (Getenv : string → string).
(** The order of a range over the labels, the encoders of the documents of a
    node, YAML and gzip. *)
Context (range : gmap string string → list (string * string))
        (encode_kubeconfig : KConfig → res string) (encode_join : JoinConfiguration → res string)
        (yaml_Marshal : UserData → res string) (gzip : string → res string).

Definition instanceType : string := "m8i.large".

Definition aws_node_config (spec : option ubuntu2404instance.AgentPoolSpec) : res (option kubeadm.Config) :=
  kubeadm.AddNodeLabels
    {[ NodeLabelKeyCloud := "aws"; NodeLabelKeyRegion := ToLower (ubuntu2404instance.GetRegion spec);
       NodeLabelKeyInstanceType := ToLower instanceType ]}
    (ubuntu2404instance.GetKubeadm spec).

Definition ubuntu_userdata (cfg : option kubeadm.Config) : res string :=
  ud ← ubuntu.UserData (kubeadm_Kubeconfig encode_kubeconfig) (JoinConfig range encode_join) cfg;
  cloudinit_Gzip yaml_Marshal gzip ud.

Definition pool_parameters (sshKey : string) (spec : option ubuntu2404instance.AgentPoolSpec)
    (userDataContent : string) : list (string * string) :=
  [("PublicKeyMaterial", sshKey); ("SecurityGroup", ubuntu2404instance.GetSecurityGroup spec);
   ("Subnet", ubuntu2404instance.GetSubnet spec);
   ("UserData", base64_EncodeToString userDataContent)].

Definition AwsPool_CreateOrUpdate (item : option Any) : M W (option Any) :=
  ap ← lift (AnyTo as_AgentPool item);
  awscfg ← LoadDefaultConfig aws (ubuntu2404instance.GetRegion (ubuntu2404instance.GetSpec (Some ap)));
  sshKey ← PublicKey os Getenv;
  kubeadmConfig ← lift (aws_node_config (ubuntu2404instance.GetSpec (Some ap)));
  (* the configuration is the request's own: the change is visible in [ap] *)
  let ap := ubuntu2404instance.with_Kubeadm kubeadmConfig ap in
  userDataContent ← lift (ubuntu_userdata kubeadmConfig);
  outputs ← Deploy aws as_APIError awscfg
              ("agentpool-" +:+ api.GetId (ubuntu2404instance.GetMetadata (Some ap))) awsJSON
              (pool_parameters sshKey (ubuntu2404instance.GetSpec (Some ap)) userDataContent);
  item ← lift (any_New (of_AgentPool (ubuntu2404instance.SetStatus
    (Some {| ubuntu2404instance.Instance_ := Some (default "" (outputs !! "Instance")) |}) ap)));
  mret (Some item).

Definition AwsPool_Delete (id : string) : M W () :=
  obj ← storage_Get id;
  match obj with
  | None => mret ()
  | Some obj =>
      ap ← lift (To as_AgentPool obj);
      awscfg ← LoadDefaultConfig aws (ubuntu2404instance.GetRegion (ubuntu2404instance.GetSpec (Some ap)));
      Delete aws awscfg ("agentpool-" +:+ api.GetId (ubuntu2404instance.GetMetadata (Some ap)))
  end.

(** [instances.go]; the id of an object is [GetMetadata().GetId()]. *)
Context (of_Instance : ubuntu2404instance.Instance → Msg).

Definition instance_of (id : string) : ubuntu2404instance.Instance :=
  {| ubuntu2404instance.i_Metadata := Some {| api.Type_ := None; api.Id := Some id |} |}.

Definition AwsInstances_List (id : string) : M W (list Any) :=
  ap ← storage_Get id;
  match ap with
  | None => fail (ErrStatus NotFound "")
  | Some ap => item ← lift (any_New (of_Instance (instance_of (ObjectId ap +:+ "/0")))); mret [item]
  end.

(** [ids[0]]: [strings.Split] answers at least one part. *)
Definition first_id (ids : list string) : string := default "" (head ids).

Definition AwsInstances_Get (id : string) : M W (option Any) :=
  let ids := split_char "/" id in
  ap ← storage_Get (first_id ids);
  match ap with
  | None => fail (ErrStatus NotFound "")
  | Some _ =>
      match ids !! 1%nat with
      | None => panic "index out of range"
      | Some i =>
          if bool_decide (i ≠ "0") then fail (ErrStatus NotFound "")
          else item ← lift (any_New (of_Instance (instance_of id))); mret (Some item)
      end
  end.

Definition AwsInstances_Restart (id : string) : M W () :=
  let ids := split_char "/" id in
  obj ← storage_Get (first_id ids);
  match obj with
  | None => fail (ErrStatus NotFound "")
  | Some obj =>
      ap ← lift (To as_AgentPool obj);
      awscfg ← LoadDefaultConfig aws (ubuntu2404instance.GetRegion (ubuntu2404instance.GetSpec (Some ap)));
      RebootInstances aws awscfg [ubuntu2404instance.GetInstance (ubuntu2404instance.GetStatus (Some ap))]
  end.
End agentpool.
End servers.

(** ** The laws of CloudFormation *)
Class CloudFormationLaws {W Cfg} `{Countable Cfg} (aws : AWS W Cfg)
    (as_APIError : error → option (string * string)) := {
  stacks : W → gmap (Cfg * string) Stack;
  config_of : string → Cfg;
  config_law region w : LoadDefaultConfig aws region w = (Ok (config_of region), w);
  describe_found c n s w : stacks w !! (c, n) = Some s → DescribeStacks aws c n w = (Ok [s], w);
  describe_missing c n w : stacks w !! (c, n) = None →
    ∃ e, DescribeStacks aws c n w = (Err e, w) ∧ isErrorCode as_APIError e "ValidationError" = true;
  create_law c n t p w : stacks w !! (c, n) = None →
    ∃ w1 w2 s, CreateStack aws c n t p w = (Ok (), w1) ∧ StackCreateComplete_Wait aws c n w1 = (Ok (), w2) ∧
      stacks w2 = <[(c, n) := s]> (stacks w) ∧ st_Template s = t ∧ st_Parameters s = p;
  update_same c n s w : stacks w !! (c, n) = Some s →
    ∃ e, UpdateStack aws c n (st_Template s) (st_Parameters s) w = (Err e, w) ∧
      isErrorMessage as_APIError e "No updates are to be performed." = true;
  update_law c n t p s w : stacks w !! (c, n) = Some s → (t, p) ≠ (st_Template s, st_Parameters s) →
    ∃ w1 w2 s', UpdateStack aws c n t p w = (Ok (), w1) ∧ StackUpdateComplete_Wait aws c n w1 = (Ok (), w2) ∧
      stacks w2 = <[(c, n) := s']> (stacks w) ∧ st_Template s' = t ∧ st_Parameters s' = p;
  delete_law c n w :
    ∃ w1 w2, DeleteStack aws c n w = (Ok (), w1) ∧ StackDeleteComplete_Wait aws c n w1 = (Ok (), w2) ∧
      stacks w2 = delete (c, n) (stacks w);
}.

Section laws.
Context {W Cfg : Type} `{Countable Cfg} (aws : AWS W Cfg).
Context (as_APIError : error → option (string * string)) {CL : CloudFormationLaws aws as_APIError}.
#[local] Set Default Proof Using "Type*".

Lemma GetStack_found c n s w : stacks w !! (c, n) = Some s → GetStack aws c n w = (Ok (outputs_of s), w).
Proof. intros Hs. unfold GetStack. by rewrite (M_bind_Ok _ _ _ _ _ (describe_found _ _ _ _ Hs)). Qed.

Lemma Deploy_unchanged c n s w :
  stacks w !! (c, n) = Some s →
  Deploy aws as_APIError c n (st_Template s) (st_Parameters s) w = (Ok (outputs_of s), w).
Proof.
  intros Hs. unfold Deploy. rewrite (attempt_Ok _ _ _ _ _ (describe_found _ _ _ _ Hs)).
  destruct (update_same c n s w Hs) as (e & He & Hm).
  erewrite M_bind_Ok; [by apply GetStack_found|].
  unfold update. by rewrite (attempt_Err _ _ _ _ _ He), Hm.
Qed.

Lemma Deploy_run c n t p w :
  ∃ s w', Deploy aws as_APIError c n t p w = (Ok (outputs_of s), w') ∧
    stacks w' = <[(c, n) := s]> (stacks w) ∧ st_Template s = t ∧ st_Parameters s = p ∧
    (∀ s0, stacks w !! (c, n) = Some s0 → st_Template s0 = t → st_Parameters s0 = p → w' = w ∧ s = s0).
Proof.
  destruct (stacks w !! (c, n)) as [s0|] eqn:Hs0.
  - destruct (decide ((t, p) = (st_Template s0, st_Parameters s0))) as [[= -> ->]|Hne].
    + exists s0, w. split_and!; [by apply Deploy_unchanged|by rewrite insert_id|done|done|].
      by intros s1 [= ->] _ _.
    + destruct (update_law c n t p s0 w Hs0 Hne) as (w1 & w2 & s & Hu & Hw & Hs & Ht & Hp).
      exists s, w2. split_and!; [|done|done|done|intros s1 [= <-] <- <-; by destruct Hne].
      unfold Deploy. rewrite (attempt_Ok _ _ _ _ _ (describe_found _ _ _ _ Hs0)).
      erewrite M_bind_Ok; [apply GetStack_found; by rewrite Hs, lookup_insert_eq|].
      unfold update. by rewrite (attempt_Ok _ _ _ _ _ Hu).
  - destruct (create_law c n t p w Hs0) as (w1 & w2 & s & Hc & Hw & Hs & Ht & Hp).
    exists s, w2. split_and!; [|done|done|done|done].
    destruct (describe_missing c n w Hs0) as (e & He & Hv).
    unfold Deploy. rewrite (attempt_Err _ _ _ _ _ He), Hv.
    erewrite M_bind_Ok; [apply GetStack_found; by rewrite Hs, lookup_insert_eq|].
    unfold create. by rewrite (M_bind_Ok _ _ _ _ _ Hc).
Qed.

Lemma Delete_run c n w : ∃ w', Delete aws c n w = (Ok (), w') ∧ stacks w' = delete (c, n) (stacks w).
Proof.
  destruct (delete_law c n w) as (w1 & w2 & Hd & Hw & Hs). exists w2. split; [|done].
  unfold Delete. by rewrite (M_bind_Ok _ _ _ _ _ Hd).
Qed.

(** C19: a deployment is a put on the map of stacks: it ends with the stack of
    the name holding the template and the parameters, answers its outputs, and
    leaves every other stack alone; a stack that is as asked is not touched, and
    deploying again answers the same without a change. *)
Theorem aws_deploy_put c n t p w :
  ∃ s w', Deploy aws as_APIError c n t p w = (Ok (outputs_of s), w') ∧
    stacks w' = <[(c, n) := s]> (stacks w) ∧ st_Template s = t ∧ st_Parameters s = p ∧
    (∀ s0, stacks w !! (c, n) = Some s0 → st_Template s0 = t → st_Parameters s0 = p → w' = w ∧ s = s0) ∧
    Deploy aws as_APIError c n t p w' = (Ok (outputs_of s), w').
Proof.
  destruct (Deploy_run c n t p w) as (s & w' & Hd & Hs & Ht & Hp & Hu).
  exists s, w'. split_and!; [done..|]. rewrite <-Ht, <-Hp. apply Deploy_unchanged.
  by rewrite Hs, lookup_insert_eq.
Qed.
End laws.

(** ** The servers over these laws *)
Section properties.
Context {W Cfg Msg : Type} `{PR : ProtoRuntime Msg} `{OB : Object Msg} {PL : ProtoLaws Msg}.
Context `{Countable Cfg} (aws : AWS W Cfg).
Context (as_APIError : error → option (string * string)) {CL : CloudFormationLaws aws as_APIError}.
Context (storage_Get : string → M W (option Msg)) (awsJSON : string).
(** The runtime marshals every message. *)
Context (any_ok : ∀ m : Msg, is_Ok (any_New m)).
#[local] Set Default Proof Using "Type*".

Lemma any_total m : ∃ it, any_New m = Ok it ∧ UnmarshalNew it = Ok m.
Proof using PL any_ok.
  pose proof (any_ok m) as H'. destruct (any_New m) as [it| |] eqn:E; [|done..].
  exists it. split; [done|]. by apply any_round.
Qed.

(** *** Networks *)
Section network.
Context (of_Network : awsvpc.Network → Msg) (as_Network : Msg → option awsvpc.Network).
Context (as_of : ∀ n, as_Network (of_Network n) = Some n).

Definition network_stack (n : awsvpc.Network) : Cfg * string :=
  (config_of (awsvpc.GetRegion (awsvpc.GetSpec (Some n))),
   "network-" +:+ api.GetId (awsvpc.GetMetadata (Some n))).

(** A created network has its stack, with the block asked for, and answers the
    ids of the stack's resources; deleting it removes this stack only. *)
Theorem aws_network_create_delete it n id w :
  AnyTo as_Network (Some it) = Ok n →
  ∃ it' s w1, let n' := awsvpc.SetStatus (Some (network_status (outputs_of s))) n in
    AwsNetwork_CreateOrUpdate aws as_APIError awsJSON of_Network as_Network (Some it) w = (Ok (Some it'), w1) ∧
    AnyTo as_Network (Some it') = Ok n' ∧ stacks w1 = <[network_stack n := s]> (stacks w) ∧
    st_Template s = awsJSON ∧ st_Parameters s = network_parameters n ∧
    (storage_Get id w1 = (Ok (Some (of_Network n')), w1) →
     ∃ w2, AwsNetwork_Delete aws storage_Get as_Network id w1 = (Ok (), w2) ∧
           stacks w2 = delete (network_stack n) (stacks w)).
Proof using CL PL any_ok as_of.
  intros Hit.
  destruct (Deploy_run aws as_APIError (network_stack n).1 (network_stack n).2 awsJSON (network_parameters n) w)
    as (s & w1 & Hd & Hs & Ht & Hp & _).
  set (n' := awsvpc.SetStatus (Some (network_status (outputs_of s))) n).
  destruct (any_total (of_Network n')) as (it' & Hn & Hu). exists it', s, w1. cbv zeta. split_and!.
  - unfold AwsNetwork_CreateOrUpdate. rewrite (bind_lift_Ok _ _ _ _ Hit).
    rewrite (M_bind_Ok _ _ _ _ _ (config_law _ w)), (M_bind_Ok _ _ _ _ _ Hd).
    exact (bind_lift_Ok _ (λ item, mret (Some item)) _ _ Hn).
  - unfold AnyTo, To. rewrite Hu. simpl. by rewrite as_of.
  - done.
  - done.
  - done.
  - intros Hg. destruct (Delete_run aws as_APIError (network_stack n).1 (network_stack n).2 w1) as (w2 & Hx & Hs2).
    exists w2. split; [|by rewrite Hs2, Hs, delete_insert_eq].
    unfold AwsNetwork_Delete. rewrite (M_bind_Ok _ _ _ _ _ Hg). unfold To. rewrite as_of.
    rewrite (bind_lift_Ok _ _ n') by done. by rewrite (M_bind_Ok _ _ _ _ _ (config_law _ w1)).
Qed.
End network.

(** *** Peerings *)
Section peering.
Context (of_Peering : ipsecvpn.Peering → Msg) (as_Peering : Msg → option ipsecvpn.Peering).

Definition peering_stack (p : ipsecvpn.Peering) : Cfg * string :=
  (config_of (ipsecvpn.GetRegion (ipsecvpn.GetSpec (Some p))),
   "peering-" +:+ api.GetId (ipsecvpn.GetMetadata (Some p))).

(** A peering is answered with the connection of its stack and its two
    outside addresses; when the connection has fewer than two addresses the
    request panics, and when it cannot be read the error is answered, in both
    cases after the stack is in place. *)
Theorem aws_peering_outcome it p w :
  AnyTo as_Peering (Some it) = Ok p →
  ∃ s w1, stacks w1 = <[peering_stack p := s]> (stacks w) ∧ st_Parameters s = peering_parameters p ∧
    let create := AwsPeering_CreateOrUpdate aws as_APIError awsJSON of_Peering as_Peering (Some it) in
    let vpn := default "" (outputs_of s !! "VPNConnection") in
    let describe := DescribeVpnConnections aws (peering_stack p).1 vpn in
    (∀ a b l cs w2, describe w1 = (Ok ({| vc_VgwTelemetry := Some a :: Some b :: l |} :: cs), w2) →
       ∃ it', create w = (Ok (Some it'), w2) ∧
         UnmarshalNew it' = Ok (of_Peering (ipsecvpn.SetStatus
           (Some {| ipsecvpn.VpnConnection_ := Some vpn; ipsecvpn.OutsideIpAddresses := [a; b] |}) p))) ∧
    (∀ l cs w2, describe w1 = (Ok ({| vc_VgwTelemetry := l |} :: cs), w2) → (length l < 2)%nat →
       ∃ why, create w = (Panic why, w2)) ∧
    (∀ e w2, describe w1 = (Err e, w2) → create w = (Err e, w2)).
Proof using CL PL any_ok.
  intros Hit.
  destruct (Deploy_run aws as_APIError (peering_stack p).1 (peering_stack p).2 awsJSON (peering_parameters p) w)
    as (s & w1 & Hd & Hs & Ht & Hp & _).
  exists s, w1. split; [done|]. split; [done|]. intros create vpn describe.
  assert (∀ r w2, describe w1 = (r, w2) → create w =
    (conn ← (output ← (λ _, (r, w2)); match output with c :: _ => mret c | [] => panic "index out of range" end);
     ips ← lift (outside_addresses conn);
     item ← lift (any_New (of_Peering (ipsecvpn.SetStatus
       (Some {| ipsecvpn.VpnConnection_ := Some vpn; ipsecvpn.OutsideIpAddresses := ips |}) p)));
     mret (Some item)) w1) as Hc.
  { intros r w2 Hr. unfold create, AwsPeering_CreateOrUpdate. rewrite (bind_lift_Ok _ _ _ _ Hit).
    rewrite (M_bind_Ok _ _ _ _ _ (config_law _ w)), (M_bind_Ok _ _ _ _ _ Hd).
    unfold GetVpnConnection, mbind, M_bind.
    change (DescribeVpnConnections aws ?c ?v w1) with (describe w1). by rewrite Hr. }
  split_and!.
  - intros a b l cs w2 Hr. rewrite (Hc _ _ Hr).
    destruct (any_total (of_Peering (ipsecvpn.SetStatus
       (Some {| ipsecvpn.VpnConnection_ := Some vpn; ipsecvpn.OutsideIpAddresses := [a; b] |}) p)))
      as (it' & Hn & Hu).
    exists it'. split; [|done]. unfold mbind, M_bind, lift. simpl. by rewrite Hn.
  - intros l cs w2 Hr Hl. rewrite (Hc _ _ Hr).
    destruct l as [|[a|] [|b l]]; simpl in Hl; [| | lia| |lia]; by eexists.
  - intros e w2 Hr. by rewrite (Hc _ _ Hr).
Qed.
End peering.
(** *** Agent pools and instances *)
Section agentpool.
Import ubuntu2404instance.
Context (of_AgentPool : AgentPool → Msg) (as_AgentPool : Msg → option AgentPool).
Context (as_of : ∀ p, as_AgentPool (of_AgentPool p) = Some p).
Context (os : OS W) (Getenv : string → string) (range : gmap string string → list (string * string))
  (encode_kubeconfig : KConfig → res string) (encode_join : JoinConfiguration → res string)
  (yaml_Marshal : UserData → res string) (gzip : string → res string).
Definition pool_stack (p : AgentPool) : Cfg * string :=
  (config_of (GetRegion (GetSpec (Some p))), "agentpool-" +:+ api.GetId (GetMetadata (Some p))).

Notation Create := (AwsPool_CreateOrUpdate aws as_APIError awsJSON of_AgentPool as_AgentPool os Getenv
  range encode_kubeconfig encode_join yaml_Marshal gzip).

Lemma aws_node_config_ok spec cfg :
  GetKubeadm spec = Some cfg →
  ∃ cfg', aws_node_config spec = Ok (Some cfg') ∧
    kubeadm.NodeLabels cfg' = Some
      ({[ NodeLabelKeyCloud := "aws"; NodeLabelKeyRegion := ToLower (GetRegion spec);
          NodeLabelKeyInstanceType := "m8i.large" ]} ∪ default ∅ (kubeadm.NodeLabels cfg)) ∧
    kubeadm.Token cfg' = kubeadm.Token cfg ∧ kubeadm.Server cfg' = kubeadm.Server cfg.
Proof using Type.
  intros Hk. unfold aws_node_config. rewrite Hk.
  match goal with |- context [kubeadm.AddNodeLabels ?e (Some cfg)] =>
    destruct (kubeadm.AddNodeLabels_spec e cfg) as (c1 & -> & Hl & Hs & Ht & _) end.
  by exists c1.
Qed.

(** A pool with a kubeadm configuration gets one stack, with the key of the
    user and user data that joins the cluster with the labels of the cloud, and
    is answered with its instance; a pool without one panics before any call to
    CloudFormation.  Deleting the pool removes its stack and no other. *)
Theorem aws_pool_create_delete it ap id key ud (w w0 : W) :
  AnyTo as_AgentPool (Some it) = Ok ap → PublicKey os Getenv w = (Ok key, w0) →
  stacks w0 = stacks w →
  (GetKubeadm (GetSpec (Some ap)) = None → Create (Some it) w = (Panic "nil pointer dereference", w0)) ∧
  (∀ cfg cfg', GetKubeadm (GetSpec (Some ap)) = Some cfg → aws_node_config (GetSpec (Some ap)) = Ok (Some cfg') →
   ubuntu_userdata range encode_kubeconfig encode_join yaml_Marshal gzip (Some cfg') = Ok ud →
   ∃ it' s w1,
     let ap' := SetStatus (Some {| Instance_ := Some (default "" (outputs_of s !! "Instance")) |})
                          (with_Kubeadm (Some cfg') ap) in
     Create (Some it) w = (Ok (Some it'), w1) ∧ AnyTo as_AgentPool (Some it') = Ok ap' ∧
     stacks w1 = <[pool_stack ap := s]> (stacks w) ∧
     st_Parameters s = pool_parameters key (GetSpec (Some ap)) ud ∧
     kubeadm.NodeLabels cfg' = Some
      ({[ NodeLabelKeyCloud := "aws"; NodeLabelKeyRegion := ToLower (GetRegion (GetSpec (Some ap)));
          NodeLabelKeyInstanceType := "m8i.large" ]} ∪ default ∅ (kubeadm.NodeLabels cfg)) ∧
     (storage_Get id w1 = (Ok (Some (of_AgentPool ap')), w1) →
      ∃ w2, AwsPool_Delete aws storage_Get as_AgentPool id w1 = (Ok (), w2) ∧
            stacks w2 = delete (pool_stack ap) (stacks w))).
Proof using CL PL any_ok as_of.
  intros Hit Hkey Hw0. split.
  - intros Hk. unfold AwsPool_CreateOrUpdate. rewrite (bind_lift_Ok _ _ _ _ Hit).
    rewrite (M_bind_Ok _ _ _ _ _ (config_law _ w)), (M_bind_Ok _ _ _ _ _ Hkey).
    apply bind_lift_Panic. unfold aws_node_config. by rewrite Hk.
  - intros cfg cfg' Hk Hcfg Hud.
    destruct (aws_node_config_ok _ _ Hk) as (c1 & Hc1 & Hl & _). rewrite Hcfg in Hc1. injection Hc1 as <-.
    set (ap1 := with_Kubeadm (Some cfg') ap).
    assert (GetRegion (GetSpec (Some ap1)) = GetRegion (GetSpec (Some ap)) ∧
      pool_parameters key (GetSpec (Some ap1)) ud = pool_parameters key (GetSpec (Some ap)) ud) as [Hr Hpp]
      by (unfold ap1; destruct ap as [md [[]|] st]; done).
    destruct (Deploy_run aws as_APIError (pool_stack ap).1 (pool_stack ap).2 awsJSON
      (pool_parameters key (GetSpec (Some ap)) ud) w0) as (s & w1 & Hd & Hs & Ht & Hp & _).
    set (ap' := SetStatus (Some {| Instance_ := Some (default "" (outputs_of s !! "Instance")) |}) ap1).
    destruct (any_total (of_AgentPool ap')) as (it' & Hn & Hu). exists it', s, w1. cbv zeta. fold ap1 ap'.
    split_and!; [| |by rewrite Hs, Hw0|done|done|].
    + unfold AwsPool_CreateOrUpdate. rewrite (bind_lift_Ok _ _ _ _ Hit).
      rewrite (M_bind_Ok _ _ _ _ _ (config_law _ w)), (M_bind_Ok _ _ _ _ _ Hkey).
      rewrite (bind_lift_Ok _ _ _ _ Hcfg). cbv zeta. fold ap1. rewrite (bind_lift_Ok _ _ _ _ Hud), Hpp.
      erewrite M_bind_Ok; [exact (bind_lift_Ok _ (λ item, mret (Some item)) _ _ Hn)|exact Hd].
    + unfold AnyTo, To. rewrite Hu. simpl. by rewrite as_of.
    + intros Hg. destruct (Delete_run aws as_APIError (pool_stack ap).1 (pool_stack ap).2 w1) as (w2 & Hx & Hs2).
      exists w2. split; [|by rewrite Hs2, Hs, Hw0, delete_insert_eq].
      unfold AwsPool_Delete. rewrite (M_bind_Ok _ _ _ _ _ Hg). unfold To. rewrite as_of.
      rewrite (bind_lift_Ok _ _ ap') by done.
      change (GetRegion (GetSpec (Some ap'))) with (GetRegion (GetSpec (Some ap1))). rewrite Hr.
      by rewrite (M_bind_Ok _ _ _ _ _ (config_law _ w1)).
Qed.

Context (of_Instance : Instance → Msg).

(** The instance [List] answers for a pool is the one [Get] answers under
    its id, for pool ids without a slash; an id without a slash panics when the
    pool exists, another instance number is not found. *)
Theorem aws_instances_list_get id ap w w' :
  storage_Get id w = (Ok (Some ap), w') → ObjectId ap = id → storage_Get id w' = (Ok (Some ap), w') →
  str_forall (λ c, bool_decide (c ≠ "/"%char)) id = true →
  ∃ it, AwsInstances_List storage_Get of_Instance id w = (Ok [it], w') ∧
    UnmarshalNew it = Ok (of_Instance (instance_of (id +:+ "/0"))) ∧
    AwsInstances_Get storage_Get of_Instance (id +:+ "/0") w' = (Ok (Some it), w') ∧
    AwsInstances_Get storage_Get of_Instance id w' = (Panic "index out of range", w') ∧
    (∀ i, i ≠ "0" → str_forall (λ c, bool_decide (c ≠ "/"%char)) i = true →
       AwsInstances_Get storage_Get of_Instance (id +:+ "/" +:+ i) w' = (Err (ErrStatus NotFound ""), w')).
Proof using PL any_ok.
  intros Hg Hid Hg' Hs. destruct (any_total (of_Instance (instance_of (id +:+ "/0")))) as (it & Hn & Hu).
  exists it. split_and!; [|done| | |].
  - unfold AwsInstances_List. rewrite (M_bind_Ok _ _ _ _ _ Hg), Hid.
    exact (bind_lift_Ok _ (λ item, mret [item]) _ _ Hn).
  - unfold AwsInstances_Get. rewrite (split_char_app "/" id "0" Hs).
    change (default "" (head (id :: split_char "/" "0"))) with id.
    rewrite (M_bind_Ok _ _ _ _ _ Hg'). exact (bind_lift_Ok _ (λ item, mret (Some item)) _ _ Hn).
  - unfold AwsInstances_Get. rewrite (split_char_none "/" id Hs).
    change (first_id [id]) with id. by rewrite (M_bind_Ok _ _ _ _ _ Hg').
  - intros i Hi Hsi. unfold AwsInstances_Get.
    change (id +:+ "/" +:+ i) with (id +:+ String "/" i).
    rewrite (split_char_app "/" id i Hs), (split_char_none "/" i Hsi).
    change (first_id [id; i]) with id. rewrite (M_bind_Ok _ _ _ _ _ Hg'). cbn [lookup list_lookup].
    by rewrite bool_decide_eq_true_2.
Qed.
End agentpool.
End properties.

(** ** The hypotheses can hold *)
Module AMem.
Import ubuntu2404instance.
#[global] Instance Stack_eq_dec : EqDecision Stack.
Proof. solve_decision. Defined.

(** A CloudFormation that provisions at once; every stack has the same outputs. *)
Definition provision (t : string) (p : list (string * string)) : Stack :=
  {| st_Template := t; st_Parameters := p;
     st_Outputs := [(Some "Instance", Some "i-1"); (Some "VPNConnection", Some "vpn-1")] |}.
Definition api_error (c m : string) : error := Errorf "api error" [c; m] [].
Definition as_APIError (e : error) : option (string * string) :=
  match e with Errorf _ [c; m] _ => Some (c, m) | _ => None end.

#[local] Notation W := (gmap (string * string) Stack).
Definition put (c n t : string) (p : list (string * string)) : M W () :=
  λ w, (Ok (), <[(c, n) := provision t p]> w).
Definition aws : AWS W string := {|
  LoadDefaultConfig region := mret region;
  DescribeStacks c n := λ w, (match w !! (c, n) with
                              | Some s => Ok [s]
                              | None => Err (api_error "ValidationError" n)
                              end, w);
  CreateStack := put; StackCreateComplete_Wait _ _ := mret ();
  UpdateStack c n t p := λ w,
    match w !! (c, n) with
    | Some s => if bool_decide ((t, p) = (st_Template s, st_Parameters s))
                then (Err (api_error "ValidationError" "No updates are to be performed."), w)
                else put c n t p w
    | None => (Err (api_error "ValidationError" n), w)
    end;
  StackUpdateComplete_Wait _ _ := mret ();
  DeleteStack c n := λ w, (Ok (), delete (c, n) w); StackDeleteComplete_Wait _ _ := mret ();
  DescribeVpnConnections _ _ := mret [{| vc_VgwTelemetry := [Some "192.0.2.1"; Some "192.0.2.2"] |}];
  RebootInstances _ _ := mret ();
|}.
#[global] Instance laws : CloudFormationLaws aws as_APIError.
Proof.
  refine {| stacks w := w; config_of region := region |}; simpl.
  - done.
  - by intros c n s w ->.
  - intros c n w ->. eexists. split; [done|]. by apply bool_decide_eq_true_2.
  - intros c n t p w _. by do 3 eexists.
  - intros c n s w ->. rewrite bool_decide_eq_true_2 by done. eexists. split; [done|].
    by apply bool_decide_eq_true_2.
  - intros c n t p s w -> Hne. rewrite bool_decide_eq_false_2 by done. by do 3 eexists.
  - intros c n w. by do 2 eexists.
Defined.

#[global] Instance Spec_eq_dec : EqDecision AgentPoolSpec.
Proof. solve_decision. Defined.
#[global] Instance Spec_countable : Countable AgentPoolSpec.
Proof.
  refine (inj_countable' (λ x, (Region x, Subnet x, SecurityGroup x, Kubeadm x))
    (λ '(a, b, c, d), {| Region := a; Subnet := b; SecurityGroup := c; Kubeadm := d |}) _).
  by intros [].
Defined.
#[global] Instance Status_eq_dec : EqDecision AgentPoolStatus.
Proof. solve_decision. Defined.
#[global] Instance Status_countable : Countable AgentPoolStatus.
Proof. refine (inj_countable' Instance_ Build_AgentPoolStatus _). by intros []. Defined.
#[global] Instance AgentPool_eq_dec : EqDecision AgentPool.
Proof. solve_decision. Defined.
#[global] Instance AgentPool_countable : Countable AgentPool.
Proof.
  refine (inj_countable' (λ x, (Metadata x, Spec x, Status x))
    (λ '(a, b, c), {| Metadata := a; Spec := b; Status := c |}) _).
  by intros [].
Defined.
#[global] Instance Instance_eq_dec : EqDecision Instance.
Proof. solve_decision. Defined.
#[global] Instance Instance_countable : Countable Instance.
Proof. refine (inj_countable' i_Metadata Build_Instance _). by intros []. Defined.

Definition Msg : Type := AgentPool + Instance.
#[global] Instance runtime : ProtoRuntime Msg := Helper.Mem.countable_runtime (AgentPool + Instance) "AgentPool".
#[global] Instance runtime_laws : ProtoLaws Msg := Helper.Mem.countable_laws (AgentPool + Instance) "AgentPool".
#[global] Instance object : Object Msg := {|
  is_Object _ := true;
  ObjectId m := api.GetId (match m with inl p => Metadata p | inr i => i_Metadata i end);
  Helper.Redact m := Ok m;
|}.
Definition as_pool (m : Msg) : option AgentPool := match m with inl p => Some p | inr _ => None end.

Definition cfg : kubeadm.Config :=
  {| kubeadm.Server := Some "https://flex"; kubeadm.CertificateAuthorityData := Some "ca";
     kubeadm.Token := Some "abcdef.0123456789abcdef"; kubeadm.NodeLabels := None;
     kubeadm.NodeIp := None; kubeadm.RegisterWithTaints := None; kubeadm.MaxPodsPerNode := None |}.
Definition pool : AgentPool :=
  {| Metadata := Some (api.NewMetadata "AgentPool" "pool1");
     Spec := Some {| Region := Some "us-east-1"; Subnet := Some "subnet-1"; SecurityGroup := Some "sg-1";
                     Kubeadm := Some cfg |};
     Status := None |}.
Definition pool_item (p : AgentPool) : Any :=
  {| TypeUrl := "AgentPool"; Value := Helper.Mem.bytes_of (inl p : AgentPool + Instance) |}.
Lemma aws_item_ok p : AnyTo (PR := runtime) as_pool (Some (pool_item p)) = Ok p.
Proof.
  unfold AnyTo, pool_item. cbn [UnmarshalNew runtime Helper.Mem.countable_runtime Value].
  by rewrite Helper.Mem.of_bytes_of.
Qed.
Definition item : Any := pool_item pool.
Definition os : OS W := {|
  os_ReadFile p := if decide (p = "/root/.ssh/id_rsa.pub") then mret "ssh-rsa" else fail (ErrExt "open");
  os_WriteFile _ _ := mret (); os_MkdirAll _ := mret (); IsNotExist _ := true |}.
Definition range (m : gmap string string) : list (string * string) := map_to_list m.
End AMem.

Lemma aws_pool_create_delete_witness :
  ∃ it s w1, AwsPool_CreateOrUpdate AMem.aws AMem.as_APIError "{}" inl AMem.as_pool AMem.os (λ _, "/root")
      AMem.range (λ _, Ok "kubeconfig") (λ _, Ok "join") (λ _, Ok "yaml") (λ s, Ok s)
      (Some AMem.item) ∅ = (Ok (Some it), w1) ∧
    w1 !! ("us-east-1", "agentpool-pool1") = Some s ∧
    ("PublicKeyMaterial", "ssh-rsa") ∈ st_Parameters s.
Proof.
  destruct (aws_pool_create_delete (Msg := AMem.Msg) (PR := AMem.runtime) (CL := AMem.laws) AMem.aws AMem.as_APIError (λ _, mret None) "{}" (λ _, I) inl AMem.as_pool
    (λ _, eq_refl) AMem.os (λ _, "/root") AMem.range (λ _, Ok "kubeconfig") (λ _, Ok "join")
    (λ _, Ok "yaml") (λ s, Ok s) AMem.item AMem.pool "pool1" "ssh-rsa" ("#cloud-config" +:+ String "010" "yaml") ∅ ∅)
    as [_ H].
  - exact (AMem.aws_item_ok AMem.pool).
  - vm_compute. reflexivity.
  - reflexivity.
  - edestruct (H AMem.cfg) as (it & s & w1 & Hc & _ & Hs & Hp & _); [reflexivity|reflexivity|reflexivity|].
    exists it, s, w1. split; [exact Hc|]. split; [|rewrite Hp; by left].
    change (stacks w1) with w1 in Hs. rewrite Hs. apply lookup_insert_eq.
Defined.

Lemma aws_instances_list_get_witness :
  ∃ it, AwsInstances_List (λ _, mret (Some (inl AMem.pool : AMem.Msg))) inr "pool1" tt = (Ok [it], tt) ∧
    AwsInstances_Get (λ _, mret (Some (inl AMem.pool : AMem.Msg))) inr "pool1/0" tt = (Ok (Some it), tt).
Proof.
  destruct (aws_instances_list_get (W := ()) (Msg := AMem.Msg) (PR := AMem.runtime) (λ _, mret (Some (inl AMem.pool : AMem.Msg))) (λ _, I) inr "pool1"
    (inl AMem.pool) tt tt) as (it & Hl & _ & Hg & _); [reflexivity..|].
  by exists it.
Defined.

Module PMem.
Import ipsecvpn.
#[global] Instance ipsec_eq_dec : EqDecision ipsec.Config.
Proof. solve_decision. Defined.
#[global] Instance ipsec_countable : Countable ipsec.Config.
Proof.
  refine (inj_countable' (λ x, (ipsec.RemoteIp x, ipsec.PreSharedKey x)) (λ '(a, b), ipsec.Build_Config a b) _).
  by intros [].
Defined.
#[global] Instance Spec_eq_dec : EqDecision PeeringSpec.
Proof. solve_decision. Defined.
#[global] Instance Spec_countable : Countable PeeringSpec.
Proof.
  refine (inj_countable' (λ x, (Region x, Vpc x, RouteTable x, Ipsec x))
    (λ '(a, b, c, d), Build_PeeringSpec a b c d) _).
  by intros [].
Defined.
#[global] Instance Status_eq_dec : EqDecision PeeringStatus.
Proof. solve_decision. Defined.
#[global] Instance Status_countable : Countable PeeringStatus.
Proof.
  refine (inj_countable' (λ x, (VpnConnection_ x, OutsideIpAddresses x)) (λ '(a, b), Build_PeeringStatus a b) _).
  by intros [].
Defined.
#[global] Instance Peering_eq_dec : EqDecision Peering.
Proof. solve_decision. Defined.
#[global] Instance Peering_countable : Countable Peering.
Proof.
  refine (inj_countable' (λ x, (Metadata x, Spec x, Status x)) (λ '(a, b, c), Build_Peering a b c) _).
  by intros [].
Defined.
#[global] Instance runtime : ProtoRuntime Peering := Helper.Mem.countable_runtime Peering "Peering".
#[global] Instance runtime_laws : ProtoLaws Peering := Helper.Mem.countable_laws Peering "Peering".

Definition peer : Peering :=
  {| Metadata := Some (api.NewMetadata "Peering" "peer1");
     Spec := Some {| Region := Some "us-east-1"; Vpc := Some "vpc-1"; RouteTable := Some "rtb-1";
                     Ipsec := Some {| ipsec.RemoteIp := Some "198.51.100.7"; ipsec.PreSharedKey := Some "psk" |} |};
     Status := None |}.
Definition item : Any := {| TypeUrl := "Peering"; Value := Helper.Mem.bytes_of peer |}.
Lemma peering_item_ok : AnyTo Some (Some item) = Ok peer.
Proof.
  unfold AnyTo, item. cbn [UnmarshalNew runtime Helper.Mem.countable_runtime Value].
  by rewrite Helper.Mem.of_bytes_of.
Qed.
End PMem.

Lemma aws_peering_outcome_witness :
  ∃ it vpn w1, AwsPeering_CreateOrUpdate AMem.aws AMem.as_APIError "{}" (λ p, p) Some (Some PMem.item) ∅ = (Ok (Some it), w1) ∧
    UnmarshalNew it = Ok (ipsecvpn.SetStatus (Some {| ipsecvpn.VpnConnection_ := Some vpn;
      ipsecvpn.OutsideIpAddresses := ["192.0.2.1"; "192.0.2.2"] |}) PMem.peer).
Proof.
  destruct (aws_peering_outcome (Msg := ipsecvpn.Peering) (PR := PMem.runtime) (CL := AMem.laws) AMem.aws AMem.as_APIError "{}" (λ _, I)
    (λ p, p) Some PMem.item PMem.peer ∅ PMem.peering_item_ok) as (s & w1 & _ & Hp & H & _).
  edestruct (H "192.0.2.1" "192.0.2.2" [] [] w1) as (it & Hc & Hu); [reflexivity|].
  exists it, (default "" (outputs_of s !! "VPNConnection")), w1. by split.
Defined.

Lemma aws_deploy_put_witness :
  ∃ s w', Deploy AMem.aws AMem.as_APIError "us-east-1" "network-n" "{}" [("CidrBlock", "10.0.0.0/16")] ∅ =
    (Ok (outputs_of s), w') ∧ w' !! ("us-east-1", "network-n") = Some s.
Proof.
  destruct (aws_deploy_put AMem.aws AMem.as_APIError (CL := AMem.laws) "us-east-1" "network-n" "{}"
    [("CidrBlock", "10.0.0.0/16")] ∅) as (s & w' & Hd & Hs & _).
  exists s, w'. split; [exact Hd|]. change (stacks w') with w' in Hs. rewrite Hs. apply lookup_insert_eq.
Defined.
