(* ===== verification/Azure.v ===== *)
(** * The Azure back end

    [plugin/pkg/util/az]: template deployments and the gateway's public address;
    [agentpools/azure/ubuntu2404vmss]: an agent pool is one virtual machine
    scale set under the resource ID of its specification.  The Resource Manager
    API is an interface with laws; resource IDs are parsed by the SDK. *)
From S2P Require Import Prelude GoStr Karp Helper Proto UserData Encoding Config K8s Aws.
From stdpp Require Import options.

(** ** [util/az] *)

(** The value of a deployment parameter. *)
Inductive ParamValue := PString (s : string) | PInt (n : Z) | PBool (b : bool).

(** What a deployment sends; the mode is incremental. *)
Record Deployment := {
  dep_Template : string;
  dep_Parameters : gmap string ParamValue;
  dep_Mode : string;
}.

(** The Resource Manager clients of a subscription. *)
Record ARM (W : Type) := {
  arm_NewClient : string → res ();
  ResourceGroups_CreateOrUpdate : string → string → string → M W ();
  Deployments_BeginCreateOrUpdate : string → string → string → Deployment → M W ();
  Deployments_PollUntilDone : string → string → string → M W ();
  PublicIPAddresses_Get : string → string → string → M W (option string);
}.
Arguments arm_NewClient {W}.
Arguments ResourceGroups_CreateOrUpdate {W}.
Arguments Deployments_BeginCreateOrUpdate {W}.
Arguments Deployments_PollUntilDone {W}.
Arguments PublicIPAddresses_Get {W}.

Section util.
Context {W : Type} (arm : ARM W) (json_Unmarshal : string → res string).

Definition az_Deploy (cfg : Config) (deploymentName templateb : string)
    (parameters : gmap string ParamValue) : M W () :=
  template ← lift (json_Unmarshal templateb);
  _ ← lift (arm_NewClient arm (SubscriptionID cfg));
  _ ← lift (arm_NewClient arm (SubscriptionID cfg));
  _ ← ResourceGroups_CreateOrUpdate arm (SubscriptionID cfg) (ResourceGroupName cfg) (Location cfg);
  _ ← Deployments_BeginCreateOrUpdate arm (SubscriptionID cfg) (ResourceGroupName cfg) deploymentName
        {| dep_Template := template; dep_Parameters := parameters; dep_Mode := "Incremental" |};
  Deployments_PollUntilDone arm (SubscriptionID cfg) (ResourceGroupName cfg) deploymentName.

Definition PublicIPAddress (cfg : Config) : M W (option string) :=
  _ ← lift (arm_NewClient arm (SubscriptionID cfg));
  PublicIPAddresses_Get arm (SubscriptionID cfg) (ResourceGroupName cfg) "gw".
End util.

(** ** The messages *)
Module ubuntu2404vmss.
Record AgentPoolSpec := {
  ResourceId : option string; Location : option string; SubnetId : option string; Sku : option string;
  Capacity : option capacity.Config; Kubeadm : option kubeadm.Config; Zones : list string;
}.
Record AgentPoolStatus := {}.
Record AgentPool := {
  Metadata : option api.Metadata; Spec : option AgentPoolSpec; Status : option AgentPoolStatus;
}.
Definition GetResourceId : option AgentPoolSpec → string := getf ResourceId "".
Definition GetLocation : option AgentPoolSpec → string := getf Location "".
Definition GetSubnetId : option AgentPoolSpec → string := getf SubnetId "".
Definition GetSku : option AgentPoolSpec → string := getf Sku "".
Definition GetCapacity : option AgentPoolSpec → option capacity.Config := getm Capacity.
Definition GetKubeadm : option AgentPoolSpec → option kubeadm.Config := getm Kubeadm.
Definition GetZones (s : option AgentPoolSpec) : list string :=
  match s with Some s => Zones s | None => [] end.
Definition GetMetadata : option AgentPool → option api.Metadata := getm Metadata.
Definition GetSpec : option AgentPool → option AgentPoolSpec := getm Spec.
(** A write through the pointer to the kubeadm configuration of the pool. *)
Definition with_Kubeadm (c : option kubeadm.Config) (p : AgentPool) : AgentPool :=
  {| Metadata := Metadata p; Status := Status p;
     Spec := (λ s, {| ResourceId := ResourceId s; Location := Location s; SubnetId := SubnetId s;
                      Sku := Sku s; Capacity := Capacity s; Kubeadm := c; Zones := Zones s |}) <$> Spec p |}.
Definition Redact (p : option AgentPool) : res (option AgentPool) :=
  c ← kubeadm.Redact (GetKubeadm (GetSpec p));
  Ok (with_Kubeadm c <$> p).
Record Instance := { i_Metadata : option api.Metadata }.
End ubuntu2404vmss.

(** ** Virtual machine scale sets *)
Record ResourceID := {
  rid_SubscriptionID : string; rid_ResourceGroupName : string; rid_Name : string;
}.
#[global] Instance ResourceID_eq_dec : EqDecision ResourceID.
Proof. solve_decision. Defined.
#[global] Instance ResourceID_countable : Countable ResourceID.
Proof.
  refine (inj_countable' (λ r, (rid_SubscriptionID r, rid_ResourceGroupName r, rid_Name r))
    (λ '(a, b, c), Build_ResourceID a b c) _).
  by intros [].
Defined.

(** The specification the server sends. *)
Record VirtualMachineScaleSet := {
  vm_Location : string;
  vm_UpgradeMode : string;
  vm_NicName : string; vm_NicPrimary : bool; vm_IPConfigName : string; vm_SubnetID : string;
  vm_AdminUsername : string; vm_ComputerNamePrefix : string;
  vm_DisablePasswordAuthentication : bool;
  vm_PublicKeys : list (string * string);  (* paths and keys *)
  vm_ImageOffer : string; vm_ImagePublisher : string; vm_ImageSKU : string; vm_ImageVersion : string;
  vm_CreateOption : string; vm_Caching : string; vm_StorageAccountType : string;
  vm_UserData : string;
  vm_Capacity : Z; vm_SKUName : string; vm_SKUTier : string;
  vm_Zones : option (list string);
}.

Record VMSS (W : Type) := {
  vmss_NewClient : string → res ();
  vmss_BeginCreateOrUpdate : ResourceID → VirtualMachineScaleSet → M W ();
  vmss_PollCreateOrUpdate : ResourceID → M W ();
  vmss_BeginDelete : ResourceID → bool → M W ();  (* the boolean is ForceDeletion *)
  vmss_PollDelete : ResourceID → M W ();
  (* the pages of the machines of a scale set: each is fetched when asked for *)
  vmss_ListPages : ResourceID → W → list (M W (list (option string)));
  vmss_BeginRestart : ResourceID → list string → M W ();
  vmss_PollRestart : ResourceID → M W ();
}.
Arguments vmss_NewClient {W}.
Arguments vmss_BeginCreateOrUpdate {W}.
Arguments vmss_PollCreateOrUpdate {W}.
Arguments vmss_BeginDelete {W}.
Arguments vmss_PollDelete {W}.
Arguments vmss_ListPages {W}.
Arguments vmss_BeginRestart {W}.
Arguments vmss_PollRestart {W}.

(** ** The servers *)
Section servers.
Import ubuntu2404vmss.
Context {W Msg : Type} `{PR : ProtoRuntime Msg}.
Context (vmss : VMSS W) (ParseResourceID : string → res ResourceID).
Context (storage_Get : string → M W (option Msg)).
Context (of_AgentPool : AgentPool → Msg) (as_AgentPool : Msg → option AgentPool).
Context (os : OS W) (Getenv : string → string).
Context (marshal_step : flex.Step → res string) (json_Marshal : list string → res string)
        (bootstrapTemplate : string → string → res string)
        (yaml_Marshal : UserData → res string) (gzip : string → res string).

Definition azure_node_config (spec : option AgentPoolSpec) : res (option kubeadm.Config) :=
  kubeadm.AddNodeLabels
    {[ NodeLabelKeyCloud := "azure"; NodeLabelKeyRegion := ToLower (GetLocation spec);
       NodeLabelKeyInstanceType := ToLower (GetSku spec) ]}
    (GetKubeadm spec).

Definition flex_userdata_gzip (cfg : option kubeadm.Config) : res string :=
  ud ← flex.UserData marshal_step json_Marshal bootstrapTemplate [flex.WithKubeadmConfig cfg];
  cloudinit_Gzip yaml_Marshal gzip ud.

Definition vmssSpec (rid : ResourceID) (spec : option AgentPoolSpec) (sshKey userDataContent : string)
    : VirtualMachineScaleSet := {|
  vm_Location := GetLocation spec; vm_UpgradeMode := "Manual";
  vm_NicName := "nic"; vm_NicPrimary := true; vm_IPConfigName := "ipconfig";
  vm_SubnetID := GetSubnetId spec;
  vm_AdminUsername := "ubuntu"; vm_ComputerNamePrefix := rid_Name rid;
  vm_DisablePasswordAuthentication := true;
  vm_PublicKeys := [("/home/ubuntu/.ssh/authorized_keys", sshKey)];
  vm_ImageOffer := "ubuntu-24_04-lts"; vm_ImagePublisher := "Canonical"; vm_ImageSKU := "server";
  vm_ImageVersion := "latest";
  vm_CreateOption := "FromImage"; vm_Caching := "ReadWrite"; vm_StorageAccountType := "Premium_LRS";
  vm_UserData := base64_EncodeToString userDataContent;
  vm_Capacity := capacity.GetCapacity (GetCapacity spec); vm_SKUName := GetSku spec; vm_SKUTier := "Standard";
  vm_Zones := match GetZones spec with [] => None | zones => Some zones end;
|}.

Definition Azure_CreateOrUpdate (item : option Any) : M W (option Any) :=
  ap ← lift (AnyTo as_AgentPool item);
  rid ← lift (ParseResourceID (GetResourceId (GetSpec (Some ap))));
  _ ← lift (vmss_NewClient vmss (rid_SubscriptionID rid));
  sshKey ← PublicKey os Getenv;
  kubeadmConfig ← lift (azure_node_config (GetSpec (Some ap)));
  (* the configuration is the request's own: the change is visible in [ap] *)
  let ap := with_Kubeadm kubeadmConfig ap in
  userDataContent ← lift (flex_userdata_gzip kubeadmConfig);
  _ ← vmss_BeginCreateOrUpdate vmss rid (vmssSpec rid (GetSpec (Some ap)) sshKey userDataContent);
  _ ← vmss_PollCreateOrUpdate vmss rid;
  item ← lift (any_New (of_AgentPool ap));
  mret (Some item).

Definition Azure_Delete (id : string) : M W () :=
  obj ← storage_Get id;
  match obj with
  | None => mret ()
  | Some obj =>
      ap ← lift (To as_AgentPool obj);
      rid ← lift (ParseResourceID (GetResourceId (GetSpec (Some ap))));
      _ ← lift (vmss_NewClient vmss (rid_SubscriptionID rid));
      _ ← vmss_BeginDelete vmss rid true;
      vmss_PollDelete vmss rid
  end.

(** [instances.go] *)
Context (of_Instance : Instance → Msg).

Definition vm_instance (id : string) : Instance :=
  {| i_Metadata := Some {| api.Type_ := None; api.Id := Some id |} |}.

Definition instance_item (poolId : string) (instanceID : option string) : M W Any :=
  match instanceID with
  | None => panic "nil pointer dereference"
  | Some i => lift (any_New (of_Instance (vm_instance (poolId +:+ "/" +:+ i))))
  end.

(** The pager loop: a page that fails ends it, and the items are dropped. *)
Fixpoint list_pages (poolId : string) (pages : list (M W (list (option string)))) : M W (list Any) :=
  match pages with
  | [] => mret []
  | page :: pages =>
      vms ← page;
      items ← traverse (instance_item poolId) vms;
      rest ← list_pages poolId pages;
      mret (items ++ rest)
  end.

Definition AzureInstances_List (id : string) : M W (list Any) :=
  obj ← storage_Get id;
  match obj with
  | None => fail (ErrStatus NotFound "")
  | Some obj =>
      ap ← lift (To as_AgentPool obj);
      rid ← lift (ParseResourceID (GetResourceId (GetSpec (Some ap))));
      _ ← lift (vmss_NewClient vmss (rid_SubscriptionID rid));
      w ← get_world;
      list_pages (api.GetId (GetMetadata (Some ap))) (vmss_ListPages vmss rid w)
  end.

Definition AzureInstances_Get (id : string) : M W (option Any) :=
  ap ← storage_Get (first_id (split_char "/" id));
  match ap with
  | None => fail (ErrStatus NotFound "")
  | Some _ => item ← lift (any_New (of_Instance (vm_instance id))); mret (Some item)
  end.

Definition AzureInstances_Restart (id : string) : M W () :=
  let ids := split_char "/" id in
  obj ← storage_Get (first_id ids);
  match obj with
  | None => fail (ErrStatus NotFound "")
  | Some obj =>
      ap ← lift (To as_AgentPool obj);
      rid ← lift (ParseResourceID (GetResourceId (GetSpec (Some ap))));
      _ ← lift (vmss_NewClient vmss (rid_SubscriptionID rid));
      match ids !! 1%nat with
      | None => panic "index out of range"
      | Some i => _ ← vmss_BeginRestart vmss rid [i]; vmss_PollRestart vmss rid
      end
  end.
End servers.

(** ** Laws and properties *)
Class VMSSLaws {W} (vmss : VMSS W) := {
  scale_sets : W → gmap ResourceID VirtualMachineScaleSet;
  client_law sub : vmss_NewClient vmss sub = Ok ();
  put_law rid spec w :
    ∃ w1 w2, vmss_BeginCreateOrUpdate vmss rid spec w = (Ok (), w1) ∧
      vmss_PollCreateOrUpdate vmss rid w1 = (Ok (), w2) ∧ scale_sets w2 = <[rid := spec]> (scale_sets w);
  remove_law rid force w :
    ∃ w1 w2, vmss_BeginDelete vmss rid force w = (Ok (), w1) ∧ vmss_PollDelete vmss rid w1 = (Ok (), w2) ∧
      scale_sets w2 = delete rid (scale_sets w);
}.

(** The pages of a pager that answer, with their machines. *)
Fixpoint pages_answer {W} (pages : list (M W (list (option string)))) (w : W) (ids : list string) (w' : W) : Prop :=
  match pages with
  | [] => ids = [] ∧ w' = w
  | page :: pages => ∃ l r w1, page w = (Ok (Some <$> l), w1) ∧ ids = l ++ r ∧ pages_answer pages w1 r w'
  end.

Section properties.
Import ubuntu2404vmss.
Context {W Msg : Type} `{PR : ProtoRuntime Msg} {PL : ProtoLaws Msg}.
Context (vmss : VMSS W) (ParseResourceID : string → res ResourceID) {VL : VMSSLaws vmss}.
Context (storage_Get : string → M W (option Msg)).
Context (of_AgentPool : AgentPool → Msg) (as_AgentPool : Msg → option AgentPool).
Context (as_of : ∀ p, as_AgentPool (of_AgentPool p) = Some p).
Context (any_ok : ∀ m : Msg, is_Ok (any_New m)).
#[local] Set Default Proof Using "Type*".

Lemma marshalled m : ∃ it, any_New m = Ok it ∧ UnmarshalNew it = Ok m.
Proof using PL any_ok.
  pose proof (any_ok m) as H'. destruct (any_New m) as [it| |] eqn:E; [|done..].
  exists it. split; [done|]. by apply any_round.
Qed.

Section pool.
Context (os : OS W) (Getenv : string → string).
Context (marshal_step : flex.Step → res string) (json_Marshal : list string → res string)
        (bootstrapTemplate : string → string → res string)
        (yaml_Marshal : UserData → res string) (gzip : string → res string).
Notation Create := (Azure_CreateOrUpdate vmss ParseResourceID of_AgentPool as_AgentPool os Getenv
  marshal_step json_Marshal bootstrapTemplate yaml_Marshal gzip).
Notation Delete := (Azure_Delete vmss ParseResourceID storage_Get as_AgentPool).

(** A valid pool is put as the scale set of its resource ID, with its
    subnet, size, count and zones, the key of the user, and user data for a node
    with the labels of the cloud; every other scale set stays.  Deleting the
    pool removes that scale set.  A resource ID that does not parse is refused
    before anything is read or called. *)
Theorem azure_pool_create_delete it ap id rid key cfg cfg' ud (w w0 : W) :
  AnyTo as_AgentPool (Some it) = Ok ap →
  (∀ e, ParseResourceID (GetResourceId (GetSpec (Some ap))) = Err e → Create (Some it) w = (Err e, w)) ∧
  (ParseResourceID (GetResourceId (GetSpec (Some ap))) = Ok rid →
   PublicKey os Getenv w = (Ok key, w0) → scale_sets w0 = scale_sets w →
   GetKubeadm (GetSpec (Some ap)) = Some cfg → azure_node_config (GetSpec (Some ap)) = Ok (Some cfg') →
   flex_userdata_gzip marshal_step json_Marshal bootstrapTemplate yaml_Marshal gzip (Some cfg') = Ok ud →
   ∃ it' w1, let ap' := with_Kubeadm (Some cfg') ap in
     Create (Some it) w = (Ok (Some it'), w1) ∧ AnyTo as_AgentPool (Some it') = Ok ap' ∧
     scale_sets w1 = <[rid := vmssSpec rid (GetSpec (Some ap)) key ud]> (scale_sets w) ∧
     kubeadm.NodeLabels cfg' = Some
       ({[ NodeLabelKeyCloud := "azure"; NodeLabelKeyRegion := ToLower (GetLocation (GetSpec (Some ap)));
           NodeLabelKeyInstanceType := ToLower (GetSku (GetSpec (Some ap))) ]} ∪
        default ∅ (kubeadm.NodeLabels cfg)) ∧
     (storage_Get id w1 = (Ok (Some (of_AgentPool ap')), w1) →
      ∃ w2, Delete id w1 = (Ok (), w2) ∧ scale_sets w2 = delete rid (scale_sets w))).
Proof.
  intros Hit. split.
  - intros e He. unfold Azure_CreateOrUpdate. rewrite (bind_lift_Ok _ _ _ _ Hit). by apply bind_lift_Err.
  - intros Hrid Hkey Hw0 Hk Hcfg Hud. set (ap' := with_Kubeadm (Some cfg') ap).
    assert (GetResourceId (GetSpec (Some ap')) = GetResourceId (GetSpec (Some ap)) ∧
      vmssSpec rid (GetSpec (Some ap')) key ud = vmssSpec rid (GetSpec (Some ap)) key ud) as [Hr Hv]
      by (unfold ap'; destruct ap as [md [[]|] st]; done).
    destruct (put_law rid (vmssSpec rid (GetSpec (Some ap)) key ud) w0) as (w1 & w2 & Hb & Hp & Hs).
    destruct (marshalled (of_AgentPool ap')) as (it' & Hn & Hu). exists it', w2. cbv zeta. split_and!.
    + unfold Azure_CreateOrUpdate. rewrite (bind_lift_Ok _ _ _ _ Hit), (bind_lift_Ok _ _ _ _ Hrid).
      rewrite (bind_lift_Ok _ _ _ _ (client_law _)), (M_bind_Ok _ _ _ _ _ Hkey), (bind_lift_Ok _ _ _ _ Hcfg).
      cbv zeta. fold ap'. rewrite (bind_lift_Ok _ _ _ _ Hud), Hv.
      rewrite (M_bind_Ok _ _ _ _ _ Hb), (M_bind_Ok _ _ _ _ _ Hp).
      exact (bind_lift_Ok _ (λ item, mret (Some item)) _ _ Hn).
    + unfold AnyTo, To. rewrite Hu. simpl. by rewrite as_of.
    + by rewrite Hs, Hw0.
    + unfold azure_node_config in Hcfg. rewrite Hk in Hcfg.
      match type of Hcfg with kubeadm.AddNodeLabels ?e _ = _ =>
        destruct (kubeadm.AddNodeLabels_spec e cfg) as (c1 & Hc & Hl & _) end. congruence.
    + intros Hg. destruct (remove_law rid true w2) as (w3 & w4 & Hd & Hpd & Hs4). exists w4.
      split; [|by rewrite Hs4, Hs, Hw0, delete_insert_eq].
      unfold Azure_Delete. rewrite (M_bind_Ok _ _ _ _ _ Hg). unfold To. rewrite as_of.
      rewrite (bind_lift_Ok _ _ ap') by done. rewrite Hr, (bind_lift_Ok _ _ _ _ Hrid).
      by rewrite (bind_lift_Ok _ _ _ _ (client_law _)), (M_bind_Ok _ _ _ _ _ Hd).
Qed.
End pool.

(** *** Instances *)
Context (of_Instance : Instance → Msg).

Lemma instance_items poolId l (w : W) :
  ∃ items, traverse (instance_item of_Instance poolId) (Some <$> l) w = (Ok items, w) ∧
    Forall2 (λ it i, any_New (of_Instance (vm_instance (poolId +:+ "/" +:+ i))) = Ok it) items l.
Proof using PL any_ok.
  induction l as [|i l IH]; [by exists []|]. destruct IH as (items & Hi & Hf).
  destruct (marshalled (of_Instance (vm_instance (poolId +:+ "/" +:+ i)))) as (it & Hn & Hu).
  exists (it :: items). split; [|by constructor]. cbn [fmap list_fmap traverse].
  cbn [instance_item]. rewrite (bind_lift_Ok _ _ _ _ Hn). by rewrite (M_bind_Ok _ _ _ _ _ Hi).
Qed.

Lemma list_pages_answer poolId pages (w w' : W) ids :
  pages_answer pages w ids w' →
  ∃ items, list_pages of_Instance poolId pages w = (Ok items, w') ∧
    Forall2 (λ it i, any_New (of_Instance (vm_instance (poolId +:+ "/" +:+ i))) = Ok it) items ids.
Proof using PL any_ok.
  revert w ids. induction pages as [|page pages IH]; intros w ids; simpl.
  - intros [-> ->]. by exists [].
  - intros (l & r & w1 & Hp & -> & Hr). destruct (IH _ _ Hr) as (rest & Hrest & Hf).
    destruct (instance_items poolId l w1) as (items & Hi & Hfi). exists (items ++ rest).
    split; [|by apply Forall2_app].
    by rewrite (M_bind_Ok _ _ _ _ _ Hp), (M_bind_Ok _ _ _ _ _ Hi), (M_bind_Ok _ _ _ _ _ Hrest).
Qed.

(** A listing answers one instance per machine of every page, in order; for
    a pool id without a slash, [Get] answers each under its id, and [Restart]
    restarts exactly the machine of the id, when neither holds a slash.  An id
    without a slash makes [Restart] panic. *)
Theorem azure_instances_pages id m ap rid ids (w w1 w' : W) :
  storage_Get id w = (Ok (Some m), w1) → as_AgentPool m = Some ap →
  api.GetId (GetMetadata (Some ap)) = id →
  ParseResourceID (GetResourceId (GetSpec (Some ap))) = Ok rid →
  str_forall (λ c, bool_decide (c ≠ "/"%char)) id = true →
  pages_answer (vmss_ListPages vmss rid w1) w1 ids w' →
  storage_Get id w' = (Ok (Some m), w') →
  let Restart := AzureInstances_Restart vmss ParseResourceID storage_Get as_AgentPool in
  ∃ items, AzureInstances_List vmss ParseResourceID storage_Get as_AgentPool of_Instance id w = (Ok items, w') ∧
    Forall2 (λ it i, UnmarshalNew it = Ok (of_Instance (vm_instance (id +:+ "/" +:+ i))) ∧
      AzureInstances_Get storage_Get of_Instance (id +:+ "/" +:+ i) w' = (Ok (Some it), w')) items ids ∧
    (∀ i, str_forall (λ c, bool_decide (c ≠ "/"%char)) i = true →
       Restart (id +:+ "/" +:+ i) w' =
       (vmss_BeginRestart vmss rid [i] ≫= λ _, vmss_PollRestart vmss rid) w') ∧
    Restart id w' = (Panic "index out of range", w').
Proof using PL VL any_ok.
  intros Hg Ha Hid Hrid Hs Hpages Hg' Restart.
  destruct (list_pages_answer id _ _ _ _ Hpages) as (items & Hl & Hf). exists items. split_and!.
  - unfold AzureInstances_List. rewrite (M_bind_Ok _ _ _ _ _ Hg). unfold To. rewrite Ha.
    rewrite (bind_lift_Ok _ _ ap), (bind_lift_Ok _ _ _ _ Hrid), (bind_lift_Ok _ _ _ _ (client_law _)) by done.
    rewrite (M_bind_Ok _ _ w1 w1 w1) by done. by rewrite Hid.
  - eapply Forall2_impl; [exact Hf|]. intros it i Hn. split; [by apply any_round|].
    change (id +:+ "/" +:+ i) with (id +:+ String "/" i) in *.
    unfold AzureInstances_Get. rewrite (split_char_app "/" id i Hs).
    change (first_id (id :: _)) with id. rewrite (M_bind_Ok _ _ _ _ _ Hg').
    exact (bind_lift_Ok _ (λ item, mret (Some item)) _ _ Hn).
  - intros i Hi. change (id +:+ "/" +:+ i) with (id +:+ String "/" i).
    unfold Restart, AzureInstances_Restart.
    rewrite (split_char_app "/" id i Hs), (split_char_none "/" i Hi).
    change (first_id [id; i]) with id. rewrite (M_bind_Ok _ _ _ _ _ Hg'). unfold To. rewrite Ha.
    rewrite (bind_lift_Ok _ _ ap) by done. by rewrite (bind_lift_Ok _ _ _ _ Hrid), (bind_lift_Ok _ _ _ _ (client_law _)).
  - unfold Restart, AzureInstances_Restart. rewrite (split_char_none "/" id Hs).
    change (first_id [id]) with id. rewrite (M_bind_Ok _ _ _ _ _ Hg'). unfold To. rewrite Ha.
    rewrite (bind_lift_Ok _ _ ap) by done. by rewrite (bind_lift_Ok _ _ _ _ Hrid), (bind_lift_Ok _ _ _ _ (client_law _)).
Qed.
End properties.

(** ** The hypotheses can hold *)
Module ZMem.
Import ubuntu2404vmss.
#[local] Notation W := (gmap ResourceID VirtualMachineScaleSet).
Definition vmss : VMSS W := {|
  vmss_NewClient _ := Ok ();
  vmss_BeginCreateOrUpdate rid spec := λ w, (Ok (), <[rid := spec]> w);
  vmss_PollCreateOrUpdate _ := mret ();
  vmss_BeginDelete rid _ := λ w, (Ok (), delete rid w); vmss_PollDelete _ := mret ();
  vmss_ListPages _ _ := [mret [Some "0"; Some "1"]; mret [Some "2"]];
  vmss_BeginRestart _ _ := mret (); vmss_PollRestart _ := mret ();
|}.
#[global] Instance laws : VMSSLaws vmss.
Proof.
  refine {| scale_sets w := w |}; [done| |].
  - intros rid spec w. by do 2 eexists.
  - intros rid force w. by do 2 eexists.
Defined.

#[global] Instance Spec_eq_dec : EqDecision AgentPoolSpec.
Proof. solve_decision. Defined.
#[global] Instance Spec_countable : Countable AgentPoolSpec.
Proof.
  refine (inj_countable' (λ x, (ResourceId x, Location x, SubnetId x, Sku x, Capacity x, Kubeadm x, Zones x))
    (λ '(a, b, c, d, e, f, g), Build_AgentPoolSpec a b c d e f g) _).
  by intros [].
Defined.
#[global] Instance Status_eq_dec : EqDecision AgentPoolStatus.
Proof. solve_decision. Defined.
#[global] Instance Status_countable : Countable AgentPoolStatus.
Proof. refine (inj_countable' (λ _, ()) (λ _, Build_AgentPoolStatus) _). by intros []. Defined.
#[global] Instance AgentPool_eq_dec : EqDecision AgentPool.
Proof. solve_decision. Defined.
#[global] Instance AgentPool_countable : Countable AgentPool.
Proof.
  refine (inj_countable' (λ x, (Metadata x, Spec x, Status x)) (λ '(a, b, c), Build_AgentPool a b c) _).
  by intros [].
Defined.
#[global] Instance Instance_eq_dec : EqDecision Instance.
Proof. solve_decision. Defined.
#[global] Instance Instance_countable : Countable Instance.
Proof. refine (inj_countable' i_Metadata Build_Instance _). by intros []. Defined.

Definition Msg : Type := AgentPool + Instance.
#[global] Instance runtime : ProtoRuntime Msg := Helper.Mem.countable_runtime (AgentPool + Instance) "AgentPool".
#[global] Instance runtime_laws : ProtoLaws Msg := Helper.Mem.countable_laws (AgentPool + Instance) "AgentPool".
Definition as_pool (m : Msg) : option AgentPool := match m with inl p => Some p | inr _ => None end.

Definition rid : ResourceID := {| rid_SubscriptionID := "sub"; rid_ResourceGroupName := "rg"; rid_Name := "pool1" |}.
Definition Parse (s : string) : res ResourceID :=
  if decide (s = "/subscriptions/sub/vmss/pool1") then Ok rid else Err (ErrExt "parsing failed").
Definition pool : AgentPool :=
  {| Metadata := Some (api.NewMetadata "AgentPool" "pool1");
     Spec := Some {| ResourceId := Some "/subscriptions/sub/vmss/pool1"; Location := Some "EastUS";
                     SubnetId := Some "subnet"; Sku := Some "Standard_D4s_v3";
                     Capacity := Some {| capacity.Capacity := Some 2; capacity.CapacityType_ := None |};
                     Kubeadm := Some AMem.cfg; Zones := ["1"; "2"] |};
     Status := None |}.
Definition item (p : AgentPool) : Any :=
  {| TypeUrl := "AgentPool"; Value := Helper.Mem.bytes_of (inl p : AgentPool + Instance) |}.
Lemma azure_item_ok p : AnyTo (PR := runtime) as_pool (Some (item p)) = Ok p.
Proof.
  unfold AnyTo, item. cbn [UnmarshalNew runtime Helper.Mem.countable_runtime Value].
  by rewrite Helper.Mem.of_bytes_of.
Qed.
Definition os : OS W := {|
  os_ReadFile _ := mret "ssh-ed25519"; os_WriteFile _ _ := mret (); os_MkdirAll _ := mret (); IsNotExist _ := true |}.
End ZMem.

Lemma azure_pool_create_delete_witness :
  ∃ it w1 spec, Azure_CreateOrUpdate (PR := ZMem.runtime) ZMem.vmss ZMem.Parse inl ZMem.as_pool ZMem.os (λ _, "/root")
      (λ _, Ok "step") (λ _, Ok "json") (λ _ _, Ok "script") (λ _, Ok "yaml") (λ s, Ok s)
      (Some (ZMem.item ZMem.pool)) ∅ = (Ok (Some it), w1) ∧
    w1 !! ZMem.rid = Some spec ∧ vm_Capacity spec = 2 ∧ vm_Zones spec = Some ["1"; "2"].
Proof.
  destruct (azure_pool_create_delete (Msg := ZMem.Msg) (PR := ZMem.runtime) ZMem.vmss ZMem.Parse (λ _, mret None) inl
    ZMem.as_pool (λ _, eq_refl) (λ _, I) ZMem.os (λ _, "/root")
    (λ _, Ok "step") (λ _, Ok "json") (λ _ _, Ok "script") (λ _, Ok "yaml") (λ s, Ok s)
    (ZMem.item ZMem.pool) ZMem.pool "pool1" ZMem.rid "ssh-ed25519" AMem.cfg
    (kubeadm.Build_Config (Some "https://flex") (Some "ca") (Some "abcdef.0123456789abcdef")
      (Some ({[ NodeLabelKeyCloud := "azure"; NodeLabelKeyRegion := ToLower "EastUS";
                NodeLabelKeyInstanceType := ToLower "Standard_D4s_v3" ]} ∪ ∅)) None None None)
    ("#cloud-config" +:+ String "010" "yaml") ∅ ∅ (ZMem.azure_item_ok _)) as [_ H].
  destruct H as (it & w1 & Hc & _ & Hs & _); [reflexivity..|].
  eexists it, w1, _. split; [exact Hc|]. change (scale_sets w1) with w1 in Hs. rewrite Hs.
  split; [apply lookup_insert_eq|]. split; reflexivity.
Defined.

Lemma azure_instances_pages_witness :
  ∃ items, AzureInstances_List (PR := ZMem.runtime) ZMem.vmss ZMem.Parse (λ _, mret (Some (inl ZMem.pool)))
      ZMem.as_pool inr "pool1" ∅ = (Ok items, ∅) ∧ length items = 3%nat.
Proof.
  destruct (azure_instances_pages (Msg := ZMem.Msg) (PR := ZMem.runtime) ZMem.vmss ZMem.Parse
    (λ _, mret (Some (inl ZMem.pool))) ZMem.as_pool (λ _, I) inr "pool1" (inl ZMem.pool) ZMem.pool ZMem.rid
    ["0"; "1"; "2"] ∅ ∅ ∅) as (items & Hl & Hf & _); [reflexivity..| | |].
  - exists ["0"; "1"], ["2"], ∅. split; [reflexivity|]. split; [reflexivity|].
    exists ["2"], [], ∅. split; [reflexivity|]. split; [reflexivity|]. split; reflexivity.
  - reflexivity.
  - exists items. split; [exact Hl|]. exact (Forall2_length _ _ _ Hf).
Defined.
