(* ===== verification/WireGuard.v ===== *)
(** * WireGuard keys and interface configurations

    [plugin/pkg/util/wireguard/wireguard.go]: the generation of key pairs, with
    the clamping of the private key, and of configuration files.  The random
    source and the scalar multiplication of Curve25519 are parameters. *)
From S2P Require Import Prelude GoStr Encoding Script.
From stdpp Require Import options.

(** ** Keys *)
Record KeyPair := { PrivateKey : string; PublicKey : string }.

(** The byte at an index of the array is replaced; the array has 32 bytes. *)
Definition clamp (privateKey : list Z) : list Z :=
  let k := alter (λ b, Z.land b 248) 0%nat privateKey in
  let k := alter (λ b, Z.land b 127) 31%nat k in
  alter (λ b, Z.lor b 64) 31%nat k.

Section keys.
Context {W : Type}.
(** [rand.Read] of 32 bytes, and [curve25519.ScalarBaseMult]. *)
Context (rand_Read : M W (list Z)) (ScalarBaseMult : list Z → list Z).

Definition GenerateKeyPair : M W KeyPair :=
  privateKey ← wrapf "failed to generate random bytes: %w" [] rand_Read;
  let privateKey := clamp privateKey in
  mret {| PrivateKey := base64_EncodeToString (bytes_str privateKey);
          PublicKey := base64_EncodeToString (bytes_str (ScalarBaseMult privateKey)) |}.
End keys.

(** ** Configuration files *)
Record Peer := {
  peer_PublicKey : string; Endpoint : string; AllowedIPs : list string; PersistentKeepalive : Z;
}.
Record Config := {
  Address : string; ListenPort : Z; cfg_PrivateKey : string; Peers : list Peer; Routes : list string;
}.

Definition forwarding_commands : string :=
  "PostUp = sysctl -w net.ipv4.ip_forward=1" +:+ nl +:+
  "PostUp = iptables -A FORWARD -i wg0 -j ACCEPT" +:+ nl +:+
  "PostUp = iptables -A FORWARD -o wg0 -j ACCEPT" +:+ nl +:+
  "PostDown = iptables -D FORWARD -i wg0 -j ACCEPT" +:+ nl +:+
  "PostDown = iptables -D FORWARD -o wg0 -j ACCEPT" +:+ nl.

Definition route_commands (route : string) : string :=
  ("PostUp = ip route add " +:+ route +:+ " dev wg0" +:+ nl) +:+
  ("PostDown = ip route del " +:+ route +:+ " dev wg0 || true" +:+ nl).

Definition peer_section (p : Peer) : string :=
  (nl +:+ "[Peer]" +:+ nl +:+ "PublicKey = " +:+ peer_PublicKey p +:+ nl) +:+
  (if bool_decide (Endpoint p ≠ "") then "Endpoint = " +:+ Endpoint p +:+ nl else "") +:+
  (match AllowedIPs p with
   | [] => ""
   | ips => "AllowedIPs = " +:+ Join ips ", " +:+ nl
   end) +:+
  (if 0 <? PersistentKeepalive p then "PersistentKeepalive = " +:+ Itoa (PersistentKeepalive p) +:+ nl else "").

Definition GenerateConfig (cfg : Config) : string :=
  ("[Interface]" +:+ nl +:+ "Address = " +:+ Address cfg +:+ nl +:+
   "PrivateKey = " +:+ cfg_PrivateKey cfg +:+ nl) +:+
  (if 0 <? ListenPort cfg then "ListenPort = " +:+ Itoa (ListenPort cfg) +:+ nl else "") +:+
  (if 0 <? ListenPort cfg then forwarding_commands else "") +:+
  concat_str (route_commands <$> Routes cfg) +:+
  concat_str (peer_section <$> Peers cfg).

Example GenerateConfig_ex :
  GenerateConfig {| Address := "100.96.0.2/32"; ListenPort := 0; cfg_PrivateKey := "k";
    Routes := ["172.16.0.0/16"];
    Peers := [{| peer_PublicKey := "p"; Endpoint := "192.0.2.1:51820"; AllowedIPs := ["a"; "b"];
                 PersistentKeepalive := 25 |}] |} =
  Join ["[Interface]"; "Address = 100.96.0.2/32"; "PrivateKey = k";
        "PostUp = ip route add 172.16.0.0/16 dev wg0"; "PostDown = ip route del 172.16.0.0/16 dev wg0 || true";
        ""; "[Peer]"; "PublicKey = p"; "Endpoint = 192.0.2.1:51820"; "AllowedIPs = a, b";
        "PersistentKeepalive = 25"; ""] nl.
Proof. reflexivity. Qed.

(** ** The format

    [wg-quick] configurations as a list of sections with their settings: a line
    is blank, a section in brackets, or a key and a value around [" = "]. *)
Inductive conf_line := LBlank | LSection (name : string) | LSetting (key value : string) | LOther (s : string).

Fixpoint cut_eq (s : string) : option (string * string) :=
  match s with
  | "" => None
  | String c s' =>
      if HasPrefix s " = " then Some ("", drop_str 3 s)
      else match cut_eq s' with Some (k, v) => Some (String c k, v) | None => None end
  end.

Definition read_line (l : string) : conf_line :=
  if decide (l = "") then LBlank
  else if decide (l = "[Interface]") then LSection "Interface"
  else if decide (l = "[Peer]") then LSection "Peer"
  else match cut_eq l with Some (k, v) => LSetting k v | None => LOther l end.

Definition settings : Type := list (string * string).

(** The settings before the first section, and the sections. *)
Fixpoint read_lines (ls : list string) : option (settings * list (string * settings)) :=
  match ls with
  | [] => Some ([], [])
  | l :: ls =>
      match read_lines ls with
      | None => None
      | Some (kvs, secs) =>
          match read_line l with
          | LBlank => Some (kvs, secs)
          | LSection n => Some ([], (n, kvs) :: secs)
          | LSetting k v => Some ((k, v) :: kvs, secs)
          | LOther _ => None
          end
      end
  end.
Definition read_conf (s : string) : option (list (string * settings)) :=
  match read_lines (lines_of s) with Some ([], secs) => Some secs | _ => None end.

(** What a configuration says, as sections. *)
Definition interface_settings (cfg : Config) : settings :=
  [("Address", Address cfg); ("PrivateKey", cfg_PrivateKey cfg)] ++
  (if 0 <? ListenPort cfg then
     [("ListenPort", Itoa (ListenPort cfg)); ("PostUp", "sysctl -w net.ipv4.ip_forward=1");
      ("PostUp", "iptables -A FORWARD -i wg0 -j ACCEPT"); ("PostUp", "iptables -A FORWARD -o wg0 -j ACCEPT");
      ("PostDown", "iptables -D FORWARD -i wg0 -j ACCEPT"); ("PostDown", "iptables -D FORWARD -o wg0 -j ACCEPT")]
   else []) ++
  (Routes cfg ≫= λ r, [("PostUp", "ip route add " +:+ r +:+ " dev wg0");
                       ("PostDown", "ip route del " +:+ r +:+ " dev wg0 || true")]).
Definition peer_settings (p : Peer) : settings :=
  [("PublicKey", peer_PublicKey p)] ++
  (if bool_decide (Endpoint p ≠ "") then [("Endpoint", Endpoint p)] else []) ++
  (match AllowedIPs p with [] => [] | ips => [("AllowedIPs", Join ips ", ")] end) ++
  (if 0 <? PersistentKeepalive p then [("PersistentKeepalive", Itoa (PersistentKeepalive p))] else []).
Definition conf_sections (cfg : Config) : list (string * settings) :=
  ("Interface", interface_settings cfg) :: ((λ p, ("Peer", peer_settings p)) <$> Peers cfg).

(** No field holds a line break. *)
Record one_line (cfg : Config) : Prop := {
  ol_address : no_nl (Address cfg);
  ol_key : no_nl (cfg_PrivateKey cfg);
  ol_routes : Forall no_nl (Routes cfg);
  ol_peers : Forall (λ p, no_nl (peer_PublicKey p) ∧ no_nl (Endpoint p) ∧ Forall no_nl (AllowedIPs p)) (Peers cfg);
}.

(** ** Lemmas *)
Lemma pos_digits_no_nl fuel n acc : 0 ≤ n → no_nl acc → no_nl (pos_digits fuel 10 n acc).
Proof.
  revert n acc. induction fuel as [|fuel IH]; intros n acc Hn Ha; [done|]. simpl.
  assert (no_nl (String (digit_char (n mod 10)) acc)) as Hd.
  { pose proof (Z.mod_pos_bound n 10 ltac:(lia)) as Hb. unfold no_nl, no_char in *. simpl. rewrite Ha, andb_true_r.
    assert (∃ k, (k < 10)%nat ∧ n mod 10 = Z.of_nat k) as (k & Hk & ->) by (exists (Z.to_nat (n mod 10)); lia).
    do 10 (destruct k as [|k]; [reflexivity|]). lia. }
  case_match; [done|]. apply IH; [|done]. apply Z.div_pos; lia.
Qed.

Lemma Itoa_no_nl n : 0 < n → no_nl (Itoa n).
Proof.
  intros H. unfold Itoa. rewrite (proj2 (Z.ltb_ge n 0)) by lia. unfold print_nat.
  apply pos_digits_no_nl; [lia|done].
Qed.

(** A setting line whose key has none of the separator. *)
Definition setting_line (kv : string * string) : string := kv.1 +:+ " = " +:+ kv.2.
Definition known_keys : list string :=
  ["Address"; "PrivateKey"; "ListenPort"; "PostUp"; "PostDown"; "PublicKey"; "Endpoint"; "AllowedIPs";
   "PersistentKeepalive"].

Lemma read_setting k v : k ∈ known_keys → read_line (setting_line (k, v)) = LSetting k v.
Proof.
  unfold known_keys, setting_line, read_line. intros H.
  repeat (apply elem_of_cons in H as [->|H]; [by destruct v|]). by apply not_elem_of_nil in H.
Qed.

(** Reading the lines of settings in front of other lines. *)
Lemma read_settings kvs ls kvs' secs :
  Forall (λ kv, kv.1 ∈ known_keys) kvs → read_lines ls = Some (kvs', secs) →
  read_lines ((setting_line <$> kvs) ++ ls) = Some (kvs ++ kvs', secs).
Proof.
  intros H Hl. induction H as [|[k v] kvs Hk H IH]; [done|].
  cbn [fmap list_fmap app read_lines]. by rewrite IH, read_setting.
Qed.

(** The lines of a configuration. *)
Definition peer_lines (p : Peer) : list string := "" :: "[Peer]" :: (setting_line <$> peer_settings p).
Definition config_lines (cfg : Config) : list string :=
  "[Interface]" :: (setting_line <$> interface_settings cfg) ++ (Peers cfg ≫= peer_lines).

Lemma GenerateConfig_lines cfg : GenerateConfig cfg = unlines_str (config_lines cfg).
Proof.
  assert (∀ l, concat_str (peer_section <$> l) = unlines_str (l ≫= peer_lines)) as Hp.
  { induction l as [|p l IH]; [done|]. rewrite fmap_cons, bind_cons, unlines_app, <-IH.
    cbn [concat_str foldr]. f_equal. unfold peer_section, peer_lines, peer_settings.
    destruct (bool_decide (Endpoint p ≠ "")), (AllowedIPs p), (0 <? PersistentKeepalive p);
      unfold unlines_str, setting_line; cbn [fmap list_fmap app concat_str foldr fst snd];
      rewrite ?str_app_assoc, ?str_app_nil_r; reflexivity. }
  assert (∀ l, concat_str (route_commands <$> l) = unlines_str (setting_line <$>
    (l ≫= λ r, [("PostUp", "ip route add " +:+ r +:+ " dev wg0");
                ("PostDown", "ip route del " +:+ r +:+ " dev wg0 || true")]))) as Hr.
  { induction l as [|r l IH]; [done|]. rewrite fmap_cons, bind_cons, fmap_app, unlines_app, <-IH.
    cbn [concat_str foldr]. f_equal. unfold route_commands, unlines_str, setting_line.
    cbn [fmap list_fmap app concat_str foldr fst snd].
    rewrite ?str_app_assoc, ?str_app_nil_r. reflexivity. }
  unfold GenerateConfig, config_lines, interface_settings.
  rewrite Hp, Hr, !fmap_app.
  change ("[Interface]" :: ?l ++ ?k) with (["[Interface]"] ++ l ++ k).
  rewrite !unlines_app, !str_app_assoc.
  generalize (unlines_str (Peers cfg ≫= peer_lines)) as peers.
  match goal with |- context [unlines_str (setting_line <$> (Routes cfg ≫= ?f))] =>
    generalize (unlines_str (setting_line <$> (Routes cfg ≫= f))) end.
  intros routes peers.
  destruct (0 <? ListenPort cfg); unfold unlines_str, setting_line, forwarding_commands;
    cbn [fmap list_fmap app concat_str foldr fst snd];
    rewrite ?str_app_assoc, ?str_app_nil_r; reflexivity.
Qed.

Lemma settings_no_nl kvs :
  Forall (λ kv, kv.1 ∈ known_keys ∧ no_nl kv.2) kvs → Forall no_nl (setting_line <$> kvs).
Proof.
  intros H. induction H as [|[k v] kvs [Hk Hv] H IH]; constructor; [|done].
  apply no_nl_app; [|by apply no_nl_app]. unfold known_keys in Hk. cbn [fst] in *.
  repeat (apply elem_of_cons in Hk as [->|Hk]; [reflexivity|]). by apply not_elem_of_nil in Hk.
Qed.

Lemma interface_settings_ok cfg :
  one_line cfg → Forall (λ kv, kv.1 ∈ known_keys ∧ no_nl kv.2) (interface_settings cfg).
Proof.
  intros [Ha Hk Hr Hp]. unfold interface_settings. rewrite !Forall_app. split_and!.
  - repeat constructor; try done; unfold known_keys; set_solver.
  - destruct (Z.ltb_spec 0 (ListenPort cfg)) as [Hl|_]; [|constructor].
    apply Itoa_no_nl in Hl. repeat constructor; try done; unfold known_keys; set_solver.
  - induction Hr as [|r l Hr _ IH]; [constructor|]. rewrite bind_cons. apply Forall_app. split; [|done].
    repeat constructor; try (unfold known_keys; set_solver); by repeat apply no_nl_app.
Qed.

Lemma peer_settings_ok p :
  no_nl (peer_PublicKey p) ∧ no_nl (Endpoint p) ∧ Forall no_nl (AllowedIPs p) →
  Forall (λ kv, kv.1 ∈ known_keys ∧ no_nl kv.2) (peer_settings p).
Proof.
  intros (Hk & He & Hi). unfold peer_settings. rewrite !Forall_app. split_and!.
  - repeat constructor; try done; unfold known_keys; set_solver.
  - case_match; repeat constructor; try done; unfold known_keys; set_solver.
  - assert (no_nl (Join (AllowedIPs p) ", ")) by by apply no_nl_Join.
    destruct (AllowedIPs p); repeat constructor; try done; unfold known_keys; set_solver.
  - destruct (Z.ltb_spec 0 (PersistentKeepalive p)) as [Hl|_]; [|constructor].
    apply Itoa_no_nl in Hl. repeat constructor; try done; unfold known_keys; set_solver.
Qed.

Lemma read_peers ps :
  read_lines ((ps ≫= peer_lines) ++ [""]) = Some ([], (λ p, ("Peer", peer_settings p)) <$> ps).
Proof.
  assert (∀ p, Forall (λ kv, kv.1 ∈ known_keys) (peer_settings p)) as Hk.
  { intros p. unfold peer_settings. rewrite !Forall_app.
    split_and!; repeat case_match; repeat constructor; unfold known_keys; set_solver. }
  induction ps as [|p ps IH]; [done|]. rewrite bind_cons, <-app_assoc.
  change (peer_lines p ++ ?l) with ("" :: "[Peer]" :: (setting_line <$> peer_settings p) ++ l).
  cbn [read_lines]. rewrite (read_settings _ _ _ _ (Hk p) IH), app_nil_r. reflexivity.
Qed.

(** ** Properties *)

(** Reading a generated configuration back gives its interface and its
    peers, in order, with exactly the settings asked for: when no field holds a
    line break, nothing is lost, merged or moved to another section. *)
Theorem wireguard_config_round_trip cfg :
  one_line cfg → read_conf (GenerateConfig cfg) = Some (conf_sections cfg).
Proof.
  intros Hol. pose proof (interface_settings_ok cfg Hol) as Hi. unfold read_conf.
  rewrite GenerateConfig_lines, lines_of_unlines.
  - unfold config_lines.
    change (("[Interface]" :: ?l ++ ?k) ++ [""]) with ("[Interface]" :: (l ++ k) ++ [""]).
    rewrite <-app_assoc. cbn [read_lines].
    erewrite read_settings; [|eapply Forall_impl; [exact Hi|by intros ? []]|apply read_peers].
    rewrite app_nil_r. reflexivity.
  - unfold config_lines. constructor; [done|]. rewrite Forall_app. split; [by apply settings_no_nl|].
    destruct Hol as [_ _ _ Hp]. induction Hp as [|p ps Hp _ IH]; [constructor|]. rewrite bind_cons.
    apply Forall_app. split; [|done]. repeat (constructor; [done|]).
    by apply settings_no_nl, peer_settings_ok.
Qed.

Lemma wireguard_config_round_trip_witness :
  let cfg := {| Address := "100.96.0.1/32"; ListenPort := 51820; cfg_PrivateKey := "k"; Routes := ["172.16.0.0/16"];
    Peers := [{| peer_PublicKey := "p"; Endpoint := ""; AllowedIPs := ["100.96.0.2/32"]; PersistentKeepalive := 25 |}] |} in
  read_conf (GenerateConfig cfg) = Some (conf_sections cfg).
Proof. intros cfg. apply (wireguard_config_round_trip cfg). by split; repeat constructor. Defined.

(** The number an array of bytes stands for, least significant byte first. *)
Definition scalar (k : list Z) : Z := foldr (λ b n, b + 256 * n) 0 k.
Definition is_bytes (k : list Z) : Prop := Forall (λ b, 0 ≤ b < 256) k.

Lemma scalar_range k : is_bytes k → 0 ≤ scalar k < 256 ^ Z.of_nat (length k).
Proof.
  intros H. induction H as [|b k Hb H IH]; [done|]. simpl. rewrite Nat2Z.inj_succ, Z.pow_succ_r by lia. lia.
Qed.

Lemma scalar_app a b : scalar (a ++ b) = scalar a + 256 ^ Z.of_nat (length a) * scalar b.
Proof.
  induction a as [|x a IH]; [by simpl; lia|]. simpl. rewrite IH, Nat2Z.inj_succ, Z.pow_succ_r by lia. lia.
Qed.

(** The masks, on one byte. *)
Lemma mask_bytes b : 0 ≤ b < 256 →
  (0 ≤ Z.land b 248 < 256 ∧ Z.land b 248 mod 8 = 0) ∧
  64 ≤ Z.lor (Z.land b 127) 64 < 128.
Proof.
  intros H. assert (∃ k, (k < 256)%nat ∧ b = Z.of_nat k) as (k & Hk & ->) by (exists (Z.to_nat b); lia).
  assert (forallb (λ k, let b := Z.of_nat k in
    (0 <=? Z.land b 248) && (Z.land b 248 <? 256) && (Z.land b 248 mod 8 =? 0) &&
    (64 <=? Z.lor (Z.land b 127) 64) && (Z.lor (Z.land b 127) 64 <? 128)) (seq 0 256) = true) as Ht
    by (vm_compute; reflexivity).
  rewrite forallb_forall in Ht. specialize (Ht k ltac:(apply in_seq; lia)). cbv zeta in Ht.
  rewrite !andb_true_iff, !Z.leb_le, !Z.ltb_lt, Z.eqb_eq in Ht. lia.
Qed.

Lemma clamp_shape k :
  length k = 32%nat → is_bytes k →
  ∃ b0 mid b31, clamp k = Z.land b0 248 :: mid ++ [Z.lor (Z.land b31 127) 64] ∧
    k = b0 :: mid ++ [b31] ∧ length mid = 30%nat ∧ is_bytes mid ∧ 0 ≤ b0 < 256 ∧ 0 ≤ b31 < 256.
Proof.
  intros Hl Hb. destruct k as [|b0 k]; [done|]. apply Forall_cons in Hb as [H0 Hb].
  destruct (exists_last (l := k)) as (mid & b31 & ->); [by destruct k|].
  simpl in Hl. rewrite length_app in Hl. simpl in Hl.
  apply Forall_app in Hb as [Hm H31]. apply Forall_cons in H31 as [H31 _].
  assert (length mid = 30%nat) as Hmid by lia.
  exists b0, mid, b31. split_and!; try (done || lia). unfold clamp.
  assert (∀ f (x y : Z), alter f 31%nat (x :: mid ++ [y]) = x :: mid ++ [f y]) as Ha.
  { intros f x y. change (alter f 31%nat (x :: mid ++ [y])) with (x :: alter f 30%nat (mid ++ [y])).
    rewrite <-Hmid, <-(Nat.add_0_r (length mid)), alter_app_r. reflexivity. }
  change (alter (λ b, Z.land b 248) 0%nat (b0 :: ?l)) with (Z.land b0 248 :: l). by rewrite !Ha.
Qed.

(** C34: a generated private key decodes to 32 bytes that stand for a clamped
    scalar: a multiple of 8 between 2^254 and 2^255, with the random bits
    unchanged otherwise, and the public key is that of this scalar; a random
    source that fails gives no key. *)
Theorem wireguard_key_pair {W} (rand_Read : M W (list Z)) (ScalarBaseMult : list Z → list Z) (w : W) :
  match rand_Read w with
  | (Ok bytes, w') =>
      length bytes = 32%nat → is_bytes bytes →
      ∃ kp k, GenerateKeyPair rand_Read ScalarBaseMult w = (Ok kp, w') ∧
        base64_decode (PrivateKey kp) = Some (bytes_str k) ∧
        base64_decode (PublicKey kp) = Some (bytes_str (ScalarBaseMult k)) ∧
        length k = 32%nat ∧ is_bytes k ∧
        2 ^ 254 ≤ scalar k < 2 ^ 255 ∧ scalar k mod 8 = 0 ∧
        (∀ i, (0 < i < 31)%nat → k !! i = bytes !! i)
  | (Err e, w') => GenerateKeyPair rand_Read ScalarBaseMult w = (Err (Errorf "failed to generate random bytes: %w" [] [e]), w')
  | (Panic p, w') => GenerateKeyPair rand_Read ScalarBaseMult w = (Panic p, w')
  end.
Proof.
  destruct (rand_Read w) as [[bytes|e|p] w'] eqn:Er.
  2,3: unfold GenerateKeyPair, mbind, M_bind, wrapf; by rewrite Er.
  intros Hl Hb. destruct (clamp_shape bytes Hl Hb) as (b0 & mid & b31 & Hc & Hk & Hm & Hbm & H0 & H31).
  destruct (mask_bytes b0 H0) as [[Hr0 Hm0] _]. destruct (mask_bytes b31 H31) as [_ Hr31].
  eexists _, (clamp bytes). split.
  { unfold GenerateKeyPair. by rewrite (M_bind_Ok _ _ _ _ _ (wrapf_Ok _ _ _ _ _ _ Er)). }
  cbn [PrivateKey PublicKey]. rewrite !base64_round. split; [done|]. split; [done|].
  rewrite Hc. split_and!.
  - simpl. rewrite length_app. simpl. lia.
  - constructor; [done|]. apply Forall_app. split; [done|]. constructor; [lia|constructor].
  - change (scalar (?x :: ?l)) with (x + 256 * scalar l). rewrite scalar_app, Hm.
    pose proof (scalar_range mid Hbm) as Hs. rewrite Hm in Hs.
    change (scalar [?x]) with (x + 256 * 0). change (256 ^ Z.of_nat 30) with (2 ^ 240) in *.
    change (2 ^ 254) with (64 * 256 * 2 ^ 240). nia.
  - change (scalar (?x :: ?l)) with (x + 256 * scalar l). rewrite scalar_app, Hm.
    pose proof (scalar_range mid Hbm) as Hs. rewrite Hm in Hs.
    change (scalar [?x]) with (x + 256 * 0). change (256 ^ Z.of_nat 30) with (2 ^ 240) in *.
    change (2 ^ 255) with (128 * 256 * 2 ^ 240). nia.
  - change (scalar (?x :: ?l)) with (x + 256 * scalar l).
    replace (256 * scalar (mid ++ [Z.lor (Z.land b31 127) 64])) with
      (32 * scalar (mid ++ [Z.lor (Z.land b31 127) 64]) * 8) by lia.
    by rewrite Z.mod_add.
  - intros i Hi. rewrite Hk. destruct i as [|i]; [lia|]. simpl.
    rewrite !lookup_app_l by lia. done.
Qed.
