(* ===== verification/Deploy.v ===== *)
(** * The deployment commands

    [cli/internal/aks/deploy]: the deployment of a cluster with its options
    ([deploy.go]), the WireGuard gateway ([wireguard.go]), Cilium, the GPU charts
    and the unbounded CNI; [cli/internal/network/deploy]: the network.  External
    commands, temporary files and the Azure network API are interfaces. *)
From S2P Require Import Prelude GoStr Karp Encoding Config K8s Kubeadm Aws Azure Script WireGuard.
From stdpp Require Import infinite options.

(** ** The flags *)
Record Flags := {
  deploycilium : bool; deployWireguard : bool; unboundedCNI : bool; deployGPUOperator : bool;
  deployGPUDevicePlugin : bool; deployDRADriver : bool; skipARM : bool; kubeconfigToSave : string;
}.

Definition PersistentPreRunE (f : Flags) : res () :=
  if unboundedCNI f then
    if deploycilium f then Err (errors_New "--cilium cannot be used with --unbounded-cni")
    else if deployWireguard f then Err (errors_New "--wireguard cannot be used with --unbounded-cni")
    else Ok ()
  else Ok ().

(** ** Commands and temporary files *)
Record Exec (W : Type) := {
  LookPath : string → M W string;
  (* name, arguments, and what is added to the environment *)
  RunCommand : string → list string → list string → M W ();
  CreateTemp : string → M W string;
  WriteTemp : string → string → M W ();
  CloseTemp : string → M W ();
  MkdirTemp : string → M W string;
  Remove : string → M W ();
  RemoveAll : string → M W ();
}.
Arguments LookPath {W}.
Arguments RunCommand {W}.
Arguments CreateTemp {W}.
Arguments WriteTemp {W}.
Arguments CloseTemp {W}.
Arguments MkdirTemp {W}.
Arguments Remove {W}.
Arguments RemoveAll {W}.

(** [defer cleanup], whose own error is ignored. *)
Definition deferred {W A} (cleanup : M W ()) (c : M W A) : M W A := λ w,
  let '(r, w1) := c w in (r, (cleanup w1).2).

(** ** GPU charts, [gpu.go] *)
Section gpu.
Context {W : Type} (ex : Exec W).

Definition preflight_helm (flag : string) : M W () :=
  r ← attempt (LookPath ex "helm");
  match r with
  | inl err => fail (Errorf ("helm not found in PATH, please install Helm to use --" +:+ flag +:+ ": %w") [] [err])
  | inr _ => mret ()
  end.
Definition preflightDRADriver : M W () := preflight_helm "nvidia-dra-driver".
Definition preflightGPUOperator : M W () := preflight_helm "gpu-operator".
Definition preflightGPUDevicePlugin : M W () := preflight_helm "nvidia-device-plugin".

Definition run_commands (commands : list (string * list string)) : M W () :=
  for_each (λ c, wrapf "failed to run %s %v: %w" (c.1 :: c.2) (RunCommand ex c.1 c.2 [])) commands.

Definition gpu_operator_commands : list (string * list string) :=
  [("helm", ["repo"; "add"; "nvidia"; "https://helm.ngc.nvidia.com/nvidia"]);
   ("helm", ["repo"; "update"]);
   ("helm", ["upgrade"; "--install"; "--wait"; "gpu-operator"; "-n"; "gpu-operator";
             "--create-namespace"; "nvidia/gpu-operator"])].
Definition installGPUOperator : M W () := run_commands gpu_operator_commands.

Definition device_plugin_commands : list (string * list string) :=
  [("helm", ["repo"; "add"; "nvdp"; "https://nvidia.github.io/k8s-device-plugin"]);
   ("helm", ["repo"; "update"]);
   ("helm", ["upgrade"; "--install"; "--wait"; "nvidia-device-plugin"; "-n"; "nvidia";
             "--create-namespace"; "nvdp/nvidia-device-plugin"; "--set"; "failOnInitError=false";
             "--set"; "affinity=null"])].
Definition installGPUDevicePlugin : M W () := run_commands device_plugin_commands.

Definition dra_commands (valuesFile : string) : list (string * list string) :=
  [("helm", ["repo"; "add"; "nvidia"; "https://helm.ngc.nvidia.com/nvidia"]);
   ("helm", ["repo"; "update"]);
   ("helm", ["upgrade"; "--install"; "dra-driver"; "nvidia/nvidia-dra-driver-gpu";
             "--version"; "25.12.0"; "--create-namespace"; "--namespace"; "nvidia";
             "-f"; valuesFile; "--wait"])].

Definition installDRADriver (draDriverValuesYAML : string) : M W () :=
  valuesFile ← wrapf "failed to create temp values file: %w" [] (CreateTemp ex "dra-driver-values-*.yaml");
  deferred (Remove ex valuesFile)
    (_ ← wrapf "failed to write DRA driver values: %w" [] (WriteTemp ex valuesFile draDriverValuesYAML);
     _ ← wrapf "failed to close DRA driver values file: %w" [] (CloseTemp ex valuesFile);
     run_commands (dra_commands valuesFile)).
End gpu.

(** ** Cilium, [cilium.go] *)
Section cilium.
Context {W : Type} (ex : Exec W) (os : OS W) `{CC : Clientcmd}.

Definition ciliumInstallInstruction : error :=
  errors_New ("cilium cli not found, please follow instruction " +:+
    "https://docs.cilium.io/en/stable/gettingstarted/k8s-install-default/#install-the-cilium-cli").

Definition preflightCiliumDeploy : M W () :=
  r ← attempt (LookPath ex "cilium");
  match r with inl _ => fail ciliumInstallInstruction | inr _ => mret () end.

Definition cilium_args (kubeconfigFile clusterContext clusterName host port : string) : list string :=
  ["install"; "--kubeconfig"; kubeconfigFile; "--context"; clusterContext;
   "--namespace"; "kube-system"; "--datapath-mode"; "aks-byocni";
   "--helm-set"; "aksbyocni.enabled=true"; "--helm-set"; "cluster.name=" +:+ clusterName;
   "--helm-set"; "operator.replicas=1"; "--helm-set"; "kubeProxyReplacement=true";
   "--helm-set"; "k8sServiceHost=" +:+ host; "--helm-set"; "k8sServicePort=" +:+ port].

Definition deployCilium (kubeconfigFile : string) (cfg : Config.Config) : M W () :=
  let clusterContext := ClusterName cfg +:+ "-admin" in
  hp ← APIServerFromKubeconfigFile os kubeconfigFile clusterContext;
  RunCommand ex "cilium" (cilium_args kubeconfigFile clusterContext (ClusterName cfg) hp.1 hp.2)
    ["KUBECONFIG=" +:+ kubeconfigFile].
End cilium.

(** ** Unbounded CNI, [unboundedcni.go] *)
Section unbounded.
Context {W : Type} (ex : Exec W) (os : OS W).
(** The embedded tree in the order of [fs.WalkDir]: directories have no content. *)
Context (assets : list (string * option string)).

Definition bundledFolder : string := "unbounded-cni".

Definition Preflight : M W () :=
  r ← attempt (LookPath ex "kubectl");
  match r with
  | inl err => fail (Errorf "kubectl not found in PATH, please install kubectl to use --unbounded-cni: %w" [] [err])
  | inr _ => mret ()
  end.

Definition kubectl_env (kubeconfigFile : string) : list string := ["KUBECONFIG=" +:+ kubeconfigFile].
Definition kubectlApply (kubeconfigFile path : string) : M W () :=
  RunCommand ex "kubectl" ["apply"; "-f"; path] (kubectl_env kubeconfigFile).
Definition kubectlRolloutWait (kubeconfigFile namespace resource : string) : M W () :=
  RunCommand ex "kubectl" ["rollout"; "status"; resource; "-n"; namespace] (kubectl_env kubeconfigFile).

(** [filepath.Rel("assets", path)], for a path of the tree. *)
Definition rel_assets (path : string) : string :=
  if decide (path = "assets") then "." else TrimPrefix path "assets/".

Definition extract_entry (tempDir : string) (e : string * option string) : M W () :=
  let targetPath := filepath_Join [tempDir; rel_assets e.1] in
  match e.2 with
  | None => os_MkdirAll os targetPath
  | Some data => os_WriteFile os targetPath data
  end.

Definition extractAssets : M W string :=
  tempDir ← wrapf "failed to create temp directory: %w" [] (MkdirTemp ex "unbounded-cni-*");
  r ← attempt (for_each (extract_entry tempDir) assets);
  match r with
  | inl err =>
      _ ← attempt (RemoveAll ex tempDir);
      fail (Errorf "failed to extract unbounded CNI assets: %w" [] [err])
  | inr _ => mret tempDir
  end.

Definition unbounded_steps (baseDir : string) : list (string * string) :=
  [("CRDs", filepath_Join [baseDir; "crds"]); ("namespace", filepath_Join [baseDir; "00-namespace.yaml"]);
   ("configmap", filepath_Join [baseDir; "01-configmap.yaml"]);
   ("controller", filepath_Join [baseDir; "controller"]); ("node", filepath_Join [baseDir; "node"])].

Definition unbounded_Deploy (kubeconfigFile : string) : M W () :=
  tempDir ← extractAssets;
  deferred (RemoveAll ex tempDir)
    (let baseDir := filepath_Join [tempDir; bundledFolder] in
     _ ← for_each (λ step, wrapf "failed to apply unbounded CNI %s: %w" [step.1]
                             (kubectlApply kubeconfigFile step.2)) (unbounded_steps baseDir);
     _ ← wrapf "failed waiting for unbounded CNI controller to be ready: %w" []
           (kubectlRolloutWait kubeconfigFile "unbounded-cni" "deployment/unbounded-cni-controller");
     wrapf "failed to apply AKS unbounded CNI resources: %w" []
       (kubectlApply kubeconfigFile (filepath_Join [tempDir; "aks"]))).
End unbounded.

(** ** The WireGuard gateway, [wireguard.go] *)

(** An element of [status.addresses]: not a map, or a map whose [type] and
    [address] read as a string ([""] when missing) or fail to. *)
Inductive AddressItem := NotMap | AddressMap (type_ address : res string).

(** [unstructured.NestedSlice] of [status.addresses]: not found, an error, or
    the elements. *)
Definition GatewayNode : Type := res (option (list AddressItem)).

Record Route := { rt_Name : string; rt_AddressPrefix : string; rt_NextHopType : string; rt_NextHopIP : string }.
(** The properties of a route table and of a subnet, with what is left alone. *)
Record RouteTable := { rtb_Routes : list Route; rtb_Rest : string }.
Record Subnet := { sn_RouteTable : option (option string); sn_Rest : string }.

(** The network API of a subscription; a [Put] is the call and its poll. *)
Record NetAPI (W : Type) := {
  net_NewClient : string → res ();
  RouteTables_Get : string → string → M W (option RouteTable);
  RouteTables_BeginPut : string → string → option RouteTable → M W ();
  RouteTables_Poll : string → string → M W ();
  Subnets_Get : string → string → string → M W (option Subnet);
  Subnets_BeginPut : string → string → string → option Subnet → M W ();
  Subnets_Poll : string → string → string → M W ();
}.
Arguments net_NewClient {W}.
Arguments RouteTables_Get {W}.
Arguments RouteTables_BeginPut {W}.
Arguments RouteTables_Poll {W}.
Arguments Subnets_Get {W}.
Arguments Subnets_BeginPut {W}.
Arguments Subnets_Poll {W}.

Definition wgKubeImage : string := "ghcr.io/b4fun/wg-kube:sha-11e4656".

(** The parameters of [assets/wireguard-deployment.yaml], and its objects; the
    data of a Secret is base64 in the document. *)
Record WgParams := { privateKeyBase64 : string; publicKeyBase64 : string; image : string }.
Definition secret_value (b64 : string) : string := default "" (base64_decode b64).
Definition wireguard_objects (p : WgParams) : list KObject :=
  [OOther "Namespace" "" "wireguard";
   OSecret {| sec_Namespace := "wireguard"; sec_Name := "wireguard-keys"; sec_Labels := ∅;
              sec_Data := {[ "private.key" := secret_value (privateKeyBase64 p);
                             "public.key" := secret_value (publicKeyBase64 p) ]};
              sec_Type := "Opaque" |};
   OOther "ServiceAccount" "wireguard" "wg-kube"; OOther "ClusterRole" "" "wg-kube";
   OOther "ClusterRoleBinding" "" "wg-kube";
   OWorkload "DaemonSet" "wireguard" "wg-kube" (image p)].

Section wireguard.
Context {W : Type} (az : Azure W) `{CC : Clientcmd} (kube : Kube W) (ClientConfig : KConfig → res ()).
(** Nodes by label, the network API, the random source, the scalar
    multiplication, the template and the decoder of the document. *)
Context (ListNodes : gmap string string → M W (list GatewayNode)) (net : NetAPI W).
Context (rand_Read : M W (list Z)) (ScalarBaseMult : list Z → list Z).
Context (execute : WgParams → res string) (decode : string → list (res KObject)).
(** A wait of 15 seconds, cut short with the error of the context when it is done. *)
Context (sleep15 : M W (option error)).

(** [k8s.Loader] and the construction of a client. *)
Definition client_of (cfg : Config.Config) : M W () :=
  kubeconfig ← Kubeconfig az cfg;
  lift (ClientConfig kubeconfig).

Definition getOrCreateWireGuardKeys (cfg : Config.Config) : M W KeyPair :=
  _ ← client_of cfg;
  r ← attempt (kube_Get kube "wireguard" "wireguard-keys");
  match r with
  | inr secret =>
      match sec_Data secret !! "private.key", sec_Data secret !! "public.key" with
      | None, _ => fail (errors_New "wireguard-keys secret missing private.key")
      | _, None => fail (errors_New "wireguard-keys secret missing public.key")
      | Some priv, Some pub => mret {| PrivateKey := priv; PublicKey := pub |}
      end
  | inl err =>
      if negb (k8s_IsNotFound err) then fail (Errorf "failed to get wireguard-keys secret: %w" [] [err])
      else GenerateKeyPair rand_Read ScalarBaseMult
  end.

(** The loop over the addresses: the last one of each type is kept. *)
Definition node_ips (addrs : list AddressItem) : string * string :=
  foldl (λ ips a, match a with
                  | AddressMap (Ok t) (Ok v) =>
                      if bool_decide (t = "ExternalIP") then (v, ips.2)
                      else if bool_decide (t = "InternalIP") then (ips.1, v) else ips
                  | _ => ips
                  end) ("", "") addrs.

Definition gateway_ips (node : GatewayNode) : res (string * string) :=
  match node with
  | Err e => Err (Errorf "failed to get node addresses: %w" [] [e])
  | Panic p => Panic p
  | Ok None => Err (Errorf "failed to get node addresses: %w" [] [])
  | Ok (Some addrs) =>
      let '(publicIP, privateIP) := node_ips addrs in
      if bool_decide (publicIP = "") then
        Err (errors_New "wireguard node has no ExternalIP (public IP not assigned yet)")
      else if bool_decide (privateIP = "") then Err (errors_New "wireguard node has no InternalIP")
      else Ok (publicIP, privateIP)
  end.

Definition getWireGuardNodeIP (cfg : Config.Config) : M W (string * string) :=
  _ ← client_of cfg;
  nodes ← wrapf "failed to list wireguard nodes: %w" []
            (ListNodes {[ "stretch.azure.com/wireguard-gateway" := "true" ]});
  match nodes with
  | [] => fail (errors_New "no wireguard gateway nodes found (waiting for node to register)")
  | node :: _ => lift (gateway_ips node)
  end.

(** The unbounded wait loop: [None] when the fuel ends before the loop does. *)
Fixpoint wait_gateway (fuel : nat) (cfg : Config.Config) : M W (option (string * string)) :=
  match fuel with
  | O => mret None
  | S fuel =>
      r ← attempt (getWireGuardNodeIP cfg);
      match r with
      | inr ips => mret (Some ips)
      | inl _ =>
          s ← sleep15;
          match s with
          | Some err => fail err
          | None => wait_gateway fuel cfg
          end
      end
  end.

Definition gateway_route (ip : string) : Route :=
  {| rt_Name := "to-nebius-wg"; rt_AddressPrefix := "100.96.0.0/12";
     rt_NextHopType := "VirtualAppliance"; rt_NextHopIP := ip |}.

Definition updateRouteTable (cfg : Config.Config) (gatewayPrivateIP : string) : M W () :=
  _ ← lift (net_NewClient net (SubscriptionID cfg));
  routeTable ← wrapf "failed to get route table: %w" []
                 (RouteTables_Get net (ResourceGroupName cfg) "wg-routes");
  match routeTable with
  | None => panic "nil pointer dereference"
  | Some t =>
      let t := {| rtb_Routes := [gateway_route gatewayPrivateIP]; rtb_Rest := rtb_Rest t |} in
      _ ← wrapf "failed to update route table: %w" []
            (RouteTables_BeginPut net (ResourceGroupName cfg) "wg-routes" (Some t));
      wrapf "failed to wait for route table update: %w" []
        (RouteTables_Poll net (ResourceGroupName cfg) "wg-routes")
  end.

Definition routeTableID (cfg : Config.Config) : string :=
  "/subscriptions/" +:+ SubscriptionID cfg +:+ "/resourceGroups/" +:+ ResourceGroupName cfg +:+
  "/providers/Microsoft.Network/routeTables/wg-routes".

Definition associate_subnet (cfg : Config.Config) (subnetName : string) : M W () :=
  subnet ← wrapf "failed to get subnet %s: %w" [subnetName]
             (Subnets_Get net (ResourceGroupName cfg) "vnet" subnetName);
  match subnet with
  | None => panic "nil pointer dereference"
  | Some s =>
      if bool_decide (sn_RouteTable s = Some (Some (routeTableID cfg))) then mret ()
      else
        let s := {| sn_RouteTable := Some (Some (routeTableID cfg)); sn_Rest := sn_Rest s |} in
        _ ← wrapf "failed to update subnet %s: %w" [subnetName]
              (Subnets_BeginPut net (ResourceGroupName cfg) "vnet" subnetName (Some s));
        wrapf "failed to wait for subnet %s update: %w" [subnetName]
          (Subnets_Poll net (ResourceGroupName cfg) "vnet" subnetName)
  end.

Definition associateRouteTableWithSubnets (cfg : Config.Config) : M W () :=
  _ ← lift (net_NewClient net (SubscriptionID cfg));
  for_each (associate_subnet cfg) ["aks"; "nodes"].

Definition deployWireGuardToK8s (cfg : Config.Config) (keys : KeyPair) : M W () :=
  _ ← client_of cfg;
  buf ← wrapf "failed to execute WireGuard deployment template: %w" []
          (lift (execute {| privateKeyBase64 := base64_EncodeToString (PrivateKey keys);
                            publicKeyBase64 := base64_EncodeToString (PublicKey keys);
                            image := wgKubeImage |}));
  wrapf "failed to apply WireGuard deployment YAML: %w" []
    (ApplyYAMLSpec (kube_Apply kube) decode buf "stretch").

(** [false]: the fuel of the wait ended. *)
Definition deployWireGuard (fuel : nat) (cfg : Config.Config) : M W bool :=
  keys ← wrapf "failed to get WireGuard keys: %w" [] (getOrCreateWireGuardKeys cfg);
  ips ← wait_gateway fuel cfg;
  match ips with
  | None => mret false
  | Some (_, gatewayPrivateIP) =>
      _ ← wrapf "failed to update route table: %w" [] (updateRouteTable cfg gatewayPrivateIP);
      _ ← wrapf "failed to associate route table with subnets: %w" [] (associateRouteTableWithSubnets cfg);
      _ ← wrapf "failed to deploy WireGuard to Kubernetes: %w" [] (deployWireGuardToK8s cfg keys);
      mret true
  end.
End wireguard.

(** ** The deployment of a cluster, [deploy.go] *)
Section run.
Context {W : Type} (f : Flags) (ex : Exec W) (os : OS W) (az : Azure W) (arm : ARM W) `{CC : Clientcmd}.
Context (environ : gmap string string) (Output : string → list string → res string).
(** [azidentity.NewAzureCLICredential] and the decoder of templates. *)
Context (NewAzureCLICredential : res ()) (json_Unmarshal : string → res string) (aksJSON : string).
(** The parts modelled above and in [Kubeadm], with their parameters fixed:
    [deployK8S], [deployWireGuard] and [unboundedcni.Deploy]. *)
Context (deployK8S_ deployWireGuard_ : Config.Config → M W ()) (unbounded_ : string → M W ()).
Context (draDriverValuesYAML : string) (RecommendedHomeFile : string).

(** [if flag { if err := step(); err != nil { return err } }]. *)
Definition when (b : bool) (c : M W ()) : M W () := if b then c else mret ().

Definition preflightChecks : M W () :=
  _ ← when (deploycilium f) (preflightCiliumDeploy ex);
  _ ← when (unboundedCNI f) (Preflight ex);
  _ ← when (deployGPUOperator f) (preflightGPUOperator ex);
  _ ← when (deployGPUDevicePlugin f) (preflightGPUDevicePlugin ex);
  when (deployDRADriver f) (preflightDRADriver ex).

Definition aks_parameters (cfg : Config.Config) : gmap string ParamValue :=
  {[ "clusterName" := PString (ClusterName cfg); "kubernetesVersion" := PString (ClusterVersion cfg);
     "systemPoolSize" := PInt (SystemPoolSize cfg); "vmSize" := PString (SystemVMSize cfg);
     "gatewayVMSize" := PString (GatewayVMSize cfg); "deployWireguard" := PBool (deployWireguard f);
     "deployUnboundedCNI" := PBool (unboundedCNI f) ]}.

Definition outputPath : string :=
  if bool_decide (kubeconfigToSave f = "") then RecommendedHomeFile else kubeconfigToSave f.

Definition saveKubeconfig (cfg : Config.Config) : M W string :=
  _ ← wrapf "failed to save kubeconfig to %s: %w" [outputPath] (MergeKubeconfigInto az os cfg outputPath);
  mret outputPath.

Definition run : M W () :=
  _ ← preflightChecks;
  cfg ← lift (config_New environ Output);
  _ ← lift NewAzureCLICredential;
  _ ← when (negb (skipARM f)) (az_Deploy arm json_Unmarshal cfg "aks" aksJSON (aks_parameters cfg));
  kubeconfigPath ← saveKubeconfig cfg;
  _ ← deployK8S_ cfg;
  _ ← when (deploycilium f) (deployCilium ex os kubeconfigPath cfg);
  _ ← when (deployWireguard f) (deployWireGuard_ cfg);
  _ ← when (unboundedCNI f) (unbounded_ kubeconfigPath);
  _ ← when (deployGPUOperator f) (installGPUOperator ex);
  _ ← when (deployGPUDevicePlugin f) (installGPUDevicePlugin ex);
  when (deployDRADriver f) (installDRADriver ex draDriverValuesYAML).

(** The cobra command: the pre-run check, then the run. *)
Definition Deploy_Command : M W () :=
  _ ← lift (PersistentPreRunE f);
  run.

(** ** The plan of a deployment

    The abstract description: the tools that have to be there, then the steps
    that are enabled, in a fixed order, until one fails. *)
Inductive step := SARM | SKubeconfig | SK8S | SCilium | SWireguard | SUnbounded | SOperator | SPlugin | SDRA.
Definition enabled (s : step) : bool :=
  match s with
  | SARM => negb (skipARM f) | SKubeconfig | SK8S => true
  | SCilium => deploycilium f | SWireguard => deployWireguard f | SUnbounded => unboundedCNI f
  | SOperator => deployGPUOperator f | SPlugin => deployGPUDevicePlugin f | SDRA => deployDRADriver f
  end.
Definition all_steps : list step :=
  [SARM; SKubeconfig; SK8S; SCilium; SWireguard; SUnbounded; SOperator; SPlugin; SDRA].
Definition plan : list step := filter (λ s, enabled s = true) all_steps.

Definition run_step (cfg : Config.Config) (s : step) : M W () :=
  match s with
  | SARM => az_Deploy arm json_Unmarshal cfg "aks" aksJSON (aks_parameters cfg)
  | SKubeconfig => _ ← saveKubeconfig cfg; mret ()
  | SK8S => deployK8S_ cfg
  | SCilium => deployCilium ex os outputPath cfg
  | SWireguard => deployWireGuard_ cfg
  | SUnbounded => unbounded_ outputPath
  | SOperator => installGPUOperator ex
  | SPlugin => installGPUDevicePlugin ex
  | SDRA => installDRADriver ex draDriverValuesYAML
  end.

(** A list of the steps that ran to their end, the error of the one that did
    not, and the world. *)
Fixpoint execute_plan (cfg : Config.Config) (l : list step) (w : W) : list step * res () * W :=
  match l with
  | [] => ([], Ok (), w)
  | s :: l =>
      match run_step cfg s w with
      | (Ok _, w') => let '(done_, r, w2) := execute_plan cfg l w' in (s :: done_, r, w2)
      | (r, w') => ([], r, w')
      end
  end.
End run.

(** ** The network deployment, [cli/internal/network/deploy] *)
Definition network_run {W} (arm : ARM W) (environ : gmap string string)
    (Output : string → list string → res string) (NewAzureCLICredential : res ())
    (json_Unmarshal : string → res string) (networkJSON : string) (deployGateway : bool) : M W () :=
  cfg ← lift (config_New environ Output);
  _ ← lift NewAzureCLICredential;
  az_Deploy arm json_Unmarshal cfg "network" networkJSON {[ "deployGateway" := PBool deployGateway ]}.

(** ** Lemmas *)
Lemma M_bind_ext {W A B} (m : M W A) (f g : A → M W B) w :
  (∀ a w, f a w = g a w) → (m ≫= f) w = (m ≫= g) w.
Proof. intros H. unfold mbind, M_bind. by destruct (m w) as [[]]. Qed.

Lemma when_loop {W A} (P : A → bool) (g : A → M W ()) s l (w : W) :
  for_each g (filter (λ s, P s = true) (s :: l)) w =
  (when (P s) (g s) ≫= λ _, for_each g (filter (λ s, P s = true) l)) w.
Proof.
  rewrite filter_cons. unfold when. destruct (P s) eqn:E; [by rewrite decide_True|by rewrite decide_False].
Qed.

Section run_lemmas.
Context {W : Type} (f : Flags) (ex : Exec W) (os : OS W) (az : Azure W) (arm : ARM W) `{CC : Clientcmd}.
Context (environ : gmap string string) (Output : string → list string → res string).
Context (json_Unmarshal : string → res string) (aksJSON : string).
Context (deployK8S_ deployWireGuard_ : Config.Config → M W ()) (unbounded_ : string → M W ()).
Context (draDriverValuesYAML : string) (RecommendedHomeFile : string).
Notation run_step := (run_step f ex os az arm json_Unmarshal aksJSON deployK8S_ deployWireGuard_ unbounded_
  draDriverValuesYAML RecommendedHomeFile).
Notation execute_plan := (execute_plan f ex os az arm json_Unmarshal aksJSON deployK8S_ deployWireGuard_ unbounded_
  draDriverValuesYAML RecommendedHomeFile).

Lemma execute_plan_loop cfg l w :
  let '(done_, r, w') := execute_plan cfg l w in
  for_each (run_step cfg) l w = (r, w') ∧ done_ `prefix_of` l ∧ (r = Ok () → done_ = l).
Proof.
  revert w. induction l as [|s l IH]; intros w; [by split_and!; [|apply prefix_nil|]|].
  cbn [Deploy.execute_plan for_each]. unfold mbind, M_bind.
  destruct (run_step cfg s w) as [[[]|e|p] w1] eqn:E.
  - specialize (IH w1). destruct (execute_plan cfg l w1) as [[d r] w2]. destruct IH as (H1 & H2 & H3).
    split_and!; [done|by apply prefix_cons|]. intros ->. by rewrite H3.
  - split_and!; [done|apply prefix_nil|done].
  - split_and!; [done|apply prefix_nil|done].
Qed.

Notation run := (run f ex os az arm environ Output (Ok ()) json_Unmarshal aksJSON deployK8S_ deployWireGuard_
  unbounded_ draDriverValuesYAML RecommendedHomeFile).

Lemma run_plan cfg w :
  config_New environ Output = Ok cfg →
  run w = (preflightChecks f ex ≫= λ _, for_each (run_step cfg) (plan f)) w.
Proof.
  intros Hc. unfold Deploy.run. apply M_bind_ext. intros _ w1. rewrite (bind_lift_Ok _ _ _ _ Hc).
  rewrite (bind_lift_Ok _ _ ()) by done. unfold plan, all_steps.
  rewrite when_loop. apply M_bind_ext. intros _ w2.
  rewrite when_loop. cbn [enabled when Deploy.run_step]. rewrite M_bind_assoc.
  unfold saveKubeconfig. rewrite !M_bind_assoc. apply M_bind_ext. intros _ w3.
  rewrite (M_bind_Ok (mret _) _ _ (outputPath f RecommendedHomeFile) w3) by done.
  rewrite (M_bind_Ok (mret _) _ _ (outputPath f RecommendedHomeFile) w3) by done.
  rewrite (M_bind_Ok (mret _) _ _ () w3) by done.
  do 6 (rewrite when_loop; apply M_bind_ext; intros _ ?).
  rewrite when_loop. unfold when. cbn [enabled Deploy.run_step]. destruct (deployDRADriver f); [|done].
  unfold mbind, M_bind. by destruct (installDRADriver _ _ _) as [[[]| |]].
Qed.
End run_lemmas.

(** C21: a deployment is refused before anything is touched when the flags
    contradict each other or a needed tool is missing; otherwise it runs the
    plan of its flags: the enabled steps in order, up to the first that fails,
    whose error it answers, and all of them when it succeeds. *)
Theorem deploy_runs_plan {W} (f : Flags) (ex : Exec W) (os : OS W) (az : Azure W) (arm : ARM W) `{CC : Clientcmd}
    environ Output json_Unmarshal aksJSON deployK8S_ deployWireGuard_ unbounded_ dra home cfg (w : W) :
  (∀ tool w, (LookPath ex tool w).2 = w) → config_New environ Output = Ok cfg →
  let command := Deploy_Command f ex os az arm environ Output (Ok ()) json_Unmarshal aksJSON deployK8S_
    deployWireGuard_ unbounded_ dra home in
  match PersistentPreRunE f, preflightChecks f ex w with
  | Ok _, (Ok _, _) =>
      let '(done_, r, w') := execute_plan f ex os az arm json_Unmarshal aksJSON deployK8S_ deployWireGuard_
        unbounded_ dra home cfg (plan f) w in
      command w = (r, w') ∧ done_ `prefix_of` plan f ∧ (r = Ok () → done_ = plan f) ∧
      (SUnbounded ∈ plan f → SCilium ∉ plan f ∧ SWireguard ∉ plan f)
  | Ok _, (r, _) => command w = (r, w)
  | r, _ => command w = (r, w) ∧ unboundedCNI f = true ∧ (deploycilium f = true ∨ deployWireguard f = true)
  end.
Proof.
  intros Hlook Hc command.
  assert (keeps id (preflightChecks f ex)) as Hkeep.
  { unfold preflightChecks, when, preflightCiliumDeploy, Preflight, preflightGPUOperator, preflightGPUDevicePlugin,
      preflightDRADriver, preflight_helm.
    assert (∀ t, keeps id (LookPath ex t)) as Hl by (intros t v; apply Hlook). solve_keeps. }
  assert (∀ (x : step), x ∈ plan f ↔ enabled f x = true) as Hplan.
  { intros x. unfold plan. rewrite list_elem_of_filter. split; [by intros []|]. intros H. split; [done|].
    destruct x; unfold all_steps; set_solver. }
  destruct (PersistentPreRunE f) as [[]|e|p] eqn:Hpre.
  - assert (command w = (preflightChecks f ex ≫= λ _, for_each (run_step f ex os az arm json_Unmarshal aksJSON
      deployK8S_ deployWireGuard_ unbounded_ dra home cfg) (plan f)) w) as Hcmd.
    { unfold command, Deploy_Command. rewrite Hpre, (bind_lift_Ok _ _ ()) by done. by apply run_plan. }
    specialize (Hkeep w). destruct (preflightChecks f ex w) as [[[]|e|p] w1] eqn:Hp; cbn [snd] in Hkeep;
      unfold id in Hkeep; subst w1.
    2,3: rewrite Hcmd; unfold mbind, M_bind; by rewrite Hp.
    rewrite (M_bind_Ok _ _ _ _ _ Hp) in Hcmd.
    pose proof (execute_plan_loop f ex os az arm json_Unmarshal aksJSON deployK8S_ deployWireGuard_ unbounded_ dra
      home cfg (plan f) w) as Hx.
    destruct (execute_plan _ _ _ _ _ _ _ _ _ _ _ _ _ _ _) as [[d r] w']. destruct Hx as (H1 & H2 & H3).
    rewrite Hcmd. split_and!; [done..|]. rewrite !Hplan. simpl. unfold PersistentPreRunE in Hpre.
    intros Hu. rewrite Hu in Hpre. by destruct (deploycilium f), (deployWireguard f).
  - split; [unfold command, Deploy_Command; by rewrite Hpre|].
    unfold PersistentPreRunE in Hpre. destruct (unboundedCNI f), (deploycilium f), (deployWireguard f); naive_solver.
  - unfold PersistentPreRunE in Hpre. by destruct (unboundedCNI f), (deploycilium f), (deployWireguard f).
Qed.

(** ** The WireGuard gateway *)
Class NetLaws {W} (net : NetAPI W) := {
  tables : W → gmap (string * string) RouteTable;
  subnets : W → gmap (string * string * string) Subnet;
  net_client_law sub : net_NewClient net sub = Ok ();
  table_get rg n t w : tables w !! (rg, n) = Some t → RouteTables_Get net rg n w = (Ok (Some t), w);
  table_put rg n t w :
    ∃ w1 w2, RouteTables_BeginPut net rg n (Some t) w = (Ok (), w1) ∧ RouteTables_Poll net rg n w1 = (Ok (), w2) ∧
      tables w2 = <[(rg, n) := t]> (tables w) ∧ subnets w2 = subnets w;
  subnet_get rg v n s w : subnets w !! (rg, v, n) = Some s → Subnets_Get net rg v n w = (Ok (Some s), w);
  subnet_put rg v n s w :
    ∃ w1 w2, Subnets_BeginPut net rg v n (Some s) w = (Ok (), w1) ∧ Subnets_Poll net rg v n w1 = (Ok (), w2) ∧
      subnets w2 = <[(rg, v, n) := s]> (subnets w) ∧ tables w2 = tables w;
}.

Section network.
Context {W : Type} (net : NetAPI W) {NL : NetLaws net} (cfg : Config.Config).
#[local] Set Default Proof Using "Type*".

Definition associated (s : Subnet) : Subnet :=
  {| sn_RouteTable := Some (Some (routeTableID cfg)); sn_Rest := sn_Rest s |}.
Definition subnet_key (n : string) : string * string * string := (ResourceGroupName cfg, "vnet", n).

Lemma associate_subnet_run n s w :
  subnets w !! subnet_key n = Some s →
  ∃ w', associate_subnet net cfg n w = (Ok (), w') ∧ subnets w' = <[subnet_key n := associated s]> (subnets w) ∧
        tables w' = tables w ∧ (s = associated s → w' = w).
Proof.
  intros Hs. unfold associate_subnet. rewrite (M_bind_Ok _ _ _ _ _ (wrapf_Ok _ _ _ _ _ _ (subnet_get _ _ _ _ _ Hs))).
  destruct (decide (sn_RouteTable s = Some (Some (routeTableID cfg)))) as [Hr|Hr].
  - rewrite bool_decide_eq_true_2 by done. exists w. split_and!; [done| |done|done].
    rewrite insert_id; [done|]. rewrite Hs. f_equal. destruct s. unfold associated. by simplify_eq/=.
  - rewrite bool_decide_eq_false_2 by done.
    destruct (subnet_put (ResourceGroupName cfg) "vnet" n (associated s) w) as (w1 & w2 & Hp & Hq & Hs2 & Ht).
    exists w2. split_and!; [|done|done|].
    + cbv zeta. fold (associated s). rewrite (M_bind_Ok _ _ _ _ _ (wrapf_Ok _ _ _ _ _ _ Hp)). by apply wrapf_Ok.
    + intros He. exfalso. apply Hr. by rewrite He.
Qed.

Lemma associate_run a n w :
  subnets w !! subnet_key "aks" = Some a → subnets w !! subnet_key "nodes" = Some n →
  ∃ w', associateRouteTableWithSubnets net cfg w = (Ok (), w') ∧ tables w' = tables w ∧
    subnets w' = <[subnet_key "nodes" := associated n]> (<[subnet_key "aks" := associated a]> (subnets w)) ∧
    (a = associated a → n = associated n → w' = w).
Proof.
  intros Ha Hn. destruct (associate_subnet_run "aks" a w Ha) as (w1 & H1 & S1 & T1 & U1).
  destruct (associate_subnet_run "nodes" n w1) as (w2 & H2 & S2 & T2 & U2).
  { by rewrite S1, lookup_insert_ne by (unfold subnet_key; congruence). }
  exists w2. split_and!; [|by rewrite T2|by rewrite S2, S1|intros; by rewrite U2, U1].
  unfold associateRouteTableWithSubnets. rewrite (bind_lift_Ok _ _ _ _ (net_client_law _)).
  cbn [for_each]. rewrite (M_bind_Ok _ _ _ _ _ H1). by rewrite (M_bind_Ok _ _ _ _ _ H2).
Qed.

End network.

Section gateway.
Context {W : Type} (az : Azure W) `{CC : Clientcmd} (ClientConfig : KConfig → res ()).
Context (ListNodes : gmap string string → M W (list GatewayNode)) (sleep15 : M W (option error)).
Context (cfg : Config.Config).
Notation getIP := (getWireGuardNodeIP az ClientConfig ListNodes cfg).
Notation wait := (λ fuel, wait_gateway az ClientConfig ListNodes sleep15 fuel cfg).

(** [n] failed polls, each followed by a full wait, lead from a world to another. *)
Inductive polls : nat → W → W → Prop :=
| polls_now w : polls 0 w w
| polls_again n w w1 w2 w' e :
    getIP w = (Err e, w1) → sleep15 w1 = (Ok None, w2) → polls n w2 w' → polls (S n) w w'.

(** The wait for the gateway ends as soon as a poll succeeds, with the
    addresses of that poll, however many polls have failed before; it ends with
    the error of the context when the context is done during a wait; and it
    never gives up before. *)
Theorem wireguard_wait_ends n w w' :
  polls n w w' →
  (∀ ips w2 fuel, getIP w' = (Ok ips, w2) → (n < fuel)%nat → wait fuel w = (Ok (Some ips), w2)) ∧
  (∀ e err w2 w3 fuel, getIP w' = (Err e, w2) → sleep15 w2 = (Ok (Some err), w3) → (n < fuel)%nat →
     wait fuel w = (Err err, w3)) ∧
  (∀ fuel, (fuel ≤ n)%nat → ∃ w2, wait fuel w = (Ok None, w2)).
Proof.
  intros H. induction H as [w|n w w1 w2 w' e Hg Hsl _ (IH1 & IH2 & IH3)]; split_and!.
  - intros ips w2 [|fuel] Hg Hf; [lia|]. cbn [wait_gateway]. by rewrite (attempt_Ok _ _ _ _ _ Hg).
  - intros e err w2 w3 [|fuel] Hg Hs Hf; [lia|]. cbn [wait_gateway]. rewrite (attempt_Err _ _ _ _ _ Hg).
    by rewrite (M_bind_Ok _ _ _ _ _ Hs).
  - intros [|fuel] Hf; [|lia]. by exists w.
  - intros ips w3 [|fuel] Hg' Hf; [lia|]. cbn [wait_gateway]. rewrite (attempt_Err _ _ _ _ _ Hg).
    rewrite (M_bind_Ok _ _ _ _ _ Hsl). apply IH1; [done|lia].
  - intros e' err w3 w4 [|fuel] Hg' Hs' Hf; [lia|]. cbn [wait_gateway]. rewrite (attempt_Err _ _ _ _ _ Hg).
    rewrite (M_bind_Ok _ _ _ _ _ Hsl). eapply IH2; [done|done|lia].
  - intros [|fuel] Hf; [by exists w|]. cbn [wait_gateway]. rewrite (attempt_Err _ _ _ _ _ Hg).
    rewrite (M_bind_Ok _ _ _ _ _ Hsl). apply IH3. lia.
Qed.
End gateway.

(** *** Keys *)
(** The Secrets after a list of objects is applied. *)
Definition applied (m : gmap (string * string) KSecret) (objs : list KObject) : gmap (string * string) KSecret :=
  foldl (λ m o, match o with
                | OSecret s => <[(sec_Namespace s, sec_Name s) := apply_secret s (m !! (sec_Namespace s, sec_Name s))]> m
                | _ => m
                end) m objs.

Lemma apply_all {W} (kube : Kube W) {KL : KubeLaws kube} objs owner w :
  ∃ w', ApplyUnstructuredObjects (kube_Apply kube) (Ok <$> objs) owner w = (Ok (), w') ∧
        secrets w' = applied (secrets w) objs.
Proof.
  revert w. unfold ApplyUnstructuredObjects, ApplyObject.
  induction objs as [|o objs IH]; intros w; [by exists w|].
  assert (∃ w1, kube_Apply kube o owner w = (Ok (), w1) ∧ secrets w1 = applied (secrets w) [o]) as (w1 & Ha & Hs1).
  { destruct o; [by apply (apply_other)|by apply (apply_other)|by apply (apply_other)|by apply apply_law]. }
  destruct (IH w1) as (w2 & Hr & Hs2). exists w2. rewrite Hs2, Hs1. split; [|done].
  cbn [fmap list_fmap for_each]. erewrite M_bind_Ok; [exact Hr|]. exact Ha.
Qed.

Section keys.
Context {W : Type} (az : Azure W) `{CC : Clientcmd} (kube : Kube W) {KL : KubeLaws kube}.
Context (ClientConfig : KConfig → res ()) (rand_Read : M W (list Z)) (ScalarBaseMult : list Z → list Z).
Context (execute : WgParams → res string) (decode : string → list (res KObject)) (cfg : Config.Config).
Context (Hclient : ∀ w, client_of az ClientConfig cfg w = (Ok (), w)).
Context (Hdoc : ∀ p, ∃ doc, execute p = Ok doc ∧ decode doc = Ok <$> wireguard_objects p).
#[local] Set Default Proof Using "Type*".
Notation keys := (getOrCreateWireGuardKeys az kube ClientConfig rand_Read ScalarBaseMult cfg).
Notation apply := (deployWireGuardToK8s az kube ClientConfig execute decode cfg).

(** The keys a deployment stores are the ones every later one finds, so the
    peers of the gateway stay valid; the keys a cluster holds are used without
    drawing new ones, and a Secret without one of the two is an error. *)
Theorem wireguard_keys_stable kp (w : W) :
  (∃ w', deployWireGuardToK8s az kube ClientConfig execute decode cfg kp w = (Ok (), w') ∧ keys w' = (Ok kp, w')) ∧
  (∀ s, secrets w !! ("wireguard", "wireguard-keys") = Some s →
     match sec_Data s !! "private.key", sec_Data s !! "public.key" with
     | Some priv, Some pub => keys w = (Ok {| PrivateKey := priv; PublicKey := pub |}, w)
     | _, _ => ∃ e, keys w = (Err e, w)
     end) ∧
  (secrets w !! ("wireguard", "wireguard-keys") = None →
   getOrCreateWireGuardKeys az kube ClientConfig rand_Read ScalarBaseMult cfg w = GenerateKeyPair rand_Read ScalarBaseMult w).
Proof.
  assert (∀ v s, secrets v !! ("wireguard", "wireguard-keys") = Some s →
     match sec_Data s !! "private.key", sec_Data s !! "public.key" with
     | Some priv, Some pub => keys v = (Ok {| PrivateKey := priv; PublicKey := pub |}, v)
     | _, _ => ∃ e, keys v = (Err e, v)
     end) as Hheld.
  { intros v s Hs. unfold getOrCreateWireGuardKeys. rewrite (M_bind_Ok _ _ _ _ _ (Hclient v)).
    rewrite (attempt_Ok _ _ _ _ _ (get_found _ _ _ _ Hs)).
    destruct (sec_Data s !! "private.key"), (sec_Data s !! "public.key"); [done|by eexists..]. }
  split_and!; [|apply Hheld|].
  - set (p := {| privateKeyBase64 := base64_EncodeToString (PrivateKey kp);
                 publicKeyBase64 := base64_EncodeToString (PublicKey kp); image := wgKubeImage |}).
    destruct (Hdoc p) as (doc & He & Hd).
    destruct (apply_all kube (wireguard_objects p) "stretch" w) as (w' & Ha & Hs). exists w'. split.
    + unfold deployWireGuardToK8s. rewrite (M_bind_Ok _ _ _ _ _ (Hclient w)). fold p.
      unfold ApplyYAMLSpec, decodeObjectsFromYAML. rewrite He, (M_bind_Ok _ _ w doc w) by done.
      apply wrapf_Ok. by rewrite Hd.
    + specialize (Hheld w'). rewrite Hs in Hheld. cbn [applied wireguard_objects foldl] in Hheld.
      rewrite lookup_insert_eq in Hheld. specialize (Hheld _ eq_refl).
      assert (∀ old k v, ({[ "private.key" := PrivateKey kp; "public.key" := PublicKey kp ]} : gmap string string) !! k = Some v →
        sec_Data (apply_secret {| sec_Namespace := "wireguard"; sec_Name := "wireguard-keys"; sec_Labels := ∅;
          sec_Data := {[ "private.key" := secret_value (privateKeyBase64 p);
                         "public.key" := secret_value (publicKeyBase64 p) ]}; sec_Type := "Opaque" |} old) !! k = Some v) as Hk.
      { intros old k v Hk. unfold secret_value, p. cbn [privateKeyBase64 publicKeyBase64]. rewrite !base64_round.
        destruct old; [by apply lookup_union_Some_l|done]. }
      rewrite (Hk _ "private.key" (PrivateKey kp)), (Hk _ "public.key" (PublicKey kp)) in Hheld by done.
      by destruct kp.
  - intros Hs. unfold getOrCreateWireGuardKeys. rewrite (M_bind_Ok _ _ _ _ _ (Hclient w)).
    destruct (get_missing _ _ _ Hs) as (e & He & Hn). rewrite (attempt_Err _ _ _ _ _ He). by rewrite Hn.
Qed.
End keys.

(** ** Temporary files *)
Class TempLaws {W} (ex : Exec W) := {
  temps : W → gset string;  (* the temporary files and directories *)
  run_temps name args env : keeps temps (RunCommand ex name args env);
  write_temps n d : keeps temps (WriteTemp ex n d);
  close_temps n : keeps temps (CloseTemp ex n);
  create_temps p w : match CreateTemp ex p w with
                     | (Ok n, w') => n ∉ temps w ∧ temps w' = {[ n ]} ∪ temps w
                     | (_, w') => temps w' = temps w
                     end;
  mkdir_temps p w : match MkdirTemp ex p w with
                    | (Ok n, w') => n ∉ temps w ∧ temps w' = {[ n ]} ∪ temps w
                    | (_, w') => temps w' = temps w
                    end;
  remove_temps n w : temps (Remove ex n w).2 = temps w ∖ {[ n ]};
  remove_all_temps n w : temps (RemoveAll ex n w).2 = temps w ∖ {[ n ]};
}.

Section temp.
Context {W : Type} (ex : Exec W) {TL : TempLaws ex}.

Lemma for_each_keeps {A V} (part : W → V) (g : A → M W ()) l : (∀ x, keeps part (g x)) → keeps part (for_each g l).
Proof.
  intros Hg. induction l as [|x l IH]; [apply keeps_ret|]. by apply keeps_bind.
Qed.

Lemma with_temp {A} n (s : gset string) (c : M W A) cleanup w :
  keeps temps c → (∀ w, temps (cleanup w).2 = temps w ∖ {[ n ]}) → n ∉ s → temps w = {[ n ]} ∪ s →
  temps (deferred cleanup c w).2 = s.
Proof.
  intros Hc Hcl Hn Hw. unfold deferred. specialize (Hc w). destruct (c w) as [r w1]. cbn [snd] in *.
  rewrite Hcl, Hc, Hw. set_solver.
Qed.

Context (os : OS W).
(** Files written inside a directory are not temporary entries of their own. *)
Context (Hwrite : ∀ p d, keeps temps (os_WriteFile os p d)) (Hmkdir : ∀ p, keeps temps (os_MkdirAll os p)).
#[local] Set Default Proof Using "Type*".

Lemma extract_temps assets w :
  match extractAssets ex os assets w with
  | (Ok n, w') => n ∉ temps w ∧ temps w' = {[ n ]} ∪ temps w
  | (Err _, w') => temps w' = temps w
  | (Panic _, _) => True
  end.
Proof.
  unfold extractAssets. pose proof (mkdir_temps "unbounded-cni-*" w) as Hcr.
  destruct (MkdirTemp ex "unbounded-cni-*" w) as [[n|e|p] w1] eqn:Em.
  2,3: unfold mbind, M_bind, wrapf; by rewrite Em.
  rewrite (M_bind_Ok _ _ _ _ _ (wrapf_Ok _ _ _ _ _ _ Em)). destruct Hcr as [Hn Hs].
  assert (keeps temps (for_each (extract_entry os n) assets)) as Hx.
  { apply for_each_keeps. intros [path [d|]]; unfold extract_entry; simpl; auto. }
  specialize (Hx w1). destruct (for_each (extract_entry os n) assets w1) as [[[]|e|p] w2] eqn:Ef; cbn [snd] in Hx.
  - rewrite (attempt_Ok _ _ _ _ _ Ef). cbn. by rewrite Hx.
  - rewrite (attempt_Err _ _ _ _ _ Ef). pose proof (remove_all_temps n w2) as Hr.
    unfold mbind, M_bind, attempt. destruct (RemoveAll ex n w2) as [[[]|e'|p] w3]; cbn [snd] in Hr; cbn; [| |done];
      rewrite Hr, Hx, Hs; set_solver.
  - unfold mbind, M_bind, attempt. by rewrite Ef.
Qed.

(** Whatever fails on the way, short of a panic, the commands that use a
    temporary file or directory leave none behind. *)
Theorem temporary_files_removed yaml assets kubeconfigFile (w : W) :
  temps (installDRADriver ex yaml w).2 = temps w ∧
  ((∀ p, (unbounded_Deploy ex os assets kubeconfigFile w).1 ≠ Panic p) →
   temps (unbounded_Deploy ex os assets kubeconfigFile w).2 = temps w).
Proof.
  split.
  - unfold installDRADriver. pose proof (create_temps "dra-driver-values-*.yaml" w) as Hcr.
    destruct (CreateTemp ex "dra-driver-values-*.yaml" w) as [[n|e|p] w1] eqn:Ec.
    2,3: unfold mbind, M_bind, wrapf; by rewrite Ec.
    rewrite (M_bind_Ok _ _ _ _ _ (wrapf_Ok _ _ _ _ _ _ Ec)).
    destruct Hcr as [Hn Hs]. apply (with_temp n); [|apply remove_temps|done|done].
    apply keeps_bind; [apply keeps_wrapf, write_temps|intros _].
    apply keeps_bind; [apply keeps_wrapf, close_temps|intros _].
    apply for_each_keeps. intros x. apply keeps_wrapf, run_temps.
  - unfold unbounded_Deploy. pose proof (extract_temps assets w) as Hx. intros Hp.
    destruct (extractAssets ex os assets w) as [[n|e|p] w1] eqn:Ex.
    + rewrite (M_bind_Ok _ _ _ _ _ Ex). destruct Hx as [Hn Hs].
      apply (with_temp n); [|apply remove_all_temps|done|done].
      apply keeps_bind; [apply for_each_keeps; intros x; apply keeps_wrapf, run_temps|intros _].
      apply keeps_bind; [|intros _]; apply keeps_wrapf, run_temps.
    + unfold mbind, M_bind. by rewrite Ex.
    + exfalso. apply (Hp p). unfold mbind, M_bind. by rewrite Ex.
Qed.
End temp.

(** ** The hypotheses can hold *)
Module DMem.
(** A world that records the commands that ran. *)
Definition ex : Exec (list string) := {|
  LookPath t := mret ("/usr/bin/" +:+ t);
  RunCommand n args _ := λ w, (Ok (), w ++ [GoStr.Join (n :: args) " "]);
  CreateTemp _ := mret "/tmp/x"; WriteTemp _ _ := mret (); CloseTemp _ := mret ();
  MkdirTemp _ := mret "/tmp/d"; Remove _ := mret (); RemoveAll _ := mret ();
|}.
Definition os : OS (list string) := {|
  os_ReadFile _ := mret "merged"; os_WriteFile _ _ := mret (); os_MkdirAll _ := mret (); IsNotExist _ := true |}.
Definition az : Azure (list string) := {|
  arm_Client _ := Ok (); ListClusterAdminCredentials _ _ := mret ["new"]; ManagedClusters_Get _ _ := mret None |}.
Definition arm : ARM (list string) := {|
  arm_NewClient _ := Ok (); ResourceGroups_CreateOrUpdate _ _ _ := mret ();
  Deployments_BeginCreateOrUpdate _ _ n _ := λ w, (Ok (), w ++ ["arm " +:+ n]);
  Deployments_PollUntilDone _ _ _ := mret (); PublicIPAddresses_Get _ _ _ := mret None |}.
Definition flags : Flags := {| deploycilium := false; deployWireguard := true; unboundedCNI := false;
  deployGPUOperator := true; deployGPUDevicePlugin := false; deployDRADriver := false; skipARM := false;
  kubeconfigToSave := "/root/config" |}.

(** A network of one route table and two subnets. *)
Definition N : Type := gmap (string * string) RouteTable * gmap (string * string * string) Subnet.
Definition net : NetAPI N := {|
  net_NewClient _ := Ok ();
  RouteTables_Get rg n := λ w, (Ok (w.1 !! (rg, n)), w);
  RouteTables_BeginPut rg n t := λ w, (Ok (), (match t with Some t => <[(rg, n) := t]> w.1 | None => w.1 end, w.2));
  RouteTables_Poll _ _ := mret ();
  Subnets_Get rg v n := λ w, (Ok (w.2 !! (rg, v, n)), w);
  Subnets_BeginPut rg v n s := λ w, (Ok (), (w.1, match s with Some s => <[(rg, v, n) := s]> w.2 | None => w.2 end));
  Subnets_Poll _ _ _ := mret ();
|}.
#[global] Instance net_laws : NetLaws net.
Proof.
  refine {| tables := fst; subnets := snd |}; try done.
  - intros rg n t w H. simpl. by rewrite H.
  - intros rg n t w. by do 2 eexists.
  - intros rg v n s w H. simpl. by rewrite H.
  - intros rg v n s w. by do 2 eexists.
Defined.

(** A cluster whose gateway registers after two waits. *)
Definition az_n : Azure nat := {|
  arm_Client _ := Ok (); ListClusterAdminCredentials _ _ := mret ["new"]; ManagedClusters_Get _ _ := mret None |}.
Definition gateway : GatewayNode :=
  Ok (Some [NotMap; AddressMap (Ok "ExternalIP") (Ok "192.0.2.10"); AddressMap (Ok "InternalIP") (Ok "10.0.0.4")]).
Definition ListNodes (_ : gmap string string) : M nat (list GatewayNode) :=
  λ n, (Ok (if (2 <=? n)%nat then [gateway] else []), n).
Definition sleep15 : M nat (option error) := λ n, (Ok None, S n).

Definition execute (p : WgParams) : res string :=
  Ok (KMem.pos_str (encode (privateKeyBase64 p, publicKeyBase64 p, image p))).
Definition decode (s : string) : list (res KObject) :=
  match countable.decode (KMem.str_pos s) with
  | Some (a, b, c) => Ok <$> wireguard_objects (Build_WgParams a b c)
  | None => []
  end.
Lemma wireguard_decode_execute p : ∃ doc, execute p = Ok doc ∧ decode doc = Ok <$> wireguard_objects p.
Proof. eexists. split; [done|]. unfold decode. rewrite KMem.str_pos_str, decode_encode. by destruct p. Qed.

(** A file system of temporary entries. *)
Definition ex_t : Exec (gset string) := {|
  LookPath t := mret t; RunCommand _ _ _ := fail (ErrExt "exit status 1");
  CreateTemp p := λ w, let n := infinite_fresh (elements w) in (Ok n, {[ n ]} ∪ w);
  WriteTemp _ _ := mret (); CloseTemp _ := mret ();
  MkdirTemp p := λ w, let n := infinite_fresh (elements w) in (Ok n, {[ n ]} ∪ w);
  Remove n := λ w, (Ok (), w ∖ {[ n ]}); RemoveAll n := λ w, (Ok (), w ∖ {[ n ]});
|}.
#[global] Instance temp_laws : TempLaws ex_t.
Proof.
  refine {| temps w := w |}; try done; intros p w; simpl; (split; [|done]);
    rewrite <-elem_of_elements; apply infinite_is_fresh.
Defined.
Definition os_t : OS (gset string) := {|
  os_ReadFile _ := mret ""; os_WriteFile _ _ := mret (); os_MkdirAll _ := mret (); IsNotExist _ := true |}.
End DMem.

Lemma deploy_runs_plan_witness :
  ∃ w', Deploy_Command DMem.flags DMem.ex DMem.os DMem.az DMem.arm test_environ (λ _ _, Err (ErrExt "az"))
    (Ok ()) (λ s, Ok s) "{}" (λ _, mret ()) (λ _, mret ()) (λ _, mret ()) "" "/root/.kube/config" [] = (Ok (), w') ∧
    length w' = 4%nat.
Proof.
  pose proof (deploy_runs_plan DMem.flags DMem.ex DMem.os DMem.az DMem.arm test_environ (λ _ _, Err (ErrExt "az"))
    (λ s, Ok s) "{}" (λ _, mret ()) (λ _, mret ()) (λ _, mret ()) "" "/root/.kube/config" Mem.cfg [] (λ _ _, eq_refl) eq_refl) as H.
  cbv zeta in H. change (PersistentPreRunE DMem.flags) with (Ok ()) in H.
  change (preflightChecks DMem.flags DMem.ex []) with (Ok (), @nil string) in H. cbv iota beta in H.
  destruct (execute_plan _ _ _ _ _ _ _ _ _ _ _ _ _ _ _) as [[d r] w'] eqn:E. vm_compute in E. injection E as <- <- <-.
  destruct H as (H & _). eexists. split; [exact H|reflexivity].
Defined.


Lemma wireguard_wait_ends_witness :
  wait_gateway DMem.az_n (λ _, Ok ()) DMem.ListNodes DMem.sleep15 3 Mem.cfg 0%nat =
  (Ok (Some ("192.0.2.10", "10.0.0.4")), 2%nat).
Proof.
  destruct (wireguard_wait_ends DMem.az_n (λ _, Ok ()) DMem.ListNodes DMem.sleep15 Mem.cfg 2 0%nat 2%nat) as (H & _).
  - do 2 (eapply polls_again; [reflexivity|reflexivity|]). apply polls_now.
  - apply H; [reflexivity|lia].
Defined.

Lemma wireguard_keys_stable_witness :
  let kp := {| PrivateKey := "priv"; PublicKey := "pub" |} in
  ∃ w', deployWireGuardToK8s KMem.az KMem.kube (λ _, Ok ()) DMem.execute DMem.decode Mem.cfg kp ∅ = (Ok (), w') ∧
    getOrCreateWireGuardKeys KMem.az KMem.kube (λ _, Ok ()) (mret []) id Mem.cfg w' = (Ok kp, w').
Proof.
  intros kp. assert (∀ w, client_of KMem.az (λ _, Ok ()) Mem.cfg w = (Ok (), w)) as Hc by (intros w; reflexivity).
  destruct (wireguard_keys_stable KMem.az KMem.kube (λ _, Ok ()) (mret []) id DMem.execute DMem.decode
    Mem.cfg Hc DMem.wireguard_decode_execute kp ∅) as ((w' & H) & _).
  exists w'. exact H.
Defined.

Lemma temporary_files_removed_witness :
  (installDRADriver DMem.ex_t "" {[ "a" ]}).2 = {[ "a" ]}.
Proof.
  destruct (temporary_files_removed DMem.ex_t DMem.os_t (λ _ _ _, eq_refl) (λ _ _, eq_refl) "" [] "" {[ "a" ]}) as [H _].
  exact H.
Defined.
