(* ===== verification/ConfigCmd.v ===== *)
(** * The configuration commands

    [cli/internal/config]: the default agent pools and networks of each cloud
    ([agentpools], [networks]), the environment file ([env]), the Helm values of
    Karpenter ([karpenter]), the site of the unbounded CNI ([unboundedcni]) and
    the node bootstrap output ([nodebootstrap]). *)
From S2P Require Import Prelude GoStr Karp Helper Proto UserData NebiusResource NebiusInstance Encoding Script Config K8s Kubeadm Aws Azure.
From stdpp Require Import options.

(** A value in double quotes, as the templates write it. *)
Definition dq : string := String "034" "".
Definition quoted (v : string) : string := dq +:+ v +:+ dq.

(** ** Default objects *)
Section defaults.
Context {W : Type}.
(** [configcmd.DefaultConfig] and [configcmd.DefaultKubeadmConfig]. *)
Context (cfg : option Config.Config) (DefaultKubeadmConfig : M W kubeadm.Config).

Definition newAWSAgentPool : M W ubuntu2404instance.AgentPool :=
  k ← DefaultKubeadmConfig;
  mret {| ubuntu2404instance.Metadata :=
            Some (api.NewMetadata "agentpools.aws.ubuntu2404instance.AgentPool" "aws-default");
          ubuntu2404instance.Spec := Some
            {| ubuntu2404instance.Region := Some "us-east-1";
               ubuntu2404instance.Subnet := Some (OrPlaceholder "");
               ubuntu2404instance.SecurityGroup := Some (OrPlaceholder "");
               ubuntu2404instance.Kubeadm := Some k |};
          ubuntu2404instance.Status := None |}.

Definition newAzureAgentPool : M W ubuntu2404vmss.AgentPool :=
  let id := "azure-default" in
  let location := match cfg with Some c => Location c | None => OrPlaceholder "" end in
  let sku := match cfg with Some c => StretchNodeVMSize c | None => "Standard_D4s_v3" end in
  let zones := match cfg with Some c => StretchNodeZones c | None => [] end in
  let resourceID := match cfg with
    | Some c => "/subscriptions/" +:+ SubscriptionID c +:+ "/resourceGroups/" +:+ ResourceGroupName c +:+
                "/providers/Microsoft.Compute/virtualMachineScaleSets/" +:+ id
    | None => ""
    end in
  k ← DefaultKubeadmConfig;
  mret {| ubuntu2404vmss.Metadata :=
            Some (api.NewMetadata "agentpools.azure.ubuntu2404vmss.AgentPool" id);
          ubuntu2404vmss.Spec := Some
            {| ubuntu2404vmss.ResourceId := Some (OrPlaceholder resourceID);
               ubuntu2404vmss.Location := Some (OrPlaceholder location);
               ubuntu2404vmss.SubnetId := Some (OrPlaceholder "");
               ubuntu2404vmss.Sku := Some sku; ubuntu2404vmss.Zones := zones;
               ubuntu2404vmss.Capacity :=
                 Some {| capacity.Capacity := Some 1; capacity.CapacityType_ := None |};
               ubuntu2404vmss.Kubeadm := Some k |};
          ubuntu2404vmss.Status := None |}.

Definition newNebiusAgentPool : M W nebius.AgentPool :=
  let projectID := match cfg with Some c => NebiusProjectID c | None => "" end in
  let region := match cfg with Some c => NebiusRegion c | None => "" end in
  k ← DefaultKubeadmConfig;
  mret {| nebius.Metadata := Some (api.NewMetadata "agentpools.nebius.instance.AgentPool" "nebius-default");
          nebius.Spec := Some
            {| nebius.ProjectId := Some (OrPlaceholder projectID); nebius.Region := Some (OrPlaceholder region);
               nebius.SubnetId := Some (OrPlaceholder ""); nebius.Platform := Some (OrPlaceholder "");
               nebius.Preset := Some (OrPlaceholder ""); nebius.ImageFamily := Some (OrPlaceholder "");
               nebius.OsDiskSizeGibibytes := Some 128; nebius.Kubeadm := Some k;
               nebius.Wireguard := Some {| wireguard.PeerIp := Some (OrPlaceholder "") |};
               nebius.Gpu := None; nebius.Zone := None; nebius.Capacity := None;
               nebius.KubernetesVersion := None |};
          nebius.Status := None |}.

Definition newAWSNetwork : awsvpc.Network :=
  {| awsvpc.Metadata := Some (api.NewMetadata "networks.aws.vpc.Network" "aws-default");
     awsvpc.Spec := Some {| awsvpc.Region := Some (OrPlaceholder "");
                            awsvpc.Vnet := Some {| vnet.CidrBlock := Some (OrPlaceholder "") |} |};
     awsvpc.Status := None |}.

(** The configuration is dereferenced even when it could not be loaded. *)
Definition newNebiusNetwork : res vpc.Network :=
  match cfg with
  | None => Panic "nil pointer dereference"
  | Some c =>
      Ok {| vpc.Metadata := Some (api.NewMetadata "networks.nebius.network.Network" "nebius-default");
            vpc.Spec := Some {| vpc.ProjectId := Some (OrPlaceholder (NebiusProjectID c));
                                vpc.Region := Some (OrPlaceholder (NebiusRegion c));
                                vpc.Vnet := Some {| vnet.CidrBlock := Some "172.20.0.0/16" |} |};
            vpc.Status := None |}
  end.

(** [WriteProtoJSON] and [ProtoHandler], over [protojson] and the output. *)
Definition WriteProtoJSON {P} (protojson_Marshal : P → res string) (write : string → M W ()) (msg : P) : M W () :=
  data ← wrapf "marshaling to JSON: %w" [] (lift (protojson_Marshal msg));
  write (data +:+ nl).
Definition ProtoHandler {P} (protojson_Marshal : P → res string) (write : string → M W ()) (fn : M W P) : M W () :=
  msg ← fn; WriteProtoJSON protojson_Marshal write msg.

(** The routers of [config agentpools] and [config networks]. *)
Definition agentpools_router (json_aws : ubuntu2404instance.AgentPool → res string)
    (json_azure : ubuntu2404vmss.AgentPool → res string) (json_nebius : nebius.AgentPool → res string)
    (write : string → M W ()) : res (Router W) :=
  r ← Handle "aws" (ProtoHandler json_aws write newAWSAgentPool) NewRouter;
  r ← Handle "azure" (ProtoHandler json_azure write newAzureAgentPool) r;
  r ← Handle "nebius" (ProtoHandler json_nebius write newNebiusAgentPool) r;
  mret r.
Definition networks_router (json_aws : awsvpc.Network → res string) (json_nebius : vpc.Network → res string)
    (write : string → M W ()) : res (Router W) :=
  r ← Handle "aws" (ProtoHandler json_aws write (mret newAWSNetwork)) NewRouter;
  r ← Handle "nebius" (ProtoHandler json_nebius write (lift newNebiusNetwork)) r;
  mret r.
End defaults.

(** ** [config node-bootstrap] *)
Section nodebootstrap.
Context {W : Type} (DefaultKubeadmConfig : M W kubeadm.Config) (write : string → M W ()).
Context (yaml_Marshal : UserData → res string) (flagVariant : string).

(** [marshalUserData] and the write of its output. *)
Definition emit (ud : UserData) : M W () :=
  data ← lift (marshalUserData yaml_Marshal flagVariant ud);
  write data.

Definition writeFlexUserData (marshal_step : flex.Step → res string) (json_Marshal : list string → res string)
    (bootstrapTemplate : string → string → res string)
    (flagEnableNvidiaGPURuntime : bool) (flagArch flagKubeVersion : string) : M W () :=
  k ← DefaultKubeadmConfig;
  ud ← wrapf "generating flex userdata: %w" []
         (lift (flex.UserData marshal_step json_Marshal bootstrapTemplate
            [flex.WithEnableNvidiaGPURuntime flagEnableNvidiaGPURuntime; flex.WithArch flagArch;
             flex.WithKubeVersion flagKubeVersion; flex.WithKubeadmConfig (Some k)]));
  emit ud.

Definition writeUbuntuUserData (encode_kubeconfig : KConfig → res string)
    (range : gmap string string → list (string * string)) (encode_join : JoinConfiguration → res string) : M W () :=
  k ← DefaultKubeadmConfig;
  ud ← wrapf "generating ubuntu userdata: %w" []
         (lift (ubuntu.UserData (kubeadm_Kubeconfig encode_kubeconfig) (JoinConfig range encode_join) (Some k)));
  emit ud.
End nodebootstrap.

(** ** [config env] *)
Record configContext := {
  cc_AzureLocation : string; cc_AzureSubscriptionID : string; cc_AzureResourceGroupName : string;
  cc_EnableNebius : bool; cc_NebiusProjectID : string;
}.

Section env.
(** The output of a command, the current user, and the time as [0102-1504]. *)
Context (Output : string → list string → res string) (current_user : res string) (now : string).

Definition ResolveAzureConfig : string * string * string :=
  let sub := match Output "az" ["account"; "show"; "--query"; "id"; "-o"; "tsv"] with
             | Ok v => TrimSpace v
             | _ => ""
             end in
  let rg := match current_user with
            | Ok u => "rg-aks-flex-" +:+ ToLower u
            | _ => "rg-aks-flex-" +:+ now
            end in
  ("southcentralus", sub, rg).

Definition ResolveNebiusConfig (flagEnableNebius : bool) : string :=
  if flagEnableNebius then
    match Output "nebius" ["config"; "get"; "parent-id"] with
    | Ok v => TrimSpace v
    | _ => "<update with your Nebius project ID>"
    end
  else "".

Definition env_context (flagEnableNebius : bool) : configContext :=
  let '(loc, sub, rg) := ResolveAzureConfig in
  {| cc_AzureLocation := loc; cc_AzureSubscriptionID := sub; cc_AzureResourceGroupName := rg;
     cc_EnableNebius := flagEnableNebius; cc_NebiusProjectID := ResolveNebiusConfig flagEnableNebius |}.

Definition rule : string := "# -----------------------------------------------------------------------------".

Definition configTemplate (cc : configContext) : string :=
  nl +:+ Join ([
    "# !! This file includes sensitive information, please do not commit it to any public repository !!";
    "# Please update the values in this file for your environment."; "";
    rule; "# Azure Config"; rule;
    "# Azure side resource location"; "export LOCATION=" +:+ cc_AzureLocation cc;
    "# Azure side subscription ID"; "export AZURE_SUBSCRIPTION_ID=" +:+ cc_AzureSubscriptionID cc;
    "# Azure side resource group name"; "export RESOURCE_GROUP_NAME=" +:+ cc_AzureResourceGroupName cc; "";
    rule; "# Remote Clouds Config"; rule] ++
   (if cc_EnableNebius cc then [
    "# Nebius project ID"; "export NEBIUS_PROJECT_ID=" +:+ cc_NebiusProjectID cc;
    "# Nebius region"; "export NEBIUS_REGION=<update with your Nebius region>";
    "# Nebius credential file path";
    "# ref: https://docs.nebius.com/iam/service-accounts/authorized-keys";
    "export NEBIUS_CREDENTIALS_FILE=<update with your Nebius credential file path>"] else [])) nl +:+ nl.

Definition env_run (flagEnableNebius : bool) : string :=
  TrimSpace (configTemplate (env_context flagEnableNebius)) +:+ nl.
End env.

(** ** [config unbounded-cni site] *)
Definition site_document (name nodeCIDR podCIDR : string) : string :=
  Join ["apiVersion: unbounded.aks.azure.com/v1alpha1"; "kind: Site"; "metadata:"; "  name: " +:+ name; "spec:";
        "  nodeCidrs:";
        "    - " +:+ quoted nodeCIDR +:+ " # Should match the private network space in the environment";
        "  podCidrAssignments:"; "    - assignmentEnabled: true"; "      cidrBlocks:";
        "        - " +:+ quoted podCIDR +:+ " # Pod CIDR range for this site";
        "      nodeBlockSizes:"; "        ipv4: 24"; "      priority: 100"; "---";
        "apiVersion: unbounded.aks.azure.com/v1alpha1"; "kind: SiteGatewayPoolAssignment"; "metadata:";
        "  name: main-gateway-" +:+ name; "spec:"; "  sites:"; "    - " +:+ quoted name;
        "  gatewayPools:"; "    - " +:+ quoted "main-gateways"; ""] nl.
Definition renderSite (flagName flagNodeCIDR flagPodCIDR : string) : string :=
  site_document (OrPlaceholder flagName) (OrPlaceholder flagNodeCIDR) (OrPlaceholder flagPodCIDR).

(** ** Sourcing the environment file

    The fragment of the shell the file of [config env] is in: comments, blank
    lines and assignments of words that need no quoting. *)
Definition source_line (l : string) (environ : gmap string string) : option (gmap string string) :=
  if bool_decide (l = "") || HasPrefix l "#" then Some environ
  else if HasPrefix l "export " then
    '(k, v) ← cut_char "=" (TrimPrefix l "export ");
    if needsQuoting v then None else Some (<[k := v]> environ)
  else None.

Fixpoint sh_source (ls : list string) (environ : gmap string string) : option (gmap string string) :=
  match ls with
  | [] => Some environ
  | l :: ls => environ ← source_line l environ; sh_source ls environ
  end.

Lemma trim_right_app a b : trim_right b ≠ "" → trim_right (a +:+ b) = a +:+ trim_right b.
Proof.
  intros Hb. induction a as [|c a IH]; [done|].
  change (trim_right (String c (a +:+ b)) = String c (a +:+ trim_right b)). cbn [trim_right].
  rewrite IH. destruct a; [|done]. cbn [String.append]. by destruct (trim_right b).
Qed.

Lemma Join_unlines l x : Join (l ++ [x]) nl = unlines_str l +:+ x.
Proof.
  induction l as [|y l IH]; [done|].
  change (unlines_str (y :: l)) with ((y +:+ nl) +:+ unlines_str l).
  rewrite !str_app_assoc, <-IH. by destruct l.
Qed.

Lemma plain_no_nl v : needsQuoting v = false → no_nl v.
Proof.
  unfold no_nl, no_char, needsQuoting. induction v as [|c v IH]; [done|].
  cbn [str_exists str_forall]. intros [Hc Hv]%orb_false_elim. rewrite (IH Hv), andb_true_r.
  apply negb_false_iff in Hc. apply bool_decide_eq_true. intros ->. discriminate Hc.
Qed.

Lemma source_export k v environ :
  no_char "=" k = true → needsQuoting v = false →
  source_line ("export " +:+ k +:+ "=" +:+ v) environ = Some (<[k := v]> environ).
Proof.
  intros Hk Hv. unfold source_line. rewrite bool_decide_eq_false_2 by done.
  rewrite HasPrefix_app, TrimPrefix_app. cbn [orb HasPrefix String.prefix].
  change (HasPrefix ("export " +:+ k +:+ "=" +:+ v) "#") with false. cbn [orb].
  assert (cut_char "=" (k +:+ "=" +:+ v) = Some (k, v)) as ->; [|cbn; by rewrite Hv].
  unfold no_char in Hk. induction k as [|c k IH]; [done|].
  cbn [str_forall] in Hk. apply andb_true_iff in Hk as [Hc Hk]. apply bool_decide_eq_true in Hc.
  change (cut_char "=" (String c (k +:+ "=" +:+ v)) = Some (String c k, v)). cbn [cut_char].
  rewrite decide_False by done. by rewrite (IH Hk).
Qed.

(** The network [config networks nebius] is documented to print. *)
Definition default_network (projectID region : string) : vpc.Network :=
  {| vpc.Metadata := Some (api.NewMetadata "networks.nebius.network.Network" "nebius-default");
     vpc.Spec := Some {| vpc.ProjectId := Some (OrPlaceholder projectID);
                         vpc.Region := Some (OrPlaceholder region);
                         vpc.Vnet := Some {| vnet.CidrBlock := Some "172.20.0.0/16" |} |};
     vpc.Status := None |}.

(** The lines of the file, without those of Nebius. *)
Definition env_lines (loc sub rg : string) : list string :=
  ["# !! This file includes sensitive information, please do not commit it to any public repository !!";
   "# Please update the values in this file for your environment."; "";
   rule; "# Azure Config"; rule;
   "# Azure side resource location"; "export LOCATION=" +:+ loc;
   "# Azure side subscription ID"; "export AZURE_SUBSCRIPTION_ID=" +:+ sub;
   "# Azure side resource group name"; "export RESOURCE_GROUP_NAME=" +:+ rg; "";
   rule; "# Remote Clouds Config"].

Lemma env_run_lines Output current_user now :
  let '(loc, sub, rg) := ResolveAzureConfig Output current_user now in
  env_run Output current_user now false = unlines_str (env_lines loc sub rg ++ [rule]).
Proof.
  unfold env_run, env_context. destruct (ResolveAzureConfig Output current_user now) as [[loc sub] rg].
  unfold configTemplate. cbn [cc_EnableNebius cc_AzureLocation cc_AzureSubscriptionID cc_AzureResourceGroupName ResolveNebiusConfig].
  rewrite app_nil_r.
  match goal with |- context [Join ?l nl] => change l with (env_lines loc sub rg ++ [rule]) end.
  rewrite Join_unlines, str_app_assoc, <-(str_app_assoc nl). unfold TrimSpace.
  rewrite trim_right_app by done.
  assert (trim_right (rule +:+ nl) = rule) as -> by (vm_compute; reflexivity).
  rewrite unlines_app.
  change (unlines_str [rule]) with ((rule +:+ nl) +:+ ""). rewrite str_app_nil_r, <-str_app_assoc. done.
Qed.

Lemma env_lines_no_nl loc sub rg :
  no_nl loc → no_nl sub → no_nl rg → Forall no_nl (env_lines loc sub rg ++ [rule]).
Proof.
  intros Hl Hs Hr. repeat constructor; try (vm_compute; reflexivity); by apply no_nl_app.
Qed.

Lemma sh_source_env loc sub rg environ :
  needsQuoting loc = false → needsQuoting sub = false → needsQuoting rg = false →
  sh_source ((env_lines loc sub rg ++ [rule]) ++ [""]) environ =
  Some (<["RESOURCE_GROUP_NAME" := rg]> (<["AZURE_SUBSCRIPTION_ID" := sub]> (<["LOCATION" := loc]> environ))).
Proof.
  intros Hl Hs Hr. unfold env_lines.
  pose proof (source_export "LOCATION" loc) as EL.
  pose proof (source_export "AZURE_SUBSCRIPTION_ID" sub) as ES.
  pose proof (source_export "RESOURCE_GROUP_NAME" rg) as ER.
  cbn [app sh_source]. repeat (cbn [mbind option_bind]; first
    [ rewrite (EL _ eq_refl Hl) | rewrite (ES _ eq_refl Hs) | rewrite (ER _ eq_refl Hr)
    | match goal with |- context [source_line ?l ?e] => change (source_line l e) with (Some e) end ]).
  done.
Qed.

(** The routes of the two routers. *)
Lemma Handle_new {W A} cloud h (r : Router W) (f : Router W → res A) :
  rt_routes r !! cloud = None →
  (Handle cloud h r ≫= f) = f {| rt_clouds := rt_clouds r ++ [cloud]; rt_routes := <[cloud := h]> (rt_routes r) |}.
Proof. unfold Handle. by intros ->. Qed.

Lemma agentpools_routes {W} cfg k json_aws json_azure json_nebius write (r : Router W) :
  agentpools_router cfg k json_aws json_azure json_nebius write = Ok r →
  rt_routes r !! "aws" = Some (ProtoHandler json_aws write (newAWSAgentPool k)) ∧
  rt_routes r !! "azure" = Some (ProtoHandler json_azure write (newAzureAgentPool cfg k)) ∧
  rt_routes r !! "nebius" = Some (ProtoHandler json_nebius write (newNebiusAgentPool cfg k)) ∧
  rt_clouds r = ["aws"; "azure"; "nebius"].
Proof. unfold agentpools_router. rewrite !Handle_new by done. intros E. injection E as <-. by split_and!. Qed.

Lemma networks_routes {W} cfg json_aws json_nebius write (r : Router W) :
  networks_router cfg json_aws json_nebius write = Ok r →
  rt_routes r !! "aws" = Some (ProtoHandler json_aws write (mret newAWSNetwork)) ∧
  rt_routes r !! "nebius" = Some (ProtoHandler json_nebius write (lift (newNebiusNetwork cfg))) ∧
  rt_clouds r = ["aws"; "nebius"] ∧
  ∀ c, c ∉ ["aws"; "nebius"] → rt_routes r !! c = None.
Proof.
  unfold networks_router. rewrite !Handle_new by done. intros E. injection E as <-. split_and!; [done..|].
  intros c Hc. cbn [rt_routes]. rewrite !lookup_insert_ne, lookup_empty by set_solver. done.
Qed.

(** ** The theorems *)


Section default_pool.
Context {W W' Msg : Type} {PR : ProtoRuntime Msg}.
Context (of_AgentPool : nebius.AgentPool → Msg) (as_AgentPool : Msg → option nebius.AgentPool).
Context (FromError : error → option Code) (sdkPointer : option (SDK W')).
Context (marshal_step : flex.Step → res string) (json_Marshal : list string → res string)
        (bootstrapTemplate : string → string → res string)
        (yaml_Marshal : UserData → res string) (wgSpokeScript : string).
Context (json_aws : ubuntu2404instance.AgentPool → res string)
        (json_azure : ubuntu2404vmss.AgentPool → res string) (json_nebius : nebius.AgentPool → res string)
        (protojson_Unmarshal : string → res nebius.AgentPool).
Context (json_round : ∀ ap data, json_nebius ap = Ok data → protojson_Unmarshal (data +:+ nl) = Ok ap).
Context (put : string → W → W).
Notation write := (λ s w, (Ok (), put s w)).

(** What [config agentpools nebius] prints, applied unchanged, is refused by
    the agent pool server for want of a Kubernetes version, whatever the
    cluster and the configuration it was generated from. *)
Theorem default_nebius_pool_refused cfg DefaultKubeadmConfig r k data w w1 :
  agentpools_router cfg DefaultKubeadmConfig json_aws json_azure json_nebius write = Ok r →
  DefaultKubeadmConfig w = (Ok k, w1) →
  (∀ ap, fst (newNebiusAgentPool cfg DefaultKubeadmConfig w) = Ok ap → json_nebius ap = Ok data) →
  Router_RunE r "Nebius" w = (Ok (), put (data +:+ nl) w1) ∧
  ∃ ap, protojson_Unmarshal (data +:+ nl) = Ok ap ∧
    ∀ it w', AnyTo as_AgentPool (Some it) = Ok ap →
      Instance_CreateOrUpdate of_AgentPool as_AgentPool FromError sdkPointer marshal_step json_Marshal
        bootstrapTemplate yaml_Marshal wgSpokeScript (Some it) w' =
      (Err (ErrStatus InvalidArgument "kubernetes_version is required"), w').
Proof using All.
  intros Er Hk Hj. apply agentpools_routes in Er as (_ & _ & Er & _).
  unfold Router_RunE. change (ToLower "Nebius") with "nebius". rewrite Er.
  pose proof (M_bind_Ok _ _ _ _ _ Hk : newNebiusAgentPool cfg DefaultKubeadmConfig w = _) as Hn.
  rewrite Hn in Hj. specialize (Hj _ eq_refl).
  split.
  - unfold ProtoHandler. rewrite (M_bind_Ok _ _ _ _ _ Hn). unfold WriteProtoJSON.
    by rewrite (M_bind_Ok _ _ _ _ _ (wrapf_Ok _ _ _ _ _ _ (f_equal (λ x, (x, w1)) Hj))).
  - eexists. split; [by apply json_round|]. intros it w' Hit. by eapply create_no_version.
Qed.
End default_pool.

(** [config networks nebius] prints the network of the configuration, and
    crashes where the other networks and the agent pools fall back to
    placeholders: when there is no configuration. *)
Theorem networks_need_config {W} cfg json_aws json_nebius (write : string → M W ()) r (w : W) :
  networks_router cfg json_aws json_nebius write = Ok r →
  Router_RunE r "aws" w = WriteProtoJSON json_aws write newAWSNetwork w ∧
  Router_RunE r "nebius" w =
    match cfg with
    | None => (Panic "nil pointer dereference", w)
    | Some c => WriteProtoJSON json_nebius write (default_network (NebiusProjectID c) (NebiusRegion c)) w
    end ∧
  ∀ cloud, ToLower cloud ∉ ["aws"; "nebius"] →
    Router_RunE r cloud w = (Err (Errorf "unsupported remote cloud %q, supported: %v" [ToLower cloud; "aws"; "nebius"] []), w).
Proof.
  intros Er. apply networks_routes in Er as (Ea & En & Ec & Eo). unfold Router_RunE. split_and!.
  - change (ToLower "aws") with "aws". by rewrite Ea.
  - change (ToLower "nebius") with "nebius". rewrite En. by destruct cfg.
  - intros cloud Hc. cbv zeta. rewrite Ec. specialize (Eo _ Hc). unfold Handler in *. by rewrite Eo.
Qed.

(** ** Concrete runs *)
Definition az_logged_in (name : string) (args : list string) : res string :=
  if bool_decide (name = "az") then Ok ("0b1f6471-1bf0-4dda-aec3-cb9272f09590" +:+ nl) else Err (ErrExt "exec").


(** A marshaller that knows one pool. *)
Definition the_pool : nebius.AgentPool :=
  match fst (newNebiusAgentPool (W:=list string) None (mret placeholder_kubeadm) []) with
  | Ok ap => ap
  | _ => {| nebius.Metadata := None; nebius.Spec := None; nebius.Status := None |}
  end.
Definition marshal_pool (ap : nebius.AgentPool) : res string :=
  if decide (ap = the_pool) then Ok "{pool}" else Err (ErrExt "protojson").
Definition unmarshal_pool (s : string) : res nebius.AgentPool :=
  if decide (s = "{pool}" +:+ nl) then Ok the_pool else Err (ErrExt "protojson").

Lemma default_nebius_pool_refused_witness :
  ∃ r, agentpools_router None (mret placeholder_kubeadm) (λ _, Ok "") (λ _, Ok "") marshal_pool
         (λ s w, (Ok (), w ++ [s])) = Ok r ∧
    Router_RunE r "Nebius" [] = (Ok (), ["{pool}" +:+ nl]).
Proof.
  eexists. split; [reflexivity|].
  unshelve eapply (default_nebius_pool_refused (W' := Mem.W) (PR := NebiusInstance.Mem.runtime)
    (λ p, p) Some MemService.code_of (Some Mem.sdk) (λ _, Ok "{}") (λ _, Ok "[]") (λ _ _, Ok "#!")
    (λ _, Ok "yaml") "#!wg" (λ _, Ok "") (λ _, Ok "") marshal_pool unmarshal_pool _ (λ s w, w ++ [s])
    None (mret placeholder_kubeadm) _ placeholder_kubeadm "{pool}" [] []).
  - intros ap data. unfold marshal_pool. case_decide as E; [|done]. intros [= <-].
    unfold unmarshal_pool. by rewrite decide_True, E.
  - reflexivity.
  - reflexivity.
  - intros ap [= <-]. unfold marshal_pool. by rewrite decide_True.
Defined.
Lemma networks_need_config_witness :
  ∃ r, networks_router None (λ _, Ok "aws") (λ _, Ok "nebius") (λ s w, (Ok (), w ++ [s])) = Ok r ∧
    Router_RunE r "nebius" [] = (Panic "nil pointer dereference", []).
Proof.
  eexists. split; [reflexivity|].
  apply (networks_need_config None (λ _, Ok "aws") (λ _, Ok "nebius") (λ s w, (Ok (), w ++ [s]))). reflexivity.
Defined.
