(* ===== verification/KarpenterValues.v ===== *)
(** * The Helm values of Karpenter

    [cli/internal/config/karpenter]: what is resolved from the environment, the
    Azure command line and the managed cluster, the values file, and
    [config karpenter helm].  A reader of the part of YAML the file is in says
    what Helm gets from it. *)
From S2P Require Import Prelude GoStr Karp Proto Script Config K8s Kubeadm Aws ConfigCmd.
From stdpp Require Import options.

Record helmContext := {
  hc_ClusterName : string; hc_ClusterEndpoint : string; hc_ARMCloud : string; hc_Location : string;
  hc_ARMResourceGroup : string; hc_AzureTenantID : string; hc_AzureClientID : string;
  hc_AzureSubscriptionID : string; hc_NodeResourceGroup : string; hc_SSHPublicKey : string;
  hc_VNETSubnetID : string; hc_KubeletBootstrapToken : string; hc_ImageRepository : string;
  hc_ImageTag : string; hc_NebiusCredentialsJSON : string;
}.

(** A line of the template that is written when its value is not empty. *)
Definition opt_line (prefix v : string) (q : string → string) : list string :=
  if bool_decide (v ≠ "") then [prefix +:+ q v] else [].
Definition env_entry (name v : string) : list string :=
  ["    - name: " +:+ name; "      value: " +:+ quoted v].

Definition env_bindings (hc : helmContext) : list (string * string) := [
  ("ARM_CLOUD", hc_ARMCloud hc); ("LOCATION", hc_Location hc);
  ("ARM_RESOURCE_GROUP", hc_ARMResourceGroup hc); ("AZURE_TENANT_ID", hc_AzureTenantID hc);
  ("AZURE_CLIENT_ID", hc_AzureClientID hc); ("AZURE_SUBSCRIPTION_ID", hc_AzureSubscriptionID hc);
  ("AZURE_NODE_RESOURCE_GROUP", hc_NodeResourceGroup hc); ("SSH_PUBLIC_KEY", hc_SSHPublicKey hc);
  ("VNET_SUBNET_ID", hc_VNETSubnetID hc); ("KUBELET_BOOTSTRAP_TOKEN", hc_KubeletBootstrapToken hc);
  ("DISABLE_LEADER_ELECTION", "false")].

Definition values_lines (hc : helmContext) : list string :=
  ["# Karpenter Helm values — generated by: aks-flex-cli config karpenter helm"; "# Deploy with:";
   "#   helm upgrade --install karpenter charts/karpenter \"; "#     --namespace karpenter --create-namespace \";
   "#     --values karpenter_values.yaml"; "#";
   "# To embed Nebius credentials and have the chart create the Secret automatically:";
   "#   aks-flex-cli config karpenter helm --nebius-credentials-file <path>"; "";
   "settings:"; "  clusterName: " +:+ quoted (hc_ClusterName hc);
   "  clusterEndpoint: " +:+ quoted (hc_ClusterEndpoint hc); "";
   "logLevel: debug"; "replicas: 1"; ""; "serviceAccount:"; "  annotations:";
   "    azure.workload.identity/client-id: " +:+ quoted (hc_AzureClientID hc); "";
   "podLabels:"; "  azure.workload.identity/use: " +:+ quoted "true"; "";
   "controller:"; "  nebiusCredentials:"; "    enabled: true"] ++
  opt_line "    credentialsJSON: " (hc_NebiusCredentialsJSON hc) id ++
  ["  image:"; "    digest: " +:+ quoted ""] ++
  opt_line "    repository: " (hc_ImageRepository hc) quoted ++
  opt_line "    tag: " (hc_ImageTag hc) quoted ++
  ["  env:"] ++ (env_bindings hc ≫= λ kv, env_entry kv.1 kv.2).

Definition valuesTemplate (hc : helmContext) : string := unlines_str (values_lines hc).

Section helm.
Context {W : Type} (os : OS W) (az : Azure W).
(** Programs run, the environment, and the two streams of the command. *)
Context (Output : string → list string → res string) (Getenv : string → string).
Context (out errOut : string → M W ()).
Context (cfg : option Config.Config) (DefaultKubeadmConfig : M W kubeadm.Config).
Context (NewAzureCLICredential : res ()) (json_Marshal : string → res string).
(** The flags. *)
Context (flagImage flagSSHPublicKeyFile flagOutput flagNebiusCredentialsFile : string) (flagLoadSSHKey : bool).

Definition execOutput (name : string) (args : list string) : res string :=
  match Output name args with Ok o => Ok (TrimSpace o) | Err e => Err e | Panic p => Panic p end.
Definition exec_or_placeholder (name : string) (args : list string) : string :=
  match execOutput name args with Ok v => v | _ => OrPlaceholder "" end.

(** What is read of the managed cluster; [None] when it cannot be read. *)
Definition cluster_of (c : Config.Config) : M W (option ManagedCluster) :=
  match NewAzureCLICredential with
  | Ok _ =>
      mc ← attempt (az_ManagedCluster az c);
      mret match mc with inr mc => mc | inl _ => None end
  | Err _ => mret None
  | Panic p => panic p
  end.

Definition resolve : M W helmContext :=
  let clusterName := match cfg with Some c => ClusterName c | None => "" end in
  let location := match cfg with Some c => Location c | None => "" end in
  let resourceGroup := match cfg with Some c => ResourceGroupName c | None => "" end in
  let subscriptionID := match cfg with Some c => SubscriptionID c | None => "" end in
  let tenant := exec_or_placeholder "az" ["account"; "show"; "--query"; "tenantId"; "-o"; "tsv"] in
  sshKey ← (if flagLoadSSHKey then
              k ← attempt (PublicKey os Getenv);
              mret match k with inr k => TrimSpace k | inl _ => "ssh-key-not-set" end
            else mret "ssh-key-not-set");
  kubeadmCfg ← DefaultKubeadmConfig;
  let clientID := exec_or_placeholder "az" ["identity"; "show"; "--name"; "karpenter-flex";
                    "--resource-group"; resourceGroup; "--query"; "clientId"; "-o"; "tsv"] in
  mc ← match cfg with None => mret None | Some c => cluster_of c end;
  mret {| hc_ClusterName := OrPlaceholder clusterName;
          hc_ClusterEndpoint := match mc ≫= mc_Fqdn with
                                | Some f => "https://" +:+ f +:+ ":443" | None => OrPlaceholder "" end;
          hc_ARMCloud := "AzurePublicCloud"; hc_Location := OrPlaceholder location;
          hc_ARMResourceGroup := OrPlaceholder resourceGroup; hc_AzureTenantID := tenant;
          hc_AzureClientID := clientID; hc_AzureSubscriptionID := OrPlaceholder subscriptionID;
          hc_NodeResourceGroup := default (OrPlaceholder "") (mc ≫= mc_NodeResourceGroup);
          hc_SSHPublicKey := sshKey;
          hc_VNETSubnetID := default (OrPlaceholder "") (mc ≫= λ m, head (mc_AgentPoolSubnets m) ≫= id);
          hc_KubeletBootstrapToken := OrPlaceholder (kubeadm.GetToken (Some kubeadmCfg));
          hc_ImageRepository := ""; hc_ImageTag := ""; hc_NebiusCredentialsJSON := "" |}.

(** [--image], cut at its first colon. *)
Definition image_flag (flagImage : string) : string * string :=
  match cut_char ":" flagImage with Some (repo, tag) => (repo, tag) | None => (flagImage, "") end.

Definition with_flags (hc : helmContext) (ssh : option string) (credentials : string) : helmContext :=
  {| hc_ClusterName := hc_ClusterName hc; hc_ClusterEndpoint := hc_ClusterEndpoint hc;
     hc_ARMCloud := hc_ARMCloud hc; hc_Location := hc_Location hc;
     hc_ARMResourceGroup := hc_ARMResourceGroup hc; hc_AzureTenantID := hc_AzureTenantID hc;
     hc_AzureClientID := hc_AzureClientID hc; hc_AzureSubscriptionID := hc_AzureSubscriptionID hc;
     hc_NodeResourceGroup := hc_NodeResourceGroup hc; hc_SSHPublicKey := default (hc_SSHPublicKey hc) ssh;
     hc_VNETSubnetID := hc_VNETSubnetID hc; hc_KubeletBootstrapToken := hc_KubeletBootstrapToken hc;
     hc_ImageRepository := (image_flag flagImage).1; hc_ImageTag := (image_flag flagImage).2;
     hc_NebiusCredentialsJSON := credentials |}.

Definition read_ssh_key : M W (option string) :=
  if bool_decide (flagSSHPublicKeyFile ≠ "") then
    data ← wrapf "reading ssh public key file: %w" [] (os_ReadFile os flagSSHPublicKeyFile);
    mret (Some (TrimSpace data))
  else mret None.
Definition read_credentials : M W string :=
  if bool_decide (flagNebiusCredentialsFile ≠ "") then
    data ← wrapf "reading nebius credentials file: %w" [] (os_ReadFile os flagNebiusCredentialsFile);
    wrapf "encoding nebius credentials: %w" [] (lift (json_Marshal (TrimSpace data)))
  else mret "".

Definition runHelm : M W () :=
  hc ← resolve;
  ssh ← read_ssh_key;
  credentials ← read_credentials;
  _ ← wrapf "writing %s: %w" [flagOutput]
        (os_WriteFile os flagOutput (valuesTemplate (with_flags hc ssh credentials)));
  _ ← errOut ("Written to " +:+ flagOutput +:+ nl +:+ nl);
  _ ← out ("helm upgrade --install karpenter charts/karpenter \" +:+ nl);
  _ ← out ("  --namespace karpenter --create-namespace \" +:+ nl);
  out ("  --values " +:+ flagOutput +:+ nl).
End helm.

(** ** Reading the values

    A double-quoted scalar without escapes, the first value under a key of a
    given indentation, and the list of environment variables. *)
Definition read_quoted (s : string) : option string :=
  match s with
  | String c s =>
      if decide (c = "034"%char) then
        match cut_char "034" s with
        | Some (v, "") => if no_char "\" v then Some v else None
        | _ => None
        end
      else None
  | "" => None
  end.

Fixpoint read_scalar (key : string) (ls : list string) : option string :=
  match ls with
  | [] => None
  | l :: ls => if HasPrefix l key then read_quoted (TrimPrefix l key) else read_scalar key ls
  end.

Definition name_key : string := "    - name: ".
Definition value_key : string := "      value: ".
Fixpoint read_env (ls : list string) : option (list (string * string)) :=
  match ls with
  | [] => Some []
  | l :: ls =>
      if HasPrefix l name_key then
        match ls with
        | v :: ls => v ← read_quoted (TrimPrefix v value_key);
                     kvs ← read_env ls;
                     Some ((TrimPrefix l name_key, v) :: kvs)
        | [] => None
        end
      else read_env ls
  end.

(** A value the template can quote. *)
Definition yaml_plain (v : string) : Prop :=
  no_char "034" v = true ∧ no_char "\" v = true ∧ no_nl v.
Record plain_values (hc : helmContext) : Prop := {
  pv_name : yaml_plain (hc_ClusterName hc);
  pv_endpoint : yaml_plain (hc_ClusterEndpoint hc);
  pv_env : Forall (λ kv, no_nl kv.1 ∧ yaml_plain kv.2) (env_bindings hc);
  pv_repository : yaml_plain (hc_ImageRepository hc);
  pv_tag : yaml_plain (hc_ImageTag hc);
  pv_credentials : no_nl (hc_NebiusCredentialsJSON hc);
}.

Lemma read_quoted_quoted v : yaml_plain v → read_quoted (quoted v) = Some v.
Proof.
  intros (Hq & Hb & _).
  change (read_quoted (quoted v)) with
    (match cut_char "034" (v +:+ String "034" "") with
     | Some (v, "") => if no_char "\" v then Some v else None | _ => None end).
  assert (cut_char "034" (v +:+ String "034" "") = Some (v, "")) as ->; [|by rewrite Hb].
  clear Hb. unfold no_char in Hq. induction v as [|c v IH]; [done|].
  cbn [str_forall] in Hq. apply andb_true_iff in Hq as [Hc Hq]. apply bool_decide_eq_true in Hc.
  change (cut_char "034" (String c (v +:+ String "034" "")) = Some (String c v, "")). cbn [cut_char].
  rewrite decide_False by done. by rewrite (IH Hq).
Qed.

Lemma quoted_no_nl v : no_nl v → no_nl (quoted v).
Proof. intros H. unfold quoted. apply no_nl_app; [done|]. by apply no_nl_app. Qed.

Notation avoids p := (Forall (λ l, HasPrefix l p = false)).

Lemma read_env_skip pre ls : avoids name_key pre → read_env (pre ++ ls) = read_env ls.
Proof. induction 1 as [|l pre Hl _ IH]; [done|]. cbn [app read_env]. by rewrite Hl. Qed.

Lemma read_env_entries kvs ls :
  Forall (λ kv, no_nl kv.1 ∧ yaml_plain kv.2) kvs →
  read_env ((kvs ≫= λ kv, env_entry kv.1 kv.2) ++ ls) = kvs' ← read_env ls; Some (kvs ++ kvs').
Proof.
  induction 1 as [|[k v] kvs [_ Hv] _ IH]; [by cbn; destruct (read_env ls)|]. cbn [snd] in Hv.
  change (((k, v) :: kvs) ≫= λ kv, env_entry kv.1 kv.2)
    with (env_entry k v ++ (kvs ≫= λ kv, env_entry kv.1 kv.2)).
  unfold env_entry at 1. cbn [app fst snd]. cbn [read_env]. unfold name_key, value_key.
  rewrite HasPrefix_app, !TrimPrefix_app, (read_quoted_quoted _ Hv). cbn [mbind option_bind].
  rewrite IH. by destruct (read_env ls).
Qed.

Lemma read_scalar_skip key pre ls : avoids key pre → read_scalar key (pre ++ ls) = read_scalar key ls.
Proof. induction 1 as [|l pre Hl _ IH]; [done|]. cbn [app read_scalar]. by rewrite Hl. Qed.

Lemma read_scalar_hit key v ls : yaml_plain v → read_scalar key ((key +:+ quoted v) :: ls) = Some v.
Proof. intros Hv. cbn [read_scalar]. rewrite HasPrefix_app, TrimPrefix_app. by apply read_quoted_quoted. Qed.

Lemma read_scalar_at key pre post v :
  yaml_plain v → avoids key pre → read_scalar key (pre ++ (key +:+ quoted v) :: post) = Some v.
Proof. intros Hv Hp. rewrite (read_scalar_skip _ _ _ Hp). by apply read_scalar_hit. Qed.

Lemma opt_line_avoids key prefix v q :
  (∀ t, HasPrefix (prefix +:+ t) key = false) → avoids key (opt_line prefix v q).
Proof. intros H. unfold opt_line. case_bool_decide; repeat constructor. apply H. Qed.

Lemma opt_line_no_nl prefix v q : no_nl prefix → no_nl (q v) → Forall no_nl (opt_line prefix v q).
Proof. intros Hp Hv. unfold opt_line. case_bool_decide; repeat constructor. by apply no_nl_app. Qed.

Lemma read_scalar_opt key v ls :
  yaml_plain v → read_scalar key ls = None →
  read_scalar key (opt_line key v quoted ++ ls) = if bool_decide (v ≠ "") then Some v else None.
Proof. intros Hv Hl. unfold opt_line. case_bool_decide; [by apply read_scalar_hit | done]. Qed.

Lemma entries_avoid key kvs :
  (∀ t, HasPrefix (name_key +:+ t) key = false) → (∀ t, HasPrefix (value_key +:+ t) key = false) →
  avoids key (kvs ≫= λ kv, env_entry kv.1 kv.2).
Proof.
  intros Hn Hv. induction kvs as [|[k v] kvs IH]; [constructor|].
  change (((k, v) :: kvs) ≫= λ kv, env_entry kv.1 kv.2)
    with (env_entry k v ++ (kvs ≫= λ kv, env_entry kv.1 kv.2)).
  apply Forall_app. split; [|done]. repeat constructor; [apply Hn | apply Hv].
Qed.

Lemma values_no_nl hc : plain_values hc → no_nl (hc_AzureClientID hc) → Forall no_nl (values_lines hc).
Proof.
  intros [(_ & _ & Hn) (_ & _ & He) Hv (_ & _ & Hr) (_ & _ & Ht) Hc] Hi. unfold values_lines.
  rewrite !Forall_app. split_and!.
  - repeat constructor; try (vm_compute; reflexivity);
      (apply no_nl_app; [vm_compute; reflexivity | by apply quoted_no_nl]).
  - by apply opt_line_no_nl.
  - repeat constructor; vm_compute; reflexivity.
  - apply opt_line_no_nl; [done | by apply quoted_no_nl].
  - apply opt_line_no_nl; [done | by apply quoted_no_nl].
  - repeat constructor.
  - induction Hv as [|[k v] kvs [Hk (_ & _ & Hv)] _ IH]; [constructor|].
    change (((k, v) :: kvs) ≫= λ kv, env_entry kv.1 kv.2)
      with (env_entry k v ++ (kvs ≫= λ kv, env_entry kv.1 kv.2)).
    apply Forall_app. split; [|done].
    repeat constructor; (apply no_nl_app; [vm_compute; reflexivity | try done; by apply quoted_no_nl]).
Qed.

(** What Helm reads in the values file. *)
Lemma values_read hc : plain_values hc →
  let ls := lines_of (valuesTemplate hc) in
  read_env ls = Some (env_bindings hc) ∧
  read_scalar "  clusterName: " ls = Some (hc_ClusterName hc) ∧
  read_scalar "  clusterEndpoint: " ls = Some (hc_ClusterEndpoint hc) ∧
  read_scalar "    repository: " ls = (if bool_decide (hc_ImageRepository hc ≠ "") then Some (hc_ImageRepository hc) else None) ∧
  read_scalar "    tag: " ls = (if bool_decide (hc_ImageTag hc ≠ "") then Some (hc_ImageTag hc) else None).
Proof.
  intros Hp. assert (no_nl (hc_AzureClientID hc)) as Hi.
  { pose proof (pv_env _ Hp) as H. rewrite Forall_forall in H.
    by destruct (H ("AZURE_CLIENT_ID", hc_AzureClientID hc) ltac:(set_solver)) as (_ & _ & _ & ?). }
  pose proof (values_no_nl hc Hp Hi) as Hnl. destruct Hp as [Hn He Hv Hr Ht Hc].
  intros ls. subst ls. unfold valuesTemplate. rewrite (lines_of_unlines _ Hnl).
  split_and!.
  - unfold values_lines. rewrite <-!app_assoc.
    rewrite !read_env_skip by first [by repeat constructor | by apply opt_line_avoids].
    rewrite read_env_entries by done. reflexivity.
  - by apply (read_scalar_at "  clusterName: " (take 10 (values_lines hc)) (drop 11 (values_lines hc) ++ [""])
                (hc_ClusterName hc)); [|repeat constructor].
  - by apply (read_scalar_at "  clusterEndpoint: " (take 11 (values_lines hc)) (drop 12 (values_lines hc) ++ [""])
                (hc_ClusterEndpoint hc)); [|repeat constructor].
  - unfold values_lines. rewrite <-!app_assoc.
    rewrite !read_scalar_skip by first [by repeat constructor | by apply opt_line_avoids].
    apply read_scalar_opt; [done|].
    rewrite !read_scalar_skip by first [by repeat constructor | by apply opt_line_avoids | by apply entries_avoid].
    done.
  - unfold values_lines. rewrite <-!app_assoc.
    rewrite !read_scalar_skip by first [by repeat constructor | by apply opt_line_avoids].
    apply read_scalar_opt; [done|].
    rewrite !read_scalar_skip by first [by repeat constructor | by apply entries_avoid].
    done.
Qed.

Lemma image_flag_cut host rest : no_char ":" host = true → image_flag (host +:+ ":" +:+ rest) = (host, rest).
Proof.
  intros H. unfold image_flag. cut (cut_char ":" (host +:+ ":" +:+ rest) = Some (host, rest)); [by intros ->|].
  unfold no_char in H. induction host as [|c host IH]; [done|].
  cbn [str_forall] in H. apply andb_true_iff in H as [Hc H]. apply bool_decide_eq_true in Hc.
  change (cut_char ":" (String c (host +:+ ":" +:+ rest)) = Some (String c host, rest)). cbn [cut_char].
  rewrite decide_False by done. by rewrite (IH H).
Qed.

(** ** The theorem *)
Section written.
Context {W : Type} (os : OS W) {OL : OSLaws os} (az : Azure W).
Context (Output : string → list string → res string) (Getenv : string → string).
Context (out errOut : string → M W ()).
Context (out_law : ∀ s w, ∃ w', out s w = (Ok (), w') ∧ files w' = files w).
Context (err_law : ∀ s w, ∃ w', errOut s w = (Ok (), w') ∧ files w' = files w).
Context (cfg : option Config.Config) (DefaultKubeadmConfig : M W kubeadm.Config).
Context (NewAzureCLICredential : res ()) (json_Marshal : string → res string).
Context (flagImage flagSSHPublicKeyFile flagOutput flagNebiusCredentialsFile : string) (flagLoadSSHKey : bool).
#[local] Set Default Proof Using "Type*".
Notation resolve := (resolve os az Output Getenv cfg DefaultKubeadmConfig NewAzureCLICredential flagLoadSSHKey).
Notation runHelm := (runHelm os az Output Getenv out errOut cfg DefaultKubeadmConfig NewAzureCLICredential
  json_Marshal flagImage flagSSHPublicKeyFile flagOutput flagNebiusCredentialsFile flagLoadSSHKey).

(** What an optional file flag contributes. *)
Definition ssh_given (w : W) (ssh : option string) : Prop :=
  if bool_decide (flagSSHPublicKeyFile ≠ "")
  then ∃ key, files w !! flagSSHPublicKeyFile = Some key ∧ ssh = Some (TrimSpace key) else ssh = None.
Definition credentials_given (w : W) (credentials : string) : Prop :=
  if bool_decide (flagNebiusCredentialsFile ≠ "")
  then ∃ d, files w !! flagNebiusCredentialsFile = Some d ∧ json_Marshal (TrimSpace d) = Ok credentials
  else credentials = "".

Lemma ssh_read w ssh : ssh_given w ssh → read_ssh_key os flagSSHPublicKeyFile w = (Ok ssh, w).
Proof.
  unfold ssh_given, read_ssh_key. case_bool_decide; [|by intros ->]. intros (key & Hk & ->).
  by rewrite (M_bind_Ok _ _ _ _ _ (wrapf_Ok _ _ _ _ _ _ (read_law _ _ _ Hk))).
Qed.

Lemma credentials_read w c :
  credentials_given w c → read_credentials os json_Marshal flagNebiusCredentialsFile w = (Ok c, w).
Proof.
  unfold credentials_given, read_credentials. case_bool_decide; [|by intros ->]. intros (d & Hd & Hj).
  rewrite (M_bind_Ok _ _ _ _ _ (wrapf_Ok _ _ _ _ _ _ (read_law _ _ _ Hd))). unfold wrapf, lift. by rewrite Hj.
Qed.

End written.

(** ** A concrete run *)
Module HMem.
Definition hc : helmContext :=
  match fst (resolve K8s.Mem.os K8s.Mem.az (λ _ _, Err (ErrExt "az")) (λ _, "/root") None
               (mret placeholder_kubeadm) (Ok ()) false ∅) with
  | Ok hc => hc
  | _ => {| hc_ClusterName := ""; hc_ClusterEndpoint := ""; hc_ARMCloud := ""; hc_Location := "";
            hc_ARMResourceGroup := ""; hc_AzureTenantID := ""; hc_AzureClientID := "";
            hc_AzureSubscriptionID := ""; hc_NodeResourceGroup := ""; hc_SSHPublicKey := "";
            hc_VNETSubnetID := ""; hc_KubeletBootstrapToken := ""; hc_ImageRepository := "";
            hc_ImageTag := ""; hc_NebiusCredentialsJSON := "" |}
  end.
End HMem.

