(* ===== verification/PluginCmd.v ===== *)
(** * The plugin commands

    [cli/internal/plugin] and [plugin/pkg/client]: [apply], [get] and [delete] of
    the objects of a service, over the client of the service started in the
    process.  protojson, the message registry and the streams are parameters. *)
From S2P Require Import Prelude GoStr Karp Proto Helper Store DB Server Script Config.
From stdpp Require Import options.

(** The first token of a JSON document, as far as [apply] looks at it. *)
Inductive token := Delim (c : ascii) | OtherToken.
#[global] Instance token_eq_dec : EqDecision token.
Proof. solve_decision. Defined.

Section commands.
Context {W Msg MT SDK : Type} `{PR : ProtoRuntime Msg} `{OB : Object Msg}.
(** [NewConnection] and the clients, the in-process servers behind gRPC. *)
Context (NewConnection : M W ()) (agentpools networks peerings : server W).
Context (ReadAll_Stdin : M W string) (print : string → M W ()).
Context (first_token : string → res token) (Unmarshal_array : string → res (list string))
        (json_Encode : list string → res string).
Context (Unmarshal_Base : string → res (option api.Metadata)) (FindMessageByURL : string → res MT)
        (Unmarshal_at : MT → string → res Msg) (protojson_Marshal : Msg → res string)
        (protojson_Format : Msg → string).
(** [GetMetadata().SetType] of an object. *)
Context (SetType : Msg → string → res Msg).

Definition client_Get (name : string) : M W (server W) :=
  _ ← NewConnection;
  if bool_decide (name = "agentpools") then mret agentpools
  else if bool_decide (name = "networks") then mret networks
  else if bool_decide (name = "peerings") then mret peerings
  else fail (Errorf "unknown type %q" [name] []).

Definition applyOne (client : server W) (b : string) : M W (option api.Metadata) :=
  obj ← lift (Unmarshal_Base b);
  mt ← lift (FindMessageByURL (api.GetType obj));
  m ← lift (Unmarshal_at mt b);
  _ ← Client_CreateOrUpdate Some (srv_CreateOrUpdate client) m;
  mret obj.

Definition apply_ (kind : string) : M W () :=
  client ← client_Get kind;
  b ← ReadAll_Stdin;
  tok ← lift (first_token b);
  bs ← (if decide (tok = Delim "[") then lift (Unmarshal_array b) else mret [b]);
  for_each (λ b, _ ← applyOne client b; mret ()) bs.

Definition typed (item : Msg) : M W Msg := lift (SetType item (TypeURL item)).

Definition get_ (kind : string) (id : option string) : M W () :=
  client ← client_Get kind;
  match id with
  | None =>
      items ← Client_List as_object (srv_List client) "";
      objs ← traverse (λ item, item ← typed item; lift (protojson_Marshal item)) items;
      out ← lift (json_Encode objs);
      print out
  | Some id =>
      item ← Client_Get as_object (srv_Get client) id;
      item ← typed item;
      print (protojson_Format item +:+ nl)
  end.

Definition delete_ (kind resourceName : string) : M W () :=
  client ← client_Get kind;
  Client_Delete (srv_Delete client) resourceName.

(** [PersistentPreRunE] of the plugin commands. *)
Definition setupNebiusSDK (gosdk_New : string → M W SDK) (set_sdk : SDK → M W ()) (cfg : Config.Config) : M W () :=
  sdk ← gosdk_New (NebiusCredentialsFile cfg);
  set_sdk sdk.
Definition plugin_PersistentPreRunE (config_New : res Config.Config) (gosdk_New : string → M W SDK)
    (set_sdk : SDK → M W ()) : M W () :=
  cfg ← lift config_New;
  setupNebiusSDK gosdk_New set_sdk cfg.
End commands.

(** ** Lemmas *)
Section applied.
Context {W Msg MT : Type} `{PR : ProtoRuntime Msg} `{OB : Object Msg} {PL : ProtoLaws Msg}.
Context (db : DB W Msg) {DL : DBLaws db} (m : gmap string (server W)).
Context (Unmarshal_Base : string → res (option api.Metadata)) (FindMessageByURL : string → res MT)
        (Unmarshal_at : MT → string → res Msg).
#[local] Set Default Proof Using "Type*".
Notation client := (Parent_server {| DB_ := db; Servers := m |}).
Notation applyOne := (applyOne Unmarshal_Base FindMessageByURL Unmarshal_at client).

(** The document [b] is a message whose back end makes the object [obj] of it. *)
Definition applies (b : string) (obj : Msg) : Prop :=
  ∃ md mt msg it srv2 a',
    Unmarshal_Base b = Ok md ∧ FindMessageByURL (api.GetType md) = Ok mt ∧ Unmarshal_at mt b = Ok msg ∧
    any_New msg = Ok it ∧ m !! TypeUrl it = Some srv2 ∧ keeps_db db srv2 ∧ redacted_item obj = Ok a' ∧
    ∀ w, ∃ a w1, srv_CreateOrUpdate srv2 (Some it) w = (Ok (Some a), w1) ∧ AnyTo as_object (Some a) = Ok obj.

(** The database after the objects are put in, in order. *)
Definition put_all (objs os : list Msg) : list Msg := foldl (λ l o, upsert o l) objs os.

Lemma applyOne_ok b obj objs w :
  applies b obj → view w objs → storable (upsert obj objs) →
  ∃ md w', applyOne b w = (Ok md, w') ∧ view w' (upsert obj objs).
Proof.
  intros (md & mt & msg & it & srv2 & a' & Hb & Hf & Hu & Ha & Hm & Hk & Hr & Hc) Hv Hs.
  destruct (Hc w) as (a & w1 & Hw1 & Hao).
  destruct (Create_view db m srv2 it a a' obj objs w w1) as (w2 & Hp & Hv2 & _); [done..|].
  exists md, w2. split; [|done]. unfold PluginCmd.applyOne.
  rewrite (bind_lift_Ok _ _ _ _ Hb), (bind_lift_Ok _ _ _ _ Hf), (bind_lift_Ok _ _ _ _ Hu).
  unfold Client_CreateOrUpdate. rewrite M_bind_assoc, (bind_lift_Ok _ _ _ _ Ha).
  rewrite M_bind_assoc, (M_bind_Ok _ _ _ _ _ Hp).
  unfold redacted_item in Hr. destruct (Redact obj) as [r|e|p]; [|done..].
  assert (AnyTo Some (Some a') = Ok r) as Ht; [|by rewrite (bind_lift_Ok _ _ _ _ Ht)].
  unfold AnyTo. by rewrite (any_round _ _ Hr).
Qed.

(** A run of documents up to the first that cannot be applied. *)
Lemma apply_each bs os rest objs w :
  Forall2 applies bs os → view w objs → (∀ n, storable (put_all objs (take n os))) →
  ∃ w', view w' (put_all objs os) ∧
    for_each (λ b, _ ← applyOne b; mret ()) (bs ++ rest) w =
    for_each (λ b, _ ← applyOne b; mret ()) rest w'.
Proof.
  intros H. revert objs w. induction H as [|b o bs os Hb _ IH]; intros objs w Hv Hs; [by exists w|].
  destruct (applyOne_ok b o objs w Hb Hv (Hs 1%nat)) as (md & w1 & Ho & Hv1).
  destruct (IH (upsert o objs) w1 Hv1) as (w2 & Hv2 & Hf); [intros n; apply (Hs (S n))|].
  exists w2. split; [done|]. cbn [app for_each].
  rewrite M_bind_assoc, (M_bind_Ok _ _ _ _ _ Ho). exact Hf.
Qed.
End applied.

(** ** The theorem *)
Section roundtrip.
Context {W Msg MT : Type} `{PR : ProtoRuntime Msg} `{OB : Object Msg} {PL : ProtoLaws Msg}.
Context (db : DB W Msg) {DL : DBLaws db} (m : gmap string (server W)).
Context (NewConnection : M W ()) (conn_view : ∀ w, ∃ w', NewConnection w = (Ok (), w') ∧ ∀ objs, view w objs → view w' objs).
Context (networks peerings : server W) (print : string → M W ()).
Context (first_token : string → res token) (Unmarshal_array : string → res (list string))
        (json_Encode : list string → res string).
Context (Unmarshal_Base : string → res (option api.Metadata)) (FindMessageByURL : string → res MT)
        (Unmarshal_at : MT → string → res Msg) (protojson_Marshal : Msg → res string)
        (protojson_Format : Msg → string) (SetType : Msg → string → res Msg).
Context (redact_object : ∀ o r, Redact o = Ok r → is_Object r = is_Object o).
#[local] Set Default Proof Using "Type*".
Notation client := (Parent_server {| DB_ := db; Servers := m |}).
Notation apply doc := (apply_ NewConnection client networks peerings (mret doc) first_token Unmarshal_array
  Unmarshal_Base FindMessageByURL Unmarshal_at).
Notation get := (get_ NewConnection client networks peerings print json_Encode protojson_Marshal protojson_Format SetType).

(** The documents of the input: the elements of an array, or the input itself. *)
Definition documents (doc : string) (bs : list string) : Prop :=
  ∃ t, first_token doc = Ok t ∧
    if decide (t = Delim "[") then Unmarshal_array doc = Ok bs else bs = [doc].

Lemma client_ok w w' :
  NewConnection w = (Ok (), w') → client_Get NewConnection client networks peerings "agentpools" w = (Ok client, w').
Proof using Type. intros Hc. unfold client_Get. by rewrite (M_bind_Ok _ _ _ _ _ Hc). Qed.

Lemma apply_start doc bs w :
  documents doc bs → ∃ w1, (∀ objs, view w objs → view w1 objs) ∧
    apply doc "agentpools" w =
    for_each (λ b, _ ← applyOne Unmarshal_Base FindMessageByURL Unmarshal_at client b; mret ()) bs w1.
Proof.
  intros (t & Ht & Hd). destruct (conn_view w) as (w1 & Hc & Hv). exists w1. split; [done|].
  unfold apply_. rewrite (M_bind_Ok _ _ _ _ _ (client_ok _ _ Hc)).
  rewrite (M_bind_Ok (mret doc) _ w1 doc w1 eq_refl), (bind_lift_Ok _ _ _ _ Ht).
  case_decide; [by rewrite (bind_lift_Ok _ _ _ _ Hd)|]. by rewrite Hd.
Qed.

(** C18: applying a document puts the objects its back ends make of it in the
    database, in order, and [get] of an id then prints the last of them,
    redacted and with its type; a document that is no object ends the run with
    exactly the objects before it applied. *)
Theorem apply_then_get doc bs os rest objs w :
  documents doc (bs ++ rest) →
  Forall2 (applies db m Unmarshal_Base FindMessageByURL Unmarshal_at) bs os →
  view w objs → (∀ n, storable (put_all objs (take n os))) →
  ∃ w1, view w1 (put_all objs os) ∧
    match rest with
    | [] => apply doc "agentpools" w = (Ok (), w1) ∧
        ∀ id o r r', find_id id (put_all objs os) = Some o → is_Object o = true →
          Redact o = Ok r → is_Ok (any_New r) = true → SetType r (TypeURL r) = Ok r' →
          ∃ w2, get "agentpools" (Some id) w1 = print (protojson_Format r' +:+ nl) w2 ∧ view w2 (put_all objs os)
    | bad :: _ => ∀ e, Unmarshal_Base bad = Err e → apply doc "agentpools" w = (Err e, w1)
    end.
Proof.
  intros Hd Hbs Hv Hs. destruct (apply_start doc _ w Hd) as (w0 & Hv0 & Happ).
  destruct (apply_each db m Unmarshal_Base FindMessageByURL Unmarshal_at bs os rest objs w0 Hbs (Hv0 _ Hv) Hs)
    as (w1 & Hv1 & Hf).
  exists w1. split; [done|]. rewrite Happ, Hf. destruct rest as [|bad rest].
  - split; [done|]. intros id o r r' Hid Ho Hr Ha Ht. destruct (any_New r) as [a'|e|p] eqn:Ea; [|done..].
    destruct (conn_view w1) as (w2 & Hc & Hv2).
    destruct (Get_view db m w2 _ id (Hv2 _ Hv1)) as (w3 & Hv3 & Hg). exists w3. split; [|done].
    unfold get_. rewrite (M_bind_Ok _ _ _ _ _ (client_ok _ _ Hc)).
    unfold Client_Get. rewrite M_bind_assoc, (M_bind_Ok _ _ w2 (Some a') w3).
    2:{ change (srv_Get client id w2) with (Parent_Get {| DB_ := db; Servers := m |} id w2).
        rewrite Hg, Hid. unfold redacted_item. rewrite Hr. cbn. by rewrite Ea. }
    assert (AnyTo as_object (Some a') = Ok r) as Hto.
    { unfold AnyTo. rewrite (any_round _ _ Ea). simpl. unfold To, as_object. by rewrite (redact_object _ _ Hr), Ho. }
    rewrite (bind_lift_Ok _ _ _ _ Hto). unfold typed. by rewrite (bind_lift_Ok _ _ _ _ Ht).
  - intros e He. cbn [for_each].
    assert (applyOne Unmarshal_Base FindMessageByURL Unmarshal_at client bad w1 = (Err e, w1)) as Hb
      by (unfold applyOne; by rewrite (bind_lift_Err _ _ _ _ He)).
    by rewrite M_bind_assoc, (M_bind_Err _ _ _ _ _ Hb).
Qed.
End roundtrip.

Module PMem.
(** Two documents, of the object of [Server.Test] and of none. *)
Definition tokens (doc : string) : res token := Ok (Delim "[").
Definition array (doc : string) : res (list string) := Ok ["{a}"; "{}"].
Definition base (b : string) : res (option api.Metadata) :=
  if decide (b = "{a}") then Ok (Some {| api.Type_ := Some "t"; api.Id := Some "a" |}) else Err (ErrExt "protojson").
Definition set_type (o : Mem.msg) (t : string) : res Mem.msg :=
  Ok {| Mem.m_type := t; Mem.m_id := Mem.m_id o; Mem.m_secret := Mem.m_secret o |}.
Lemma redacted (o r : Mem.msg) : Redact o = Ok r → is_Object r = is_Object o.
Proof. done. Qed.
End PMem.

Lemma apply_then_get_witness :
  ∃ w1, view (db := Server.Test.db) w1 [test_msg] ∧
    apply_ (mret ()) (Parent_server {| DB_ := Server.Test.db; Servers := Server.Test.registry |}) Server.Test.echo
      Server.Test.echo (mret "[{a},{}]") PMem.tokens PMem.array PMem.base Ok (λ _ _, Ok test_msg)
      "agentpools" empty_file = (Err (ErrExt "protojson"), w1).
Proof.
  destruct (apply_then_get Server.Test.db Server.Test.registry (mret ()) (λ w, ex_intro _ w (conj eq_refl (λ _ H, H)))
    Server.Test.echo Server.Test.echo (λ _, mret ()) PMem.tokens PMem.array (λ _, Ok "") PMem.base Ok
    (λ _ _, Ok test_msg) (λ _, Ok "") Mem.m_id PMem.set_type PMem.redacted
    "[{a},{}]" ["{a}"] [test_msg] ["{}"] [] empty_file) as (w1 & Hv & Ha).
  - exists (Delim "["). split; [reflexivity|]. by rewrite decide_True.
  - repeat constructor. eexists _, _, _, _, Server.Test.echo, _.
    split_and!; [reflexivity|reflexivity|reflexivity|reflexivity|reflexivity|exact Server.Test.echo_keeps|reflexivity|].
    intros w. eexists _, _. split; reflexivity.
  - exact empty_file_holds.
  - intros n. apply mem_db_fits.
  - exists w1. split; [exact Hv|]. by apply Ha.
Defined.
