(* ===== verification/Main.v ===== *)
(** * The controller process

    [karpenter/cmd/controller/main.go] with the options ([karpenter/pkg/options]),
    the cluster information ([karpenter/pkg/utils/k8s]) and the registration of
    the providers: the start of the plugin services, the hub over the AKS,
    Nebius and Kaito providers, and the clean-up when the operator stops. *)
From S2P Require Import Prelude GoStr Karp IPAllocator Hub Proto Helper Server InstanceTypes V1alpha1 NebiusProvider Kaito Config K8s Kubeadm Aws Azure Deploy.
From stdpp Require Import options.

(** ** Options *)
Record nebiusOptions := { CredentialsFile : string }.
Definition nebius_Parse (n : nebiusOptions) : res () :=
  if bool_decide (CredentialsFile n = "") then Err (errors_New "flex-nebius.credentials-file is required") else Ok ().
Definition nebiusOptionsFromContext (opts : option nebiusOptions) : option nebiusOptions := opts.

Record stretchOptions := { DatabaseNamespace : string }.
Definition stretch_Parse (s : stretchOptions) : res () := Ok ().
Definition kaito_Parse (k : KaitoOptions) : res () := Ok ().

(** [lo.Assert]. *)
Definition Assert {W} (b : bool) (msg : string) : M W () :=
  if b then mret () else panic ("assertion failed: " +:+ msg).

(** ** [utils/k8s] *)
Section cluster.
Context {W : Type} (os : OS W).
Definition retrieveClusterCAInsidePod : M W string :=
  wrapf "reading cluster CA from service account: %w" []
    (os_ReadFile os "/var/run/secrets/kubernetes.io/serviceaccount/ca.crt").
(** The configuration and its [CAData] can both be nil. *)
Definition RetrieveClusterCA (restConfig : option (option string)) : M W string :=
  match restConfig with
  | Some (Some ca) => mret ca
  | _ => retrieveClusterCAInsidePod
  end.
Definition RetrieveClusterVersion (NewDiscoveryClient : res ()) (ServerVersion : M W string) : M W string :=
  _ ← wrapf "creating discovery client: %w" [] (lift NewDiscoveryClient);
  wrapf "retrieving server version: %w" [] ServerVersion.
End cluster.

(** A provider of a part of the world. *)
Definition zoom_provider {W L IT NC RP} (g : W → L) (s : L → W → W) (cp : CloudProvider L IT NC RP)
    : CloudProvider W IT NC RP :=
  {| cp_Create nc := zoom g s (cp_Create cp nc); cp_Delete nc := zoom g s (cp_Delete cp nc);
     cp_Get id := zoom g s (cp_Get cp id); cp_List := zoom g s (cp_List cp);
     cp_GetInstanceTypes np := zoom g s (cp_GetInstanceTypes cp np);
     cp_GetSupportedNodeClasses := cp_GetSupportedNodeClasses cp;
     cp_IsDrifted nc := zoom g s (cp_IsDrifted cp nc); cp_RepairPolicies := cp_RepairPolicies cp;
     cp_Close := (λ c, zoom g s c) <$> cp_Close cp |}.

(** What is registered in the hub, with the arguments of the registration. *)
Inductive provider := PAks | PNebius (clusterVersion clusterCA : string) | PKaito (clusterCA : string).

(** The state of the process: the once-started services, the SDK pointer, the
    outside world, the hub, and the state of each provider. *)
Record Controller (E SDK : Type) `{SCH : Scheduling} `{LR : LRU cachedEntry} := {
  c_process : process;
  c_sdk : option SDK;
  c_hub : list provider;
  c_ext : E;
  c_nebius : IPAllocator * Provider * list NodeClaim;
  c_kaito : IPAllocator * list NodeClaim;
}.
Arguments c_process {E SDK SCH LR}.
Arguments c_sdk {E SDK SCH LR}.
Arguments c_hub {E SDK SCH LR}.
Arguments c_ext {E SDK SCH LR}.
Arguments c_nebius {E SDK SCH LR}.
Arguments c_kaito {E SDK SCH LR}.
Arguments Build_Controller {E SDK SCH LR}.

Section main.
Context {SCH : Scheduling} {LR : LRU cachedEntry} {E Msg SDK : Type} {PR : ProtoRuntime Msg}.
Notation C := (Controller E SDK).
(** The providers: the services, clients and values their own files describe. *)
Context (of_AgentPool : nebius.AgentPool → Msg) (as_AgentPool : Msg → option nebius.AgentPool).
Context (pools_CreateOrUpdate : option Any → M E (option Any)) (pools_Get : string → M E (option Any))
        (pools_List : string → M E (list Any)) (pools_Delete : string → M E ()).
Context (kube_Get : string → M E NebiusNodeClass).
Context (FromError : error → option Code) (Error_ : error → string) (karpOpts : KarpOptions).
Context (all_labels wellknown_labels : Requirements → gmap string string)
        (Allocatable : InstanceType → gmap string Z).
Context (NodeClassLabelKey : GroupKind → string) (range : list string → list string).
Context (ParseFloat : string → option SpecFloat.spec_float)
        (completion : list PlatformPreset → list PlatformPreset)
        (azurev1beta1 : AzureLabels) (KubeReservedResources : Z → Z → gmap string Z)
        (SystemReservedResources EvictionThreshold_ : gmap string Z).
Context (env : Env) (sdk_Close conn_Close : option (M E ())).
(** The AKS provider and the group of its node class. *)
Context (aksCloudProvider : CloudProvider C InstanceType string ()) (aks_Group : string).
(** The options in the context, the Kubernetes configuration and its clients,
    the SDK constructor, the file system, and the operator. *)
Context (nebiusOpts : option nebiusOptions) (stretchOpts : option stretchOptions) (kaitoOpts : option KaitoOptions).
Context (gosdk_New : string → M C SDK) (kubernetes_NewForConfig dial : res ()).
Context (restConfig : option (option string)) (NewDiscoveryClient : res ()) (ServerVersion : M C string) (os : OS C).
Context (WaitForCRDs Start : M C ()).

Definition set_process (p : process) (w : C) : C :=
  Build_Controller p (c_sdk w) (c_hub w) (c_ext w) (c_nebius w) (c_kaito w).
Definition set_sdk (s : option SDK) (w : C) : C :=
  Build_Controller (c_process w) s (c_hub w) (c_ext w) (c_nebius w) (c_kaito w).
Definition set_hub (h : list provider) (w : C) : C :=
  Build_Controller (c_process w) (c_sdk w) h (c_ext w) (c_nebius w) (c_kaito w).
Definition set_nebius n (w : C) : C :=
  Build_Controller (c_process w) (c_sdk w) (c_hub w) (c_ext w) n (c_kaito w).
Definition set_kaito k (w : C) : C :=
  Build_Controller (c_process w) (c_sdk w) (c_hub w) (c_ext w) (c_nebius w) k.
Definition on_process {A} (c : M process A) : M C A := zoom c_process set_process c.

(** The parts of the world the two providers of the program work on. *)
Definition nebius_part (w : C) : World E :=
  let '(a, t, l) := c_nebius w in NebiusProvider.Build_World (c_ext w) a t l.
Definition put_nebius (n : World E) (w : C) : C :=
  Build_Controller (c_process w) (c_sdk w) (c_hub w) (NebiusProvider.w_ext n)
    (NebiusProvider.w_alloc n, w_types n, w_cleanups n) (c_kaito w).
Definition kaito_part (w : C) : KWorld E := let '(a, l) := c_kaito w in Build_KWorld (c_ext w) a l.
Definition put_kaito (k : KWorld E) (w : C) : C :=
  Build_Controller (c_process w) (c_sdk w) (c_hub w) (k_ext k) (c_nebius w) (k_alloc k, k_cleanups k).

Definition nebius_provider (clusterVersion clusterCA : string) : CloudProvider C InstanceType string () :=
  zoom_provider nebius_part put_nebius
    (as_provider of_AgentPool as_AgentPool pools_CreateOrUpdate pools_Get pools_List pools_Delete kube_Get
       FromError Error_ karpOpts all_labels wellknown_labels Allocatable (TrimPrefix clusterVersion "v") clusterCA
       NodeClassLabelKey range ParseFloat completion azurev1beta1 KubeReservedResources SystemReservedResources
       EvictionThreshold_ env sdk_Close conn_Close).
Definition kaito_provider (clusterCA : string) : CloudProvider C InstanceType string () :=
  zoom_provider kaito_part put_kaito
    (Kaito_provider of_AgentPool as_AgentPool pools_CreateOrUpdate pools_Get pools_List pools_Delete
       FromError Error_ karpOpts wellknown_labels clusterCA kaitoOpts NodeClassLabelKey range
       (env_cache env) (env_rnd env) conn_Close).

Definition registration_of (p : provider) : @registration C InstanceType string () :=
  match p with
  | PAks => (aksCloudProvider, {| gk_Group := aks_Group; gk_Kind := "AKSNodeClass" |}, "azure")
  | PNebius v ca => (nebius_provider v ca, NebiusProvider.GroupKind_, ProviderIDScheme)
  | PKaito ca => (kaito_provider ca, Kaito_GroupKind, Kaito_ProviderIDScheme)
  end.

(** The hub over the registrations so far. *)
Definition hub (w : C) : cloudProviderSet C InstanceType string () := registered (registration_of <$> c_hub w).
Definition hub_Register (p : provider) : M C () := modify (λ w, set_hub (c_hub w ++ [p]) w).

Definition MustNewNebiusSDK : M C SDK :=
  let opts := nebiusOpts ≫= λ o, nebiusOptionsFromContext (Some o) in
  _ ← Assert (bool_decide (is_Some opts)) "nebius options not found in context";
  match opts with Some o => must (gosdk_New (CredentialsFile o)) | None => panic "nil pointer dereference" end.

Definition MustInitalizeStretchPlugin : M C () :=
  _ ← Assert (bool_decide (is_Some stretchOpts)) "stretch options not found in context";
  _ ← Assert (bool_decide (is_Some nebiusOpts)) "nebius options not found in context";
  sdk ← MustNewNebiusSDK;
  _ ← modify (set_sdk (Some sdk));
  _ ← must (lift kubernetes_NewForConfig);
  match stretchOpts with
  | Some o => must (on_process (NewConnectionWithSecretDB dial (DatabaseNamespace o)))
  | None => panic "nil pointer dereference"
  end.

(** [Register] of a provider: its own connection, then the hub. *)
Definition connect_and_register (p : provider) : M C () :=
  _ ← wrapf "creating stretch plugin connection: %w" [] (on_process (NewConnection dial));
  hub_Register p.

Definition register_nebius (clusterVersion clusterCA : string) : M C () :=
  _ ← MustNewNebiusSDK;
  must (connect_and_register (PNebius clusterVersion clusterCA)).
Definition register_kaito (clusterCA : string) : M C () := must (connect_and_register (PKaito clusterCA)).

(** The deferred clean-ups; an error of closing the hub is logged. *)
Definition close_hub : M C () := λ w, let '(_, w') := Hub_Close (hub w) w in (Ok (), w').
Definition close_nebius_alloc : M C () :=
  modify (λ w, set_nebius (IPAllocator.Close (c_nebius w).1.1, (c_nebius w).1.2, (c_nebius w).2) w).
Definition close_kaito_alloc : M C () := modify (λ w, set_kaito (IPAllocator.Close (c_kaito w).1, (c_kaito w).2) w).

Definition parse_options : res () :=
  _ ← match nebiusOpts with Some o => nebius_Parse o | None => Ok () end;
  _ ← match stretchOpts with Some o => stretch_Parse o | None => Ok () end;
  match kaitoOpts with Some o => kaito_Parse o | None => Ok () end.

Definition controller_main : M C () :=
  _ ← must (lift parse_options);
  _ ← must WaitForCRDs;
  _ ← MustInitalizeStretchPlugin;
  _ ← modify (set_hub []);
  deferred close_hub (
    _ ← hub_Register PAks;
    clusterVersion ← must (RetrieveClusterVersion NewDiscoveryClient ServerVersion);
    clusterCA ← must (RetrieveClusterCA os restConfig);
    _ ← modify (set_nebius (NewIPAllocator NebiusProvider.GroupKind_, newProvider, []));
    deferred close_nebius_alloc (
      _ ← register_nebius clusterVersion clusterCA;
      _ ← modify (set_kaito (NewIPAllocator Kaito_GroupKind, []));
      deferred close_kaito_alloc (
        _ ← register_kaito clusterCA;
        Start))).

(** ** Lemmas *)
(** What is left to do when the operator stops. *)
Definition closed_allocators (w : C) : C := (close_nebius_alloc (close_kaito_alloc w).2).2.
Definition shutdown (w : C) : C := (close_hub (closed_allocators w)).2.

Lemma must_Ok {A} (c : M C A) a w w' : c w = (Ok a, w') → must c w = (Ok a, w').
Proof using Type. unfold must. by intros ->. Qed.

Lemma sdk_ok o sdk w :
  nebiusOpts = Some o → gosdk_New (CredentialsFile o) w = (Ok sdk, w) → MustNewNebiusSDK w = (Ok sdk, w).
Proof using Type. intros Ho Hs. unfold MustNewNebiusSDK. rewrite Ho. by apply must_Ok. Qed.

Lemma plugin_ok o so sdk w :
  nebiusOpts = Some o → stretchOpts = Some so → (∀ w, gosdk_New (CredentialsFile o) w = (Ok sdk, w)) →
  kubernetes_NewForConfig = Ok () → dial = Ok () →
  MustInitalizeStretchPlugin w =
  (Ok (), set_process (start (SecretDB (DatabaseNamespace so)) (c_process w)) (set_sdk (Some sdk) w)).
Proof using Type.
  intros Ho Hso Hs Hk Hd. unfold MustInitalizeStretchPlugin.
  rewrite Hso, !bool_decide_eq_true_2 by (rewrite ?Ho; by eexists).
  rewrite (M_bind_Ok (Assert true _) _ w () w eq_refl), (M_bind_Ok (Assert true _) _ w () w eq_refl).
  rewrite (M_bind_Ok _ _ _ _ _ (sdk_ok _ _ _ Ho (Hs w))). unfold modify at 1.
  rewrite Hk, Hd. reflexivity.
Qed.

Lemma connected p w :
  started (c_process w) ≠ None → dial = Ok () →
  connect_and_register p w = (Ok (), set_hub (c_hub w ++ [p]) w).
Proof using Type.
  intros Hp Hd. unfold connect_and_register, on_process, NewConnection, startWithFileDB, hub_Register.
  rewrite Hd. destruct w as [[[b|] n] sdk h e nb k]; [|done]. reflexivity.
Qed.

(** The dispatch of a node claim. *)
Definition dispatch (v ca : string) (gk : GroupKind) : option (CloudProvider C InstanceType string ()) :=
  if decide (gk = Kaito_GroupKind) then Some (kaito_provider ca)
  else if decide (gk = NebiusProvider.GroupKind_) then Some (nebius_provider v ca)
  else if decide (gk = {| gk_Group := aks_Group; gk_Kind := "AKSNodeClass" |}) then Some aksCloudProvider
  else None.

Lemma started_dispatch v ca gk :
  GetByGroupKind (registered (registration_of <$> [PAks; PNebius v ca; PKaito ca])) gk = Ok (dispatch v ca gk).
Proof using Type.
  rewrite GetByGroupKind_registered. f_equal. unfold last_match, dispatch. cbn [fmap list_fmap registration_of].
  rewrite !filter_cons, filter_nil. cbn [reg_gk fst snd].
  repeat case_decide; repeat match goal with H : context [bool_decide _] |- _ => rewrite ?bool_decide_eq_true in H end;
    subst; try done; naive_solver.
Qed.

(** The state in which the operator starts. *)
Definition operator_state (so : stretchOptions) (sdk : SDK) (v ca : string) (w : C) : C :=
  set_hub [PAks; PNebius v ca; PKaito ca] (set_kaito (NewIPAllocator Kaito_GroupKind, [])
    (set_nebius (NewIPAllocator NebiusProvider.GroupKind_, newProvider, [])
      (set_process (start (SecretDB (DatabaseNamespace so)) (c_process w)) (set_sdk (Some sdk) w)))).

Lemma main_runs o so sdk v ca (w : C) :
  nebiusOpts = Some o → CredentialsFile o ≠ "" → stretchOpts = Some so →
  (∀ w, WaitForCRDs w = (Ok (), w)) → (∀ w, gosdk_New (CredentialsFile o) w = (Ok sdk, w)) →
  kubernetes_NewForConfig = Ok () → dial = Ok () →
  (∀ w, RetrieveClusterVersion NewDiscoveryClient ServerVersion w = (Ok v, w)) →
  (∀ w, RetrieveClusterCA os restConfig w = (Ok ca, w)) →
  controller_main w = (let '(r, w') := Start (operator_state so sdk v ca w) in (r, shutdown w')).
Proof.
  intros Ho Hc Hso HW HS HK HD HV HA.
  set (p := start (SecretDB (DatabaseNamespace so)) (c_process w)).
  assert (started p ≠ None) as Hp by (unfold p, start; destruct (started (c_process w)) eqn:Es; [by rewrite Es|done]).
  set (w1 := set_hub [PAks] (set_process p (set_sdk (Some sdk) w))).
  set (w2 := set_nebius (NewIPAllocator NebiusProvider.GroupKind_, newProvider, []) w1).
  set (w3 := set_kaito (NewIPAllocator Kaito_GroupKind, []) (set_hub [PAks; PNebius v ca] w2)).
  set (ws := operator_state so sdk v ca w).
  unfold controller_main.
  assert (parse_options = Ok ()) as ->.
  { unfold parse_options, nebius_Parse. rewrite Ho, Hso, bool_decide_eq_false_2 by done. by destruct kaitoOpts. }
  rewrite (M_bind_Ok (must (lift (Ok ()))) _ w () w eq_refl).
  rewrite (M_bind_Ok _ _ _ _ _ (must_Ok _ _ _ _ (HW w))).
  rewrite (M_bind_Ok _ _ _ _ _ (plugin_ok _ _ _ w Ho Hso HS HK HD)).
  rewrite (M_bind_Ok (modify (set_hub [])) _ _ _ _ eq_refl). unfold deferred at 1.
  rewrite (M_bind_Ok (hub_Register PAks) _ (set_hub [] (set_process p (set_sdk (Some sdk) w))) () w1 eq_refl).
  rewrite (M_bind_Ok _ _ _ _ _ (must_Ok _ _ _ _ (HV w1))), (M_bind_Ok _ _ _ _ _ (must_Ok _ _ _ _ (HA w1))).
  rewrite (M_bind_Ok (modify (set_nebius _)) _ w1 () w2 eq_refl). unfold deferred at 1.
  assert (register_nebius v ca w2 = (Ok (), set_hub [PAks; PNebius v ca] w2)) as Hn.
  { unfold register_nebius. rewrite (M_bind_Ok _ _ _ _ _ (sdk_ok _ _ _ Ho (HS w2))). apply must_Ok.
    by rewrite connected. }
  rewrite (M_bind_Ok _ _ _ _ _ Hn).
  rewrite (M_bind_Ok (modify (set_kaito _)) _ (set_hub [PAks; PNebius v ca] w2) () w3 eq_refl). unfold deferred.
  assert (register_kaito ca w3 = (Ok (), ws)) as Hk by (apply must_Ok; by rewrite connected).
  rewrite (M_bind_Ok _ _ _ _ _ Hk).
  destruct (Start ws) as [r w']. done.
Qed.

End main.

(** ** A concrete process *)
Module MMem.
Import InstanceTypes.Mem.
Definition aks : CloudProvider (Controller () ()) InstanceType string () :=
  {| cp_Create nc := mret nc; cp_Delete _ := mret (); cp_Get _ := fail (ErrExt "get"); cp_List := mret [];
     cp_GetInstanceTypes _ := mret []; cp_GetSupportedNodeClasses := ["AKSNodeClass"]; cp_IsDrifted _ := mret "";
     cp_RepairPolicies := []; cp_Close := None |}.
Definition os : OS (Controller () ()) :=
  {| os_ReadFile _ := mret "ca"; os_WriteFile _ _ := mret (); os_MkdirAll _ := mret (); IsNotExist _ := false |}.
Definition w0 : Controller () () :=
  Build_Controller process_init None [] () (NewIPAllocator GroupKind_, newProvider, [])
    (NewIPAllocator Kaito_GroupKind, []).
End MMem.

