(* ===== verification/EndToEnd.v ===== *)
(** * A node claim from the hub to the cloud

    The composition of the parts a node claim of the Nebius provider goes
    through: the hub dispatches it, the provider decides an agent pool, the gRPC
    client sends it to the agent pools service of the plugin, its parent server
    dispatches it to the Nebius back end, which makes a disk and an instance of
    the cloud, and the answer is stored in the plugin's database.  The world is
    a cloud and a database, each with its own laws. *)
From S2P Require Import Prelude GoStr GoNet GoURL Karp IPAllocator Hub Proto Store Helper DB Server.
From S2P Require Import UserData NebiusResource NebiusInstance InstanceTypes V1alpha1 NebiusProvider.
From stdpp Require Import options.
Open Scope Z_scope.

(** ** The plugin over a cloud [C] and a database [D] *)
Section plugin.
Context {C D Msg : Type} `{PR : ProtoRuntime Msg} `{OB : Object Msg}.

Definition on_db {A} (c : M D A) : M (C * D) A := zoom snd (λ d w, (w.1, d)) c.

(** The database and the SDK as the services of the plugin see them. *)
Definition plugin_db (db : DB D Msg) : DB (C * D) Msg :=
  {| db_List := on_db (db_List db); db_Get id := on_db (db_Get db id);
     db_CreateOrUpdate obj := on_db (db_CreateOrUpdate db obj);
     db_Delete id := on_db (db_Delete db id) |}.

Definition plugin_sdk (sdk : SDK C) : SDK (C * D) := {|
  Compute_Instance := zoom_service fst (λ c w, (c, w.2)) (Compute_Instance sdk);
  Compute_Disk := zoom_service fst (λ c w, (c, w.2)) (Compute_Disk sdk);
|}.

Context (of_AgentPool : nebius.AgentPool → Msg) (as_AgentPool : Msg → option nebius.AgentPool).
Context (FromError : error → option Code) (sdk : SDK C) (db : DB D Msg).
Context (marshal_step : flex.Step → res string) (json_Marshal : list string → res string)
        (bootstrapTemplate : string → string → res string) (yaml_Marshal : UserData → res string)
        (wgSpokeScript : string).

(** [instance.New]: the Nebius back end; [List] and [Get] are those of the
    embedded unimplemented server. *)
Definition nebius_back : server (C * D) := {|
  srv_CreateOrUpdate := Instance_CreateOrUpdate of_AgentPool as_AgentPool FromError
    (Some (plugin_sdk sdk)) marshal_step json_Marshal bootstrapTemplate yaml_Marshal wgSpokeScript;
  srv_List _ := fail (ErrStatus Unimplemented "method List not implemented");
  srv_Get _ := fail (ErrStatus Unimplemented "method Get not implemented");
  srv_Delete := Instance_Delete as_AgentPool FromError (Some (plugin_sdk sdk))
    (db_Get (plugin_db db));
|}.

(** The agent pools service with the three back ends registered. *)
Definition agentpools_service (newAws newAzure : res (server (C * D))) (aws azure : Msg)
    : res (Parent (C * D) Msg) :=
  NewAgentPoolsServer (plugin_db db) newAws newAzure (Ok nebius_back) aws azure
    (of_AgentPool {| nebius.Metadata := None; nebius.Spec := None; nebius.Status := None |}).
End plugin.

(** What the generated code of the agent pool message promises: pools are
    objects under their id, [Redact] does nothing to them, they marshal and
    unmarshal, under one type name. *)
Class PoolMessage {Msg} `{PR : ProtoRuntime Msg} `{OB : Object Msg}
    (of_AgentPool : nebius.AgentPool → Msg) (as_AgentPool : Msg → option nebius.AgentPool) := {
  pool_as_of p : as_AgentPool (of_AgentPool p) = Some p;
  pool_object p : is_Object (of_AgentPool p) = true;
  pool_ObjectId p : ObjectId (of_AgentPool p) = api.GetId (nebius.GetMetadata (Some p));
  pool_Redact p : Redact (of_AgentPool p) = Ok (of_AgentPool p);
  pool_any p : is_Ok (any_New (of_AgentPool p));
  pool_name p q : FullName (of_AgentPool p) = FullName (of_AgentPool q);
}.

Section laws.
Context {C D Msg : Type} `{PR : ProtoRuntime Msg} `{OB : Object Msg} {PL : ProtoLaws Msg}.
Context (db : DB D Msg) {DL : DBLaws db}.
#[local] Set Default Proof Using "Type*".

Lemma on_db_run {A} (c : M D A) (w : C * D) r d :
  c w.2 = (r, d) → on_db c w = (r, (w.1, d)).
Proof using Type. unfold on_db, zoom. by intros ->. Qed.

#[export] Program Instance plugin_db_laws : DBLaws (plugin_db (C := C) db) :=
  {| view w := view w.2; storable := storable |}.
Next Obligation. intros w objs H. exact (view_distinct _ _ H). Qed.
Next Obligation.
  intros w objs H. destruct (db_list_law _ _ H) as (d & Hd & Hv).
  exists (w.1, d). split; [by apply on_db_run|done].
Qed.
Next Obligation.
  intros w objs id H. destruct (db_get_law _ _ id H) as (d & Hd & Hv).
  exists (w.1, d). split; [by apply on_db_run|done].
Qed.
Next Obligation.
  intros w objs obj H Ho Hs. destruct (db_upsert_law _ _ obj H Ho Hs) as (d & Hd & Hv).
  exists (w.1, d). split; [by apply on_db_run|done].
Qed.
Next Obligation.
  intros w objs id H Hs. destruct (db_delete_law _ _ id H Hs) as (d & Hd & Hv).
  exists (w.1, d). split; [by apply on_db_run|done].
Qed.

Lemma on_db_keeps {A} (c : M D A) : keeps fst (on_db (C := C) c).
Proof using Type. intros w. unfold on_db, zoom. by destruct (c w.2). Qed.
End laws.

(** ** The agent pools service with the Nebius back end *)
Section service.
Context {C D Msg : Type} `{PR : ProtoRuntime Msg} `{OB : Object Msg} {PL : ProtoLaws Msg}.
Context (of_AgentPool : nebius.AgentPool → Msg) (as_AgentPool : Msg → option nebius.AgentPool)
        {PM : PoolMessage of_AgentPool as_AgentPool}.
Context (FromError : error → option Code) (sdk : SDK C) (db : DB D Msg) {DL : DBLaws db}.
Context {IL : ServiceLaws FromError (Compute_Instance sdk)} {SL : ServiceLaws FromError (Compute_Disk sdk)}.
Notation instances := (resources (s := Compute_Instance sdk)).
Notation disks := (resources (s := Compute_Disk sdk)).
Context {IF : ServiceFrame (Compute_Instance sdk) disks} {DF : ServiceFrame (Compute_Disk sdk) instances}.
Context (marshal_step : flex.Step → res string) (json_Marshal : list string → res string)
        (bootstrapTemplate : string → string → res string) (yaml_Marshal : UserData → res string)
        (wgSpokeScript : string).
Context (enc : encoders marshal_step json_Marshal bootstrapTemplate yaml_Marshal).
Context (newAws newAzure : res (server (C * D))) (aws azure : Msg) (srv : Parent (C * D) Msg).
Notation back := (nebius_back of_AgentPool as_AgentPool FromError sdk db marshal_step json_Marshal
                    bootstrapTemplate yaml_Marshal wgSpokeScript).
Context (started : agentpools_service of_AgentPool as_AgentPool FromError sdk db marshal_step
  json_Marshal bootstrapTemplate yaml_Marshal wgSpokeScript newAws newAzure aws azure = Ok srv).
#[local] Set Default Proof Using "Type*".

#[local] Instance sdk_instances : ServiceLaws FromError (Compute_Instance (plugin_sdk (D := D) sdk)) :=
  zoom_laws fst (λ c w, (c, w.2)) (λ _ _, eq_refl) (λ '(_, _), eq_refl) IL.
#[local] Instance sdk_disks : ServiceLaws FromError (Compute_Disk (plugin_sdk (D := D) sdk)) :=
  zoom_laws fst (λ c w, (c, w.2)) (λ _ _, eq_refl) (λ '(_, _), eq_refl) SL.
#[local] Instance sdk_instance_frame : ServiceFrame (Compute_Instance (plugin_sdk (D := D) sdk))
  (resources (s := Compute_Disk (plugin_sdk (D := D) sdk))).
Proof using IF. by apply (zoom_frame_in fst). Qed.
#[local] Instance sdk_disk_frame : ServiceFrame (Compute_Disk (plugin_sdk (D := D) sdk))
  (resources (s := Compute_Instance (plugin_sdk (D := D) sdk))).
Proof using DF. by apply (zoom_frame_in fst). Qed.
#[local] Instance sdk_instance_db : ServiceFrame (Compute_Instance (plugin_sdk (D := D) sdk)) snd.
Proof using Type. by apply zoom_frame. Qed.
#[local] Instance sdk_disk_db : ServiceFrame (Compute_Disk (plugin_sdk (D := D) sdk)) snd.
Proof using Type. by apply zoom_frame. Qed.
#[local] Hint Extern 1 (keeps _ (CRUD_CreateOrUpdate _ _ _ _)) =>
  apply CRUD_CreateOrUpdate_keeps; apply _ : flex.
#[local] Hint Extern 1 (keeps _ (CRUD_Delete _ _ _)) =>
  apply CRUD_Delete_keeps; apply _ : flex.

Lemma back_create_keeps item : keeps snd (srv_CreateOrUpdate back item).
Proof using Type.
  cbn. unfold Instance_CreateOrUpdate, node_userdata, ensure_instance, InstanceCRUD, DiskCRUD.
  apply keeps_bind; [solve_keeps|]. intros ap. case_match; [solve_keeps|].
  apply keeps_bind_lift. intros s [= <-]. solve_keeps.
Qed.

Lemma back_keeps_db : keeps_db (plugin_db db) back.
Proof using Type.
  split.
  - intros objs item w r w' Hv H. simpl in Hv |- *.
    by rewrite (keeps_eq _ _ _ _ _ (back_create_keeps item) H).
  - intros objs id w r w' Hv H. revert Hv H.
    assert (preserves (λ w, view (db := plugin_db (C := C) db) w objs) (srv_Delete back id)) as Hp;
      [|intros Hv H; exact (preserves_eq _ _ _ _ _ Hp Hv H)].
    cbn. unfold Instance_Delete, InstanceCRUD, DiskCRUD. apply preserves_bind.
    + intros w1 Hv. destruct (db_get_law w1.2 objs id Hv) as (d & Hg & Hv2).
      by rewrite (on_db_run _ _ _ _ Hg).
    + intros [obj|]; [|solve_preserves]. apply (preserves_keeps (λ d, view (db := db) d objs) snd).
      apply keeps_bind; [solve_keeps|]. intros ap. apply keeps_bind_lift. intros s [= <-]. solve_keeps.
Qed.

(** The registry has the Nebius back end under the type of every pool. *)
Lemma service_registry :
  ∃ m, srv = {| DB_ := plugin_db db; Servers := m |} ∧
       ∀ p, m !! TypeURL (of_AgentPool p) = Some back.
Proof using started PM.
  revert started. unfold agentpools_service, NewAgentPoolsServer. simpl.
  destruct (MustRegister ∅ newAws aws) as [m1| |]; [|done..]. simpl.
  destruct (MustRegister m1 newAzure azure) as [m2| |]; [|done..]. simpl.
  intros [= <-]. eexists. split; [done|]. intros p. unfold TypeURL.
  rewrite (pool_name p {| nebius.Metadata := None; nebius.Spec := None; nebius.Status := None |}).
  apply lookup_insert_eq.
Qed.

Lemma pool_item p :
  ∃ it, any_New (of_AgentPool p) = Ok it ∧ TypeUrl it = TypeURL (of_AgentPool p) ∧
        ∀ q, q = p → AnyTo as_AgentPool (Some it) = Ok q ∧ AnyTo as_object (Some it) = Ok (of_AgentPool q).
Proof using PL PM.
  pose proof (pool_any p) as Hok. destruct (any_New (of_AgentPool p)) as [it| |] eqn:E; [|done..].
  exists it. split; [done|]. split; [exact (any_New_url _ _ E)|]. intros q ->.
  unfold AnyTo, To, as_object. rewrite (any_round _ _ E). simpl. by rewrite pool_as_of, pool_object.
Qed.

Lemma redacted_pool p it : any_New (of_AgentPool p) = Ok it → redacted_item (of_AgentPool p) = Ok it.
Proof using PM. intros H. unfold redacted_item. by rewrite pool_Redact. Qed.

(** A first request for a pool: the two resources are made and the pool of the
    answer is stored. *)
Lemma service_create p spec cfg objs (w : C * D) :
  valid_pool p spec cfg → view w.2 objs → (∀ q, storable (upsert (of_AgentPool q) objs)) →
  ∃ cfg' disk inst w', let q := answered (configured p spec cfg') inst disk in
    Client_CreateOrUpdate as_AgentPool (Parent_CreateOrUpdate srv) (of_AgentPool p) w = (Ok q, w') ∧
    view w'.2 (upsert (of_AgentPool q) objs) ∧
    created FromError sdk p spec cfg' disk inst w.1 w'.1.
Proof.
  intros Hvalid Hv Hs. destruct service_registry as (m & Hsrv & Hm).
  destruct (pool_item p) as (it & Hit & Hurl & Hun). destruct (Hun p eq_refl) as [Hp _].
  destruct (instance_create_ok of_AgentPool as_AgentPool FromError (plugin_sdk sdk) marshal_step
    json_Marshal bootstrapTemplate yaml_Marshal wgSpokeScript it p spec cfg w enc Hp Hvalid pool_any)
    as (cfg' & disk & inst & it' & w1 & Hc & Hu & Hcr).
  set (q := answered (configured p spec cfg') inst disk) in *.
  destruct (pool_item q) as (it2 & Hit2 & _ & Hun2). destruct (Hun2 q eq_refl) as [Hq _].
  destruct (Create_view (plugin_db db) m back it it' it2 (of_AgentPool q) objs w w1)
    as (w2 & Hpc & Hv2 & Hdb); try done.
  - apply back_keeps_db.
  - by rewrite Hurl.
  - unfold AnyTo, To, as_object. rewrite Hu. simpl. by rewrite pool_object.
  - apply Hs.
  - by apply redacted_pool.
  - exists cfg', disk, inst, w2. simpl. split_and!; [|done|].
    + unfold Client_CreateOrUpdate. rewrite (bind_lift_Ok _ _ _ _ Hit), Hsrv.
      rewrite (M_bind_Ok _ _ _ _ _ Hpc). unfold lift. by rewrite Hq.
    + pose proof (keeps_eq fst _ _ _ _ (on_db_keeps _) Hdb) as Hw. rewrite Hw.
      destruct Hcr as [H1 H2 H3 H4 H5 H6 H7 H8 H9]. by split.
Qed.

Lemma service_get name objs (w : C * D) :
  view w.2 objs →
  ∃ d, view d objs ∧ ∀ p, find_id name objs = Some (of_AgentPool p) →
    Client_Get as_AgentPool (Parent_Get srv) name w = (Ok p, (w.1, d)).
Proof.
  intros Hv. destruct service_registry as (m & Hsrv & _).
  destruct (db_get_law w.2 objs name Hv) as (d & Hg & Hv2). exists d. split; [done|]. intros p Hf.
  destruct (pool_item p) as (it & Hit & _ & Hun). destruct (Hun p eq_refl) as [Hp _].
  unfold Client_Get, Parent_Get. rewrite Hsrv. cbn [DB_ plugin_db db_Get].
  rewrite M_bind_assoc, (M_bind_Ok _ _ _ _ _ (on_db_run _ _ _ _ Hg)), Hf.
  rewrite M_bind_assoc, (bind_lift_Ok _ _ _ _ (redacted_pool _ _ Hit)).
  change (lift (AnyTo as_AgentPool (Some it)) (w.1, d) = (Ok p, (w.1, d))). by rewrite Hp.
Qed.

Lemma service_get_missing name objs (w : C * D) :
  view w.2 objs → find_id name objs = None →
  ∃ d, view d objs ∧
    Client_Get as_AgentPool (Parent_Get srv) name w = (Err (ErrStatus NotFound ""), (w.1, d)).
Proof.
  intros Hv Hf. destruct service_registry as (m & Hsrv & _).
  destruct (db_get_law w.2 objs name Hv) as (d & Hg & Hv2). exists d. split; [done|].
  unfold Client_Get, Parent_Get. rewrite Hsrv. cbn [DB_ plugin_db db_Get].
  by rewrite M_bind_assoc, (M_bind_Ok _ _ _ _ _ (on_db_run _ _ _ _ Hg)), Hf.
Qed.

(** The deletion of a stored pool: its two resources and its object go. *)
Lemma service_delete name p objs (w : C * D) :
  view w.2 objs → find_id name objs = Some (of_AgentPool p) → storable (without name objs) →
  nebius.GetInstanceId (nebius.Status p) ≠ "" → nebius.GetOsDiskId (nebius.Status p) ≠ "" →
  ∃ w', Client_Delete (Parent_Delete srv) name w = (Ok (), w') ∧
    view w'.2 (without name objs) ∧
    disks w'.1 = base.delete (nebius.GetOsDiskId (nebius.Status p)) (disks w.1) ∧
    instances w'.1 = base.delete (nebius.GetInstanceId (nebius.Status p)) (instances w.1).
Proof.
  intros Hv Hf Hs Hi Hd. destruct service_registry as (m & Hsrv & Hm).
  destruct (db_get_law w.2 objs name Hv) as (d & Hg & Hv0). rewrite Hf in Hg.
  apply (on_db_run (C := C)) in Hg. 
  destruct (db_get_law d objs name Hv0) as (d1 & Hg1 & Hv1). rewrite Hf in Hg1.
  assert (on_db (db_Get db name) (w.1, d) = (Ok (Some (of_AgentPool p)), (w.1, d1))) as Hg2
    by exact (on_db_run _ (w.1, d) _ _ Hg1).
  destruct (instance_delete_ok of_AgentPool as_AgentPool FromError (plugin_sdk sdk)
    (db_Get (plugin_db db)) pool_as_of p name (w.1, d) (w.1, d1) Hg2 Hi Hd)
    as (w2 & Hdel & Hdd & Hdi).
  destruct (Delete_view (plugin_db db) m back (of_AgentPool p) objs name w (w.1, d) w2)
    as (w3 & Hpd & Hv3 & Hdb); try done; [apply back_keeps_db|].
  exists w3. rewrite Hsrv. split_and!; [done|done| |];
    by rewrite (keeps_eq fst _ _ _ _ (on_db_keeps _) Hdb).
Qed.
End service.

(** ** A claim through the hub *)
Section lifecycle.
Context `{SCH : Scheduling} `{LR : LRU cachedEntry}.
Context {C D Msg : Type} `{PR : ProtoRuntime Msg} `{OB : Object Msg} {PL : ProtoLaws Msg}.
Context (of_AgentPool : nebius.AgentPool → Msg) (as_AgentPool : Msg → option nebius.AgentPool)
        {PM : PoolMessage of_AgentPool as_AgentPool}.
Context (FromError : error → option Code) (sdk : SDK C) (db : DB D Msg) {DL : DBLaws db}.
Context {IL : ServiceLaws FromError (Compute_Instance sdk)} {SL : ServiceLaws FromError (Compute_Disk sdk)}.
Notation instances := (resources (s := Compute_Instance sdk)).
Notation disks := (resources (s := Compute_Disk sdk)).
Context {IF : ServiceFrame (Compute_Instance sdk) disks} {DF : ServiceFrame (Compute_Disk sdk) instances}.
Context (marshal_step : flex.Step → res string) (json_Marshal : list string → res string)
        (bootstrapTemplate : string → string → res string) (yaml_Marshal : UserData → res string)
        (wgSpokeScript : string).
Context (enc : encoders marshal_step json_Marshal bootstrapTemplate yaml_Marshal).
Context (newAws newAzure : res (server (C * D))) (aws azure : Msg) (srv : Parent (C * D) Msg).
Context (started : agentpools_service of_AgentPool as_AgentPool FromError sdk db marshal_step
  json_Marshal bootstrapTemplate yaml_Marshal wgSpokeScript newAws newAzure aws azure = Ok srv).
(** The Kubernetes API is read, and the parameters of the provider. *)
Context (kube_Get : string → M (C * D) NebiusNodeClass) (kube_reads : ∀ n, keeps id (kube_Get n)).
Context (Error_ : error → string) (karpOpts : KarpOptions)
        (all_labels wellknown_labels : Requirements → gmap string string)
        (Allocatable : InstanceType → gmap string Z) (clusterVersionNoVPrefix clusterCA : string)
        (NodeClassLabelKey : GroupKind → string) (range : list string → list string)
        (ParseFloat : string → option SpecFloat.spec_float)
        (completion : list PlatformPreset → list PlatformPreset)
        (azurev1beta1 : AzureLabels) (KubeReservedResources : Z → Z → gmap string Z)
        (SystemReservedResources EvictionThreshold_ : gmap string Z).
Context (range_perm : ∀ x, range x ≡ₚ x).
Context (version_ok : TrimPrefix clusterVersionNoVPrefix "v" ≠ "").
Notation World := (World (C * D)).
(** The other providers registered at the hub, the later ones for other
    group-kinds and schemes. *)
Context (before after : list (@registration World InstanceType string ()))
        (after_apart : Forall (apart GroupKind_ ProviderIDScheme) after).
#[local] Set Default Proof Using "Type*".

Definition nebius_provider (env : Env) : @CloudProvider World InstanceType string () :=
  as_provider of_AgentPool as_AgentPool (Parent_CreateOrUpdate srv) (Parent_Get srv) (Parent_List srv)
    (Parent_Delete srv) kube_Get FromError Error_ karpOpts all_labels wellknown_labels Allocatable
    clusterVersionNoVPrefix clusterCA NodeClassLabelKey range ParseFloat completion azurev1beta1
    KubeReservedResources SystemReservedResources EvictionThreshold_ env None None.

(** The hub of the controller; the environment is that of one call. *)
Definition claims_hub (env : Env) : @cloudProviderSet World InstanceType string () :=
  registered (before ++ (nebius_provider env, GroupKind_, ProviderIDScheme) :: after).

Notation decide_pool := (prepare kube_Get karpOpts clusterVersionNoVPrefix clusterCA NodeClassLabelKey range
  ParseFloat completion azurev1beta1 KubeReservedResources SystemReservedResources EvictionThreshold_).

(** The database has the pool [p] of a claim, with the ids of its resources. *)
Record has_pool (w : World) (objs : list Msg) (name : string) (p : nebius.AgentPool) : Prop := {
  hp_view : view (w_ext w).2 objs;
  hp_find : find_id name objs = Some (of_AgentPool p);
  hp_name : api.GetId (nebius.GetMetadata (Some p)) = name;
  hp_instance : nebius.GetInstanceId (nebius.Status p) ≠ "";
  hp_disk : nebius.GetOsDiskId (nebius.Status p) ≠ "";
}.

Lemma provider_id_name name :
  str_forall name_char name = true →
  ∃ u, Parse (agentPoolNameToProviderID name) = Ok u ∧ Scheme u = ProviderIDScheme ∧
       providerIDToAgentPoolName (agentPoolNameToProviderID name) = Ok name.
Proof using Type.
  intros Hn. unfold providerIDToAgentPoolName, agentPoolNameToProviderID.
  rewrite Parse_scheme_name by (done || apply scheme_ok_nebius). eexists. split_and!; done.
Qed.

Lemma hub_get_missing env name objs w :
  str_forall name_char name = true → view (w_ext w).2 objs → find_id name objs = None →
  ∃ w', Hub_Get (claims_hub env) (agentPoolNameToProviderID name) w =
    (Err (ErrNodeClaimNotFound (ErrStatus NotFound "")), w').
Proof.
  intros Hn Hv Hf. destruct (provider_id_name name Hn) as (u & Hu & Hs & Hp).
  destruct (service_get_missing of_AgentPool as_AgentPool FromError sdk db _ _ _ _ _ enc _ _ _ _ srv
    started name objs (w_ext w) Hv Hf) as (d & _ & Hg).
  eexists. etrans; [by apply (Hub_Get_mid before _ _ _ after _ u)|].
  eapply Nebius_Get_missing; [exact Hp|exact Hg|].
  unfold Nebius_IsNotFound. by rewrite (code_not_found (s := Compute_Disk sdk)).
Qed.

Lemma hub_get_found env name objs p w preset types :
  str_forall name_char name = true → has_pool w objs name p →
  GetPlatformPreset (env_cloud env) (pool_key (Some p))
    (nebius.GetPlatform (nebius.GetSpec (Some p)))
    (nebius.GetPreset (nebius.GetSpec (Some p))) (w_types w) = (Ok preset, types) →
  ∃ nc w', Hub_Get (claims_hub env) (agentPoolNameToProviderID name) w = (Ok nc, w') ∧
    nc_Name nc = name ∧ nc_ProviderID nc = agentPoolNameToProviderID name ∧
    has_pool w' objs name p ∧ (w_ext w').1 = (w_ext w).1.
Proof.
  intros Hn [Hv Hf Hid Hi Hd] Hpre. destruct (provider_id_name name Hn) as (u & Hu & Hs & Hp).
  destruct (service_get of_AgentPool as_AgentPool FromError sdk db _ _ _ _ _ enc _ _ _ _ srv
    started name objs (w_ext w) Hv) as (d & Hv' & Hg). specialize (Hg p Hf).
  destruct (Nebius_Get_run as_AgentPool (Parent_Get srv) FromError all_labels Allocatable ParseFloat
    completion azurev1beta1 KubeReservedResources SystemReservedResources EvictionThreshold_ env
    _ _ w _ _ _ _ Hp Hg Hpre) as (it & types' & Hr).
  eexists _, _. split; [etrans; [by apply (Hub_Get_mid before _ _ _ after _ u)|exact Hr]|].
  unfold stretchAgentPoolToNodeClaim. simpl in *. rewrite Hid. split_and!; done.
Qed.

Lemma agentPoolNameToProviderID_ne name : agentPoolNameToProviderID name ≠ "".
Proof using Type. done. Qed.

Lemma hub_delete_ok env claim name objs p w :
  str_forall name_char name = true → has_pool w objs name p → storable (without name objs) →
  ref_GroupKind (nc_NodeClassRef claim) = Ok GroupKind_ →
  nc_ProviderID claim = agentPoolNameToProviderID name →
  ∃ w', Hub_Delete (claims_hub env) claim w = (Ok (), w') ∧
    view (w_ext w').2 (without name objs) ∧
    disks (w_ext w').1 = base.delete (nebius.GetOsDiskId (nebius.Status p)) (disks (w_ext w).1) ∧
    instances (w_ext w').1 =
      base.delete (nebius.GetInstanceId (nebius.Status p)) (instances (w_ext w).1).
Proof.
  intros Hn [Hv Hf Hid Hi Hd] Hs Href Hpid.
  destruct (provider_id_name name Hn) as (u & Hu & _ & Hp). rewrite <-Hpid in Hp.
  destruct (service_get of_AgentPool as_AgentPool FromError sdk db _ _ _ _ _ enc _ _ _ _ srv
    started name objs (w_ext w) Hv) as (d & Hv' & Hg). specialize (Hg p Hf).
  destruct (service_delete of_AgentPool as_AgentPool FromError sdk db _ _ _ _ _ enc _ _ _ _ srv
    started name p objs ((w_ext w).1, d) Hv' Hf Hs Hi Hd) as (e & Hdel & Hve & Hdd & Hdi).
  exists (Build_World e (w_alloc w) (w_types w) (w_cleanups w)). split; [|by split_and!].
  etrans; [by apply (by_ref_mid before _ _ _ after)|].
  eapply Nebius_Delete_run; [by rewrite Hpid|exact Hp|exact Hg|exact Hdel].
Qed.

Lemma hub_delete_missing env claim name objs w :
  str_forall name_char name = true → view (w_ext w).2 objs → find_id name objs = None →
  ref_GroupKind (nc_NodeClassRef claim) = Ok GroupKind_ →
  nc_ProviderID claim = agentPoolNameToProviderID name →
  ∃ w', Hub_Delete (claims_hub env) claim w =
    (Err (ErrNodeClaimNotFound (ErrStatus NotFound "")), w').
Proof.
  intros Hn Hv Hf Href Hpid.
  destruct (provider_id_name name Hn) as (u & Hu & _ & Hp). rewrite <-Hpid in Hp.
  destruct (service_get_missing of_AgentPool as_AgentPool FromError sdk db _ _ _ _ _ enc _ _ _ _ srv
    started name objs (w_ext w) Hv Hf) as (d & _ & Hg).
  eexists. etrans; [by apply (by_ref_mid before _ _ _ after)|].
  eapply Nebius_Delete_missing; [by rewrite Hpid|exact Hp|exact Hg|].
  unfold Nebius_IsNotFound. by rewrite (code_not_found (s := Compute_Disk sdk)).
Qed.

Lemma find_id_name name q objs :
  api.GetId (nebius.GetMetadata (Some q)) = name →
  find_id name (upsert (of_AgentPool q) objs) = Some (of_AgentPool q).
Proof using PM. intros <-. by rewrite find_upsert, pool_ObjectId, decide_True. Qed.

(** The agent pool of a claim is a first request the back end accepts. *)
Lemma claim_pool_valid class claim ls wg cfg :
  let p := claim_pool clusterVersionNoVPrefix class claim ls wg cfg in
  ∃ spec, valid_pool p spec cfg ∧
          nebius.GetPlatform (Some spec) = platform_Name (pp_platform (launch_PlatformPreset ls)).
Proof using version_ok. eexists. split; [by split|done]. Qed.

(** The outcome of a creation through the hub. *)
Record claim_created (claim : NodeClaim) (l : Launch) (objs : list Msg) (w w2 : World)
    (q : nebius.AgentPool) (disk : Resource DiskSpec) (inst : Resource InstanceSpec) : Prop := {
  cc_pool : has_pool w2 (upsert (of_AgentPool q) objs) (nc_Name claim) q;
  cc_instance : nebius.GetInstanceId (nebius.Status q) = r_Id inst;
  cc_disk : nebius.GetOsDiskId (nebius.Status q) = r_Id disk;
  cc_disks : disks (w_ext w2).1 = <[r_Id disk := disk]> (disks (w_ext w).1);
  cc_instances : instances (w_ext w2).1 = <[r_Id inst := inst]> (instances (w_ext w).1);
  cc_disk_new : disks (w_ext w).1 !! r_Id disk = None;
  cc_instance_new : instances (w_ext w).1 !! r_Id inst = None;
  cc_disk_name : r_Name disk = nc_Name claim +:+ "-boot";
  cc_instance_name : r_Name inst = nc_Name claim;
  cc_boot : BootDisk_ExistingDisk (r_Spec inst) = r_Id disk;
  cc_platform : Resources_Platform (r_Spec inst) =
    platform_Name (pp_platform (launch_PlatformPreset (la_settings l)));
}.

Lemma hub_create_ok env claim l objs w w1 :
  ref_GroupKind (nc_NodeClassRef claim) = Ok GroupKind_ →
  decide_pool env claim w = (Ok l, w1) →
  view (w_ext w).2 objs → (∀ q, storable (upsert (of_AgentPool q) objs)) →
  let project := nebius.GetProjectId (nebius.GetSpec (Some (la_pool l))) in
  (∀ r, ¬ named (disks (w_ext w).1) project (nc_Name claim +:+ "-boot") r) →
  (∀ r, ¬ named (instances (w_ext w).1) project (nc_Name claim) r) →
  ∃ nc w2 q disk inst, Hub_Create (claims_hub env) claim w = (Ok nc, w2) ∧
    nc_Name nc = nc_Name claim ∧ nc_ProviderID nc = agentPoolNameToProviderID (nc_Name claim) ∧
    claim_created claim l objs w w2 q disk inst.
Proof.
  intros Href Hprep Hv Hs project Hnd Hni. subst project.
  pose proof (prepare_inv _ _ _ _ _ _ _ _ _ _ _ _ _ _ _ _ _ range_perm Hprep)
    as (ref & class & wg & cfg & _ & _ & _ & Hk & _ & _ & Hpool & _).
  pose proof (keeps_eq id _ _ _ _ (kube_reads _) Hk) as Hext. unfold id in Hext.
  rewrite Hpool in Hnd, Hni. rewrite <-Hext in Hv, Hnd, Hni.
  destruct (claim_pool_valid class claim (la_settings l) wg cfg) as (spec & Hvalid & Hplat).
  destruct (service_create of_AgentPool as_AgentPool FromError sdk db _ _ _ _ _ enc _ _ _ _ srv started
    _ spec cfg objs (w_ext w1) Hvalid Hv Hs) as (cfg' & disk & inst & e2 & Hc & Hv2 & Hcr).
  set (q := answered _ inst disk) in *. rewrite <-Hpool in Hc.
  assert (nebius.GetProjectId (nebius.GetSpec (Some (claim_pool clusterVersionNoVPrefix class claim
    (la_settings l) wg cfg))) = project spec) as Hproj
    by (unfold project; by rewrite <-(vp_spec _ _ _ Hvalid)).
  rewrite Hproj in Hnd, Hni. destruct Hcr as [_ H2 H3 H4 H5 (? & _ & _ & Hdn) [_ Hin] Hdf Hif].
  specialize (Hdf Hnd). destruct (Hif Hni) as (Hin1 & ud & Hspec).
  destruct (Nebius_Create_run of_AgentPool as_AgentPool (Parent_CreateOrUpdate srv) kube_Get Error_
    karpOpts all_labels wellknown_labels Allocatable clusterVersionNoVPrefix clusterCA NodeClassLabelKey
    range ParseFloat completion azurev1beta1 KubeReservedResources SystemReservedResources
    EvictionThreshold_ env claim w l w1 q e2 Hprep Hc) as (it & types & Hr).
  eexists _, _, q, disk, inst.
  split; [etrans; [by apply (by_ref_mid before _ _ _ after)|exact Hr]|].
  split; [done|]. split; [done|]. rewrite Hext in *.
  split; try done; cbn [w_ext]; [|by rewrite Hspec..].
  split; [exact Hv2|by apply find_id_name|done|done|done].
Qed.

Lemma without_fresh name (objs : list Msg) : find_id name objs = None → without name objs = objs.
Proof using Type.
  intros Hf. unfold without. induction objs as [|o objs IH]; [done|].
  unfold find_id in *. simpl in Hf. destruct (decide (ObjectId o = name)) as [E|E]; [done|].
  rewrite filter_cons_True by done. rewrite IH; [done|]. by destruct (list_find _ objs) as [[]|].
Qed.

Lemma without_upsert name q objs :
  api.GetId (nebius.GetMetadata (Some q)) = name → find_id name objs = None →
  without name (upsert (of_AgentPool q) objs) = objs.
Proof using PM.
  intros <- Hf. rewrite <-(pool_ObjectId q) in Hf |- *. apply without_fresh in Hf as H.
  unfold upsert. rewrite H. unfold without in *.
  rewrite filter_app, H, filter_cons_False by (intros E; by destruct E).
  by rewrite filter_nil, app_nil_r.
Qed.

(** C1: the life of a node claim.  A claim the Nebius provider can resolve, given
    to the hub when no agent pool, disk or instance has its name, is created: the
    hub answers with the claim's name and the provider ID of that name, the cloud
    has exactly one new disk and one new instance that boots from it, and the
    plugin's database the pool with their ids.  [Get] of that provider ID finds
    the claim as long as the cloud lists its preset.  [Delete] of the claim with
    that provider ID leaves the cloud and the database as they were before the
    creation, and from then on [Get] and [Delete] report that the claim is not
    found. *)
Theorem claim_lifecycle env claim l objs w w1 :
  ref_GroupKind (nc_NodeClassRef claim) = Ok GroupKind_ →
  str_forall name_char (nc_Name claim) = true →
  decide_pool env claim w = (Ok l, w1) →
  view (w_ext w).2 objs → find_id (nc_Name claim) objs = None →
  storable objs → (∀ q, storable (upsert (of_AgentPool q) objs)) →
  let project := nebius.GetProjectId (nebius.GetSpec (Some (la_pool l))) in
  (∀ r, ¬ named (disks (w_ext w).1) project (nc_Name claim +:+ "-boot") r) →
  (∀ r, ¬ named (instances (w_ext w).1) project (nc_Name claim) r) →
  ∃ nc w2 q disk inst, Hub_Create (claims_hub env) claim w = (Ok nc, w2) ∧
    nc_Name nc = nc_Name claim ∧ nc_ProviderID nc = agentPoolNameToProviderID (nc_Name claim) ∧
    claim_created claim l objs w w2 q disk inst ∧
    (∀ env2 preset types,
       GetPlatformPreset (env_cloud env2) (pool_key (Some q))
         (nebius.GetPlatform (nebius.GetSpec (Some q)))
         (nebius.GetPreset (nebius.GetSpec (Some q))) (w_types w2) = (Ok preset, types) →
       ∃ nc2 w3, Hub_Get (claims_hub env2) (nc_ProviderID nc) w2 = (Ok nc2, w3) ∧
         nc_Name nc2 = nc_Name claim ∧ nc_ProviderID nc2 = nc_ProviderID nc ∧
         (w_ext w3).1 = (w_ext w2).1) ∧
    (∀ env2 claim2, nc_NodeClassRef claim2 = nc_NodeClassRef claim →
       nc_ProviderID claim2 = nc_ProviderID nc →
       ∃ w3, Hub_Delete (claims_hub env2) claim2 w2 = (Ok (), w3) ∧
         disks (w_ext w3).1 = disks (w_ext w).1 ∧ instances (w_ext w3).1 = instances (w_ext w).1 ∧
         view (w_ext w3).2 objs ∧
         ∀ env3, ∃ w4 w5,
           Hub_Get (claims_hub env3) (nc_ProviderID nc) w3 =
             (Err (ErrNodeClaimNotFound (ErrStatus NotFound "")), w4) ∧
           Hub_Delete (claims_hub env3) claim2 w3 =
             (Err (ErrNodeClaimNotFound (ErrStatus NotFound "")), w5)).
Proof.
  intros Href Hn Hprep Hv Hf Hs0 Hs project Hnd Hni.
  destruct (hub_create_ok env claim l objs w w1 Href Hprep Hv Hs Hnd Hni)
    as (nc & w2 & q & disk & inst & Hc & Hname & Hpid & Hcc).
  exists nc, w2, q, disk, inst. rewrite Hpid. split_and!; [done..| |].
  - intros env2 preset types Hpre.
    destruct (hub_get_found env2 _ _ q w2 preset types Hn (cc_pool _ _ _ _ _ _ _ _ Hcc) Hpre)
      as (nc2 & w3 & Hg & Hn2 & Hp2 & _ & Hext). by exists nc2, w3.
  - intros env2 claim2 Href2 Hpid2. rewrite <-Href2 in Href.
    destruct Hcc as [Hpool Hinst Hdisk Hds His Hdn Hin _ _ _ _].
    pose proof (without_upsert _ q objs (hp_name _ _ _ _ Hpool) Hf) as Hwo.
    destruct (hub_delete_ok env2 claim2 _ _ q w2 Hn Hpool ltac:(by rewrite Hwo) Href Hpid2)
      as (w3 & Hd & Hv3 & Hdd & Hdi). rewrite Hwo in Hv3.
    exists w3. split_and!; [done| | |done|].
    + rewrite Hdd, Hdisk, Hds. by apply delete_insert_id.
    + rewrite Hdi, Hinst, His. by apply delete_insert_id.
    + intros env3. destruct (hub_get_missing env3 _ objs w3 Hn Hv3 Hf) as [w4 Hg].
      destruct (hub_delete_missing env3 claim2 _ objs w3 Hn Hv3 Hf Href Hpid2) as [w5 Hd5].
      by exists w4, w5.
Qed.
End lifecycle.

(** ** The hypotheses can hold *)

(** The cloud and the provider of the earlier examples, with the plugin's database
    in a file. *)
Module Mem.
Import InstanceTypes.Mem.
#[global] Existing Instance NebiusInstance.Mem.runtime.
#[global] Instance object : Object nebius.AgentPool :=
  {| is_Object _ := true; ObjectId p := api.GetId (nebius.GetMetadata (Some p));
     Redact p := p ← nebius.Redact (Some p);
                 match p with Some p => Ok p | None => Panic "nil pointer dereference" end |}.
#[global] Instance pool_message : PoolMessage (λ p, p) Some.
Proof. by split. Qed.

Definition db : DB File.file nebius.AgentPool := StupidDB File.store.
#[global] Instance db_laws : DBLaws db := StupidDB_laws File.store.

Lemma pools_fit (objs : list nebius.AgentPool) : db_fits File.store objs.
Proof.
  exists ((λ m, {| TypeUrl := Helper.Mem.url_prefix +:+ "AgentPool";
                   Value := Helper.Mem.bytes_of m |}) <$> objs).
  eexists. split_and!; [|reflexivity|done].
  induction objs as [|m objs IH]; constructor; [reflexivity|exact IH].
Qed.

Lemma empty_view : db_holds (Msg := nebius.AgentPool) File.store empty_file [].
Proof. split; [constructor|]. exists []. split; [by repeat split|]. exists []. split; [done|constructor]. Qed.

(** A database that holds a pool, and a request for the same pool. *)
Definition stored_pool : nebius.AgentPool :=
  {| nebius.Metadata := nebius.Metadata NebiusInstance.Mem.pool;
     nebius.Spec := nebius.Spec NebiusInstance.Mem.pool;
     nebius.Status := Some {| nebius.InstanceId := Some "i-1"; nebius.OsDiskId := Some "d-1";
                              nebius.CreatedAt := None |} |}.
Lemma stored_pool_view : ∃ d, db_holds (Msg := nebius.AgentPool) File.store d [stored_pool].
Proof.
  destruct (db_upsert_law (DBLaws := db_laws) empty_file [] stored_pool empty_view eq_refl (pools_fit _))
    as (d & _ & Hv). exists d. exact Hv.
Qed.
Definition pool_any_item : Any :=
  {| TypeUrl := Helper.Mem.url_prefix +:+ "AgentPool";
     Value := Helper.Mem.bytes_of NebiusInstance.Mem.pool |}.

Definition no_back : server (NebiusInstance.Mem.W * File.file) :=
  {| srv_CreateOrUpdate _ := mret None; srv_List _ := mret []; srv_Get _ := mret None;
     srv_Delete _ := mret () |}.
Definition empty_pool : nebius.AgentPool :=
  {| nebius.Metadata := None; nebius.Spec := None; nebius.Status := None |}.

Notation service := (agentpools_service (λ p, p) Some MemService.code_of NebiusInstance.Mem.sdk db
  (λ _, Ok "{}") (λ _, Ok "[]") (λ _ _, Ok "#!") (λ _, Ok "yaml") "#!wg" (Ok no_back) (Ok no_back)
  empty_pool empty_pool).
Lemma service_started : ∃ srv, service = Ok srv.
Proof. by eexists. Qed.

Definition w0 : World (NebiusInstance.Mem.W * File.file) :=
  Build_World ((∅, ∅), empty_file) (NewIPAllocator GroupKind_) newProvider [].
Notation kube := (λ _ : string, mret (M := M (NebiusInstance.Mem.W * File.file)) NebiusProvider.Mem.class).
Notation prepare0 := (prepare kube NebiusProvider.Mem.opts "1.34.2" "ca" gk_Kind id ParseFloat id az
  (λ _ _, ∅) ∅ ∅ NebiusProvider.Mem.env NebiusProvider.Mem.claim w0).
Lemma prepare0_ok : ∃ l w', prepare0 = (Ok l, w').
Proof.
  destruct prepare0 as [r w'] eqn:H.
  assert (is_Ok prepare0.1 = true) as Hok by (vm_compute; reflexivity).
  rewrite H in Hok. destruct r as [l| |]; [|done..]. by exists l, w'.
Qed.
End Mem.

Lemma claim_lifecycle_witness :
  ∃ srv w2 w3 w4 nc,
    let hub := claims_hub (λ p, p) Some MemService.code_of srv (λ _, mret NebiusProvider.Mem.class)
      (λ _, "") NebiusProvider.Mem.opts (λ _, ∅) (λ _, ∅) it_Capacity "1.34.2" "ca" gk_Kind id
      InstanceTypes.Mem.ParseFloat id InstanceTypes.Mem.az (λ _ _, ∅) ∅ ∅ [] []
      NebiusProvider.Mem.env in
    let claim2 := {| nc_Name := "claim-1"; nc_Labels := ∅; nc_CreationTimestamp := 0;
      nc_NodeClassRef := nc_NodeClassRef NebiusProvider.Mem.claim; nc_Requirements := [];
      nc_Requests := ∅; nc_ProviderID := nc_ProviderID nc; nc_Capacity := ∅; nc_Allocatable := ∅ |} in
    Hub_Create hub NebiusProvider.Mem.claim Mem.w0 = (Ok nc, w2) ∧
    nc_ProviderID nc = "aks-nebius://claim-1" ∧
    Hub_Delete hub claim2 w2 = (Ok (), w3) ∧
    resources (s := Compute_Disk NebiusInstance.Mem.sdk) (w_ext w3).1 = ∅ ∧
    Hub_Get hub (nc_ProviderID nc) w3 = (Err (ErrNodeClaimNotFound (ErrStatus NotFound "")), w4).
Proof.
  destruct Mem.service_started as (srv & Hsrv). destruct Mem.prepare0_ok as (l & w1 & Hp).
  destruct (claim_lifecycle (λ p, p) Some MemService.code_of NebiusInstance.Mem.sdk Mem.db
    (λ _, Ok "{}") (λ _, Ok "[]") (λ _ _, Ok "#!") (λ _, Ok "yaml") "#!wg" NebiusInstance.Mem.encoders_ok
    (Ok Mem.no_back) (Ok Mem.no_back) Mem.empty_pool Mem.empty_pool srv Hsrv
    (λ _, mret NebiusProvider.Mem.class) (λ _, keeps_ret id NebiusProvider.Mem.class) (λ _, "")
    NebiusProvider.Mem.opts (λ _, ∅)
    (λ _, ∅) it_Capacity "1.34.2" "ca" gk_Kind id InstanceTypes.Mem.ParseFloat id InstanceTypes.Mem.az
    (λ _ _, ∅) ∅ ∅ (λ x, reflexivity x) ltac:(done) [] [] (Forall_nil_2 _)
    NebiusProvider.Mem.env NebiusProvider.Mem.claim l [] Mem.w0 w1 eq_refl eq_refl Hp Mem.empty_view
    eq_refl (Mem.pools_fit _) (λ _, Mem.pools_fit _)
    (NebiusInstance.Mem.no_disks (∅, ∅) _ _ eq_refl)
    (NebiusInstance.Mem.no_instances (∅, ∅) _ _ eq_refl))
    as (nc & w2 & q & disk & inst & Hc & _ & Hpid & _ & _ & Hdel).
  destruct (Hdel NebiusProvider.Mem.env
    {| nc_Name := "claim-1"; nc_Labels := ∅; nc_CreationTimestamp := 0;
       nc_NodeClassRef := nc_NodeClassRef NebiusProvider.Mem.claim; nc_Requirements := [];
       nc_Requests := ∅; nc_ProviderID := nc_ProviderID nc; nc_Capacity := ∅; nc_Allocatable := ∅ |}
    eq_refl eq_refl) as (w3 & Hd & Hdisks & _ & _ & Hgone).
  destruct (Hgone NebiusProvider.Mem.env) as (w4 & w5 & Hg & _).
  exists srv, w2, w3, w4, nc. split_and!; [exact Hc|exact Hpid|exact Hd|exact Hdisks|exact Hg].
Defined.
