(* ===== verification/Concurrent.v ===== *)
(** * Concurrent requests on a database

    [plugin/pkg/db]: the methods of [StupidDB] hold the mutex of the database
    value from before the read of the store to after its write, and the file
    store holds its own mutex and the file lock during one [Read] or one [Write]
    only.  Requests run as threads over a shared store; a step is one lock
    operation or one call of the store.  Within one database value the requests
    take effect one after the other; two values on one store, such as those of
    two processes on one file, lose updates. *)
From S2P Require Import Prelude GoStr Store Helper DB.
From stdpp Require Import options.
#[local] Open Scope nat_scope.

Section requests.
Context {W Msg : Type} `{PR : ProtoRuntime Msg} `{OB : Object Msg} (store : Store W).

(** The methods of the database and what they answer. *)
Inductive op :=
| OpCreateOrUpdate (obj : Msg)
| OpDelete (id : string)
| OpGet (id : string)
| OpList.

Inductive answer :=
| AnsUnit
| AnsObj (obj : option Msg)
| AnsList (objs : list Msg).

(** The method as a whole, without other requests. *)
Definition op_run (o : op) : M W answer :=
  match o with
  | OpCreateOrUpdate obj => _ ← CreateOrUpdate store obj; mret AnsUnit
  | OpDelete id => _ ← Delete store id; mret AnsUnit
  | OpGet id => obj ← Get store id; mret (AnsObj obj)
  | OpList => objs ← List store; mret (AnsList objs)
  end.

(** What the method writes after it has listed the objects, and its answer. *)
Definition op_update (o : op) (objs : list Msg) : option (list Msg) :=
  match o with
  | OpCreateOrUpdate obj => Some (filter (λ o, ObjectId o ≠ ObjectId obj) objs ++ [obj])
  | OpDelete id => Some (filter (λ o, ObjectId o ≠ id) objs)
  | OpGet _ | OpList => None
  end.
Definition op_answer (o : op) (objs : list Msg) : answer :=
  match o with
  | OpCreateOrUpdate _ | OpDelete _ => AnsUnit
  | OpGet id => AnsObj (get_loop id objs)
  | OpList => AnsList objs
  end.

(** A request: before [db.mu.Lock()], holding the mutex, after [db.list()],
    before the deferred [db.mu.Unlock()], which a panic passes through too, and
    after it. *)
Inductive phase :=
| Waiting
| Entered
| Listed (objs : list Msg)
| Leaving (r : res answer)
| Finished (r : res answer).

(** A request on the database value [rq_db]. *)
Record request := { rq_db : nat; rq_op : op; rq_phase : phase }.

(** The shared store, the holder of the mutex of each database value, and the
    requests. *)
Record state := {
  st_world : W;
  st_mutex : gmap nat nat;
  st_requests : list request;
}.

Definition set_phase (i : nat) (p : phase) (s : state) : list request :=
  alter (λ r, {| rq_db := rq_db r; rq_op := rq_op r; rq_phase := p |}) i (st_requests s).

Definition as_panic {A} (r : res A) : res answer :=
  match r with Ok _ => Ok AnsUnit | Err e => Err e | Panic p => Panic p end.

(** One step of request [i]; none when it waits for a held mutex or is finished. *)
Definition exec (i : nat) (s : state) : option state :=
  r ← st_requests s !! i;
  match rq_phase r with
  | Waiting =>
      match st_mutex s !! rq_db r with
      | Some _ => None
      | None => Some {| st_world := st_world s; st_mutex := <[rq_db r := i]> (st_mutex s);
                        st_requests := set_phase i Entered s |}
      end
  | Entered =>
      let '(objs, w) := list_ store (st_world s) in
      Some {| st_world := w; st_mutex := st_mutex s;
              st_requests := set_phase i match objs with
                                         | Ok objs => Listed objs
                                         | r => Leaving (as_panic r)
                                         end s |}
  | Listed objs =>
      match op_update (rq_op r) objs with
      | None => Some {| st_world := st_world s; st_mutex := st_mutex s;
                        st_requests := set_phase i (Leaving (Ok (op_answer (rq_op r) objs))) s |}
      | Some objs' =>
          let '(done, w) := write store objs' (st_world s) in
          Some {| st_world := w; st_mutex := st_mutex s;
                  st_requests := set_phase i (Leaving match done with
                                                      | Ok _ => Ok (op_answer (rq_op r) objs)
                                                      | r => as_panic r
                                                      end) s |}
      end
  | Leaving a => Some {| st_world := st_world s; st_mutex := base.delete (rq_db r) (st_mutex s);
                         st_requests := set_phase i (Finished a) s |}
  | Finished _ => None
  end.

Definition step (s s' : state) : Prop := ∃ i, exec i s = Some s'.

(** Run the requests in the order of a schedule. *)
Fixpoint run (sched : list nat) (s : state) : option state :=
  match sched with
  | [] => Some s
  | i :: sched => s' ← exec i s; run sched s'
  end.

(** Requests that have just arrived. *)
Definition arrive (l : list (nat * op)) : list request :=
  (λ '(d, o), {| rq_db := d; rq_op := o; rq_phase := Waiting |}) <$> l.
Definition init (w : W) (l : list (nat * op)) : state :=
  {| st_world := w; st_mutex := ∅; st_requests := arrive l |}.

Lemma run_steps sched s s' : run sched s = Some s' → rtc step s s'.
Proof.
  revert s. induction sched as [|i sched IH]; intros s; simpl; [intros [= <-]; done|].
  intros (s1 & Hi & Hr)%bind_Some. eapply rtc_l; [by exists i|by apply IH].
Qed.

(** The steps, one by one. *)
Lemma exec_lock i s d o :
  st_requests s !! i = Some {| rq_db := d; rq_op := o; rq_phase := Waiting |} →
  st_mutex s !! d = None →
  exec i s = Some {| st_world := st_world s; st_mutex := <[d := i]> (st_mutex s);
                     st_requests := set_phase i Entered s |}.
Proof. intros Hr Hm. unfold exec. rewrite Hr. simpl. by rewrite Hm. Qed.

Lemma exec_list i s d o objs w :
  st_requests s !! i = Some {| rq_db := d; rq_op := o; rq_phase := Entered |} →
  list_ store (st_world s) = (objs, w) →
  exec i s = Some {| st_world := w; st_mutex := st_mutex s;
    st_requests := set_phase i match objs with Ok objs => Listed objs
                                             | r => Leaving (as_panic r) end s |}.
Proof. intros Hr Hl. unfold exec. rewrite Hr. simpl. by rewrite Hl. Qed.

Lemma exec_write i s d o objs objs' r w :
  st_requests s !! i = Some {| rq_db := d; rq_op := o; rq_phase := Listed objs |} →
  op_update o objs = Some objs' → write store objs' (st_world s) = (r, w) →
  exec i s = Some {| st_world := w; st_mutex := st_mutex s;
    st_requests := set_phase i (Leaving match r with Ok _ => Ok (op_answer o objs)
                                                   | r => as_panic r end) s |}.
Proof. intros Hr Hu Hw. unfold exec. rewrite Hr. simpl. by rewrite Hu, Hw. Qed.

Lemma exec_answer i s d o objs :
  st_requests s !! i = Some {| rq_db := d; rq_op := o; rq_phase := Listed objs |} →
  op_update o objs = None →
  exec i s = Some {| st_world := st_world s; st_mutex := st_mutex s;
    st_requests := set_phase i (Leaving (Ok (op_answer o objs))) s |}.
Proof. intros Hr Hu. unfold exec. rewrite Hr. simpl. by rewrite Hu. Qed.

Lemma exec_unlock i s d o a :
  st_requests s !! i = Some {| rq_db := d; rq_op := o; rq_phase := Leaving a |} →
  exec i s = Some {| st_world := st_world s; st_mutex := base.delete d (st_mutex s);
                     st_requests := set_phase i (Finished a) s |}.
Proof. intros Hr. unfold exec. by rewrite Hr. Qed.

(** The specification of a sequence of requests: their log, each with the
    answer it gives on the objects it finds. *)
Definition op_apply (o : op) (objs : list Msg) : list Msg := default objs (op_update o objs).

Definition entry : Type := nat * op * answer.
Inductive legal (objs0 : list Msg) : list entry → list Msg → Prop :=
| legal_nil : legal objs0 [] objs0
| legal_snoc log objs i o :
    legal objs0 log objs →
    legal objs0 (log ++ [(i, o, op_answer o objs)]) (op_apply o objs).

Definition log_ids (log : list entry) : list nat := (λ e, e.1.1) <$> log.
End requests.
Arguments op : clear implicits.
Arguments answer : clear implicits.
Arguments phase : clear implicits.
Arguments request : clear implicits.
Arguments state : clear implicits.
Arguments entry : clear implicits.

(** ** One database value *)
Section linearizable.
Context {W Msg : Type} `{PR : ProtoRuntime Msg} `{OB : Object Msg} {PL : ProtoLaws Msg}.
Context (store : Store W) {SL : StoreLaws store}.
(** The database value, the objects it starts with and the requests; the lists
    of these objects and the requests' fit the store. *)
Context (d : nat) (objs0 : list Msg) (ops : list (op Msg)).
Definition source (o : Msg) : Prop := o ∈ objs0 ∨ OpCreateOrUpdate o ∈ ops.
Context (objects : ∀ o, OpCreateOrUpdate o ∈ ops → is_Object o = true).
Context (fits_store : ∀ objs, Forall source objs → db_fits store objs).
#[local] Set Default Proof Using "Type*".
Notation state := (state W Msg).
Notation step := (step store).

(** What a log says about one request. *)
Definition request_ok (s : state) (objs : list Msg) (log : list (entry Msg)) (i : nat) (r : request Msg) : Prop :=
  rq_db r = d ∧ ops !! i = Some (rq_op r) ∧
  match rq_phase r with
  | Waiting => i ∉ log_ids log ∧ st_mutex s !! d ≠ Some i
  | Entered => i ∉ log_ids log ∧ st_mutex s !! d = Some i
  | Listed objs' => i ∉ log_ids log ∧ st_mutex s !! d = Some i ∧ objs' = objs
  | Leaving a => st_mutex s !! d = Some i ∧ ∃ a', a = Ok a' ∧ (i, rq_op r, a') ∈ log
  | Finished a => st_mutex s !! d ≠ Some i ∧ ∃ a', a = Ok a' ∧ (i, rq_op r, a') ∈ log
  end.

(** The log explains the state: its entries applied in order to the initial
    objects give those in the store. *)
Record explained (s : state) (log : list (entry Msg)) (objs : list Msg) : Prop := {
  ex_legal : legal objs0 log objs;
  ex_holds : db_holds store (st_world s) objs;
  ex_source : Forall source objs;
  ex_nodup : NoDup (log_ids log);
  ex_log : Forall (λ e, ops !! e.1.1 = Some e.1.2) log;
  ex_mutex i : st_mutex s !! d = Some i → is_Some (st_requests s !! i);
  ex_length : length (st_requests s) = length ops;
  ex_requests i r : st_requests s !! i = Some r → request_ok s objs log i r;
}.
Definition explains (s : state) (log : list (entry Msg)) : Prop := ∃ objs, explained s log objs.

Lemma set_phase_length i p (s : state) : length (set_phase i p s) = length (st_requests s).
Proof using Type. apply length_alter. Qed.

Lemma set_phase_lookup i p (s : state) j r :
  set_phase i p s !! j = Some r →
  (j ≠ i ∧ st_requests s !! j = Some r) ∨
  (j = i ∧ ∃ r0, st_requests s !! i = Some r0 ∧
     r = {| rq_db := rq_db r0; rq_op := rq_op r0; rq_phase := p |}).
Proof using Type.
  unfold set_phase. destruct (decide (j = i)) as [->|Hne].
  - rewrite list_lookup_alter_eq. intros (r0 & -> & Hr)%fmap_Some. right. naive_solver.
  - rewrite list_lookup_alter_ne by done. by left.
Qed.

Lemma source_apply o objs :
  o ∈ ops → Forall source objs → Forall source (op_apply o objs).
Proof using Type.
  intros Ho Hs. assert (∀ P `{!∀ x, Decision (P x)}, Forall source (filter P objs)) as Hf.
  { intros P HP. apply Forall_forall. intros x [_ Hx]%list_elem_of_filter. rewrite Forall_forall in Hs. by apply Hs. }
  destruct o; [|apply Hf|done|done]. unfold op_apply. simpl. apply Forall_app. split; [apply Hf|].
  constructor; [|done]. by right.
Qed.

Lemma distinct_apply (o : op Msg) objs : distinct objs → distinct (op_apply o objs).
Proof using Type.
  intros Hd. destruct o; [by apply distinct_upsert|by apply distinct_without|done|done].
Qed.

Lemma objects_apply o objs :
  o ∈ ops → Forall (λ o, is_Object o = true) objs →
  Forall (λ o, is_Object o = true) (op_apply o objs).
Proof using objects.
  intros Ho Hs. assert (∀ P `{!∀ x, Decision (P x)}, Forall (λ o, is_Object o = true) (filter P objs)) as Hf.
  { intros P HP. apply Forall_forall. intros x [_ Hx]%list_elem_of_filter. rewrite Forall_forall in Hs. by apply Hs. }
  destruct o; [|apply Hf|done|done]. unfold op_apply. simpl. apply Forall_app. split; [apply Hf|].
  constructor; [by apply objects|done].
Qed.

(** The write step of a method stores what the method makes of the objects. *)
Lemma write_apply (w : W) o objs objs' :
  db_holds store w objs → Forall source objs → o ∈ ops → op_update o objs = Some objs' →
  ∃ w', write store objs' w = (Ok (), w') ∧ db_holds store w' (op_apply o objs).
Proof.
  intros Hh Hs Ho Hu. assert (op_apply o objs = objs') as <- by (unfold op_apply; by rewrite Hu).
  apply (write_ok store w objs); [done| | |].
  - apply distinct_apply. by destruct Hh.
  - apply objects_apply; [done|]. by eapply db_holds_objects.
  - by apply fits_store, source_apply.
Qed.

(** While request [i] acts, only it holds the mutex: what is known of the other
    requests stays true. *)
Definition only (i : nat) (m : gmap nat nat) : Prop := m !! d = None ∨ m !! d = Some i.

Lemma others (s s' : state) objs objs' log log2 i j r :
  j ≠ i → only i (st_mutex s) → only i (st_mutex s') → Forall (λ e, e.1.1 = i) log2 →
  request_ok s objs log j r → request_ok s' objs' (log ++ log2) j r.
Proof using Type.
  intros Hne Hm Hm' Hl (Hd & Ho & Hp). split; [done|]. split; [done|].
  assert (st_mutex s !! d ≠ Some j ∧ st_mutex s' !! d ≠ Some j) as [Hj Hj']
    by (split; [destruct Hm as [E|E]|destruct Hm' as [E|E]]; rewrite E; congruence).
  assert (j ∉ log_ids log → j ∉ log_ids (log ++ log2)) as Hids.
  { intros Hn. unfold log_ids. rewrite fmap_app, elem_of_app. intros [H|H]; [done|].
    apply list_elem_of_fmap in H as (e & -> & He). rewrite Forall_forall in Hl.
    by apply Hne, Hl. }
  destruct (rq_phase r) as [| |objs1|a|a].
  - destruct Hp as [Hn _]. split; [by apply Hids|done].
  - by destruct Hp as [_ Hp].
  - by destruct Hp as (_ & Hp & _).
  - by destruct Hp as [Hp _].
  - destruct Hp as [_ (a' & -> & Hin)].
    split; [done|]. exists a'. split; [done|]. apply elem_of_app. by left.
Qed.

(** After a step of [i] the state is explained when the log is, its request is
    and the others keep the mutex free. *)
Lemma explained_step (s s' : state) log log2 objs objs' i p :
  explained s log objs → st_requests s' = set_phase i p s →
  legal objs0 (log ++ log2) objs' → db_holds store (st_world s') objs' → Forall source objs' →
  NoDup (log_ids (log ++ log2)) → Forall (λ e, e.1.1 = i ∧ ops !! i = Some e.1.2) log2 →
  only i (st_mutex s) → only i (st_mutex s') →
  (∀ r, st_requests s !! i = Some r →
     request_ok s' objs' (log ++ log2) i {| rq_db := rq_db r; rq_op := rq_op r; rq_phase := p |}) →
  is_Some (st_requests s !! i) → explained s' (log ++ log2) objs'.
Proof using Type.
  intros [_ _ _ _ Hlog0 Hmu Hlen Hreq] Hrs Hl Hh Hs Hnd Hlog Hm Hm' Hi Hex. split; try done.
  - apply Forall_app. split; [done|]. eapply Forall_impl; [exact Hlog|]. by intros e [-> ?].
  - intros j Hj. destruct Hm' as [E|E]; [congruence|]. assert (j = i) as -> by congruence.
    destruct Hex as [r Hr]. rewrite Hrs. unfold set_phase. rewrite list_lookup_alter_eq, Hr. by eexists.
  - by rewrite Hrs, set_phase_length.
  - intros j r Hr. rewrite Hrs in Hr.
    apply set_phase_lookup in Hr as [[Hne Hr]|(-> & r0 & Hr & ->)]; [|by apply Hi].
    eapply others; [exact Hne|exact Hm|exact Hm'| |by apply Hreq].
    eapply Forall_impl; [exact Hlog|]. by intros e [? _].
Qed.

Lemma log_ids_snoc (log : list (entry Msg)) i o a : log_ids (log ++ [(i, o, a)]) = log_ids log ++ [i].
Proof using Type. unfold log_ids. by rewrite fmap_app. Qed.

(** Each step is explained by the log, extended by the request at its effect. *)
Lemma step_explained (s s' : state) log objs i :
  explained s log objs → exec store i s = Some s' → ∃ log2 objs', explained s' (log ++ log2) objs'.
Proof.
  intros He Hx. unfold exec in Hx. apply bind_Some in Hx as (r & Hr & Hx).
  pose proof He as [Hl Hh Hs Hnd _ Hmu Hlen Hreq].
  pose proof (Hreq i r Hr) as (Hd & Ho & Hp).
  assert (rq_op r ∈ ops) as Hin by by eapply list_elem_of_lookup_2.
  assert (∀ r1, st_requests s !! i = Some r1 → r1 = r) as Heq by (intros; congruence).
  destruct (rq_phase r) as [| |lst|a|a]; simpl in Hx.
  - rewrite Hd in Hx. destruct (st_mutex s !! d) eqn:Em; [done|]. injection Hx as <-.
    exists [], objs. eapply explained_step; rewrite ?app_nil_r; try done; [by left| |].
    + right. apply lookup_insert_eq.
    + intros r1 ->%Heq. split; [done|]. split; [done|]. simpl. rewrite lookup_insert_eq. by destruct Hp.
  - destruct (list_ok store (st_world s) objs Hh) as (w' & Hlw & Hh').
    rewrite Hlw in Hx. injection Hx as <-. destruct Hp as [Hn Hm].
    exists [], objs. eapply explained_step; rewrite ?app_nil_r; try done; [by right..|].
    intros r1 ->%Heq. by split.
  - destruct Hp as (Hn & Hm & ->).
    set (log2 := [(i, rq_op r, op_answer (rq_op r) objs)]).
    assert (NoDup (log_ids (log ++ log2))) as Hnd2.
    { unfold log2. rewrite log_ids_snoc. apply NoDup_app. split; [done|].
      split; [by intros x Hx1 ->%list_elem_of_singleton|apply NoDup_singleton]. }
    assert (∀ w', db_holds store w' (op_apply (rq_op r) objs) → 
      Some {| st_world := w'; st_mutex := st_mutex s;
              st_requests := set_phase i (Leaving (Ok (op_answer (rq_op r) objs))) s |} = Some s' →
      explained s' (log ++ log2) (op_apply (rq_op r) objs)) as Hdone.
    { intros w' Hw' [= <-]. eapply explained_step; try done; [by constructor|by apply source_apply| |by right..|].
      { by constructor. }
      intros r1 ->%Heq. split; [done|]. split; [done|]. simpl. split; [done|].
      eexists. split; [done|]. apply elem_of_app. right. by apply list_elem_of_singleton. }
    exists log2, (op_apply (rq_op r) objs).
    destruct (op_update (rq_op r) objs) as [objs'|] eqn:Eu.
    + destruct (write_apply (st_world s) (rq_op r) objs objs' Hh Hs Hin Eu) as (w' & Hw & Hh').
      rewrite Hw in Hx. by apply (Hdone w').
    + apply (Hdone (st_world s)); [|done]. unfold op_apply. by rewrite Eu.
  - injection Hx as <-. destruct Hp as [Hm Hfin].
    exists [], objs. eapply explained_step; rewrite ?app_nil_r; try done; [by right| |].
    + left. simpl. rewrite Hd. apply lookup_delete_eq.
    + intros r1 ->%Heq. split; [done|]. split; [done|]. simpl. split; [|done].
      rewrite Hd, lookup_delete_eq. done.
  - done.
Qed.

Notation start w := (init w ((λ o, (d, o)) <$> ops)).

Lemma init_explained (w : W) : db_holds store w objs0 → explained (start w) [] objs0.
Proof using Type.
  intros Hh. split; try done.
  - constructor.
  - apply Forall_forall. intros o Ho. by left.
  - constructor.
  - simpl. unfold arrive. by rewrite !length_fmap.
  - intros i r. simpl. unfold arrive. rewrite <-list_fmap_compose, list_lookup_fmap.
    intros (o & Ho & ->)%fmap_Some. split; [done|]. split; [done|]. simpl.
    rewrite lookup_empty. split; [|done]. intros H. by inv H.
Qed.

Lemma steps_explained (s s' : state) log objs :
  explained s log objs → rtc step s s' → ∃ log2 objs', explained s' (log ++ log2) objs'.
Proof.
  intros He Hs. revert log objs He. induction Hs as [s|s s1 s' [i Hi] _ IH]; intros log objs He.
  - exists [], objs. by rewrite app_nil_r.
  - destruct (step_explained _ _ _ _ _ He Hi) as (log1 & objs1 & He1).
    destruct (IH _ _ He1) as (log2 & objs2 & He2). exists (log1 ++ log2), objs2. by rewrite app_assoc.
Qed.

Lemma explained_finished s log objs i r a :
  explained s log objs → st_requests s !! i = Some r → rq_phase r = Finished a →
  ∃ a', a = Ok a' ∧ (i, rq_op r, a') ∈ log.
Proof using Type.
  intros He Hr Hp. destruct (ex_requests _ _ _ He i r Hr) as (_ & _ & H).
  rewrite Hp in H. by destruct H.
Qed.

(** C3: the methods of one database value are linearizable.  However the steps of
    concurrent requests interleave, there is a log of distinct requests such
    that the store holds what the logged methods, applied one after the other,
    make of the initial objects; every finished request is in the log with the
    answer it gave, computed on the objects at its place, and a request that has
    not taken the lock is not.  Later states extend the log at its end, so a
    request that begins after another has finished comes after it. *)
Theorem db_linearizable (w : W) (s : state) :
  db_holds store w objs0 → rtc step (start w) s →
  ∃ log objs, legal objs0 log objs ∧ db_holds store (st_world s) objs ∧ NoDup (log_ids log) ∧
    (∀ i r a, st_requests s !! i = Some r → rq_phase r = Finished a →
       ∃ a', a = Ok a' ∧ (i, rq_op r, a') ∈ log) ∧
    (∀ i r, st_requests s !! i = Some r → rq_phase r = Waiting → i ∉ log_ids log) ∧
    (∀ s', rtc step s s' → ∃ log2 objs', legal objs0 (log ++ log2) objs' ∧
       db_holds store (st_world s') objs' ∧ NoDup (log_ids (log ++ log2)) ∧
       (∀ i r a, st_requests s' !! i = Some r → rq_phase r = Finished a →
          ∃ a', a = Ok a' ∧ (i, rq_op r, a') ∈ log ++ log2)).
Proof.
  intros Hh Hs. destruct (steps_explained _ _ _ _ (init_explained w Hh) Hs) as (log & objs & He).
  simpl in He. exists log, objs. pose proof He as [Hl Hdb _ Hnd _ _ _ Hreq]. split_and!; try done.
  - intros i r a. by apply (explained_finished s log objs).
  - intros i r Hr Hp. destruct (Hreq i r Hr) as (_ & _ & H). rewrite Hp in H. by destruct H.
  - intros s' Hs'. destruct (steps_explained _ _ _ _ He Hs') as (log2 & objs' & He').
    pose proof He' as [Hl' Hdb' _ Hnd' _ _ _ _]. exists log2, objs'. split_and!; try done.
    intros i r a. by apply (explained_finished s' (log ++ log2) objs').
Qed.

(** The steps a request has left. *)
Definition steps_left (r : request Msg) : nat :=
  match rq_phase r with
  | Waiting => 4 | Entered => 3 | Listed _ => 2 | Leaving _ => 1 | Finished _ => 0
  end.
Definition work (s : state) : nat := sum_list (steps_left <$> st_requests s).

Lemma work_alter (l : list (request Msg)) i r p :
  l !! i = Some r → 
  steps_left {| rq_db := rq_db r; rq_op := rq_op r; rq_phase := p |} < steps_left r →
  sum_list (steps_left <$> alter (λ r, {| rq_db := rq_db r; rq_op := rq_op r; rq_phase := p |}) i l)
    < sum_list (steps_left <$> l).
Proof using Type.
  revert i. induction l as [|x l IH]; intros [|i] Hr Hlt; [done|done| |].
  - injection Hr as ->. simpl. lia.
  - specialize (IH i Hr Hlt).
    change (steps_left x + sum_list (steps_left <$> alter (λ r, {| rq_db := rq_db r; rq_op := rq_op r;
      rq_phase := p |}) i l) < steps_left x + sum_list (steps_left <$> l)). lia.
Qed.

(** Every step of a request is one of its last four. *)
Lemma exec_work i (s s' : state) : exec store i s = Some s' → (work s' < work s)%nat.
Proof using Type.
  unfold exec. intros (r & Hr & Hx)%bind_Some.
  assert (∀ w m p, (steps_left {| rq_db := rq_db r; rq_op := rq_op r; rq_phase := p |} < steps_left r)%nat →
    Some {| st_world := w; st_mutex := m; st_requests := set_phase i p s |} = Some s' →
    (work s' < work s)%nat) as Hlt.
  { intros w m p Hp [= <-]. pose proof (work_alter (st_requests s) i r p Hr). unfold work. simpl.
    unfold set_phase. lia. }
  unfold steps_left in Hlt. simpl in Hlt. destruct (rq_phase r) as [| |lst|a|a]; [| | | |done].
  - destruct (st_mutex s !! rq_db r); [done|]. eapply Hlt; [|exact Hx]. simpl. lia.
  - destruct (list_ store (st_world s)) as [x w]. eapply Hlt; [|exact Hx]. destruct x; simpl; lia.
  - destruct (op_update (rq_op r) lst) as [lst'|]; [destruct (write store lst' (st_world s)) as [x w]|];
      (eapply Hlt; [|exact Hx]); simpl; try destruct x; lia.
  - eapply Hlt; [|exact Hx]. simpl. lia.
Qed.

Lemma run_work sched (s s' : state) :
  run store sched s = Some s' → (length sched + work s' ≤ work s)%nat.
Proof using Type.
  revert s. induction sched as [|i sched IH]; intros s; simpl; [intros [= ->]; lia|].
  intros (s1 & Hi & Hr)%bind_Some. apply exec_work in Hi. apply IH in Hr. lia.
Qed.

Lemma work_arrive (l : list (op Msg)) :
  sum_list (steps_left <$> arrive ((λ o, (d, o)) <$> l)) = 4 * length l.
Proof using Type.
  induction l as [|o l IH]; [done|]. unfold arrive in *. rewrite !fmap_cons.
  change (4 + sum_list (steps_left <$> arrive ((λ o, (d, o)) <$> l)) = 4 * S (length l)).
  unfold arrive. rewrite IH. lia.
Qed.

Lemma work_start (w : W) : work (start w) = 4 * length ops.
Proof using Type. apply work_arrive. Qed.

(** A request that is not finished can step, or another one holds its lock. *)
Lemma can_step (s : state) log objs i r :
  explained s log objs → st_requests s !! i = Some r → (∀ a, rq_phase r ≠ Finished a) →
  ∃ j s', exec store j s = Some s'.
Proof using Type.
  intros He Hr Hnf. assert (∀ k rk, st_requests s !! k = Some rk → rq_phase rk ≠ Waiting →
    (∀ a, rq_phase rk ≠ Finished a) → ∃ s', exec store k s = Some s') as Hgo.
  { intros k rk Hk Hw Hf. unfold exec. rewrite Hk. simpl.
    destruct (rq_phase rk) as [| |lst|a|a]; [done| | |by eexists|by destruct (Hf a)].
    - destruct (list_ store (st_world s)). by eexists.
    - destruct (op_update (rq_op rk) lst) as [l|]; [destruct (write store l (st_world s))|]; by eexists. }
  destruct (ex_requests _ _ _ He i r Hr) as (Hd & _ & Hp).
  destruct (rq_phase r) eqn:Ep; try (exists i; eapply Hgo; [exact Hr|by rewrite Ep|by rewrite Ep]).
  destruct (st_mutex s !! d) as [j|] eqn:Em.
  - destruct (ex_mutex _ _ _ He j Em) as [rj Hj]. exists j.
    destruct (ex_requests _ _ _ He j rj Hj) as (_ & _ & Hpj).
    eapply Hgo; [exact Hj| |]; [intros E|intros a E]; rewrite E in Hpj; by destruct Hpj.
  - exists i. unfold exec. rewrite Hr. simpl. rewrite Ep, Hd, Em. by eexists.
Qed.

Definition finished (r : request Msg) : bool :=
  match rq_phase r with Finished _ => true | _ => false end.

Lemma log_complete (s : state) log objs :
  explained s log objs →
  (∀ i r, st_requests s !! i = Some r → ∃ a, rq_phase r = Finished a) →
  log_ids log ≡ₚ seq 0 (length ops).
Proof using Type.
  intros He Hall. pose proof He as [_ _ _ Hnd Hlog _ Hlen _].
  apply NoDup_Permutation; [done|apply NoDup_seq|]. intros i. rewrite elem_of_seq. split.
  - intros (e & -> & Hin)%list_elem_of_fmap. rewrite Forall_forall in Hlog.
    apply Hlog, lookup_lt_Some in Hin. lia.
  - intros Hi. destruct (lookup_lt_is_Some_2 (st_requests s) i) as [r Hr]; [lia|].
    destruct (Hall i r Hr) as [a Ha].
    destruct (explained_finished s log objs i r a He Hr Ha) as (a' & _ & Hin).
    apply list_elem_of_fmap. by exists (i, rq_op r, a').
Qed.

(** Requests on one database value end.  A run of [n] requests has at most
    [4 * n] steps, and as long as one of them is not finished some request can
    step: no schedule deadlocks or runs for ever.  When all are finished, none
    has failed and the store holds the outcome of all of them, each applied
    once, in some order. *)
Theorem db_requests_finish (w : W) (sched : list nat) (s : state) :
  db_holds store w objs0 → run store sched (start w) = Some s →
  length sched ≤ 4 * length ops ∧
  ((∃ i s', exec store i s = Some s') ∨
   ((∀ i r, st_requests s !! i = Some r → ∃ a, rq_phase r = Finished (Ok a)) ∧
    ∃ log objs, legal objs0 log objs ∧ db_holds store (st_world s) objs ∧
                log_ids log ≡ₚ seq 0 (length ops) ∧
                Forall (λ e, ops !! e.1.1 = Some e.1.2) log)).
Proof.
  intros Hh Hr. split.
  { apply run_work in Hr. rewrite work_start in Hr. lia. }
  destruct (steps_explained _ _ _ _ (init_explained w Hh) (run_steps _ _ _ _ Hr)) as (log & objs & He).
  simpl in He.
  destruct (decide (Exists (λ r, finished r = false) (st_requests s))) as [Hex|Hnex].
  - left. apply Exists_exists in Hex as (r & [i Hi]%list_elem_of_lookup & Hnf).
    apply (can_step s log objs i r); [done..|]. intros a Ha. unfold finished in Hnf. by rewrite Ha in Hnf.
  - right. assert (∀ i r, st_requests s !! i = Some r → ∃ a, rq_phase r = Finished (Ok a)) as Hall.
    { intros i r Hi. rewrite <-Forall_Exists_neg, Forall_lookup in Hnex. specialize (Hnex i r Hi).
      destruct (rq_phase r) as [| | | |a] eqn:Ea; unfold finished in Hnex; rewrite Ea in Hnex; try done.
      destruct (explained_finished s log objs i r a He Hi Ea) as (a' & -> & _). by eexists. }
    split; [done|]. exists log, objs. pose proof He as [Hl Hdb _ _ Hlog _ _ _]. split_and!; try done.
    apply (log_complete s log objs He). intros i r Hi. destruct (Hall i r Hi). by eexists.
Qed.
End linearizable.

(** ** One request alone *)
Section alone.
Context {W Msg : Type} `{PR : ProtoRuntime Msg} `{OB : Object Msg} (store : Store W).

Lemma run_cons i sched (s s' : state W Msg) :
  exec store i s = Some s' → run store (i :: sched) s = run store sched s'.
Proof. intros H. simpl. by rewrite H. Qed.

(** The first two steps, then the rest. *)
Lemma run_enter d o (w w1 : W) objs rest s :
  list_ store w = (objs, w1) →
  run store rest {| st_world := w1; st_mutex := {[ d := 0 ]};
    st_requests := [{| rq_db := d; rq_op := o;
      rq_phase := match objs with Ok objs => Listed objs | r => Leaving (as_panic r) end |}] |} = Some s →
  run store (0 :: 0 :: rest) (init w [(d, o)]) = Some s.
Proof.
  intros Hl Hr. erewrite run_cons by (eapply exec_lock; [done|apply lookup_empty]).
  erewrite run_cons by (eapply exec_list; [done|exact Hl]). exact Hr.
Qed.

Lemma run_leave d o (w : W) a :
  run store [0] {| st_world := w; st_mutex := {[ d := 0 ]};
    st_requests := [{| rq_db := d; rq_op := o; rq_phase := Leaving a |}] |} =
  Some {| st_world := w; st_mutex := ∅; st_requests := [{| rq_db := d; rq_op := o; rq_phase := Finished a |}] |}.
Proof.
  erewrite run_cons by (by eapply exec_unlock). simpl. by rewrite delete_singleton_eq.
Qed.

(** The four steps are the method: run without other requests, a request ends in
    the world and with the answer of the method of [StupidDB], a panic included. *)
Theorem request_alone (d : nat) (o : op Msg) (w : W) :
  ∃ sched, run store sched (init w [(d, o)]) =
    Some {| st_world := (op_run store o w).2; st_mutex := ∅;
            st_requests := [{| rq_db := d; rq_op := o;
                               rq_phase := Finished (op_run store o w).1 |}] |}.
Proof.
  destruct (list_ store w) as [r w1] eqn:El. destruct r as [objs|e|p].
  - destruct (op_update o objs) as [objs'|] eqn:Eu; [destruct (write store objs' w1) as [x w2] eqn:Ew|].
    + exists [0; 0; 0; 0]. eapply run_enter; [exact El|].
      erewrite run_cons by (by eapply exec_write). cbn [set_phase st_requests st_mutex st_world].
      etrans; [apply run_leave|].
      destruct o; try done; injection Eu as <-;
        unfold op_run, CreateOrUpdate, Delete, mbind, M_bind; rewrite El, Ew; by destruct x.
    + exists [0; 0; 0; 0]. eapply run_enter; [exact El|].
      erewrite run_cons by (by eapply exec_answer). etrans; [apply run_leave|].
      destruct o; try done; unfold op_run, Get, List, mbind, M_bind; by rewrite El.
  - exists [0; 0; 0]. eapply run_enter; [exact El|]. etrans; [apply run_leave|].
    destruct o; unfold op_run, CreateOrUpdate, Delete, Get, List, mbind, M_bind; by rewrite El.
  - exists [0; 0; 0]. eapply run_enter; [exact El|]. etrans; [apply run_leave|].
    destruct o; unfold op_run, CreateOrUpdate, Delete, Get, List, mbind, M_bind; by rewrite El.
Qed.
End alone.

(** ** Two database values on one store *)
Section two_values.
Context {W Msg : Type} `{PR : ProtoRuntime Msg} `{OB : Object Msg} {PL : ProtoLaws Msg}.
Context (store : Store W) {SL : StoreLaws store}.
#[local] Set Default Proof Using "Type*".

(** The same calls one after the other store both objects. *)
Lemma in_order_both (a b : Msg) objs :
  ObjectId a ≠ ObjectId b →
  find_id (ObjectId a) (upsert b (upsert a objs)) = Some a ∧
  find_id (ObjectId a) (upsert a (upsert b objs)) = Some a.
Proof using Type.
  intros Hne. rewrite !find_id_map, !objects_map_upsert, !lookup_insert_eq.
  by rewrite lookup_insert_ne, lookup_insert_eq.
Qed.

(** C16: two processes that open one store lose updates.  The lock of the file is
    held during each read and each write, not from the read of a method to its
    write: for every two objects with different ids there is a run of two calls
    of [CreateOrUpdate], on two database values, in which both return without an
    error and the first object is not stored, which no order of the two calls
    gives. *)
Theorem two_values_lose_update (w : W) (objs : list Msg) (a b : Msg) (d1 d2 : nat) :
  d1 ≠ d2 → ObjectId a ≠ ObjectId b → is_Object a = true → is_Object b = true →
  db_holds store w objs → find_id (ObjectId a) objs ≠ Some a →
  db_fits store (upsert a objs) → db_fits store (upsert b objs) →
  ∃ sched s objs',
    run store sched (init w [(d1, OpCreateOrUpdate a); (d2, OpCreateOrUpdate b)]) = Some s ∧
    Forall (λ r, rq_phase r = Finished (Ok AnsUnit)) (st_requests s) ∧
    db_holds store (st_world s) objs' ∧ find_id (ObjectId a) objs' ≠ Some a ∧
    find_id (ObjectId b) objs' = Some b ∧
    find_id (ObjectId a) (upsert b (upsert a objs)) = Some a ∧
    find_id (ObjectId a) (upsert a (upsert b objs)) = Some a.
Proof.
  intros Hd Hne Ha Hb Hh Hold Hfa Hfb.
  destruct (list_ok store w objs Hh) as (w1 & Hl1 & Hh1).
  destruct (list_ok store w1 objs Hh1) as (w2 & Hl2 & Hh2).
  pose proof (db_holds_without store w objs) as Hwo. pose proof Hh as [Hdist _].
  destruct (write_ok store w2 objs (upsert a objs)) as (w3 & Hw3 & Hh3); try done.
  { by apply distinct_upsert. } { apply Forall_app. split; [by apply Hwo|by constructor]. }
  destruct (write_ok store w3 (upsert a objs) (upsert b objs)) as (w4 & Hw4 & Hh4); try done.
  { by apply distinct_upsert. } { apply Forall_app. split; [by apply Hwo|by constructor]. }
  exists [0; 1; 0; 1; 0; 1; 0; 1]. eexists _, (upsert b objs). split_and!.
  - erewrite run_cons by (eapply exec_lock; [done|apply lookup_empty]).
    erewrite run_cons by (eapply exec_lock; [done|]; simpl; by rewrite lookup_insert_ne).
    erewrite run_cons by (eapply exec_list; [done|exact Hl1]).
    erewrite run_cons by (eapply exec_list; [done|exact Hl2]).
    erewrite run_cons by (eapply exec_write; [done|done|exact Hw3]).
    erewrite run_cons by (eapply exec_write; [done|done|exact Hw4]).
    erewrite run_cons by (by eapply exec_unlock). erewrite run_cons by (by eapply exec_unlock).
    reflexivity.
  - by repeat constructor.
  - exact Hh4.
  - by rewrite find_id_map, objects_map_upsert, lookup_insert_ne, <-find_id_map.
  - by rewrite find_id_map, objects_map_upsert, lookup_insert_eq.
  - by apply in_order_both.
  - by apply in_order_both.
Qed.
End two_values.

(** ** The hypotheses can hold *)
Definition other_msg : Mem.msg := {| Mem.m_type := "t"; Mem.m_id := "b"; Mem.m_secret := "s" |}.

Lemma mem_is_object (ops : list (op Mem.msg)) (m : Mem.msg) :
  OpCreateOrUpdate m ∈ ops → is_Object m = true.
Proof. done. Qed.

(** A put and a list on one empty file: the list waits while the put has the lock. *)
#[local] Notation two_ops := [OpCreateOrUpdate test_msg; OpList].
#[local] Notation started ops := (init empty_file ((λ o, (0, o)) <$> ops)).
Lemma blocked_then_run :
  run File.store [0; 1] (started two_ops) = None ∧
  ∃ s, run File.store [0; 0; 0; 0; 1; 1] (started two_ops) = Some s.
Proof. split; [reflexivity|]. eexists. vm_compute. reflexivity. Qed.

Lemma db_linearizable_witness :
  ∃ s log objs, run File.store [0; 0; 0; 0; 1; 1] (started two_ops) = Some s ∧
    legal [] log objs ∧ db_holds File.store (st_world s) objs.
Proof.
  destruct blocked_then_run as (_ & s & Hs).
  destruct (db_linearizable (Msg := Mem.msg) File.store 0 [] two_ops
    (mem_is_object _) (λ objs _, mem_db_fits objs) empty_file s empty_file_holds
    (run_steps File.store _ _ _ Hs)) as (log & objs & Hl & Hh & _).
  exists s, log, objs. split_and!; [exact Hs|exact Hl|exact Hh].
Defined.

Lemma db_requests_finish_witness :
  ∃ s, run File.store [0; 0; 0; 0; 1; 1] (started two_ops) = Some s ∧
       length [0; 0; 0; 0; 1; 1] ≤ 4 * length (A := op Mem.msg) two_ops.
Proof.
  destruct blocked_then_run as (_ & s & Hs). exists s. split; [exact Hs|].
  exact (proj1 (db_requests_finish (Msg := Mem.msg) File.store 0 [] two_ops
    (mem_is_object _) (λ objs _, mem_db_fits objs) empty_file _ s empty_file_holds Hs)).
Defined.

Lemma two_values_lose_update_witness :
  ∃ sched s objs',
    run File.store sched (init empty_file [(0, OpCreateOrUpdate test_msg); (1, OpCreateOrUpdate other_msg)])
      = Some s ∧ db_holds File.store (st_world s) objs' ∧ find_id "a" objs' ≠ Some test_msg.
Proof.
  destruct (two_values_lose_update (Msg := Mem.msg) File.store empty_file [] test_msg other_msg 0 1
    ltac:(done) ltac:(done) eq_refl eq_refl empty_file_holds ltac:(done) (mem_db_fits _) (mem_db_fits _))
    as (sched & s & objs' & Hr & _ & Hh & Hf & _).
  exists sched, s, objs'. split_and!; [exact Hr|exact Hh|exact Hf].
Defined.
