(* ===== verification/Races.v ===== *)
(** * Concurrent calls of one service

    [plugin/pkg/server/parent.go]: a call of the parent server is a call of the
    back end and calls of the database, with no lock around them.  Calls run as
    threads; a step is one call of the back end or of the database, which is
    atomic by the mutex of the database value.  A creation that falls between
    the two halves of a deletion of the same object leaves its cloud resources
    without an object. *)
From S2P Require Import Prelude GoStr Proto Store Helper DB Server.
From S2P Require Import UserData NebiusResource NebiusInstance EndToEnd.
From stdpp Require Import options.
#[local] Open Scope nat_scope.

Section calls.
Context {W Msg : Type} `{PR : ProtoRuntime Msg} `{OB : Object Msg} (srv : Parent W Msg).

(** The calls that change state, and where they are: a creation before the back
    end and before the database's update, a deletion before the read, before the
    back end with the object read, and before the database's deletion. *)
Inductive call :=
| Creating (item : Any)
| Storing (obj : Msg)
| Deleting (id : string)
| Removing (id : string) (srv2 : server W)
| Forgetting (id : string)
| Answered (r : res (option Any)).

(** The answer of a call that ends with an error or a panic of a step. *)
Definition stopped {A} (r : res A) : call :=
  Answered (r ≫= λ _, Ok None).

(** One step of a call. *)
Definition call_step (c : call) (w : W) : option (call * W) :=
  match c with
  | Creating item =>
      match Servers srv !! TypeUrl item with
      | None => Some (Answered (Err (ErrStatus InvalidArgument "")), w)
      | Some srv2 =>
          let '(resp, w') := srv_CreateOrUpdate srv2 (Some item) w in
          Some (match resp ≫= AnyTo as_object with
                | Ok obj => Storing obj
                | r => stopped r
                end, w')
      end
  | Storing obj =>
      let '(r, w') := db_CreateOrUpdate (DB_ srv) obj w in
      Some (Answered (_ ← r; Some <$> redacted_item obj), w')
  | Deleting id =>
      let '(obj, w') := db_Get (DB_ srv) id w in
      Some (match obj with
            | Ok None => Answered (Ok None)
            | Ok (Some obj) =>
                match Servers srv !! TypeURL obj with
                | None => Answered (Err (ErrStatus InvalidArgument ""))
                | Some srv2 => Removing id srv2
                end
            | r => stopped r
            end, w')
  | Removing id srv2 =>
      let '(r, w') := srv_Delete srv2 id w in
      Some (match r with Ok _ => Forgetting id | r => stopped r end, w')
  | Forgetting id =>
      let '(r, w') := db_Delete (DB_ srv) id w in Some (stopped r, w')
  | Answered _ => None
  end.

(** The calls in progress over the shared world, run by a schedule. *)
Definition calls_step (i : nat) (s : list call * W) : option (list call * W) :=
  c ← s.1 !! i;
  '(c', w') ← call_step c s.2;
  Some (<[i := c']> s.1, w').

Fixpoint calls_run (sched : list nat) (s : list call * W) : option (list call * W) :=
  match sched with
  | [] => Some s
  | i :: sched => s' ← calls_step i s; calls_run sched s'
  end.

Lemma calls_step_run i c c' w w' cs sched :
  cs !! i = Some c → call_step c w = Some (c', w') →
  calls_run (i :: sched) (cs, w) = calls_run sched (<[i := c']> cs, w').
Proof. intros Hc Hs. simpl. unfold calls_step. simpl. by rewrite Hc; simpl; rewrite Hs. Qed.

Lemma step_alone c c' w w' sched :
  call_step c w = Some (c', w') → calls_run (0 :: sched) ([c], w) = calls_run sched ([c'], w').
Proof. intros Hs. by rewrite (calls_step_run _ c c' _ w'). Qed.

(** Run without other calls, the steps are the call of the parent server. *)
Theorem calls_alone (item : Any) (id : string) (w : W) :
  (∃ sched, calls_run sched ([Creating item], w) =
     Some ([Answered (Parent_CreateOrUpdate srv (Some item) w).1],
           (Parent_CreateOrUpdate srv (Some item) w).2)) ∧
  (∃ sched, calls_run sched ([Deleting id], w) =
     Some ([Answered ((Parent_Delete srv id w).1 ≫= λ _, Ok None)], (Parent_Delete srv id w).2)).
Proof.
  split.
  - unfold Parent_CreateOrUpdate. destruct (Servers srv !! TypeUrl item) as [srv2|] eqn:Em.
    2: { exists [0]. erewrite step_alone by (simpl; by rewrite Em). done. }
    destruct (srv_CreateOrUpdate srv2 (Some item) w) as [resp w1] eqn:Ec.
    destruct (resp ≫= AnyTo as_object) as [obj|e|p] eqn:Eo.
    + exists [0; 0]. erewrite step_alone by (simpl; by rewrite Em, Ec, Eo).
      destruct (db_CreateOrUpdate (DB_ srv) obj w1) as [r w2] eqn:Ed.
      erewrite step_alone by (simpl; by rewrite Ed).
      destruct resp as [a| |]; [|done..]. simpl in Eo. munfold. rewrite Ec, Eo, Ed.
      destruct r; [|done..]. simpl. by destruct (redacted_item obj).
    + exists [0]. erewrite step_alone by (simpl; by rewrite Em, Ec, Eo).
      munfold. rewrite Ec. destruct resp; simpl in Eo |- *; by rewrite ?Eo; simplify_eq.
    + exists [0]. erewrite step_alone by (simpl; by rewrite Em, Ec, Eo).
      munfold. rewrite Ec. destruct resp; simpl in Eo |- *; by rewrite ?Eo; simplify_eq.
  - unfold Parent_Delete. destruct (db_Get (DB_ srv) id w) as [got w1] eqn:Eg.
    munfold. rewrite Eg.
    destruct got as [[obj|]|e|p]; [|exists [0]; by erewrite step_alone by (simpl; by rewrite Eg)..].
    destruct (Servers srv !! TypeURL obj) as [srv2|] eqn:Em;
      [|exists [0]; by erewrite step_alone by (simpl; by rewrite Eg, Em)].
    destruct (srv_Delete srv2 id w1) as [[[]|e|p] w2] eqn:Es.
    + destruct (db_Delete (DB_ srv) id w2) as [r w3] eqn:Ed. exists [0; 0; 0].
      erewrite step_alone by (simpl; by rewrite Eg, Em). erewrite step_alone by (simpl; by rewrite Es).
      by erewrite step_alone by (simpl; by rewrite Ed).
    + exists [0; 0]. erewrite step_alone by (simpl; by rewrite Eg, Em).
      by erewrite step_alone by (simpl; by rewrite Es).
    + exists [0; 0]. erewrite step_alone by (simpl; by rewrite Eg, Em).
      by erewrite step_alone by (simpl; by rewrite Es).
Qed.
End calls.

(** ** A creation inside a deletion *)
Section orphan.
Context {C D Msg : Type} `{PR : ProtoRuntime Msg} `{OB : Object Msg} {PL : ProtoLaws Msg}.
Context (of_AgentPool : nebius.AgentPool → Msg) (as_AgentPool : Msg → option nebius.AgentPool)
        {PM : PoolMessage of_AgentPool as_AgentPool}.
Context (FromError : error → option Code) (sdk : SDK C) (db : DB D Msg) {DL : DBLaws db}.
Context {IL : ServiceLaws FromError (Compute_Instance sdk)} {SL : ServiceLaws FromError (Compute_Disk sdk)}.
Notation instances := (resources (s := Compute_Instance sdk)).
Notation disks := (resources (s := Compute_Disk sdk)).
Context {IF : ServiceFrame (Compute_Instance sdk) disks} {DF : ServiceFrame (Compute_Disk sdk) instances}.
Context (marshal_step : flex.Step → res string) (json_Marshal : list string → res string)
        (bootstrapTemplate : string → string → res string) (yaml_Marshal : UserData → res string)
        (wgSpokeScript : string).
Context (enc : encoders marshal_step json_Marshal bootstrapTemplate yaml_Marshal).
Context (newAws newAzure : res (server (C * D))) (aws azure : Msg) (srv : Parent (C * D) Msg).
Context (started : agentpools_service of_AgentPool as_AgentPool FromError sdk db marshal_step
  json_Marshal bootstrapTemplate yaml_Marshal wgSpokeScript newAws newAzure aws azure = Ok srv).
#[local] Set Default Proof Using "Type*".
#[local] Existing Instances sdk_instances sdk_disks sdk_instance_frame sdk_disk_frame.
Notation back := (nebius_back of_AgentPool as_AgentPool FromError sdk db marshal_step json_Marshal
                    bootstrapTemplate yaml_Marshal wgSpokeScript).

(** The two steps of a deletion up to the removal of the resources. *)
Lemma removing_steps name p objs (w : C * D) :
  view w.2 objs → find_id name objs = Some (of_AgentPool p) →
  nebius.GetInstanceId (nebius.Status p) ≠ "" → nebius.GetOsDiskId (nebius.Status p) ≠ "" →
  ∃ w1 w2, call_step srv (Deleting name) w = Some (Removing name back, w1) ∧
    call_step srv (Removing name back) w1 = Some (Forgetting name, w2) ∧ view w2.2 objs.
Proof.
  intros Hv Hf Hi Hd.
  destruct (service_registry of_AgentPool as_AgentPool FromError sdk db marshal_step json_Marshal
    bootstrapTemplate yaml_Marshal wgSpokeScript newAws newAzure aws azure srv started) as (m & -> & Hm).
  destruct (db_get_law w.2 objs name Hv) as (d & Hg & Hv0). rewrite Hf in Hg.
  destruct (db_get_law d objs name Hv0) as (d1 & Hg1 & Hv1). rewrite Hf in Hg1.
  pose proof (on_db_run _ (w.1, d) _ _ Hg1) as Hg2.
  destruct (instance_delete_ok of_AgentPool as_AgentPool FromError (plugin_sdk sdk)
    (db_Get (plugin_db db)) pool_as_of p name (w.1, d) (w.1, d1) Hg2 Hi Hd) as (w2 & Hdel & _).
  exists (w.1, d), w2. split_and!.
  - simpl. by rewrite (on_db_run (C := C) _ _ _ _ Hg), Hm.
  - unfold call_step. change (srv_Delete back name) with (Instance_Delete as_AgentPool FromError
      (Some (plugin_sdk (D := D) sdk)) (db_Get (plugin_db db)) name). by rewrite Hdel.
  - destruct (back_keeps_db of_AgentPool as_AgentPool FromError sdk db marshal_step json_Marshal
      bootstrapTemplate yaml_Marshal wgSpokeScript) as [_ Hk].
    by apply (Hk objs name (w.1, d) (Ok ()) w2).
Qed.

(** The two steps of a creation. *)
Lemma creating_steps p spec cfg objs (w : C * D) it :
  valid_pool p spec cfg → view w.2 objs → (∀ q, storable (upsert (of_AgentPool q) objs)) →
  any_New (of_AgentPool p) = Ok it →
  ∃ q disk inst w1 w2 a, call_step srv (Creating it) w = Some (Storing (of_AgentPool q), w1) ∧
    call_step srv (Storing (of_AgentPool q)) w1 = Some (Answered (Ok (Some a)), w2) ∧
    view w2.2 (upsert (of_AgentPool q) objs) ∧
    named (disks w2.1) (project spec) (disk_name p) disk ∧
    instances w2.1 !! r_Id inst = Some inst ∧ r_Name inst = pool_id p.
Proof.
  intros Hvalid Hv Hs Hit.
  destruct (service_registry of_AgentPool as_AgentPool FromError sdk db marshal_step json_Marshal
    bootstrapTemplate yaml_Marshal wgSpokeScript newAws newAzure aws azure srv started) as (m & -> & Hm).
  destruct (pool_item of_AgentPool as_AgentPool p) as (it' & Hit' & Hurl & Hun).
  assert (it' = it) as -> by congruence. destruct (Hun p eq_refl) as [Hp _].
  destruct (instance_create_ok of_AgentPool as_AgentPool FromError (plugin_sdk sdk) marshal_step
    json_Marshal bootstrapTemplate yaml_Marshal wgSpokeScript it p spec cfg w enc Hp Hvalid pool_any)
    as (cfg' & disk & inst & resp & w1 & Hc & Hu & [_ Hcd Hci _ _ Hnd [_ Hni] _ _]).
  set (q := answered (configured p spec cfg') inst disk) in *.
  destruct (back_keeps_db of_AgentPool as_AgentPool FromError sdk db marshal_step json_Marshal
    bootstrapTemplate yaml_Marshal wgSpokeScript) as [Hk _].
  pose proof (Hk objs (Some it) w _ w1 Hv Hc) as Hv1.
  destruct (db_upsert_law w1.2 objs (of_AgentPool q) Hv1 (pool_object q) (Hs q)) as (d & Hdb & Hv2).
  destruct (pool_item of_AgentPool as_AgentPool q) as (a & Ha & _ & _).
  exists q, disk, inst, w1, (w1.1, d), a. split_and!; [| |done|done| |done].
  - unfold call_step. cbn [Servers]. rewrite Hurl, Hm.
    change (srv_CreateOrUpdate back) with (Instance_CreateOrUpdate of_AgentPool as_AgentPool FromError
      (Some (plugin_sdk (D := D) sdk)) marshal_step json_Marshal bootstrapTemplate yaml_Marshal wgSpokeScript).
    rewrite Hc. simpl. unfold To, as_object. rewrite Hu. simpl. by rewrite pool_object.
  - simpl. rewrite (on_db_run (C := C) _ _ _ _ Hdb). simpl. by rewrite (redacted_pool of_AgentPool as_AgentPool _ _ Ha).
  - change (resources (s := Compute_Instance (plugin_sdk (D := D) sdk)) w1 !! r_Id inst = Some inst).
    rewrite Hci. apply lookup_insert_eq.
Qed.

(** C15: a creation that falls inside a deletion of the same agent pool leaves an
    orphan.  From a database that has the pool there is a run of the two calls in
    which both succeed and afterwards the database has no pool of that name,
    while the cloud has the boot disk and the instance the creation made; a
    later deletion of that name succeeds and leaves them there. *)
Theorem create_in_delete_orphans p0 p spec cfg objs (w : C * D) it :
  view w.2 objs → find_id (pool_id p) objs = Some (of_AgentPool p0) →
  nebius.GetInstanceId (nebius.Status p0) ≠ "" → nebius.GetOsDiskId (nebius.Status p0) ≠ "" →
  valid_pool p spec cfg → any_New (of_AgentPool p) = Ok it → (∀ l, storable l) →
  ∃ sched a w' objs' disk inst,
    calls_run srv sched ([Deleting (pool_id p); Creating it], w) =
      Some ([Answered (Ok None); Answered (Ok (Some a))], w') ∧
    view w'.2 objs' ∧ find_id (pool_id p) objs' = None ∧
    named (disks w'.1) (project spec) (disk_name p) disk ∧
    instances w'.1 !! r_Id inst = Some inst ∧ r_Name inst = pool_id p ∧
    ∃ w2, Parent_Delete srv (pool_id p) w' = (Ok (), w2) ∧ w2.1 = w'.1.
Proof.
  intros Hv Hf Hi Hd Hvalid Hit Hs.
  destruct (removing_steps (pool_id p) p0 objs w Hv Hf Hi Hd) as (w1 & w2 & Hd1 & Hd2 & Hv2).
  destruct (creating_steps p spec cfg objs w2 it Hvalid Hv2 (λ _, Hs _) Hit)
    as (q & disk & inst & w3 & w4 & a & Hc1 & Hc2 & Hv4 & Hdisk & Hinst & Hname).
  destruct (db_delete_law w4.2 _ (pool_id p) Hv4 (Hs _)) as (d & Hdb & Hv5).
  set (objs' := without (pool_id p) (upsert (of_AgentPool q) objs)) in *.
  assert (find_id (pool_id p) objs' = None) as Hnone by apply find_without.
  destruct (service_registry of_AgentPool as_AgentPool FromError sdk db marshal_step json_Marshal
    bootstrapTemplate yaml_Marshal wgSpokeScript newAws newAzure aws azure srv started) as (m & Hsrv & _).
  exists [0; 0; 1; 1; 0], a, (w4.1, d), objs', disk, inst. split_and!; try done.
  - erewrite calls_step_run by done. cbn [list_insert insert].
    erewrite calls_step_run by done. erewrite calls_step_run by done. erewrite calls_step_run by done.
    erewrite calls_step_run; [done|done|].
    rewrite Hsrv. simpl. by rewrite (on_db_run (C := C) _ _ _ _ Hdb).
  - destruct (db_get_law d objs' (pool_id p) Hv5) as (d2 & Hg & _). rewrite Hnone in Hg.
    exists (w4.1, d2). split; [|done]. rewrite Hsrv. unfold Parent_Delete. simpl.
    assert (on_db (db_Get db (pool_id p)) (w4.1, d) = (Ok None, (w4.1, d2))) as Hg2
      by exact (on_db_run _ (w4.1, d) _ _ Hg).
    by rewrite (M_bind_Ok _ _ _ _ _ Hg2).
Qed.
End orphan.

(** ** The hypotheses can hold *)
Lemma create_in_delete_orphans_witness :
  ∃ srv sched (w w' : NebiusInstance.Mem.W * File.file) a inst,
    calls_run (Msg := nebius.AgentPool) srv sched
      ([Deleting "pool1"; Creating EndToEnd.Mem.pool_any_item], w) =
      Some ([Answered (Ok None); Answered (Ok (Some a))], w') ∧
    resources (s := Compute_Instance NebiusInstance.Mem.sdk) w'.1 !! r_Id inst = Some inst ∧
    ∃ w2, Parent_Delete srv "pool1" w' = (Ok (), w2) ∧ w2.1 = w'.1.
Proof.
  destruct EndToEnd.Mem.service_started as (srv & Hsrv). destruct EndToEnd.Mem.stored_pool_view as (d & Hd).
  destruct (create_in_delete_orphans (DL := EndToEnd.Mem.db_laws) (λ p, p) Some MemService.code_of NebiusInstance.Mem.sdk
    EndToEnd.Mem.db (λ _, Ok "{}") (λ _, Ok "[]") (λ _ _, Ok "#!") (λ _, Ok "yaml") "#!wg"
    NebiusInstance.Mem.encoders_ok (Ok EndToEnd.Mem.no_back) (Ok EndToEnd.Mem.no_back)
    EndToEnd.Mem.empty_pool EndToEnd.Mem.empty_pool srv Hsrv EndToEnd.Mem.stored_pool NebiusInstance.Mem.pool
    NebiusInstance.Mem.spec NebiusInstance.Mem.cfg [EndToEnd.Mem.stored_pool] ((∅, ∅), d) EndToEnd.Mem.pool_any_item Hd eq_refl
    ltac:(done) ltac:(done) NebiusInstance.Mem.pool_valid eq_refl EndToEnd.Mem.pools_fit)
    as (sched & a & w' & objs' & disk & inst & Hr & _ & _ & _ & Hi & _ & Hdel).
  exists srv, sched, ((∅, ∅), d), w', a, inst. split_and!; [exact Hr|exact Hi|exact Hdel].
Defined.
