(* ===== verification/DeepCopy.v ===== *)
(** * Deep copies

    [karpenter/pkg/apis/v1alpha1/zz_generated.deepcopy.go] and
    [karpenter/pkg/apis/kaito/v1alpha1]: the generated copies of the node classes,
    over a heap of the cells that pointers and slices refer to.  A copy has the
    value of its original and shares no cell with it, so the controllers may
    treat an object and its copy as two values. *)
From S2P Require Import Prelude GoStr.
From stdpp Require Import options.

(** ** Cells and reachable cells *)
Definition loc : Type := nat.

Section heap.
Context {cell : Type}.
Notation heap := (gmap loc cell).

(** [new(T)] with a value, and a pointer's dereference. *)
Definition new (c : cell) : M heap loc := λ h,
  let l := fresh (dom h) in (Ok l, <[l := c]> h).
Definition load (l : loc) : M heap cell := λ h,
  match h !! l with
  | Some c => (Ok c, h)
  | None => (Panic "invalid memory address", h)
  end.

(** A type of the program: the cells its values reach in a heap, and what they
    denote there, which depends on these cells only. *)
Class Refs (T : Type) := {
  value_of : Type;
  reach : heap → T → gset loc;
  denote : heap → T → value_of;
  ok : heap → T → Prop;  (* the pointers refer to values of their types *)
  reach_frame h h' t : (∀ l, l ∈ reach h t → h' !! l = h !! l) → reach h' t = reach h t;
  denote_frame h h' t : (∀ l, l ∈ reach h t → h' !! l = h !! l) → denote h' t = denote h t;
  ok_frame h h' t : (∀ l, l ∈ reach h t → h' !! l = h !! l) → ok h t → ok h' t;
}.

#[global] Arguments value_of T {_}.

(** No pointer of the value dangles. *)
Definition closed `{Refs T} (h : heap) (t : T) : Prop := reach h t ⊆ dom h ∧ ok h t.

Lemma weaken_reached `{Refs T} h h' (t : T) :
  closed h t → h ⊆ h' → ∀ l, l ∈ reach h t → h' !! l = h !! l.
Proof.
  intros [Hc _] Hs l Hl%Hc. apply elem_of_dom in Hl as [c Hl]. rewrite Hl. by eapply lookup_weaken.
Qed.

(** A copy changes no cell, denotes what its original does, and reaches new cells
    only. *)
Definition copy_of `{Refs T} (h h' : heap) (t t' : T) : Prop :=
  h ⊆ h' ∧ denote h' t' = denote h t ∧ closed h' t' ∧ reach h' t' ## dom h.
Definition copies `{Refs T} (f : T → M heap T) : Prop :=
  ∀ h t, closed h t → ∃ t' h', f t h = (Ok t', h') ∧ copy_of h h' t t'.

Lemma reach_mono `{Refs T} h h' (t : T) : closed h t → h ⊆ h' → reach h' t = reach h t.
Proof. intros Hc Hs. by apply reach_frame, weaken_reached. Qed.
Lemma denote_mono `{Refs T} h h' (t : T) : closed h t → h ⊆ h' → denote h' t = denote h t.
Proof. intros Hc Hs. by apply denote_frame, weaken_reached. Qed.
Lemma closed_mono `{Refs T} h h' (t : T) : closed h t → h ⊆ h' → closed h' t.
Proof.
  intros Hc Hs. split.
  - rewrite (reach_mono h h') by done. etrans; [apply Hc|by apply subseteq_dom].
  - eapply ok_frame; [by apply weaken_reached|apply Hc].
Qed.

(** A copy stays one while more cells are allocated. *)
Lemma copy_of_mono `{Refs T} h h1 h2 (t t' : T) : copy_of h h1 t t' → h1 ⊆ h2 → copy_of h h2 t t'.
Proof.
  intros (Hs & Hd & Hc & Hr) H12. split_and!.
  - by etrans.
  - by rewrite (denote_mono h1 h2).
  - by eapply closed_mono.
  - by rewrite (reach_mono h1 h2).
Qed.

(** A copy of the original as it is in a later heap is one of the original. *)
Lemma copy_of_later `{Refs T} h h1 h2 (t t' : T) :
  closed h t → h ⊆ h1 → copy_of h1 h2 t t' → copy_of h h2 t t'.
Proof.
  intros Hc Hs (H12 & Hd & Hc' & Hr). split_and!; [by etrans| |done|].
  - by rewrite Hd, (denote_mono h h1).
  - apply subseteq_dom in Hs. set_solver.
Qed.

(** One field of a structure after the other. *)
Lemma copies_field `{Refs T} {A} (f : T → M heap T) (k : T → M heap A) h h0 t (P : A → heap → Prop) :
  copies f → closed h0 t → h0 ⊆ h →
  (∀ t' h', copy_of h0 h' t t' → h ⊆ h' → ∃ a h2, k t' h' = (Ok a, h2) ∧ P a h2) →
  ∃ a h2, (t' ← f t; k t') h = (Ok a, h2) ∧ P a h2.
Proof.
  intros Hf Hc Hs Hk. destruct (Hf h t) as (t' & h' & Hr & Hcp); [by eapply closed_mono|].
  destruct (Hk t' h') as (a & h2 & Ha & HP); [by eapply copy_of_later|by destruct Hcp|].
  exists a, h2. by rewrite (M_bind_Ok _ _ _ _ _ Hr).
Qed.

(** What a copy is for: writing through it leaves the original as it was, and
    writing through the original leaves the copy. *)
Lemma copy_independent `{Refs T} h h' (t t' : T) l c :
  closed h t → copy_of h h' t t' →
  (l ∈ reach h' t' → denote (<[l := c]> h') t = denote h t) ∧
  (l ∈ reach h' t → denote (<[l := c]> h') t' = denote h t).
Proof.
  intros Hc (Hs & Hd & Hc' & Hr). pose proof (reach_mono h h' t Hc Hs) as Hrt. split; intros Hl.
  - rewrite <-(denote_mono h h' t Hc Hs). apply denote_frame. intros l' Hl'.
    rewrite lookup_insert_ne; [done|]. intros ->. rewrite Hrt in Hl'. apply (proj1 Hc) in Hl'. set_solver.
  - rewrite <-Hd. apply denote_frame. intros l' Hl'. rewrite lookup_insert_ne; [done|]. intros ->.
    rewrite Hrt in Hl. apply (proj1 Hc) in Hl. set_solver.
Qed.

(** A structure without pointers. *)
Definition flat (T : Type) : Refs T.
Proof. by refine {| value_of := T; reach _ _ := ∅; denote _ t := t; ok _ _ := True |}. Defined.

Lemma flat_copies T : @copies T (flat T) mret.
Proof. intros h t _. exists t, h. split; [done|]. split_and!; [done|done|split; [set_solver|done]|set_solver]. Qed.

(** A pointer that may be nil, to a cell without pointers. *)
#[export] Instance ptr_refs : Refs (option loc).
Proof.
  refine {| value_of := option cell; reach _ p := match p with Some l => {[ l ]} | None => ∅ end;
            denote h p := p ≫= λ l, h !! l; ok _ _ := True |}; [done| |done].
  intros h h' [l|] H; [|done]. simpl. apply H. set_solver.
Defined.

(** A pointer that is not nil is copied into a new cell. *)
Definition copy_ptr (p : option loc) : M heap (option loc) :=
  match p with
  | None => mret None
  | Some l => c ← load l; l' ← new c; mret (Some l')
  end.

Lemma new_spec c h :
  ∃ l, new c h = (Ok l, <[l := c]> h) ∧ l ∉ dom h ∧ h ⊆ <[l := c]> h.
Proof.
  exists (fresh (dom h)). split; [done|]. pose proof (is_fresh (dom h)) as Hf. split; [done|].
  apply insert_subseteq. by apply not_elem_of_dom.
Qed.

Lemma copy_ptr_copies : copies copy_ptr.
Proof.
  intros h [l|] Hc; simpl.
  - assert (l ∈ dom h) as [c Hl]%elem_of_dom by (destruct Hc as [Hc _]; simpl in Hc; set_solver).
    destruct (new_spec c h) as (l' & Hn & Hf & Hs). exists (Some l'), (<[l' := c]> h). split.
    + unfold mbind, M_bind, load. by rewrite Hl, Hn.
    + split_and!; [done|simpl; by rewrite lookup_insert_eq, Hl| |].
      * split; [|done]. simpl. rewrite dom_insert. set_solver.
      * simpl. set_solver.
  - exists None, h. split; [done|]. split_and!; [done|done|split; [set_solver|done]|set_solver].
Qed.

(** Two fields, and a structure seen as the tuple of its fields. *)
#[export] Instance pair_refs {A B} `{RA : Refs A} `{RB : Refs B} : Refs (A * B).
Proof.
  refine {| value_of := value_of A * value_of B; reach h p := reach h p.1 ∪ reach h p.2;
            denote h p := (denote h p.1, denote h p.2); ok h p := ok h p.1 ∧ ok h p.2 |};
    intros h h' [a b] H; simpl in *.
  - f_equal; apply reach_frame; intros l Hl; apply H; set_solver.
  - f_equal; apply denote_frame; intros l Hl; apply H; set_solver.
  - intros [Ha Hb]. split; (eapply ok_frame; [|done]); intros l Hl; apply H; set_solver.
Defined.
Definition via_refs {T U} (f : T → U) (RU : Refs U) : Refs T :=
  {| value_of := value_of U; reach h t := reach h (f t); denote h t := denote h (f t);
     ok h t := ok h (f t); reach_frame h h' t := reach_frame h h' (f t);
     denote_frame h h' t := denote_frame h h' (f t); ok_frame h h' t := ok_frame h h' (f t) |}.

Lemma closed_pair {A B} `{RA : Refs A} `{RB : Refs B} h (a : A) (b : B) :
  closed h (a, b) → closed h a ∧ closed h b.
Proof. intros [Hc [Ha Hb]]. simpl in *. split; (split; [set_solver|done]). Qed.
Lemma copy_of_pair {A B} `{RA : Refs A} `{RB : Refs B} h h' (a a' : A) (b b' : B) :
  copy_of h h' a a' → copy_of h h' b b' → copy_of h h' (a, b) (a', b').
Proof.
  intros (Hs & Hda & [Hca Hoa] & Hra) (_ & Hdb & [Hcb Hob] & Hrb).
  split_and!; [done|simpl; by rewrite Hda, Hdb|split; [simpl; set_solver|done]|simpl; set_solver].
Qed.
Lemma copy_of_flat {T} h h' (t : T) : h ⊆ h' → copy_of (H := flat T) h h' t t.
Proof. intros Hs. split_and!; [done|done|split; [set_solver|done]|set_solver]. Qed.

(** A list of structures, copied one after the other. *)
#[export] Instance list_refs `{Refs T} : Refs (list T).
Proof.
  refine {| value_of := list (value_of T); reach h l := ⋃ (reach h <$> l); denote h l := denote h <$> l;
            ok h := Forall (ok h) |}.
  - intros h h' l Hl. f_equal. apply list_fmap_ext. intros i x Hx. apply reach_frame.
    intros a Ha. apply Hl. apply elem_of_union_list. exists (reach h x). split; [|done].
    apply list_elem_of_fmap. exists x. split; [done|by eapply list_elem_of_lookup_2].
  - intros h h' l Hl. apply list_fmap_ext. intros i x Hx. apply denote_frame.
    intros a Ha. apply Hl. apply elem_of_union_list. exists (reach h x). split; [|done].
    apply list_elem_of_fmap. exists x. split; [done|by eapply list_elem_of_lookup_2].
  - intros h h' l Hl Hok. rewrite Forall_forall in Hok |- *. intros x Hx.
    eapply ok_frame; [|by apply Hok]. intros a Ha. apply Hl. apply elem_of_union_list.
    exists (reach h x). split; [|done]. apply list_elem_of_fmap. by exists x.
Defined.

Lemma traverse_copies `{Refs T} (f : T → M heap T) : copies f → copies (traverse f).
Proof.
  intros Hf h l. revert h. induction l as [|x l IH]; intros h Hc.
  - exists [], h. split; [done|]. split_and!; [done|done|split; [set_solver|constructor]|set_solver].
  - assert (closed h x ∧ closed h l) as [Hx Hl] by (destruct Hc as [Hc [Hok1 Hok2]%Forall_cons];
      simpl in Hc; split; (split; [set_solver|done])).
    destruct (Hf h x Hx) as (x' & h1 & Hr & Hcp). pose proof Hcp as (Hs & _).
    destruct (IH h1) as (l' & h2 & Hrl & Hcl); [by eapply closed_mono|].
    pose proof (copy_of_mono _ _ h2 _ _ Hcp ltac:(by destruct Hcl)) as (Hs2 & Hd & Hcx & Hrx).
    pose proof (copy_of_later _ _ _ _ _ Hl Hs Hcl) as (_ & Hdl & Hcl' & Hrl').
    exists (x' :: l'), h2. split; [simpl; by rewrite (M_bind_Ok _ _ _ _ _ Hr), (M_bind_Ok _ _ _ _ _ Hrl)|].
    destruct Hcx as [Hcx Hokx], Hcl' as [Hcl' Hokl].
    split_and!; [done|exact (f_equal2 cons Hd Hdl)|split; [simpl in *; set_solver|by constructor]|].
    simpl in *; set_solver.
Qed.

(** A pointer that may be nil to a structure, and a slice to its wrap, in one cell. *)
Section struct.
Context {T : Type} `{RT : Refs T} (wrap : T → cell) (unwrap : cell → option T).
Context (unwrap_wrap : ∀ x, unwrap (wrap x) = Some x) (zero : T → T).

Definition pointee (h : heap) (p : option loc) : option T :=
  p ≫= λ l, h !! l ≫= unwrap.

(** The pointer refers to a value of its type. *)
Definition struct_ok (h : heap) (p : option loc) : Prop :=
  match p with Some l => is_Some (h !! l ≫= unwrap) | None => True end.

(** What a pointer refers to depends on its cell. *)
Lemma pointee_frame h h' p :
  (∀ l, p = Some l → h' !! l = h !! l) → pointee h' p = pointee h p ∧ (struct_ok h p → struct_ok h' p).
Proof using Type. destruct p as [l|]; [|done]. intros H. unfold pointee, struct_ok. simpl. by rewrite H. Qed.

Definition struct_refs : Refs (option loc).
Proof using RT unwrap.
  clear unwrap_wrap wrap zero.
  refine {| value_of := option (value_of T);
            reach h p := match p with Some l => {[ l ]} | None => ∅ end ∪
                         match pointee h p with Some xs => reach (T := T) h xs | None => ∅ end;
            denote h p := option_map (denote (T := T) h) (pointee h p);
            ok h p := struct_ok h p ∧
                      match pointee h p with Some xs => ok (T := T) h xs | None => True end |};
    intros h h' p H; destruct (pointee_frame h h' p) as [He Ho];
      try (intros l ->; apply H; set_solver); rewrite He; destruct (pointee h p) as [xs|].
  - f_equal. apply reach_frame. intros a Ha. apply H. set_solver.
  - done.
  - refine (f_equal Some (denote_frame (T := T) h h' xs _)). intros a Ha. apply H. set_solver.
  - done.
  - intros [Hs Hx]. split; [by apply Ho|]. eapply ok_frame; [|exact Hx]. intros a Ha. apply H. set_solver.
  - intros [Hs _]. split; [by apply Ho|done].
Defined.
#[local] Existing Instance struct_refs | 0.

Lemma reach_struct h l xs :
  pointee h (Some l) = Some xs → reach (Refs := struct_refs) h (Some l) = {[ l ]} ∪ reach h xs.
Proof using Type. intros E. unfold reach, struct_refs. by rewrite E. Qed.

Lemma closed_struct h l :
  closed (H := struct_refs) h (Some l) ↔
  ∃ xs, pointee h (Some l) = Some xs ∧ l ∈ dom h ∧ closed h xs.
Proof using Type.
  clear unwrap_wrap wrap zero. unfold closed. split.
  - intros [Hc [[xs Hs] Hx]]. change (pointee h (Some l) = Some xs) in Hs. exists xs.
    rewrite (reach_struct _ _ _ Hs) in Hc. rewrite Hs in Hx. set_solver.
  - intros (xs & Hs & Hl & Hc & Hx). rewrite (reach_struct _ _ _ Hs). split; [set_solver|].
    split; [by exists xs|]. by rewrite Hs.
Qed.

(** One that is not nil is copied into a new cell, first with the zero value. *)
Definition copy_struct (copy : T → M heap T) (p : option loc) : M heap (option loc) :=
  match p with
  | None => mret None
  | Some l =>
      c ← load l;
      match unwrap c with
      | None => panic "type"
      | Some xs =>
          l' ← new (wrap (zero xs));
          xs' ← copy xs;
          _ ← modify <[l' := wrap xs']>;
          mret (Some l')
      end
  end.

Lemma copy_struct_copies copy :
  copies copy → copies (H := struct_refs) (copy_struct copy).
Proof using unwrap_wrap.
  intros Hcopy h [l|] Hc;
    [|exists None, h; split; [done|split_and!; [done|done|split; [set_solver|done]|set_solver]]].
  apply closed_struct in Hc as (xs & Hp & Hdom & Hcx).
  destruct (h !! l) as [c|] eqn:Hl; [|apply elem_of_dom in Hdom as [? ?]; congruence].
  assert (unwrap c = Some xs) as Hxs by (unfold pointee in Hp; simpl in Hp; by rewrite Hl in Hp).
  destruct (new_spec (wrap (zero xs)) h) as (l' & Hn & Hf & Hs).
  set (h1 := <[l' := wrap (zero xs)]> h) in *.
  destruct (Hcopy h1 xs) as (xs' & h2 & Hr & Hcp); [by eapply closed_mono|].
  pose proof (copy_of_later _ _ _ _ _ Hcx Hs Hcp) as (Hs2 & Hd & [Hcl Hok] & Hdis).
  destruct Hcp as (Hs12 & _ & _ & Hdis1).
  assert (l' ∉ reach h2 xs') as Hl'.
  { intros Hin. assert (l' ∈ dom h1) by (apply elem_of_dom; unfold h1; rewrite lookup_insert_eq; by eexists).
    set_solver. }
  set (h3 := <[l' := wrap xs']> h2).
  assert (∀ a, a ∈ reach h2 xs' → h3 !! a = h2 !! a) as Hfr
    by (intros a Ha; unfold h3; rewrite lookup_insert_ne; [done|]; intros ->; done).
  assert (pointee h3 (Some l') = Some xs') as He
    by (unfold pointee, h3; simpl; rewrite lookup_insert_eq; apply unwrap_wrap).
  exists (Some l'), h3. split; [|split_and!].
  - unfold copy_struct, load. unfold mbind at 1, M_bind at 1. rewrite Hl, Hxs.
    rewrite (M_bind_Ok _ _ _ _ _ Hn), (M_bind_Ok _ _ _ _ _ Hr). done.
  - unfold h3. apply insert_subseteq_r; [by apply not_elem_of_dom|done].
  - change (option_map (denote (T := T) h3) (pointee h3 (Some l')) =
            option_map (denote (T := T) h) (pointee h (Some l))).
    rewrite He, Hp. apply (f_equal Some). by rewrite (denote_frame h2 h3).
  - apply closed_struct. exists xs'. split; [done|]. unfold closed, h3. rewrite dom_insert.
    fold h3. rewrite (reach_frame h2 h3) by done. split_and!; [set_solver|set_solver|].
    by eapply ok_frame.
  - rewrite (reach_struct _ _ _ He), (reach_frame h2 h3) by done. set_solver.
Qed.
End struct.

(** A slice that is not nil is copied into a new array of its length, element by
    element. *)
Definition copy_slice {T} (array : list T → cell) (elements : cell → option (list T)) (zero : T)
    (copy : T → M heap T) (p : option loc) : M heap (option loc) :=
  copy_struct array elements (λ xs, replicate (length xs) zero) (traverse copy) p.
End heap.


(** The copy of a pointer as the program uses it: it denotes what the original
    does, nil included, and a write through either leaves the other as it was. *)
Definition independent_copy {cell} `{R : Refs cell (option loc)}
    (f : option loc → M (gmap loc cell) (option loc)) : Prop :=
  ∀ h p, closed h p → ∃ p' h', f p h = (Ok p', h') ∧ h ⊆ h' ∧ denote h' p' = denote h p ∧
    ∀ l c, (l ∈ reach h' p' → denote (<[l := c]> h') p = denote h p) ∧
           (l ∈ reach h' p → denote (<[l := c]> h') p' = denote h p).

Lemma copies_independent {cell} `{R : Refs cell (option loc)}
    (f : option loc → M (gmap loc cell) (option loc)) : copies f → independent_copy f.
Proof.
  intros Hf h p Hc. destruct (Hf h p Hc) as (p' & h' & Hr & Hcp). exists p', h'.
  split; [done|]. pose proof Hcp as (Hs & Hd & _). split; [done|]. split; [done|].
  intros l c. by apply copy_independent.
Qed.

(** Tactics for the copy of a structure, field by field. *)
Ltac split_closed Hc :=
  let H := fresh "Hf" in apply closed_pair in Hc as [H Hc].
Ltac sub_heap :=
  first [ done
        | match goal with C : copy_of ?h ?h' _ _ |- ?h ⊆ ?h' => exact (proj1 C) end
        | match goal with S : ?a ⊆ ?b |- ?a ⊆ _ => transitivity b; [exact S|]; sub_heap end ].
Ltac next_field L :=
  match goal with
  | Hc : closed ?h ?x |- ∃ a h2, (?f ?x ≫= _) ?h1 = _ ∧ _ =>
      eapply (copies_field f _ h1 h x _ L Hc); [sub_heap|intros ? ? ? ?]
  end.
Ltac copied :=
  first [ apply copy_of_flat; sub_heap
        | eapply copy_of_mono; [eassumption|sub_heap]
        | apply copy_of_pair; copied ].
Ltac end_fields := eexists _, _; split; [reflexivity|copied].

(** ** The Nebius node class *)
Module nbc.
Section class.
(** The structures of the Kubernetes library, and its own cells. *)
Context {ObjectMeta ListMeta Cond lib : Type}.

Record TypeMeta := { Kind : string; APIVersion : string }.
Record NebiusNodeClassSpec := {
  ProjectID : string;
  Region : string;
  SubnetID : string;
  OSDiskSizeGB : option loc;
  OSDiskImageFamily : option loc;
  AllocateNodePublicIP : option loc;
  WireguardPeerCIDR : option loc;
  MaxPodsPerNode : option loc;
}.
Record NebiusNodeClassStatus := { Conditions : option loc }.
Record NebiusNodeClass := {
  TypeMeta_ : TypeMeta;
  ObjectMeta_ : ObjectMeta;
  Spec : NebiusNodeClassSpec;
  Status : NebiusNodeClassStatus;
}.
Record NebiusNodeClassList := {
  list_TypeMeta : TypeMeta;
  ListMeta_ : ListMeta;
  Items : option loc;
}.

(** What a pointer or slice of these types refers to. *)
Inductive cell :=
| CInt32 (v : Z)
| CString (v : string)
| CBool (v : bool)
| CConditions (l : list Cond)
| CItems (l : list NebiusNodeClass)
| CClass (x : NebiusNodeClass)
| CClassList (x : NebiusNodeClassList)
| CSpec (x : NebiusNodeClassSpec)
| CStatus (x : NebiusNodeClassStatus)
| CLib (v : lib).
Notation heap := (gmap loc cell).

Definition conditions_of (c : cell) : option (list Cond) :=
  match c with CConditions l => Some l | _ => None end.
Definition items_of (c : cell) : option (list NebiusNodeClass) :=
  match c with CItems l => Some l | _ => None end.

(** The library's [DeepCopyInto], which copies. *)
Context `{RO : !Refs (cell := cell) ObjectMeta} `{RL : !Refs (cell := cell) ListMeta}
        `{RC : !Refs (cell := cell) Cond}.
Context (ObjectMeta_DeepCopyInto : ObjectMeta → M heap ObjectMeta)
        (ListMeta_DeepCopyInto : ListMeta → M heap ListMeta)
        (Cond_DeepCopyInto : Cond → M heap Cond).
(** The zero values of array elements. *)
Context (zero_cond : Cond) (zero_class : NebiusNodeClass).

(** ** The generated functions *)
Definition Spec_DeepCopyInto (x : NebiusNodeClassSpec) : M heap NebiusNodeClassSpec :=
  osDiskSize ← copy_ptr (OSDiskSizeGB x);
  imageFamily ← copy_ptr (OSDiskImageFamily x);
  publicIP ← copy_ptr (AllocateNodePublicIP x);
  peerCIDR ← copy_ptr (WireguardPeerCIDR x);
  maxPods ← copy_ptr (MaxPodsPerNode x);
  mret {| ProjectID := ProjectID x; Region := Region x; SubnetID := SubnetID x;
          OSDiskSizeGB := osDiskSize; OSDiskImageFamily := imageFamily;
          AllocateNodePublicIP := publicIP; WireguardPeerCIDR := peerCIDR;
          MaxPodsPerNode := maxPods |}.

Definition Status_DeepCopyInto (x : NebiusNodeClassStatus) : M heap NebiusNodeClassStatus :=
  conditions ← copy_slice CConditions conditions_of zero_cond Cond_DeepCopyInto (Conditions x);
  mret {| Conditions := conditions |}.

Definition DeepCopyInto (x : NebiusNodeClass) : M heap NebiusNodeClass :=
  meta ← ObjectMeta_DeepCopyInto (ObjectMeta_ x);
  spec ← Spec_DeepCopyInto (Spec x);
  status ← Status_DeepCopyInto (Status x);
  mret {| TypeMeta_ := TypeMeta_ x; ObjectMeta_ := meta; Spec := spec; Status := status |}.

Definition List_DeepCopyInto (x : NebiusNodeClassList) : M heap NebiusNodeClassList :=
  meta ← ListMeta_DeepCopyInto (ListMeta_ x);
  items ← copy_slice CItems items_of zero_class DeepCopyInto (Items x);
  mret {| list_TypeMeta := list_TypeMeta x; ListMeta_ := meta; Items := items |}.

Definition class_of (c : cell) : option NebiusNodeClass :=
  match c with CClass x => Some x | _ => None end.
Definition class_list_of (c : cell) : option NebiusNodeClassList :=
  match c with CClassList x => Some x | _ => None end.
Definition spec_of (c : cell) : option NebiusNodeClassSpec :=
  match c with CSpec x => Some x | _ => None end.
Definition status_of (c : cell) : option NebiusNodeClassStatus :=
  match c with CStatus x => Some x | _ => None end.

(** [DeepCopy] of a pointer: nil, or a new structure copied into. *)
Definition DeepCopy : option loc → M heap (option loc) :=
  copy_struct CClass class_of (λ _, zero_class) DeepCopyInto.
Definition List_DeepCopy (zero : NebiusNodeClassList) : option loc → M heap (option loc) :=
  copy_struct CClassList class_list_of (λ _, zero) List_DeepCopyInto.
Definition Spec_DeepCopy : option loc → M heap (option loc) :=
  copy_struct CSpec spec_of (λ _, Spec zero_class) Spec_DeepCopyInto.
Definition Status_DeepCopy : option loc → M heap (option loc) :=
  copy_struct CStatus status_of (λ _, Status zero_class) Status_DeepCopyInto.

(** [DeepCopyObject]: the copy as an object, a nil interface when it is nil. *)
Definition DeepCopyObject (p : option loc) : M heap (option loc) := DeepCopy p.
Definition List_DeepCopyObject (zero : NebiusNodeClassList) (p : option loc) : M heap (option loc) :=
  List_DeepCopy zero p.

(** ** What they reach *)
Context (ObjectMeta_copies : copies ObjectMeta_DeepCopyInto)
        (ListMeta_copies : copies ListMeta_DeepCopyInto) (Cond_copies : copies Cond_DeepCopyInto).
#[local] Set Default Proof Using "Type*".

Definition spec_fields (x : NebiusNodeClassSpec) :=
  (OSDiskSizeGB x, (OSDiskImageFamily x, (AllocateNodePublicIP x, (WireguardPeerCIDR x,
    (MaxPodsPerNode x, (ProjectID x, Region x, SubnetID x)))))).
#[export] Instance spec_refs : Refs (cell := cell) NebiusNodeClassSpec :=
  via_refs spec_fields (@pair_refs _ _ _ _ (@pair_refs _ _ _ _ (@pair_refs _ _ _ _
    (@pair_refs _ _ _ _ (@pair_refs _ _ _ _ (flat (string * string * string))))))).
#[export] Instance status_refs : Refs (cell := cell) NebiusNodeClassStatus :=
  via_refs Conditions (struct_refs (T := list Cond) conditions_of).
#[export] Instance class_refs : Refs (cell := cell) NebiusNodeClass :=
  via_refs (λ x, (ObjectMeta_ x, (Spec x, (Status x, TypeMeta_ x))))
    (@pair_refs _ _ _ _ (@pair_refs _ _ _ _ (@pair_refs _ _ _ _ (flat TypeMeta)))).
#[export] Instance class_list_refs : Refs (cell := cell) NebiusNodeClassList :=
  via_refs (λ x, (ListMeta_ x, (Items x, list_TypeMeta x)))
    (@pair_refs _ _ _ _ (@pair_refs _ _ _ (struct_refs (T := list NebiusNodeClass) items_of) (flat TypeMeta))).

Lemma Spec_copies : copies Spec_DeepCopyInto.
Proof using Type.
  intros h x Hc. repeat split_closed Hc.
  unfold Spec_DeepCopyInto. do 5 next_field (copy_ptr_copies (cell := cell)). end_fields.
Qed.

Lemma Status_copies : copies Status_DeepCopyInto.
Proof.
  intros h x Hc. unfold Status_DeepCopyInto.
  change (closed (H := struct_refs (T := list Cond) conditions_of) h (Conditions x)) in Hc.
  next_field (copy_struct_copies (T := list Cond) CConditions conditions_of (λ _, eq_refl)
    (λ xs, replicate (length xs) zero_cond) (traverse Cond_DeepCopyInto)
    (traverse_copies _ Cond_copies)).
  eexists _, _. split; [reflexivity|done].
Qed.

Lemma class_copies : copies DeepCopyInto.
Proof.
  intros h x Hc. repeat split_closed Hc. unfold DeepCopyInto.
  next_field ObjectMeta_copies. next_field Spec_copies. next_field Status_copies. end_fields.
Qed.

Lemma list_copies : copies List_DeepCopyInto.
Proof.
  intros h x Hc. repeat split_closed Hc. unfold List_DeepCopyInto.
  next_field ListMeta_copies.
  next_field (copy_struct_copies (T := list NebiusNodeClass) CItems items_of (λ _, eq_refl)
    (λ xs, replicate (length xs) zero_class) (traverse DeepCopyInto) (traverse_copies _ class_copies)).
  end_fields.
Qed.

Lemma DeepCopy_copies : copies (H := struct_refs (T := NebiusNodeClass) class_of) DeepCopy.
Proof. by apply copy_struct_copies, class_copies. Qed.
Lemma List_DeepCopy_copies zero :
  copies (H := struct_refs (T := NebiusNodeClassList) class_list_of) (List_DeepCopy zero).
Proof. by apply copy_struct_copies, list_copies. Qed.
Lemma Spec_DeepCopy_copies : copies (H := struct_refs (T := NebiusNodeClassSpec) spec_of) Spec_DeepCopy.
Proof using Type. by apply copy_struct_copies, Spec_copies. Qed.
Lemma Status_DeepCopy_copies :
  copies (H := struct_refs (T := NebiusNodeClassStatus) status_of) Status_DeepCopy.
Proof. by apply copy_struct_copies, Status_copies. Qed.

(** C14: the generated deep copies of the Nebius node class, its list, its spec and
    its status.  From a heap where the original's pointers refer to values of
    their types, the copy of a pointer, nil included, denotes the same value and
    shares no cell with the original: no write to a cell of the one, its spec's
    pointers, its conditions and its list items included, is seen through the
    other. *)
Theorem nebius_deep_copies (zero : NebiusNodeClassList) :
  independent_copy (R := struct_refs (T := NebiusNodeClass) class_of) DeepCopy ∧
  independent_copy (R := struct_refs (T := NebiusNodeClassList) class_list_of) (List_DeepCopy zero) ∧
  independent_copy (R := struct_refs (T := NebiusNodeClassSpec) spec_of) Spec_DeepCopy ∧
  independent_copy (R := struct_refs (T := NebiusNodeClassStatus) status_of) Status_DeepCopy.
Proof.
  split_and!; apply copies_independent.
  - apply DeepCopy_copies.
  - apply List_DeepCopy_copies.
  - apply Spec_DeepCopy_copies.
  - apply Status_DeepCopy_copies.
Qed.
End class.

(** A list of one class with a disk size, an image family and conditions, under
    metadata that holds no pointer. *)
Definition witness_class : NebiusNodeClass (ObjectMeta := string) :=
  {| TypeMeta_ := {| Kind := "NebiusNodeClass"; APIVersion := "v1alpha1" |}; ObjectMeta_ := "default";
     Spec := {| ProjectID := "project-1"; Region := "eu-north1"; SubnetID := "subnet-1";
                OSDiskSizeGB := Some 1%nat; OSDiskImageFamily := Some 2%nat; AllocateNodePublicIP := None;
                WireguardPeerCIDR := None; MaxPodsPerNode := None |};
     Status := {| Conditions := Some 3%nat |} |}.
Definition witness_list : NebiusNodeClassList (ListMeta := string) :=
  {| list_TypeMeta := {| Kind := "NebiusNodeClassList"; APIVersion := "v1alpha1" |}; ListMeta_ := "";
     Items := Some 4%nat |}.
Definition witness_heap : gmap loc (cell (ObjectMeta := string) (ListMeta := string) (Cond := string) (lib := unit)) :=
  list_to_map [(1%nat, CInt32 128); (2%nat, CString "Ubuntu2404"); (3%nat, CConditions ["Ready"]);
               (4%nat, CItems [witness_class]); (5%nat, CClassList witness_list)].

(** The list is copied in [witness_heap], with the class it holds. *)
Lemma nebius_deep_copies_witness :
  let _ := flat (cell := cell (Cond := string) (lib := unit)) string in
  let refs := struct_refs (T := NebiusNodeClassList) class_list_of in
  closed (H := refs) witness_heap (Some 5%nat) ∧
  ∃ p' h', List_DeepCopy mret mret mret "" witness_class witness_list (Some 5%nat) witness_heap = (Ok p', h') ∧
    denote (Refs := refs) h' p' = denote (Refs := refs) witness_heap (Some 5%nat) ∧
    ∀ l c, l ∈ reach (Refs := refs) h' p' →
      denote (Refs := refs) (<[l := c]> h') (Some 5%nat) = denote (Refs := refs) witness_heap (Some 5%nat).
Proof.
  intros R refs. assert (closed (H := refs) witness_heap (Some 5%nat)) as Hc
    by (split; [apply (bool_decide_unpack _); vm_compute; exact I|]; repeat split; repeat constructor; by eexists).
  split; [exact Hc|].
  destruct (nebius_deep_copies (lib := unit) (RO := R) (RL := R) (RC := R) mret mret mret "" witness_class
    (flat_copies _) (flat_copies _) (flat_copies _) witness_list) as (_ & Hl & _).
  destruct (Hl witness_heap (Some 5%nat) Hc) as (p' & h' & Hr & _ & Hd & Hw).
  exists p', h'. split; [exact Hr|]. split; [exact Hd|]. intros l c. apply Hw.
Defined.
End nbc.

(** ** The Kaito node class *)
Module kaito.
Section class.
Context {ObjectMeta ListMeta lib : Type}.

Record TypeMeta := { Kind : string; APIVersion : string }.
Inductive KaitoNodeClassSpec := EmptySpec.
Inductive KaitoNodeClassStatus := EmptyStatus.
Record KaitoNodeClass := {
  TypeMeta_ : TypeMeta;
  ObjectMeta_ : ObjectMeta;
  Spec : KaitoNodeClassSpec;
  Status : KaitoNodeClassStatus;
}.
Record KaitoNodeClassList := {
  list_TypeMeta : TypeMeta;
  ListMeta_ : ListMeta;
  Items : option loc;
}.

(** The conditions of the class: none, whatever is set. *)
Definition GetConditions {Cond} (x : KaitoNodeClass) : list Cond := [].
Definition SetConditions {Cond} (conditions : list Cond) (x : KaitoNodeClass) : KaitoNodeClass := x.

Inductive cell :=
| CItems (l : list KaitoNodeClass)
| CClass (x : KaitoNodeClass)
| CClassList (x : KaitoNodeClassList)
| CSpec (x : KaitoNodeClassSpec)
| CStatus (x : KaitoNodeClassStatus)
| CLib (v : lib).
Notation heap := (gmap loc cell).
Definition items_of (c : cell) : option (list KaitoNodeClass) :=
  match c with CItems l => Some l | _ => None end.
Definition class_of (c : cell) : option KaitoNodeClass :=
  match c with CClass x => Some x | _ => None end.
Definition class_list_of (c : cell) : option KaitoNodeClassList :=
  match c with CClassList x => Some x | _ => None end.
Definition spec_of (c : cell) : option KaitoNodeClassSpec :=
  match c with CSpec x => Some x | _ => None end.
Definition status_of (c : cell) : option KaitoNodeClassStatus :=
  match c with CStatus x => Some x | _ => None end.

Context `{RO : !Refs (cell := cell) ObjectMeta} `{RL : !Refs (cell := cell) ListMeta}.
Context (ObjectMeta_DeepCopyInto : ObjectMeta → M heap ObjectMeta)
        (ListMeta_DeepCopyInto : ListMeta → M heap ListMeta).
Context (zero_class : KaitoNodeClass).

Definition Spec_DeepCopyInto (x : KaitoNodeClassSpec) : M heap KaitoNodeClassSpec := mret x.
Definition Status_DeepCopyInto (x : KaitoNodeClassStatus) : M heap KaitoNodeClassStatus := mret x.
Definition DeepCopyInto (x : KaitoNodeClass) : M heap KaitoNodeClass :=
  meta ← ObjectMeta_DeepCopyInto (ObjectMeta_ x);
  mret {| TypeMeta_ := TypeMeta_ x; ObjectMeta_ := meta; Spec := Spec x; Status := Status x |}.
Definition List_DeepCopyInto (x : KaitoNodeClassList) : M heap KaitoNodeClassList :=
  meta ← ListMeta_DeepCopyInto (ListMeta_ x);
  items ← copy_slice CItems items_of zero_class DeepCopyInto (Items x);
  mret {| list_TypeMeta := list_TypeMeta x; ListMeta_ := meta; Items := items |}.

Definition DeepCopy : option loc → M heap (option loc) :=
  copy_struct CClass class_of (λ _, zero_class) DeepCopyInto.
Definition List_DeepCopy (zero : KaitoNodeClassList) : option loc → M heap (option loc) :=
  copy_struct CClassList class_list_of (λ _, zero) List_DeepCopyInto.
Definition Spec_DeepCopy : option loc → M heap (option loc) :=
  copy_struct CSpec spec_of (λ _, EmptySpec) Spec_DeepCopyInto.
Definition Status_DeepCopy : option loc → M heap (option loc) :=
  copy_struct CStatus status_of (λ _, EmptyStatus) Status_DeepCopyInto.
Definition DeepCopyObject (p : option loc) : M heap (option loc) := DeepCopy p.
Definition List_DeepCopyObject (zero : KaitoNodeClassList) (p : option loc) : M heap (option loc) :=
  List_DeepCopy zero p.

Context (ObjectMeta_copies : copies ObjectMeta_DeepCopyInto) (ListMeta_copies : copies ListMeta_DeepCopyInto).
#[local] Set Default Proof Using "Type*".
#[export] Instance class_refs : Refs (cell := cell) KaitoNodeClass :=
  via_refs (λ x, (ObjectMeta_ x, (TypeMeta_ x, Spec x, Status x)))
    (@pair_refs _ _ _ _ (flat (TypeMeta * KaitoNodeClassSpec * KaitoNodeClassStatus))).
#[export] Instance class_list_refs : Refs (cell := cell) KaitoNodeClassList :=
  via_refs (λ x, (ListMeta_ x, (Items x, list_TypeMeta x)))
    (@pair_refs _ _ _ _ (@pair_refs _ _ _ (struct_refs (T := list KaitoNodeClass) items_of) (flat TypeMeta))).

Lemma kaito_class_copies : copies DeepCopyInto.
Proof using ObjectMeta_copies.
  intros h x Hc. repeat split_closed Hc. unfold DeepCopyInto. next_field ObjectMeta_copies. end_fields.
Qed.

Lemma kaito_list_copies : copies List_DeepCopyInto.
Proof.
  intros h x Hc. repeat split_closed Hc. unfold List_DeepCopyInto.
  next_field ListMeta_copies.
  next_field (copy_struct_copies (T := list KaitoNodeClass) CItems items_of (λ _, eq_refl)
    (λ xs, replicate (length xs) zero_class) (traverse DeepCopyInto) (traverse_copies _ kaito_class_copies)).
  end_fields.
Qed.

(** The generated deep copies of the Kaito node class and its list. *)
Theorem kaito_deep_copies (zero : KaitoNodeClassList) :
  independent_copy (R := struct_refs (T := KaitoNodeClass) class_of) DeepCopy ∧
  independent_copy (R := struct_refs (T := KaitoNodeClassList) class_list_of) (List_DeepCopy zero).
Proof.
  split; apply copies_independent.
  - by apply copy_struct_copies, kaito_class_copies.
  - by apply copy_struct_copies, kaito_list_copies.
Qed.
End class.
End kaito.
