(* ===== verification/Manager.v ===== *)
(** * The controllers in their manager

    [Register] of the three controllers of [karpenter/pkg/controllers], and
    [NewControllers]: what each is woken for and what it runs.  The manager is the
    controller runtime's; its documented behaviour is an interface, and so is the
    cluster the controllers see.  The steps of the termination controller's queue
    show when a node class that waits for its node claims is woken. *)
From S2P Require Import Prelude GoStr Karp V1alpha1 NebiusProvider Controllers.
From stdpp Require Import options.
Open Scope Z_scope.

(** ** The schemes *)

(** [doc.go] of the two API packages: the types each adds to the scheme under its
    group and version; [init] of the controller adds both. *)
Record GroupVersion := { gv_Group : string; gv_Version : string }.
Definition nebius_SchemeGroupVersion : GroupVersion := {| gv_Group := Group; gv_Version := "v1alpha1" |}.
Definition kaito_SchemeGroupVersion : GroupVersion := {| gv_Group := "kaito.sh"; gv_Version := "v1alpha1" |}.
Definition nebius_AddToScheme (scheme : list (GroupVersion * string)) : list (GroupVersion * string) :=
  scheme ++ [(nebius_SchemeGroupVersion, "NebiusNodeClass"); (nebius_SchemeGroupVersion, "NebiusNodeClassList")].
Definition kaito_AddToScheme (scheme : list (GroupVersion * string)) : list (GroupVersion * string) :=
  scheme ++ [(kaito_SchemeGroupVersion, "KaitoNodeClass"); (kaito_SchemeGroupVersion, "KaitoNodeClassList")].
Definition main_init (scheme : list (GroupVersion * string)) : list (GroupVersion * string) :=
  kaito_AddToScheme (nebius_AddToScheme scheme).

(** ** Objects and events *)
Inductive object :=
| ONodeClass (c : NebiusNodeClass)
| ONodeClaim (c : NodeClaim)
| ONode (n : Node).
Inductive kind := KNodeClass | KNodeClaim | KNode.
#[global] Instance kind_eq_dec : EqDecision kind.
Proof. solve_decision. Defined.

Definition kind_of (o : object) : kind :=
  match o with ONodeClass _ => KNodeClass | ONodeClaim _ => KNodeClaim | ONode _ => KNode end.
Definition name_of (o : object) : string :=
  match o with ONodeClass c => nbc_Name c | ONodeClaim c => nc_Name c | ONode n => node_Name n end.

Inductive event :=
| CreateEvent (o : object)
| UpdateEvent (old new : object)
| DeleteEvent (o : object).
Definition objects_of (e : event) : list object :=
  match e with CreateEvent o => [o] | UpdateEvent old new => [old; new] | DeleteEvent o => [o] end.

(** [predicate.Funcs]. *)
Record Funcs := {
  CreateFunc : object → bool;
  UpdateFunc : object → object → bool;
  DeleteFunc : object → bool;
}.
Definition passes (p : Funcs) (e : event) : bool :=
  match e with
  | CreateEvent o => CreateFunc p o
  | UpdateEvent old new => UpdateFunc p old new
  | DeleteEvent o => DeleteFunc p o
  end.

(** ** Registrations *)

(** What the builder is given: the kind reconciled, the kinds watched besides with
    the function that maps their objects to requests and the predicates. *)
Record Watch := { w_Kind : kind; w_Map : object → res (list string); w_Predicates : Funcs }.
Record Sources := { For : kind; Watches : list Watch }.

(** The function that [Complete] is given, by the type of the object. *)
Inductive Reconciler (W : Type) :=
| NodeClassReconciler (f : NebiusNodeClass → M W Result)
| NodeReconciler (f : Node → M W Result).
#[global] Arguments NodeClassReconciler {W} f.
#[global] Arguments NodeReconciler {W} f.

Record registration (W : Type) := {
  Named : string;
  sources : Sources;
  MaxConcurrentReconciles : Z;
  Complete : Reconciler W;
}.
#[global] Arguments Named {W} r.
#[global] Arguments sources {W} r.
#[global] Arguments MaxConcurrentReconciles {W} r.
#[global] Arguments Complete {W} r.

(** The map function of the watch on node claims: another type's object is a
    failed type assertion. *)
Definition map_claim (o : object) : res (list string) :=
  match o with
  | ONodeClaim nc => Ok (claim_requests nc)
  | _ => Panic "interface conversion"
  end.
Definition deletions : Funcs :=
  {| CreateFunc _ := false; UpdateFunc _ _ := false; DeleteFunc _ := true |}.

(** The event of a class that waits for the claims of these names, which [finalize]
    publishes; [PrettySlice] shortens a list of names. *)
Record Event := { ev_Type : string; ev_Reason : string; ev_Message : string; ev_DedupeValues : list string }.
Definition WaitingOnNodeClaimTerminationEvent (PrettySlice : list string → nat → string)
    (uid : string) (names : list string) : Event :=
  {| ev_Type := "Normal"; ev_Reason := "WaitingOnNodeClaimTermination";
     ev_Message := "Waiting on NodeClaim termination for " +:+ PrettySlice names 5%nat;
     ev_DedupeValues := [uid] |}.

Section controllers.
Context {W : Type} `{NC : NodeClassClient W}.
Context (SetTrue : string → NebiusNodeClass → NebiusNodeClass).
Context (Get_NodeClaim : string → M W NodeClaim) (Patch_Node : Node → Node → M W ()).

Definition Status_Register : registration W :=
  {| Named := "nebius_nodeclass.status";
     sources := {| For := KNodeClass; Watches := [] |};
     MaxConcurrentReconciles := 10;
     Complete := NodeClassReconciler (Status_Reconcile SetTrue) |}.

Definition Termination_Register : registration W :=
  {| Named := "nebius_nodeclass.termination";
     sources := {| For := KNodeClass;
                   Watches := [{| w_Kind := KNodeClaim; w_Map := map_claim; w_Predicates := deletions |}] |};
     MaxConcurrentReconciles := 10;
     Complete := NodeClassReconciler Termination_Reconcile |}.

Definition SetProviderID_Register : registration W :=
  {| Named := "aks-flex.nodes.set_provider_id";
     sources := {| For := KNode; Watches := [] |};
     MaxConcurrentReconciles := 10;
     Complete := NodeReconciler (SetProviderID_Reconcile Get_NodeClaim Patch_Node) |}.

Definition NewControllers : list (registration W) :=
  [Status_Register; Termination_Register; SetProviderID_Register].
End controllers.

(** ** The controller runtime *)

(** What an event adds to a controller's queue: the object itself when it is of
    the reconciled kind, and what the watches of the kind map it to. *)
Class Runtime := {
  requests : Sources → event → list string;
  requests_spec s e n :
    n ∈ requests s e ↔
    (∃ o, o ∈ objects_of e ∧ kind_of o = For s ∧ name_of o = n) ∨
    ∃ w o l, w ∈ Watches s ∧ o ∈ objects_of e ∧ kind_of o = w_Kind w ∧
      passes (w_Predicates w) e = true ∧ w_Map w o = Ok l ∧ n ∈ l;
}.

(** A claim's name of its node class, whatever the kind: what the index
    [spec.nodeClassRef.name] selects by. *)
Definition class_name (nc : NodeClaim) : option string := ref_Name <$> nc_NodeClassRef nc.

(** ** The termination controller's queue *)

(** The cluster the controller sees, with a server that answers: listing by the
    index gives the claims that name the class, reporting changes nothing, and a
    patch of the stored object stores its finalizers, or removes the object when it
    is being deleted and none is left. *)
Class Cluster (W : Type) := {
  #[global] cluster_client :: NodeClassClient W;
  claims : W → gmap string NodeClaim;
  classes : W → gmap string NebiusNodeClass;
  list_claims_law class w : ∃ l, List_NodeClaims class w = (Ok l, w) ∧
    ∀ c, c ∈ l ↔ ∃ nc, claims w !! c = Some nc ∧ class_name nc = Some class;
  report_law class l w : ∃ w', Publish class l w = (Ok (), w') ∧
    claims w' = claims w ∧ classes w' = classes w;
  lock_law obj base w : classes w !! nbc_Name base = Some base → nbc_Name obj = nbc_Name base →
    ∃ o w', Patch_Lock obj base w = (Ok o, w') ∧ claims w' = claims w ∧
      (∀ m, m ≠ nbc_Name base → classes w' !! m = classes w !! m) ∧
      finalizers_of (classes w' !! nbc_Name base) =
        (if bool_decide (nbc_DeletionTimestamp base ≠ None ∧ nbc_Finalizers obj = []) then None
         else Some (nbc_Finalizers obj)) ∧
      ∀ c, classes w' !! nbc_Name base = Some c → nbc_Name c = nbc_Name base;
}.

Section queue.
Context `{RT : Runtime} {W : Type} `{CL : Cluster W}.
#[local] Set Default Proof Using "Type*".

(** The names to reconcile now, and those a timer adds later. *)
Record state := { world : W; queue : gset string; delayed : gset string }.

Definition wake (e : event) (w : W) (s : state) : state :=
  {| world := w; queue := queue s ∪ list_to_set (requests (sources Termination_Register) e);
     delayed := delayed s |}.

(** What a worker does with a name and the outcome: the object of the name is read
    and reconciled, if it exists. *)
Definition reconcile (n : string) (w : W) : res Result * W :=
  match classes w !! n with
  | None => (Ok done_, w)
  | Some class => Termination_Reconcile class w
  end.
Definition settled (n : string) (r : res Result) (w : W) (s : state) : state :=
  let q := queue s ∖ {[ n ]} in
  match r with
  | Ok r =>
      {| world := w; queue := (if Requeue r then {[ n ]} ∪ q else q);
         delayed := match RequeueAfter r with Some _ => {[ n ]} ∪ delayed s | None => delayed s end |}
  | _ => {| world := w; queue := q; delayed := {[ n ]} ∪ delayed s |}
  end.

(** What can happen: a class is created, changed or marked deleted, a claim comes,
    changes or goes, a worker takes a name, a timer fires.  The class a claim names
    never changes. *)
Inductive step : state → state → Prop :=
| class_applied s new w :
    classes w = <[nbc_Name new := new]> (classes (world s)) → claims w = claims (world s) →
    step s (wake (match classes (world s) !! nbc_Name new with
                  | Some old => UpdateEvent (ONodeClass old) (ONodeClass new)
                  | None => CreateEvent (ONodeClass new)
                  end) w s)
| claim_added s nc w :
    claims (world s) !! nc_Name nc = None →
    claims w = <[nc_Name nc := nc]> (claims (world s)) → classes w = classes (world s) →
    step s (wake (CreateEvent (ONodeClaim nc)) w s)
| claim_changed s old new w :
    claims (world s) !! nc_Name new = Some old → nc_NodeClassRef new = nc_NodeClassRef old →
    claims w = <[nc_Name new := new]> (claims (world s)) → classes w = classes (world s) →
    step s (wake (UpdateEvent (ONodeClaim old) (ONodeClaim new)) w s)
| claim_removed s nc w :
    claims (world s) !! nc_Name nc = Some nc →
    claims w = delete (nc_Name nc) (claims (world s)) → classes w = classes (world s) →
    step s (wake (DeleteEvent (ONodeClaim nc)) w s)
| reconciled s n r w :
    n ∈ queue s → reconcile n (world s) = (r, w) → step s (settled n r w s)
| timer_fired s n :
    n ∈ delayed s →
    step s {| world := world s; queue := {[ n ]} ∪ queue s; delayed := delayed s ∖ {[ n ]} |}.

(** The controller starts with every class in its queue. *)
Definition started (s : state) : Prop := dom (classes (world s)) ⊆ queue s.

(** The class waits for its claims: it is being deleted and has the finalizer. *)
Definition terminating (class : NebiusNodeClass) : Prop :=
  nbc_DeletionTimestamp class ≠ None ∧ TerminationFinalizer ∈ nbc_Finalizers class.
Definition named_by_claim (n : string) (w : W) : Prop :=
  ∃ k nc, claims w !! k = Some nc ∧ class_name nc = Some n.

(** Every claim that names a class of this name names the Nebius node class. *)
Definition nebius_claims (n : string) (s : state) : Prop :=
  ∀ k nc, claims (world s) !! k = Some nc → class_name nc = Some n → claim_requests nc = [n].

Definition keyed (s : state) : Prop :=
  ∀ k class, classes (world s) !! k = Some class → nbc_Name class = k.
Definition waits (n : string) (s : state) : Prop :=
  ∀ class, classes (world s) !! n = Some class → terminating class →
    n ∈ queue s ∨ named_by_claim n (world s).

(** What wakes the controller. *)
Lemma class_event_wakes e o :
  o ∈ objects_of e → kind_of o = KNodeClass → name_of o ∈ requests (sources Termination_Register) e.
Proof. intros Ho Hk. apply requests_spec. left. by exists o. Qed.

Lemma claim_deleted_wakes nc n :
  n ∈ requests (sources Termination_Register) (DeleteEvent (ONodeClaim nc)) ↔ n ∈ claim_requests nc.
Proof.
  rewrite requests_spec. split.
  - intros [(o & Ho & Hk & _)|(x & o & l & Hx & Ho & _ & _ & Hm & Hn)];
      apply list_elem_of_singleton in Ho as ->; [done|].
    apply list_elem_of_singleton in Hx as ->. by injection Hm as <-.
  - intros Hn. right. eexists _, (ONodeClaim nc), _.
    split; [by apply list_elem_of_singleton|]. split; [by apply list_elem_of_singleton|]. done.
Qed.

(** A reconciliation of a class that is being deleted. *)
Lemma reconcile_last (n : string) class (w : W) :
  classes w !! n = Some class → nbc_Name class = n → terminating class → ¬ named_by_claim n w →
  ∃ w', Termination_Reconcile class w = (Ok done_, w') ∧ claims w' = claims w ∧
    (∀ m, m ≠ n → classes w' !! m = classes w !! m) ∧
    finalizers_of (classes w' !! n) =
      (let fs := filter (λ x, x ≠ TerminationFinalizer) (nbc_Finalizers class) in
       if bool_decide (fs = []) then None else Some fs) ∧
    ∀ c, classes w' !! n = Some c → nbc_Name c = n.
Proof.
  intros Hc <- [Hd Hf] Hno. unfold Termination_Reconcile, finalize.
  destruct (nbc_DeletionTimestamp class) as [t|] eqn:Et; [|done].
  unfold ContainsFinalizer. rewrite bool_decide_eq_true_2 by done. cbn [negb]. cbv zeta.
  destruct (list_claims_law (nbc_Name class) w) as (l & Hl & Hin).
  assert (l = []) as -> by (destruct l as [|c l]; [done|]; exfalso; apply Hno;
    destruct (proj1 (Hin c) ltac:(left)) as (nc & ? & ?); by exists c, nc).
  rewrite (M_bind_Ok _ _ _ _ _ (wrapf_Ok _ _ _ _ _ _ Hl)). simpl.
  rewrite bool_decide_eq_true_2 by (by apply RemoveFinalizer_ne).
  destruct (lock_law (RemoveFinalizer class TerminationFinalizer) class w Hc eq_refl)
    as (o & w' & Hp & Hcl & Hm & Hfs & Hnm).
  exists w'. rewrite (attempt_Ok _ _ _ _ _ Hp).
  split_and!; [done|done|done| |done].
  rewrite Hfs, Et. simpl. by repeat case_bool_decide; naive_solver.
Qed.

Lemma reconcile_waits (n : string) class (w : W) :
  nbc_Name class = n → terminating class → named_by_claim n w →
  ∃ w', Termination_Reconcile class w = (Ok {| Requeue := false; RequeueAfter := Some 600 |}, w') ∧
    claims w' = claims w ∧ classes w' = classes w.
Proof.
  intros <- [Hd Hf] (k & nc & Hk & Hn). unfold Termination_Reconcile, finalize.
  destruct (nbc_DeletionTimestamp class) as [t|] eqn:Et; [|done].
  unfold ContainsFinalizer. rewrite bool_decide_eq_true_2 by done. cbn [negb]. cbv zeta.
  destruct (list_claims_law (nbc_Name class) w) as (l & Hl & Hin).
  rewrite (M_bind_Ok _ _ _ _ _ (wrapf_Ok _ _ _ _ _ _ Hl)).
  rewrite bool_decide_eq_true_2 by (intros ->; assert (k ∈ @nil string) by (apply Hin; eauto); set_solver).
  destruct (report_law (nbc_Name class) l w) as (w' & Hp & ? & ?).
  exists w'. by rewrite (M_bind_Ok _ _ _ _ _ Hp).
Qed.

(** One that is not is left alone. *)
Lemma reconcile_idle class (w : W) : ¬ terminating class → Termination_Reconcile class w = (Ok done_, w).
Proof.
  unfold Termination_Reconcile, finalize, ContainsFinalizer, terminating. intros H.
  destruct (nbc_DeletionTimestamp class); [|done].
  rewrite bool_decide_eq_false_2; [done|]. intros Hf. by apply H.
Qed.

(** The steps that keep to claims of the Nebius class, for the class of a name. *)
Definition nebius_step (n : string) (s s' : state) : Prop := step s s' ∧ nebius_claims n s'.

Lemma reconcile_outcome n s r w :
  reconcile n (world s) = (r, w) → keyed s →
  (r = Ok done_ ∧ w = world s ∧
   (∀ class, classes w !! n = Some class → ¬ terminating class)) ∨
  (r = Ok {| Requeue := false; RequeueAfter := Some 600 |} ∧ named_by_claim n w ∧
   claims w = claims (world s) ∧ classes w = classes (world s)) ∨
  (r = Ok done_ ∧ claims w = claims (world s) ∧
   (∀ m, m ≠ n → classes w !! m = classes (world s) !! m) ∧
   (∀ class, classes w !! n = Some class → nbc_Name class = n ∧ ¬ terminating class)).
Proof.
  unfold reconcile. intros Hr Hk. destruct (classes (world s) !! n) as [class|] eqn:Ec;
    [|injection Hr as <- <-; left; split_and!; [done|done|congruence]].
  destruct (decide (nbc_DeletionTimestamp class ≠ None ∧ TerminationFinalizer ∈ nbc_Finalizers class))
    as [Ht|Ht].
  2: { rewrite reconcile_idle in Hr by exact Ht. injection Hr as <- <-. left. split_and!; [done|done|].
       intros c Hc. by simplify_eq. }
  right. pose proof (Hk _ _ Ec) as Hn.
  destruct (list_claims_law n (world s)) as (l & _ & Hin). destruct l as [|c l].
  - right. assert (¬ named_by_claim n (world s)) as Hno
      by (intros (k & nc & ? & ?); assert (k ∈ @nil string) by (apply Hin; eauto); set_solver).
    destruct (reconcile_last n class (world s)) as (w' & Hw & Hcl & Hm & Hfs & Hnm); [done..|].
    rewrite Hw in Hr. injection Hr as <- <-. split_and!; [done|done|done|].
    intros c Hc. split; [by apply Hnm|]. intros [_ Hf]. rewrite Hc in Hfs. simpl in Hfs.
    case_bool_decide; [done|]. injection Hfs as Hfs. rewrite Hfs in Hf.
    by apply list_elem_of_filter in Hf as [? _].
  - left. destruct (proj1 (Hin c) ltac:(left)) as (nc & Hc1 & Hc2).
    destruct (reconcile_waits n class (world s)) as (w' & Hw & Hcl & Hcs); [done|done|by exists c, nc|].
    rewrite Hw in Hr. injection Hr as <- <-. split_and!; [done| |done|done].
    exists c, nc. by rewrite Hcl.
Qed.

Lemma step_keyed s s' : step s s' → keyed s → keyed s'.
Proof.
  destruct 1 as [s new w Hw _|s nc w _ _ Hw|s old new w _ _ _ Hw|s nc w _ _ Hw|s n r w _ Hr|s n _];
    intros Hk k class; simpl; try (rewrite Hw); try (by apply Hk).
  - destruct (decide (k = nbc_Name new)) as [->|]; [rewrite lookup_insert_eq; by intros [= <-]|].
    rewrite lookup_insert_ne by done. apply Hk.
  - assert (classes w !! k = Some class → nbc_Name class = k) as HH.
    { destruct (reconcile_outcome _ _ _ _ Hr Hk) as [(_ & -> & _)|[(_ & _ & _ & ->)|(_ & _ & Hm & Hn)]];
        [apply Hk|apply Hk|]. destruct (decide (k = n)) as [->|]; [by intros [? _]%Hn|].
      rewrite Hm by done. apply Hk. }
    unfold settled. by destruct r.
Qed.

Lemma named_insert (n : string) k nc w w' :
  claims w' = <[k := nc]> (claims w) →
  (claims w !! k = None ∨ ∃ old, claims w !! k = Some old ∧ class_name nc = class_name old) →
  named_by_claim n w → named_by_claim n w'.
Proof.
  intros Hw Hold (k' & nc' & Hk & Hn). destruct (decide (k' = k)) as [->|Hne].
  - exists k, nc. rewrite Hw, lookup_insert_eq. split; [done|].
    destruct Hold as [|(old & ? & ->)]; congruence.
  - exists k', nc'. by rewrite Hw, lookup_insert_ne.
Qed.

Lemma settled_queue n m r w s : m ≠ n → m ∈ queue s → m ∈ queue (settled n r w s).
Proof. intros. unfold settled. destruct r as [r| |]; simpl; [destruct (Requeue r)|..]; set_solver. Qed.
Lemma settled_world n r w s : world (settled n r w s) = w.
Proof. by destruct r. Qed.

(** No wake-up is lost: the class that waits is in the queue or a claim that will
    wake the controller still names it. *)
Lemma step_waits n s s' : step s s' → keyed s → nebius_claims n s → waits n s → waits n s'.
Proof.
  destruct 1 as [s new w Hw Hc|s nc w Hf Hc Hw|s old new w Ho Hr Hc Hw|s nc w Ho Hc Hw|s m r w Hq Hr|s m _];
    intros Hk Hnb Hwt class Hcl Ht; simpl in *.
  - destruct (decide (n = nbc_Name new)) as [->|Hne].
    + left. apply elem_of_union_r, elem_of_list_to_set.
      destruct (classes (world s) !! nbc_Name new) as [old|];
        (apply (class_event_wakes _ (ONodeClass new)); simpl; [set_solver|done]).
    + rewrite Hw, lookup_insert_ne in Hcl by done. destruct (Hwt _ Hcl Ht) as [|(k & nc & ?)];
        [left; set_solver|right; exists k, nc; by rewrite Hc].
  - rewrite Hw in Hcl. destruct (Hwt _ Hcl Ht) as [|Hn]; [left; set_solver|right].
    by eapply named_insert; [|left|].
  - rewrite Hw in Hcl. destruct (Hwt _ Hcl Ht) as [|Hn]; [left; set_solver|right].
    eapply named_insert; [done| |done]. right. exists old. split; [done|]. unfold class_name. by rewrite Hr.
  - rewrite Hw in Hcl. destruct (Hwt _ Hcl Ht) as [|(k & nc' & Hk' & Hn)]; [left; set_solver|].
    destruct (decide (k = nc_Name nc)) as [->|Hne].
    + left. apply elem_of_union_r, elem_of_list_to_set, claim_deleted_wakes.
      simplify_eq. rewrite (Hnb _ _ Ho Hn). left.
    + right. exists k, nc'. by rewrite Hc, lookup_delete_ne.
  - rewrite settled_world in *. destruct (decide (n = m)) as [->|Hne].
    + destruct (reconcile_outcome _ _ _ _ Hr Hk) as [(_ & _ & Hno)|[(_ & Hn & _)|(_ & _ & _ & Hno)]].
      * by apply Hno in Hcl.
      * by right.
      * by apply Hno in Hcl as [_ ?].
    + assert (classes w !! n = classes (world s) !! n ∧ claims w = claims (world s)) as [Hc1 Hc2]
        by (destruct (reconcile_outcome _ _ _ _ Hr Hk) as [(_ & -> & _)|[(_ & _ & -> & ->)|(_ & -> & Hm & _)]];
            [done|done|by rewrite Hm]).
      rewrite Hc1 in Hcl. destruct (Hwt _ Hcl Ht) as [|(k & nc & ?)];
        [left; by apply settled_queue|right; exists k, nc; by rewrite Hc2].
  - destruct (Hwt _ Hcl Ht); [left; set_solver|by right].
Qed.


(** A claim of another node class of the same name holds the class back.  The
    claims are listed by the name of their class only, whatever its group and
    kind, and the controller is woken for claims of the Nebius class only: with
    an AKS or Kaito claim that names a class of the name, the class waits for it,
    and nothing wakes the controller when it goes, but the ten minutes' timer. *)
Theorem foreign_claim_unnoticed (n : string) w class nc (gone : W → W) :
  classes w !! n = Some class → nbc_Name class = n → terminating class →
  claims w = {[ nc_Name nc := nc ]} → class_name nc = Some n → claim_requests nc = [] →
  (∀ w1, claims (gone w1) = delete (nc_Name nc) (claims w1) ∧ classes (gone w1) = classes w1) →
  ∃ s, rtc step {| world := w; queue := {[ n ]}; delayed := ∅ |} s ∧
    ¬ named_by_claim n (world s) ∧ classes (world s) !! n = Some class ∧
    queue s = ∅ ∧ delayed s = {[ n ]}.
Proof.
  intros Hc Hn Ht Hcl Hnc Hreq Hgone.
  assert (named_by_claim n w) as Hnb
    by (exists (nc_Name nc), nc; split; [by rewrite Hcl, lookup_singleton_eq|done]).
  destruct (reconcile_waits n class w Hn Ht Hnb) as (w1 & Hr & Hcl1 & Hcs1).
  destruct (Hgone w1) as [Hcl2 Hcs2]. rewrite Hcl1, Hcl, delete_singleton_eq in Hcl2.
  eexists. split; [eapply rtc_l; [|apply rtc_once]|].
  - eapply (reconciled _ n _ w1); [simpl; set_solver|]. unfold reconcile. simpl. by rewrite Hc.
  - apply (claim_removed _ nc (gone w1)); simpl; [by rewrite Hcl1, Hcl, lookup_singleton_eq|apply Hgone|done].
  - simpl. split_and!.
    + intros (k & nc' & Hk & _). by rewrite Hcl2, lookup_empty in Hk.
    + by rewrite Hcs2, Hcs1.
    + apply set_eq. intros x. rewrite elem_of_union, elem_of_list_to_set, claim_deleted_wakes, Hreq. set_solver.
    + set_solver.
Qed.
End queue.

(** ** The hypotheses can hold *)
Module Mem.
(** A runtime that evaluates the sources. *)
Definition watched (e : event) (w : Watch) : list string :=
  if passes (w_Predicates w) e then
    o ← filter (λ o, kind_of o = w_Kind w) (objects_of e);
    match w_Map w o with Ok l => l | _ => [] end
  else [].
Definition added (s : Sources) (e : event) : list string :=
  (name_of <$> filter (λ o, kind_of o = For s) (objects_of e)) ++ (Watches s ≫= watched e).
#[global] Program Instance runtime : Runtime := {| requests := added |}.
Next Obligation.
  intros s e n. unfold added. rewrite elem_of_app, list_elem_of_fmap, list_elem_of_bind.
  f_equiv; [split|split].
  - intros (o & -> & [Hk Ho]%list_elem_of_filter). by exists o.
  - intros (o & Ho & Hk & <-). exists o. split; [done|]. by apply list_elem_of_filter.
  - intros (w & Hn & Hw). unfold watched in Hn. destruct (passes _ _) eqn:Hp; [|set_solver].
    apply list_elem_of_bind in Hn as (o & Hn & Ho). apply list_elem_of_filter in Ho as [Hk Ho].
    destruct (w_Map w o) as [l| |] eqn:Hm; [|set_solver..]. by exists w, o, l.
  - intros (w & o & l & Hw & Ho & Hk & Hp & Hm & Hn). exists w. split; [|done].
    unfold watched. rewrite Hp. apply list_elem_of_bind. exists o. rewrite Hm.
    split; [done|]. by apply list_elem_of_filter.
Qed.

(** A server that keeps node claims and node classes. *)
Record server := { s_claims : gmap string NodeClaim; s_classes : gmap string NebiusNodeClass }.
Definition put (c : NebiusNodeClass) (w : server) : server :=
  {| s_claims := s_claims w;
     s_classes := if bool_decide (nbc_DeletionTimestamp c ≠ None ∧ nbc_Finalizers c = [])
                  then delete (nbc_Name c) (s_classes w) else <[nbc_Name c := c]> (s_classes w) |}.
Definition remove_claim (c : string) (w : server) : server :=
  {| s_claims := delete c (s_claims w); s_classes := s_classes w |}.
Definition patch (obj base : NebiusNodeClass) : M server NebiusNodeClass := λ w,
  let new := set_finalizers (nbc_Finalizers obj) base in (Ok new, put new w).
Definition list_claims (class : string) : M server (list string) := λ w,
  (Ok (elements (dom (filter (λ p, class_name p.2 = Some class) (s_claims w)))), w).
#[global] Instance client : NodeClassClient server := {|
  Patch := patch; Patch_Lock := patch; Status_Patch o _ := mret o;
  List_NodeClaims := list_claims; Publish _ _ := mret ();
|}.
#[global] Program Instance cluster : Cluster server :=
  {| cluster_client := client; claims := s_claims; classes := s_classes |}.
Next Obligation.
  intros class w. eexists. split; [done|]. intros c. rewrite elem_of_elements, elem_of_dom. split.
  - intros [nc Hnc]. apply map_lookup_filter_Some in Hnc as [? ?]. by exists nc.
  - intros (nc & ? & ?). exists nc. by apply map_lookup_filter_Some.
Qed.
Next Obligation. intros. by exists w. Qed.
Next Obligation.
  intros obj base w Hb Hn. eexists _, _. split; [done|]. simpl.
  split; [done|]. split; [|split].
  - intros m Hm. case_bool_decide; by rewrite ?lookup_delete_ne, ?lookup_insert_ne.
  - case_bool_decide; by rewrite ?lookup_delete_eq, ?lookup_insert_eq.
  - intros c. case_bool_decide; rewrite ?lookup_delete_eq, ?lookup_insert_eq; [done|]. by intros [= <-].
Qed.

Definition claim (kind : GroupKind) : NodeClaim :=
  {| nc_Name := "claim-1"; nc_Labels := ∅; nc_CreationTimestamp := 0;
     nc_NodeClassRef := Some {| ref_Group := gk_Group kind; ref_Kind := gk_Kind kind; ref_Name := "default" |};
     nc_Requirements := []; nc_Requests := ∅; nc_ProviderID := ""; nc_Capacity := ∅; nc_Allocatable := ∅ |}.
Definition nebius_claim : NodeClaim := claim {| gk_Group := Group; gk_Kind := "NebiusNodeClass" |}.
Definition aks_claim : NodeClaim := claim {| gk_Group := "karpenter.azure.com"; gk_Kind := "AKSNodeClass" |}.
Definition server_with (nc : NodeClaim) : server :=
  {| s_claims := {[ "claim-1" := nc ]}; s_classes := {[ "default" := Controllers.Mem.deleting ]} |}.
Lemma server_claims nc k nc' : claims (server_with nc) !! k = Some nc' → nc = nc'.
Proof.
  change (({[ "claim-1" := nc ]} : gmap string NodeClaim) !! k = Some nc' → nc = nc').
  intros H. by apply lookup_singleton_Some in H as [_ H].
Qed.
Lemma no_claims nc k nc' : claims (remove_claim "claim-1" (server_with nc)) !! k ≠ Some nc'.
Proof.
  change (delete "claim-1" ({["claim-1" := nc]} : gmap string NodeClaim) !! k ≠ Some nc').
  by rewrite delete_singleton_eq, lookup_empty.
Qed.
Definition start (nc : NodeClaim) : state :=
  {| world := server_with nc; queue := {[ "default" ]}; delayed := ∅ |}.
End Mem.


Lemma foreign_claim_unnoticed_witness :
  ∃ s, rtc step (Mem.start Mem.aks_claim) s ∧ ¬ named_by_claim "default" (world s) ∧
    classes (world s) !! "default" = Some Controllers.Mem.deleting ∧
    queue s = ∅ ∧ delayed s = {[ "default" ]}.
Proof.
  apply (foreign_claim_unnoticed "default" (Mem.server_with Mem.aks_claim) Controllers.Mem.deleting
           Mem.aks_claim (Mem.remove_claim "claim-1")); [done|done| |done|done|done|done].
  split; [done|]. by left.
Defined.
