(* ===== verification/Commands.v ===== *)
(** * The command line

    [cli/main.go] and the commands under [cli/internal]: the tree of cobra
    commands with their flags, defaults and argument checks, and what each leaf
    runs.  Cobra is an interface that states how a command line is carried out;
    the handlers are those of the components that own the commands. *)
From S2P Require Import Prelude GoStr UserData Script ConfigCmd Deploy.
From stdpp Require Import options.

(** ** Commands *)
Inductive flag_value := FBool (b : bool) | FString (s : string).

(** A flag with its default and whether it is hidden from the help. *)
Record Flag := { f_Name : string; f_Default : flag_value; f_Hidden : bool }.
Definition BoolVar (name : string) (value : bool) : Flag :=
  {| f_Name := name; f_Default := FBool value; f_Hidden := false |}.
Definition StringVar (name value : string) : Flag :=
  {| f_Name := name; f_Default := FString value; f_Hidden := false |}.
Definition MarkHidden (f : Flag) : Flag :=
  {| f_Name := f_Name f; f_Default := f_Default f; f_Hidden := true |}.

(** [cobra.PositionalArgs]; a command without a check takes any arguments. *)
Inductive PositionalArgs := ArbitraryArgs | NoArgs | ExactArgs (n : nat) | RangeArgs (lo hi : nat).
Definition accepts (p : PositionalArgs) (n : nat) : bool :=
  match p with
  | ArbitraryArgs => true
  | NoArgs => bool_decide (n = 0%nat)
  | ExactArgs m => bool_decide (n = m)
  | RangeArgs lo hi => bool_decide (lo ≤ n ∧ n ≤ hi)%nat
  end.

(** The values of the flags of a command line: the variables the flags are
    bound to. *)
Definition values : Type := gmap string flag_value.
Definition flag_bool (v : values) (name : string) : bool :=
  match v !! name with Some (FBool b) => b | _ => false end.
Definition flag_string (v : values) (name : string) : string :=
  match v !! name with Some (FString s) => s | _ => "" end.

(** A command: its use line, argument check, flags, the check that runs before it
    and its subcommands, what it runs, and its subcommands. *)
Inductive Command (W : Type) :=
  Cmd (Use : string) (Args : PositionalArgs) (Flags : list Flag)
      (PersistentPreRunE : option (values → M W ()))
      (RunE : option (values → list string → M W ()))
      (commands : list (Command W)).
#[global] Arguments Cmd {W} Use Args Flags PersistentPreRunE RunE commands.

Section command.
Context {W : Type}.
Definition Use (c : Command W) : string := let 'Cmd u _ _ _ _ _ := c in u.
Definition Args (c : Command W) : PositionalArgs := let 'Cmd _ a _ _ _ _ := c in a.
Definition flags (c : Command W) : list Flag := let 'Cmd _ _ f _ _ _ := c in f.
Definition pre_run (c : Command W) : option (values → M W ()) := let 'Cmd _ _ _ p _ _ := c in p.
Definition run_e (c : Command W) : option (values → list string → M W ()) := let 'Cmd _ _ _ _ r _ := c in r.
Definition commands (c : Command W) : list (Command W) := let 'Cmd _ _ _ _ _ s := c in s.

(** The name of a command: the first word of its use line. *)
Definition Name (c : Command W) : string :=
  match cut_char " "%char (Use c) with Some (n, _) => n | None => Use c end.

(** The command at a path and the pre-run check nearest to it. *)
Fixpoint descend (path : list string) (c : Command W) (pre : option (values → M W ())) :
    option (Command W * option (values → M W ())) :=
  let pre := match pre_run c with Some p => Some p | None => pre end in
  match path with
  | [] => Some (c, pre)
  | name :: path =>
      match list_find (λ d, Name d = name) (commands c) with
      | Some (_, d) => descend path d pre
      | None => None
      end
  end.
End command.

(** The word that sets a flag, and the flags of a command with some set. *)
Definition flag_word (f : string * flag_value) : string :=
  "--" +:+ f.1 +:+ "=" +:+ match f.2 with FBool true => "true" | FBool false => "false" | FString s => s end.
Definition defaults (l : list Flag) : values := list_to_map ((λ f, (f_Name f, f_Default f)) <$> l).
Definition set_flags (l : list Flag) (fs : list (string * flag_value)) : values :=
  foldl (λ v f, <[f.1 := f.2]> v) (defaults l) fs.
Definition same_type (a b : flag_value) : bool :=
  match a, b with FBool _, FBool _ => true | FString _, FString _ => true | _, _ => false end.
Definition Lookup (l : list Flag) (name : string) : option Flag := List.find (λ d, bool_decide (f_Name d = name)) l.
Definition declared (l : list Flag) (f : string * flag_value) : bool :=
  no_char "=" f.1 && match Lookup l f.1 with Some d => same_type (f_Default d) f.2 | None => false end.
Definition plain (arg : string) : bool := negb (String.prefix "-" arg).

(** Cobra: a command line of the words of a path to a leaf, flags the leaf declares
    and plain arguments is an error that touches nothing when the arguments are not
    accepted, and otherwise the nearest pre-run check, then the leaf. *)
Class Cobra (W : Type) := {
  Execute : Command W → list string → M W ();
  execute_leaf root path c pre run fs args w :
    descend path root None = Some (c, pre) → commands c = [] → run_e c = Some run →
    forallb (declared (flags c)) fs = true → forallb plain args = true →
    if accepts (Args c) (length args) then
      let v := set_flags (flags c) fs in
      Execute root (path ++ (flag_word <$> fs) ++ args) w =
        (_ ← match pre with Some p => p v | None => mret () end; run v args) w
    else ∃ e, Execute root (path ++ (flag_word <$> fs) ++ args) w = (Err e, w);
}.

(** ** Routers as commands *)
Section router.
Context {W : Type}.

(** The router of [config]'s subcommands once its command exists: [Handle] keeps the
    help text and the valid arguments of the command up to date. *)
Record CommandRouter := {
  cr_use : string;
  cr_short : string;
  cr_router : Router W;
  cr_cmd : option (string * list string);  (* the long help and the valid arguments *)
}.
Definition clouds_help (short : string) (clouds : list string) : string :=
  short +:+ nl +:+ nl +:+ "Supported remote clouds: " +:+ Join clouds ", ".
Definition NewCommandRouter (use short : string) : CommandRouter :=
  {| cr_use := use +:+ " <remote-cloud>"; cr_short := short; cr_router := NewRouter; cr_cmd := None |}.
Definition CommandRouter_Handle (cloud : string) (h : Handler (W := W)) (r : CommandRouter) : res CommandRouter :=
  match Handle cloud h (cr_router r) with
  | Ok rt =>
      Ok {| cr_use := cr_use r; cr_short := cr_short r; cr_router := rt;
            cr_cmd := match cr_cmd r with
                      | Some _ => Some (clouds_help (cr_short r) (rt_clouds rt), rt_clouds rt)
                      | None => None
                      end |}
  | Err e => Err e
  | Panic p => Panic p
  end.
Definition CommandRouter_Command (r : CommandRouter) : CommandRouter :=
  {| cr_use := cr_use r; cr_short := cr_short r; cr_router := cr_router r;
     cr_cmd := Some (clouds_help (cr_short r) (rt_clouds (cr_router r)), rt_clouds (cr_router r)) |}.

(** The command's text agrees with its routes. *)
Definition in_sync (r : CommandRouter) : Prop :=
  ∀ long valid, cr_cmd r = Some (long, valid) →
    valid = rt_clouds (cr_router r) ∧ long = clouds_help (cr_short r) (rt_clouds (cr_router r)).

Lemma router_in_sync use short :
  in_sync (NewCommandRouter use short) ∧
  (∀ r, in_sync (CommandRouter_Command r)) ∧
  ∀ cloud h r r', in_sync r → CommandRouter_Handle cloud h r = Ok r' → in_sync r'.
Proof.
  split_and!; [done|by intros r long valid [= <- <-]|].
  intros cloud h r r' Hr H. unfold CommandRouter_Handle in H.
  destruct (Handle cloud h (cr_router r)) as [rt| |]; [|done..]. injection H as <-.
  intros long valid. simpl. destruct (cr_cmd r); [|done]. by intros [= <- <-].
Qed.
End router.

(** ** The tree *)

(** What the commands call of the other components. *)
Record Handlers (W : Type) := {
  deploy_run : Deploy.Flags → M W ();                          (* [Deploy.run] *)
  gateway_run : bool → M W ();                                 (* [Deploy.network_run] *)
  env_document : bool → string;                                (* [ConfigCmd.env_run] *)
  agentpools_routes_ : Router W;                               (* [ConfigCmd.agentpools_router] *)
  networks_routes_ : Router W;                                 (* [ConfigCmd.networks_router] *)
  ubuntu_userdata : string → M W ();                           (* [ConfigCmd.writeUbuntuUserData] *)
  flex_userdata : string → bool → string → string → M W ();    (* [ConfigCmd.writeFlexUserData] *)
  bootstrap_config : M W string;                               (* [Kubeadm.writeConfig] *)
  run_helm : string → string → string → string → bool → M W (); (* [KarpenterValues.runHelm] *)
  plugin_setup : M W ();                                       (* [PluginCmd.plugin_PersistentPreRunE] *)
  plugin_get : string → option string → M W ();                (* [PluginCmd.get_] *)
  plugin_apply : string → M W ();                              (* [PluginCmd.apply_] *)
  plugin_delete : string → string → M W ();                    (* [PluginCmd.delete_] *)
  Fprint : string → M W ();                                    (* the standard output *)
  Exit : Z → M W ();                                           (* [os.Exit] *)
}.
#[global] Arguments deploy_run {W} h f.
#[global] Arguments gateway_run {W} h g.
#[global] Arguments env_document {W} h b.
#[global] Arguments agentpools_routes_ {W} h.
#[global] Arguments networks_routes_ {W} h.
#[global] Arguments ubuntu_userdata {W} h variant.
#[global] Arguments flex_userdata {W} h variant gpu arch version.
#[global] Arguments bootstrap_config {W} h.
#[global] Arguments run_helm {W} h image keyFile output credentials load.
#[global] Arguments plugin_setup {W} h.
#[global] Arguments plugin_get {W} h kind id.
#[global] Arguments plugin_apply {W} h kind.
#[global] Arguments plugin_delete {W} h kind name.
#[global] Arguments Fprint {W} h s.
#[global] Arguments Exit {W} h code.

Section tree.
Context {W : Type} (h : Handlers W).
(** [version], [commit] and [date], set when the binary is built. *)
Context (version commit date : string).

(** A command that only holds others. *)
Definition Group_ (use : string) (cs : list (Command W)) : Command W := Cmd use ArbitraryArgs [] None None cs.
Definition leaf (use : string) (args : PositionalArgs) (fs : list Flag) (run : values → list string → M W ()) : Command W :=
  Cmd use args fs None (Some run) [].

(** [args[i]]. *)
Definition arg (args : list string) (i : nat) : M W string :=
  match args !! i with Some a => mret a | None => panic "index out of range" end.

(** [aks deploy]. *)
Definition aks_deploy_flags : list Flag :=
  [BoolVar "cilium" false; BoolVar "wireguard" false; BoolVar "unbounded-cni" false;
   BoolVar "gpu-operator" false; BoolVar "nvidia-device-plugin" false; BoolVar "nvidia-dra-driver" false;
   MarkHidden (BoolVar "skip-arm" false); StringVar "kubeconfig" ""].
Definition Flags_of (v : values) : Deploy.Flags :=
  {| deploycilium := flag_bool v "cilium"; deployWireguard := flag_bool v "wireguard";
     unboundedCNI := flag_bool v "unbounded-cni"; deployGPUOperator := flag_bool v "gpu-operator";
     deployGPUDevicePlugin := flag_bool v "nvidia-device-plugin";
     deployDRADriver := flag_bool v "nvidia-dra-driver"; skipARM := flag_bool v "skip-arm";
     kubeconfigToSave := flag_string v "kubeconfig" |}.
Definition aks_deploy_Command : Command W :=
  Cmd "deploy" ArbitraryArgs aks_deploy_flags
    (Some (λ v, lift (PersistentPreRunE (Flags_of v)))) (Some (λ v _, deploy_run h (Flags_of v))) [].
Definition aks_Command : Command W := Group_ "aks" [aks_deploy_Command].

(** [network deploy]. *)
Definition network_deploy_Command : Command W :=
  leaf "deploy" ArbitraryArgs [BoolVar "gateway" false] (λ v _, gateway_run h (flag_bool v "gateway")).
Definition network_Command : Command W := Group_ "network" [network_deploy_Command].

(** [config]. *)
Definition env_Command : Command W :=
  leaf "env" ArbitraryArgs [BoolVar "nebius" false]
    (λ v _, Fprint h (env_document h (flag_bool v "nebius"))).
Definition router_Command (use : string) (r : values → Router W) (fs : list Flag) : Command W :=
  leaf (use +:+ " <remote-cloud>") (ExactArgs 1) fs (λ v args, a ← arg args 0; Router_RunE (r v) a).
Definition node_bootstrap_routes (v : values) : Router W :=
  let variant := flag_string v "variant" in
  let r := match Handle "ubuntu" (ubuntu_userdata h variant) NewRouter with Ok r => r | _ => NewRouter end in
  match Handle "flex" (flex_userdata h variant (flag_bool v "nvidia-gpu") (flag_string v "arch")
                         (flag_string v "k8s-version")) r with
  | Ok r => r
  | _ => r
  end.
Definition node_bootstrap_flags : list Flag :=
  [BoolVar "nvidia-gpu" false; StringVar "arch" "amd64"; StringVar "k8s-version" flex.DefaultKubeVer;
   StringVar "variant" variantCloudInit].
Definition k8s_bootstrap_Command : Command W :=
  leaf "k8s-bootstrap" NoArgs [] (λ _ _, data ← bootstrap_config h; Fprint h data).
Definition helm_Command : Command W :=
  leaf "helm" NoArgs
    [StringVar "image" ""; BoolVar "load-ssh-key" false; StringVar "ssh-public-key-file" "";
     StringVar "output" "karpenter_values.yaml"; StringVar "nebius-credentials-file" ""]
    (λ v _, run_helm h (flag_string v "image") (flag_string v "ssh-public-key-file") (flag_string v "output")
              (flag_string v "nebius-credentials-file") (flag_bool v "load-ssh-key")).
Definition site_Command : Command W :=
  leaf "site" NoArgs
    [StringVar "name" "site-remote"; StringVar "node-cidr" "172.20.0.0/16"; StringVar "pod-cidr" "10.200.0.0/16"]
    (λ v _, Fprint h (renderSite (flag_string v "name") (flag_string v "node-cidr") (flag_string v "pod-cidr"))).
Definition config_Command : Command W :=
  Group_ "config"
    [env_Command;
     router_Command "networks" (λ _, networks_routes_ h) [];
     router_Command "agentpools" (λ _, agentpools_routes_ h) [];
     k8s_bootstrap_Command;
     router_Command "node-bootstrap" node_bootstrap_routes node_bootstrap_flags;
     Group_ "karpenter" [helm_Command];
     Group_ "unbounded-cni" [site_Command]].

(** [plugin]. *)
Definition get_Command : Command W :=
  leaf "get" (RangeArgs 1 2) [] (λ _ args, k ← arg args 0; plugin_get h k (args !! 1%nat)).
Definition apply_Command : Command W :=
  leaf "apply" (ExactArgs 1) [] (λ _ args, k ← arg args 0; plugin_apply h k).
Definition delete_Command : Command W :=
  leaf "delete" (ExactArgs 2) [] (λ _ args, k ← arg args 0; n ← arg args 1; plugin_delete h k n).
Definition plugin_Command : Command W :=
  Cmd "plugin" ArbitraryArgs [] (Some (λ _, plugin_setup h)) None [get_Command; apply_Command; delete_Command].

(** [version], and the root. *)
Definition version_line : string :=
  "aks-flex-cli " +:+ version +:+ " (commit: " +:+ commit +:+ ", built: " +:+ date +:+ ")" +:+ nl.
Definition version_Command : Command W := leaf "version" ArbitraryArgs [] (λ _ _, Fprint h version_line).
Definition command : Command W :=
  Group_ "aks-flex-cli" [aks_Command; config_Command; network_Command; plugin_Command; version_Command].

(** [main]: a command line that fails exits with status 1. *)
Definition main `{Cobra W} (argv : list string) : M W () :=
  r ← attempt (Execute command argv);
  match r with
  | inl _ => Exit h 1
  | inr _ => mret ()
  end.
End tree.

(** ** What a command line does *)
Section runs.
Context {W : Type} (h : Handlers W) `{CO : Cobra W} (version commit date : string).
#[local] Set Default Proof Using "Type*".
#[local] Notation run := (main h version commit date).
#[local] Notation root := (command h version commit date).

(** A handler as the program: its error is the exit status. *)
Definition exits (c : M W ()) : M W () :=
  r ← attempt c;
  match r with
  | inl _ => Exit h 1
  | inr _ => mret ()
  end.

Lemma exits_ext (c d : M W ()) w : c w = d w → exits c w = exits d w.
Proof. intros H. unfold exits, mbind, M_bind, attempt. by rewrite H. Qed.

Lemma run_leaf path c pre r fs args w :
  descend path root None = Some (c, pre) → commands c = [] → run_e c = Some r →
  forallb (declared (flags c)) fs = true → forallb plain args = true →
  run (path ++ (flag_word <$> fs) ++ args) w =
    if accepts (Args c) (length args) then
      exits (_ ← match pre with Some p => p (set_flags (flags c) fs) | None => mret () end;
             r (set_flags (flags c) fs) args) w
    else Exit h 1 w.
Proof.
  intros Hd Hs Hr Hf Ha. pose proof (execute_leaf root path c pre r fs args w Hd Hs Hr Hf Ha) as He.
  destruct (accepts _ _).
  - by apply exits_ext.
  - destruct He as [e He]. unfold main, mbind, M_bind, attempt. by rewrite He.
Qed.

Lemma run_argv path c pre r fs args argv w :
  descend path root None = Some (c, pre) → commands c = [] → run_e c = Some r →
  argv = path ++ (flag_word <$> fs) ++ args →
  forallb (declared (flags c)) fs = true → forallb plain args = true →
  run argv w =
    if accepts (Args c) (length args) then
      exits (_ ← match pre with Some p => p (set_flags (flags c) fs) | None => mret () end;
             r (set_flags (flags c) fs) args) w
    else Exit h 1 w.
Proof. intros ? ? ? ->. by apply run_leaf. Qed.

#[local] Notation no_flags := (@nil (string * flag_value)).
#[local] Notation no_args := (@nil string).

(** A command line by its path, flags and arguments. *)
#[local] Tactic Notation "line" constr(path) constr(fs) constr(args) :=
  etransitivity; [eapply (run_argv path _ _ _ fs args); [reflexivity..| | |]|].

End runs.

(** ** The hypotheses can hold *)

(** A reader of command lines: the subcommands as long as the words name them, then
    the flags of the leaf among its arguments. *)
Module Mem.
Section reader.
Context {W : Type}.

Definition parse_value (d : flag_value) (s : string) : option flag_value :=
  match d with
  | FString _ => Some (FString s)
  | FBool _ => if bool_decide (s = "true") then Some (FBool true)
               else if bool_decide (s = "false") then Some (FBool false) else None
  end.
Definition parse_flag (l : list Flag) (word : string) : option (string * flag_value) :=
  '(name, v) ← cut_char "=" (TrimPrefix word "--");
  d ← Lookup l name;
  fv ← parse_value (f_Default d) v;
  Some (name, fv).
Fixpoint parse (l : list Flag) (words : list string) : option (list (string * flag_value) * list string) :=
  match words with
  | [] => Some ([], [])
  | word :: words =>
      '(fs, args) ← parse l words;
      if plain word then Some (fs, word :: args)
      else f ← parse_flag l word; Some (f :: fs, args)
  end.
Definition run_words (c : Command W) (pre : option (values → M W ())) (words : list string) : M W () :=
  match parse (flags c) words, run_e c with
  | Some (fs, args), Some r =>
      if accepts (Args c) (length args) then
        let v := set_flags (flags c) fs in
        _ ← match pre with Some p => p v | None => mret () end; r v args
      else fail (Errorf "accepts %d arg(s), received %d" [] [])
  | _, _ => fail (Errorf "unknown command or flag" [] [])
  end.
Fixpoint execute (words : list string) (c : Command W) (pre : option (values → M W ())) : M W () :=
  let pre := match pre_run c with Some p => Some p | None => pre end in
  match words with
  | name :: rest =>
      match list_find (λ d, Name d = name) (commands c) with
      | Some (_, d) => execute rest d pre
      | None => run_words c pre words
      end
  | [] => run_words c pre words
  end.

Lemma parse_flag_word l f : declared l f = true → plain (flag_word f) = false ∧ parse_flag l (flag_word f) = Some f.
Proof.
  destruct f as [name v]. unfold declared. simpl. intros [Hn Hd]%andb_prop.
  split; [done|]. unfold parse_flag, flag_word. cbn [fst snd].
  rewrite TrimPrefix_app. set (t := match v with FBool true => _ | FBool false => _ | FString s => s end).
  assert (cut_char "=" (name +:+ "=" +:+ t) = Some (name, t)) as -> by (by apply cut_char_Some). simpl.
  destruct (Lookup l name) as [d|]; [|done]. simpl.
  destruct (f_Default d), v as [[]|]; done.
Qed.

Lemma parse_words l fs args :
  forallb (declared l) fs = true → forallb plain args = true →
  parse l ((flag_word <$> fs) ++ args) = Some (fs, args).
Proof.
  intros Hf Ha. induction fs as [|f fs IH].
  - simpl. clear Hf. induction args as [|a args IH]; [done|]. simpl in *. apply andb_prop in Ha as [-> Ha].
    by rewrite IH.
  - simpl in Hf. apply andb_prop in Hf as [Hf1 Hf]. destruct (parse_flag_word l f Hf1) as [Hp Hq].
    rewrite fmap_cons, <-app_comm_cons. cbn [parse]. rewrite IH by done.
    cbn [mbind option_bind]. by rewrite Hp, Hq.
Qed.

Lemma execute_path path c d pre0 pre words w :
  descend path c pre0 = Some (d, pre) → commands d = [] →
  execute (path ++ words) c pre0 w = run_words d pre words w.
Proof.
  revert c pre0. induction path as [|name path IH]; intros c pre0; simpl.
  - intros [= -> <-] Hs. destruct words as [|x words]; simpl; [done|]. by rewrite Hs.
  - intros H Hs. destruct (list_find _ _) as [[i x]|]; [|done]. by apply IH.
Qed.

#[global] Program Instance cobra : Cobra W := {| Execute c words := execute words c None |}.
Next Obligation.
  intros root path c pre r fs args w Hd Hs Hr Hf Ha.
  pose proof (execute_path path root c None pre ((flag_word <$> fs) ++ args) w Hd Hs) as He.
  unfold run_words in He. rewrite (parse_words _ _ _ Hf Ha), Hr in He.
  destruct (accepts _ _); [exact He|eexists; exact He].
Qed.
End reader.

(** Handlers that tell what they are called with. *)
Definition say (l : list string) : M (list string) () := modify (λ w, w ++ l).
Definition handlers : Handlers (list string) := {|
  deploy_run f := say ["deploy"; kubeconfigToSave f];
  gateway_run g := say ["gateway"];
  env_document nebius := if nebius then "nebius" else "azure";
  agentpools_routes_ := NewRouter; networks_routes_ := NewRouter;
  ubuntu_userdata variant := say ["ubuntu"; variant];
  flex_userdata variant gpu arch v := say ["flex"; arch; v];
  bootstrap_config := mret "bootstrap";
  run_helm image key output credentials load := say ["helm"; output];
  plugin_setup := say ["setup"];
  plugin_get kind id := say ["get"; kind; default "" id];
  plugin_apply kind := say ["apply"; kind];
  plugin_delete kind name := say ["delete"; kind; name];
  Fprint s := say [s];
  Exit code := say ["exit"];
|}.
Definition tool (argv : list string) : M (list string) () := main handlers "v1" "abc" "today" argv.
End Mem.

