(* ===== verification/Faults.v ===== *)
(** * Writes that fail

    [plugin/pkg/db]: what a database is left with when a write of its store fails
    part of the way.  The file store truncates the file before it writes, so a
    failed write loses every object.  The Secret store replaces its chunks one
    call after the other: with one chunk a write is atomic whatever calls fail,
    with more it can leave old and new chunks together. *)
From S2P Require Import Prelude GoStr GoURL Karp Store Helper DB.
From stdpp Require Import options.
#[local] Open Scope nat_scope.

(** ** The file store *)
Section file.
Context {Msg : Type} `{PR : ProtoRuntime Msg} `{OB : Object Msg} {PL : ProtoLaws Msg}.
Notation file := File.file.

(** A closed file with bytes and system calls to come. *)
Definition file_with (b : list Z) (fs : list (option error)) : file :=
  {| File.data := b; File.offset := 0; File.locked := false; File.faults := fs |}.
Definition succeeds (n : nat) : list (option error) := replicate n None.

(** A read makes four system calls: lock, seek, read, unlock. *)
Lemma read_then b fs : ∃ n,
  File.Read (file_with b (succeeds 4 ++ fs)) =
  (Ok b, {| File.data := b; File.offset := n; File.locked := false; File.faults := fs |}).
Proof using Type. by eexists. Qed.

(** A write whose fourth system call fails, after lock, truncate and seek. *)
Lemma write_fails b b' n e :
  File.Write b' {| File.data := b; File.offset := n; File.locked := false;
                   File.faults := succeeds 3 ++ [Some e] |} = (Err e, file_with [] []).
Proof using Type. done. Qed.

Lemma list_read {W} (store : Store W) (w w' : W) b (objs : list Msg) :
  store_Read store w = (Ok b, w') → encodes objs b → list_ store w = (Ok objs, w').
Proof using Type.
  intros Hr (items & Hu & Hf). unfold list_. unfold mbind, M_bind, must at 1. rewrite Hr.
  rewrite (must_lift_Ok _ _ _ _ Hu). apply traverse_must.
  eapply Forall2_impl; [exact Hf|]. intros item obj [Hi Ho]. unfold AnyTo. rewrite Hi.
  unfold mbind, res_bind, To, as_object. by rewrite Ho.
Qed.

Lemma list_read_fails {W} (store : Store W) (w w' : W) e :
  store_Read store w = (Err e, w') → ∃ p, list_ (Msg := Msg) store w = (Panic p, w').
Proof using Type. intros Hr. eexists. unfold list_, mbind, M_bind, must. by rewrite Hr. Qed.

Lemma write_write_fails {W} (store : Store W) (w w' : W) e (objs : list Msg) items b :
  Forall2 (λ obj item, any_New obj = Ok item) objs items → Marshal_items items = Ok b →
  store_Write store b w = (Err e, w') → ∃ p, write store objs w = (Panic p, w').
Proof using Type.
  intros Hi Hm Hw. eexists. unfold write.
  rewrite (M_bind_Ok _ _ _ _ _ (traverse_must any_New objs items w Hi)).
  rewrite (M_bind_Ok _ _ _ _ _ (must_lift_Ok Marshal_items items b w Hm)).
  unfold must. by rewrite Hw.
Qed.

Lemma empty_holds : db_holds File.store (file_with [] []) (@nil Msg).
Proof using PL.
  split; [by constructor|]. exists []. split; [done|]. exists []. split; [apply items_empty|constructor].
Qed.

End file.

(** ** The Secret store *)

(** A call of the API that fails: it was not carried out, or it was and the answer
    was lost. *)
Inductive fault := Dropped (e : error) | Unanswered (e : error).
Definition fault_error (f : fault) : error := match f with Dropped e | Unanswered e => e end.

Section inject.
Context {W : Type}.
Definition faults : Type := list (option fault).

Definition inject {A} (c : M W A) : M (W * faults) A := λ '(w, fs),
  match fs with
  | Some (Dropped e) :: fs => (Err e, (w, fs))
  | Some (Unanswered e) :: fs => (Err e, ((c w).2, fs))
  | None :: fs => ((c w).1, ((c w).2, fs))
  | [] => ((c w).1, ((c w).2, []))
  end.

(** The API with the faults of the calls to come. *)
Definition faulty (api : Secrets.SecretsAPI W) : Secrets.SecretsAPI (W * faults) := {|
  Secrets.api_Get n := inject (Secrets.api_Get api n);
  Secrets.api_Create s := inject (Secrets.api_Create api s);
  Secrets.api_Update s := inject (Secrets.api_Update api s);
  Secrets.api_Delete n := inject (Secrets.api_Delete api n);
  Secrets.api_List sel := inject (Secrets.api_List api sel);
|}.

(** The faults are not answers of the server that there is no such Secret. *)
Definition genuine (fs : faults) : Prop :=
  Forall (λ f, match f with Some f => k8s_IsNotFound (fault_error f) = false | None => True end) fs.

(** What a call with a fault does: it fails without an effect, or fails with its
    effect, or is the call. *)
Lemma inject_cases {A} (c : M W A) w fs : genuine fs →
  ∃ fs', genuine fs' ∧
  ((∃ e, k8s_IsNotFound e = false ∧ (inject c (w, fs) = (Err e, (w, fs')) ∨
                                     inject c (w, fs) = (Err e, ((c w).2, fs')))) ∨
   inject c (w, fs) = ((c w).1, ((c w).2, fs'))).
Proof.
  intros Hg. destruct fs as [|[[e|e]|] fs].
  - exists []. split; [done|]. by right.
  - apply Forall_cons in Hg as [He Hg]. exists fs. split; [done|]. left. exists e. split; [done|]. by left.
  - apply Forall_cons in Hg as [He Hg]. exists fs. split; [done|]. left. exists e. split; [done|]. by right.
  - apply Forall_cons in Hg as [_ Hg]. exists fs. split; [done|]. by right.
Qed.
End inject.

Section secrets.
Context {W : Type} (api : Secrets.SecretsAPI W) {laws : Secrets.SecretsLaws api} (namePrefix : string).
Context (Hprefix : str_forall name_char namePrefix = true).
Context (compress decompress : list Z → res (list Z)).
#[local] Set Default Proof Using "Type*".
Notation secrets := Secrets.secrets.
Notation name := (Secrets.chunkName namePrefix).
Notation chunk_secret := (Secrets.chunk_secret namePrefix).
Notation has_chunks := (Secrets.has_chunks api namePrefix).

(** A call that would succeed: it fails without its effect, or it has its effect,
    whatever it answers. *)
Lemma inject_effect fmt args (c : M W ()) w w1 fs : genuine fs → c w = (Ok (), w1) →
  ∃ r w' fs', wrapf fmt args (inject c) (w, fs) = (r, (w', fs')) ∧ genuine fs' ∧
    ((is_Err r = true ∧ w' = w) ∨ ((is_Err r = true ∨ r = Ok ()) ∧ w' = w1)).
Proof using Type.
  intros Hg Hc. destruct (inject_cases c w fs Hg) as (fs' & Hg' & [(e & _ & [H|H])|H]);
    unfold wrapf; rewrite H, ?Hc; eexists _, _, fs'; (split; [reflexivity|]); (split; [done|]).
  - by left.
  - right. split; [by left|done].
  - right. split; [by right|done].
Qed.

Lemma write_chunk_faulty i d w fs : genuine fs →
  ∃ r w' fs', Secrets.write_chunk (faulty api) namePrefix i d (w, fs) = (r, (w', fs')) ∧ genuine fs' ∧
    ((is_Err r = true ∧ secrets w' = secrets w) ∨
     ((is_Err r = true ∨ r = Ok ()) ∧ secrets w' = <[name i := chunk_secret i d]> (secrets w))).
Proof using Type.
  intros Hg. unfold Secrets.write_chunk. cbn [Secrets.api_Get faulty].
  assert ((Secrets.api_Get api (name i) w).2 = w) as Hw.
  { destruct (secrets w !! name i) as [s|] eqn:E; [by rewrite (Secrets.get_found _ _ _ E)|].
    by destruct (Secrets.get_missing _ _ E) as [m ->]. }
  destruct (inject_cases (Secrets.api_Get api (name i)) w fs Hg) as (fs1 & Hg1 & [(e & He & H)|H]).
  - exists (Err (Errorf "getting secret %s: %w" [name i] [e])), w, fs1. split; [|split; [done|by left]].
    rewrite Hw in H. assert (inject (Secrets.api_Get api (name i)) (w, fs) = (Err e, (w, fs1))) as H1
      by (by destruct H). rewrite (attempt_Err _ _ _ _ _ H1). by rewrite He.
  - rewrite Hw in H. destruct (secrets w !! name i) as [s|] eqn:E.
    + rewrite (Secrets.get_found _ _ _ E) in H. rewrite (attempt_Ok _ _ _ _ _ H).
      pose proof (Secrets.secrets_named _ _ _ E) as Hname.
      destruct (Secrets.update_found w {| Secrets.s_Name := Secrets.s_Name s;
        Secrets.s_Labels := Secrets.chunkLabels namePrefix;
        Secrets.s_Data := {[ Secrets.secretDataKey := d ]} |}) as (w1 & Hu & Hs1); [simpl; by rewrite Hname, E|].
      destruct (inject_effect "updating secret %s: %w" [name i] _ w w1 fs1 Hg1 Hu)
        as (r & w' & fs' & Hr & Hg' & Hcase). exists r, w', fs'. split; [exact Hr|]. split; [done|].
      simpl in Hs1. rewrite Hname in Hs1. destruct Hcase as [[? ->]|[? ->]]; [by left|right; by split].
    + destruct (Secrets.get_missing _ _ E) as [m Hm]. rewrite Hm in H. rewrite (attempt_Err _ _ _ _ _ H).
      unfold k8s_IsNotFound. simpl.
      destruct (Secrets.create_new w (chunk_secret i d) E) as (w1 & Hc & Hs1).
      destruct (inject_effect "creating secret %s: %w" [name i] _ w w1 fs1 Hg1 Hc)
        as (r & w' & fs' & Hr & Hg' & Hcase). exists r, w', fs'. split; [exact Hr|]. split; [done|].
      destruct Hcase as [[? ->]|[? ->]]; [by left|right; by split].
Qed.

(** Deleting stale chunks when there are none. *)
Lemma delete_none_faulty fuel i w fs : genuine fs → 0 < fuel → secrets w !! name i = None →
  ∃ r fs', Secrets.deleteChunksFrom (faulty api) namePrefix fuel i (w, fs) = (r, (w, fs')) ∧
    (is_Err r = true ∨ r = Ok ()).
Proof using Type.
  intros Hg Hf E. destruct fuel as [|fuel]; [lia|]. cbn [Secrets.deleteChunksFrom Secrets.api_Delete faulty].
  destruct (Secrets.delete_missing _ _ E) as [m Hm].
  destruct (inject_cases (Secrets.api_Delete api (name i)) w fs Hg) as (fs1 & _ & [(e & He & H)|H]);
    rewrite Hm in H.
  - assert (inject (Secrets.api_Delete api (name i)) (w, fs) = (Err e, (w, fs1))) as H1 by (by destruct H).
    eexists _, fs1. rewrite (attempt_Err _ _ _ _ _ H1), He. split; [done|by left].
  - eexists _, fs1. rewrite (attempt_Err _ _ _ _ _ H). unfold k8s_IsNotFound. simpl. split; [done|by right].
Qed.

(** The first chunk put in place of at most one. *)
Lemma has_one_chunk w w' cs0 d :
  has_chunks w cs0 → length cs0 ≤ 1 → secrets w' = <[name 0 := chunk_secret 0 d]> (secrets w) →
  has_chunks w' [d].
Proof.
  intros [Hc Hn Ho] Hl Hs. split; [simpl; lia| |].
  - intros i Hi. rewrite Hs. destruct i as [|i]; [by rewrite lookup_insert_eq|].
    rewrite lookup_insert_ne by (intros H%Secrets.chunkName_inj; lia).
    rewrite Hn by done. by rewrite (lookup_ge_None_2 cs0) by lia.
  - intros n s. rewrite Hs, lookup_insert_Some. intros [[<- _]|[_ H]] Hsel; [exists 0; split; [simpl; lia|done]|].
    destruct (Ho n s H Hsel) as (i & Hi & ->). exists i. split; [simpl; lia|done].
Qed.

Lemma has_chunks_eq w w' cs : secrets w' = secrets w → has_chunks w cs → has_chunks w' cs.
Proof. intros Hs [Hc Hn Ho]. split; [done|by intros; rewrite Hs; apply Hn|intros n s; rewrite Hs; apply Ho]. Qed.

Lemma read_old w w' cs b :
  has_chunks w cs → has_chunks w' cs → Secrets.Read api namePrefix decompress w = (Ok b, w) →
  Secrets.Read api namePrefix decompress w' = (Ok b, w').
Proof.
  intros H H'. rewrite (Secrets.Read_chunks api namePrefix decompress Hprefix _ _ H),
    (Secrets.Read_chunks api namePrefix decompress Hprefix _ _ H'). by intros [= ->].
Qed.

Lemma one_chunk (c : list Z) size : 0 < size → length c ≤ size → Secrets.chunk c size = [c].
Proof using Type.
  intros Hs Hl. destruct c as [|x c]; [done|]. cbn [Secrets.chunk length Secrets.chunk_loop].
  rewrite Nat.min_l by exact Hl. change (S (length c)) with (length (x :: c)).
  rewrite firstn_all, drop_all. by destruct (length c).
Qed.

Lemma read_new w c b : has_chunks w [c] → decompress c = Ok b →
  Secrets.Read api namePrefix decompress w = (Ok b, w).
Proof.
  intros H Hd. rewrite (Secrets.Read_chunks api namePrefix decompress Hprefix _ _ H). simpl.
  by rewrite app_nil_r, Hd.
Qed.


Lemma write_chunk_clean i d w fs :
  ∃ w', Secrets.write_chunk (faulty api) namePrefix i d (w, None :: None :: fs) = (Ok (), (w', fs)) ∧
        secrets w' = <[name i := chunk_secret i d]> (secrets w).
Proof using Type.
  destruct (secrets w !! name i) as [s|] eqn:E.
  - pose proof (Secrets.secrets_named _ _ _ E) as Hname.
    destruct (Secrets.update_found w {| Secrets.s_Name := Secrets.s_Name s;
      Secrets.s_Labels := Secrets.chunkLabels namePrefix;
      Secrets.s_Data := {[ Secrets.secretDataKey := d ]} |}) as (w1 & Hu & Hs1); [simpl; by rewrite Hname, E|].
    exists w1. simpl in Hs1. rewrite Hname in Hs1. split; [|done]. unfold Secrets.write_chunk.
    rewrite (attempt_Ok _ _ (w, None :: None :: fs) s (w, None :: fs))
      by (cbn; by rewrite (Secrets.get_found _ _ _ E)).
    apply wrapf_Ok. transitivity ((Ok (), w1).1, ((Ok (), w1).2, fs)); [rewrite <-Hu|]; done.
  - destruct (Secrets.get_missing _ _ E) as [m Hm].
    destruct (Secrets.create_new w (chunk_secret i d) E) as (w1 & Hc & Hs1).
    exists w1. split; [|done]. unfold Secrets.write_chunk.
    rewrite (attempt_Err _ _ (w, None :: None :: fs) (ErrK8sNotFound m) (w, None :: fs)) by (cbn; by rewrite Hm).
    unfold k8s_IsNotFound. simpl. apply wrapf_Ok.
    transitivity ((Ok (), w1).1, ((Ok (), w1).2, fs)); [rewrite <-Hc|]; done.
Qed.

(** With two chunks a failed write can leave the first new and the second old.  When
    the two do not decompress together every later read fails, and with it every
    method of the database on this store, since the methods that would write the
    chunks again read them first. *)
Theorem two_chunk_write_torn (w : W) (a0 a1 b0 b1 b c : list Z) (e : error) (fuel : nat) :
  has_chunks w [a0; a1] → compress b = Ok c → Secrets.chunk c Secrets.maxChunkSize = [b0; b1] →
  k8s_IsNotFound e = false →
  ∃ e' w', Secrets.Write (faulty api) namePrefix compress fuel b (w, [None; None; Some (Dropped e)])
             = (Err e', (w', [])) ∧
    has_chunks w' [b0; a1] ∧
    (∀ e2, decompress (b0 ++ a1) = Err e2 →
       Secrets.Read api namePrefix decompress w' = (Err e2, w')).
Proof.
  intros H0 Hc Hch He. unfold Secrets.Write.
  rewrite (M_bind_Ok _ _ (w, [None; None; Some (Dropped e)]) c (w, [None; None; Some (Dropped e)]))
    by (unfold wrapf, lift; by rewrite Hc). cbv zeta. rewrite Hch.
  destruct (write_chunk_clean 0 b0 w [Some (Dropped e)]) as (w1 & Hw1 & Hs1).
  exists (Errorf "getting secret %s: %w" [name 1] [e]), w1. split.
  - assert (Secrets.write_chunk (faulty api) namePrefix 1 b1 (w1, [Some (Dropped e)]) =
            (Err (Errorf "getting secret %s: %w" [name 1] [e]), (w1, []))) as Hw2.
    { unfold Secrets.write_chunk. rewrite (attempt_Err _ _ (w1, [Some (Dropped e)]) e (w1, [])) by done.
      by rewrite He. }
    unfold mbind, M_bind. cbn [Secrets.write_chunks]. unfold mbind, M_bind. by rewrite Hw1, Hw2.
  - assert (has_chunks w1 [b0; a1]) as H1.
    { destruct H0 as [_ Hn Ho]. split; [simpl; lia| |].
      - intros i Hi. rewrite Hs1. destruct i as [|i]; [by rewrite lookup_insert_eq|].
        rewrite lookup_insert_ne by (intros H%Secrets.chunkName_inj; lia). by rewrite Hn.
      - intros n s. rewrite Hs1, lookup_insert_Some. intros [[<- _]|[_ H]] Hsel; [exists 0; split; [simpl; lia|done]|].
        by apply (Ho n s). }
    split; [done|]. intros e2 He2.
    rewrite (Secrets.Read_chunks api namePrefix decompress Hprefix _ _ H1). simpl.
    by rewrite app_nil_r, He2.
Qed.
End secrets.

(** A store that cannot be read: every method of the database on it panics. *)
Lemma unreadable_database {Msg W} `{PR : ProtoRuntime Msg} `{OB : Object Msg} (store : Store W) (w w' : W) e :
  store_Read store w = (Err e, w') →
  (∀ obj : Msg, ∃ p, CreateOrUpdate store obj w = (Panic p, w')) ∧
  (∀ id, (∃ p, Get (Msg := Msg) store id w = (Panic p, w')) ∧ ∃ p, Delete (Msg := Msg) store id w = (Panic p, w')).
Proof.
  intros Hr. destruct (list_read_fails (Msg := Msg) store w w' e Hr) as [p Hp].
  split; [|split]; intros; exists p; unfold CreateOrUpdate, Get, Delete, mbind, M_bind; by rewrite Hp.
Qed.

(** ** The hypotheses can hold *)
Definition full_disk : error := ErrExt "no space left on device".
Definition stored_bytes : list Z := File.data (CreateOrUpdate File.store test_msg empty_file).2.

Lemma stored_encodes : encodes [test_msg] stored_bytes.
Proof. eexists. split; [vm_compute; reflexivity|]. repeat constructor. Qed.


