(* ===== verification/Restart.v ===== *)
(** * Addresses across restarts and node classes

    [karpenter/pkg/utils/wireguard/allocator.go]: [IPAllocator] shows that no two
    instances of one node class have one address while one process allocates.
    What is pre-allocated is kept in memory only and by node class, so neither a
    restart of the controller nor a second class on the same block keeps to it. *)
From S2P Require Import Prelude GoStr GoNet Karp IPAllocator.
From stdpp Require Import options.

Section restart.
Context (key : GroupKind → string) (range : list string → list string).
Context (range_perm : ∀ l, range l ≡ₚ l).
#[local] Set Default Proof Using "Type*".

(** The controller starts again: [NewIPAllocator], beside the nodes, claims and
    instances there are. *)
Definition restart (w : World) : World :=
  {| w_alloc := NewIPAllocator (groupKind (w_alloc w)); w_nodes := w_nodes w;
     w_claims := w_claims w; w_held := w_held w |}.

(** A cache that is up to date. *)
Definition fresh_cache (w : World) : Cache :=
  {| cache_List k v := Ok (filter (λ n, node_Labels n !! k = Some v) (w_nodes w));
     cache_Get _ := Some (ErrExt "timeout") |}.
Lemma fresh_cache_view w : cache_view w (fresh_cache w).
Proof using Type. split; [by intros k v nodes [= <-]|done]. Qed.

(** The addresses of the nodes of a class. *)
Definition class_ips (w : World) (class : string) : gset string :=
  confirmed_ips (filter (λ n, node_Labels n !! key (groupKind (w_alloc w)) = Some class) (w_nodes w)).

(** Some draw gives any usable address that neither a node of the class has nor is
    pre-allocated for the class. *)
Lemma some_draw w cidr class claim ip :
  preAllocated (w_alloc w) !!! class = ∅ → claim ∈ w_claims w → usable_ip cidr ip →
  (∀ x, x ∈ class_ips w class → is_Some (normalize_ip x) ∧ normalize_ip x ≠ Some ip) →
  ∃ a', step key range w
    {| w_alloc := a'; w_nodes := w_nodes w; w_claims := w_claims w;
       w_held := {| h_class := class; h_claim := claim; h_ip := ip |} :: w_held w |}.
Proof.
  intros Hpre Hc Hu Hips.
  set (all := range (elements (class_ips w class)) ++ range (map_to_list (∅ : gmap string string)).*1).
  assert (∀ x, x ∈ all → x ∈ class_ips w class) as Hall.
  { intros x [Hx|Hx]%elem_of_app; rewrite range_perm in Hx; [by apply elem_of_elements|].
    rewrite map_to_list_empty in Hx. by apply not_elem_of_nil in Hx. }
  destruct (usable_free 0 cidr all ip) as [_ [rnd Hr]]; [|done| |].
  - intros x Hx%Hall. by apply Hips.
  - intros x Hx%Hall. by apply Hips.
  - destruct (AllocateIP key range (fresh_cache w) rnd cidr class claim (w_alloc w)) as [r a'] eqn:E.
    exists a'. assert (r = Ok ip) as ->.
    { unfold AllocateIP in E. cbn [cache_List fresh_cache] in E. fold (class_ips w class) in E.
      rewrite Hpre in E. change (reconcile_pre (class_ips w class) ∅) with (∅ : gmap string string) in E.
      fold all in E. rewrite Hr in E. by injection E. }
    by apply (step_alloc _ _ w (fresh_cache w) rnd cidr class claim (Ok ip) a' (fresh_cache_view w) Hc).
Qed.

(** C27: a restart of the controller repeats addresses.  While an instance has an
    address no node of its class shows yet, a restarted controller can give that
    address to any other claim of the class: two instances have one address. *)
Theorem restart_repeats_address (w : World) (h : holding) (cidr claim : string) :
  h ∈ w_held w → h_claim h ≠ claim → claim ∈ w_claims w → usable_ip cidr (h_ip h) →
  (∀ x, x ∈ class_ips w (h_class h) → is_Some (normalize_ip x) ∧ normalize_ip x ≠ Some (h_ip h)) →
  ∃ w', step key range (restart w) w' ∧
    {| h_class := h_class h; h_claim := claim; h_ip := h_ip h |} ∈ w_held w' ∧ h ∈ w_held w' ∧ ¬ unique w'.
Proof.
  intros Hh Hne Hc Hu Hips.
  destruct (some_draw (restart w) cidr (h_class h) claim (h_ip h)) as [a' Hs]; [done..|].
  eexists. split; [exact Hs|]. simpl. split; [left|]. split; [by right|].
  intros Hun. apply NoDup_cons in Hun as [Hin _]. apply Hin. simpl.
  apply list_elem_of_fmap. by exists h.
Qed.

(** Two node classes on one block repeat addresses without a restart. *)
Theorem classes_repeat_addresses (w : World) (h : holding) (cidr class claim : string) :
  h ∈ w_held w → class ≠ h_class h → claim ∈ w_claims w → usable_ip cidr (h_ip h) →
  preAllocated (w_alloc w) !!! class = ∅ → class_ips w class = ∅ →
  ∃ w', step key range w w' ∧ h ∈ w_held w' ∧
    {| h_class := class; h_claim := claim; h_ip := h_ip h |} ∈ w_held w'.
Proof.
  intros Hh Hne Hc Hu Hpre Hips.
  destruct (some_draw w cidr class claim (h_ip h) Hpre Hc Hu) as [a' Hs].
  { intros x. rewrite Hips. by intros ?%not_elem_of_empty. }
  eexists. split; [exact Hs|]. simpl. split; [by right|left].
Qed.
End restart.

(** ** The hypotheses can hold *)

(** One claim has an address, its node has not joined, and a second claim comes. *)
Lemma restart_repeats_address_witness :
  let w := test_alloc 1 "a" test_init in
  rtc (step test_key id) test_init w ∧
  ∃ w', step test_key id (restart w) w' ∧ ¬ unique w'.
Proof.
  intros w. split; [apply rtc_once, test_alloc_step; [reflexivity|simpl; set_solver]|].
  destruct (restart_repeats_address test_key id (λ l, reflexivity l) w
    {| h_class := "c"; h_claim := "a"; h_ip := "10.0.0.2" |} "10.0.0.0/30" "b") as (w' & Hs & _ & _ & Hu).
  - vm_compute. left.
  - done.
  - simpl. set_solver.
  - exists (10 * 2 ^ 24)%Z, 30%Z, 2%Z. split_and!; [vm_compute; reflexivity|done|done|vm_compute; reflexivity].
  - intros x Hx. exfalso. revert Hx. vm_compute. done.
  - exists w'. split; [exact Hs|exact Hu].
Defined.
