(* ===== verification/Options.v ===== *)
(** * The options of the controller

    [karpenter/pkg/options]: the flags each set of options adds, their defaults,
    and how the options reach the context that the providers read them from.  The
    framework that parses the flags is an interface. *)
From S2P Require Import Prelude GoStr GoNet Kaito Main Commands.
From stdpp Require Import options.

(** What the context has of the three sets of options. *)
Record ctx := {
  v_nebius : option nebiusOptions;
  v_stretch : option stretchOptions;
  v_kaito : option KaitoOptions;
}.
Definition Background : ctx := {| v_nebius := None; v_stretch := None; v_kaito := None |}.

(** [options.Injectable]: the flags, the check of their values, and the value of
    the context. *)
Record Injectable := {
  AddFlags : list Flag;
  Parse : values → res ();
  ToContext : values → ctx → ctx;
}.

(** ** The three sets *)
Definition nebius_AddFlags : list Flag := [StringVar "flex-nebius.credentials-file" ""].
Definition nebius_of (v : values) : nebiusOptions := {| CredentialsFile := flag_string v "flex-nebius.credentials-file" |}.
Definition nebius_ToContext (n : nebiusOptions) (c : ctx) : ctx :=
  {| v_nebius := Some n; v_stretch := v_stretch c; v_kaito := v_kaito c |}.
Definition nebius_Injectable : Injectable :=
  {| AddFlags := nebius_AddFlags; Parse v := nebius_Parse (nebius_of v); ToContext v := nebius_ToContext (nebius_of v) |}.

Definition stretch_AddFlags : list Flag := [StringVar "stretch.database-namespace" "karpenter"].
Definition stretch_of (v : values) : stretchOptions := {| DatabaseNamespace := flag_string v "stretch.database-namespace" |}.
Definition stretch_ToContext (s : stretchOptions) (c : ctx) : ctx :=
  {| v_nebius := v_nebius c; v_stretch := Some s; v_kaito := v_kaito c |}.
Definition stretchOptionsFromContext (c : ctx) : option stretchOptions := v_stretch c.
Definition stretch_Injectable : Injectable :=
  {| AddFlags := stretch_AddFlags; Parse v := stretch_Parse (stretch_of v); ToContext v := stretch_ToContext (stretch_of v) |}.

Definition kaito_AddFlags : list Flag :=
  [StringVar "flex-kaito.nebius-project-id" ""; StringVar "flex-kaito.nebius-region" "";
   StringVar "flex-kaito.nebius-subnet-id" "";
   StringVar "flex-kaito.nebius-wireguard-peer-cidr" "100.96.1.0/24"].
Definition kaito_of (v : values) : KaitoOptions :=
  {| NebiusProjectID := flag_string v "flex-kaito.nebius-project-id";
     NebiusRegion := flag_string v "flex-kaito.nebius-region";
     NebiusSubnetID := flag_string v "flex-kaito.nebius-subnet-id";
     NebiusWireguardPeerCIDR := flag_string v "flex-kaito.nebius-wireguard-peer-cidr" |}.
Definition kaito_ToContext (k : KaitoOptions) (c : ctx) : ctx :=
  {| v_nebius := v_nebius c; v_stretch := v_stretch c; v_kaito := Some k |}.
Definition kaito_Injectable : Injectable :=
  {| AddFlags := kaito_AddFlags; Parse v := kaito_Parse (kaito_of v); ToContext v := kaito_ToContext (kaito_of v) |}.

(** [init] of the three files, in the order of their names. *)
Definition flex_Injectables : list Injectable := [kaito_Injectable; nebius_Injectable; stretch_Injectable].

(** ** The framework *)
Definition all_flags (l : list Injectable) : list Flag := l ≫= AddFlags.

Fixpoint parse_all (l : list Injectable) (v : values) : res () :=
  match l with
  | [] => Ok ()
  | o :: l => _ ← Parse o v; parse_all l v
  end.

(** All flags are added, the command line is parsed, every set checks its values,
    the first error ends the process, and each set is put in the context. *)
Class Injection := {
  WithOptionsOrDie : ctx → list Injectable → list string → res ctx;
  inject_law c l fs : NoDup (f_Name <$> all_flags l) → forallb (declared (all_flags l)) fs = true →
    let v := set_flags (all_flags l) fs in
    WithOptionsOrDie c l (flag_word <$> fs) =
      match parse_all l v with
      | Ok _ => Ok (foldl (λ c o, ToContext o v c) c l)
      | _ => Panic "options"
      end;
}.

(** ** The options in the context *)
Section options.
Context `{IN : Injection} (core : list Injectable).
(** The framework's own sets, which are registered first: their flags are others. *)
Context (core_flags : NoDup (f_Name <$> all_flags (core ++ flex_Injectables))).
Context (core_parses : ∀ v o, o ∈ core → Parse o v = Ok ()).
Context (core_context : ∀ v o c, o ∈ core → ToContext o v c = c).
#[local] Set Default Proof Using "Type*".

Notation flags_ := (all_flags (core ++ flex_Injectables)).

Lemma set_flags_other l fs name :
  (∀ f, f ∈ fs → f.1 ≠ name) → set_flags l fs !! name = defaults l !! name.
Proof using Type.
  unfold set_flags. generalize (defaults l) as v. induction fs as [|f fs IH]; intros v Hf; [done|].
  cbn [foldl]. rewrite IH by (intros g Hg; apply Hf; by right). apply lookup_insert_ne, Hf. left.
Qed.

(** A flag that is not on the command line has its default. *)
Lemma default_value l fs f :
  NoDup (f_Name <$> l) → f ∈ l → (∀ g, g ∈ fs → g.1 ≠ f_Name f) →
  set_flags l fs !! f_Name f = Some (f_Default f).
Proof using Type.
  intros Hn Hf Hfs. rewrite set_flags_other by done. unfold defaults. apply elem_of_list_to_map_1.
  - by rewrite <-list_fmap_compose.
  - apply list_elem_of_fmap. by exists f.
Qed.

Lemma parse_core v : parse_all (core ++ flex_Injectables) v = nebius_Parse (nebius_of v).
Proof using core_parses.
  clear core_flags core_context. induction core as [|o l IH]; simpl.
  - unfold nebius_Parse. by case_bool_decide.
  - rewrite core_parses by left. simpl. apply IH. intros v' o' Ho. apply core_parses. by right.
Qed.

Lemma context_core v :
  foldl (λ c o, ToContext o v c) Background (core ++ flex_Injectables) =
  {| v_nebius := Some (nebius_of v); v_stretch := Some (stretch_of v); v_kaito := Some (kaito_of v) |}.
Proof using core_context.
  clear core_flags core_parses. rewrite foldl_app.
  assert (foldl (λ c o, ToContext o v c) Background core = Background) as ->; [|done].
  induction core as [|o l IH]; [done|]. simpl. rewrite core_context by left.
  apply IH. intros v' o' c Ho. apply core_context. by right.
Qed.

(** The options on the context.  A controller started without a credentials file
    does not start; with one, every set of options is found in the context with
    the values given, and what is not given has its default: the plugin's database
    is in the namespace [karpenter] and the Kaito provider has a block for
    WireGuard, but no project, so that it refuses every claim. *)
Theorem options_in_context (fs : list (string * flag_value)) :
  forallb (declared flags_) fs = true →
  let v := set_flags flags_ fs in
  let started := WithOptionsOrDie Background (core ++ flex_Injectables) (flag_word <$> fs) in
  (flag_string v "flex-nebius.credentials-file" = "" → started = Panic "options") ∧
  (flag_string v "flex-nebius.credentials-file" ≠ "" →
   ∃ c, started = Ok c ∧ nebiusOptionsFromContext (v_nebius c) = Some (nebius_of v) ∧
     stretchOptionsFromContext c = Some (stretch_of v) ∧
     MustGetKaitoOptionsFromContext (v_kaito c) = Ok (kaito_of v)) ∧
  ((∀ f, f ∈ fs → f.1 = "flex-nebius.credentials-file") →
   stretch_of v = {| DatabaseNamespace := "karpenter" |} ∧
   kaito_of v = {| NebiusProjectID := ""; NebiusRegion := ""; NebiusSubnetID := "";
                   NebiusWireguardPeerCIDR := "100.96.1.0/24" |} ∧
   is_Err (Validate (kaito_of v)) = true).
Proof.
  intros Hf v started. unfold started. rewrite inject_law by done. fold v.
  rewrite parse_core, context_core. split_and!.
  - intros E. unfold nebius_Parse, nebius_of. simpl. by rewrite E.
  - intros E. unfold nebius_Parse, nebius_of at 1. cbn [CredentialsFile].
    rewrite bool_decide_eq_false_2 by done. by eexists.
  - intros Hfs.
    assert (∀ f, f ∈ stretch_AddFlags ++ kaito_AddFlags → v !! f_Name f = Some (f_Default f)) as Hd.
    { intros f Hin. apply default_value; [done| |].
      - unfold all_flags. rewrite bind_app. apply elem_of_app. right. simpl. set_solver.
      - intros g ->%Hfs He. unfold stretch_AddFlags, kaito_AddFlags in Hin. set_solver. }
    unfold stretch_of, kaito_of, flag_string.
    pose proof (Hd (StringVar "stretch.database-namespace" "karpenter") ltac:(set_solver)) as H1.
    pose proof (Hd (StringVar "flex-kaito.nebius-project-id" "") ltac:(set_solver)) as H2.
    pose proof (Hd (StringVar "flex-kaito.nebius-region" "") ltac:(set_solver)) as H3.
    pose proof (Hd (StringVar "flex-kaito.nebius-subnet-id" "") ltac:(set_solver)) as H4.
    pose proof (Hd (StringVar "flex-kaito.nebius-wireguard-peer-cidr" "100.96.1.0/24") ltac:(set_solver)) as H5.
    simpl in *. by rewrite H1, H2, H3, H4, H5.
Qed.
End options.

(** ** The hypotheses can hold *)
Definition read_options (c : ctx) (l : list Injectable) (words : list string) : res ctx :=
  match Commands.Mem.parse (all_flags l) words with
  | Some (fs, []) =>
      let v := set_flags (all_flags l) fs in
      match parse_all l v with
      | Ok _ => Ok (foldl (λ c o, ToContext o v c) c l)
      | _ => Panic "options"
      end
  | _ => Panic "flags"
  end.
#[global] Program Instance injection : Injection := {| WithOptionsOrDie := read_options |}.
Next Obligation.
  intros c l fs _ Hf. pose proof (Commands.Mem.parse_words (all_flags l) fs [] Hf eq_refl) as H.
  rewrite app_nil_r in H. unfold read_options. by rewrite H.
Qed.

Lemma options_in_context_witness :
  ∃ c, WithOptionsOrDie Background flex_Injectables ["--flex-nebius.credentials-file=key.json"] = Ok c ∧
    stretchOptionsFromContext c = Some {| DatabaseNamespace := "karpenter" |}.
Proof.
  assert (NoDup (f_Name <$> all_flags ([] ++ flex_Injectables))) as Hn
    by (apply (bool_decide_unpack _); vm_compute; exact I).
  destruct (options_in_context [] Hn ltac:(by intros ? ? ?%not_elem_of_nil) ltac:(by intros ? ? ? ?%not_elem_of_nil)
    [("flex-nebius.credentials-file", FString "key.json")] eq_refl) as (_ & Hc & _).
  destruct (Hc ltac:(by vm_compute)) as (c & Hs & _ & Hst & _).
  exists c. split; [exact Hs|]. rewrite Hst. reflexivity.
Defined.
