(* ===== verification/Recovery.v ===== *)
(** * Crashes and retries

    [plugin/pkg/server] and [plugin/pkg/services/agentpools/nebius/instance]: a
    process that dies in the middle of a request, at any call of the cloud or of
    the database, and the requests that are sent again after it was restarted.
    Nothing of the plugin is kept but the cloud and the database: what a retry
    does depends on them alone.  At the end, a request whose process lives on but
    one of whose calls of the cloud answers an error. *)
From S2P Require Import Prelude GoStr Karp Store Helper Proto DB Server UserData NebiusResource NebiusInstance EndToEnd.
From S2P Require Import Faults.
From stdpp Require Import options.
Open Scope Z_scope.

(** ** A process that dies *)

(** When the process dies: after [n] calls of a service, in the next one, which
    is carried out or not. *)
Definition crash : Type := option (nat * bool).
Definition armed (k : crash) : option bool := snd <$> k.

Definition crashing {W A} (c : M W A) : M (W * crash) A := λ '(w, k),
  match k with
  | None => ((c w).1, ((c w).2, None))
  | Some (0%nat, b) => (Panic "killed", (if b then (c w).2 else w, k))
  | Some (S n, b) => ((c w).1, ((c w).2, Some (n, b)))
  end.

Definition crashing_service {W S} (s : Service W S) : Service (W * crash) S := {|
  Op := Op W S s;
  svc_GetByName parent name := crashing (svc_GetByName s parent name);
  svc_Get id := crashing (svc_Get s id);
  svc_Create md spec := crashing (svc_Create s md spec);
  svc_Update md spec := crashing (svc_Update s md spec);
  svc_Delete id := crashing (svc_Delete s id);
  svc_Wait op := crashing (svc_Wait s op);
|}.

Definition crashing_sdk {C} (sdk : SDK C) : SDK (C * crash) := {|
  Compute_Instance := crashing_service (Compute_Instance sdk);
  Compute_Disk := crashing_service (Compute_Disk sdk);
|}.

Definition crashing_db {D Msg} (db : DB D Msg) : DB (D * crash) Msg := {|
  db_List := crashing (db_List db); db_Get id := crashing (db_Get db id);
  db_CreateOrUpdate obj := crashing (db_CreateOrUpdate db obj);
  db_Delete id := crashing (db_Delete db id);
|}.

(** The documented behaviour of a change that was accepted when the process died
    before waiting for it: it shows at once, or it was not carried out. *)
Class AcceptLaws {W S} (FromError : error → option Code) (s : Service W S)
    {SL : ServiceLaws FromError s} := {
  create_accepted w md spec op w1 :
    (∀ r, ¬ named (resources w) (md_ParentId md) (md_Name md) r) →
    svc_Create s md spec w = (Ok op, w1) →
    resources w1 = resources w ∨
    ∃ r, resources w !! r_Id r = None ∧ resources w1 = <[r_Id r := r]> (resources w) ∧
         r_ParentId r = md_ParentId md ∧ r_Name r = md_Name md ∧ r_Spec r = spec;
  delete_accepted w id op w1 :
    svc_Delete s id w = (Ok op, w1) →
    resources w1 = resources w ∨ resources w1 = base.delete id (resources w);
}.

(** ** Runs that may be cut off

    [survives c v Q]: the run of [c] from [v] ends as [Q] says, or the process dies
    in a call of the cloud and leaves what [I] says, or in one of the database and
    leaves what [J] says. *)
Section survives.
Context {C D : Type}.
Definition alive : Type := (C * crash) * (D * crash).
Definition durable (v : alive) : C * D := (v.1.1, v.2.1).
Context (I J : bool → C * D → Prop).

Definition survives {A} (c : M alive A) (v : alive) (Q : res A → alive → Prop) : Prop :=
  match c v with
  | (Panic _, v') => (∃ b, armed v.1.2 = Some b ∧ I b (durable v')) ∨
                     (∃ b, armed v.2.2 = Some b ∧ J b (durable v'))
  | (r, v') => Q r v' ∧ armed v'.1.2 = armed v.1.2 ∧ armed v'.2.2 = armed v.2.2
  end.

Lemma survives_mono {A} (c : M alive A) v (Q Q' : res A → alive → Prop) :
  (∀ r v', Q r v' → Q' r v') → survives c v Q → survives c v Q'.
Proof using Type. intros H. unfold survives. destruct (c v) as [[] v']; naive_solver. Qed.

Lemma survives_bind {A B} (m : M alive A) (f : A → M alive B) v Q :
  survives m v (λ r v', match r with
                        | Ok a => survives (f a) v' Q | Err e => Q (Err e) v' | Panic _ => True
                        end) →
  survives (m ≫= f) v Q.
Proof using Type.
  unfold survives, mbind, M_bind. destruct (m v) as [[a|e|p] v1]; [|done..].
  intros (H & H1 & H2). destruct (f a v1) as [[] v2]; rewrite <-?H1, <-?H2; done.
Qed.

Lemma survives_attempt {A} (m : M alive A) v Q :
  survives m v (λ r v', match r with
                        | Ok a => Q (Ok (inr a)) v' | Err e => Q (Ok (inl e)) v' | Panic _ => True
                        end) →
  survives (attempt m) v Q.
Proof using Type. unfold survives, attempt. by destruct (m v) as [[] v1]. Qed.

Lemma survives_eq {A} (c c' : M alive A) v Q : c v = c' v → survives c' v Q → survives c v Q.
Proof using Type. unfold survives. by intros ->. Qed.

Lemma survives_Ok {A} (c : M alive A) v a (Q : res A → alive → Prop) :
  c v = (Ok a, v) → Q (Ok a) v → survives c v Q.
Proof using Type. unfold survives. by intros ->. Qed.

(** A call of the cloud, and one of the database. *)
Definition cloud_call {A} (c : M C A) : M alive A := zoom fst (λ c w, (c, w.2)) (crashing c).
Definition db_call {A} (c : M D A) : M alive A := on_db (crashing c).

Lemma survives_cloud {A} (c : M C A) (v : alive) r c' (Q : res A → alive → Prop) :
  c v.1.1 = (r, c') → (∀ p, r ≠ Panic p) →
  (∀ b, I b (durable v)) → (∀ b, I b (c', v.2.1)) →
  (∀ k, Q r ((c', k), v.2)) → survives (cloud_call c) v Q.
Proof using Type.
  intros Hc Hr H1 H2 HQ. destruct v as [[w k] d]. simpl in *.
  unfold survives, cloud_call, zoom, crashing. simpl.
  destruct k as [[[|n] b]|]; cbn -[durable]; rewrite ?Hc; cbn -[durable].
  - left. exists b. split; [done|]. destruct b; [apply H2|apply H1].
  - specialize (HQ (Some (n, b))). destruct r; [done..|]. by destruct (Hr why).
  - specialize (HQ None). destruct r; [done..|]. by destruct (Hr why).
Qed.

Lemma survives_db {A} (c : M D A) (v : alive) r d' (Q : res A → alive → Prop) :
  c v.2.1 = (r, d') → (∀ p, r ≠ Panic p) →
  J false (durable v) → J true (v.1.1, d') →
  ((∀ b, v.2.2 ≠ Some (0%nat, b)) → ∀ k, Q r (v.1, (d', k))) → survives (db_call c) v Q.
Proof using Type.
  intros Hc Hr H1 H2 HQ. destruct v as [w [d k]]. simpl in *.
  unfold survives, db_call, on_db, zoom, crashing. simpl.
  destruct k as [[[|n] b]|]; cbn -[durable]; rewrite ?Hc; cbn -[durable].
  - right. exists b. split; [done|]. by destruct b.
  - specialize (HQ ltac:(done) (Some (n, b))). destruct r; [done..|]. by destruct (Hr why).
  - specialize (HQ ltac:(done) None). destruct r; [done..|]. by destruct (Hr why).
Qed.
End survives.
Arguments alive : clear implicits.

(** ** Ensuring and deleting a resource *)

(** A resource made as desired where there was none of its id. *)
Definition made {S} (m : gmap string (Resource S)) (desired r : Resource S) : Prop :=
  m !! r_Id r = None ∧ r_ParentId r = r_ParentId desired ∧ r_Name r = r_Name desired ∧
  r_Spec r = r_Spec desired.

Lemma made_named {S} (m : gmap string (Resource S)) desired r :
  made m desired r → named (<[r_Id r := r]> m) (r_ParentId desired) (r_Name desired) r.
Proof. intros (_ & Hp & Hn & _). exists (r_Id r). by rewrite lookup_insert_eq. Qed.

(** The calls that make what is missing: the creation, its poll, and the read of
    the result. *)
Lemma creation_calls {W S} (FromError : error → option Code) (s : Service W S)
    {SL : ServiceLaws FromError s} w (desired : Resource S) :
  (∀ r, ¬ named (resources w) (r_ParentId desired) (r_Name desired) r) →
  ∃ op w1 w2 r, svc_Create s (r_Metadata desired) (r_Spec desired) w = (Ok op, w1) ∧
    svc_Wait s op w1 = (Ok (r_Id r), w2) ∧ svc_Get s (r_Id r) w2 = (Ok r, w2) ∧
    made (resources w) desired r ∧ resources w2 = <[r_Id r := r]> (resources w) ∧ r_Id r ≠ "" ∧
    ∀ V (part : W → V), ServiceFrame s part → part w1 = part w ∧ part w2 = part w.
Proof.
  intros Hn. destruct (create_law w (r_Metadata desired) (r_Spec desired) Hn)
    as (op & w1 & id & w2 & r & Hc & Hw & Hfree & Hres & Hp & Hnm & Hs).
  assert (resources w2 !! id = Some r) as Hid by (by rewrite Hres, lookup_insert_eq).
  destruct (resources_id _ _ _ Hid) as [<- Hne]. exists op, w1, w2, r.
  split_and!; [done|done|by rewrite get_law, Hid|done|done|done|]. intros V part SF.
  pose proof (keeps_eq part _ _ _ _ (create_frame _ _) Hc) as Hk.
  by rewrite (keeps_eq part _ _ _ _ (wait_frame _) Hw), Hk.
Qed.

Section crud.
Context {C D S V : Type} (FromError : error → option Code) (s : Service C S).
Context {SL : ServiceLaws FromError s} {AL : AcceptLaws FromError s}.
Context (part : C → V) {SF : ServiceFrame s part} (I J : bool → C * D → Prop).
#[local] Set Default Proof Using "Type*".
Notation crud := (ResourceCRUDFactory FromError
  (zoom_service fst (λ c (w : alive C D), (c, w.2)) (crashing_service s))).
Notation survives := (survives I J).

(** A call that only reads the resources. *)
Lemma survives_read {A} (c : M C A) (v : alive C D) r (Q : res A → alive C D → Prop) :
  c v.1.1 = (r, v.1.1) → (∀ p, r ≠ Panic p) → (∀ b, I b (durable v)) →
  (∀ k, Q r ((v.1.1, k), v.2)) → survives (cloud_call c) v Q.
Proof using Type. intros Hc Hr HI HQ. by eapply survives_cloud; [exact Hc|done|..]. Qed.

Lemma ensure_found_survives (desired r : Resource S) (v : alive C D) Q :
  r_Id desired = "" → named (resources v.1.1) (r_ParentId desired) (r_Name desired) r →
  (∀ b, I b (durable v)) → (∀ k, Q (Ok r) ((v.1.1, k), v.2)) →
  survives (CRUD_CreateOrUpdate FromError crud DriftTODO desired) v Q.
Proof using SL.
  intros He Hr HI HQ. unfold CRUD_CreateOrUpdate. rewrite bool_decide_eq_false_2 by naive_solver.
  apply survives_bind, survives_attempt.
  eapply survives_read; [by apply by_name_found|done|done|]. intros k.
  eapply survives_Ok; [reflexivity|apply HQ].
Qed.

Lemma create_survives (desired : Resource S) (v : alive C D) Q :
  (∀ r, ¬ named (resources v.1.1) (r_ParentId desired) (r_Name desired) r) →
  (∀ b c', part c' = part v.1.1 →
     resources c' = resources v.1.1 ∨
     (∃ r, made (resources v.1.1) desired r ∧ resources c' = <[r_Id r := r]> (resources v.1.1)) →
     I b (c', v.2.1)) →
  (∀ r c' k, part c' = part v.1.1 → made (resources v.1.1) desired r →
     resources c' = <[r_Id r := r]> (resources v.1.1) → Q (Ok r) ((c', k), v.2)) →
  survives (create crud desired) v Q.
Proof.
  intros Hn HI HQ. destruct (creation_calls FromError s v.1.1 desired Hn)
    as (op & w1 & w2 & r & Hc & Hw & Hget & Hmade & Hres & _ & Hk). destruct (Hk _ part _) as [Hk1 Hk2].
  assert (∀ b, I b (w1, v.2.1)) as HI1.
  { intros b. apply HI; [done|]. destruct (create_accepted _ _ _ _ _ Hn Hc) as [|(r1 & H1 & H2 & H3 & H4 & H5)];
      [by left|right; by exists r1]. }
  assert (∀ b, I b (w2, v.2.1)) as HI2.
  { intros b. apply HI; [done|]. right. by exists r. }
  apply survives_bind. eapply survives_cloud; [exact Hc|done|intros b; by apply HI; [|left]|exact HI1|].
  intros k. apply survives_bind. eapply survives_cloud; [exact Hw|done|exact HI1|exact HI2|].
  intros k1. eapply survives_read; [exact Hget|done|exact HI2|].
  intros k2. by apply HQ.
Qed.

Lemma ensure_missing_survives (desired : Resource S) (v : alive C D) Q :
  r_Id desired = "" →
  (∀ r, ¬ named (resources v.1.1) (r_ParentId desired) (r_Name desired) r) →
  (∀ b c', part c' = part v.1.1 →
     resources c' = resources v.1.1 ∨
     (∃ r, made (resources v.1.1) desired r ∧ resources c' = <[r_Id r := r]> (resources v.1.1)) →
     I b (c', v.2.1)) →
  (∀ r c' k, part c' = part v.1.1 → made (resources v.1.1) desired r →
     resources c' = <[r_Id r := r]> (resources v.1.1) → Q (Ok r) ((c', k), v.2)) →
  survives (CRUD_CreateOrUpdate FromError crud DriftTODO desired) v Q.
Proof.
  intros He Hn HI HQ. unfold CRUD_CreateOrUpdate. rewrite bool_decide_eq_false_2 by naive_solver.
  apply survives_bind, survives_attempt.
  eapply survives_read; [by apply by_name_missing|done|intros b; by apply HI; [|left]|].
  intros k. cbn beta iota. rewrite (not_found_code FromError s). by apply create_survives.
Qed.

(** Deleting by id, whether the resource is still there or not. *)
Lemma delete_survives (t : Resource S) (v : alive C D) Q :
  r_Id t ≠ "" →
  (∀ b c', part c' = part v.1.1 →
     resources c' = resources v.1.1 ∨ resources c' = base.delete (r_Id t) (resources v.1.1) →
     I b (c', v.2.1)) →
  (∀ c' k, part c' = part v.1.1 → resources c' = base.delete (r_Id t) (resources v.1.1) →
     Q (Ok ()) ((c', k), v.2)) →
  survives (CRUD_Delete FromError crud t) v Q.
Proof.
  intros Hne HI HQ. unfold CRUD_Delete. rewrite bool_decide_eq_true_2 by done.
  unfold delete, ResourceCRUDFactory. apply survives_bind, survives_attempt.
  assert (∀ b, I b (durable v)) as HI0 by (intros b; apply HI; [done|by left]).
  destruct (resources v.1.1 !! r_Id t) as [r|] eqn:E.
  - destruct (delete_law v.1.1 (r_Id t)) as (op & w1 & w2 & Hd & Hw & Hr); [by rewrite E|].
    pose proof (keeps_eq part _ _ _ _ (delete_frame _) Hd) as Hk1.
    pose proof (keeps_eq part _ _ _ _ (wait_frame _) Hw) as Hk2.
    assert (∀ b, I b (w1, v.2.1)) as HI1
      by (intros b; apply HI; [done|by apply (delete_accepted _ _ _ _ Hd)]).
    eapply survives_cloud; [exact Hd|done|exact HI0|exact HI1|]. intros k.
    apply survives_bind. eapply survives_cloud; [exact Hw|done|exact HI1| |].
    { intros b. apply HI; [by rewrite Hk2|by right]. }
    intros k1. eapply survives_Ok; [reflexivity|]. apply HQ; [exact (eq_trans Hk2 Hk1)|done].
  - eapply survives_read; [exact (delete_missing v.1.1 (r_Id t) E)|done|exact HI0|]. intros k.
    cbn beta iota. unfold ignoreNotFound. rewrite (not_found_code FromError s).
    eapply survives_Ok; [reflexivity|]. apply HQ; [done|by rewrite delete_id].
Qed.
End crud.

(** ** The agent pools service, killed and restarted *)
Section service.
Context {C D Msg : Type} `{PR : ProtoRuntime Msg} `{OB : Object Msg} {PL : ProtoLaws Msg}.
Context (of_AgentPool : nebius.AgentPool → Msg) (as_AgentPool : Msg → option nebius.AgentPool)
        {PM : PoolMessage of_AgentPool as_AgentPool}.
Context (FromError : error → option Code) (sdk : SDK C) (db : DB D Msg) {DL : DBLaws db}.
Context {IL : ServiceLaws FromError (Compute_Instance sdk)} {SL : ServiceLaws FromError (Compute_Disk sdk)}.
Context {IA : AcceptLaws FromError (Compute_Instance sdk)} {DA : AcceptLaws FromError (Compute_Disk sdk)}.
Notation instances := (resources (s := Compute_Instance sdk)).
Notation disks := (resources (s := Compute_Disk sdk)).
Context {IF : ServiceFrame (Compute_Instance sdk) disks} {DF : ServiceFrame (Compute_Disk sdk) instances}.
Context (marshal_step : flex.Step → res string) (json_Marshal : list string → res string)
        (bootstrapTemplate : string → string → res string) (yaml_Marshal : UserData → res string)
        (wgSpokeScript : string).
Context (enc : encoders marshal_step json_Marshal bootstrapTemplate yaml_Marshal).
Context (newAws newAzure : res (server (alive C D))) (aws azure : Msg) (srv : Parent (alive C D) Msg).
Notation back := (nebius_back of_AgentPool as_AgentPool FromError (crashing_sdk sdk) (crashing_db db)
  marshal_step json_Marshal bootstrapTemplate yaml_Marshal wgSpokeScript).
Context (started : agentpools_service of_AgentPool as_AgentPool FromError (crashing_sdk sdk)
  (crashing_db db) marshal_step json_Marshal bootstrapTemplate yaml_Marshal wgSpokeScript
  newAws newAzure aws azure = Ok srv).
#[local] Set Default Proof Using "Type*".

(** A request of the client, in a process that dies at [kc] in the cloud or at [kd]
    in the database, and what is left of the world when it is over. *)
Definition killed (kc kd : crash) {A} (c : M (alive C D) A) : M (C * D) A := λ w,
  let '(r, v) := c ((w.1, kc), (w.2, kd)) in (r, durable v).
Definition create_at (p : nebius.AgentPool) (k : crash * crash) : M (C * D) nebius.AgentPool :=
  killed k.1 k.2 (Client_CreateOrUpdate as_AgentPool (Parent_CreateOrUpdate srv) (of_AgentPool p)).
Definition delete_at (id : string) (k : crash * crash) : M (C * D) () :=
  killed k.1 k.2 (Client_Delete (Parent_Delete srv) id).

(** Requests that are sent again and again, whatever became of the one before. *)
Definition retried {A} (f : crash * crash → M (C * D) A) (ks : list (crash * crash)) (w : C * D)
    : C * D := foldl (λ w k, (f k w).2) w ks.

Lemma retried_invariant {A} (f : crash * crash → M (C * D) A) (P : C * D → Prop) ks w :
  (∀ k w, P w → P (f k w).2) → P w → P (retried f ks w).
Proof using Type. intros Hf. revert w. induction ks as [|k ks IH]; intros w Hw; [done|]. by apply IH, Hf. Qed.

(** The calls of a creation that passed its checks. *)
Definition runs_as (ap : nebius.AgentPool) (ud : string) (it : Any) : Prop := ∀ w,
  srv_CreateOrUpdate back (Some it) w =
  (bootDisk ← CRUD_CreateOrUpdate FromError (DiskCRUD FromError (plugin_sdk (crashing_sdk sdk)))
                DriftTODO (DesiredBootDisk (Some ap));
   instance ← ensure_instance FromError (plugin_sdk (crashing_sdk sdk)) bootDisk
                (DesiredInstance (Some ap) bootDisk ud);
   item ← lift (any_New (of_AgentPool (answered ap instance bootDisk))); mret (Some item)) w.

Lemma request_run I J ap ud p it v Q :
  any_New (of_AgentPool p) = Ok it → runs_as ap ud it →
  survives I J (CRUD_CreateOrUpdate FromError (DiskCRUD FromError (plugin_sdk (crashing_sdk sdk)))
                  DriftTODO (DesiredBootDisk (Some ap))) v (λ r v1, match r with
    | Ok d => survives I J (ensure_instance FromError (plugin_sdk (crashing_sdk sdk)) d
                              (DesiredInstance (Some ap) d ud)) v1 (λ r v2, match r with
        | Ok i => ∃ d', db_CreateOrUpdate db (of_AgentPool (answered ap i d)) v2.2.1 = (Ok (), d') ∧
                        J false (durable v2) ∧ J true (v2.1.1, d') ∧
                        ((∀ b, v2.2.2 ≠ Some (0%nat, b)) →
                         ∀ k, Q (Ok (answered ap i d)) (v2.1, (d', k)))
        | _ => False
        end)
    | _ => False
    end) →
  survives I J (Client_CreateOrUpdate as_AgentPool (Parent_CreateOrUpdate srv) (of_AgentPool p)) v Q.
Proof using PL PM started.
  intros Hit Hrun H. destruct (service_registry of_AgentPool as_AgentPool FromError (crashing_sdk sdk)
    (crashing_db db) _ _ _ _ _ newAws newAzure aws azure srv started) as (m & -> & Hm).
  unfold Client_CreateOrUpdate. apply survives_bind. eapply survives_Ok; [by rewrite Hit|].
  apply survives_bind. unfold Parent_CreateOrUpdate. cbn [Servers DB_].
  assert (TypeUrl it = TypeURL (of_AgentPool p)) as -> by exact (any_New_url _ _ Hit). rewrite Hm.
  apply survives_bind. eapply survives_eq; [apply Hrun|]. apply survives_bind.
  eapply survives_mono, H. intros [d| |] v1 H1; [|done..]. apply survives_bind.
  eapply survives_mono, H1. intros [i| |] v2 H2; [|done..]. destruct H2 as (d' & Hup & H3 & H4 & HQ).
  apply survives_bind. pose proof (pool_item of_AgentPool as_AgentPool (answered ap i d)) as (it2 & Hit2 & _ & Hun).
  destruct (Hun _ eq_refl) as [Hpool Hobj].
  eapply survives_Ok; [by rewrite Hit2|]. eapply survives_Ok; [reflexivity|].
  apply survives_bind. eapply survives_Ok; [by rewrite Hobj|]. apply survives_bind.
  eapply survives_db; [exact Hup|done|exact H3|exact H4|]. intros Hk kd.
  apply survives_bind. eapply survives_Ok; [by rewrite (redacted_pool _ _ _ _ Hit2)|].
  eapply survives_Ok; [reflexivity|]. eapply survives_Ok; [by rewrite Hpool|]. by apply HQ.
Qed.

(** ** Creation *)
Section creation.
Context (ap : nebius.AgentPool) (ud : string) (Hst : nebius.Status ap = None).
Context (objs : list Msg) (disks0 : gmap string (Resource DiskSpec))
        (instances0 : gmap string (Resource InstanceSpec)).
Notation desired_disk := (DesiredBootDisk (Some ap)).
Notation desired_instance d := (DesiredInstance (Some ap) d ud).
Context (no_disk : ∀ r, ¬ named disks0 (r_ParentId desired_disk) (r_Name desired_disk) r).
Context (no_instance : ∀ d r, ¬ named instances0 (r_ParentId (desired_instance d))
                                 (r_Name (desired_instance d)) r).
Context (fits : ∀ q, storable (upsert (of_AgentPool q) objs)).

(** The two resources of the pool exist beside those there were before. *)
Record both (d : Resource DiskSpec) (i : Resource InstanceSpec) (w : C) : Prop := {
  b_disk : made disks0 desired_disk d;
  b_disks : disks w = <[r_Id d := d]> disks0;
  b_instance : made instances0 (desired_instance d) i;
  b_instances : instances w = <[r_Id i := i]> instances0;
}.

Definition stored d i : list Msg := upsert (of_AgentPool (answered ap i d)) objs.

(** How far an attempt has come when it is cut off, with the objects of the
    database then. *)
Inductive stage (cur : list Msg) (w : C * D) : Prop :=
  | stage_none : disks w.1 = disks0 → instances w.1 = instances0 → cur = objs → view w.2 cur →
      stage cur w
  | stage_disk d : made disks0 desired_disk d → disks w.1 = <[r_Id d := d]> disks0 →
      instances w.1 = instances0 → cur = objs → view w.2 cur → stage cur w
  | stage_both d i : both d i w.1 → cur = objs ∨ cur = stored d i → view w.2 cur → stage cur w.

Notation survives cur := (survives (λ _ w, stage cur w)
  (λ b w, ∃ d i, both d i w.1 ∧ (cur = objs ∨ cur = stored d i) ∧ view w.2 (if b then stored d i else cur))).
Notation disk_crud := (DiskCRUD FromError (plugin_sdk (D := D * crash) (crashing_sdk sdk))).
Notation instance_crud := (InstanceCRUD FromError (plugin_sdk (D := D * crash) (crashing_sdk sdk))).

Lemma disk_survives cur v Q :
  stage cur (durable v) →
  (∀ d w k, (made disks0 desired_disk d ∧ disks w = <[r_Id d := d]> disks0 ∧
             instances w = instances0 ∧ cur = objs) ∨
            (∃ i, both d i w ∧ (cur = objs ∨ cur = stored d i)) → view v.2.1 cur →
     Q (Ok d) ((w, k), v.2)) →
  survives cur (CRUD_CreateOrUpdate FromError disk_crud DriftTODO desired_disk) v Q.
Proof using Hst no_disk SL DA DF.
  assert (r_Id desired_disk = "") as He by (unfold r_Id; simpl; by rewrite Hst).
  intros Hstage HQ. destruct Hstage as [H1 H2 Hc Hv|d Hd H1 H2 Hc Hv|d i Hb Hc Hv]; simpl in *.
  - apply (ensure_missing_survives FromError (Compute_Disk sdk) instances); [done|by rewrite H1| |].
    + intros _ c' Hi [Hr|(r & Hm & Hr)]; rewrite H1 in *.
      * by apply stage_none; simpl; rewrite ?Hi.
      * by apply (stage_disk _ _ r); simpl; rewrite ?Hi.
    + intros r c' k Hi Hm Hr. rewrite H1 in *. apply HQ; [|done]. left. by rewrite Hi.
  - eapply (ensure_found_survives FromError (Compute_Disk sdk)); [done| | |].
    + rewrite H1. by apply made_named.
    + intros _. by apply (stage_disk _ _ d).
    + intros k. apply HQ; [|done]. by left.
  - eapply (ensure_found_survives FromError (Compute_Disk sdk)); [done| | |].
    + rewrite (b_disks _ _ _ Hb). apply made_named, Hb.
    + intros _. by apply (stage_both _ _ d i).
    + intros k. apply HQ; [|done]. right. by exists i.
Qed.

Lemma instance_survives cur d v Q :
  (made disks0 desired_disk d ∧ disks v.1.1 = <[r_Id d := d]> disks0 ∧
   instances v.1.1 = instances0 ∧ cur = objs) ∨
  (∃ i, both d i v.1.1 ∧ (cur = objs ∨ cur = stored d i)) → view v.2.1 cur →
  (∀ i w k, both d i w → cur = objs ∨ cur = stored d i → Q (Ok i) ((w, k), v.2)) →
  survives cur (ensure_instance FromError (plugin_sdk (D := D * crash) (crashing_sdk sdk)) d
                  (desired_instance d)) v Q.
Proof using Hst no_instance IL IA IF.
  assert (r_Id (desired_instance d) = "") as He by (unfold r_Id; simpl; by rewrite Hst).
  intros Hstage Hv HQ. unfold ensure_instance. apply survives_bind, survives_attempt.
  destruct Hstage as [(Hd & H1 & H2 & Hc)|(i & Hb & Hc)].
  - apply (ensure_missing_survives FromError (Compute_Instance sdk) disks);
      [done|rewrite H2; apply no_instance| |].
    + intros _ c' Hi [Hr|(r & Hm & Hr)]; rewrite H2 in *.
      * apply (stage_disk _ _ d); simpl; rewrite ?Hi; done.
      * apply (stage_both _ _ d r); [|by left|done]. by split; simpl; rewrite ?Hi.
    + intros r c' k Hi Hm Hr. rewrite H2 in *. eapply survives_Ok; [reflexivity|].
      apply HQ; [|by left]. split; by rewrite ?Hi.
  - eapply (ensure_found_survives FromError (Compute_Instance sdk)); [done| | |].
    + rewrite (b_instances _ _ _ Hb). apply made_named, Hb.
    + intros _. by apply (stage_both _ _ d i).
    + intros k. eapply survives_Ok; [reflexivity|]. by apply HQ.
Qed.

Lemma upsert_twice o l : upsert o (upsert o l) = upsert o l.
Proof using Type.
  assert (without (ObjectId o) (upsert o l) = without (ObjectId o) l) as H.
  { unfold upsert, without. rewrite filter_app, list_filter_filter, filter_cons_False by naive_solver.
    rewrite filter_nil, app_nil_r. apply list_filter_iff. naive_solver. }
  unfold upsert at 1. by rewrite H.
Qed.

Lemma stored_again cur d i :
  cur = objs ∨ cur = stored d i → upsert (of_AgentPool (answered ap i d)) cur = stored d i.
Proof using Type. intros [->| ->]; [done|apply upsert_twice]. Qed.

(** The whole request: it answers the two resources and stores them, or is cut off
    at a stage that it can start from again. *)
Context (p : nebius.AgentPool) (it : Any) (Hit : any_New (of_AgentPool p) = Ok it).
Context (Hrun : runs_as ap ud it).

Lemma request_survives cur v :
  stage cur (durable v) →
  survives cur (Client_CreateOrUpdate as_AgentPool (Parent_CreateOrUpdate srv) (of_AgentPool p)) v
    (λ r v', ∃ d i, r = Ok (answered ap i d) ∧ both d i v'.1.1 ∧ view v'.2.1 (stored d i) ∧
                    ∀ b, v.2.2 ≠ Some (0%nat, b)).
Proof.
  intros Hstage. apply (request_run _ _ ap ud p it _ _ Hit Hrun).
  apply disk_survives; [done|]. intros d w k Hd Hv.
  apply instance_survives; [exact Hd|exact Hv|]. clear Hd. intros i w2 k2 Hb Hc.
  destruct (db_upsert_law v.2.1 cur (of_AgentPool (answered ap i d)) Hv (pool_object _)) as (d' & Hup & Hv');
    [rewrite (stored_again _ _ _ Hc); apply fits|]. rewrite (stored_again _ _ _ Hc) in Hv'.
  exists d'. split; [exact Hup|]. split; [by exists d, i|]. split; [by exists d, i|].
  intros Hk kd. by exists d, i.
Qed.

(** What an attempt leaves, whatever happened to it. *)
Lemma create_at_cases k cur w :
  stage cur w →
  (∃ d i w', create_at p k w = (Ok (answered ap i d), w') ∧ both d i w'.1 ∧ view w'.2 (stored d i) ∧
             ∀ b, k.2 ≠ Some (0%nat, b)) ∨
  (∃ m b w', create_at p k w = (Panic m, w') ∧ (armed k.1 = Some b ∧ stage cur w' ∨
     armed k.2 = Some b ∧ ∃ d i, both d i w'.1 ∧ (cur = objs ∨ cur = stored d i) ∧
                                 view w'.2 (if b then stored d i else cur))).
Proof.
  intros Hs. unfold create_at, killed. destruct k as [kc kd].
  pose proof (request_survives cur ((w.1, kc), (w.2, kd))) as Hq. unfold durable in Hq at 1. simpl in Hq.
  rewrite <-surjective_pairing in Hq. specialize (Hq Hs). unfold survives in Hq. simpl in Hq |- *.
  destruct (Client_CreateOrUpdate _ _ _ _) as [[a|e|m] v'].
  - destruct Hq as ((d & i & [= ->] & Hb & Hv & Hk) & _). left. by exists d, i, (durable v').
  - by destruct Hq as ((d & i & [=] & _) & _).
  - right. destruct Hq as [(b & Hk & Hst')|(b & Hk & d & i & Hb)]; exists m, b, (durable v'); naive_solver.
Qed.

Lemma create_at_stage k w : (∃ cur, stage cur w) → ∃ cur, stage cur (create_at p k w).2.
Proof.
  intros [cur Hs]. destruct (create_at_cases k cur w Hs)
    as [(d & i & w' & -> & Hb & Hv & _)|(m & b & w' & -> & [[_ H]|(_ & d & i & Hb & Hc & Hv)])]; simpl.
  - exists (stored d i). apply (stage_both _ _ d i); auto.
  - by exists cur.
  - destruct b; [exists (stored d i)|exists cur]; apply (stage_both _ _ d i); auto.
Qed.

Lemma create_at_complete ks w :
  stage objs w →
  ∃ d i w', create_at p (None, None) (retried (create_at p) ks w) = (Ok (answered ap i d), w') ∧
    both d i w'.1 ∧ view w'.2 (stored d i).
Proof.
  intros Hs. destruct (retried_invariant (create_at p) (λ w, ∃ cur, stage cur w) ks w) as [cur Hcur];
    [intros k w1; apply create_at_stage|by exists objs|].
  destruct (create_at_cases (None, None) cur _ Hcur) as [(d & i & w' & H & Hb & Hv & _)|(m & b & w' & _ & H)].
  - by exists d, i, w'.
  - by destruct H as [[]|[]].
Qed.

Lemma create_at_unstored w :
  stage objs w →
  ∃ m d i w', create_at p (None, Some (0%nat, false)) w = (Panic m, w') ∧ both d i w'.1 ∧ view w'.2 objs.
Proof.
  intros Hs. destruct (create_at_cases (None, Some (0%nat, false)) objs w Hs)
    as [(d & i & w' & _ & _ & _ & H)|(m & b & w' & H & [[]|([= <-] & d & i & Hb & _ & Hv)])]; [|done|].
  - by destruct (H false).
  - by exists m, d, i, w'.
Qed.
End creation.

(** The first request for a pool that no resource has the name of. *)
Lemma creation_plan p spec cfg :
  valid_pool p spec cfg →
  ∃ cfg' ud it, node_config (Some spec) = Ok (Some cfg') ∧ any_New (of_AgentPool p) = Ok it ∧
    nebius.Status (configured p spec cfg') = None ∧ runs_as (configured p spec cfg') ud it.
Proof using PL PM enc.
  intros Hvalid. destruct (pool_item of_AgentPool as_AgentPool p) as (it & Hit & _ & Hun).
  destruct (Hun p eq_refl) as [Hp _].
  destruct (create_run of_AgentPool as_AgentPool FromError
    (plugin_sdk (D := D * crash) (crashing_sdk sdk)) marshal_step
    json_Marshal bootstrapTemplate yaml_Marshal wgSpokeScript it p spec cfg enc Hp Hvalid)
    as (cfg' & ud & Hcfg & Hrun).
  exists cfg', ud, it. split; [done|]. split; [done|]. split; [exact (vp_status _ _ _ Hvalid)|exact Hrun].
Qed.

(** A request for a pool whose two resources exist changes nothing of the cloud. *)
Lemma found_request p ap ud it d i objs (w : C * D) :
  any_New (of_AgentPool p) = Ok it → runs_as ap ud it → nebius.Status ap = None →
  named (disks w.1) (r_ParentId (DesiredBootDisk (Some ap))) (r_Name (DesiredBootDisk (Some ap))) d →
  named (instances w.1) (r_ParentId (DesiredInstance (Some ap) d ud))
    (r_Name (DesiredInstance (Some ap) d ud)) i →
  view w.2 objs → storable (upsert (of_AgentPool (answered ap i d)) objs) →
  ∃ w', create_at p (None, None) w = (Ok (answered ap i d), w') ∧ w'.1 = w.1 ∧
        view w'.2 (upsert (of_AgentPool (answered ap i d)) objs).
Proof using PL PM DL SL IL started.
  intros Hit Hrun Hst Hd Hi Hv Hs. destruct (db_upsert_law w.2 objs _ Hv (pool_object _) Hs) as (d' & Hup & Hv').
  assert (survives (λ _ _, True) (λ _ _, True)
    (Client_CreateOrUpdate as_AgentPool (Parent_CreateOrUpdate srv) (of_AgentPool p)) ((w.1, None), (w.2, None))
    (λ r v', r = Ok (answered ap i d) ∧ v'.1.1 = w.1 ∧ view v'.2.1 (upsert (of_AgentPool (answered ap i d)) objs)))
    as H.
  { apply (request_run _ _ ap ud p it); [done|done|].
    eapply (ensure_found_survives FromError (Compute_Disk sdk)); [by unfold r_Id; simpl; rewrite Hst|exact Hd|done|].
    intros k. unfold ensure_instance. apply survives_bind, survives_attempt.
    eapply (ensure_found_survives FromError (Compute_Instance sdk));
      [by unfold r_Id; simpl; rewrite Hst|exact Hi|done|].
    intros k2. eapply survives_Ok; [reflexivity|]. by exists d'. }
  unfold create_at, killed. unfold survives in H. simpl in H |- *.
  destruct (Client_CreateOrUpdate _ _ _ _) as [[a|e|m] v'].
  - destruct H as (([= ->] & H1 & H2) & _). by exists (durable v').
  - by destruct H as (([=] & _) & _).
  - by destruct H as [(b & [=] & _)|(b & [=] & _)].
Qed.

Lemma both_created p spec cfg' ud d i w w' :
  node_config (Some spec) = Ok (Some cfg') →
  both (configured p spec cfg') ud (disks w) (instances w) d i w' →
  created FromError sdk p spec cfg' d i w w'.
Proof using SL IL.
  intros Hcfg [Hd Hds Hi His]. pose proof (made_named _ _ _ Hd) as Hnd. pose proof (made_named _ _ _ Hi) as Hni.
  rewrite <-Hds in Hnd. rewrite <-His in Hni.
  assert (disks w' !! r_Id d = Some d) as Hdl by (by rewrite Hds, lookup_insert_eq).
  assert (instances w' !! r_Id i = Some i) as Hil by (by rewrite His, lookup_insert_eq).
  destruct (resources_id _ _ _ Hdl) as [_ Hdne]. destruct (resources_id _ _ _ Hil) as [_ Hine].
  destruct Hd as (Hd0 & _). destruct Hi as (Hi0 & Hip & Hin & His2).
  split; try done. intros _. split; [done|]. by exists ud.
Qed.


(** ** Deletion *)
Section deletion.
Context (name : string) (q : nebius.AgentPool) (objs : list Msg) (w0 : C).
Context (found : find_id name objs = Some (of_AgentPool q)) (fits : storable (without name objs)).
Notation iid := (nebius.GetInstanceId (nebius.Status q)).
Notation did := (nebius.GetOsDiskId (nebius.Status q)).
Context (iid_set : iid ≠ "") (did_set : did ≠ "").

(** How far a deletion has come: the instance goes first, then the disk, and the
    object last. *)
Inductive deleting (w : C * D) : Prop :=
  | deleting_live : instances w.1 = instances w0 → disks w.1 = disks w0 → view w.2 objs → deleting w
  | deleting_instance : instances w.1 = base.delete iid (instances w0) → disks w.1 = disks w0 →
      view w.2 objs → deleting w
  | deleting_disk : instances w.1 = base.delete iid (instances w0) →
      disks w.1 = base.delete did (disks w0) → view w.2 objs → deleting w
  | deleting_done : instances w.1 = base.delete iid (instances w0) →
      disks w.1 = base.delete did (disks w0) → view w.2 (without name objs) → deleting w.

Notation survives := (survives (λ _, deleting) (λ _, deleting)).

(** A read of the database on the way. *)
Lemma get_survives l (v : alive C D) (Q : res (option Msg) → alive C D → Prop) :
  view v.2.1 l → (∀ d, view d l → deleting (v.1.1, d)) →
  (∀ d k, view d l → Q (Ok (find_id name l)) (v.1, (d, k))) →
  survives (db_call (db_Get db name)) v Q.
Proof using DL.
  intros Hv HI HQ. destruct (db_get_law v.2.1 l name Hv) as (d & Hg & Hv').
  eapply survives_db; [exact Hg|done|by apply HI|by apply HI|]. intros _ k. by apply HQ.
Qed.

Lemma back_deletion_survives v Q :
  deleting (durable v) → view v.2.1 objs →
  (∀ w d k kd, instances w = base.delete iid (instances w0) → disks w = base.delete did (disks w0) →
     view d objs → Q (Ok ()) ((w, k), (d, kd))) →
  survives (srv_Delete back name) v Q.
Proof using DL IL SL IA DA IF DF PM found iid_set did_set.
  intros Hdel Hv HQ. cbn [srv_Delete nebius_back]. unfold Instance_Delete.
  assert (∀ d, view d objs → deleting (v.1.1, d)) as Hany.
  { intros d Hd. destruct Hdel as [H1 H2 _|H1 H2 _|H1 H2 _|H1 H2 _];
      [by apply deleting_live|by apply deleting_instance|by apply deleting_disk|by apply deleting_disk]. }
  apply survives_bind. eapply get_survives; [exact Hv|exact Hany|]. rewrite found. intros d kd Hd.
  apply survives_bind. eapply survives_Ok; [unfold To; by rewrite pool_as_of|].
  apply survives_bind. eapply survives_Ok; [reflexivity|]. apply survives_bind.
  specialize (Hany d Hd). clear Hdel Hv.
  apply (delete_survives FromError (Compute_Instance sdk) disks); [exact iid_set| |].
  - intros _ c' Hk Hr. cbn in Hk, Hr. destruct Hany as [H1 H2 _|H1 H2 _|H1 H2 _|H1 H2 _]; cbn in H1, H2;
      rewrite H1, ?delete_delete_eq in Hr; rewrite H2 in Hk; destruct Hr as [Hr|Hr];
      first [by apply deleting_live|by apply deleting_instance|by apply deleting_disk].
  - intros c' k Hk Hr. cbn in Hk, Hr.
    assert (instances c' = base.delete iid (instances w0) ∧
            (disks c' = disks w0 ∨ disks c' = base.delete did (disks w0))) as [H1 H2].
    { destruct Hany as [H1 H2 _|H1 H2 _|H1 H2 _|H1 H2 _]; cbn in H1, H2;
        rewrite H1, ?delete_delete_eq in Hr; rewrite H2 in Hk; auto. }
    apply (delete_survives FromError (Compute_Disk sdk) instances); [exact did_set| |].
    + intros _ c2 Hk2 Hr2. cbn in Hk2, Hr2. rewrite H1 in Hk2.
      destruct H2 as [H2|H2]; rewrite H2, ?delete_delete_eq in Hr2; destruct Hr2 as [Hr2|Hr2];
        first [by apply deleting_instance|by apply deleting_disk].
    + intros c2 k2 Hk2 Hr2. cbn in Hk2, Hr2. apply HQ; [by rewrite Hk2| |done].
      by destruct H2 as [H2|H2]; rewrite H2, ?delete_delete_eq in Hr2.
Qed.

(** A deletion that is over has removed both resources and the object, one that
    was cut off can be started again. *)
Lemma deletion_survives v :
  deleting (durable v) →
  survives (Client_Delete (Parent_Delete srv) name) v
    (λ r v', r = Ok () ∧ instances v'.1.1 = base.delete iid (instances w0) ∧
             disks v'.1.1 = base.delete did (disks w0) ∧ view v'.2.1 (without name objs)).
Proof using PL PM DL IL SL IA DA IF DF started found fits iid_set did_set.
  intros Hdel. destruct (service_registry of_AgentPool as_AgentPool FromError (crashing_sdk sdk)
    (crashing_db db) _ _ _ _ _ newAws newAzure aws azure srv started) as (m & -> & Hm).
  unfold Client_Delete, Parent_Delete. cbn [Servers DB_]. apply survives_bind.
  assert ((view v.2.1 objs ∧ ∀ d, view d objs → deleting (v.1.1, d)) ∨
          (instances v.1.1 = base.delete iid (instances w0) ∧ disks v.1.1 = base.delete did (disks w0) ∧
           view v.2.1 (without name objs))) as [[Hv Hany]|(H1 & H2 & Hv)].
  { destruct Hdel as [H1 H2 H3|H1 H2 H3|H1 H2 H3|H1 H2 H3]; [left..|by right];
      (split; [exact H3|]; intros d Hd);
      [by apply deleting_live|by apply deleting_instance|by apply deleting_disk]. }
  - eapply get_survives; [exact Hv|exact Hany|]. rewrite found. intros d kd Hd. rewrite Hm.
    apply survives_bind. apply back_deletion_survives; [by apply Hany|exact Hd|].
    intros w d2 k kd2 H1 H2 Hv2. destruct (db_delete_law d2 objs name Hv2 fits) as (d3 & Hdd & Hv3).
    eapply survives_db; [exact Hdd|done|by apply deleting_disk|by apply deleting_done|]. by intros _ k3.
  - eapply get_survives; [exact Hv|by intros d Hd; apply deleting_done|]. intros d kd Hd.
    rewrite find_without. by eapply survives_Ok.
Qed.

Lemma delete_at_cases k w :
  deleting w →
  (∃ w', delete_at name k w = (Ok (), w') ∧ instances w'.1 = base.delete iid (instances w0) ∧
         disks w'.1 = base.delete did (disks w0) ∧ view w'.2 (without name objs)) ∨
  (∃ m w', delete_at name k w = (Panic m, w') ∧ deleting w' ∧ k ≠ (None, None)).
Proof using PL PM DL IL SL IA DA IF DF started found fits iid_set did_set.
  intros Hd. unfold delete_at, killed. destruct k as [kc kd].
  pose proof (deletion_survives ((w.1, kc), (w.2, kd))) as Hq. unfold durable in Hq at 1. simpl in Hq.
  rewrite <-surjective_pairing in Hq. specialize (Hq Hd). unfold survives in Hq. simpl in Hq |- *.
  destruct (Client_Delete _ _ _) as [[[]|e|m] v'].
  - left. exists (durable v'). by destruct Hq as ((_ & H1 & H2 & H3) & _).
  - by destruct Hq as ((? & _) & _).
  - right. exists m, (durable v'). destruct Hq as [(b & Hk & H)|(b & Hk & H)];
      (split; [done|]; split; [done|]; by intros [= -> ->]).
Qed.
End deletion.


(** C33: The resources of a creation that was killed before it stored the pool: the
    request that is sent again takes them over, but a deletion of the pool does not
    find it, answers success and leaves both behind. *)
Theorem unstored_pool_orphaned p spec cfg objs (w : C * D) :
  valid_pool p spec cfg → view w.2 objs → (∀ q, storable (upsert (of_AgentPool q) objs)) →
  (∀ r, ¬ named (disks w.1) (project spec) (disk_name p) r) →
  (∀ r, ¬ named (instances w.1) (project spec) (pool_id p) r) →
  find_id (pool_id p) objs = None →
  ∃ m cfg' disk inst w' w'', create_at p (None, Some (0%nat, false)) w = (Panic m, w') ∧
    created FromError sdk p spec cfg' disk inst w.1 w'.1 ∧
    delete_at (pool_id p) (None, None) w' = (Ok (), w'') ∧ w''.1 = w'.1 ∧ view w''.2 objs.
Proof.
  intros Hvalid Hv Hs Hnd Hni Hf.
  destruct (creation_plan p spec cfg Hvalid) as (cfg' & ud & it & Hcfg & Hit & Hst & Hrun).
  destruct (create_at_unstored (configured p spec cfg') ud Hst objs (disks w.1) (instances w.1) Hnd
    (λ _, Hni) Hs p it Hit Hrun w) as (m & d & i & w' & Hc & Hb & Hv'); [by apply stage_none|].
  destruct (service_registry of_AgentPool as_AgentPool FromError (crashing_sdk sdk)
    (crashing_db db) _ _ _ _ _ newAws newAzure aws azure srv started) as (sm & Hsrv & _).
  destruct (db_get_law w'.2 objs (pool_id p) Hv') as (d2 & Hg & Hv2). rewrite Hf in Hg.
  exists m, cfg', d, i, w', (w'.1, d2). split; [exact Hc|]. split; [by eapply both_created|].
  split; [|done]. unfold delete_at, killed, Client_Delete, Parent_Delete. rewrite Hsrv. cbn [DB_ fst snd].
  erewrite M_bind_Ok; [|apply on_db_run; cbn; rewrite Hg; reflexivity]. done.
Qed.

(** C37: A creation that was killed before it stored its pool and is sent again with
    other settings keeps the disk and the instance of the first: the answer and the
    database have the platform of the second request, the instance that of the
    first. *)
Theorem retry_keeps_first p p2 spec spec2 cfg cfg2 objs (w : C * D) :
  valid_pool p spec cfg → valid_pool p2 spec2 cfg2 →
  pool_id p2 = pool_id p → project spec2 = project spec →
  view w.2 objs → (∀ q, storable (upsert (of_AgentPool q) objs)) →
  (∀ r, ¬ named (disks w.1) (project spec) (disk_name p) r) →
  (∀ r, ¬ named (instances w.1) (project spec) (pool_id p) r) →
  ∃ m cfg' cfg2' disk inst w' w'', create_at p (None, Some (0%nat, false)) w = (Panic m, w') ∧
    created FromError sdk p spec cfg' disk inst w.1 w'.1 ∧
    let q := answered (configured p2 spec2 cfg2') inst disk in
    create_at p2 (None, None) w' = (Ok q, w'') ∧ w''.1 = w'.1 ∧
    view w''.2 (upsert (of_AgentPool q) objs) ∧
    Resources_Platform (r_Spec inst) = nebius.GetPlatform (Some spec) ∧
    nebius.GetPlatform (nebius.Spec q) = nebius.GetPlatform (Some spec2).
Proof.
  intros Hvalid Hvalid2 Hid Hproj Hv Hs Hnd Hni.
  destruct (creation_plan p spec cfg Hvalid) as (cfg' & ud & it & Hcfg & Hit & Hst & Hrun).
  destruct (creation_plan p2 spec2 cfg2 Hvalid2) as (cfg2' & ud2 & it2 & _ & Hit2 & Hst2 & Hrun2).
  destruct (create_at_unstored (configured p spec cfg') ud Hst objs (disks w.1) (instances w.1) Hnd
    (λ _, Hni) Hs p it Hit Hrun w) as (m & d & i & w' & Hc & Hb & Hv'); [by apply stage_none|].
  destruct (found_request p2 (configured p2 spec2 cfg2') ud2 it2 d i objs w' Hit2 Hrun2 Hst2)
    as (w'' & H1 & H2 & H3); [..|exact Hv'|apply Hs|].
  - rewrite (b_disks _ _ _ _ _ _ _ Hb). pose proof (made_named _ _ _ (b_disk _ _ _ _ _ _ _ Hb)) as H.
    cbn in H |- *. unfold pool_id, project in *. simpl in *. by rewrite Hid, Hproj.
  - rewrite (b_instances _ _ _ _ _ _ _ Hb). pose proof (made_named _ _ _ (b_instance _ _ _ _ _ _ _ Hb)) as H.
    cbn in H |- *. unfold pool_id, project in *. simpl in *. by rewrite Hid, Hproj.
  - exists m, cfg', cfg2', d, i, w', w''. split; [exact Hc|]. split; [by eapply both_created|].
    split_and!; [done|done|done| |done]. destruct (b_instance _ _ _ _ _ _ _ Hb) as (_ & _ & _ & ->). done.
Qed.
End service.

(** ** A poll that fails

    The calls of the cloud with errors instead of crashes, as [Faults] injects them. *)
Section polls.
Context {C Msg : Type} `{PR : ProtoRuntime Msg} {PL : ProtoLaws Msg}.
Context (of_AgentPool : nebius.AgentPool → Msg) (as_AgentPool : Msg → option nebius.AgentPool).
Context (FromError : error → option Code) (sdk : SDK C).
Context {IL : ServiceLaws FromError (Compute_Instance sdk)} {SL : ServiceLaws FromError (Compute_Disk sdk)}.
Notation instances := (resources (s := Compute_Instance sdk)).
Notation disks := (resources (s := Compute_Disk sdk)).
Context {IF : ServiceFrame (Compute_Instance sdk) disks} {DF : ServiceFrame (Compute_Disk sdk) instances}.
Context (marshal_step : flex.Step → res string) (json_Marshal : list string → res string)
        (bootstrapTemplate : string → string → res string) (yaml_Marshal : UserData → res string)
        (wgSpokeScript : string).
#[local] Set Default Proof Using "Type*".

Definition faulty_service {S} (s : Service C S) : Service (C * faults) S := {|
  Op := Op C S s;
  svc_GetByName parent name := inject (svc_GetByName s parent name);
  svc_Get id := inject (svc_Get s id);
  svc_Create md spec := inject (svc_Create s md spec);
  svc_Update md spec := inject (svc_Update s md spec);
  svc_Delete id := inject (svc_Delete s id);
  svc_Wait op := inject (svc_Wait s op);
|}.
Definition faulty_sdk : SDK (C * faults) := {|
  Compute_Instance := faulty_service (Compute_Instance sdk);
  Compute_Disk := faulty_service (Compute_Disk sdk);
|}.

(** The first [n] calls succeed, the next one is carried out but answers [e]. *)
Definition fails_at (n : nat) (e : error) : faults := replicate n None ++ [Some (Unanswered e)].

Lemma inject_None {A} (c : M C A) w fs r w' : c w = (r, w') → inject c (w, None :: fs) = (r, (w', fs)).
Proof using Type. unfold inject. by intros ->. Qed.
Lemma inject_nil {A} (c : M C A) w r w' : c w = (r, w') → inject c (w, []) = (r, (w', [])).
Proof using Type. unfold inject. by intros ->. Qed.

Section service.
Context {S : Type} (s : Service C S) {L : ServiceLaws FromError s}.
Notation crud := (ResourceCRUDFactory FromError (faulty_service s)).

Lemma faulty_missing (desired : Resource S) w fs :
  (∀ r, ¬ named (resources w) (r_ParentId desired) (r_Name desired) r) →
  getByName crud desired (w, None :: fs) = (Err (ErrStatus NotFound (r_Name desired)), (w, fs)).
Proof using L. intros Hn. apply inject_None. by apply by_name_missing. Qed.

(** Four calls make what is missing. *)
Lemma faulty_create (desired : Resource S) w fs :
  r_Id desired = "" → (∀ r, ¬ named (resources w) (r_ParentId desired) (r_Name desired) r) →
  ∃ r w', CRUD_CreateOrUpdate FromError crud DriftTODO desired (w, replicate 4 None ++ fs) = (Ok r, (w', fs)) ∧
    made (resources w) desired r ∧ resources w' = <[r_Id r := r]> (resources w) ∧ r_Id r ≠ "" ∧
    ∀ V (part : C → V), ServiceFrame s part → part w' = part w.
Proof using L.
  intros He Hn. destruct (creation_calls FromError s w desired Hn)
    as (op & w1 & w2 & r & Hc & Hw & Hget & Hmade & Hres & Hne & Hk). exists r, w2.
  split_and!; [|done|done|done|intros V part SF; by destruct (Hk V part SF)].
  - unfold CRUD_CreateOrUpdate, fails_at; cbn [replicate app]. rewrite bool_decide_eq_false_2 by naive_solver.
    rewrite (attempt_Err _ _ _ _ _ (faulty_missing _ _ _ Hn)).
    rewrite (not_found_code FromError s). unfold create, ResourceCRUDFactory, faulty_service; cbn.
    rewrite (M_bind_Ok _ _ _ _ _ (inject_None _ _ _ _ _ Hc)), (M_bind_Ok _ _ _ _ _ (inject_None _ _ _ _ _ Hw)).
    by apply inject_None.
Qed.

(** The poll of the creation fails: the resource is there, the answer an error. *)
Lemma faulty_poll (desired : Resource S) w e :
  r_Id desired = "" → (∀ r, ¬ named (resources w) (r_ParentId desired) (r_Name desired) r) →
  ∃ r w', CRUD_CreateOrUpdate FromError crud DriftTODO desired (w, fails_at 2 e) = (Err e, (w', [])) ∧
    made (resources w) desired r ∧ resources w' = <[r_Id r := r]> (resources w) ∧
    ∀ V (part : C → V), ServiceFrame s part → part w' = part w.
Proof using L.
  intros He Hn. destruct (creation_calls FromError s w desired Hn)
    as (op & w1 & w2 & r & Hc & Hw & Hget & Hmade & Hres & Hne & Hk). exists r, w2.
  split_and!; [|done|done|intros V part SF; by destruct (Hk V part SF)].
  - unfold CRUD_CreateOrUpdate, fails_at; cbn [replicate app]. rewrite bool_decide_eq_false_2 by naive_solver.
    rewrite (attempt_Err _ _ _ _ _ (faulty_missing _ _ _ Hn)).
    rewrite (not_found_code FromError s). unfold create, ResourceCRUDFactory, faulty_service; cbn.
    rewrite (M_bind_Ok _ _ _ _ _ (inject_None _ _ _ _ _ Hc)). apply M_bind_Err. cbn. by rewrite Hw.
Qed.

Lemma faulty_delete (t : Resource S) w :
  r_Id t ≠ "" →
  ∃ w', CRUD_Delete FromError crud t (w, []) = (Ok (), (w', [])) ∧
    resources w' = base.delete (r_Id t) (resources w) ∧
    ∀ V (part : C → V), ServiceFrame s part → part w' = part w.
Proof using L.
  intros Hne. unfold CRUD_Delete. rewrite bool_decide_eq_true_2 by done.
  unfold delete, ResourceCRUDFactory, faulty_service; cbn.
  destruct (resources w !! r_Id t) as [r|] eqn:E.
  - destruct (delete_law w (r_Id t)) as (op & w1 & w2 & Hd & Hw & Hr); [by rewrite E|]. exists w2.
    rewrite (attempt_Ok _ _ _ _ _ (inject_nil _ _ _ _ Hd)), (M_bind_Ok _ _ _ _ _ (inject_nil _ _ _ _ Hw)).
    split_and!; [done|done|]. intros V part SF.
    by rewrite (keeps_eq part _ _ _ _ (wait_frame _) Hw), (keeps_eq part _ _ _ _ (delete_frame _) Hd).
  - exists w. rewrite (attempt_Err _ _ _ _ _ (inject_nil _ _ _ _ (delete_missing w (r_Id t) E))).
    unfold ignoreNotFound. rewrite (not_found_code FromError s), delete_id by done. done.
Qed.
End service.

Context (enc : encoders marshal_step json_Marshal bootstrapTemplate yaml_Marshal).
Context (any_ok : ∀ p, is_Ok (any_New (of_AgentPool p))).
Notation Create sdk := (Instance_CreateOrUpdate of_AgentPool as_AgentPool FromError (Some sdk)
  marshal_step json_Marshal bootstrapTemplate yaml_Marshal wgSpokeScript).

(** A request that finds the instance, not the disk. *)
Lemma second_request it p spec cfg (w w1 : C) inst :
  AnyTo as_AgentPool (Some it) = Ok p → valid_pool p spec cfg → disks w1 = disks w →
  (∀ r, ¬ named (disks w) (project spec) (disk_name p) r) →
  named (instances w1) (project spec) (pool_id p) inst →
  ∃ cfg' disk2 it' w2, let q := answered (configured p spec cfg') inst disk2 in
    Create sdk (Some it) w1 = (Ok (Some it'), w2) ∧ UnmarshalNew it' = Ok (of_AgentPool q) ∧
    instances w2 = instances w1 ∧ disks w2 = <[r_Id disk2 := disk2]> (disks w).
Proof.
  intros Hit Hvalid Hdisks Hnd Hnamed. pose proof (vp_status _ _ _ Hvalid) as Hst.
  destruct (create_run of_AgentPool as_AgentPool FromError sdk marshal_step json_Marshal
    bootstrapTemplate yaml_Marshal wgSpokeScript it p spec cfg enc Hit Hvalid) as (cfg' & ud & _ & Hrun).
  destruct (ensure_disk FromError sdk p spec cfg cfg' w1 Hvalid) as (disk2 & w2 & Hd & Hres & _).
  pose proof (keeps_eq _ _ _ _ _ (CRUD_CreateOrUpdate_keeps FromError (Compute_Disk sdk) instances _) Hd) as Hk.
  rewrite <-Hk in Hnamed.
  pose proof (ensure_existing FromError (Compute_Instance sdk) w2
    (DesiredInstance (Some (configured p spec cfg')) disk2 ud) inst) as Hi.
  specialize (Hi ltac:(unfold r_Id; simpl; by rewrite Hst) Hnamed).
  pose proof (any_ok (answered (configured p spec cfg') inst disk2)) as Hany.
  destruct (any_New _) as [it'| |] eqn:E; [|done..].
  exists cfg', disk2, it', w2. split_and!; [|by apply any_round|done|by rewrite Hres, Hdisks].
  rewrite Hrun, (M_bind_Ok _ _ _ _ _ Hd).
  assert (ensure_instance FromError sdk disk2 (DesiredInstance (Some (configured p spec cfg')) disk2 ud) w2
    = (Ok inst, w2)) as He by (unfold ensure_instance; by rewrite (attempt_Ok _ _ _ _ _ Hi)).
  rewrite (M_bind_Ok _ _ _ _ _ He). cbv zeta. by rewrite (bind_lift_Ok _ _ _ _ E).
Qed.

End polls.

(** ** The hypotheses can hold *)
Section zoom.
Context {W L S : Type} (get : W → L) (set : L → W → W).
Context (get_set : ∀ l w, get (set l w) = l) (set_get : ∀ w, set (get w) w = w).

Lemma zoom_accept {FE} {s : Service L S} {SL : ServiceLaws FE s} :
  AcceptLaws FE s → @AcceptLaws _ _ FE (zoom_service get set s) (zoom_laws get set get_set set_get SL).
Proof using Type.
  intros [Hc Hd]. split.
  - intros w md spec op w1 Hn H. cbn in H, Hn |- *. unfold zoom in H.
    destruct (svc_Create s md spec (get w)) as [r l] eqn:E. injection H as -> <-. rewrite get_set.
    by apply (Hc _ _ _ op).
  - intros w id op w1 H. cbn in H |- *. unfold zoom in H.
    destruct (svc_Delete s id (get w)) as [r l] eqn:E. injection H as -> <-. rewrite get_set.
    by apply (Hd _ _ op).
Qed.
End zoom.

(** The cloud in memory carries out a change as soon as it is accepted. *)
Lemma mem_accept S : AcceptLaws MemService.code_of (MemService.mem_service S).
Proof.
  split.
  - intros w md spec op w1 Hn [= <- <-]. right.
    exists (MemService.mk (md_ParentId md, md_Name md) spec). cbn.
    split_and!; [|apply MemService.mem_resources_insert|done..].
    apply eq_None_not_Some. intros [r (k & spec' & Hk%(inj MemService.id_of) & Hl & ->)%MemService.mem_resources_Some].
    subst. eapply Hn, MemService.mem_named. eauto.
  - intros w id op w1. cbn. destruct (MemService.mem_resources w !! id) as [r|] eqn:E; [|done].
    intros [= <- <-]. right. apply MemService.mem_resources_Some in E as ([p n] & spec & -> & Hk & ->).
    apply MemService.mem_resources_delete.
Qed.

Module Mem.
#[global] Instance instance_accept :
  AcceptLaws MemService.code_of (Compute_Instance NebiusInstance.Mem.sdk).
Proof. apply zoom_accept, mem_accept. Qed.
#[global] Instance disk_accept :
  AcceptLaws MemService.code_of (Compute_Disk NebiusInstance.Mem.sdk).
Proof. apply zoom_accept, mem_accept. Qed.

Definition no_back : server (alive NebiusInstance.Mem.W File.file) :=
  {| srv_CreateOrUpdate _ := mret None; srv_List _ := mret []; srv_Get _ := mret None;
     srv_Delete _ := mret () |}.
Notation service := (agentpools_service (λ p, p) Some MemService.code_of
  (crashing_sdk NebiusInstance.Mem.sdk) (crashing_db EndToEnd.Mem.db)
  (λ _, Ok "{}") (λ _, Ok "[]") (λ _ _, Ok "#!") (λ _, Ok "yaml") "#!wg" (Ok no_back) (Ok no_back)
  EndToEnd.Mem.empty_pool EndToEnd.Mem.empty_pool).
Lemma killed_service_started : ∃ srv, service = Ok srv.
Proof. by eexists. Qed.

Definition w0 : NebiusInstance.Mem.W * File.file := ((∅, ∅), empty_file).

(** The pool with another platform. *)
Definition spec2 : nebius.AgentPoolSpec :=
  {| nebius.ProjectId := Some "project"; nebius.Region := Some "EU-North1";
     nebius.SubnetId := Some "subnet"; nebius.Platform := Some "gpu-h100-sxm";
     nebius.Preset := Some "1gpu-16vcpu-200gb"; nebius.ImageFamily := Some "ubuntu24.04";
     nebius.OsDiskSizeGibibytes := Some 128; nebius.Kubeadm := Some NebiusInstance.Mem.cfg;
     nebius.Wireguard := None; nebius.Gpu := None; nebius.Zone := None; nebius.Capacity := None;
     nebius.KubernetesVersion := Some "v1.34.2" |}.
Definition pool2 : nebius.AgentPool :=
  {| nebius.Metadata := nebius.Metadata NebiusInstance.Mem.pool; nebius.Spec := Some spec2;
     nebius.Status := None |}.
Lemma pool2_valid : valid_pool pool2 spec2 NebiusInstance.Mem.cfg.
Proof. by split. Qed.

(** Killed after the second call of the cloud, before the fifth, and after the pool was stored. *)
Definition kills : list (crash * crash) :=
  [(Some (1%nat, true), None); (Some (4%nat, false), None); (None, Some (0%nat, true))].
End Mem.



Lemma unstored_pool_orphaned_witness :
  ∃ srv m w' w'', create_at (λ p, p) Some srv NebiusInstance.Mem.pool (None, Some (0%nat, false)) Mem.w0
      = (Panic m, w') ∧
    delete_at srv "pool1" (None, None) w' = (Ok (), w'') ∧ w''.1 = w'.1.
Proof.
  destruct Mem.killed_service_started as (srv & Hsrv).
  destruct (unstored_pool_orphaned (DL := EndToEnd.Mem.db_laws) (λ p, p) Some MemService.code_of NebiusInstance.Mem.sdk
    EndToEnd.Mem.db (λ _, Ok "{}") (λ _, Ok "[]") (λ _ _, Ok "#!") (λ _, Ok "yaml") "#!wg" NebiusInstance.Mem.encoders_ok
    (Ok Mem.no_back) (Ok Mem.no_back) EndToEnd.Mem.empty_pool EndToEnd.Mem.empty_pool srv Hsrv
    NebiusInstance.Mem.pool NebiusInstance.Mem.spec NebiusInstance.Mem.cfg [] Mem.w0
    NebiusInstance.Mem.pool_valid EndToEnd.Mem.empty_view (λ _, EndToEnd.Mem.pools_fit _)
    (NebiusInstance.Mem.no_disks (∅, ∅) _ _ eq_refl)
    (NebiusInstance.Mem.no_instances (∅, ∅) _ _ eq_refl) eq_refl)
    as (m & cfg' & disk & inst & w' & w'' & H & _ & H2 & H3 & _).
  exists srv, m, w', w''. split; [exact H|]. split; [exact H2|exact H3].
Defined.

Lemma retry_keeps_first_witness :
  ∃ srv m q w' w'', create_at (λ p, p) Some srv NebiusInstance.Mem.pool (None, Some (0%nat, false)) Mem.w0
      = (Panic m, w') ∧
    create_at (λ p, p) Some srv Mem.pool2 (None, None) w' = (Ok q, w'') ∧ w''.1 = w'.1 ∧
    nebius.GetPlatform (nebius.Spec q) = "gpu-h100-sxm".
Proof.
  destruct Mem.killed_service_started as (srv & Hsrv).
  destruct (retry_keeps_first (DL := EndToEnd.Mem.db_laws) (λ p, p) Some MemService.code_of NebiusInstance.Mem.sdk
    EndToEnd.Mem.db (λ _, Ok "{}") (λ _, Ok "[]") (λ _ _, Ok "#!") (λ _, Ok "yaml") "#!wg" NebiusInstance.Mem.encoders_ok
    (Ok Mem.no_back) (Ok Mem.no_back) EndToEnd.Mem.empty_pool EndToEnd.Mem.empty_pool srv Hsrv
    NebiusInstance.Mem.pool Mem.pool2 NebiusInstance.Mem.spec Mem.spec2
    NebiusInstance.Mem.cfg NebiusInstance.Mem.cfg [] Mem.w0
    NebiusInstance.Mem.pool_valid Mem.pool2_valid eq_refl eq_refl
    EndToEnd.Mem.empty_view (λ _, EndToEnd.Mem.pools_fit _)
    (NebiusInstance.Mem.no_disks (∅, ∅) _ _ eq_refl)
    (NebiusInstance.Mem.no_instances (∅, ∅) _ _ eq_refl))
    as (m & cfg' & cfg2 & disk & inst & w' & w'' & H & _ & H2 & H3 & _ & _ & H4).
  eexists srv, m, _, w', w''. split_and!; [exact H|exact H2|exact H3|exact H4].
Defined.

