(* ===== verification/Refresh.v ===== *)
(** * The background refresh beside the requests

    [karpenter/pkg/cloudproviders/nebius/instancetype/provider.go]: the goroutine of
    [refreshLoop] and the calls of [getOrResolveCachedEntry] run at the same time on
    one cache.  A call gives up the processor between its accesses to the cache, to
    the cloud and to the active keys, each of which is one step; the ticker's channel
    holds one tick at most. *)
From Stdlib Require Import SpecFloat.
From S2P Require Import Prelude GoStr Karp InstanceTypes.
From stdpp Require Import options.
#[local] Open Scope nat_scope.

Section refresh.
Context `{SCH : Scheduling} `{LR : LRU cachedEntry}.
Context (ParseFloat : string → option spec_float).
Context (completion : list PlatformPreset → list PlatformPreset).
Context (azurev1beta1 : AzureLabels) (KubeReservedResources : Z → Z → gmap string Z)
        (SystemReservedResources EvictionThreshold_ : gmap string Z).
Notation resolve :=
  (resolve ParseFloat completion azurev1beta1 KubeReservedResources SystemReservedResources EvictionThreshold_).
Notation getOrResolveCachedEntry := (getOrResolveCachedEntry ParseFloat completion azurev1beta1
  KubeReservedResources SystemReservedResources EvictionThreshold_).
Notation refresh_key := (refresh_key ParseFloat completion azurev1beta1 KubeReservedResources
  SystemReservedResources EvictionThreshold_).
Notation refreshAll := (refreshAll ParseFloat completion azurev1beta1 KubeReservedResources
  SystemReservedResources EvictionThreshold_).
Notation entry_wf := (entry_wf azurev1beta1 KubeReservedResources SystemReservedResources EvictionThreshold_).

(** ** The goroutines *)

(** A call of [getOrResolveCachedEntry], by what it does next. *)
Inductive call :=
  | Asking (key : NodeClassKey)
  | Resolving (key : NodeClassKey)
  | Adding (key : NodeClassKey) (entry : cachedEntry)
  | Tracking (key : NodeClassKey) (entry : cachedEntry)
  | Answered (key : NodeClassKey) (r : res cachedEntry).

Inductive call_step : Provider * call → Provider * call → Prop :=
  | ask_hit key e op op' : cache_Get key op = (Ok (Some e), op') →
      call_step (op, Asking key) (op', Answered key (Ok e))
  | ask_miss key op op' : cache_Get key op = (Ok None, op') →
      call_step (op, Asking key) (op', Resolving key)
  | call_resolved cloud key e op : resolve cloud key = Ok e →
      call_step (op, Resolving key) (op, Adding key e)
  | call_failed cloud key err op : resolve cloud key = Err err →
      call_step (op, Resolving key) (op, Answered key (Err err))
  | call_added key e op op' : cache_Add key e op = (Ok (), op') →
      call_step (op, Adding key e) (op', Tracking key e)
  | call_tracked key e op op' : trackKey key op = (Ok (), op') →
      call_step (op, Tracking key e) (op', Answered key (Ok e)).

(** The goroutine of [refreshLoop]: in its [select], in [refreshAll] with keys to
    come, with an entry to put in the cache, or ended. *)
Inductive loop :=
  | Waiting
  | Refreshing (todo : list NodeClassKey)
  | Renewing (key : NodeClassKey) (entry : cachedEntry) (todo : list NodeClassKey)
  | Exited.

(** The state of the goroutine with the tick of its channel; [cloud] is what the
    cloud answers during the step. *)
Inductive refreshLoop (cloud : Cloud) : Provider * loop * bool → Provider * loop * bool → Prop :=
  | loop_stop op t : stopped op = true → refreshLoop cloud (op, Waiting, t) (op, Exited, t)
  | loop_tick op keys : keys ≡ₚ elements (activeKeys op) →
      refreshLoop cloud (op, Waiting, true) (op, Refreshing keys, false)
  | loop_resolved key e todo op t : resolve cloud key = Ok e →
      refreshLoop cloud (op, Refreshing (key :: todo), t) (op, Renewing key e todo, t)
  | loop_failed key err todo op t : resolve cloud key = Err err →
      refreshLoop cloud (op, Refreshing (key :: todo), t) (op, Refreshing todo, t)
  | loop_renewed key e todo op op' t : cache_Add key e op = (Ok (), op') →
      refreshLoop cloud (op, Renewing key e todo, t) (op', Refreshing todo, t)
  | loop_done op t : refreshLoop cloud (op, Refreshing [], t) (op, Waiting, t).

Record Sys := { prov : Provider; loop_ : loop; tick : bool; calls : list call }.

(** [newProvider]: an empty cache and the goroutine. *)
Definition Sys_init : Sys := {| prov := newProvider; loop_ := Waiting; tick := false; calls := [] |}.

Inductive Sys_step : Sys → Sys → Prop :=
  | sys_loop cloud s op l t : refreshLoop cloud (prov s, loop_ s, tick s) (op, l, t) →
      Sys_step s {| prov := op; loop_ := l; tick := t; calls := calls s |}
  | sys_call s i c c' op : calls s !! i = Some c → call_step (prov s, c) (op, c') →
      Sys_step s {| prov := op; loop_ := loop_ s; tick := tick s; calls := <[i := c']> (calls s) |}
  | sys_new s key :
      Sys_step s {| prov := prov s; loop_ := loop_ s; tick := tick s; calls := calls s ++ [Asking key] |}
  | sys_tick s :
      Sys_step s {| prov := prov s; loop_ := loop_ s; tick := true; calls := calls s |}
  | sys_stop s op : Stop (prov s) = (Ok (), op) →
      Sys_step s {| prov := op; loop_ := loop_ s; tick := tick s; calls := calls s |}.

(** ** Left alone, the steps are the functions *)
Context {LL : LRULaws cachedEntry}.

Lemma call_alone cloud key op r op' :
  getOrResolveCachedEntry cloud key op = (r, op') → rtc call_step (op, Asking key) (op', Answered key r).
Proof using LL.
  unfold InstanceTypes.getOrResolveCachedEntry. destruct (run_Get key op) as (op1 & Hg & _).
  rewrite (M_bind_Ok _ _ _ _ _ Hg). destruct (contents (cache op) !! key) as [e|] eqn:E.
  { intros [= <- <-]. by apply rtc_once, ask_hit. }
  intros H. eapply rtc_l; [by eapply ask_miss|]. revert H.
  destruct (resolve cloud key) as [e|err|p] eqn:Er.
  - intros [= <- <-]. eapply rtc_l; [by eapply call_resolved|]. eapply rtc_l; [by eapply call_added|].
    by apply rtc_once, call_tracked.
  - intros [= <- <-]. by eapply rtc_once, call_failed.
  - by destruct (resolve_no_panic ParseFloat completion azurev1beta1 KubeReservedResources
      SystemReservedResources EvictionThreshold_ cloud key p).
Qed.

Lemma refresh_keys_alone cloud keys op t r op' :
  for_each (refresh_key cloud) keys op = (r, op') →
  r = Ok () ∧ rtc (refreshLoop cloud) (op, Refreshing keys, t) (op', Waiting, t).
Proof using Type.
  revert op. induction keys as [|key keys IH]; intros op.
  { intros [= <- <-]. split; [done|]. apply rtc_once, loop_done. }
  simpl. destruct (resolve cloud key) as [e|err|p] eqn:Er.
  - assert (refresh_key cloud key op = cache_Add key e op) as Hk by (unfold InstanceTypes.refresh_key; by rewrite Er).
    rewrite (M_bind_Ok _ _ _ _ _ Hk). intros [-> H]%IH. split; [done|].
    eapply rtc_l; [by eapply loop_resolved|]. eapply rtc_l; [by eapply loop_renewed|]. exact H.
  - assert (refresh_key cloud key op = (Ok (), op)) as Hk by (unfold InstanceTypes.refresh_key; by rewrite Er).
    rewrite (M_bind_Ok _ _ _ _ _ Hk). intros [-> H]%IH. split; [done|].
    by eapply rtc_l; [eapply loop_failed|].
  - by destruct (resolve_no_panic ParseFloat completion azurev1beta1 KubeReservedResources
      SystemReservedResources EvictionThreshold_ cloud key p).
Qed.

Lemma refresh_alone cloud op op' r :
  refreshAll cloud op = (r, op') →
  r = Ok () ∧ rtc (refreshLoop cloud) (op, Waiting, true) (op', Waiting, false).
Proof using Type.
  intros H. apply (refresh_keys_alone _ _ _ false) in H as [-> H]. split; [done|].
  eapply rtc_l; [by apply loop_tick|]. exact H.
Qed.

(** ** The invariant *)

(** The entries in the cache and in the hands of a goroutine are those of their
    keys; a cached key is renewed by the loop, or about to be tracked; the loop
    renews active keys only. *)
Definition tracking (cs : list call) (k : NodeClassKey) : Prop := ∃ e, Tracking k e ∈ cs.
Definition cache_ok (op : Provider) (cs : list call) : Prop := ∀ k e,
  contents (cache op) !! k = Some e → entry_wf k e ∧ (k ∈ activeKeys op ∨ tracking cs k).
Definition call_ok (c : call) : Prop :=
  match c with
  | Adding k e | Tracking k e | Answered k (Ok e) => entry_wf k e
  | _ => True
  end.
Definition loop_keys (l : loop) : list NodeClassKey :=
  match l with Refreshing todo => todo | Renewing key _ todo => key :: todo | _ => [] end.
Definition loop_ok (op : Provider) (l : loop) : Prop :=
  Forall (λ k, k ∈ activeKeys op) (loop_keys l) ∧
  match l with Renewing k e _ => entry_wf k e | _ => True end.
Definition Sys_ok (s : Sys) : Prop :=
  cache_ok (prov s) (calls s) ∧ Forall call_ok (calls s) ∧ loop_ok (prov s) (loop_ s).

Lemma get_keeps key op r op' :
  cache_Get key op = (r, op') →
  r = Ok (contents (cache op) !! key) ∧ contents (cache op') = contents (cache op) ∧
  activeKeys op' = activeKeys op ∧ stopped op' = stopped op.
Proof using LL. destruct (run_Get key op) as (op1 & -> & Hc & Ha & Hs). by intros [= <- <-]. Qed.

(** The result of the access to the cache a step makes. *)
#[local] Ltac get_eq H1 H2 H3 H4 :=
  match goal with H : cache_Get _ _ = _ |- _ => destruct (get_keeps _ _ _ _ H) as (H1 & H2 & H3 & H4) end.
#[local] Ltac step_eq :=
  match goal with
  | H : cache_Add _ _ _ = _ |- _ => injection H as <-
  | H : trackKey _ _ = _ |- _ => injection H as <-
  end.

(** A call that was not about to track a key goes on. *)
Lemma tracking_insert cs i c c' k :
  cs !! i = Some c → (∀ e, c ≠ Tracking k e) → tracking cs k → tracking (<[i := c']> cs) k.
Proof using Type.
  intros Hi Hc [e He]. exists e. apply list_elem_of_lookup in He as [j Hj].
  apply list_elem_of_lookup. exists j. rewrite list_lookup_insert_ne; [done|].
  intros ->. rewrite Hi in Hj. injection Hj as ->. by destruct (Hc e).
Qed.

Lemma loop_step_ok cloud op l t op' l' t' cs :
  cache_ok op cs → loop_ok op l → refreshLoop cloud (op, l, t) (op', l', t') →
  cache_ok op' cs ∧ loop_ok op' l' ∧ activeKeys op' = activeKeys op ∧ stopped op' = stopped op.
Proof using LL.
  intros Hc [Hk He] Hstep. inversion Hstep; subst.
  - done.
  - split_and!; try done. split; [|done]. apply Forall_forall. intros k Hin.
    apply elem_of_elements. by match goal with H : _ ≡ₚ _ |- _ => rewrite <-H end.
  - split_and!; try done. split; [done|]. by eapply resolve_wf.
  - apply Forall_cons in Hk as [_ Hk]. by split_and!.
  - step_eq. apply Forall_cons in Hk as [Hk0 Hk]. split_and!; try done.
    intros k' e' [[-> ->]|[_ H']]%add_entry; [split; [done|by left]|by apply Hc].
  - by split_and!.
Qed.

Lemma call_step_ok op c op' c' cs i :
  cache_ok op cs → Forall call_ok cs → cs !! i = Some c → call_step (op, c) (op', c') →
  cache_ok op' (<[i := c']> cs) ∧ Forall call_ok (<[i := c']> cs) ∧
  activeKeys op ⊆ activeKeys op' ∧ stopped op' = stopped op.
Proof using LL.
  intros Hc Hcs Hi Hstep. pose proof (Forall_lookup_1 _ _ _ _ Hcs Hi) as Hci.
  assert (∀ op1, contents (cache op1) = contents (cache op) → activeKeys op1 = activeKeys op →
    (∀ k e, c ≠ Tracking k e) → cache_ok op1 (<[i := c']> cs)) as Hsame.
  { intros op1 H1 H2 H3 k e. rewrite H1, H2. intros H. destruct (Hc k e H) as [Hw [Ha|Ht]]; split; auto.
    right. by eapply tracking_insert. }
  inversion Hstep; subst.
  - get_eq He H2 H3 H4.
    split_and!; [by apply Hsame| |by rewrite H3|done].
    apply Forall_insert; [done|]. injection He as He. symmetry in He. exact (proj1 (Hc _ _ He)).
  - get_eq He H2 H3 H4.
    split_and!; [by apply Hsame|by apply Forall_insert|by rewrite H3|done].
  - split_and!; [by apply Hsame| |done|done]. apply Forall_insert; [done|]. by eapply resolve_wf.
  - split_and!; [by apply Hsame|by apply Forall_insert|done|done].
  - step_eq. split_and!; [|by apply Forall_insert|done|done].
    intros k' e' [[-> ->]|[_ H']]%add_entry.
    + split; [done|]. right. exists e. apply list_elem_of_lookup. exists i.
      apply list_lookup_insert_eq. by eapply lookup_lt_Some.
    + destruct (Hc k' e' H') as [Hw [Ha|Ht]]; split; auto. right. by eapply tracking_insert.
  - step_eq. split_and!; [|by apply Forall_insert|simpl; set_solver|done].
    intros k' e' H'. destruct (Hc k' e' H') as [Hw Ht]. split; [done|]. simpl.
    destruct (decide (k' = key)) as [->|Hne]; [left; set_solver|].
    destruct Ht as [Ha|Ht]; [left; set_solver|right]. eapply tracking_insert; [done| |done]. by intros e2 [=].
Qed.

Lemma Sys_step_ok s s' : Sys_ok s → Sys_step s s' → Sys_ok s' ∧ activeKeys (prov s) ⊆ activeKeys (prov s').
Proof using LL.
  intros (H1 & H2 & H3) Hstep. destruct Hstep as [cloud s op l t Hl|s i c c' op Hi Hc|s key|s|s op Hst];
    unfold Sys_ok; simpl.
  - destruct (loop_step_ok _ _ _ _ _ _ _ (calls s) H1 H3 Hl) as (? & ? & -> & _). by split_and!.
  - destruct (call_step_ok _ _ _ _ _ _ H1 H2 Hi Hc) as (? & ? & Ha & _). split_and!; [done|done| |done].
    destruct H3 as [Hk He]. split; [|done]. eapply Forall_impl; [exact Hk|]. intros k Hin. by apply Ha.
  - split_and!; [|by apply Forall_app; split; [|by constructor]|done|done].
    intros k e He. destruct (H1 k e He) as [Hw [Ha|[e' Ht]]]; split; auto. right. exists e'.
    apply elem_of_app. by left.
  - done.
  - unfold Stop in Hst. destruct (stopped (prov s)); [done|]. injection Hst as <-. done.
Qed.

Lemma Sys_init_ok : Sys_ok Sys_init.
Proof using LL.
  unfold Sys_ok. split_and!; [|constructor|by split]. intros k e H. simpl in H.
  by rewrite new_law, lookup_empty in H.
Qed.

Lemma Sys_reachable_ok s : rtc Sys_step Sys_init s → Sys_ok s.
Proof using LL.
  intros H. pose proof Sys_init_ok as Hok. induction H as [|s s1 s2 Hs _ IH]; [done|].
  by apply IH, (Sys_step_ok _ _ Hok Hs).
Qed.

(** C31: In every state the refresh and any number of calls can reach together, a cached
    entry pairs the presets of its key with their instance types, and so does every
    answer of a call.  A cached key is one the loop renews, or one that the call that
    cached it is about to hand to the loop: once the calls are over every cached key
    is renewed.  No key is ever taken from the loop again. *)
Theorem concurrent_cache_ok s :
  rtc Sys_step Sys_init s →
  (∀ k e, contents (cache (prov s)) !! k = Some e →
     entry_wf k e ∧ (k ∈ activeKeys (prov s) ∨ ∃ e', Tracking k e' ∈ calls s)) ∧
  (∀ k e, Answered k (Ok e) ∈ calls s → entry_wf k e) ∧
  ((∀ c, c ∈ calls s → ∃ k r, c = Answered k r) →
     provider_ok azurev1beta1 KubeReservedResources SystemReservedResources EvictionThreshold_ (prov s)) ∧
  (∀ s', rtc Sys_step s s' → activeKeys (prov s) ⊆ activeKeys (prov s')).
Proof using LL.
  intros Hr. pose proof (Sys_reachable_ok s Hr) as Hok. pose proof Hok as (H1 & H2 & _).
  split_and!; [exact H1| | |].
  - intros k e He. exact (proj1 (Forall_forall _ _) H2 _ He).
  - intros Hdone. split; [intros k e He; by apply H1|]. intros k [e He]%elem_of_dom.
    destruct (H1 k e He) as [_ [Ha|[e' Ht]]]; [done|]. by destruct (Hdone _ Ht) as (? & ? & [=]).
  - intros s' Hs. clear Hr H1 H2. induction Hs as [|s s1 s2 Hs _ IH]; [done|].
    destruct (Sys_step_ok _ _ Hok Hs) as [Hok1 Ha]. etrans; [exact Ha|by apply IH].
Qed.

(** ** Stopping *)

(** The steps the loop has left once it is stopped, with a tick of the channel that
    the [select] may take first. *)
Definition waiting_bound (n : nat) (t : bool) : nat := if t then 2 * n + 3 else 1.
Definition loop_bound (op : Provider) (l : loop) (t : bool) : nat :=
  let n := size (activeKeys op) in
  match l with
  | Waiting => waiting_bound n t
  | Refreshing todo => 2 * length todo + 1 + waiting_bound n t
  | Renewing _ _ todo => 2 * length todo + 2 + waiting_bound n t
  | Exited => 0
  end.

Lemma loop_step_bound cloud op l t op' l' t' :
  refreshLoop cloud (op, l, t) (op', l', t') → activeKeys op' = activeKeys op ∧ stopped op' = stopped op ∧
  (stopped op = true → loop_bound op' l' t' < loop_bound op l t).
Proof using Type.
  intros Hstep. inversion Hstep; subst; try step_eq; (split; [done|]); (split; [done|]); intros Hs; simpl.
  - destruct t'; simpl; lia.
  - match goal with H : _ ≡ₚ _ |- _ => rewrite H end.
    change (length (elements (activeKeys op'))) with (size (activeKeys op')). lia.
  - lia.
  - lia.
  - lia.
  - lia.
Qed.

(** Only a stopped loop ends. *)
Lemma exited_stopped s : rtc Sys_step Sys_init s → loop_ s = Exited → stopped (prov s) = true.
Proof using LL.
  intros Hr. assert (Sys_ok s ∧ (loop_ s = Exited → stopped (prov s) = true)) as [_ H]; [|exact H].
  remember Sys_init as s0 eqn:E. assert (Sys_ok s0 ∧ (loop_ s0 = Exited → stopped (prov s0) = true)) as H0.
  { subst. split; [apply Sys_init_ok|done]. }
  clear E. induction Hr as [s|s s1 s2 Hs _ IH]; [done|]. apply IH. destruct H0 as [Hok Hex].
  split; [by apply (Sys_step_ok _ _ Hok Hs)|].
  destruct Hs as [cloud s op l t Hl|s i c c' op Hi Hc|s key|s|s op Hst]; simpl; [| |exact Hex|exact Hex|].
  - inversion Hl; subst; done.
  - destruct Hok as (H1 & H2 & _). destruct (call_step_ok _ _ _ _ _ _ H1 H2 Hi Hc) as (_ & _ & _ & ->). done.
  - unfold Stop in Hst. destruct (stopped (prov s)); [done|]. injection Hst as <-. done.
Qed.

End refresh.

(** ** The hypotheses can hold *)
Module Mem.
Import InstanceTypes.Mem.
Notation Step := (Sys_step ParseFloat id az (λ _ _, ∅) ∅ ∅).

(** A call that was answered from the cloud, with a tick to come and a stop. *)
Lemma answered_run : ∃ s, rtc Step Sys_init s ∧ Answered key (Ok entry) ∈ calls s.
Proof.
  eexists. split.
  - eapply rtc_l; [apply (sys_new _ _ _ _ _ _ _ key)|].
    eapply rtc_l; [eapply (sys_call _ _ _ _ _ _ _ 0); [reflexivity|by apply ask_miss]|].
    eapply rtc_l; [eapply (sys_call _ _ _ _ _ _ _ 0); [reflexivity|]|].
    { eapply call_resolved. exact resolve_entry. }
    eapply rtc_l; [eapply (sys_call _ _ _ _ _ _ _ 0); [reflexivity|by apply call_added]|].
    eapply rtc_once. eapply (sys_call _ _ _ _ _ _ _ 0); [reflexivity|by apply call_tracked].
  - left.
Qed.

Definition stopped_sys : Sys :=
  {| prov := {| cache := lru_New; activeKeys := ∅; stopped := true |}; loop_ := Waiting; tick := true;
     calls := [] |}.
Lemma stopped_run : rtc Step Sys_init stopped_sys.
Proof. eapply rtc_l; [apply sys_tick|]. apply rtc_once. by apply sys_stop. Qed.
End Mem.

Lemma concurrent_cache_ok_witness :
  ∃ s, Answered InstanceTypes.Mem.key (Ok InstanceTypes.Mem.entry) ∈ calls s ∧
       entry_wf InstanceTypes.Mem.az (λ _ _, ∅) ∅ ∅ InstanceTypes.Mem.key InstanceTypes.Mem.entry.
Proof.
  destruct Mem.answered_run as (s & Hr & Hin).
  destruct (concurrent_cache_ok InstanceTypes.Mem.ParseFloat id InstanceTypes.Mem.az (λ _ _, ∅) ∅ ∅ s Hr)
    as (_ & H & _). exists s. split; [exact Hin|exact (H _ _ Hin)].
Defined.

