(* ===== verification/Plugin.v ===== *)
(** * The services of the plugin together

    [plugin/pkg/services]: the four services of one process with the back ends they
    really have.  The world has the three clouds, the files of the user and the three
    databases; every client of the source works on its own part of it. *)
From S2P Require Import Prelude GoStr Karp Store Helper Proto DB Server UserData NebiusResource.
From S2P Require Import K8s Kubeadm Encoding Aws Azure.
From S2P Require NebiusInstance NebiusNetwork.
From stdpp Require Import options.

(** ** The world of the process *)
Record World (A Z N F P T R : Type) := {
  w_aws : A; w_azure : Z; w_nebius : N; w_files : F;
  w_pools : P; w_networks : T; w_peerings : R;
}.
Arguments w_aws {A Z N F P T R}.
Arguments w_azure {A Z N F P T R}.
Arguments w_nebius {A Z N F P T R}.
Arguments w_files {A Z N F P T R}.
Arguments w_pools {A Z N F P T R}.
Arguments w_networks {A Z N F P T R}.
Arguments w_peerings {A Z N F P T R}.
Arguments Build_World {A Z N F P T R}.

(** The clouds and the databases, and what of a world does not belong to a request
    of a database and a cloud. *)
Inductive cloud := AwsCloud | AzureCloud | NebiusCloud.
#[global] Instance cloud_eq_dec : EqDecision cloud.
Proof. solve_decision. Defined.
Inductive store := PoolsDB | NetworksDB | PeeringsDB.
#[global] Instance store_eq_dec : EqDecision store.
Proof. solve_decision. Defined.

Definition hide {X} (P : Prop) `{Decision P} (x : X) : option X := if decide P then None else Some x.
Definition frozen {A Z N F P T R} (s : store) (c : option cloud) (w : World A Z N F P T R) :=
  (hide (c = Some AwsCloud) (w_aws w), hide (c = Some AzureCloud) (w_azure w),
   hide (c = Some NebiusCloud) (w_nebius w), hide (s = PoolsDB) (w_pools w),
   hide (s = NetworksDB) (w_networks w), hide (s = PeeringsDB) (w_peerings w)).

(** ** Clients on a part of a bigger world *)
Section lift.
Context {W L : Type} (get : W → L) (set : L → W → W).
Notation on := (zoom get set).

Definition on_aws {Cfg} (aws : AWS L Cfg) : AWS W Cfg := {|
  LoadDefaultConfig r := on (LoadDefaultConfig aws r);
  DescribeStacks c n := on (DescribeStacks aws c n);
  CreateStack c n t p := on (CreateStack aws c n t p);
  StackCreateComplete_Wait c n := on (StackCreateComplete_Wait aws c n);
  UpdateStack c n t p := on (UpdateStack aws c n t p);
  StackUpdateComplete_Wait c n := on (StackUpdateComplete_Wait aws c n);
  DeleteStack c n := on (DeleteStack aws c n);
  StackDeleteComplete_Wait c n := on (StackDeleteComplete_Wait aws c n);
  DescribeVpnConnections c i := on (DescribeVpnConnections aws c i);
  RebootInstances c l := on (RebootInstances aws c l);
|}.

Definition on_vmss (vmss : VMSS L) : VMSS W := {|
  vmss_NewClient := vmss_NewClient vmss;
  vmss_BeginCreateOrUpdate r s := on (vmss_BeginCreateOrUpdate vmss r s);
  vmss_PollCreateOrUpdate r := on (vmss_PollCreateOrUpdate vmss r);
  vmss_BeginDelete r f := on (vmss_BeginDelete vmss r f);
  vmss_PollDelete r := on (vmss_PollDelete vmss r);
  vmss_ListPages r w := (λ page, on page) <$> vmss_ListPages vmss r (get w);
  vmss_BeginRestart r l := on (vmss_BeginRestart vmss r l);
  vmss_PollRestart r := on (vmss_PollRestart vmss r);
|}.

Definition on_os (os : OS L) : OS W := {|
  os_ReadFile n := on (os_ReadFile os n); os_WriteFile n b := on (os_WriteFile os n b);
  os_MkdirAll n := on (os_MkdirAll os n); IsNotExist := IsNotExist os;
|}.

Definition on_compute (sdk : NebiusInstance.SDK L) : NebiusInstance.SDK W := {|
  NebiusInstance.Compute_Instance := zoom_service get set (NebiusInstance.Compute_Instance sdk);
  NebiusInstance.Compute_Disk := zoom_service get set (NebiusInstance.Compute_Disk sdk);
|}.

Definition on_vpc (sdk : NebiusNetwork.SDK L) : NebiusNetwork.SDK W := {|
  NebiusNetwork.VPC_Pool := zoom_service get set (NebiusNetwork.VPC_Pool sdk);
  NebiusNetwork.VPC_Network := zoom_service get set (NebiusNetwork.VPC_Network sdk);
  NebiusNetwork.VPC_Subnet := zoom_service get set (NebiusNetwork.VPC_Subnet sdk);
|}.

Definition on_database {Msg} (db : DB L Msg) : DB W Msg := {|
  db_List := on (db_List db); db_Get id := on (db_Get db id);
  db_CreateOrUpdate obj := on (db_CreateOrUpdate db obj); db_Delete id := on (db_Delete db id);
|}.

Lemma keeps_zoom {V A} (part : W → V) (c : M L A) :
  (∀ l w, part (set l w) = part w) → keeps part (zoom get set c).
Proof. intros H w. unfold zoom. destruct (c (get w)). apply H. Qed.

(** A database on a part of the world behaves as the database. *)
Context (get_set : ∀ l w, get (set l w) = l).
#[program] Definition on_database_laws {Msg} `{Object Msg} {db : DB L Msg} (DL : DBLaws db) :
    DBLaws (on_database db) := {| view w := view (get w); storable := storable |}.
Next Obligation. intros Msg OB db DL w objs. apply view_distinct. Qed.
Next Obligation.
  intros Msg OB db DL w objs H. destruct (db_list_law _ _ H) as (d & Hd & Hv).
  exists (set d w). rewrite get_set. split; [by apply zoom_run|done].
Qed.
Next Obligation.
  intros Msg OB db DL w objs id H. destruct (db_get_law _ _ id H) as (d & Hd & Hv).
  exists (set d w). rewrite get_set. split; [by apply zoom_run|done].
Qed.
Next Obligation.
  intros Msg OB db DL w objs obj H Ho Hs. destruct (db_upsert_law _ _ obj H Ho Hs) as (d & Hd & Hv).
  exists (set d w). rewrite get_set. split; [by apply zoom_run|done].
Qed.
Next Obligation.
  intros Msg OB db DL w objs id H Hs. destruct (db_delete_law _ _ id H Hs) as (d & Hd & Hv).
  exists (set d w). rewrite get_set. split; [by apply zoom_run|done].
Qed.
End lift.

(** ** The back ends of the process *)
Section plugin.
Context {A Z N F P T R Cfg Msg : Type} `{PR : ProtoRuntime Msg} `{OB : Object Msg}.
Notation W := (World A Z N F P T R).

Definition set_aws (x : A) (w : W) : W :=
  Build_World x (w_azure w) (w_nebius w) (w_files w) (w_pools w) (w_networks w) (w_peerings w).
Definition set_azure (x : Z) (w : W) : W :=
  Build_World (w_aws w) x (w_nebius w) (w_files w) (w_pools w) (w_networks w) (w_peerings w).
Definition set_nebius (x : N) (w : W) : W :=
  Build_World (w_aws w) (w_azure w) x (w_files w) (w_pools w) (w_networks w) (w_peerings w).
Definition set_files (x : F) (w : W) : W :=
  Build_World (w_aws w) (w_azure w) (w_nebius w) x (w_pools w) (w_networks w) (w_peerings w).
Definition set_pools (x : P) (w : W) : W :=
  Build_World (w_aws w) (w_azure w) (w_nebius w) (w_files w) x (w_networks w) (w_peerings w).
Definition set_networks (x : T) (w : W) : W :=
  Build_World (w_aws w) (w_azure w) (w_nebius w) (w_files w) (w_pools w) x (w_peerings w).
Definition set_peerings (x : R) (w : W) : W :=
  Build_World (w_aws w) (w_azure w) (w_nebius w) (w_files w) (w_pools w) (w_networks w) x.

(** The messages of the process. *)
Context (of_aws_pool : ubuntu2404instance.AgentPool → Msg)
        (as_aws_pool : Msg → option ubuntu2404instance.AgentPool)
        (of_azure_pool : ubuntu2404vmss.AgentPool → Msg)
        (as_azure_pool : Msg → option ubuntu2404vmss.AgentPool)
        (of_nebius_pool : nebius.AgentPool → Msg) (as_nebius_pool : Msg → option nebius.AgentPool)
        (of_aws_instance : ubuntu2404instance.Instance → Msg)
        (of_azure_instance : ubuntu2404vmss.Instance → Msg)
        (of_aws_network : awsvpc.Network → Msg) (as_aws_network : Msg → option awsvpc.Network)
        (of_nebius_network : vpc.Network → Msg) (as_nebius_network : Msg → option vpc.Network)
        (of_peering : ipsecvpn.Peering → Msg) (as_peering : Msg → option ipsecvpn.Peering).
(** The clients of the clouds, the files and the databases. *)
Context (aws : AWS A Cfg) (as_APIError : error → option (string * string))
        (vmss : VMSS Z) (ParseResourceID : string → res ResourceID)
        (FromError : error → option Code)
        (compute : NebiusInstance.SDK N) (vpc_ : NebiusNetwork.SDK N)
        (os : OS F) (Getenv : string → string)
        (agentpoolsDB : DB P Msg) (networksDB : DB T Msg) (peeringsDB : DB R Msg).
(** The embedded templates, the encoders of the user data and the credentials. *)
Context (poolJSON networkJSON peeringJSON wgSpokeScript : string)
        (range : gmap string string → list (string * string))
        (encode_kubeconfig : KConfig → res string) (encode_join : JoinConfiguration → res string)
        (marshal_step : flex.Step → res string) (json_Marshal : list string → res string)
        (bootstrapTemplate : string → string → res string)
        (yaml_Marshal : UserData → res string) (gzip : string → res string)
        (NewDefaultAzureCredential : res ()).

Notation pools_db := (on_database w_pools set_pools agentpoolsDB).
Notation networks_db := (on_database w_networks set_networks networksDB).
Notation peerings_db := (on_database w_peerings set_peerings peeringsDB).
Notation aws_ := (on_aws w_aws set_aws aws).
Notation vmss_ := (on_vmss w_azure set_azure vmss).
Notation os_ := (on_os w_files set_files os).

(** A back end with the two reads of its embedded unimplemented server. *)
Definition back (create : option Any → M W (option Any)) (delete : string → M W ()) : server W := {|
  srv_CreateOrUpdate := create; srv_Delete := delete;
  srv_List _ := fail (ErrStatus Unimplemented "method List not implemented");
  srv_Get _ := fail (ErrStatus Unimplemented "method Get not implemented");
|}.

Definition AwsPool_New : res (server W) :=
  Ok (back (AwsPool_CreateOrUpdate aws_ as_APIError poolJSON of_aws_pool as_aws_pool os_ Getenv range
              encode_kubeconfig encode_join yaml_Marshal gzip)
           (AwsPool_Delete aws_ (db_Get pools_db) as_aws_pool)).
Definition AzurePool_New : res (server W) :=
  _ ← NewDefaultAzureCredential;
  Ok (back (Azure_CreateOrUpdate vmss_ ParseResourceID of_azure_pool as_azure_pool os_ Getenv
              marshal_step json_Marshal bootstrapTemplate yaml_Marshal gzip)
           (Azure_Delete vmss_ ParseResourceID (db_Get pools_db) as_azure_pool)).
Definition NebiusPool_New : res (server W) :=
  Ok (back (NebiusInstance.Instance_CreateOrUpdate of_nebius_pool as_nebius_pool FromError
              (Some (on_compute w_nebius set_nebius compute)) marshal_step json_Marshal
              bootstrapTemplate yaml_Marshal wgSpokeScript)
           (NebiusInstance.Instance_Delete as_nebius_pool FromError
              (Some (on_compute w_nebius set_nebius compute)) (db_Get pools_db))).

Definition AwsNetwork_New : res (server W) :=
  Ok (back (AwsNetwork_CreateOrUpdate aws_ as_APIError networkJSON of_aws_network as_aws_network)
           (AwsNetwork_Delete aws_ (db_Get networks_db) as_aws_network)).
Definition NebiusNetwork_New : res (server W) :=
  Ok (back (NebiusNetwork.Vpc_CreateOrUpdate of_nebius_network as_nebius_network FromError
              (Some (on_vpc w_nebius set_nebius vpc_)))
           (NebiusNetwork.Vpc_Delete as_nebius_network FromError
              (Some (on_vpc w_nebius set_nebius vpc_)) (db_Get networks_db))).
Definition AwsPeering_New : res (server W) :=
  Ok (back (AwsPeering_CreateOrUpdate aws_ as_APIError peeringJSON of_peering as_peering)
           (AwsPeering_Delete aws_ (db_Get peerings_db) as_peering)).

(** The servers of the instances; a creation or deletion of one is unimplemented. *)
Definition instances_back (list_ : string → M W (list Any)) (get : string → M W (option Any)) : server W := {|
  srv_CreateOrUpdate _ := fail (ErrStatus Unimplemented "method CreateOrUpdate not implemented");
  srv_List := list_; srv_Get := get;
  srv_Delete _ := fail (ErrStatus Unimplemented "method Delete not implemented");
|}.
Definition AwsInstances_New : res (server W) :=
  Ok (instances_back (AwsInstances_List (db_Get pools_db) of_aws_instance)
                     (AwsInstances_Get (db_Get pools_db) of_aws_instance)).
Definition AzureInstances_New : res (server W) :=
  _ ← NewDefaultAzureCredential;
  Ok (instances_back
        (AzureInstances_List vmss_ ParseResourceID (db_Get pools_db) as_azure_pool of_azure_instance)
        (AzureInstances_Get (db_Get pools_db) of_azure_instance)).

(** The messages under whose types the back ends are registered. *)
Definition aws_pool0 : Msg := of_aws_pool
  {| ubuntu2404instance.Metadata := None; ubuntu2404instance.Spec := None; ubuntu2404instance.Status := None |}.
Definition azure_pool0 : Msg := of_azure_pool
  {| ubuntu2404vmss.Metadata := None; ubuntu2404vmss.Spec := None; ubuntu2404vmss.Status := None |}.
Definition nebius_pool0 : Msg := of_nebius_pool
  {| nebius.Metadata := None; nebius.Spec := None; nebius.Status := None |}.
Definition aws_network0 : Msg := of_aws_network
  {| awsvpc.Metadata := None; awsvpc.Spec := None; awsvpc.Status := None |}.
Definition nebius_network0 : Msg := of_nebius_network
  {| vpc.Metadata := None; vpc.Spec := None; vpc.Status := None |}.
Definition peering0 : Msg := of_peering
  {| ipsecvpn.Metadata := None; ipsecvpn.Spec := None; ipsecvpn.Status := None |}.

(** The four services of the process, with the restarts of the instances. *)
Record Services := {
  s_agentpools : Parent W Msg;
  s_instances : VirtualChild W Msg;
  s_restarts : gmap string (string → M W ());
  s_networks : Parent W Msg;
  s_peerings : Parent W Msg;
}.

Definition restarts : gmap string (string → M W ()) :=
  <[TypeURL azure_pool0 := AzureInstances_Restart vmss_ ParseResourceID (db_Get pools_db) as_azure_pool]>
    (<[TypeURL aws_pool0 := AwsInstances_Restart aws_ (db_Get pools_db) as_aws_pool]> ∅).

(** The body of [startOnce]; a back end that cannot be made panics. *)
Definition start_services : res Services :=
  agentpools ← NewAgentPoolsServer pools_db AwsPool_New AzurePool_New NebiusPool_New
                 aws_pool0 azure_pool0 nebius_pool0;
  instances ← NewInstancesServer pools_db AwsInstances_New AzureInstances_New aws_pool0 azure_pool0;
  networks ← NewNetworksServer networks_db AwsNetwork_New NebiusNetwork_New aws_network0 nebius_network0;
  peerings ← NewPeeringsServer peerings_db AwsPeering_New peering0;
  Ok {| s_agentpools := agentpools; s_instances := instances; s_restarts := restarts;
        s_networks := networks; s_peerings := peerings |}.

(** ** Who works on what *)

(** The cloud of each registered type; of two types of one name the last counts. *)
Definition pool_clouds : gmap string cloud :=
  <[TypeURL nebius_pool0 := NebiusCloud]> (<[TypeURL azure_pool0 := AzureCloud]>
    (<[TypeURL aws_pool0 := AwsCloud]> ∅)).
Definition network_clouds : gmap string cloud :=
  <[TypeURL nebius_network0 := NebiusCloud]> (<[TypeURL aws_network0 := AwsCloud]> ∅).
Definition peering_clouds : gmap string cloud := <[TypeURL peering0 := AwsCloud]> ∅.

(** A back end of a service leaves the other clouds and databases alone. *)
Definition confined (s : store) (c : cloud) (srv : server W) : Prop :=
  (∀ item, keeps (frozen s (Some c)) (srv_CreateOrUpdate srv item)) ∧
  (∀ id, keeps (frozen s (Some c)) (srv_Delete srv id)).

#[local] Hint Extern 1 (keeps _ (zoom _ _ _)) => apply keeps_zoom; intros; reflexivity : flex.
#[local] Hint Extern 1 (keeps _ (CRUD_CreateOrUpdate _ _ _ _)) =>
  apply CRUD_CreateOrUpdate_keeps, zoom_frame; intros; reflexivity : flex.
#[local] Hint Extern 1 (keeps _ (CRUD_Delete _ _ _)) =>
  apply CRUD_Delete_keeps, zoom_frame; intros; reflexivity : flex.

Lemma public_key_keeps s c : keeps (frozen s c) (PublicKey os_ Getenv).
Proof.
  unfold PublicKey. generalize [filepath_Join [Getenv "HOME"; ".ssh/id_ed25519.pub"];
    filepath_Join [Getenv "HOME"; ".ssh/id_rsa.pub"]]. intros l.
  induction l as [|n l IH]; simpl; [auto with flex|]. apply keeps_bind; [apply keeps_attempt; auto with flex|].
  intros [e|b]; [exact IH|auto with flex].
Qed.

Lemma deploy_keeps s cfg n t p :
  keeps (frozen s (Some AwsCloud)) (Deploy aws_ as_APIError cfg n t p).
Proof. unfold Deploy, create, update, GetStack. simpl. solve_keeps. Qed.
#[local] Hint Resolve public_key_keeps deploy_keeps : flex.

Lemma aws_pool_confined srv : AwsPool_New = Ok srv → confined PoolsDB AwsCloud srv.
Proof.
  intros [= <-]. split; intros x; simpl; unfold AwsPool_CreateOrUpdate, AwsPool_Delete, Delete; simpl; solve_keeps.
Qed.
Lemma azure_pool_confined srv : AzurePool_New = Ok srv → confined PoolsDB AzureCloud srv.
Proof.
  unfold AzurePool_New. destruct NewDefaultAzureCredential as [[]| |]; [|done..]. intros [= <-].
  split; intros x; simpl; unfold Azure_CreateOrUpdate, Azure_Delete; simpl; solve_keeps.
Qed.
Lemma nebius_pool_confined srv : NebiusPool_New = Ok srv → confined PoolsDB NebiusCloud srv.
Proof.
  intros [= <-]. split; intros x; simpl.
  - unfold NebiusInstance.Instance_CreateOrUpdate, NebiusInstance.node_userdata,
      NebiusInstance.ensure_instance, NebiusInstance.InstanceCRUD, NebiusInstance.DiskCRUD.
    apply keeps_bind; [auto with flex|]. intros ap. case_match; [auto with flex|].
    apply keeps_bind_lift. intros sdk [= <-]. simpl. solve_keeps.
  - unfold NebiusInstance.Instance_Delete, NebiusInstance.InstanceCRUD, NebiusInstance.DiskCRUD.
    apply keeps_bind; [simpl; auto with flex|]. intros [obj|]; [|auto with flex].
    apply keeps_bind; [auto with flex|]. intros ap. apply keeps_bind_lift. intros sdk [= <-]. simpl. solve_keeps.
Qed.
Lemma aws_network_confined srv : AwsNetwork_New = Ok srv → confined NetworksDB AwsCloud srv.
Proof.
  intros [= <-]. split; intros x; simpl; unfold AwsNetwork_CreateOrUpdate, AwsNetwork_Delete, Delete;
    simpl; solve_keeps.
Qed.
Lemma nebius_network_confined srv : NebiusNetwork_New = Ok srv → confined NetworksDB NebiusCloud srv.
Proof.
  intros [= <-]. split; intros x; simpl.
  - unfold NebiusNetwork.Vpc_CreateOrUpdate, NebiusNetwork.PoolCRUD, NebiusNetwork.NetworkCRUD,
      NebiusNetwork.SubnetCRUD.
    apply keeps_bind; [auto with flex|]. intros n. apply keeps_bind_lift. intros sdk [= <-]. simpl. solve_keeps.
  - unfold NebiusNetwork.Vpc_Delete, NebiusNetwork.PoolCRUD, NebiusNetwork.NetworkCRUD,
      NebiusNetwork.SubnetCRUD.
    apply keeps_bind; [simpl; auto with flex|]. intros [obj|]; [|auto with flex].
    apply keeps_bind; [auto with flex|]. intros n. apply keeps_bind_lift. intros sdk [= <-]. simpl. solve_keeps.
Qed.
Lemma aws_peering_confined srv : AwsPeering_New = Ok srv → confined PeeringsDB AwsCloud srv.
Proof.
  intros [= <-]. split; intros x; simpl; unfold AwsPeering_CreateOrUpdate, AwsPeering_Delete, Delete,
    GetVpnConnection; simpl; solve_keeps.
Qed.

(** The registries. *)
Definition registry_confined (s : store) (m : gmap string (server W)) (clouds : gmap string cloud) : Prop :=
  ∀ url srv, m !! url = Some srv → ∃ c, clouds !! url = Some c ∧ confined s c srv.

Lemma registry_empty s : registry_confined s ∅ ∅.
Proof. intros url srv H. by rewrite lookup_empty in H. Qed.
Lemma registry_insert s m clouds url c srv :
  confined s c srv → registry_confined s m clouds →
  registry_confined s (<[url := srv]> m) (<[url := c]> clouds).
Proof.
  intros Hc Hm u srv'. rewrite lookup_insert_Some. intros [[<- <-]|[Hne H]].
  - exists c. by rewrite lookup_insert_eq.
  - destruct (Hm u srv' H) as (c' & Hl & Hc'). exists c'. by rewrite lookup_insert_ne.
Qed.

Section parent.
Context {D : Type} (get : W → D) (set : D → W → W) (db : DB D Msg) (s : store).
Context (hidden : ∀ d w c, frozen s c (set d w) = frozen s c w).
Context (m : gmap string (server W)) (clouds : gmap string cloud) (Hm : registry_confined s m clouds).
Notation srv := {| DB_ := on_database get set db; Servers := m |}.

Lemma db_keeps {B} (c : M D B) o : keeps (frozen s o) (zoom get set c).
Proof using hidden. by apply keeps_zoom. Qed.

Lemma parent_create_confined it : keeps (frozen s (clouds !! TypeUrl it)) (Parent_CreateOrUpdate srv (Some it)).
Proof using hidden Hm.
  unfold Parent_CreateOrUpdate. simpl. destruct (m !! TypeUrl it) as [srv2|] eqn:E; [|auto with flex].
  destruct (Hm _ _ E) as (c & -> & [Hc _]). apply keeps_bind; [apply Hc|]. intros resp.
  apply keeps_bind; [auto with flex|]. intros obj. apply keeps_bind; [apply db_keeps|]. intros _.
  apply keeps_bind; auto with flex.
Qed.

Lemma parent_delete_confined (DL : DBLaws db) id objs w :
  view (get w) objs →
  let o := find_id id objs ≫= λ obj, clouds !! TypeURL obj in
  frozen s o (Parent_Delete srv id w).2 = frozen s o w.
Proof using hidden Hm.
  intros Hv o. unfold Parent_Delete. cbn [DB_ on_database db_Get].
  destruct (db_get_law (get w) objs id Hv) as (d & Hg & _).
  rewrite (M_bind_Ok _ _ _ _ _ (zoom_run _ _ _ _ _ _ Hg)). subst o.
  destruct (find_id id objs) as [obj|]; [|simpl; apply hidden]. cbn [mbind option_bind Servers].
  destruct (m !! TypeURL obj) as [srv2|] eqn:E; [|simpl; apply hidden].
  destruct (Hm _ _ E) as (c & -> & [_ Hc]).
  pose proof (keeps_bind _ _ _ (Hc id) (λ _, db_keeps (db_Delete db id) (Some c)) (set d w)) as Hk.
  rewrite hidden in Hk. exact Hk.
Qed.

Lemma parent_get_confined id : keeps (frozen s None) (Parent_Get srv id).
Proof using hidden.
  unfold Parent_Get. apply keeps_bind; [apply db_keeps|]. intros [obj|]; [|auto with flex].
  apply keeps_bind; auto with flex.
Qed.
Lemma parent_list_confined id : keeps (frozen s None) (Parent_List srv id).
Proof using hidden.
  unfold Parent_List. apply keeps_bind; [apply db_keeps|]. intros objs.
  induction objs as [|o objs IH]; simpl; [auto with flex|]. apply keeps_bind; [auto with flex|].
  intros x. apply keeps_bind; [exact IH|auto with flex].
Qed.
End parent.

Lemma services_started s :
  start_services = Ok s →
  NewDefaultAzureCredential = Ok () ∧
  (∃ m, s_agentpools s = {| DB_ := pools_db; Servers := m |} ∧ registry_confined PoolsDB m pool_clouds) ∧
  (∃ m, s_networks s = {| DB_ := networks_db; Servers := m |} ∧ registry_confined NetworksDB m network_clouds) ∧
  (∃ m, s_peerings s = {| DB_ := peerings_db; Servers := m |} ∧ registry_confined PeeringsDB m peering_clouds).
Proof.
  unfold start_services, NewAgentPoolsServer, NewInstancesServer, NewNetworksServer, NewPeeringsServer,
    pool_clouds, network_clouds, peering_clouds.
  pose proof (aws_pool_confined _ eq_refl) as H1. pose proof (nebius_pool_confined _ eq_refl) as H2.
  pose proof (aws_network_confined _ eq_refl) as H3. pose proof (nebius_network_confined _ eq_refl) as H4.
  pose proof (aws_peering_confined _ eq_refl) as H5. pose proof azure_pool_confined as H6.
  unfold AzurePool_New, AzureInstances_New in *. destruct NewDefaultAzureCredential as [[]| |]; [|done..].
  specialize (H6 _ eq_refl). intros [= <-]. split; [done|]. split; [|split];
    (eexists; split; [reflexivity|]); repeat (apply registry_insert; [done|]); apply registry_empty.
Qed.

(** C32: The services of one process do not disturb each other.  A
    creation reaches the cloud of the type of its item alone, a deletion that of the
    stored object alone, and reads none; none of them changes the database of
    another service.  So an outage or an error of one cloud leaves the objects and
    resources of the others as they are. *)
Theorem services_isolated s :
  start_services = Ok s →
  (∀ it, keeps (frozen PoolsDB (pool_clouds !! TypeUrl it)) (Parent_CreateOrUpdate (s_agentpools s) (Some it))) ∧
  (∀ it, keeps (frozen NetworksDB (network_clouds !! TypeUrl it)) (Parent_CreateOrUpdate (s_networks s) (Some it))) ∧
  (∀ it, keeps (frozen PeeringsDB (peering_clouds !! TypeUrl it)) (Parent_CreateOrUpdate (s_peerings s) (Some it))) ∧
  (∀ (DL : DBLaws agentpoolsDB) id objs w, view (w_pools w) objs →
     let o := find_id id objs ≫= λ obj, pool_clouds !! TypeURL obj in
     frozen PoolsDB o (Parent_Delete (s_agentpools s) id w).2 = frozen PoolsDB o w) ∧
  (∀ (DL : DBLaws networksDB) id objs w, view (w_networks w) objs →
     let o := find_id id objs ≫= λ obj, network_clouds !! TypeURL obj in
     frozen NetworksDB o (Parent_Delete (s_networks s) id w).2 = frozen NetworksDB o w) ∧
  (∀ (DL : DBLaws peeringsDB) id objs w, view (w_peerings w) objs →
     let o := find_id id objs ≫= λ obj, peering_clouds !! TypeURL obj in
     frozen PeeringsDB o (Parent_Delete (s_peerings s) id w).2 = frozen PeeringsDB o w) ∧
  (∀ id, keeps (frozen PoolsDB None) (Parent_Get (s_agentpools s) id) ∧
         keeps (frozen PoolsDB None) (Parent_List (s_agentpools s) id) ∧
         keeps (frozen NetworksDB None) (Parent_Get (s_networks s) id) ∧
         keeps (frozen NetworksDB None) (Parent_List (s_networks s) id) ∧
         keeps (frozen PeeringsDB None) (Parent_Get (s_peerings s) id) ∧
         keeps (frozen PeeringsDB None) (Parent_List (s_peerings s) id)).
Proof.
  intros Hs. destruct (services_started s Hs) as (_ & (m1 & -> & H1) & (m2 & -> & H2) & (m3 & -> & H3)).
  assert (∀ x w c, frozen PoolsDB c (set_pools x w) = frozen PoolsDB c w) as F1 by done.
  assert (∀ x w c, frozen NetworksDB c (set_networks x w) = frozen NetworksDB c w) as F2 by done.
  assert (∀ x w c, frozen PeeringsDB c (set_peerings x w) = frozen PeeringsDB c w) as F3 by done.
  split_and!.
  - intros it. exact (parent_create_confined _ _ _ _ F1 _ _ H1 it).
  - intros it. exact (parent_create_confined _ _ _ _ F2 _ _ H2 it).
  - intros it. exact (parent_create_confined _ _ _ _ F3 _ _ H3 it).
  - intros DL id objs w Hv. exact (parent_delete_confined _ _ _ _ F1 _ _ H1 DL id objs w Hv).
  - intros DL id objs w Hv. exact (parent_delete_confined _ _ _ _ F2 _ _ H2 DL id objs w Hv).
  - intros DL id objs w Hv. exact (parent_delete_confined _ _ _ _ F3 _ _ H3 DL id objs w Hv).
  - intros id. split_and!; by (apply parent_get_confined || apply parent_list_confined).
Qed.

(** Without credentials for Azure the process panics when it starts its services,
    whatever clouds its requests are for. *)
Theorem services_need_azure e :
  NewDefaultAzureCredential = Err e → ∃ p, start_services = Panic p.
Proof. intros H. eexists. unfold start_services, NewAgentPoolsServer, AzurePool_New. by rewrite H. Qed.

(** The instances of a pool whose type has no instances back end, as those of
    Nebius, can be neither listed nor read nor restarted: each request is refused as
    an invalid argument; for a pool that is not stored it is not found. *)
Theorem instances_unserved (DL : DBLaws agentpoolsDB) s id objs w :
  start_services = Ok s → view (w_pools w) objs →
  (∀ obj, find_id (parent_id id) objs = Some obj →
     TypeURL obj ≠ TypeURL aws_pool0 ∧ TypeURL obj ≠ TypeURL azure_pool0) →
  let e := ErrStatus (if find_id (parent_id id) objs then InvalidArgument else NotFound) "" in
  ∃ w', Child_List (s_instances s) (parent_id id) w = (Err e, w') ∧
        Child_Get (s_instances s) id w = (Err e, w') ∧
        Instances_Restart pools_db (s_restarts s) id w = (Err e, w') ∧
        frozen PoolsDB None w' = frozen PoolsDB None w ∧ view (w_pools w') objs.
Proof.
  intros Hs Hv Hne e. destruct (db_get_law (w_pools w) objs (parent_id id) Hv) as (d & Hg & Hv').
  exists (set_pools d w). destruct (services_started s Hs) as (Hcred & _).
  revert Hs. unfold start_services, NewAgentPoolsServer, NewInstancesServer, NewNetworksServer,
    NewPeeringsServer, AzurePool_New, AzureInstances_New. rewrite Hcred. intros [= <-].
  split_and!; [| | |done|done]; unfold Child_List, Child_Get, Instances_Restart, restarts;
    cbn [s_instances s_restarts child_DB child_Servers on_database db_Get NewVirtualChild];
    rewrite (M_bind_Ok _ _ _ _ _ (zoom_run _ _ _ _ _ _ Hg)); subst e;
    destruct (find_id (parent_id id) objs) as [obj|]; try done;
    destruct (Hne obj eq_refl) as [H1 H2];
    by rewrite !lookup_insert_ne, ?lookup_empty by congruence.
Qed.
End plugin.

(** ** The hypotheses can hold *)

(** Three clouds in memory, with a message type for every kind of object. *)
Module Mem.
#[global] Instance aws_network_spec_eq_dec : EqDecision awsvpc.NetworkSpec.
Proof. solve_decision. Defined.
#[global] Instance aws_network_spec_countable : Countable awsvpc.NetworkSpec.
Proof.
  refine (inj_countable' (λ x, (awsvpc.Region x, awsvpc.Vnet x))
    (λ '(a, b), awsvpc.Build_NetworkSpec a b) _). by intros [].
Defined.
#[global] Instance aws_network_status_eq_dec : EqDecision awsvpc.NetworkStatus.
Proof. solve_decision. Defined.
#[global] Instance aws_network_status_countable : Countable awsvpc.NetworkStatus.
Proof.
  refine (inj_countable' (λ x, (awsvpc.Vpc x, awsvpc.Subnet x, awsvpc.RouteTable x, awsvpc.SecurityGroup x))
    (λ '(a, b, c, d), awsvpc.Build_NetworkStatus a b c d) _). by intros [].
Defined.
#[global] Instance aws_network_eq_dec : EqDecision awsvpc.Network.
Proof. solve_decision. Defined.
#[global] Instance aws_network_countable : Countable awsvpc.Network.
Proof.
  refine (inj_countable' (λ x, (awsvpc.Metadata x, awsvpc.Spec x, awsvpc.Status x))
    (λ '(a, b, c), awsvpc.Build_Network a b c) _). by intros [].
Defined.

Definition pools : Type := ubuntu2404instance.AgentPool + (ubuntu2404vmss.AgentPool + nebius.AgentPool).
Definition others : Type := (ubuntu2404instance.Instance + ubuntu2404vmss.Instance) +
  (awsvpc.Network + (vpc.Network + ipsecvpn.Peering)).
Definition msg : Type := pools + others.
#[global] Instance msg_eq_dec : EqDecision msg.
Proof. unfold msg, pools, others. apply _. Defined.
#[global] Instance msg_countable : Countable msg.
Proof. unfold msg, pools, others. apply _. Defined.

Definition name (m : msg) : string :=
  match m with
  | inl (inl _) => "ubuntu2404instance.AgentPool" | inl (inr (inl _)) => "ubuntu2404vmss.AgentPool"
  | inl (inr (inr _)) => "nebius.AgentPool"
  | inr (inl (inl _)) => "ubuntu2404instance.Instance" | inr (inl (inr _)) => "ubuntu2404vmss.Instance"
  | inr (inr (inl _)) => "awsvpc.Network" | inr (inr (inr (inl _))) => "nebiusvpc.Network"
  | inr (inr (inr (inr _))) => "ipsecvpn.Peering"
  end.
#[global] Instance runtime : ProtoRuntime msg := {|
  FullName := name;
  any_New m := Ok {| TypeUrl := Helper.Mem.url_prefix +:+ name m; Value := Helper.Mem.bytes_of m |};
  UnmarshalNew a := UnmarshalNew (ProtoRuntime := Helper.Mem.countable_runtime msg "") a;
  Marshal_items := Marshal_items (ProtoRuntime := Helper.Mem.countable_runtime msg "");
  Unmarshal_items := Unmarshal_items (ProtoRuntime := Helper.Mem.countable_runtime msg "");
|}.
#[global] Instance runtime_laws : ProtoLaws msg.
Proof.
  split.
  - by intros m a [= <-].
  - intros m a [= <-]. simpl. by rewrite decode_encode.
  - exact (@items_round _ _ (Helper.Mem.countable_laws msg "")).
  - done.
Qed.
#[global] Instance object : Object msg := {|
  is_Object _ := true; Redact m := Ok m;
  ObjectId m := match m with
                | inl (inr (inr p)) => api.GetId (nebius.GetMetadata (Some p)) | _ => "" end;
|}.

Definition db : DB File.file msg := StupidDB File.store.
#[global] Instance db_laws : DBLaws db := StupidDB_laws File.store.
Lemma fits (objs : list msg) : db_fits File.store objs.
Proof.
  exists ((λ m, {| TypeUrl := Helper.Mem.url_prefix +:+ name m; Value := Helper.Mem.bytes_of m |}) <$> objs).
  eexists. split_and!; [|reflexivity|done].
  induction objs as [|m objs IH]; constructor; [reflexivity|exact IH].
Qed.
Lemma no_objects_view : db_holds (Msg := msg) File.store empty_file [].
Proof. split; [constructor|]. exists []. split; [by repeat split|]. exists []. split; [done|constructor]. Qed.

Definition nebius_cloud : Type := NebiusInstance.Mem.W * NebiusNetwork.Mem.W.
Definition compute : NebiusInstance.SDK nebius_cloud :=
  on_compute fst (λ x w, (x, w.2)) NebiusInstance.Mem.sdk.
Definition vpc_ : NebiusNetwork.SDK nebius_cloud := on_vpc snd (λ x w, (w.1, x)) NebiusNetwork.Mem.sdk.

Definition nebius_msg (p : nebius.AgentPool) : msg := inl (inr (inr p)).
Definition services (cred : res ()) := start_services
  (λ p, inl (inl p) : msg) (λ m, match m with inl (inl p) => Some p | _ => None end)
  (λ p, inl (inr (inl p))) (λ m, match m with inl (inr (inl p)) => Some p | _ => None end)
  nebius_msg (λ m, match m with inl (inr (inr p)) => Some p | _ => None end)
  (λ i, inr (inl (inl i))) (λ i, inr (inl (inr i)))
  (λ n, inr (inr (inl n))) (λ m, match m with inr (inr (inl n)) => Some n | _ => None end)
  (λ n, inr (inr (inr (inl n)))) (λ m, match m with inr (inr (inr (inl n))) => Some n | _ => None end)
  (λ p, inr (inr (inr (inr p)))) (λ m, match m with inr (inr (inr (inr p))) => Some p | _ => None end)
  AMem.aws AMem.as_APIError ZMem.vmss ZMem.Parse MemService.code_of compute vpc_ AMem.os (λ _, "/root")
  db db db "{}" "{}" "{}" "#!wg" AMem.range (λ _, Ok "kubeconfig") (λ _, Ok "join")
  (λ _, Ok "{}") (λ _, Ok "[]") (λ _ _, Ok "#!") (λ _, Ok "yaml") (λ s, Ok s) cred.
Lemma services_start : ∃ s, services (Ok ()) = Ok s.
Proof. by eexists. Qed.

Definition pool : nebius.AgentPool := NebiusInstance.Mem.pool.
Lemma stored_pool : ∃ d, db_holds (Msg := msg) File.store d [nebius_msg pool].
Proof.
  destruct (db_upsert_law (DBLaws := db_laws) empty_file [] (nebius_msg pool) no_objects_view eq_refl (fits _))
    as (d & _ & Hv). exists d. exact Hv.
Qed.
End Mem.

Lemma services_isolated_witness :
  ∃ s, Mem.services (Ok ()) = Ok s ∧
    ∀ it w, TypeUrl it = "type.googleapis.com/ubuntu2404vmss.AgentPool" →
      w_nebius (Parent_CreateOrUpdate (s_agentpools s) (Some it) w).2 = w_nebius w.
Proof.
  destruct Mem.services_start as [s Hs]. exists s. split; [exact Hs|]. intros it w Hurl.
  destruct (services_isolated _ _ _ _ _ _ _ _ _ _ _ _ _ _ _ _ _ _ _ _ _ _ _ _ _ _ _ _ _ _ _ _ _ _ _ _ _ _ _
    s Hs) as (H & _). specialize (H it w). rewrite Hurl in H. by injection H.
Defined.

Lemma services_need_azure_witness : ∃ p, Mem.services (Err (ErrExt "no credential")) = Panic p.
Proof.
  exact (services_need_azure _ _ _ _ _ _ _ _ _ _ _ _ _ _ _ _ _ _ _ _ _ _ _ _ _ _ _ _ _ _ _ _ _ _ _ _ _ _ _
    _ eq_refl).
Defined.

Lemma instances_unserved_witness :
  ∃ s w w', Mem.services (Ok ()) = Ok s ∧
    Child_Get (s_instances s) "pool1/0" w = (Err (ErrStatus InvalidArgument ""), w').
Proof.
  destruct Mem.services_start as [s Hs]. destruct Mem.stored_pool as [d Hd].
  destruct (instances_unserved _ _ _ _ _ _ _ _ _ _ _ _ _ _ _ _ _ _ _ _ _ _ _ _ _ _ _ _ _ _ _ _ _ _ _ _ _ _ _
    Mem.db_laws s "pool1/0" [Mem.nebius_msg Mem.pool]
    (Build_World ∅ ∅ ((∅, ∅), (∅, ∅, ∅)) ∅ d empty_file empty_file) Hs Hd) as (w' & _ & H & _).
  - intros obj [= <-]. by split.
  - by exists s, (Build_World ∅ ∅ ((∅, ∅), (∅, ∅, ∅)) ∅ d empty_file empty_file), w'.
Defined.
